(* ===== verification/_CoqProject ===== *)
-Q . S2P
Prelude.v
Machine.v
Ring.v
Runtime.v
BootImage.v
StorageRules.v
Transport.v
TransportSafety.v
Bootstrap.v
Deadline.v
AtaDisk.v
Storage.v
StorageSafety.v
Companions.v
Intel915.v
CursorFacts.v
GraphicsSafety.v
Intel915Init.v
GraphicsSystem.v
Azalia.v
AzaliaSafety.v
Vga.v
VgaFont.v
Panic.v
PanicSafety.v
Keyboard.v
Ps2.v
KeyboardQueue.v
UsbHost.v
UsbSafety.v
UsbSchedule.v
UsbMouse.v
UsbMouseFacts.v
Mouse.v
MouseEvents.v
MouseHost.v
Pointer.v
Desktop.v
KernelMain.v
