(* ===== verification/Prelude.v ===== *)
(** * Custom-made-OS-for-x86: a verified model of its freestanding C code

    The repository is a small operating system for one family of laptops: an assembly
    kernel ([Arch/x86/VirtualKernel.asm] and its neighbours) with a freestanding C part
    under [Development/]. The C part is what this library models: the boot loader and
    storage service, the keyboard, USB mouse, graphics and audio drivers, the text
    display, the panic and exception paths, the start of the kernel and the desktop
    process. Paths below are relative to [src/Development/].

    ** How the code is modelled

    - A C function that talks to hardware is a program of [Machine]: a tree of bus accesses
      (ports, memory at its linear address, processor registers, the atomic exchange, the
      flag instructions, and calls of the assembly kernel's API table), each continued with
      the answer. Nothing is assumed of an answer but its width, so a theorem over
      [any_hw] speaks of every device, every disk and every return value of the assembly
      code. Programs run on concrete hardware by [exec] and [replay].
    - The static variables of a translation unit are a record, passed through by the
      small state monad [code]; records shared between rings ([struct intel915_shared],
      [struct mouse_shared]) are records too, while the keyboard queue, which an
      interrupt may change between any two accesses, is memory on the bus.
    - A w-bit integer is a [Z] in range; [+%], [-%], [*%], [<<%] wrap at 32 bits where C
      does. [KPANIC], [KASSERT] and the bootstrap's [fail] are the outcome [Panicked].
    - A loop the source bounds by a count has that count. A loop bounded only by the
      time-stamp counter takes fuel and is [Diverged] without it; [Deadline] shows that
      under a clock that advances, fuel above the deadline is enough, so the results
      about such loops are about loops that end. [desktop_loop] is the endless loop, watched
      for any number of rounds.

    ** The files

    - [Prelude], [Machine], [Ring]: integers, record update and automation; programs,
      their semantics and proof rules; ring buffers.
    - [Runtime]: [Runtime/Memory.c], [Runtime/String.c].
    - [BootImage], [Transport], [TransportSafety], [Bootstrap], [Deadline], [AtaDisk]:
      [Boot/BootStorage.c]. The loader never writes a disk, returns only after the
      checksums of both payloads were right, terminates, and [ata_read] returns the sectors
      asked for against every ATA disk.
    - [StorageRules], [Storage], [StorageSafety], [Companions]: [Drivers/Storage/Storage.c].
      The system call of an unauthorised task only reads; an authorised one writes only what
      the caller's page tables grant; a dead channel stays dead; ports are handed to the
      companion controllers without disturbing the disk's.
    - [Keyboard], [Ps2], [KeyboardQueue]: [Drivers/Keyboard/]. The decoder refines a scanner
      with a set of pressed keys; the service is first-in first-out under interrupts between
      any two accesses.
    - [UsbHost], [UsbSafety], [UsbSchedule], [UsbMouse], [UsbMouseFacts]:
      [Drivers/Usb/UsbHost.c], [Drivers/Usb/UsbMouse.c]. Writes stay in each
      controller's DMA block, storms of interrupts are masked, descriptors are parsed
      safely, hot-plug is debounced.
    - [Mouse], [MouseEvents], [MouseHost]: [Drivers/Usb/MouseDriver.c]. The event queue
      refines an abstract mailbox. [MouseHost.mouse_callback_client] discharges the interface
      [safe_client] the USB host's theorems are proved against.
    - [Intel915], [CursorFacts], [GraphicsSafety], [Intel915Init], [GraphicsSystem]:
      [Drivers/Intel915/Intel915.c]. Initialisation establishes [layout_ok], the promise
      the ring-1 driver's safety is proved against; ring 1 serves only the owner and
      takes the display only after the GPU was seen to work; an invariant holds along
      every history.
    - [Azalia], [AzaliaSafety]: [Drivers/Audio/Azalia.c].
    - [Vga], [VgaFont]: [Drivers/Vga/VgaTextMode.c]. The startup font survives.
    - [Panic], [PanicSafety]: [Kernel/Panic.c], [Arch/x86/Exceptions.c],
      [Arch/x86/LapicInterrupts.c]. A panic reaches its end from anywhere, writing only
      the display.
    - [Pointer]: mouse reports, cursor queue and graphics together refine an abstract
      pointer, and their records stay in their types.
    - [Desktop]: [Desktop/Desktop.c], alone and against the drivers it calls.
    - [KernelMain]: [Kernel/KernelMain.c], the composition of all of them.

    ** Not modelled

    The assembly files: their services are accesses with any answer, their gates are the
    point where a driver's service function starts. Linker scripts, build scripts and
    binaries; addresses the linker chooses are parameters. Preemption inside one ring-1 or
    ring-2 mouse or graphics call by a report (each call is one step on its record; the
    lock makes any other call leave), the timing of the hardware beyond the clock, and what
    a GPU or codec does with the commands it is given. A report is taken to be stable while
    the callback copies it. A panic keeps its message, not the file and line the macro
    adds, except in [Panic] itself. *)
From stdpp Require Import base list gmap strings numbers.
From Stdlib Require Import ZArith Lia Bool.
#[global] Open Scope Z_scope.
#[global] Set Default Goal Selector "!".

#[global] Arguments Z.eqb : simpl never.
#[global] Arguments Z.ltb : simpl never.
#[global] Arguments Z.leb : simpl never.
#[global] Arguments Z.gtb : simpl never.
#[global] Arguments Z.geb : simpl never.
#[global] Arguments Z.land : simpl never.
#[global] Arguments Z.lor : simpl never.
#[global] Arguments Z.lxor : simpl never.
#[global] Arguments Z.lnot : simpl never.
#[global] Arguments Z.shiftl : simpl never.
#[global] Arguments Z.shiftr : simpl never.
#[global] Arguments Z.testbit : simpl never.
#[global] Arguments Z.modulo : simpl never.
#[global] Arguments Z.div : simpl never.
#[global] Arguments Z.pow : simpl never.
#[global] Arguments Z.to_nat : simpl never.
#[global] Arguments Z.of_nat : simpl never.

(** ** Machine integers

    A w-bit C value is a [Z] in [0, 2^w). Operators that can leave the range
    wrap explicitly; the bitwise operators of the C source that cannot leave it
    are the [Z] ones. *)
Definition wrap (w z : Z) : Z := z mod 2 ^ w.
Definition u8 (z : Z) : Z := wrap 8 z.
Definition u16 (z : Z) : Z := wrap 16 z.
Definition u32 (z : Z) : Z := wrap 32 z.
(** Two's complement reading of a w-bit value: the C casts to [int8_t], [int32_t]. *)
Definition sext (w z : Z) : Z :=
  if wrap w z <? 2 ^ (w - 1) then wrap w z else wrap w z - 2 ^ w.
Definition s8 (z : Z) : Z := sext 8 z.
Definition s32 (z : Z) : Z := sext 32 z.

Definition add32 (a b : Z) : Z := u32 (a + b).
Definition sub32 (a b : Z) : Z := u32 (a - b).
Definition mul32 (a b : Z) : Z := u32 (a * b).
Definition shl32 (a n : Z) : Z := u32 (Z.shiftl a n).
Definition not32 (a : Z) : Z := u32 (Z.lnot a).

Declare Scope c_scope.
Delimit Scope c_scope with c.
Infix "+%" := add32 (at level 50, left associativity) : c_scope.
Infix "-%" := sub32 (at level 50, left associativity) : c_scope.
Infix "*%" := mul32 (at level 40, left associativity) : c_scope.
Infix "<<%" := shl32 (at level 45, left associativity) : c_scope.
Infix ">>>" := Z.shiftr (at level 45, left associativity) : c_scope.
Infix ".&" := Z.land (at level 46, left associativity) : c_scope.
Infix ".^" := Z.lxor (at level 47, left associativity) : c_scope.
Infix ".|" := Z.lor (at level 48, left associativity) : c_scope.
#[global] Open Scope c_scope.

(** C truth of an integer, and a C condition stored in an integer. *)
Definition truthy (z : Z) : bool := negb (z =? 0).
Definition b2z (b : bool) : Z := if b then 1 else 0.

Definition in_u (w z : Z) : Prop := 0 <= z < 2 ^ w.
Abbreviation is_u8 := (in_u 8).
Abbreviation is_u16 := (in_u 16).
Abbreviation is_u32 := (in_u 32).

(** ** Record update

    [r <| f := v |>] is the C assignment [r.f = v]. A record type declares its
    expansion over its projections once ([Eta]); the setters are derived. *)
Class Eta (R : Type) := eta_expand : R -> R.
Class Setter {R F : Type} (proj : R -> F) := assign : F -> R -> R.
Arguments assign {R F} proj {_} _ _.

Ltac derive_setter :=
  lazymatch goal with
  | |- @Setter ?R ?F ?proj =>
      let i := constr:(@eta_expand R _) in
      let e := eval hnf in i in
      lazymatch eval pattern proj in e with
      | ?body _ =>
          let s := eval cbv beta in (fun v : F => body (fun _ => v)) in
          exact s
      end
  end.
#[global] Hint Extern 1 (@Setter _ _ _) => derive_setter : typeclass_instances.

Notation "r <| f := v |>" := (assign f v r)
  (at level 1, v at level 99, left associativity, format "r <| f  :=  v |>").

(** ** Ranges of machine integers *)
Lemma wrap_range w z : 0 <= w -> in_u w (wrap w z).
Proof. intros. unfold in_u, wrap. apply Z.mod_pos_bound. lia. Qed.

Lemma wrap_small w z : in_u w z -> wrap w z = z.
Proof. intros. apply Z.mod_small. assumption. Qed.

Lemma u8_range z : is_u8 (u8 z). Proof. apply wrap_range. lia. Qed.
Lemma u16_range z : is_u16 (u16 z). Proof. apply wrap_range. lia. Qed.
Lemma u32_range z : is_u32 (u32 z). Proof. apply wrap_range. lia. Qed.
Lemma add32_range a b : is_u32 (a +% b). Proof. apply u32_range. Qed.
Lemma sub32_range a b : is_u32 (a -% b). Proof. apply u32_range. Qed.
Lemma mul32_range a b : is_u32 (a *% b). Proof. apply u32_range. Qed.
Lemma shl32_range a n : is_u32 (a <<% n). Proof. apply u32_range. Qed.
Lemma not32_range a : is_u32 (not32 a). Proof. apply u32_range. Qed.

(** No wrap-around when the mathematical result fits. *)
Lemma add32_small a b : 0 <= a + b < 2 ^ 32 -> a +% b = a + b.
Proof. intros. apply wrap_small. assumption. Qed.
Lemma sub32_small a b : 0 <= a - b < 2 ^ 32 -> a -% b = a - b.
Proof. intros. apply wrap_small. assumption. Qed.
Lemma mul32_small a b : 0 <= a * b < 2 ^ 32 -> a *% b = a * b.
Proof. intros. apply wrap_small. assumption. Qed.
Lemma shl32_small a n : 0 <= n -> 0 <= a * 2 ^ n < 2 ^ 32 -> a <<% n = a * 2 ^ n.
Proof. intros. unfold shl32. rewrite Z.shiftl_mul_pow2 by lia. now apply wrap_small. Qed.

Create HintDb crange discriminated.
#[export] Hint Resolve wrap_range u8_range u16_range u32_range add32_range sub32_range
  mul32_range shl32_range not32_range : crange.

Create Rewrite HintDb csmall.
#[export] Hint Rewrite add32_small sub32_small mul32_small using (unfold in_u in *; lia) : csmall.

(** Unfold the range predicates, evaluate the powers of two and call [lia]. *)
Ltac ulia :=
  unfold in_u in *;
  repeat match goal with
  | H : context [2 ^ 8] |- _ => change (2 ^ 8) with 256 in H
  | H : context [2 ^ 16] |- _ => change (2 ^ 16) with 65536 in H
  | H : context [2 ^ 32] |- _ => change (2 ^ 32) with 4294967296 in H
  end;
  change (2 ^ 8) with 256; change (2 ^ 16) with 65536; change (2 ^ 32) with 4294967296;
  lia.

Lemma u8_is_u32 z : is_u8 z -> is_u32 z.
Proof. unfold in_u. lia. Qed.
Lemma u16_is_u32 z : is_u16 z -> is_u32 z.
Proof. unfold in_u. lia. Qed.

(** ** Bitwise reasoning *)
Lemma testbit_high w z i : in_u w z -> 0 <= w <= i -> Z.testbit z i = false.
Proof.
  intros [H0 H1] Hi. rewrite <- (Z.mod_small z (2 ^ w)) by lia.
  apply Z.mod_pow2_bits_high. lia.
Qed.

Lemma in_u_of_bits w z : 0 <= w -> 0 <= z ->
  (forall i, w <= i -> Z.testbit z i = false) -> in_u w z.
Proof.
  intros Hw Hz Hb. replace z with (wrap w z); [now apply wrap_range|].
  unfold wrap. rewrite <- Z.land_ones by lia. apply Z.bits_inj'. intros i Hi.
  rewrite Z.land_spec, Z.testbit_ones_nonneg by lia.
  destruct (Z.ltb_spec i w); [apply andb_true_r|]. rewrite Hb by lia. reflexivity.
Qed.

Lemma land_in_u w a b : 0 <= w -> in_u w a -> 0 <= b -> in_u w (a .& b).
Proof.
  intros Hw Ha Hb. apply in_u_of_bits; [lia|apply Z.land_nonneg; right; lia|].
  intros i Hi. rewrite Z.land_spec, (testbit_high w a) by (auto; lia). reflexivity.
Qed.

Lemma lor_in_u w a b : 0 <= w -> in_u w a -> in_u w b -> in_u w (a .| b).
Proof.
  intros Hw Ha Hb. apply in_u_of_bits; [lia|apply Z.lor_nonneg; unfold in_u in *; lia|].
  intros i Hi. rewrite Z.lor_spec, (testbit_high w a), (testbit_high w b) by (auto; lia).
  reflexivity.
Qed.

Lemma lxor_in_u w a b : 0 <= w -> in_u w a -> in_u w b -> in_u w (a .^ b).
Proof.
  intros Hw Ha Hb. apply in_u_of_bits; [lia|apply Z.lxor_nonneg; unfold in_u in *; lia|].
  intros i Hi. rewrite Z.lxor_spec, (testbit_high w a), (testbit_high w b) by (auto; lia).
  reflexivity.
Qed.

Lemma shiftr_in_u w a n : 0 <= n -> in_u w a -> in_u w (a >>> n).
Proof.
  intros Hn [H0 H1]. split; [apply Z.shiftr_nonneg; lia|].
  rewrite Z.shiftr_div_pow2 by lia.
  eapply Z.le_lt_trans; [|exact H1]. apply Z.div_le_upper_bound; [lia|].
  pose proof (Z.pow_pos_nonneg 2 n). nia.
Qed.

(** A mask bounds the value. *)
Lemma land_le a b : 0 <= b -> 0 <= a .& b <= b.
Proof.
  intros Hb. split; [apply Z.land_nonneg; auto|].
  assert (b = (a .& b) + Z.ldiff b a) as E.
  { rewrite Z.add_nocarry_lxor.
    - apply Z.bits_inj'. intros i Hi. rewrite Z.lxor_spec, Z.land_spec, Z.ldiff_spec.
      now destruct (Z.testbit a i), (Z.testbit b i).
    - apply Z.bits_inj'. intros i Hi. rewrite Z.land_spec, Z.land_spec, Z.ldiff_spec, Z.testbit_0_l.
      now destruct (Z.testbit a i), (Z.testbit b i). }
  assert (0 <= Z.ldiff b a) by (apply Z.ldiff_nonneg; auto). lia.
Qed.

(** A mask of ones is a remainder. *)
Lemma land_ones_mod a n : 0 <= n -> a .& (2 ^ n - 1) = a mod 2 ^ n.
Proof. intros. rewrite <- Z.land_ones by lia. f_equal. rewrite Z.ones_equiv. lia. Qed.

Lemma truthy_false z : truthy z = false <-> z = 0.
Proof. unfold truthy. rewrite negb_false_iff. apply Z.eqb_eq. Qed.
Lemma truthy_true z : truthy z = true <-> z <> 0.
Proof. unfold truthy. rewrite negb_true_iff. apply Z.eqb_neq. Qed.

(** The step of a fold as an equation: no conversion has to look into [f]. *)
Lemma fold_left_cons {A B} (f : A -> B -> A) b l s :
  fold_left f (b :: l) s = fold_left f l (f s b).
Proof. reflexivity. Qed.

(** Turn the boolean tests of the code into propositions. *)
Ltac bool_to_prop :=
  repeat match goal with
  | H : _ && _ = true |- _ => apply andb_true_iff in H; destruct H
  | H : _ || _ = false |- _ => apply orb_false_iff in H; destruct H
  | H : negb _ = true |- _ => apply negb_true_iff in H
  | H : negb _ = false |- _ => apply negb_false_iff in H
  | H : truthy _ = true |- _ => apply truthy_true in H
  | H : truthy _ = false |- _ => apply truthy_false in H
  | H : (_ =? _) = true |- _ => apply Z.eqb_eq in H
  | H : (_ =? _) = false |- _ => apply Z.eqb_neq in H
  | H : (_ <? _) = true |- _ => apply Z.ltb_lt in H
  | H : (_ <? _) = false |- _ => apply Z.ltb_ge in H
  | H : (_ <=? _) = true |- _ => apply Z.leb_le in H
  | H : (_ <=? _) = false |- _ => apply Z.leb_gt in H
  | H : (_ >? _) = true |- _ => rewrite Z.gtb_ltb in H
  | H : (_ >? _) = false |- _ => rewrite Z.gtb_ltb in H
  | H : (_ >=? _) = true |- _ => rewrite Z.geb_leb in H
  | H : (_ >=? _) = false |- _ => rewrite Z.geb_leb in H
  end.

(** Case analysis on the innermost test of the goal. *)
Ltac case_if :=
  match goal with
  | |- context [if ?b then _ else _] =>
      lazymatch b with
      | context [if _ then _ else _] => fail
      | _ => let E := fresh "E" in destruct b eqn:E
      end
  end.
Ltac case_if_in H :=
  match type of H with
  | context [if ?b then _ else _] =>
      lazymatch b with
      | context [if _ then _ else _] => fail
      | _ => let E := fresh "E" in destruct b eqn:E
      end
  end.

(** Fields that do not overlap: an [or] of a shifted value and a smaller one is a sum. *)
Lemma lor_add n hi lo : 0 <= n -> in_u n lo -> (hi * 2 ^ n) .| lo = hi * 2 ^ n + lo.
Proof.
  intros Hn Hl. rewrite <- Z.add_lor_land. replace ((hi * 2 ^ n) .& lo) with 0; [lia|]. symmetry.
  apply Z.bits_inj'. intros i Hi. rewrite Z.land_spec, Z.testbit_0_l.
  destruct (Z.lt_ge_cases i n).
  - rewrite Z.mul_pow2_bits_low by lia. reflexivity.
  - rewrite (testbit_high n lo) by (auto; lia). apply andb_false_r.
Qed.

(** Clearing the low [n] bits of a 32-bit value with the mask [~(2^n - 1)]. *)
Lemma land_not_mask n a : 0 <= n <= 32 -> is_u32 a -> a .& not32 (2 ^ n - 1) = a - a mod 2 ^ n.
Proof.
  intros Hn Ha. unfold not32, u32, wrap.
  assert (0 < 2 ^ n) by (apply Z.pow_pos_nonneg; lia).
  rewrite <- Z.land_ones by lia.
  transitivity (Z.ldiff a (Z.ones n)).
  - apply Z.bits_inj'. intros i Hi. rewrite Z.ldiff_spec, !Z.land_spec, Z.lnot_spec by lia.
    replace (2 ^ n - 1) with (Z.ones n) by (rewrite Z.ones_equiv; lia).
    rewrite (Z.testbit_ones_nonneg 32) by lia. destruct (Z.ltb_spec i 32).
    + now rewrite andb_true_r.
    + rewrite (testbit_high 32 a) by (auto; lia). reflexivity.
  - rewrite Z.ldiff_ones_r, Z.shiftl_mul_pow2, Z.shiftr_div_pow2 by lia.
    pose proof (Z.div_mod a (2 ^ n)). lia.
Qed.

(** Decide a test of the code whose arguments are all known. *)
Ltac closed_if :=
  match goal with
  | |- context [if ?b then _ else _] =>
      let v := eval vm_compute in b in
      lazymatch v with true => idtac | false => idtac end;
      change b with v; cbn iota
  end.

(** Facts about bytes by enumeration. *)
Lemma u8_forall (P : Z -> bool) b :
  forallb (fun n => P (Z.of_nat n)) (seq 0 256) = true -> is_u8 b -> P b = true.
Proof.
  intros H Hb. rewrite forallb_forall in H. rewrite <- (Z2Nat.id b) by ulia.
  apply H, in_seq. ulia.
Qed.
