(* ===== verification/Machine.v ===== *)
(** * The machine the C code runs on

    A C function that talks to hardware is a [prog]: a tree of bus accesses in
    program order, each continued by the value the hardware answers. Nothing is
    assumed of the hardware here; an [hardware] says which accesses are allowed
    in a state and which answers are possible, and [wp] is the weakest
    precondition of a program over every behaviour the hardware allows. [exec]
    runs a program against one concrete hardware, and [exec_wp] says that what
    was proved with [wp] holds of every such run.

    A panic ([KPANIC], [fail]) does not return: it is the outcome [Panicked]. A
    loop the code bounds only by the clock carries a fuel argument and is
    [Diverged] when it runs out. The [pause] hints and compiler barriers have no
    access of their own. *)
From stdpp Require Import list gmap strings.
From S2P Require Import Prelude.

(** ** Programs *)
Inductive prog (E A : Type) : Type :=
| Ret (a : A)
| Vis (e : E) (k : Z -> prog E A)
| Halt (msg : string)
| OutOfFuel.
Arguments Ret {E A} a.
Arguments Vis {E A} e k.
Arguments Halt {E A} msg.
Arguments OutOfFuel {E A}.

Inductive outcome (A : Type) : Type :=
| Done (a : A)
| Panicked (msg : string)
| Diverged
| Faulted.
Arguments Done {A} a.
Arguments Panicked {A} msg.
Arguments Diverged {A}.
Arguments Faulted {A}.

Fixpoint bind {E A B} (p : prog E A) (f : A -> prog E B) : prog E B :=
  match p with
  | Ret a => f a
  | Vis e k => Vis e (fun v => bind (k v) f)
  | Halt m => Halt m
  | OutOfFuel => OutOfFuel
  end.

(** One access, its answer the result. *)
Definition access {E} (e : E) : prog E Z := Vis e Ret.

Declare Scope prog_scope.
Delimit Scope prog_scope with prog.
Notation "'let!' x := p 'in' q" := (bind p (fun x => q))
  (at level 10, x name, p at level 100, q at level 200,
   format "'[v' 'let!'  x  :=  p  'in' '/' q ']'") : prog_scope.
Notation "'let!' ' x := p 'in' q" := (bind p (fun x => q))
  (at level 10, x strict pattern, p at level 100, q at level 200,
   format "'[v' 'let!'  ' x  :=  p  'in' '/' q ']'") : prog_scope.
Notation "p ;; q" := (bind p (fun _ => q))
  (at level 100, q at level 200, right associativity,
   format "'[v' p ;; '/' q ']'") : prog_scope.
#[global] Open Scope prog_scope.

(** ** Loops

    [for_range n i body]: the C loop [for (; i < i + n; ++i) body(i)] with no
    early exit. [for_break] is the loop whose body may leave with a value
    ([return] or [break]); [None] is normal exhaustion. *)
Fixpoint for_range {E} (n : nat) (i : Z) (body : Z -> prog E unit) : prog E unit :=
  match n with
  | O => Ret tt
  | S n' => body i ;; for_range n' (i + 1) body
  end.

Fixpoint for_break {E R} (n : nat) (i : Z) (body : Z -> prog E (option R)) : prog E (option R) :=
  match n with
  | O => Ret None
  | S n' =>
      let! r := body i in
      match r with
      | Some x => Ret (Some x)
      | None => for_break n' (i + 1) body
      end
  end.

(** A loop that threads a local state and may leave early. *)
Fixpoint for_state {E S R} (n : nat) (i : Z) (s : S)
    (body : Z -> S -> prog E (S * option R)) : prog E (S * option R) :=
  match n with
  | O => Ret (s, None)
  | S n' =>
      let! '(s', r) := body i s in
      match r with
      | Some x => Ret (s', Some x)
      | None => for_state n' (i + 1) s' body
      end
  end.

(** ** Hardware *)
Record hardware (E S : Type) := {
  allowed : S -> E -> Prop;
  answers : S -> E -> Z -> S -> Prop
}.
Arguments allowed {E S}.
Arguments answers {E S}.

Fixpoint wp {E S A} (hw : hardware E S) (p : prog E A) (Q : outcome A -> S -> Prop) (s : S)
    : Prop :=
  match p with
  | Ret a => Q (Done a) s
  | Vis e k => allowed hw s e /\ forall v s', answers hw s e v s' -> wp hw (k v) Q s'
  | Halt m => Q (Panicked m) s
  | OutOfFuel => Q Diverged s
  end.

(** One concrete hardware: [None] is a bus fault. *)
Fixpoint exec {E S A} (h : S -> E -> option (Z * S)) (p : prog E A) (s : S) : outcome A * S :=
  match p with
  | Ret a => (Done a, s)
  | Vis e k =>
      match h s e with
      | Some (v, s') => exec h (k v) s'
      | None => (Faulted, s)
      end
  | Halt m => (Panicked m, s)
  | OutOfFuel => (Diverged, s)
  end.

(** The outcome of [bind p f]: a postcondition on the normal result of [p], with
    the other outcomes passed through. *)
Definition on_done {A B S} (K : A -> S -> Prop) (Q : outcome B -> S -> Prop)
    (o : outcome A) (s : S) : Prop :=
  match o with
  | Done a => K a s
  | Panicked m => Q (Panicked m) s
  | Diverged => Q Diverged s
  | Faulted => Q Faulted s
  end.

Section WP.
Context {E S : Type} (hw : hardware E S).

Lemma wp_mono {A} (p : prog E A) (Q1 Q2 : outcome A -> S -> Prop) s :
  (forall o s', Q1 o s' -> Q2 o s') -> wp hw p Q1 s -> wp hw p Q2 s.
Proof.
  intros HQ. revert s. induction p as [a|e k IH|m|]; cbn; intros s H; eauto.
  destruct H as [Ha H]. split; [assumption|]. eauto.
Qed.

Lemma wp_bind {A B} (p : prog E A) (f : A -> prog E B) (Q : outcome B -> S -> Prop) s :
  wp hw (bind p f) Q s <-> wp hw p (on_done (fun a => wp hw (f a) Q) Q) s.
Proof.
  revert s. induction p as [a|e k IH|m|]; cbn; intros s; try reflexivity.
  split; (intros [Ha H]; split; [assumption|]; intros; apply IH; eauto).
Qed.

(** Sequencing with an intermediate assertion. *)
Lemma wp_seq {A B} (p : prog E A) (f : A -> prog E B) (K : A -> S -> Prop)
    (Q : outcome B -> S -> Prop) s :
  wp hw p (on_done K Q) s -> (forall a s', K a s' -> wp hw (f a) Q s') ->
  wp hw (bind p f) Q s.
Proof.
  intros Hp Hf. apply wp_bind. eapply wp_mono; [|exact Hp].
  intros [a|m| |] s'; cbn; auto.
Qed.

Lemma wp_conj {A} (p : prog E A) (Q1 Q2 : outcome A -> S -> Prop) s :
  wp hw p Q1 s -> wp hw p Q2 s -> wp hw p (fun o s' => Q1 o s' /\ Q2 o s') s.
Proof.
  revert s. induction p as [a|e k IH|m|]; cbn; intros s H1 H2; auto.
  destruct H1 as [Ha H1], H2 as [_ H2]. split; [assumption|]. eauto.
Qed.

(** Loop rules: an invariant indexed by the loop counter. *)
Lemma wp_for_range (I : Z -> S -> Prop) (Q : outcome unit -> S -> Prop) body n i s :
  (forall j s', i <= j < i + Z.of_nat n -> I j s' ->
     wp hw (body j) (on_done (fun _ => I (j + 1)) Q) s') ->
  (forall s', I (i + Z.of_nat n) s' -> Q (Done tt) s') ->
  I i s -> wp hw (for_range n i body) Q s.
Proof.
  revert i s. induction n as [|n IH]; intros i s Hb Hq Hi; cbn [for_range].
  - apply Hq. replace (i + Z.of_nat 0) with i by lia. assumption.
  - eapply wp_seq; [apply Hb; [lia|assumption]|]. cbn. intros _ s' Hi'.
    apply IH; [|intros s'' H; apply Hq|assumption].
    + intros j s'' Hj Hs. apply Hb; [lia|assumption].
    + replace (i + Z.of_nat (Datatypes.S n)) with (i + 1 + Z.of_nat n) by lia. assumption.
Qed.

Lemma wp_for_break {R} (I : Z -> S -> Prop) (Q : outcome (option R) -> S -> Prop) body n i s :
  (forall j s', i <= j < i + Z.of_nat n -> I j s' ->
     wp hw (body j)
       (on_done (fun r s'' => match r with
                              | Some x => Q (Done (Some x)) s''
                              | None => I (j + 1) s''
                              end) Q) s') ->
  (forall s', I (i + Z.of_nat n) s' -> Q (Done None) s') ->
  I i s -> wp hw (for_break n i body) Q s.
Proof.
  revert i s. induction n as [|n IH]; intros i s Hb Hq Hi; cbn [for_break].
  - apply Hq. replace (i + Z.of_nat 0) with i by lia. assumption.
  - eapply wp_seq; [apply Hb; [lia|assumption]|]. cbn. intros [x|] s' Hi'; [exact Hi'|].
    apply IH; [|intros s'' H; apply Hq|assumption].
    + intros j s'' Hj Hs. apply Hb; [lia|assumption].
    + replace (i + Z.of_nat (Datatypes.S n)) with (i + 1 + Z.of_nat n) by lia. assumption.
Qed.

Lemma wp_for_state {T R} (I : Z -> T -> S -> Prop) (Q : outcome (T * option R) -> S -> Prop)
    body n i t s :
  (forall j t' s', i <= j < i + Z.of_nat n -> I j t' s' ->
     wp hw (body j t')
       (on_done (fun r s'' => match r with
                              | (t'', Some x) => Q (Done (t'', Some x)) s''
                              | (t'', None) => I (j + 1) t'' s''
                              end) Q) s') ->
  (forall t' s', I (i + Z.of_nat n) t' s' -> Q (Done (t', None)) s') ->
  I i t s -> wp hw (for_state n i t body) Q s.
Proof.
  revert i t s. induction n as [|n IH]; intros i t s Hb Hq Hi; cbn [for_state].
  - apply Hq. replace (i + Z.of_nat 0) with i by lia. assumption.
  - eapply wp_seq; [apply Hb; [lia|eassumption]|]. cbn. intros [t' [x|]] s' Hi'; [exact Hi'|].
    apply IH; [|intros t'' s'' H; apply Hq|assumption].
    + intros j t'' s'' Hj Hs. apply Hb; [lia|assumption].
    + replace (i + Z.of_nat (Datatypes.S n)) with (i + 1 + Z.of_nat n) by lia. assumption.
Qed.

(** Every run on a concrete hardware that refines [hw] satisfies the
    postcondition, and never faults. *)
Lemma exec_wp {A} (h : S -> E -> option (Z * S)) (p : prog E A) (Q : outcome A -> S -> Prop) s :
  (forall s e, allowed hw s e -> exists v s', h s e = Some (v, s') /\ answers hw s e v s') ->
  wp hw p Q s -> Q (fst (exec h p s)) (snd (exec h p s)).
Proof.
  intros Hh. revert s. induction p as [a|e k IH|m|]; cbn; intros s H; auto.
  destruct H as [Ha H]. destruct (Hh s e Ha) as (v & s' & -> & Hans). eauto.
Qed.
End WP.

(** ** Runs on concrete hardware *)
Section EXEC.
Context {E S : Type} (h : S -> E -> option (Z * S)).

Definition then_ {A B} (r : outcome A * S) (f : A -> S -> outcome B * S) : outcome B * S :=
  match r with
  | (Done a, s) => f a s
  | (Panicked m, s) => (Panicked m, s)
  | (Diverged, s) => (Diverged, s)
  | (Faulted, s) => (Faulted, s)
  end.

Lemma exec_bind {A B} (p : prog E A) (f : A -> prog E B) s :
  exec h (bind p f) s = then_ (exec h p s) (fun a s' => exec h (f a) s').
Proof.
  revert s. induction p as [a|e k IH|m|]; cbn; intros s; try reflexivity.
  destruct (h s e) as [[v s']|]; [apply IH|reflexivity].
Qed.

Lemma exec_for_range (st : Z -> S) body n i :
  (forall j, i <= j < i + Z.of_nat n -> exec h (body j) (st j) = (Done tt, st (j + 1))) ->
  exec h (for_range n i body) (st i) = (Done tt, st (i + Z.of_nat n)).
Proof.
  revert i. induction n as [|n IH]; intros i Hb; cbn [for_range].
  - rewrite Z.add_0_r. reflexivity.
  - rewrite exec_bind, Hb by lia. cbn [then_]. rewrite IH by (intros; apply Hb; lia).
    do 2 f_equal. lia.
Qed.
End EXEC.

(** [for (index = n; index != 0; --index) body(index)] *)
Fixpoint for_down {E} (n : nat) (body : Z -> prog E unit) : prog E unit :=
  match n with
  | O => Ret tt
  | S n' => body (Z.of_nat n) ;; for_down n' body
  end.

Lemma exec_for_down {E S} (h : S -> E -> option (Z * S)) (st : nat -> S) body n :
  (forall j, (j < n)%nat -> exec h (body (Z.of_nat (j + 1))) (st (j + 1)%nat) = (Done tt, st j)) ->
  exec h (for_down n body) (st n) = (Done tt, st O).
Proof.
  induction n as [|n IH]; intros Hb; cbn [for_down]; [reflexivity|].
  rewrite exec_bind. pose proof (Hb n ltac:(lia)) as H.
  rewrite Nat.add_1_r in H. rewrite H. cbn [then_]. apply IH. intros; apply Hb; lia.
Qed.

(** ** Reading a buffer

    A parser is a program whose only access is the index it reads; it runs on a
    byte list, where reading outside the list faults, or on the bus once its
    reads are translated to loads ([hoist]). *)
Fixpoint hoist {E F A} (f : E -> F) (p : prog E A) : prog F A :=
  match p with
  | Ret a => Ret a
  | Vis e k => Vis (f e) (fun v => hoist f (k v))
  | Halt m => Halt m
  | OutOfFuel => OutOfFuel
  end.

Definition rd (i : Z) : prog Z Z := access i.

Definition list_reader (data : list Z) (i : Z) : option (Z * list Z) :=
  if i <? 0 then None else v ← data !! Z.to_nat i; Some (v, data).

(** The hardware a parser of [data] may rely on: the answers are the bytes. *)
Definition list_hw : hardware Z (list Z) := {|
  allowed := fun data i => 0 <= i < Z.of_nat (length data);
  answers := fun data i v data' => data !! Z.to_nat i = Some v /\ data' = data
|}.

Lemma list_reader_ok data i :
  allowed list_hw data i ->
  exists v data', list_reader data i = Some (v, data') /\ answers list_hw data i v data'.
Proof.
  cbn. intros Hi. destruct (lookup_lt_is_Some_2 data (Z.to_nat i)) as [v Hv]; [lia|].
  exists v, data. unfold list_reader. destruct (Z.ltb_spec i 0); [lia|]. now rewrite Hv.
Qed.

(** ** The x86 bus *)
Inductive width := W8 | W16 | W32.
Definition wbits (w : width) : Z := match w with W8 => 8 | W16 => 16 | W32 => 32 end.

Inductive cpu_reg := CR2 | CR3 | CS | TR | LDTR | EFLAGS.

Inductive bus :=
| In (w : width) (port : Z)
| Out (w : width) (port v : Z)
| Load (w : width) (addr : Z)
| Store (w : width) (addr v : Z)
| Rdtsc
| Barrier                              (* lock; addl $0, (%esp) *)
| SaveFlagsCli                         (* pushfl; popl; cli *)
| RestoreFlags (flags : Z)             (* pushl; popfl *)
| Sti
| Cli
| ReadReg (r : cpu_reg)
| Xchg (addr v : Z)                    (* atomic exchange of a dword *)
| Api (f : string) (args : list Z).    (* call through the assembly API table *)

(** The size of an answer; a write has none. *)
Definition reply_ok (e : bus) (v : Z) : Prop :=
  match e with
  | In w _ | Load w _ => in_u (wbits w) v
  | Rdtsc | SaveFlagsCli | ReadReg _ | Xchg _ _ | Api _ _ => is_u32 v
  | Out _ _ _ | Store _ _ _ | Barrier | RestoreFlags _ | Sti | Cli => v = 0
  end.

Definition trace := list (bus * Z).

(** Membership in a trace that grew. *)
Ltac in_trace :=
  repeat first [assumption | apply list_elem_of_here | apply list_elem_of_further
               | apply elem_of_app; right].

(** Hardware with no assumption on its answers but their size, whose state is the
    trace so far, the latest access first. [ok] says which access is allowed
    after which trace. *)
Definition any_hw (ok : trace -> bus -> Prop) : hardware bus trace := {|
  allowed := ok;
  answers := fun t e v t' => reply_ok e v /\ t' = (e, v) :: t
|}.

Definition in8 (port : Z) : prog bus Z := access (In W8 port).
Definition in16 (port : Z) : prog bus Z := access (In W16 port).
Definition in32 (port : Z) : prog bus Z := access (In W32 port).
Definition out8 (port v : Z) : prog bus unit := access (Out W8 port v) ;; Ret tt.
Definition out16 (port v : Z) : prog bus unit := access (Out W16 port v) ;; Ret tt.
Definition out32 (port v : Z) : prog bus unit := access (Out W32 port v) ;; Ret tt.
Definition load8 (a : Z) : prog bus Z := access (Load W8 a).
Definition load16 (a : Z) : prog bus Z := access (Load W16 a).
Definition load32 (a : Z) : prog bus Z := access (Load W32 a).
Definition store8 (a v : Z) : prog bus unit := access (Store W8 a v) ;; Ret tt.
Definition store16 (a v : Z) : prog bus unit := access (Store W16 a v) ;; Ret tt.
Definition store32 (a v : Z) : prog bus unit := access (Store W32 a v) ;; Ret tt.
Definition rdtsc : prog bus Z := access Rdtsc.
Definition barrier : prog bus unit := access Barrier ;; Ret tt.
Definition api (f : string) (args : list Z) : prog bus Z := access (Api f args).
Definition kpanic {A} (msg : string) : prog bus A := Halt msg.

(** ** Byte memory

    Ordinary RAM: an address that is not mapped faults. Only the byte accesses
    are needed by the C runtime, which is what runs on it. *)
Definition byte_ram (m : gmap Z Z) (e : bus) : option (Z * gmap Z Z) :=
  match e with
  | Load W8 a => v ← m !! a; Some (v, m)
  | Store W8 a v => _ ← m !! a; Some (0, <[a := v]> m)
  | _ => None
  end.

(** ** C code with static variables

    A function of a translation unit is a [code G A]: it reads and updates the
    unit's static variables [G] and talks to the bus. *)
Definition code (G A : Type) : Type := G -> prog bus (A * G).

Section CODE.
Context {G : Type}.
Definition cret {A} (a : A) : code G A := fun g => Ret (a, g).
Definition cbind {A B} (m : code G A) (k : A -> code G B) : code G B :=
  fun g => bind (m g) (fun r => k (fst r) (snd r)).
Definition lift {A} (p : prog bus A) : code G A := fun g => bind p (fun a => Ret (a, g)).
Definition gets {A} (f : G -> A) : code G A := fun g => Ret (f g, g).
Definition modify (f : G -> G) : code G unit := fun g => Ret (tt, f g).
Definition cpanic {A} (msg : string) : code G A := fun _ => Halt msg.
Definition cdiverge {A} : code G A := fun _ => OutOfFuel.

(** [for (i = i0; i < i0 + n; ++i)]; the body leaves the loop with [Some]. *)
Fixpoint cloop {R} (n : nat) (i : Z) (body : Z -> code G (option R)) : code G (option R) :=
  match n with
  | O => cret None
  | S n' =>
      cbind (body i) (fun r =>
        match r with
        | Some x => cret (Some x)
        | None => cloop n' (i + 1) body
        end)
  end.
End CODE.
Abbreviation io := lift.
Notation "'let*' x := m 'in' k" := (cbind m (fun x => k))
  (at level 10, x name, m at level 100, k at level 200,
   format "'[v' 'let*'  x  :=  m  'in' '/' k ']'") : prog_scope.
Notation "'let*' ' x := m 'in' k" := (cbind m (fun x => k))
  (at level 10, x strict pattern, m at level 100, k at level 200,
   format "'[v' 'let*'  ' x  :=  m  'in' '/' k ']'") : prog_scope.
Notation "m ;* k" := (cbind m (fun _ => k))
  (at level 100, k at level 200, right associativity, format "'[v' m ;* '/' k ']'") : prog_scope.

(** Short-circuit [&&] and [||] of tests that read hardware. *)
Definition cand {G} (a b : code G bool) : code G bool :=
  cbind a (fun x => if x then b else cret false).
Definition cor {G} (a b : code G bool) : code G bool :=
  cbind a (fun x => if x then cret true else b).
Notation "a 'andalso' b" := (cand a b) (at level 64, right associativity) : prog_scope.
Notation "a 'orelse' b" := (cor a b) (at level 66, right associativity) : prog_scope.

(** A [for] loop with no early exit. *)
Definition cfor {G} (n : nat) (i : Z) (body : Z -> code G unit) : code G unit :=
  cloop (R := Empty_set) n i (fun j => body j ;* cret None) ;* cret tt.

(** ** Code on a given hardware

    The steps of a [wp] proof about code with statics. *)
Section WP_CODE.
Context {S G : Type} (hw : hardware bus S).
Implicit Types g : G.

Lemma wp_cbind {A B} (m : code G A) (k : A -> code G B) g Q s :
  wp hw (m g) (on_done (fun r => wp hw (k (fst r) (snd r)) Q) Q) s -> wp hw (cbind m k g) Q s.
Proof. intros H. now apply wp_bind. Qed.

Lemma wp_io {A B} (p : prog bus A) (k : A -> code G B) g Q s :
  wp hw p (on_done (fun a => wp hw (k a g) Q) Q) s -> wp hw (cbind (lift p) k g) Q s.
Proof.
  intros H. apply wp_cbind. unfold lift. apply wp_bind. eapply wp_mono; [|exact H].
  intros [a|m| |] s'; cbn; auto.
Qed.

Lemma wp_io_last {A} (p : prog bus A) g Q s :
  wp hw p (on_done (fun a => Q (Done (a, g))) Q) s -> wp hw (lift p g) Q s.
Proof.
  intros H. unfold lift. apply wp_bind. eapply wp_mono; [|exact H].
  intros [a|m| |] s'; cbn; auto.
Qed.

Lemma wp_read {B} e (k : Z -> code G B) g Q s :
  allowed hw s e -> (forall v s', answers hw s e v s' -> wp hw (k v g) Q s') ->
  wp hw (cbind (lift (access e)) k g) Q s.
Proof. intros He Hk. cbn. auto. Qed.

Lemma wp_write {B} e (k : unit -> code G B) g Q s :
  allowed hw s e -> (forall v s', answers hw s e v s' -> wp hw (k tt g) Q s') ->
  wp hw (cbind (lift (access e ;; Ret tt)) k g) Q s.
Proof. intros He Hk. cbn. auto. Qed.

Lemma wp_gets {A B} (f : G -> A) (k : A -> code G B) g Q s :
  wp hw (k (f g) g) Q s -> wp hw (cbind (gets f) k g) Q s.
Proof. auto. Qed.

Lemma wp_modify {B} (f : G -> G) (k : unit -> code G B) g Q s :
  wp hw (k tt (f g)) Q s -> wp hw (cbind (modify f) k g) Q s.
Proof. auto. Qed.

Lemma wp_cloop {R} (I : Z -> S -> Prop) (body : Z -> code G (option R)) n i g Q s :
  (forall j s', i <= j < i + Z.of_nat n -> I j s' ->
     wp hw (body j g)
       (on_done (fun r s'' => match r with
                              | (Some x, g') => Q (Done (Some x, g')) s''
                              | (None, g') => g' = g /\ I (j + 1) s''
                              end) Q) s') ->
  (forall s', I (i + Z.of_nat n) s' -> Q (Done (None, g)) s') ->
  I i s -> wp hw (cloop n i body g) Q s.
Proof.
  revert i s. induction n as [|n IH]; intros i s Hb Hq Hi; cbn [cloop].
  - cbn. apply Hq. now rewrite Z.add_0_r.
  - apply wp_cbind. eapply wp_mono; [|apply Hb; [lia|exact Hi]].
    intros [[[x|] g']|m| |] s'; cbn; auto. intros [-> H]. apply IH.
    + intros j s'' Hj HI. apply Hb; [lia|assumption].
    + intros s'' HI. apply Hq. now replace (i + Z.of_nat (Datatypes.S n)) with (i + 1 + Z.of_nat n) by lia.
    + exact H.
Qed.
End WP_CODE.

(** ** Specifications over every hardware

    [triple ok P m Q]: started in statics and after a trace that satisfy [P],
    whatever the hardware answers, every access of [m] satisfies [ok] of the trace
    so far, and if [m] returns then its result, the statics and the trace satisfy
    [Q]. A panic and exhausted fuel satisfy every [Q]; a fault satisfies none. *)
Definition post {G A} (Q : A -> G -> trace -> Prop) (o : outcome (A * G)) (t : trace) : Prop :=
  match o with
  | Done (a, g) => Q a g t
  | Faulted => False
  | Panicked _ | Diverged => True
  end.

Definition triple {G A} (ok : trace -> bus -> Prop) (P : G -> trace -> Prop) (m : code G A)
    (Q : A -> G -> trace -> Prop) : Prop :=
  forall g t, P g t -> wp (any_hw ok) (m g) (post Q) t.

Section TRIPLES.
Context {G : Type} (ok : trace -> bus -> Prop).
Implicit Types P I : G -> trace -> Prop.

Lemma triple_conseq {A} P P' (m : code G A) (Q Q' : A -> G -> trace -> Prop) :
  triple ok P' m Q' -> (forall g t, P g t -> P' g t) -> (forall a g t, Q' a g t -> Q a g t) ->
  triple ok P m Q.
Proof.
  intros H HP HQ g t Hg. eapply wp_mono; [|apply H, HP, Hg].
  intros [[a g']|m'| |] t'; cbn; auto.
Qed.

Lemma triple_pre {A} P P' (m : code G A) (Q : A -> G -> trace -> Prop) :
  triple ok P' m Q -> (forall g t, P g t -> P' g t) -> triple ok P m Q.
Proof. intros. eapply triple_conseq; eauto. Qed.

Lemma triple_post {A} P (m : code G A) (Q Q' : A -> G -> trace -> Prop) :
  triple ok P m Q' -> (forall a g t, Q' a g t -> Q a g t) -> triple ok P m Q.
Proof. intros. eapply triple_conseq; eauto. Qed.

Lemma triple_ret {A} P (a : A) (Q : A -> G -> trace -> Prop) :
  (forall g t, P g t -> Q a g t) -> triple ok P (cret a) Q.
Proof. intros H g t Hg. cbn. auto. Qed.

Lemma triple_bind {A B} P (m : code G A) (k : A -> code G B) R (Q : B -> G -> trace -> Prop) :
  triple ok P m R -> (forall a, triple ok (R a) (k a) Q) -> triple ok P (cbind m k) Q.
Proof.
  intros Hm Hk g t Hg. unfold cbind. eapply wp_bind, wp_mono; [|apply Hm, Hg].
  intros [[a g']|m'| |] t'; cbn; auto. apply Hk.
Qed.

Lemma triple_assoc {A B C} P (m : code G A) (k : A -> code G B) (h : B -> code G C) Q :
  triple ok P (cbind (cbind m k) h) Q -> triple ok P (cbind m (fun x => cbind (k x) h)) Q.
Proof.
  intros H g t Hg. specialize (H g t Hg). unfold cbind in *.
  rewrite !wp_bind in H. rewrite wp_bind. eapply wp_mono; [|exact H].
  intros [[a g']|m'| |] t'; cbn; auto. intros Hw. now apply wp_bind.
Qed.

(** Reading statics: the value is known in what follows. *)
Lemma triple_gets_bind {A B} P (f : G -> A) (k : A -> code G B) (Q : B -> G -> trace -> Prop) :
  (forall a, triple ok (fun g t => P g t /\ f g = a) (k a) Q) -> triple ok P (cbind (gets f) k) Q.
Proof. intros H g t Hg. cbn. now apply H. Qed.

Lemma triple_modify P (f : G -> G) (Q : unit -> G -> trace -> Prop) :
  (forall g t, P g t -> Q tt (f g) t) -> triple ok P (modify f) Q.
Proof. intros H g t Hg. cbn. auto. Qed.

Lemma triple_panic {A} P msg (Q : A -> G -> trace -> Prop) : triple ok P (cpanic msg) Q.
Proof. intros g t Hg. exact I. Qed.

Lemma triple_diverge {A} P (Q : A -> G -> trace -> Prop) : triple ok P cdiverge Q.
Proof. intros g t Hg. exact I. Qed.

Lemma triple_if {A} P (b : bool) (m1 m2 : code G A) (Q : A -> G -> trace -> Prop) :
  (b = true -> triple ok P m1 Q) -> (b = false -> triple ok P m2 Q) ->
  triple ok P (if b then m1 else m2) Q.
Proof. destruct b; auto. Qed.

(** A fact that does not depend on the statics moves out of the precondition. *)
Lemma triple_pure {A} P (F : Prop) (m : code G A) (Q : A -> G -> trace -> Prop) :
  (F -> triple ok P m Q) -> triple ok (fun g t => P g t /\ F) m Q.
Proof. intros H g t [Hg HF]. now apply H. Qed.

Lemma triple_access P e (Q : Z -> G -> trace -> Prop) :
  (forall g t, P g t -> ok t e) ->
  (forall v g t, reply_ok e v -> P g t -> Q v g ((e, v) :: t)) -> triple ok P (lift (access e)) Q.
Proof. intros He HQ g t Hg. cbn. split; [eauto|]. intros v t' [Hv ->]. auto. Qed.

(** A write: the access and no result. *)
Lemma triple_write P e (Q : unit -> G -> trace -> Prop) :
  (forall g t, P g t -> ok t e) ->
  (forall v g t, reply_ok e v -> P g t -> Q tt g ((e, v) :: t)) ->
  triple ok P (lift (access e ;; Ret tt)) Q.
Proof. intros He HQ g t Hg. cbn. split; [eauto|]. intros v t' [Hv ->]. auto. Qed.

Lemma triple_loop {R} (I : Z -> G -> trace -> Prop) body n i (Q : option R -> G -> trace -> Prop) :
  (forall j, i <= j < i + Z.of_nat n ->
     triple ok (I j) (body j)
       (fun r g t => match r with Some x => Q (Some x) g t | None => I (j + 1) g t end)) ->
  (forall g t, I (i + Z.of_nat n) g t -> Q None g t) ->
  triple ok (I i) (cloop n i body) Q.
Proof.
  revert i. induction n as [|n IH]; intros i Hb HQ; cbn [cloop].
  - apply triple_ret. intros g t Hg. apply HQ. now rewrite Z.add_0_r.
  - eapply triple_bind; [apply Hb; lia|]. intros [x|]; cbn; [apply triple_ret; auto|].
    apply IH; [intros j Hj; apply Hb; lia|]. intros g t Hg. apply HQ.
    now replace (i + Z.of_nat (S n)) with (i + 1 + Z.of_nat n) by lia.
Qed.

Lemma triple_for (I : Z -> G -> trace -> Prop) body n i :
  (forall j, i <= j < i + Z.of_nat n -> triple ok (I j) (body j) (fun _ => I (j + 1))) ->
  triple ok (I i) (cfor n i body) (fun _ => I (i + Z.of_nat n)).
Proof.
  intros H. eapply triple_bind.
  - apply (triple_loop I _ _ _ (fun _ => I (i + Z.of_nat n))); [|auto]. intros j Hj.
    eapply triple_bind; [apply H, Hj|]. intros. apply triple_ret. auto.
  - intros. apply triple_ret. auto.
Qed.

(** The trace only grows, by accesses that were allowed when they happened. *)
Definition was_ok (x : bus * Z) : Prop := exists t, ok t (fst x).

Lemma wp_trace {A} (p : prog bus A) Q t :
  wp (any_hw ok) p Q t ->
  wp (any_hw ok) p (fun o t' => Q o t' /\ exists d, t' = d ++ t /\ Forall was_ok d) t.
Proof.
  revert t. induction p as [a|e k IH|m|]; cbn; intros t H;
    try (split; [exact H|exists []; split; [reflexivity|constructor]]).
  destruct H as [He H]. split; [exact He|]. intros v t' Hv. eapply wp_mono; [|apply IH, H, Hv].
  intros o t'' (HQ & d & -> & Hd). split; [exact HQ|]. destruct Hv as [_ ->].
  exists (d ++ [(e, v)]). rewrite <- app_assoc. split; [reflexivity|].
  apply Forall_app_2; [exact Hd|]. constructor; [now exists t|constructor].
Qed.

(** A fact about the trace that later accesses do not undo is kept by any code. *)

Lemma triple_frame {A} P (F : trace -> Prop) (m : code G A) (Q : A -> G -> trace -> Prop) :
  (forall d t, F t -> F (d ++ t)) -> triple ok P m Q ->
  triple ok (fun g t => P g t /\ F t) m (fun a g t => Q a g t /\ F t).
Proof.
  intros HF Hm g t [Hg Ht]. eapply wp_mono; [|apply wp_trace, Hm, Hg].
  intros [[a g']|m'| |] t' (HQ & d & -> & _); cbn in *; auto.
Qed.

(** *** Invariants

    The common case: [m] preserves [I] and only performs [ok] accesses. *)
Definition keeps I {A} (m : code G A) : Prop := triple ok I m (fun _ => I).

Lemma keeps_ret I {A} (a : A) : keeps I (cret a).
Proof. apply triple_ret. auto. Qed.
Lemma keeps_bind I {A B} (m : code G A) (k : A -> code G B) :
  keeps I m -> (forall a, keeps I (k a)) -> keeps I (cbind m k).
Proof. intros. eapply triple_bind; eauto. Qed.
Lemma keeps_gets I {A} (f : G -> A) : keeps I (gets f).
Proof. intros g t Hg. exact Hg. Qed.
(** Reading statics gives a value they may hold under the invariant. *)
Lemma keeps_gets_bind I {A B} (f : G -> A) (k : A -> code G B) :
  (forall g t, I g t -> keeps I (k (f g))) -> keeps I (cbind (gets f) k).
Proof. intros H g t Hg. cbn. exact (H g t Hg g t Hg). Qed.
Lemma keeps_modify I (f : G -> G) : (forall g t, I g t -> I (f g) t) -> keeps I (modify f).
Proof. intros. apply triple_modify. auto. Qed.
Lemma keeps_panic I {A} msg : keeps I (cpanic (A := A) msg).
Proof. apply triple_panic. Qed.
Lemma keeps_diverge I {A} : keeps I (cdiverge (A := A)).
Proof. apply triple_diverge. Qed.
Lemma keeps_if I {A} (b : bool) (m1 m2 : code G A) :
  (b = true -> keeps I m1) -> (b = false -> keeps I m2) -> keeps I (if b then m1 else m2).
Proof. destruct b; auto. Qed.

(** An access the invariant allows and survives. *)
Definition safe_access I (e : bus) : Prop :=
  forall g t, I g t -> ok t e /\ forall v, reply_ok e v -> I g ((e, v) :: t).

Lemma keeps_access_bind I {B} e (k : Z -> code G B) :
  safe_access I e -> (forall v, reply_ok e v -> keeps I (k v)) ->
  keeps I (cbind (lift (access e)) k).
Proof.
  intros He Hk g t Hg. destruct (He g t Hg) as [Hok HI]. cbn. split; [assumption|].
  intros v t' [Hv ->]. apply (Hk v Hv). auto.
Qed.
Lemma keeps_access I e : safe_access I e -> keeps I (lift (access e)).
Proof. intros He. apply triple_access; intros; edestruct He; eauto. Qed.
Lemma keeps_write I e : safe_access I e -> keeps I (lift (access e ;; Ret tt)).
Proof. intros He. apply triple_write; intros; edestruct He; eauto. Qed.
Lemma keeps_loop I {R} body n i :
  (forall j, i <= j < i + Z.of_nat n -> keeps I (body j)) ->
  keeps I (cloop (R := R) n i body).
Proof.
  intros H. apply (triple_loop (fun _ => I)); [|auto]. intros j Hj.
  eapply triple_post; [apply H, Hj|]. intros [x|] g t Hg; assumption.
Qed.
Lemma keeps_for I body n i :
  (forall j, i <= j < i + Z.of_nat n -> keeps I (body j)) -> keeps I (cfor n i body).
Proof. intros H. exact (triple_for (fun _ => I) body n i H). Qed.
(** A program that does not touch the statics: an [exec]-level loop. *)
Lemma keeps_lift I {A} (p : prog bus A) :
  (forall g t, I g t -> wp (any_hw ok) p
     (fun o t' => match o with Done _ => I g t' | Faulted => False | _ => True end) t) ->
  keeps I (lift p).
Proof.
  intros Hp g t Hg. unfold lift. eapply wp_bind, wp_mono; [|apply Hp, Hg].
  intros [a|m'| |] t'; cbn; auto.
Qed.
End TRIPLES.

(** A larger policy allows no less. *)
Lemma wp_weaken {A} (ok1 ok2 : trace -> bus -> Prop) (p : prog bus A) Q t :
  (forall t e, ok1 t e -> ok2 t e) -> wp (any_hw ok1) p Q t -> wp (any_hw ok2) p Q t.
Proof.
  intros H. revert t. induction p as [a|e k IH|m|]; cbn; intros t Hp; auto.
  destruct Hp as [He Hp]. split; [auto|]. intros v t' Hv. eauto.
Qed.

Lemma triple_weaken {G A} (ok1 ok2 : trace -> bus -> Prop) P (m : code G A) Q :
  (forall t e, ok1 t e -> ok2 t e) -> triple ok1 P m Q -> triple ok2 P m Q.
Proof. intros H Hm g t Hg. eapply wp_weaken; [exact H|]. now apply Hm. Qed.

(** The same when a fact of the trace, which stays true, makes the policy larger. *)
Lemma triple_guard {G A} (ok1 ok2 : trace -> bus -> Prop) (F : trace -> Prop) P (m : code G A) Q :
  (forall d t, F t -> F (d ++ t)) -> (forall t e, F t -> ok1 t e -> ok2 t e) ->
  triple ok1 P m Q -> triple ok2 (fun g t => P g t /\ F t) m (fun a g t => Q a g t /\ F t).
Proof.
  intros HF H Hm g t [Hg Ht]. specialize (Hm g t Hg). clear Hg. revert t Hm Ht.
  induction (m g) as [[a g']|e k IH|msg|]; cbn; intros t Hp Ht; auto.
  destruct Hp as [He Hp]. split; [auto|]. intros v t' Hv. apply IH; [now apply Hp|].
  destruct Hv as [_ ->]. apply (HF [_]), Ht.
Qed.

(** ** Programs on the bus alone

    [bus_ok ok p]: every access of [p] is allowed, whatever the hardware answers. *)
Definition bus_ok (ok : trace -> bus -> Prop) {A} (p : prog bus A) : Prop :=
  forall t, wp (any_hw ok) p (fun o _ => match o with Faulted => False | _ => True end) t.

(** Accesses that change nothing the policies speak of: most policies allow them. *)
Definition is_read (e : bus) : Prop :=
  match e with
  | In _ _ | Load _ _ | Rdtsc | Barrier | SaveFlagsCli | ReadReg _ => True
  | _ => False
  end.
Class AllowsReads (ok : trace -> bus -> Prop) := allows_reads : forall t e, is_read e -> ok t e.

Section BUS_OK.
Context (ok : trace -> bus -> Prop).
Abbreviation bok := (bus_ok ok).

Lemma bus_ret {A} (a : A) : bok (Ret a).
Proof. intros t. exact I. Qed.
Lemma bus_fuel {A} : bok (OutOfFuel (A := A)).
Proof. intros t. exact I. Qed.
Lemma bus_halt {A} m : bok (Halt (A := A) m).
Proof. intros t. exact I. Qed.
Lemma bus_bind {A B} (p : prog bus A) (f : A -> prog bus B) :
  bok p -> (forall a, bok (f a)) -> bok (bind p f).
Proof.
  intros Hp Hf t. eapply wp_seq with (K := fun _ _ => True); [|intros a t' _; apply Hf].
  eapply wp_mono; [|apply Hp]. intros [a|m| |] t'; cbn; auto.
Qed.
Lemma bus_access e : (forall t, ok t e) -> bok (access e).
Proof. intros H t. cbn. auto. Qed.
Lemma bus_access_bind {A} e (f : Z -> prog bus A) :
  (forall t, ok t e) -> (forall v, reply_ok e v -> bok (f v)) -> bok (bind (access e) f).
Proof. intros H Hf t. cbn. split; [auto|]. intros v t' [Hv _]. now apply Hf. Qed.
Lemma bus_write e : (forall t, ok t e) -> bok (access e ;; Ret tt).
Proof. intros H t. cbn. auto. Qed.
Lemma bus_for_range body n i :
  (forall j, i <= j < i + Z.of_nat n -> bok (body j)) -> bok (for_range n i body).
Proof.
  intros H t. apply wp_for_range with (I := fun _ _ => True); auto.
  intros j s' Hj _. eapply wp_mono; [|apply H, Hj]. intros [a|m| |] t'; cbn; auto.
Qed.
Lemma bus_for_break {R} (body : Z -> prog bus (option R)) n i :
  (forall j, i <= j < i + Z.of_nat n -> bok (body j)) -> bok (for_break n i body).
Proof.
  intros H t. apply wp_for_break with (I := fun _ _ => True); auto.
  intros j s' Hj _. eapply wp_mono; [|apply H, Hj]. intros [[a|]|m| |] t'; cbn; auto.
Qed.
Lemma bus_for_state {S R} (body : Z -> S -> prog bus (S * option R)) n i s :
  (forall j s', bok (body j s')) -> bok (for_state n i s body).
Proof.
  intros H t. apply wp_for_state with (I := fun _ _ _ => True); auto.
  intros j s' t' Hj _. eapply wp_mono; [|apply H]. intros [[? [a|]]|m| |] t''; cbn; auto.
Qed.
Lemma bus_if {A} (b : bool) (p q : prog bus A) :
  (b = true -> bok p) -> (b = false -> bok q) -> bok (if b then p else q).
Proof. destruct b; auto. Qed.
Lemma bus_hoist {A} `{!AllowsReads ok} (f : Z -> Z) (p : prog Z A) :
  bok (hoist (fun i => Load W8 (f i)) p).
Proof.
  induction p; intros t; cbn; auto. split; [now apply allows_reads|]. intros. apply H.
Qed.

(** A policy that depends on a fact of the trace which, once true, stays true. *)
Lemma wp_guard {A} (F : trace -> Prop) (p : prog bus A) t :
  (forall d t, F t -> F (d ++ t)) -> bus_ok (fun t e => F t -> ok t e) p -> F t ->
  wp (any_hw ok) p (fun o t' => match o with Faulted => False | _ => F t' end) t.
Proof.
  intros HF Hp Ht. specialize (Hp t). revert t Hp Ht.
  induction p as [a|e k IH|m|]; cbn; intros t Hp Ht; auto.
  destruct Hp as [He Hp]. split; [auto|]. intros v t' Hv. apply IH; [now apply Hp|].
  destruct Hv as [_ ->]. apply (HF [_]), Ht.
Qed.

Lemma keeps_guard {G A} (I : G -> trace -> Prop) (F : trace -> Prop) (p : prog bus A) :
  (forall d t, F t -> F (d ++ t)) -> (forall g t t', I g t -> I g t') ->
  bus_ok (fun t e => F t -> ok t e) p -> keeps ok (fun g t => I g t /\ F t) (lift p).
Proof.
  intros HF HI Hp. apply keeps_lift. intros g t [Hg Ht].
  eapply wp_mono; [|apply (wp_guard F); eauto]. intros [a|m| |] t'; eauto.
Qed.

Lemma keeps_bus {G A} (I : G -> trace -> Prop) (p : prog bus A) :
  bok p -> (forall g t t', I g t -> I g t') -> keeps ok I (lift p).
Proof.
  intros H HI. apply keeps_lift. intros g t Hg. eapply wp_mono; [|apply H].
  intros [a|m| |] t' Ho; eauto.
Qed.
End BUS_OK.

(** ** Automation

    One step of a [keeps] or [bus_ok] proof: the structure of the program picks the
    rule. *)
Create HintDb keeps discriminated.
#[global] Hint Constants Opaque : keeps.
Ltac reads := first [apply allows_reads; exact I | intros ?; apply allows_reads; exact I].
Ltac read_head p :=
  lazymatch p with
  | access _ => idtac | in8 _ => idtac | in16 _ => idtac | in32 _ => idtac
  | load8 _ => idtac | load16 _ => idtac | load32 _ => idtac | rdtsc => idtac | api _ _ => idtac
  end.
Ltac write_head p :=
  lazymatch p with
  | bind (access _) (fun _ => Ret tt) => idtac
  | out8 _ _ => idtac | out16 _ _ => idtac | out32 _ _ => idtac
  | store8 _ _ => idtac | store16 _ _ => idtac | store32 _ _ => idtac | barrier => idtac
  end.
Ltac bus_step :=
  lazymatch goal with
  | |- bus_ok _ (Ret _) => apply bus_ret
  | |- bus_ok _ OutOfFuel => apply bus_fuel
  | |- bus_ok _ (Halt _) => apply bus_halt
  | |- bus_ok _ (bind ?p _) =>
      tryif read_head p then (apply bus_access_bind; [try reads|intros ? ?])
      else (apply bus_bind; [|intros ?])
  | |- bus_ok _ (if _ then _ else _) => apply bus_if; intros ?
  | |- bus_ok _ (for_range _ _ _) => apply bus_for_range; intros ? ?
  | |- bus_ok _ (for_break _ _ _) => apply bus_for_break; intros ? ?
  | |- bus_ok _ (for_state _ _ _ _) => apply bus_for_state; intros ? ?
  | |- bus_ok _ (let _ := _ in _) => cbv zeta
  | |- bus_ok _ (match ?x with _ => _ end) => destruct x
  | |- bus_ok _ ?p =>
      tryif read_head p then (apply bus_access; try reads)
      else tryif write_head p then (apply bus_write; try reads)
      else first [assumption | solve [auto with keeps nocore]]
  end.

Ltac to_keeps := match goal with |- triple ?o ?i ?m _ => change (keeps o i m) end.
Ltac keeps_step :=
  lazymatch goal with
  | |- keeps _ _ (cret _) => apply keeps_ret
  | |- keeps _ _ (cpanic _) => apply keeps_panic
  | |- keeps _ _ cdiverge => apply keeps_diverge
  | |- keeps _ _ (gets _) => apply keeps_gets
  | |- keeps _ _ (modify _) => apply keeps_modify
  | |- keeps _ _ (cbind (gets _) _) => apply keeps_gets_bind; intros ? ? ?
  | |- keeps _ _ (cbind (lift ?p) _) =>
      tryif read_head p then (apply keeps_access_bind; [|intros ? ?])
      else (apply keeps_bind; [|intros ?])
  | |- keeps _ _ (cbind _ _) => apply keeps_bind; [|intros ?]
  | |- keeps _ _ (lift ?p) =>
      tryif read_head p then (apply keeps_access)
      else tryif write_head p then (apply keeps_write)
      else fail
  | |- keeps _ _ (cand _ _) => unfold cand; apply keeps_bind; [|intros ?]
  | |- keeps _ _ (cor _ _) => unfold cor; apply keeps_bind; [|intros ?]
  | |- keeps _ _ (if _ then _ else _) => apply keeps_if; intros ?
  | |- keeps _ _ (cloop _ _ _) => apply keeps_loop; intros ? ?
  | |- keeps _ _ (cfor _ _ _) => apply keeps_for; intros ? ?
  | |- keeps _ _ (let _ := _ in _) => cbv zeta
  | |- keeps _ _ (match ?x with _ => _ end) => destruct x
  end.

(** ** Runs

    The behaviours of a program, as a relation: the trace before, the outcome and the
    trace after. Every one of them satisfies what [wp] says. *)
Inductive run {A} : prog bus A -> trace -> outcome A -> trace -> Prop :=
| run_ret a t : run (Ret a) t (Done a) t
| run_vis e k v t o t' : reply_ok e v -> run (k v) ((e, v) :: t) o t' -> run (Vis e k) t o t'
| run_halt m t : run (Halt m) t (Panicked m) t
| run_fuel t : run OutOfFuel t Diverged t.

Lemma wp_run {A} ok (p : prog bus A) Q t o t' : wp (any_hw ok) p Q t -> run p t o t' -> Q o t'.
Proof.
  intros H Hr. induction Hr as [a t|e k v t o t' Hv Hr IH|m t|t]; cbn in H; auto.
  apply IH, H. now split.
Qed.

(** One behaviour, given the answers of the hardware in order. *)
Definition reply_okb (e : bus) (v : Z) : bool :=
  match e with
  | In w _ | Load w _ => (0 <=? v) && (v <? 2 ^ wbits w)
  | Rdtsc | SaveFlagsCli | ReadReg _ | Xchg _ _ | Api _ _ => (0 <=? v) && (v <? 2 ^ 32)
  | _ => v =? 0
  end.

Fixpoint replay {A} (p : prog bus A) (answers : list Z) (t : trace) : option (outcome A * trace) :=
  match p with
  | Ret a => Some (Done a, t)
  | Halt m => Some (Panicked m, t)
  | OutOfFuel => Some (Diverged, t)
  | Vis e k =>
      match answers with
      | v :: answers => if reply_okb e v then replay (k v) answers ((e, v) :: t) else None
      | [] => None
      end
  end.

Lemma reply_okb_ok e v : reply_okb e v = true -> reply_ok e v.
Proof.
  intros H. destruct e; cbn in *; unfold in_u in *;
    first [now apply Z.eqb_eq | apply andb_true_iff in H as [H1 H2]; apply Z.leb_le in H1; apply Z.ltb_lt in H2; now split].
Qed.

Lemma replay_run {A} (p : prog bus A) : forall answers t o t',
  replay p answers t = Some (o, t') -> run p t o t'.
Proof.
  induction p as [a|e k IH|m|]; cbn; intros answers t o t' H; try (injection H as <- <-; constructor).
  destruct answers as [|v answers]; [discriminate|]. destruct (reply_okb e v) eqn:E; [|discriminate].
  apply (run_vis e k v); [now apply reply_okb_ok|]. eauto.
Qed.
