(* ===== verification/Ring.v ===== *)
(** * Ring buffers

    The queues of the keyboard and mouse drivers are rings of [size] slots with a
    [head] the producer advances and a [tail] the consumer advances, one slot always
    empty. [window] is the queue's content, oldest first. *)
From stdpp Require Import list.
From S2P Require Import Prelude.

Section RING.
Context {A : Type} (d : A) (size : Z) (Hsize : 1 < size).
Implicit Types (buf : list A) (head tail : Z).

Definition at_slot buf (i : Z) : A := default d (buf !! Z.to_nat i).
Definition window buf head tail : list A :=
  map (fun i => at_slot buf ((tail + i) mod size)) (seqZ 0 ((head - tail) mod size)).
Definition next (i : Z) : Z := (i + 1) mod size.

(** The indices are in range and the buffer has its size. *)
Definition ring buf head tail : Prop :=
  0 <= head < size /\ 0 <= tail < size /\ Z.of_nat (length buf) = size.

Lemma length_window buf head tail : Z.of_nat (length (window buf head tail)) = (head - tail) mod size.
Proof.
  unfold window. rewrite length_map, length_seqZ. pose proof (Z.mod_pos_bound (head - tail) size). lia.
Qed.

Lemma window_bound buf head tail : Z.of_nat (length (window buf head tail)) < size.
Proof. rewrite length_window. apply Z.mod_pos_bound. lia. Qed.

Lemma next_range i : 0 <= next i < size.
Proof. apply Z.mod_pos_bound. lia. Qed.

Lemma next_case i : 0 <= i < size -> next i = if decide (i = size - 1) then 0 else i + 1.
Proof.
  intros Hi. unfold next. destruct (decide _) as [->|].
  - replace (size - 1 + 1) with size by lia. apply Z.mod_same. lia.
  - apply Z.mod_small. lia.
Qed.

Lemma fill_case head tail : 0 <= head < size -> 0 <= tail < size ->
  (head - tail) mod size = if decide (tail <= head) then head - tail else head - tail + size.
Proof.
  intros Hh Ht. destruct (decide _).
  - apply Z.mod_small. lia.
  - rewrite <- (Z_mod_plus_full _ 1). rewrite Z.mul_1_l. apply Z.mod_small. lia.
Qed.

Lemma slot_case tail i : 0 <= tail < size -> 0 <= i < size ->
  (tail + i) mod size = if decide (tail + i < size) then tail + i else tail + i - size.
Proof.
  intros Ht Hi. destruct (decide _).
  - apply Z.mod_small. lia.
  - rewrite <- (Z_mod_plus_full _ (-1)). replace (tail + i + -1 * size) with (tail + i - size) by lia.
    apply Z.mod_small. lia.
Qed.

(** Appending: the slot at [head] is written, then [head] advances. *)
Lemma window_push buf head tail x : ring buf head tail -> next head <> tail ->
  window (<[Z.to_nat head := x]> buf) (next head) tail = window buf head tail ++ [x].
Proof.
  intros (Hh & Ht & Hl) Hf. unfold window.
  pose proof (fill_case head tail Hh Ht) as E1. pose proof (fill_case _ tail (next_range head) Ht) as E2.
  pose proof (next_case head Hh) as E3.
  assert ((next head - tail) mod size = (head - tail) mod size + 1) as ->.
  { rewrite E1, E2. repeat destruct (decide _); lia. }
  assert (0 <= (head - tail) mod size < size) by (apply Z.mod_pos_bound; lia).
  rewrite seqZ_app, map_app, Z.add_0_l by lia. f_equal.
  - apply map_ext_in. intros i Hi. apply list_elem_of_In, elem_of_seqZ in Hi. unfold at_slot.
    rewrite list_lookup_insert_ne; [reflexivity|]. rewrite slot_case by lia.
    rewrite E1 in Hi. repeat destruct (decide _); lia.
  - change (seqZ ((head - tail) mod size) 1) with [(head - tail) mod size]. cbn [map]. unfold at_slot.
    assert ((tail + (head - tail) mod size) mod size = head) as ->.
    { rewrite slot_case, E1 by lia. repeat destruct (decide _); lia. }
    now rewrite list_lookup_insert_eq by lia.
Qed.

(** Consuming: [tail] advances past the oldest element. *)
Lemma window_pop buf head tail : ring buf head tail -> tail <> head ->
  window buf head tail = at_slot buf tail :: window buf head (next tail).
Proof.
  intros (Hh & Ht & Hl) Hne. unfold window.
  pose proof (fill_case head tail Hh Ht) as E1.
  pose proof (fill_case head _ Hh (next_range tail)) as E2. pose proof (next_case tail Ht) as E3.
  assert ((head - next tail) mod size = Z.pred ((head - tail) mod size) /\ 0 < (head - tail) mod size)
    as [-> Hf] by (rewrite E1, E2, E3; repeat destruct (decide _); lia).
  rewrite seqZ_cons by lia. rewrite map_cons, Z.add_0_r, (Z.mod_small tail) by lia. f_equal.
  rewrite <- (fmap_add_seqZ 1 0 (Z.pred _)). change (fmap ?f ?l) with (map f l). rewrite map_map.
  apply map_ext. intros i. unfold next. rewrite Zplus_mod_idemp_l. do 2 f_equal. lia.
Qed.

Lemma ring_pop buf head tail : ring buf head tail -> ring buf head (next tail).
Proof. intros (Hh & Ht & Hl). split; [exact Hh|]. split; [apply next_range|exact Hl]. Qed.
Lemma ring_push buf head tail x : ring buf head tail -> ring (<[Z.to_nat head := x]> buf) (next head) tail.
Proof.
  intros (Hh & Ht & Hl). split; [apply next_range|]. split; [exact Ht|]. now rewrite length_insert.
Qed.

Lemma window_empty buf i : window buf i i = [].
Proof. unfold window. now rewrite Z.sub_diag. Qed.

Lemma window_nonempty buf head tail : ring buf head tail ->
  window buf head tail <> [] -> tail <> head.
Proof. intros _ H ->. now rewrite window_empty in H. Qed.

(** The slot [k] places after the tail. *)
Definition ahead (k : nat) (tail : Z) : Z := (tail + Z.of_nat k) mod size.

Lemma ahead_0 tail : 0 <= tail < size -> ahead 0 tail = tail.
Proof. intros. unfold ahead. rewrite Z.add_0_r. apply Z.mod_small. lia. Qed.
Lemma ahead_S k tail : ahead (S k) tail = ahead k (next tail).
Proof. unfold ahead, next. rewrite Zplus_mod_idemp_l. f_equal. lia. Qed.
Lemma ahead_range k tail : 0 <= ahead k tail < size.
Proof. apply Z.mod_pos_bound. lia. Qed.
Lemma ahead_window buf head tail : ring buf head tail -> ahead (length (window buf head tail)) tail = head.
Proof.
  intros (Hh & Ht & _). unfold ahead. rewrite length_window, Zplus_mod_idemp_r.
  replace (tail + (head - tail)) with head by lia. apply Z.mod_small. lia.
Qed.

Lemma window_drop buf head tail k : ring buf head tail -> (k <= length (window buf head tail))%nat ->
  window buf head (ahead k tail) = drop k (window buf head tail).
Proof.
  revert tail. induction k as [|k IH]; intros tail Hr Hk; [now rewrite ahead_0 by apply Hr|].
  destruct (decide (tail = head)) as [->|E]; [rewrite window_empty in Hk; cbn in Hk; lia|].
  rewrite (window_pop buf head tail) in Hk |- * by assumption. cbn [drop length] in *. rewrite ahead_S.
  apply IH; [now apply ring_pop|lia].
Qed.

Lemma window_lookup buf head tail k : (k < length (window buf head tail))%nat ->
  window buf head tail !! k = Some (at_slot buf (ahead k tail)).
Proof.
  intros Hk. unfold window. change (map ?f ?l) with (f <$> l). rewrite list_lookup_fmap.
  pose proof (length_window buf head tail). rewrite lookup_seqZ_lt by lia. reflexivity.
Qed.

(** With a mask of ones, as the code computes it. *)
Lemma mask_next k i : 0 <= k <= 31 -> size = 2 ^ k -> 0 <= i < size -> (i +% 1) .& (size - 1) = next i.
Proof.
  intros Hk E Hi. unfold next. rewrite E in *. assert (2 ^ k <= 2 ^ 31) by (apply Z.pow_le_mono_r; lia).
  rewrite add32_small by lia. apply land_ones_mod. lia.
Qed.
End RING.
