(* ===== verification/Runtime.v ===== *)
(** * The freestanding C runtime: [Runtime/Memory.c] and [Runtime/String.c]

    Each routine is the byte loop of the source over the bus of [Machine]. The
    theorems run the loops on byte memory ([byte_ram]) in which every address the
    routine may touch is mapped, so a stray access would show as a fault. *)
From stdpp Require Import list gmap strings.
From S2P Require Import Prelude Machine.

(** ** [Memory.c] *)
Definition memset (destination value count : Z) : prog bus Z :=
  let byte := u8 value in
  for_range (Z.to_nat count) 0 (fun index => store8 (destination + index) byte) ;;
  Ret destination.

Definition memcpy (destination source count : Z) : prog bus Z :=
  for_range (Z.to_nat count) 0 (fun index =>
    let! v := load8 (source + index) in
    store8 (destination + index) v) ;;
  Ret destination.

Definition memmove (destination source count : Z) : prog bus Z :=
  if (destination =? source) || (count =? 0) then Ret destination
  else
    (if destination <? source then
       for_range (Z.to_nat count) 0 (fun index =>
         let! v := load8 (source + index) in
         store8 (destination + index) v)
     else
       for_down (Z.to_nat count) (fun index =>
         let! v := load8 (source + (index - 1)) in
         store8 (destination + (index - 1)) v)) ;;
    Ret destination.

Definition memcmp (left right count : Z) : prog bus Z :=
  let! r := for_break (Z.to_nat count) 0 (fun index =>
    let! l := load8 (left + index) in
    let! r := load8 (right + index) in
    Ret (if negb (l =? r) then Some (l - r) else None)) in
  Ret (match r with Some d => d | None => 0 end).

(** ** [String.c] *)
Fixpoint strlen_loop (fuel : nat) (text length : Z) : prog bus Z :=
  match fuel with
  | O => OutOfFuel
  | S fuel' =>
      let! c := load8 (text + length) in
      if negb (c =? 0) then strlen_loop fuel' text (length +% 1) else Ret length
  end.
Definition strlen (fuel : nat) (text : Z) : prog bus Z := strlen_loop fuel text 0.

Fixpoint strcmp (fuel : nat) (left right : Z) : prog bus Z :=
  match fuel with
  | O => OutOfFuel
  | S fuel' =>
      let! l := load8 left in
      let! r := load8 right in
      if negb (l =? 0) && (l =? r) then strcmp fuel' (left + 1) (right + 1)
      else Ret (l - r)
  end.

Definition strncmp (left right count : Z) : prog bus Z :=
  let! r := for_break (Z.to_nat count) 0 (fun index =>
    let! left_byte := load8 (left + index) in
    let! right_byte := load8 (right + index) in
    Ret (if negb (left_byte =? right_byte) then Some (left_byte - right_byte)
         else if left_byte =? 0 then Some 0 else None)) in
  Ret (match r with Some d => d | None => 0 end).

Definition kstrlcpy (fuel : nat) (destination source capacity : Z) : prog bus Z :=
  let! source_length := strlen fuel source in
  if capacity =? 0 then Ret source_length
  else
    let copy_length := if source_length >=? capacity then capacity - 1 else source_length in
    for_range (Z.to_nat copy_length) 0 (fun index =>
      let! v := load8 (source + index) in
      store8 (destination + index) v) ;;
    store8 (destination + copy_length) 0 ;;
    Ret source_length.

(** ** Memory contents *)
Implicit Types m : gmap Z Z.

(** [l] is stored at [a]. *)
Definition bytes_at m (a : Z) (l : list Z) : Prop :=
  forall i x, l !! i = Some x -> m !! (a + Z.of_nat i) = Some x.
(** The [n] addresses from [a] are mapped. *)
Definition mapped m (a : Z) (n : nat) : Prop :=
  forall i, (i < n)%nat -> is_Some (m !! (a + Z.of_nat i)).
(** Memory after storing [l] at [a]. *)
Fixpoint write_list m (a : Z) (l : list Z) : gmap Z Z :=
  match l with
  | [] => m
  | x :: l' => write_list (<[a := x]> m) (a + 1) l'
  end.
(** A NUL-terminated string [l] at [a]. *)
Definition cstring_at m (a : Z) (l : list Z) : Prop :=
  bytes_at m a (l ++ [0]) /\ Forall (fun x => x <> 0 /\ is_u8 x) l.

Lemma write_list_out m a l b :
  (b < a \/ a + Z.of_nat (length l) <= b) -> write_list m a l !! b = m !! b.
Proof.
  revert m a. induction l as [|x l IH]; cbn; intros m a Hb; [reflexivity|].
  rewrite IH by lia. rewrite lookup_insert_ne; [reflexivity|lia].
Qed.

Lemma write_list_in m a l i x :
  l !! i = Some x -> write_list m a l !! (a + Z.of_nat i) = Some x.
Proof.
  revert m a i. induction l as [|y l IH]; intros m a i Hi; [discriminate|].
  destruct i as [|i]; cbn in *.
  - injection Hi as ->. rewrite write_list_out by lia. rewrite Z.add_0_r.
    apply lookup_insert_eq.
  - replace (a + Z.of_nat (S i)) with (a + 1 + Z.of_nat i) by lia. now apply IH.
Qed.

Lemma write_list_snoc m a l x :
  write_list m a (l ++ [x]) = <[a + Z.of_nat (length l) := x]> (write_list m a l).
Proof.
  revert m a. induction l as [|y l IH]; cbn; intros m a; [now rewrite Z.add_0_r|].
  rewrite IH. f_equal. lia.
Qed.

Lemma write_list_insert m a b x l :
  a < b -> write_list (<[a := x]> m) b l = <[a := x]> (write_list m b l).
Proof.
  revert m b. induction l as [|y l IH]; cbn; intros m b Hb; [reflexivity|].
  rewrite insert_insert_ne by lia. apply IH. lia.
Qed.

Lemma write_list_cons m a x l :
  write_list m a (x :: l) = <[a := x]> (write_list m (a + 1) l).
Proof. cbn. apply write_list_insert. lia. Qed.

Lemma write_list_mapped m a l b n : mapped m b n -> mapped (write_list m a l) b n.
Proof.
  intros Hm i Hi. specialize (Hm i Hi). revert m a Hm.
  induction l as [|x l IH]; cbn; intros m a Hm; [assumption|]. apply IH.
  rewrite lookup_insert. case_decide; [eauto|assumption].
Qed.

Lemma bytes_at_mapped m a l : bytes_at m a l -> mapped m a (length l).
Proof.
  intros H i Hi. apply lookup_lt_is_Some in Hi as [x Hx]. exists x. now apply H.
Qed.

(** One byte access on [byte_ram]. *)
Lemma exec_load8 m a v : m !! a = Some v -> exec byte_ram (load8 a) m = (Done v, m).
Proof. intros H. cbn. rewrite H. reflexivity. Qed.

Lemma exec_store8 m a v : is_Some (m !! a) -> exec byte_ram (store8 a v) m = (Done tt, <[a := v]> m).
Proof. intros [x H]. cbn. rewrite H. reflexivity. Qed.

Lemma exec_copy_byte m s d v :
  m !! s = Some v -> is_Some (m !! d) ->
  exec byte_ram (let! x := load8 s in store8 d x) m = (Done tt, <[d := v]> m).
Proof. intros Hs Hd. rewrite exec_bind, (exec_load8 m s v Hs). cbn [then_]. now apply exec_store8. Qed.

(** The forward copy loop, correct when the destination does not run into bytes
    that are still to be read: below the source, or past its end. *)
Lemma copy_forward m d s l :
  bytes_at m s l -> mapped m d (length l) ->
  (d <= s \/ s + Z.of_nat (length l) <= d) ->
  exec byte_ram (for_range (length l) 0 (fun index =>
      let! v := load8 (s + index) in store8 (d + index) v)) m
  = (Done tt, write_list m d l).
Proof.
  intros Hs Hd Hov.
  pose (st := fun j => write_list m d (take (Z.to_nat j) l)).
  replace m with (st 0) at 1 by reflexivity.
  rewrite (exec_for_range byte_ram st).
  - unfold st. rewrite Z.add_0_l, Nat2Z.id, take_ge by lia. reflexivity.
  - intros j Hj. destruct (lookup_lt_is_Some_2 l (Z.to_nat j)) as [x Hx]; [lia|].
    unfold st. replace (Z.to_nat (j + 1)) with (S (Z.to_nat j)) by lia.
    rewrite (take_S_r _ _ _ Hx), write_list_snoc, length_take, Nat.min_l by lia.
    rewrite Z2Nat.id by lia. apply exec_copy_byte.
    + rewrite write_list_out by (rewrite length_take; lia).
      specialize (Hs _ _ Hx). now rewrite Z2Nat.id in Hs by lia.
    + destruct (write_list_mapped m d (take (Z.to_nat j) l) d (length l) Hd (Z.to_nat j)) as [y Hy];
        [lia|]. rewrite Z2Nat.id in Hy by lia. eauto.
Qed.

(** The backward copy loop, correct when the destination is above the source. *)
Lemma copy_backward m d s l :
  bytes_at m s l -> mapped m d (length l) -> s <= d ->
  exec byte_ram (for_down (length l) (fun index =>
      let! v := load8 (s + (index - 1)) in store8 (d + (index - 1)) v)) m
  = (Done tt, write_list m d l).
Proof.
  intros Hs Hd Hov.
  pose (st := fun j => write_list m (d + Z.of_nat j) (drop j l)).
  replace m with (st (length l)) at 1 by (unfold st; rewrite drop_ge by lia; reflexivity).
  rewrite (exec_for_down byte_ram st).
  - unfold st. rewrite drop_0, Z.add_0_r. reflexivity.
  - intros j Hj. destruct (lookup_lt_is_Some_2 l j Hj) as [x Hx]. unfold st.
    replace (Z.of_nat (j + 1) - 1) with (Z.of_nat j) by lia.
    rewrite (drop_S l x j Hx), write_list_cons.
    replace (d + Z.of_nat (j + 1)) with (d + Z.of_nat j + 1) by lia.
    rewrite Nat.add_1_r. apply exec_copy_byte.
    + rewrite write_list_out by lia. now apply Hs.
    + apply (write_list_mapped m _ _ d (length l) Hd j Hj).
Qed.

(** The fill loop. *)
Lemma fill_forward m d n v :
  mapped m d n ->
  exec byte_ram (for_range n 0 (fun index => store8 (d + index) v)) m
  = (Done tt, write_list m d (replicate n v)).
Proof.
  intros Hd. pose (st := fun j => write_list m d (replicate (Z.to_nat j) v)).
  replace m with (st 0) at 1 by reflexivity.
  rewrite (exec_for_range byte_ram st).
  - unfold st. rewrite Z.add_0_l, Nat2Z.id. reflexivity.
  - intros j Hj. unfold st. replace (Z.to_nat (j + 1)) with (S (Z.to_nat j)) by lia.
    rewrite replicate_S_end, write_list_snoc, length_replicate, Z2Nat.id by lia.
    apply exec_store8.
    destruct (write_list_mapped m d (replicate (Z.to_nat j) v) d n Hd (Z.to_nat j)) as [y Hy];
      [lia|]. rewrite Z2Nat.id in Hy by lia. eauto.
Qed.

(** ** Comparison

    The reference for the comparison routines: the difference of the first pair
    of bytes that differ, [0] when one list runs out first. *)
Fixpoint diff (l1 l2 : list Z) : Z :=
  match l1, l2 with
  | x :: t1, y :: t2 => if x =? y then diff t1 t2 else x - y
  | _, _ => 0
  end.

(** Strict lexicographic order, decided by a byte that differs. *)
Definition lex_lt (l1 l2 : list Z) : Prop :=
  exists p x y t1 t2, l1 = p ++ x :: t1 /\ l2 = p ++ y :: t2 /\ x < y.

Lemma lex_lt_cons x y t1 t2 :
  lex_lt (x :: t1) (y :: t2) <-> x < y \/ (x = y /\ lex_lt t1 t2).
Proof.
  split.
  - intros ([|z p] & a & b & r1 & r2 & H1 & H2 & Hlt); simplify_list_eq; [left; lia|].
    right. split; [reflexivity|]. exists p, a, b, r1, r2. auto.
  - intros [H|[-> (p & a & b & r1 & r2 & -> & -> & Hlt)]].
    + exists [], x, y, t1, t2. auto.
    + exists (y :: p), a, b, r1, r2. auto.
Qed.

Lemma diff_neg l1 l2 : diff l1 l2 < 0 <-> lex_lt l1 l2.
Proof.
  revert l2. induction l1 as [|x t1 IH]; intros [|y t2]; cbn [diff].
  1-3: split; [lia|]; intros (p & a & b & r1 & r2 & H1 & H2 & _);
    destruct p; discriminate.
  rewrite lex_lt_cons. destruct (Z.eqb_spec x y) as [->|Hne].
  - rewrite IH. split; [auto|]. intros [?|[_ ?]]; [lia|assumption].
  - split; [left; lia|]. intros [?|[? _]]; lia.
Qed.

Lemma diff_zero l1 l2 : diff l1 l2 = 0 <-> l1 `prefix_of` l2 \/ l2 `prefix_of` l1.
Proof.
  revert l2. induction l1 as [|x t1 IH]; intros [|y t2]; cbn [diff].
  1-3: split; [intros _|reflexivity]; auto using prefix_nil.
  destruct (Z.eqb_spec x y) as [->|Hne].
  - rewrite IH. split; (intros [H|H]; [left|right]);
      try (now apply prefix_cons); now apply prefix_cons_inv_2 in H.
  - split; [lia|]. intros [H|H]; apply prefix_cons_inv_1 in H; lia.
Qed.

Lemma prefix_same_length (l1 l2 : list Z) :
  (length l2 <= length l1)%nat -> l1 `prefix_of` l2 -> l1 = l2.
Proof.
  intros Hl [k ->]. rewrite length_app in Hl. destruct k; [now rewrite app_nil_r|cbn in Hl; lia].
Qed.

Lemma diff_zero_same_length l1 l2 : length l1 = length l2 -> diff l1 l2 = 0 <-> l1 = l2.
Proof.
  intros Hl. rewrite diff_zero. split; [|intros ->; auto].
  intros [H|H]; [|symmetry]; apply prefix_same_length; auto; lia.
Qed.

(** No NUL-terminated string is a strict prefix of another, even when both are
    cut at [n] bytes. *)
Lemma cstring_prefix n l1 l2 :
  Forall (fun x => x <> 0 /\ is_u8 x) l2 ->
  take n (l1 ++ [0]) `prefix_of` take n (l2 ++ [0]) ->
  take n (l1 ++ [0]) = take n (l2 ++ [0]).
Proof.
  revert n l2. induction l1 as [|x l1 IH]; intros [|n] [|y l2] Hf Hp; cbn in *; try reflexivity.
  - apply prefix_cons_inv_1 in Hp. inversion Hf; subst. tauto.
  - apply prefix_cons_inv_1 in Hp as Hx. subst. apply prefix_cons_inv_2 in Hp.
    destruct n, l1; cbn in *; try reflexivity; destruct Hp as [? Hp]; discriminate.
  - inversion Hf; subst. apply prefix_cons_inv_1 in Hp as Hx. subst.
    f_equal. apply IH; [assumption|]. now apply prefix_cons_inv_2 in Hp.
Qed.

Lemma cstring_diff_zero n l1 l2 :
  Forall (fun x => x <> 0 /\ is_u8 x) l1 -> Forall (fun x => x <> 0 /\ is_u8 x) l2 ->
  diff (take n (l1 ++ [0])) (take n (l2 ++ [0])) = 0 <->
  take n (l1 ++ [0]) = take n (l2 ++ [0]).
Proof.
  intros H1 H2. rewrite diff_zero. split; [|intros ->; auto].
  intros [H|H]; [|symmetry]; now apply cstring_prefix.
Qed.

Lemma bytes_at_cons m a x l : bytes_at m a (x :: l) <-> m !! a = Some x /\ bytes_at m (a + 1) l.
Proof.
  split.
  - intros H. split.
    + specialize (H O x eq_refl). now rewrite Z.add_0_r in H.
    + intros i y Hi. specialize (H (S i) y Hi).
      now replace (a + 1 + Z.of_nat i) with (a + Z.of_nat (S i)) by lia.
  - intros [H0 H] [|i] y Hi; cbn in Hi.
    + injection Hi as ->. now rewrite Z.add_0_r.
    + replace (a + Z.of_nat (S i)) with (a + 1 + Z.of_nat i) by lia. now apply H.
Qed.

Definition found (d : Z) : option Z := if d =? 0 then None else Some d.

Lemma memcmp_loop m a b l1 l2 i :
  bytes_at m (a + i) l1 -> bytes_at m (b + i) l2 -> length l1 = length l2 ->
  exec byte_ram (for_break (length l1) i (fun index =>
    let! l := load8 (a + index) in
    let! r := load8 (b + index) in
    Ret (if negb (l =? r) then Some (l - r) else None))) m
  = (Done (found (diff l1 l2)), m).
Proof.
  revert i l2. induction l1 as [|x l1 IH]; intros i [|y l2] H1 H2 Hl; try discriminate;
    [reflexivity|].
  apply bytes_at_cons in H1 as [Hx H1], H2 as [Hy H2].
  cbn [length for_break diff]. rewrite exec_bind. cbn. rewrite Hx. cbn. rewrite Hy. cbn.
  destruct (Z.eqb_spec x y) as [->|Hne]; cbn.
  - apply IH; [|  |now injection Hl].
    + now replace (a + (i + 1)) with (a + i + 1) by lia.
    + now replace (b + (i + 1)) with (b + i + 1) by lia.
  - unfold found. destruct (Z.eqb_spec (x - y) 0); [lia|reflexivity].
Qed.

Lemma found_default d : match found d with Some e => e | None => 0 end = d.
Proof. unfold found. destruct (Z.eqb_spec d 0); congruence. Qed.

(** The first byte of a NUL-terminated string and the rest. *)
Lemma cstring_case m a l :
  cstring_at m a l ->
  (l = [] /\ m !! a = Some 0) \/
  (exists x t, l = x :: t /\ x <> 0 /\ m !! a = Some x /\ cstring_at m (a + 1) t).
Proof.
  intros [Hb Hf]. destruct l as [|x t]; cbn in Hb; apply bytes_at_cons in Hb as [Hx Hb].
  - left. auto.
  - right. inversion Hf; subst. exists x, t. repeat split; tauto.
Qed.

Lemma strncmp_loop m a b n l1 l2 i :
  cstring_at m (a + i) l1 -> cstring_at m (b + i) l2 ->
  exists r, exec byte_ram (for_break n i (fun index =>
    let! left_byte := load8 (a + index) in
    let! right_byte := load8 (b + index) in
    Ret (if negb (left_byte =? right_byte) then Some (left_byte - right_byte)
         else if left_byte =? 0 then Some 0 else None))) m = (Done r, m) /\
  match r with Some d => d | None => 0 end = diff (take n (l1 ++ [0])) (take n (l2 ++ [0])).
Proof.
  revert i l1 l2. induction n as [|n IH]; intros i l1 l2 H1 H2; [eexists; split; reflexivity|].
  apply cstring_case in H1 as [[-> Hx]|(x & t1 & -> & Hx0 & Hx & H1)],
    H2 as [[-> Hy]|(y & t2 & -> & Hy0 & Hy & H2)];
    cbn [for_break take app diff]; rewrite exec_bind; cbn; rewrite Hx; cbn; rewrite Hy; cbn.
  - eexists; split; [reflexivity|]. now rewrite !take_nil.
  - destruct (Z.eqb_spec 0 y); [lia|]. eexists; split; reflexivity.
  - destruct (Z.eqb_spec x 0); [lia|]. eexists; split; reflexivity.
  - destruct (Z.eqb_spec x y) as [->|Hne]; cbn; [|eexists; split; reflexivity].
    destruct (Z.eqb_spec y 0); [lia|]. cbn. apply IH.
    + now replace (a + (i + 1)) with (a + i + 1) by lia.
    + now replace (b + (i + 1)) with (b + i + 1) by lia.
Qed.

Lemma strcmp_loop m a b l1 l2 fuel :
  cstring_at m a l1 -> cstring_at m b l2 -> (length l1 < fuel)%nat ->
  exec byte_ram (strcmp fuel a b) m = (Done (diff (l1 ++ [0]) (l2 ++ [0])), m).
Proof.
  revert a b l1 l2. induction fuel as [|fuel IH]; intros a b l1 l2 H1 H2 Hf; [lia|].
  cbn [strcmp]. rewrite exec_bind.
  apply cstring_case in H1 as [[-> Hx]|(x & t1 & -> & Hx0 & Hx & H1)],
    H2 as [[-> Hy]|(y & t2 & -> & Hy0 & Hy & H2)];
    cbn; rewrite Hx; cbn; rewrite Hy; cbn.
  - reflexivity.
  - destruct (Z.eqb_spec 0 y); [lia|reflexivity].
  - destruct (Z.eqb_spec x 0); [lia|reflexivity].
  - destruct (Z.eqb_spec x 0); [lia|]. cbn.
    destruct (Z.eqb_spec x y) as [->|Hne]; [|reflexivity]. apply IH; auto. cbn in Hf. lia.
Qed.

Lemma strlen_loop_ok m a l fuel i :
  cstring_at m (a + i) l -> (length l < fuel)%nat ->
  0 <= i -> i + Z.of_nat (length l) < 2 ^ 32 ->
  exec byte_ram (strlen_loop fuel a i) m = (Done (i + Z.of_nat (length l)), m).
Proof.
  revert i l. induction fuel as [|fuel IH]; intros i l H Hf Hi Hb; [lia|].
  cbn [strlen_loop]. rewrite exec_bind.
  apply cstring_case in H as [[-> Hx]|(x & t & -> & Hx0 & Hx & H)]; cbn; rewrite Hx; cbn.
  - now rewrite Z.add_0_r.
  - destruct (Z.eqb_spec x 0); [lia|]. cbn. cbn in Hf, Hb. rewrite add32_small by lia.
    rewrite (IH _ t); [do 2 f_equal; lia| |lia|lia|lia].
    now replace (a + (i + 1)) with (a + i + 1) by lia.
Qed.

Lemma write_list_same m a l : bytes_at m a l -> write_list m a l = m.
Proof.
  revert m a. induction l as [|x l IH]; intros m a H; [reflexivity|].
  apply bytes_at_cons in H as [Hx H]. rewrite write_list_cons, IH by assumption.
  now apply insert_id.
Qed.

(** ** The properties *)

(** C16: [memmove] copies correctly whatever the overlap of the two ranges: when
    both are mapped it returns the destination without a fault, and leaves memory
    as if the source bytes had been read out entirely before the first store. *)
Theorem memmove_correct m d s l :
  bytes_at m s l -> mapped m d (length l) ->
  exec byte_ram (memmove d s (Z.of_nat (length l))) m = (Done d, write_list m d l).
Proof.
  intros Hs Hd. unfold memmove. rewrite Nat2Z.id.
  destruct (Z.eqb_spec d s) as [->|Hne]; cbn [orb].
  { now rewrite write_list_same. }
  destruct (Z.eqb_spec (Z.of_nat (length l)) 0) as [H0|H0].
  { destruct l; [reflexivity|cbn in H0; lia]. }
  rewrite exec_bind. destruct (Z.ltb_spec d s).
  - rewrite copy_forward by (auto; lia). reflexivity.
  - rewrite copy_backward by (auto; lia). reflexivity.
Qed.

Definition ram_example : gmap Z Z :=
  list_to_map [(10, 1); (11, 2); (12, 3); (13, 4); (14, 5)].

(** A copy one byte up, over its own source. *)
Lemma memmove_correct_witness :
  exec byte_ram (memmove 11 10 4) ram_example = (Done 11, write_list ram_example 11 [1; 2; 3; 4]).
Proof.
  apply (memmove_correct ram_example 11 10 [1; 2; 3; 4]).
  - intros i x H. do 4 (destruct i as [|i]; [injection H as <-; vm_compute; reflexivity|]).
    destruct i; discriminate.
  - intros i Hi. do 4 (destruct i as [|i]; [eexists; vm_compute; reflexivity|]). cbn in Hi. lia.
Defined.

(** [memset] fills exactly the [count] bytes with the low byte of the value, and
    [memcpy] copies disjoint ranges. *)
Lemma memset_correct m d v n :
  mapped m d n ->
  exec byte_ram (memset d v (Z.of_nat n)) m = (Done d, write_list m d (replicate n (u8 v))).
Proof. intros H. unfold memset. rewrite exec_bind, Nat2Z.id, fill_forward by assumption. reflexivity. Qed.

Lemma memcpy_correct m d s l :
  bytes_at m s l -> mapped m d (length l) -> (d <= s \/ s + Z.of_nat (length l) <= d) ->
  exec byte_ram (memcpy d s (Z.of_nat (length l))) m = (Done d, write_list m d l).
Proof. intros. unfold memcpy. rewrite exec_bind, Nat2Z.id, copy_forward by assumption. reflexivity. Qed.



(** What [kstrlcpy] leaves at the destination: as much of the string as fits, and a
    terminator, so at most [capacity] bytes. *)
Definition truncated (l : list Z) (capacity : Z) : list Z :=
  take (Z.to_nat (capacity - 1)) l ++ [0].

(** C27: [kstrlcpy] never writes past [capacity] bytes, always terminates a nonempty
    destination, and returns the full source length so that a caller can detect
    truncation; a zero capacity writes nothing. *)
Theorem kstrlcpy_correct m d s l capacity fuel :
  cstring_at m s l -> (length l < fuel)%nat -> Z.of_nat (length l) < 2 ^ 32 ->
  0 <= capacity -> mapped m d (Z.to_nat capacity) ->
  (d <= s \/ s + Z.of_nat (length l) < d) ->
  exec byte_ram (kstrlcpy fuel d s capacity) m =
    (Done (Z.of_nat (length l)),
     if capacity =? 0 then m else write_list m d (truncated l capacity)) /\
  (0 < capacity -> Z.of_nat (length (truncated l capacity)) <= capacity).
Proof.
  intros Hs Hf Hb Hc Hd Hov. split.
  2:{ unfold truncated. intros. rewrite length_app, length_take. cbn [length]. lia. }
  unfold kstrlcpy, strlen. rewrite exec_bind, (strlen_loop_ok m s l fuel 0);
    [|now rewrite Z.add_0_r|assumption|lia|lia]. rewrite Z.add_0_l. cbn [then_].
  destruct (Z.eqb_spec capacity 0) as [|Hc0]; [reflexivity|]. cbn zeta.
  set (k := Z.to_nat (capacity - 1)).
  replace (if Z.of_nat (length l) >=? capacity then capacity - 1 else Z.of_nat (length l))
    with (Z.of_nat (length (take k l))).
  2:{ rewrite length_take, Z.geb_leb. destruct (Z.leb_spec capacity (Z.of_nat (length l))); lia. }
  rewrite exec_bind, Nat2Z.id, copy_forward.
  - cbn [then_]. rewrite exec_bind, exec_store8.
    + cbn [then_ exec]. unfold truncated. now rewrite write_list_snoc.
    + apply write_list_mapped with (n := Z.to_nat capacity); [assumption|].
      rewrite length_take. lia.
  - intros i x Hi. apply lookup_take_Some in Hi as [Hi _]. apply Hs. now apply lookup_app_l_Some.
  - intros i Hi. apply Hd. rewrite length_take in Hi. lia.
  - rewrite length_take. lia.
Qed.

Lemma kstrlcpy_correct_witness :
  exec byte_ram (kstrlcpy 9 3 0 2) (list_to_map [(0, 107); (1, 101); (2, 0); (3, 9); (4, 9)])
  = (Done 2, write_list (list_to_map [(0, 107); (1, 101); (2, 0); (3, 9); (4, 9)]) 3 [107; 0]).
Proof.
  refine (proj1 (kstrlcpy_correct _ 3 0 [107; 101] 2 9 _ _ _ _ _ _)).
  - split; [|repeat constructor; try discriminate; vm_compute; congruence].
    intros i x H. do 3 (destruct i as [|i]; [injection H as <-; vm_compute; reflexivity|]).
    destruct i; discriminate.
  - cbn. lia.
  - cbn. lia.
  - lia.
  - intros i Hi. do 2 (destruct i as [|i]; [eexists; vm_compute; reflexivity|]).
    vm_compute in Hi. lia.
  - cbn. lia.
Defined.
