(* ===== verification/BootImage.v ===== *)
(** * Boot image checks: the pure half of [Boot/BootStorage.c]

    The CDB allowlist, the CRC32 of the payloads, the on-disk manifest and the
    parser of a USB configuration descriptor. The part of the file that drives
    hardware is in [Transport]. *)
From stdpp Require Import list gmap strings.
From S2P Require Import Prelude Machine Runtime.

(** ** [boot_crc32] *)
Definition crc_bit (crc : Z) : Z :=
  (crc >>> 1) .^ (0xEDB88320 .& (0 -% (crc .& 1))).

(** The inner loop over the bits of a byte. *)
Fixpoint crc_bits (n : nat) (crc : Z) : Z :=
  match n with
  | O => crc
  | S n' => crc_bits n' (crc_bit crc)
  end.

Definition crc_byte (crc byte : Z) : Z := crc_bits 8 (crc .^ byte).
#[global] Arguments crc_byte : simpl never.

(** The outer loop over [size] bytes at [memory]. *)
Definition boot_crc32 (memory size : Z) : prog bus Z :=
  let! '(crc, _) := for_state (R := unit) (Z.to_nat size) 0 0xFFFFFFFF
    (fun index crc => let! b := load8 (memory + index) in Ret (crc_byte crc b, None)) in
  Ret (not32 crc).

(** The same value on bytes already read. *)
Definition crc32 (l : list Z) : Z := not32 (fold_left crc_byte l 0xFFFFFFFF).

Lemma crc_byte_eq s b : crc_byte s b = crc_bits 8 (s .^ b).
Proof. unfold crc_byte. reflexivity. Qed.

Lemma exec_load_ret {A} m a v (f : Z -> A) :
  m !! a = Some v -> exec byte_ram (let! b := load8 a in Ret (f b)) m = (Done (f v), m).
Proof. intros H. cbn. now rewrite H. Qed.

Lemma boot_crc32_loop m a l i crc :
  bytes_at m (a + i) l ->
  exec byte_ram (for_state (R := unit) (length l) i crc
    (fun index crc => let! b := load8 (a + index) in Ret (crc_byte crc b, None))) m
  = (Done (fold_left crc_byte l crc, None), m).
Proof.
  revert i crc. induction l as [|x l IH]; intros i crc H; [reflexivity|].
  apply bytes_at_cons in H as [Hx H]. cbn [length for_state]. rewrite fold_left_cons.
  rewrite exec_bind, (exec_load_ret _ _ x) by assumption. cbn [then_]. apply IH.
  now replace (a + (i + 1)) with (a + i + 1) by lia.
Qed.

(** *** The bit step is linear and injective *)
Lemma crc_bit_odd crc :
  crc_bit crc = (crc >>> 1) .^ (if Z.odd crc then 0xEDB88320 else 0).
Proof.
  unfold crc_bit. f_equal. change (crc .& 1) with (crc .& (2 ^ 1 - 1)). rewrite land_ones_mod by lia.
  change (2 ^ 1) with 2. rewrite Zmod_odd. destruct (Z.odd crc); reflexivity.
Qed.

Lemma crc_bit_xor x y : crc_bit (x .^ y) = crc_bit x .^ crc_bit y.
Proof.
  rewrite !crc_bit_odd. rewrite Z.shiftr_lxor.
  rewrite <- !Z.bit0_odd, Z.lxor_spec.
  set (p := 0xEDB88320). apply Z.bits_inj'. intros i Hi. rewrite !Z.lxor_spec.
  destruct (Z.testbit x 0), (Z.testbit y 0); cbn [xorb]; rewrite ?Z.testbit_0_l;
    destruct (Z.testbit (x >>> 1) i), (Z.testbit (y >>> 1) i), (Z.testbit p i); reflexivity.
Qed.

Lemma crc_bit_range x : is_u32 x -> is_u32 (crc_bit x).
Proof.
  intros H. rewrite crc_bit_odd. apply lxor_in_u; [lia|apply shiftr_in_u; [lia|assumption]|].
  destruct (Z.odd x); unfold in_u; lia.
Qed.

Lemma crc_bit_zero x : is_u32 x -> crc_bit x = 0 -> x = 0.
Proof.
  intros H Hz. rewrite crc_bit_odd in Hz. apply Z.lxor_eq in Hz.
  destruct (Z.odd x) eqn:Ho.
  - exfalso. apply (f_equal (fun z => Z.testbit z 31)) in Hz.
    rewrite Z.shiftr_spec in Hz by lia. rewrite (testbit_high 32 x) in Hz by (auto; lia).
    discriminate.
  - rewrite Z.shiftr_div_pow2 in Hz by lia. change (2 ^ 1) with 2 in Hz.
    pose proof (Zmod_odd x) as Hm. rewrite Ho in Hm. pose proof (Z.div_mod x 2). lia.
Qed.

Lemma crc_bit_inj x y : is_u32 x -> is_u32 y -> crc_bit x = crc_bit y -> x = y.
Proof.
  intros Hx Hy H. apply Z.lxor_eq. apply crc_bit_zero; [apply lxor_in_u; auto; lia|].
  rewrite crc_bit_xor, H. apply Z.lxor_nilpotent.
Qed.

(** *** The byte step *)
Lemma crc_bits_range n x : is_u32 x -> is_u32 (crc_bits n x).
Proof. revert x. induction n; cbn; intros; [assumption|]. auto using crc_bit_range. Qed.

Lemma crc_bits_inj n x y : is_u32 x -> is_u32 y -> crc_bits n x = crc_bits n y -> x = y.
Proof.
  revert x y. induction n as [|n IH]; cbn; intros x y Hx Hy H; [assumption|].
  apply IH in H; auto using crc_bit_range. now apply crc_bit_inj.
Qed.

Lemma crc_bits_xor n x y : crc_bits n (x .^ y) = crc_bits n x .^ crc_bits n y.
Proof. revert x y. induction n; cbn; intros; [reflexivity|]. now rewrite crc_bit_xor. Qed.

Lemma crc_bits_add n k x : crc_bits (n + k) x = crc_bits k (crc_bits n x).
Proof. revert x. induction n; cbn; auto. Qed.

(** Bits above the ones being processed only move down. *)
Lemma crc_bits_shift n y : 0 <= y -> crc_bits n (Z.shiftl y (Z.of_nat n)) = y.
Proof.
  revert y. induction n as [|n IH]; intros y Hy; [apply Z.shiftl_0_r|]. cbn [crc_bits].
  replace (Z.of_nat (S n)) with (Z.of_nat n + 1) by lia. rewrite <- Z.shiftl_shiftl by lia.
  rewrite crc_bit_odd, Z.shiftr_shiftl_l by lia. rewrite Z.sub_diag, Z.shiftl_0_r.
  replace (Z.odd (Z.shiftl _ 1)) with false.
  - rewrite Z.lxor_0_r. now apply IH.
  - rewrite (Z.shiftl_mul_pow2 _ 1), Z.odd_mul by lia. symmetry. apply andb_false_r.
Qed.

(** Little-endian value of at most four bytes. *)
Fixpoint le (l : list Z) : Z :=
  match l with [] => 0 | b :: t => b .| Z.shiftl (le t) 8 end.

Lemma le_range l : Forall is_u8 l -> in_u (8 * Z.of_nat (length l)) (le l).
Proof.
  induction 1 as [|b t Hb Ht IH]; cbn [le length]; [unfold in_u; cbn; lia|].
  replace (8 * Z.of_nat (S (length t))) with (8 * Z.of_nat (length t) + 8) by lia.
  unfold in_u in *. apply lor_in_u; [lia| |]; unfold in_u.
  - split; [lia|]. eapply Z.lt_le_trans; [apply Hb|]. apply Z.pow_le_mono_r; lia.
  - rewrite Z.shiftl_mul_pow2, Z.pow_add_r by lia. nia.
Qed.

(** The byte goes in the low eight bits, the rest above: the two do not meet. *)
Lemma le_cons_xor b t : is_u8 b -> b .| Z.shiftl (le t) 8 = b .^ Z.shiftl (le t) 8.
Proof.
  intros Hb. apply Z.bits_inj'. intros i Hi. rewrite Z.lor_spec, Z.lxor_spec.
  destruct (Z.lt_ge_cases i 8).
  - rewrite Z.shiftl_spec_low by lia. now destruct (Z.testbit b i).
  - rewrite (testbit_high 8 b) by (auto; lia). now destruct (Z.testbit _ i).
Qed.

Lemma le_inj l1 l2 : Forall is_u8 l1 -> Forall is_u8 l2 -> length l1 = length l2 ->
  le l1 = le l2 -> l1 = l2.
Proof.
  intros H1. revert l2. induction H1 as [|b t Hb Ht IH]; intros [|c u] H2 Hl H; try discriminate;
    [reflexivity|].
  inversion H2; subst. cbn in H. injection Hl as Hl.
  assert (b = c) as ->.
  { apply Z.bits_inj'. intros i Hi. destruct (Z.lt_ge_cases i 8).
    - apply (f_equal (fun z => Z.testbit z i)) in H.
      rewrite !Z.lor_spec, !Z.shiftl_spec_low, !orb_false_r in H by lia. assumption.
    - rewrite !(testbit_high 8) by (auto; lia). reflexivity. }
  f_equal. apply IH; auto. rewrite !le_cons_xor in H by assumption.
  apply (f_equal (fun z => (c .^ z) >>> 8)) in H.
  rewrite <- !Z.lxor_assoc, Z.lxor_nilpotent, !Z.lxor_0_l in H.
  rewrite !Z.shiftr_shiftl_l, Z.sub_diag, !Z.shiftl_0_r in H by lia. assumption.
Qed.

(** Up to four bytes act on the register as one little-endian word xored in
    before all of their bit steps. *)
Lemma crc_word s l :
  is_u32 s -> Forall is_u8 l -> (length l <= 4)%nat ->
  fold_left crc_byte l s = crc_bits (8 * length l) (s .^ le l).
Proof.
  intros Hs Hl. revert s Hs. induction Hl as [|b t Hb Ht IH]; intros s Hs Hn.
  { cbn. now rewrite Z.lxor_0_r. }
  cbn [le length] in *. rewrite fold_left_cons, crc_byte_eq.
  pose proof (le_range t Ht) as Hr.
  assert (is_u32 b) by (unfold in_u in *; ulia).
  assert (is_u32 (s .^ b)) by (apply lxor_in_u; auto; lia).
  rewrite IH by (auto using crc_bits_range; lia).
  replace (8 * S (length t))%nat with (8 + 8 * length t)%nat by lia.
  rewrite crc_bits_add. f_equal. rewrite le_cons_xor, <- Z.lxor_assoc by assumption.
  rewrite (crc_bits_xor 8 (s .^ b)). f_equal. symmetry.
  apply (crc_bits_shift 8). unfold in_u in Hr. lia.
Qed.

Lemma crc_byte_range s b : is_u32 s -> is_u8 b -> is_u32 (crc_byte s b).
Proof.
  intros Hs Hb. rewrite crc_byte_eq. apply crc_bits_range, lxor_in_u; [lia|assumption|].
  now apply u8_is_u32.
Qed.

Lemma crc_byte_inj s s' b : is_u32 s -> is_u32 s' -> is_u8 b ->
  crc_byte s b = crc_byte s' b -> s = s'.
Proof.
  intros Hs Hs' Hb H. rewrite !crc_byte_eq in H. apply u8_is_u32 in Hb.
  apply crc_bits_inj in H; [|apply lxor_in_u; auto; lia..].
  apply (f_equal (Z.lxor b)) in H. rewrite !(Z.lxor_comm b), !Z.lxor_assoc in H.
  now rewrite Z.lxor_nilpotent, !Z.lxor_0_r in H.
Qed.

Lemma crc_list_range s l : is_u32 s -> Forall is_u8 l -> is_u32 (fold_left crc_byte l s).
Proof.
  intros Hs Hl. revert s Hs. induction Hl as [|b t Hb Ht IH]; intros s Hs; [assumption|].
  rewrite fold_left_cons. auto using crc_byte_range.
Qed.

Lemma crc_list_inj s s' l : is_u32 s -> is_u32 s' -> Forall is_u8 l ->
  fold_left crc_byte l s = fold_left crc_byte l s' -> s = s'.
Proof.
  intros Hs Hs' Hl. revert s s' Hs Hs'. induction Hl as [|b t Hb Ht IH]; intros s s' Hs Hs' H.
  { assumption. }
  rewrite !fold_left_cons in H. apply IH in H; [|auto using crc_byte_range..].
  now apply crc_byte_inj in H.
Qed.

Lemma not32_inj x y : is_u32 x -> is_u32 y -> not32 x = not32 y -> x = y.
Proof.
  intros Hx Hy. unfold not32, u32, wrap.
  assert (forall z, is_u32 z -> Z.lnot z mod 2 ^ 32 = 2 ^ 32 - 1 - z) as E.
  { intros z Hz. replace (Z.lnot z) with (2 ^ 32 - 1 - z + (-1) * 2 ^ 32).
    - rewrite Z.mod_add by lia. apply Z.mod_small. ulia.
    - unfold Z.lnot. lia. }
  rewrite !E by assumption. lia.
Qed.

(** C18: the checksum that guards the kernel payloads detects every corruption
    confined to four consecutive bytes: two images that agree outside such a
    window and differ inside it never have the same CRC. [boot_crc32] computes
    this checksum of the bytes in memory without changing them. *)
Theorem crc32_detects_burst m a pre mid mid' post :
  Forall is_u8 pre -> Forall is_u8 post -> Forall is_u8 mid -> Forall is_u8 mid' ->
  length mid = length mid' -> (length mid <= 4)%nat -> mid <> mid' ->
  bytes_at m a (pre ++ mid ++ post) ->
  exists c, exec byte_ram (boot_crc32 a (Z.of_nat (length (pre ++ mid ++ post)))) m = (Done c, m) /\
    c = crc32 (pre ++ mid ++ post) /\ is_u32 c /\ crc32 (pre ++ mid' ++ post) <> c.
Proof.
  intros Hpre Hpost Hmid Hmid' Hlen H4 Hne Hm. exists (crc32 (pre ++ mid ++ post)).
  split; [|split; [reflexivity|split; [apply not32_range|]]].
  { unfold boot_crc32. rewrite exec_bind, Nat2Z.id, boot_crc32_loop by now rewrite Z.add_0_r.
    reflexivity. }
  assert (is_u32 0xFFFFFFFF) by ulia.
  unfold crc32. intros H1. apply not32_inj in H1;
    [|apply crc_list_range; auto using Forall_app_2..].
  rewrite !fold_left_app in H1.
  apply crc_list_inj in H1; [|apply crc_list_range; auto using crc_list_range..|assumption].
  pose proof (crc_list_range _ _ H Hpre) as Hs.
  assert (forall l, Forall is_u8 l -> (length l <= 4)%nat -> is_u32 (le l)) as Hle.
  { intros l Hl Hn. pose proof (le_range l Hl) as [Hr0 Hr1]. split; [assumption|].
    eapply Z.lt_le_trans; [exact Hr1|]. apply Z.pow_le_mono_r; lia. }
  rewrite (crc_word _ mid'), (crc_word _ mid), Hlen in H1 by (auto; lia).
  apply crc_bits_inj in H1; [|apply lxor_in_u; auto with lia..].
  apply Hne, le_inj; auto. apply (f_equal (Z.lxor (fold_left crc_byte pre 4294967295))) in H1.
  rewrite <- !Z.lxor_assoc, Z.lxor_nilpotent, !Z.lxor_0_l in H1. now symmetry.
Qed.

Lemma crc32_detects_burst_witness :
  exists c, exec byte_ram (boot_crc32 64 4) (write_list ∅ 64 [1; 2; 3; 4]) = (Done c, write_list ∅ 64 [1; 2; 3; 4]) /\
    c = crc32 ([1] ++ [2; 3] ++ [4]) /\ is_u32 c /\ crc32 ([1] ++ [2; 9] ++ [4]) <> c.
Proof.
  apply (crc32_detects_burst _ 64 [1] [2; 3] [2; 9] [4]).
  1-4: repeat constructor; unfold in_u; lia.
  - reflexivity.
  - cbn. lia.
  - discriminate.
  - intros i x Hi. apply write_list_in. exact Hi.
Defined.

(** The standard check value of the reflected CRC-32: the nine digits. *)
Example crc32_check_value : crc32 [49; 50; 51; 52; 53; 54; 55; 56; 57] = 0xCBF43926.
Proof. vm_compute. reflexivity. Qed.

(** ** [storage_read_cdb_valid]

    [command] is the CDB array, [None] a null pointer. *)
Definition cdb (command : list Z) (i : nat) : Z := default 0 (command !! i).

Definition storage_read_cdb_valid (command : option (list Z)) (command_size bytes : Z) : bool :=
  match command with
  | None => false
  | Some c =>
      if (command_size =? 6) && (cdb c 0 =? 0x00) then bytes =? 0
      else if (command_size =? 6) && (cdb c 0 =? 0x03) then (bytes =? 18) && (cdb c 4 =? 18)
      else if (command_size =? 10) && (cdb c 0 =? 0x25) then bytes =? 8
      else if (command_size =? 10) && (cdb c 0 =? 0x28) then
        let blocks := (cdb c 7 <<% 8) .| cdb c 8 in
        (blocks >? 0) && (blocks <=? 32) && (bytes =? blocks *% 512)
      else false
  end.

(** ** [boot_manifest_valid] *)
Record boot_manifest := {
  magic0 : Z; magic1 : Z; version : Z; setup_sectors : Z;
  high_lba : Z; high_sectors : Z; high_crc : Z;
  interrupts_lba : Z; interrupts_sectors : Z; interrupts_crc : Z
}.

Definition boot_manifest_valid (m : boot_manifest) : bool :=
  (magic0 m =? 0x4253554E) && (magic1 m =? 0x544F4F42) &&
  (version m =? 1) && (setup_sectors m =? 64) &&
  (high_lba m =? 65) && (high_sectors m =? 256) &&
  (interrupts_lba m =? 321) && (interrupts_sectors m =? 2049).

(** ** [boot_parse_usb_configuration] *)
Record usb_storage_interface := {
  configuration : Z; interface_number : Z; bulk_in : Z; bulk_out : Z
}.
#[export] Instance eta_usb_storage_interface : Eta usb_storage_interface := fun s =>
  Build_usb_storage_interface (configuration s) (interface_number s) (bulk_in s) (bulk_out s).

(** The descriptor loop from [offset]; [None] is [return 0]. *)
Fixpoint boot_parse_loop (fuel : nat) (size offset : Z) (storage : bool)
    (candidate : usb_storage_interface) : prog Z (option usb_storage_interface) :=
  if negb (offset <? size) then
    Ret (if negb storage || negb (truthy (bulk_in candidate)) || negb (truthy (bulk_out candidate))
         then None else Some candidate)
  else match fuel with
  | O => OutOfFuel
  | S fuel' =>
      let! length := rd offset in
      if (length <? 2) || (length >? size -% offset) then Ret None else
      let d i := rd (offset + i) in
      let! d1 := d 1 in
      if d1 =? 4 then
        if length <? 9 then Ret None
        else if storage && truthy (bulk_in candidate) && truthy (bulk_out candidate)
        then Ret (Some candidate)
        else
          let! d3 := d 3 in let! d4 := d 4 in let! d5 := d 5 in
          let! d6 := d 6 in let! d7 := d 7 in let! d2 := d 2 in
          boot_parse_loop fuel' size (offset +% length)
            ((d3 =? 0) && (d4 =? 2) && (d5 =? 8) && (d6 =? 6) && (d7 =? 0x50))
            candidate <| interface_number := d2 |> <| bulk_in := 0 |> <| bulk_out := 0 |>
      else if (d1 =? 5) && storage then
        if length <? 7 then Ret None
        else
          let! d4 := d 4 in let! d5 := d 5 in
          let packet := d4 .| (d5 <<% 8) in
          let! d3 := d 3 in let! d2 := d 2 in
          if negb (d3 .& 3 =? 2) || (d2 .& 15 =? 0) || truthy (d2 .& 0x70) || negb (packet =? 512)
          then Ret None
          else if truthy (d2 .& 0x80) then
            if truthy (bulk_in candidate) then Ret None
            else boot_parse_loop fuel' size (offset +% length) storage candidate <| bulk_in := d2 |>
          else
            if truthy (bulk_out candidate) then Ret None
            else boot_parse_loop fuel' size (offset +% length) storage candidate <| bulk_out := d2 |>
      else boot_parse_loop fuel' size (offset +% length) storage candidate
  end.

Definition boot_parse_usb_configuration (size : Z) : prog Z (option usb_storage_interface) :=
  if size <? 9 then Ret None else
  let! d0 := rd 0 in let! d1 := rd 1 in let! d2 := rd 2 in let! d3 := rd 3 in let! d5 := rd 5 in
  if negb (d0 =? 9) || negb (d1 =? 2) || negb (d2 .| (d3 <<% 8) =? size) || (d5 =? 0)
  then Ret None
  else boot_parse_loop (Z.to_nat size) size 9 false
         (Build_usb_storage_interface d5 0 0 0).

(** *** What an accepted configuration contains *)
Section DESCRIPTORS.
Context (data : list Z) (size : Z).

Definition byte (i v : Z) : Prop := data !! Z.to_nat i = Some v.

(** Descriptors follow each other from [o] to [o'], each satisfying [P]. *)
Inductive chain (P : Z -> Prop) (o : Z) : Z -> Prop :=
| chain_nil : chain P o o
| chain_snoc o' len : chain P o o' -> byte o' len -> 2 <= len <= size - o' -> P o' ->
    chain P o (o' + len).

(** A mass-storage, SCSI, bulk-only interface with two endpoints, setting 0. *)
Definition storage_interface (o number : Z) : Prop :=
  byte (o + 1) 4 /\ byte (o + 2) number /\ byte (o + 3) 0 /\ byte (o + 4) 2 /\
  byte (o + 5) 8 /\ byte (o + 6) 6 /\ byte (o + 7) 0x50.

(** A bulk endpoint of 512-byte packets; [input] is its direction. *)
Definition bulk_endpoint (input : bool) (o addr : Z) : Prop :=
  byte (o + 1) 5 /\ byte (o + 2) addr /\ (exists attr, byte (o + 3) attr /\ attr .& 3 = 2) /\
  (exists lo hi, byte (o + 4) lo /\ byte (o + 5) hi /\ lo .| (hi <<% 8) = 512) /\
  addr .& 15 <> 0 /\ addr .& 0x70 = 0 /\ truthy (addr .& 0x80) = input.

Definition not_interface (o : Z) : Prop := exists t, byte (o + 1) t /\ t <> 4.

(** A storage interface at [oi], then [c]'s endpoints before the next interface, the
    descriptors read so far ending at [offset]. *)
Definition storage_seen (c : usb_storage_interface) (offset : Z) : Prop :=
  exists oi li, chain (fun _ => True) 9 oi /\ byte oi li /\ 9 <= li <= size - oi /\
    storage_interface oi (interface_number c) /\
    chain not_interface (oi + li) offset /\
    (bulk_in c <> 0 -> exists o, chain not_interface (oi + li) o /\ bulk_endpoint true o (bulk_in c)) /\
    (bulk_out c <> 0 -> exists o, chain not_interface (oi + li) o /\ bulk_endpoint false o (bulk_out c)).

Definition accepted (c : usb_storage_interface) : Prop :=
  byte 5 (configuration c) /\ configuration c <> 0 /\ bulk_in c <> 0 /\ bulk_out c <> 0 /\ exists offset, storage_seen c offset.

Lemma chain_step P o o' len : chain P o o' -> byte o' len -> 2 <= len <= size - o' -> P o' ->
  chain P o (o' + len).
Proof. apply chain_snoc. Qed.

(** One more descriptor that is not an interface. *)
Lemma storage_seen_skip c offset len :
  storage_seen c offset -> byte offset len -> 2 <= len <= size - offset -> not_interface offset ->
  storage_seen c (offset + len).
Proof.
  intros (oi & li & Hc & Hli & Hl & Hi & Hn & Hin & Hout) Hb Hlen Ho.
  exists oi, li. repeat (split; [assumption|]). split; [|tauto]. now apply chain_step.
Qed.

Lemma storage_seen_in c offset len addr :
  storage_seen c offset -> byte offset len -> 2 <= len <= size - offset ->
  bulk_endpoint true offset addr -> storage_seen c <| bulk_in := addr |> (offset + len).
Proof.
  intros H Hb Hlen He. assert (not_interface offset) as Ho by (exists 5; split; [apply He|lia]).
  destruct H as (oi & li & Hc & Hli & Hl & Hi & Hn & Hin & Hout).
  exists oi, li. cbn. repeat (split; [assumption|]). split; [now apply chain_step|]. eauto.
Qed.

Lemma storage_seen_out c offset len addr :
  storage_seen c offset -> byte offset len -> 2 <= len <= size - offset ->
  bulk_endpoint false offset addr -> storage_seen c <| bulk_out := addr |> (offset + len).
Proof.
  intros H Hb Hlen He. assert (not_interface offset) as Ho by (exists 5; split; [apply He|lia]).
  destruct H as (oi & li & Hc & Hli & Hl & Hi & Hn & Hin & Hout).
  exists oi, li. cbn. repeat (split; [assumption|]). split; [now apply chain_step|]. eauto.
Qed.
End DESCRIPTORS.

(** Run a parser on a known stream: [Hrd] executes a read, [Hs] decides the tests. *)
Ltac replay_with Hrd tac :=
  repeat first
    [ closed_if
    | progress cbn [bind rd access]
    | erewrite Hrd by (try reflexivity; vm_compute; discriminate)
    | tac ].

(** Execute the next read of a parser. *)
Ltac read_byte v H :=
  cbn [bind rd access wp]; split; [cbn; lia|]; intros v ? [H ->].

Definition parse_post (data : list Z) (size : Z)
    (o : outcome (option usb_storage_interface)) (s : list Z) : Prop :=
  s = data /\ exists r, o = Done r /\ forall c, r = Some c -> accepted data size c.

Lemma parse_reject data size : parse_post data size (Done None) data.
Proof. split; [reflexivity|]. exists None. split; [reflexivity|discriminate]. Qed.
Lemma parse_accept data size c offset :
  storage_seen data size c offset -> byte data 5 (configuration c) -> configuration c <> 0 ->
  bulk_in c <> 0 -> bulk_out c <> 0 -> parse_post data size (Done (Some c)) data.
Proof.
  intros. split; [reflexivity|]. exists (Some c). split; [reflexivity|]. intros ? [= <-].
  unfold accepted. eauto 10.
Qed.
#[local] Hint Resolve parse_reject : crange.

Lemma boot_parse_loop_ok data size fuel offset storage c :
  size <= Z.of_nat (length data) -> size < 2 ^ 32 ->
  9 <= offset <= size -> size - offset <= Z.of_nat fuel ->
  byte data 5 (configuration c) -> configuration c <> 0 -> chain data size (fun _ => True) 9 offset ->
  (storage = true -> storage_seen data size c offset) ->
  wp list_hw (boot_parse_loop fuel size offset storage c) (parse_post data size) data.
Proof.
  intros Hsz H32. revert offset storage c.
  induction fuel as [|fuel IH]; intros offset storage c Ho Hf Hb5 Hconf Hch Hseen; cbn [boot_parse_loop].
  all: destruct (Z.ltb_spec offset size) as [Hlt|Hge]; cbn [negb].
  1: lia.
  1,3: case_if; cbn; auto with crange; bool_to_prop; subst; eapply parse_accept; eauto.
  read_byte len Hlen. rewrite sub32_small by lia. case_if; [cbn; auto with crange|].
  bool_to_prop. rewrite add32_small by lia.
  read_byte d1 Hd1. destruct (Z.eqb_spec d1 4) as [->|Hn4].
  - case_if; [cbn; auto with crange|]. bool_to_prop.
    destruct (storage && truthy (bulk_in c) && truthy (bulk_out c)) eqn:Efull.
    { bool_to_prop. subst storage. cbn. eapply parse_accept; eauto. }
    read_byte d3 Hd3. read_byte d4 Hd4. read_byte d5 Hd5. read_byte d6 Hd6. read_byte d7 Hd7.
    read_byte d2 Hd2. apply IH; cbn; try lia; auto using chain_step with lia.
    intros Hst. bool_to_prop. subst. exists offset, len.
    unfold storage_interface. cbn. split_and!; try assumption; try lia; try apply chain_nil; easy.
  - assert (not_interface data offset) as Hni by (exists d1; auto).
    assert (chain data size (fun _ => True) 9 (offset + len)) by (apply chain_step; auto with lia).
    destruct ((d1 =? 5) && storage) eqn:E5.
    + bool_to_prop. subst d1 storage. specialize (Hseen eq_refl).
      case_if; [cbn; auto with crange|]. bool_to_prop.
      read_byte d4 Hd4. read_byte d5 Hd5. read_byte d3 Hd3. read_byte d2 Hd2.
      case_if; [cbn; auto with crange|]. bool_to_prop.
      assert (forall b, truthy (d2 .& 128) = b -> bulk_endpoint data b offset d2) as He.
      { intros b Hb. repeat (split; [eauto|]). repeat split; auto. }
      destruct (truthy (d2 .& 128)) eqn:Edir; (case_if; [cbn; auto with crange|]);
        apply IH; cbn; auto with lia; intros _; [apply storage_seen_in|apply storage_seen_out];
        auto with lia.
    + apply IH; auto with lia. intros ->. apply storage_seen_skip; auto with lia.
Qed.

Lemma boot_parse_ok data size :
  0 <= size <= Z.of_nat (length data) -> size < 2 ^ 32 ->
  wp list_hw (boot_parse_usb_configuration size) (parse_post data size) data.
Proof.
  intros Hsz H32. unfold boot_parse_usb_configuration.
  destruct (Z.ltb_spec size 9); [cbn; auto with crange|].
  read_byte d0 H0. read_byte d1 H1. read_byte d2 H2. read_byte d3 H3. read_byte d5 H5.
  case_if; [cbn; auto with crange|]. bool_to_prop.
  apply boot_parse_loop_ok; cbn; auto with lia; first [apply chain_nil|discriminate].
Qed.

(** C17: the USB configuration parser is total and safe on every byte stream: it
    reads no byte outside the [size] bytes it was given, it terminates, and when
    it accepts, the selected interface is a bulk-only SCSI storage interface of the
    stream, and the two endpoint addresses are those of a 512-byte bulk IN and a
    bulk OUT endpoint that follow it before the next interface descriptor. *)
Theorem boot_parse_usb_configuration_sound data size :
  0 <= size <= Z.of_nat (length data) -> size < 2 ^ 32 ->
  exists r, exec list_reader (boot_parse_usb_configuration size) data = (Done r, data) /\
    forall c, r = Some c -> accepted data size c.
Proof.
  intros Hsz H32.
  pose proof (exec_wp _ _ _ _ data list_reader_ok (boot_parse_ok data size Hsz H32)) as H.
  destruct (exec _ _ data) as [o s]. cbn in H. destruct H as (-> & r & -> & Hr). eauto.
Qed.

(** The configuration stream of a typical memory stick. *)
Definition stick_descriptor (conf number ep_in ep_out : Z) : list Z :=
  [9; 2; 32; 0; 1; conf; 0; 128; 50;
   9; 4; number; 0; 2; 8; 6; 80; 0;
   7; 5; ep_in; 2; 0; 2; 0;
   7; 5; ep_out; 2; 0; 2; 0].

Lemma boot_parse_usb_configuration_sound_witness :
  exists r, exec list_reader (boot_parse_usb_configuration 32) (stick_descriptor 1 0 0x81 0x02)
      = (Done r, stick_descriptor 1 0 0x81 0x02) /\
    forall c, r = Some c -> accepted (stick_descriptor 1 0 0x81 0x02) 32 c.
Proof. apply boot_parse_usb_configuration_sound; cbn; lia. Defined.

(** C28: the parser recovers every well-formed selection from its encoding: a stick
    that offers a bulk IN endpoint [ep_in] and a bulk OUT endpoint [ep_out] on
    interface [number] of configuration [conf] is accepted with exactly these. *)
Theorem boot_parse_roundtrip conf number ep_in ep_out :
  conf <> 0 -> ep_in .& 15 <> 0 -> ep_in .& 0x70 = 0 -> ep_in .& 0x80 <> 0 ->
  ep_out .& 15 <> 0 -> ep_out .& 0x70 = 0 -> ep_out .& 0x80 = 0 ->
  exec list_reader (boot_parse_usb_configuration 32) (stick_descriptor conf number ep_in ep_out)
  = (Done (Some (Build_usb_storage_interface conf number ep_in ep_out)),
     stick_descriptor conf number ep_in ep_out).
Proof.
  intros Hc Hi1 Hi2 Hi3 Ho1 Ho2 Ho3.
  apply Z.eqb_neq in Hc, Hi1, Ho1. apply truthy_true in Hi3.
  apply truthy_false in Hi2, Ho2, Ho3.
  assert (forall i v k, stick_descriptor conf number ep_in ep_out !! Z.to_nat i = Some v -> 0 <= i ->
    exec list_reader (Vis i k) (stick_descriptor conf number ep_in ep_out) =
    exec list_reader (A := option usb_storage_interface) (k v) (stick_descriptor conf number ep_in ep_out)) as Hrd.
  { intros i v k Hv Hi. cbn [exec]. unfold list_reader.
    destruct (Z.ltb_spec i 0); [lia|]. now rewrite Hv. }
  assert (forall a m, (a .& m =? 0) = false -> truthy a = true) as Hnz.
  { intros a m H. apply truthy_true. intros ->. rewrite Z.land_0_l in H. discriminate. }
  pose proof (Hnz _ _ Hi1) as Hi0. pose proof (Hnz _ _ Ho1) as Ho0.
  unfold boot_parse_usb_configuration.
  assert (3 < Z.to_nat 32)%nat as Hk by (vm_compute; lia). generalize dependent (Z.to_nat 32).
  intros k Hk. replay_with Hrd ltac:(rewrite Hc; cbn [negb orb]). do 3 (destruct k as [|k]; [lia|]; cbn [boot_parse_loop];
    replay_with Hrd ltac:(progress (rewrite ?Hi1, ?Hi2, ?Hi3, ?Ho1, ?Ho2, ?Ho3))).
  destruct k as [|k]; [lia|]; cbn [boot_parse_loop]. closed_if. cbn [bulk_in bulk_out assign].
  rewrite Hi0, Ho0. reflexivity.
Qed.

Lemma boot_parse_roundtrip_witness :
  exec list_reader (boot_parse_usb_configuration 32) (stick_descriptor 1 0 0x81 0x02)
  = (Done (Some (Build_usb_storage_interface 1 0 0x81 0x02)), stick_descriptor 1 0 0x81 0x02).
Proof. apply boot_parse_roundtrip; vm_compute; congruence. Defined.

(** ** The CDB allowlist *)

(** The four commands that can be sent to a USB disk, all of them reads. *)
Inductive read_command : list Z -> Z -> Prop :=
| TestUnitReady c : length c = 6%nat -> cdb c 0 = 0x00 -> read_command c 0
| RequestSense c : length c = 6%nat -> cdb c 0 = 0x03 -> cdb c 4 = 18 -> read_command c 18
| ReadCapacity10 c : length c = 10%nat -> cdb c 0 = 0x25 -> read_command c 8
| Read10 c blocks : length c = 10%nat -> cdb c 0 = 0x28 -> 0 < blocks <= 32 ->
    cdb c 7 * 256 + cdb c 8 = blocks -> read_command c (blocks * 512).

Lemma cdb_u8 c i : Forall is_u8 c -> is_u8 (cdb c i).
Proof.
  intros H. unfold cdb. destruct (c !! i) as [x|] eqn:E; [|cbn; ulia].
  cbn. rewrite Forall_forall in H. apply H. now apply list_elem_of_lookup_2 in E.
Qed.

(** The 16-bit big-endian block count: the two bytes do not overlap. *)
Lemma be16_value hi lo : is_u8 hi -> is_u8 lo -> (hi <<% 8) .| lo = hi * 256 + lo.
Proof.
  intros Hh Hl. rewrite shl32_small by ulia.
  now rewrite (lor_add 8) by (auto; lia).
Qed.

(** The CDB filter accepts exactly the read-only commands with their exact
    transfer lengths: TEST UNIT READY, an 18-byte REQUEST SENSE, READ CAPACITY(10),
    and READ(10) of 1 to 32 blocks with a matching byte count. No other opcode,
    no null pointer, and no length that disagrees with the command passes. *)
Lemma storage_read_cdb_valid_spec command bytes :
  (forall c, command = Some c -> Forall is_u8 c) ->
  storage_read_cdb_valid command (match command with Some c => Z.of_nat (length c) | None => 0 end) bytes
    = true <-> exists c, command = Some c /\ read_command c bytes.
Proof.
  intros Hu. destruct command as [c|]; cbn [storage_read_cdb_valid].
  2:{ split; [discriminate|]. intros (c & [=] & _). }
  specialize (Hu c eq_refl).
  pose proof (be16_value (cdb c 7) (cdb c 8) (cdb_u8 _ _ Hu) (cdb_u8 _ _ Hu)) as Hbe.
  cbn zeta. rewrite Hbe. split.
  - intros H. exists c. split; [reflexivity|].
    repeat case_if_in H; bool_to_prop; subst; try discriminate.
    + apply TestUnitReady; [lia|assumption].
    + apply RequestSense; [lia|assumption..].
    + apply ReadCapacity10; [lia|assumption].
    + rewrite mul32_small by lia. eapply Read10; eauto with lia.
  - intros (? & [= <-] & H). destruct H as [c Hl H0|c Hl H0 H4|c Hl H0|c b Hl H0 Hb Hv];
      rewrite Hl, H0.
    + reflexivity.
    + rewrite H4. reflexivity.
    + reflexivity.
    + rewrite Hv, mul32_small by lia. repeat closed_if.
      rewrite !andb_true_iff, Z.gtb_ltb, Z.ltb_lt, Z.leb_le, Z.eqb_eq. lia.
Qed.

Lemma storage_read_cdb_valid_spec_example :
  storage_read_cdb_valid (Some [0x28; 0; 0; 0; 0; 65; 0; 0; 32; 0]) 10 16384 = true <->
  exists c, Some [0x28; 0; 0; 0; 0; 65; 0; 0; 32; 0] = Some c /\ read_command c 16384.
Proof.
  apply (storage_read_cdb_valid_spec (Some [0x28; 0; 0; 0; 0; 65; 0; 0; 32; 0])).
  intros c [= <-]. repeat constructor; unfold in_u; lia.
Defined.
