(* ===== verification/StorageRules.v ===== *)
(** * Validation rules of the storage service: the pure half of [Drivers/Storage/Storage.c] *)
From stdpp Require Import list gmap strings.
From S2P Require Import Prelude Machine.

Definition STORAGE_MAX_BLOCKS : Z := 32.
Definition STORAGE_MMIO : Z := 0x80C00000.

(** [storage_map_mmio_window]: the mapper argument is the assembly API's [map_page];
    [mapped_page] is the cached page, returned updated. The pointers the callers
    pass are never null. *)
Definition storage_map_mmio_window (physical mapped_page : Z) : prog bus (Z * Z) :=
  let page := physical .& not32 0xFFF in
  let offset := physical .& 0xFFF in
  if (page =? 0) || truthy (physical .& 15) || (offset >? 0xF00) then Ret (0, mapped_page)
  else if negb (mapped_page =? page) then
    let! ok := api "map_page" [STORAGE_MMIO; page; 0x1B] in
    if ok =? 0 then Ret (0, mapped_page) else Ret (STORAGE_MMIO +% offset, page)
  else Ret (STORAGE_MMIO +% offset, mapped_page).

Definition storage_valid_range (capacity lba blocks : Z) : bool :=
  negb (blocks =? 0) && (blocks <=? STORAGE_MAX_BLOCKS) &&
  (lba <? capacity) && (blocks <=? capacity -% lba).

(** [words] is the 256-word IDENTIFY block. *)
Definition storage_identify_capacity (words : list Z) : Z :=
  let w i := default 0 (words !! Z.to_nat i) in
  if truthy (w 0 .& 0x8004) || (w 49 .& 0x200 =? 0) then 0
  else if (w 106 .& 0xC000 =? 0x4000) && truthy (w 106 .& 0x1000) &&
          (negb (w 117 =? 256) || truthy (w 118)) then 0
  else
    let blocks := w 60 .| (w 61 <<% 16) in
    if blocks >? 0x10000000 then 0x10000000 else blocks.

Definition storage_user_range (slot offset size : Z) : Z :=
  if (slot <? 0x100000) || (slot >? 0x40000000 -% 0xA00000) ||
     (size =? 0) || (offset >=? 0x500000) || (size >? 0x500000 -% offset) then 0
  else slot +% 0x400000 +% offset.

Definition storage_user_page_writable (pde pte : Z) : bool :=
  (pde .& 0x87 =? 7) && (pte .& 0x207 =? 0x207).

(** ** Properties *)

(** The range check is exact on 32-bit arguments: it passes precisely the
    requests of 1 to 32 blocks that lie within the capacity, with no wrap-around
    of [lba + blocks] letting a request past the end of the disk. *)
Lemma storage_valid_range_spec capacity lba blocks :
  is_u32 capacity -> is_u32 lba -> is_u32 blocks ->
  storage_valid_range capacity lba blocks = true <->
  1 <= blocks <= 32 /\ lba + blocks <= capacity.
Proof.
  intros Hc Hl Hb. unfold storage_valid_range, STORAGE_MAX_BLOCKS.
  rewrite !andb_true_iff, negb_true_iff, Z.eqb_neq, !Z.leb_le, Z.ltb_lt.
  destruct (Z.lt_ge_cases lba capacity).
  - rewrite sub32_small by ulia. ulia.
  - split; [lia|ulia].
Qed.

Lemma storage_valid_range_spec_example :
  storage_valid_range 4096 4064 32 = true <-> 1 <= 32 <= 32 /\ 4064 + 32 <= 4096.
Proof. apply storage_valid_range_spec; ulia. Defined.

(** A user output range is accepted only when it lies inside the caller's 5 MiB
    data segment: the linear address is the segment base plus the offset, the whole
    range [offset, offset + size) is within the segment, and it never reaches past
    the caller's 10 MiB slot or 1 GiB. Every range that is inside is accepted. *)
Lemma storage_user_range_spec slot offset size :
  is_u32 slot -> is_u32 offset -> is_u32 size ->
  (0x100000 <= slot <= 0x40000000 - 0xA00000 /\ 1 <= size /\ offset + size <= 0x500000 ->
   storage_user_range slot offset size = slot + 0x400000 + offset) /\
  (storage_user_range slot offset size <> 0 ->
   slot + 0x400000 <= storage_user_range slot offset size /\
   storage_user_range slot offset size + size <= slot + 0x400000 + 0x500000 /\
   storage_user_range slot offset size + size <= slot + 0xA00000 <= 0x40000000).
Proof.
  intros Hs Ho Hz. unfold storage_user_range.
  change (0x40000000 -% 0xA00000) with (0x40000000 - 0xA00000).
  rewrite Z.geb_leb, !Z.gtb_ltb.
  destruct (Z.ltb_spec slot 0x100000), (Z.ltb_spec (0x40000000 - 0xA00000) slot),
    (Z.eqb_spec size 0), (Z.leb_spec 0x500000 offset); cbn [orb]; try lia.
  rewrite (sub32_small 0x500000 offset) by ulia.
  destruct (Z.ltb_spec (0x500000 - offset) size); [ulia|].
  rewrite (add32_small slot), (add32_small (slot + _)) by ulia. ulia.
Qed.

Lemma storage_user_range_spec_example :
  (0x100000 <= 0x100000 <= 0x40000000 - 0xA00000 /\ 1 <= 512 /\ 0x4FFE00 + 512 <= 0x500000 ->
   storage_user_range 0x100000 0x4FFE00 512 = 0x100000 + 0x400000 + 0x4FFE00) /\
  (storage_user_range 0x100000 0x4FFE00 512 <> 0 ->
   0x100000 + 0x400000 <= storage_user_range 0x100000 0x4FFE00 512 /\
   storage_user_range 0x100000 0x4FFE00 512 + 512 <= 0x100000 + 0x400000 + 0x500000 /\
   storage_user_range 0x100000 0x4FFE00 512 + 512 <= 0x100000 + 0xA00000 <= 0x40000000).
Proof. apply storage_user_range_spec; ulia. Defined.

(** The capacity reported for an ATA disk is within LBA28, and is the disk's own
    28-bit count when that count is. *)
Lemma storage_identify_capacity_bound words :
  Forall is_u16 words -> 0 <= storage_identify_capacity words <= 0x10000000.
Proof.
  intros Hw. assert (forall i, is_u16 (default 0 (words !! i))) as H.
  { intros i. destruct (words !! i) as [x|] eqn:E; [|cbn; ulia].
    rewrite Forall_forall in Hw. apply Hw. now apply list_elem_of_lookup_2 in E. }
  unfold storage_identify_capacity. repeat case_if; bool_to_prop; try lia.
  split; [|lia]. apply Z.lor_nonneg. split; [apply H|apply shl32_range].
Qed.

(** The MMIO alias of a register block keeps its offset in the page. *)
Lemma storage_map_mmio_window_ok physical mapped (Q : Z * Z -> Prop) h :
  is_u32 physical ->
  (forall m, Q (0, m)) ->
  (physical mod 4096 <= 0xF00 ->
   Q (STORAGE_MMIO + physical mod 4096, physical - physical mod 4096)) ->
  wp (any_hw (fun _ e => e = Api "map_page" [STORAGE_MMIO; physical - physical mod 4096; 0x1B]))
    (storage_map_mmio_window physical mapped) (fun o _ => exists r, o = Done r /\ Q r) h.
Proof.
  intros Hp Hz Hq. unfold storage_map_mmio_window.
  change 0xFFF with (2 ^ 12 - 1). rewrite land_not_mask, land_ones_mod by (auto; lia).
  change (2 ^ 12) with 4096. pose proof (Z.mod_pos_bound physical 4096).
  case_if; [cbn; eauto|]. bool_to_prop.
  assert (STORAGE_MMIO +% physical mod 4096 = STORAGE_MMIO + physical mod 4096) as E1
    by (apply add32_small; unfold STORAGE_MMIO; lia).
  rewrite E1. case_if; bool_to_prop.
  - cbn. split; [reflexivity|]. intros v t' [_ ->]. case_if; cbn; eauto with lia.
  - subst mapped. cbn. eauto with lia.
Qed.
