(* ===== verification/Transport.v ===== *)
(** * The read-only transport: the hardware half of [Boot/BootStorage.c]

    The file is compiled twice: as the pre-paging bootstrap, and included by
    [Drivers/Storage/Storage.c] with [KERNEL_STORAGE] defined. [kernel] selects the
    build. The static variables of the translation unit are one record; in the
    bootstrap build the ones [Storage.c] declares are not used. The hooks
    [Storage.c] supplies to the transport ([storage_usb_candidate],
    [storage_map_mmio], [storage_handoff_ports]) are here too.

    Every loop the code bounds by the time-stamp counter carries [fuel] and
    diverges without it. *)
From stdpp Require Import list gmap strings.
From S2P Require Import Prelude Machine Runtime BootImage StorageRules.

Definition DMA_BASE : Z := 0x30050000.
Definition CONTROL_BUFFER : Z := 0x30051000.
Definition CBW_BUFFER : Z := 0x30051400.
Definition CSW_BUFFER : Z := 0x30051440.
Definition SETUP_BUFFER : Z := 0x30051480.
Definition TRANSFER_BUFFER : Z := 0x30052000.
Definition MANIFEST : Z := 0x30000800.
Definition BOOT_REPORT : Z := 0x3004F000.
Definition BLOCK_SIZE : Z := 512.
Definition BLOCKS_PER_READ : Z := 32.
Definition periodic : Z := 0x30056000.
Definition queue : Z := DMA_BASE.
Definition descriptor (index : Z) : Z := DMA_BASE + 0x100 + index * 64.

(** Field offsets of [struct qtd] and [struct queue_head]. *)
Definition qtd_next : Z := 0.
Definition qtd_alternate : Z := 4.
Definition qtd_token : Z := 8.
Definition qtd_buffer (i : Z) : Z := 12 + 4 * i.
Definition qh_link : Z := 0.
Definition qh_endpoint : Z := 4.
Definition qh_capabilities : Z := 8.
Definition qh_next : Z := 16.
Definition qh_alternate : Z := 20.
Definition qh_token : Z := 24.

(** [struct storage_device_info] *)
Record storage_device_info := {
  dev_type : Z; sector_size : Z; block_count : Z; flags : Z; model : list Z
}.
#[export] Instance eta_storage_device_info : Eta storage_device_info := fun s =>
  Build_storage_device_info (dev_type s) (sector_size s) (block_count s) (flags s) (model s).

(** The static variables of the translation unit. *)
Record statics := {
  ehci : Z; ticks_per_ms : Z;
  usb_address : Z; usb_tag : Z; last_block : Z;
  toggle_in : Z; toggle_out : Z; transport_dead : Z;
  usb_interface : usb_storage_interface;
  ata_port : Z; ata_device : Z; backend : Z;
  (* Storage.c *)
  devices : list storage_device_info;
  initialized : Z; discovered : Z; device_mask : Z; mapped_mmio : Z;
  ata_dead : list Z;
  usb_discovered : Z; companion_target : Z; companions_ready : Z;
  companion_ports : Z; companion_keep : Z
}.
#[export] Instance eta_statics : Eta statics := fun s =>
  Build_statics (ehci s) (ticks_per_ms s) (usb_address s) (usb_tag s) (last_block s)
    (toggle_in s) (toggle_out s) (transport_dead s) (usb_interface s)
    (ata_port s) (ata_device s) (backend s)
    (devices s) (initialized s) (discovered s) (device_mask s) (mapped_mmio s) (ata_dead s)
    (usb_discovered s) (companion_target s) (companions_ready s) (companion_ports s)
    (companion_keep s).

(** Zeroed BSS. *)
Definition bss : statics :=
  Build_statics 0 0 0 0 0 0 0 0 (Build_usb_storage_interface 0 0 0 0) 0 0 0
    (replicate 5 (Build_storage_device_info 0 0 0 0 (replicate 40 0)))
    0 0 0 0 (replicate 4 0) 0 0 0 0 0.

Definition unit_code := code statics.

(** ** Memory and port helpers *)
Definition zero (destination size : Z) : prog bus unit :=
  for_range (Z.to_nat size) 0 (fun i => store8 (destination + i) 0).

Definition copy (destination source size : Z) : prog bus unit :=
  for_range (Z.to_nat size) 0 (fun i =>
    let! v := load8 (source + i) in store8 (destination + i) v).

(** [copy] from a local array. *)
Fixpoint copy_local (destination : Z) (source : list Z) : prog bus unit :=
  match source with
  | [] => Ret tt
  | b :: rest => store8 destination b ;; copy_local (destination + 1) rest
  end.

Definition equal (a b size : Z) : prog bus bool :=
  let! r := for_break (Z.to_nat size) 0 (fun i =>
    let! l := load8 (a + i) in let! r := load8 (b + i) in
    Ret (if l =? r then None else Some false)) in
  Ret (default true r).

Definition pci_read (device offset : Z) : prog bus Z :=
  out32 0xCF8 (0x80000000 .| device .| offset) ;; in32 0xCFC.

Definition pci_write (device offset value : Z) : prog bus unit :=
  out32 0xCF8 (0x80000000 .| device .| offset) ;; out32 0xCFC value.

Definition report (i v : Z) : prog bus unit := store32 (BOOT_REPORT + 4 * i) v.

(** [ehci[index]] *)
Definition ehci_reg (base index : Z) : Z := base +% 4 * index.
Definition ehci_read (base index : Z) : prog bus Z := load32 (ehci_reg base index).
Definition ehci_write (base index v : Z) : prog bus unit := store32 (ehci_reg base index) v.

Definition codes (message : string) : list Z :=
  map (fun a => Z.of_N (Ascii.N_of_ascii a)) (String.list_ascii_of_string message).

Definition hex_digit (d : Z) : Z := if d <? 10 then 48 + d else 65 + d - 10.

Definition be32 (bytes : Z) : prog bus Z :=
  let! b0 := load8 bytes in let! b1 := load8 (bytes + 1) in
  let! b2 := load8 (bytes + 2) in let! b3 := load8 (bytes + 3) in
  Ret ((b0 <<% 24) .| (b1 <<% 16) .| (b2 <<% 8) .| b3).

Definition put_be32 (value : Z) : list Z :=
  [u8 (value >>> 24); u8 (value >>> 16); u8 (value >>> 8); u8 value].

(** ** Time *)

(** [while (!(in8(0x61) & 0x20) && --limit)]; the final [limit]. *)
Fixpoint pit_wait (limit : nat) : prog bus Z :=
  let! v := in8 0x61 in
  if truthy (v .& 0x20) then Ret (Z.of_nat limit)
  else match limit with
  | S (S _ as limit') => pit_wait limit'
  | _ => Ret 0
  end.

Section BUILD.
Context (kernel : bool) (fuel : nat).

Definition screen (message : string) (detail : Z) : prog bus unit :=
  if kernel then Ret tt else
  let vga i := 0xB8000 + 2 * i in
  let text := take 65 (codes message) in
  let column := Z.of_nat (length text) in
  for_range 80 0 (fun i => store16 (vga i) 0x1F20) ;;
  for_range (length text) 0 (fun i =>
    store16 (vga i) (0x1F00 .| default 0 (text !! Z.to_nat i))) ;;
  store16 (vga column) 0x1F20 ;;
  for_range 8 0 (fun i =>
    let digit := (detail >>> (28 - i * 4)) .& 15 in
    store16 (vga (column + 1 + i)) (0x1F00 .| hex_digit digit)).

(** [KPANIC], or the message and an endless halt. *)
Definition fail {A} (message : string) (detail : Z) : unit_code A :=
  if kernel then cpanic message else io (screen message detail) ;* cpanic message.

Definition calibrate_timer : unit_code unit :=
  let* original := io (in8 0x61) in
  io (out8 0x61 (u8 (original .& not32 3))) ;*
  io (out8 0x43 0xB0) ;*
  io (out8 0x42 (u8 23864)) ;*
  io (out8 0x42 (u8 (23864 >>> 8))) ;*
  let* start := io rdtsc in
  io (out8 0x61 (u8 ((original .& not32 2) .| 1))) ;*
  let* limit := io (pit_wait (Z.to_nat 10000000)) in
  let* now := io rdtsc in
  modify (fun g => g <| ticks_per_ms := (now -% start) / 20 |>) ;*
  io (out8 0x61 original) ;*
  let* ticks := gets ticks_per_ms in
  if (limit =? 0) || (ticks <? 10000) || (ticks >? 4000000)
  then fail "Boot timer failed" ticks
  else cret tt.

Fixpoint delay_loop (n : nat) (start duration : Z) : prog bus unit :=
  match n with
  | O => OutOfFuel
  | S n' =>
      let! now := rdtsc in
      if now -% start <? duration then delay_loop n' start duration else Ret tt
  end.

Definition delay (ms : Z) : unit_code unit :=
  let* start := io rdtsc in
  let* ticks := gets ticks_per_ms in
  io (delay_loop fuel start (ms *% ticks)).

(** [do { if (test) return ...; } while (tsc() - start < limit)]: the body leaves
    with [Some]; [None] is the timeout. *)
Fixpoint poll {R} (n : nat) (start limit : Z) (body : prog bus (option R))
    : prog bus (option R) :=
  match n with
  | O => OutOfFuel
  | S n' =>
      let! r := body in
      match r with
      | Some x => Ret (Some x)
      | None =>
          let! now := rdtsc in
          if now -% start <? limit then poll n' start limit body else Ret None
      end
  end.

Definition wait_register (offset mask value : Z) : unit_code bool :=
  let* start := io rdtsc in
  let* base := gets ehci in
  let* ticks := gets ticks_per_ms in
  let* r := io (poll fuel start (ticks *% 1000)
    (let! v := ehci_read base (offset / 4) in
     Ret (if v .& mask =? value then Some true else None))) in
  cret (default false r).

(** ** The EHCI controller *)
Definition stop_controller : unit_code unit :=
  let* base := gets ehci in
  if base =? 0 then cret tt else
  io (ehci_write base 0 0) ;*
  let* stopped := wait_register 4 (1 <<% 12) (1 <<% 12) in
  if negb stopped then
    let* status := io (ehci_read base 1) in fail "EHCI cannot stop DMA" status
  else io (ehci_write base 2 0).

(** [while (pci_read(device, extended) & (1u << 16))] with its timeout *)
Fixpoint legacy_wait (n : nat) (device extended start limit : Z) : prog bus bool :=
  match n with
  | O => OutOfFuel
  | S n' =>
      let! v := pci_read device extended in
      if truthy (v .& (1 <<% 16)) then
        let! now := rdtsc in
        if now -% start >=? limit then Ret false
        else legacy_wait n' device extended start limit
      else Ret true
  end.

(** The walk over the extended capabilities, [n] iterations left of 48; [false] is
    [return 0]. *)
Fixpoint take_ownership (n : nat) (device extended : Z) : unit_code bool :=
  match n with
  | O => cret true
  | S n' =>
      if extended =? 0 then cret true
      else if (extended <? 0x40) || (extended >? 0xF8) || truthy (extended .& 3) then cret false
      else
        let* legacy := io (pci_read device extended) in
        let* owned :=
          (if legacy .& 255 =? 1 then
             io (pci_write device extended (legacy .| (1 <<% 24))) ;*
             let* start := io rdtsc in
             let* ticks := gets ticks_per_ms in
             let* released := io (legacy_wait fuel device extended start (ticks *% 1000)) in
             if released then io (pci_write device (extended + 4) 0) ;* cret true
             else cret false
           else cret true) in
        if negb owned then cret false else
        let extended := (legacy >>> 8) .& 255 in
        if (Nat.eqb n' 0) && truthy extended then cret false
        else take_ownership n' device extended
  end.

(** [Storage.c]: the mapping hook *)
Definition storage_map_mmio (physical : Z) : unit_code Z :=
  let* cached := gets mapped_mmio in
  let* r := io (storage_map_mmio_window physical cached) in
  modify (fun g => g <| mapped_mmio := snd r |>) ;*
  cret (fst r).

Definition start_controller (device : Z) : unit_code Z :=
  io (report 1 2) ;*
  io (report 2 device) ;*
  let* bar := io (pci_read device 0x10) in
  if negb (bar .& 7 =? 0) || (bar .& not32 15 <? 0x80000000) || (bar =? 0xFFFFFFFF)
  then cret 0 else
  let* command := io (pci_read device 4) in
  io (pci_write device 4 ((command .& 0xFFFF) .| 6)) ;*
  let* capability :=
    (if kernel then storage_map_mmio (bar .& not32 15) else cret (bar .& not32 15)) in
  if capability =? 0 then cret 0 else
  let* caplength := io (ehci_read capability 0) in
  let length := caplength .& 255 in
  if (length <? 0x10) || (length >? 0x80) || truthy (length .& 3) then cret 0 else
  let* hccparams := io (ehci_read capability 2) in
  let* owned := take_ownership 48 device ((hccparams >>> 8) .& 255) in
  if negb owned then cret 0 else
  modify (fun g => g <| ehci := capability +% length |>) ;*
  let base := capability +% length in
  stop_controller ;*
  io (ehci_write base 0 2) ;*
  let* reset := wait_register 0 2 0 in
  if negb reset then fail "EHCI reset timeout" device else
  io (ehci_write base 2 0) ;*
  io (ehci_write base 1 0x3F) ;*
  let* hccparams := io (ehci_read capability 2) in
  (if truthy (hccparams .& 1) then io (ehci_write base 4 0) else cret tt) ;*
  cfor 1024 0 (fun i => io (store32 (periodic + 4 * i) 1)) ;*
  io (ehci_write base 5 periodic) ;*
  io (ehci_write base 6 queue) ;*
  io (ehci_write base 0 1) ;*
  let* running := wait_register 4 (1 <<% 12) 0 in
  if negb running then fail "EHCI run timeout" device else
  io (ehci_write base (0x40 / 4) 1) ;*
  let* hcsparams := io (ehci_read capability 1) in
  let ports := hcsparams .& 15 in
  cfor (Z.to_nat ports) 0 (fun port =>
    let* value := io (ehci_read base (0x44 / 4 + port)) in
    let value := value .& not32 0x2A in
    let* hcsparams := io (ehci_read capability 1) in
    let value := if truthy (hcsparams .& 16) then value .| (1 <<% 12) else value in
    io (ehci_write base (0x44 / 4 + port) value)) ;*
  delay 100 ;*
  cret ports.

(** ** Transfers *)
Definition qtd_token_value (pid toggle length : Z) : Z :=
  (toggle <<% 31) .| (length <<% 16) .| (3 <<% 10) .| (pid <<% 8) .| 0x80.

Definition make_qtd (index pid toggle buffer length next : Z) : prog bus unit :=
  let q := descriptor index in
  zero q 64 ;;
  store32 (q + qtd_next) next ;;
  store32 (q + qtd_alternate) 1 ;;
  store32 (q + qtd_token) (qtd_token_value pid toggle length) ;;
  store32 (q + qtd_buffer 0) buffer ;;
  for_range 4 1 (fun i => store32 (q + qtd_buffer i) ((buffer .& not32 4095) +% i * 4096)).

(** One round of the polling loop of [transfer]: [Some success] leaves it. *)
Definition transfer_poll (base last : Z) : prog bus (option bool) :=
  let! status := ehci_read base 1 in
  if truthy (status .& (1 <<% 4)) then Ret (Some false) else
  let! overlay := load32 (queue + qh_token) in
  if truthy (overlay .& 0x7C) then Ret (Some false) else
  let! token := load32 (descriptor last + qtd_token) in
  if token .& 0x80 =? 0 then
    let! token := load32 (descriptor last + qtd_token) in
    Ret (Some (token .& 0x7C =? 0))
  else Ret None.

Definition transfer (endpoint packet_size last : Z) : unit_code bool :=
  let* dead := gets transport_dead in
  if truthy dead then cret false else
  let* address := gets usb_address in
  let* base := gets ehci in
  io (zero queue 96) ;*
  io (store32 (queue + qh_link) (queue .| 2)) ;*
  io (store32 (queue + qh_endpoint)
        (address .| (endpoint <<% 8) .| (2 <<% 12) .| (1 <<% 14) .| (1 <<% 15)
         .| (packet_size <<% 16) .| (8 <<% 28))) ;*
  io (store32 (queue + qh_capabilities) (1 <<% 30)) ;*
  io (store32 (queue + qh_next) (descriptor 0)) ;*
  io (store32 (queue + qh_alternate) 1) ;*
  io barrier ;*
  io (ehci_write base 6 queue) ;*
  io (ehci_write base 0 (1 .| (1 <<% 5))) ;*
  let* start := io rdtsc in
  let* ticks := gets ticks_per_ms in
  let* polled := io (poll fuel start (ticks *% 1000) (transfer_poll base last)) in
  let success := default false polled in
  io (ehci_write base 0 1) ;*
  let* idle := wait_register 4 (1 <<% 15) 0 in
  if negb idle then
    let* status := io (ehci_read base 1) in fail "EHCI schedule will not stop" status
  else if negb success then
    let* status := io (ehci_read base 1) in
    io (report 4 status) ;*
    let* token := io (load32 (queue + qh_token)) in
    io (report 5 token) ;*
    modify (fun g => g <| transport_dead := 1 |>) ;*
    cret false
  else cret true.

Definition control (type request value index length : Z) : unit_code bool :=
  let s := SETUP_BUFFER in
  io (copy_local s [type; request; u8 value; value >>> 8; u8 index; index >>> 8;
                    u8 length; length >>> 8]) ;*
  let status := if truthy length then 2 else 1 in
  io (make_qtd 0 2 0 s 8 (descriptor 1)) ;*
  (if truthy length then
     io (make_qtd 1 (if truthy (type .& 0x80) then 1 else 0) 1 CONTROL_BUFFER length
           (descriptor 2)) ;*
     io (store32 (descriptor 1 + qtd_alternate) (descriptor 2))
   else cret tt) ;*
  io (make_qtd status (if truthy length && truthy (type .& 0x80) then 0 else 1) 1 0 0 1) ;*
  let* ok := transfer 0 64 status in
  if negb ok then cret false
  else if length =? 0 then cret true
  else
    let* token := io (load32 (descriptor 1 + qtd_token)) in
    cret ((token >>> 16) .& 0x7FFF =? 0).

(** [CONTROL_BUFFER[i]] *)
Definition control_byte (i : Z) : unit_code Z := io (load8 (CONTROL_BUFFER + i)).

Definition enumerate_storage : unit_code bool :=
  io (report 1 4) ;*
  modify (fun g => g <| usb_address := 0 |> <| transport_dead := 0 |>
                     <| toggle_in := 0 |> <| toggle_out := 0 |>) ;*
  let* ok := control 0x80 6 0x100 0 18 andalso (let* b7 := control_byte 7 in cret (b7 =? 64)) in
  if negb ok then cret false else
  let* configurations := control_byte 17 in
  let* ok := (let* b0 := control_byte 0 in cret (b0 =? 18)) andalso
             (let* b1 := control_byte 1 in cret (b1 =? 1)) in
  if negb ok || (configurations =? 0) then cret false else
  let* ok := control 0 5 1 0 0 in
  if negb ok then cret false else
  modify (fun g => g <| usb_address := 1 |>) ;*
  delay 2 ;*
  io (report 1 5) ;*
  let* r := cloop (Z.to_nat configurations) 0 (fun index =>
    let* ok := control 0x80 6 (u16 (0x200 .| index)) 0 9 in
    if negb ok then cret (Some false) else
    let* b2 := control_byte 2 in let* b3 := control_byte 3 in
    let size := b2 .| (b3 <<% 8) in
    if (size <? 9) || (size >? 1024) then cret None else
    let* ok := control 0x80 6 (u16 (0x200 .| index)) 0 (u16 size) in
    if negb ok then cret (Some false) else
    let* parsed := io (hoist (fun i => Load W8 (CONTROL_BUFFER + i))
                         (boot_parse_usb_configuration size)) in
    match parsed with
    | None => cret None
    | Some interface =>
        modify (fun g => g <| usb_interface := interface |>) ;*
        let* ok := control 0 9 (configuration interface) 0 0 in
        if negb ok then cret (Some false) else
        delay 10 ;*
        cret (Some true)
    end) in
  cret (default false r).

Definition bulk (input : bool) (buffer length : Z) : unit_code bool :=
  let* toggle := gets (if input then toggle_in else toggle_out) in
  let* interface := gets usb_interface in
  let endpoint := (if input then bulk_in interface else bulk_out interface) .& 15 in
  io (make_qtd 0 (if input then 1 else 0) toggle buffer length 1) ;*
  let* ok := transfer endpoint 512 0 in
  if negb ok then cret false else
  let* token := io (load32 (descriptor 0 + qtd_token)) in
  let remaining := (token >>> 16) .& 0x7FFF in
  if truthy remaining then modify (fun g => g <| transport_dead := 1 |>) ;* cret false else
  let toggle := toggle .^ (((length +% 511) / 512) .& 1) in
  modify (fun g => if input then g <| toggle_in := toggle |> else g <| toggle_out := toggle |>) ;*
  cret true.

(** 1 success, 0 SCSI check condition, -1 dead transport. *)
Definition scsi (command : list Z) (command_size length : Z) : unit_code Z :=
  if negb (storage_read_cdb_valid (Some command) command_size length) then cret (-1) else
  io (zero CBW_BUFFER 31) ;*
  io (store32 CBW_BUFFER 0x43425355) ;*
  modify (fun g => g <| usb_tag := usb_tag g +% 1 |>) ;*
  let* tag := gets usb_tag in
  io (store32 (CBW_BUFFER + 4) tag) ;*
  io (store32 (CBW_BUFFER + 8) length) ;*
  io (store8 (CBW_BUFFER + 12) 0x80) ;*
  io (store8 (CBW_BUFFER + 14) (u8 command_size)) ;*
  io (copy_local (CBW_BUFFER + 15) (take (Z.to_nat command_size) command)) ;*
  let* sent := bulk false CBW_BUFFER 31 in
  if negb sent then cret (-1) else
  let* data := (if length =? 0 then cret true else bulk true TRANSFER_BUFFER length) in
  if negb data then cret (-1) else
  let* status := bulk true CSW_BUFFER 13 in
  if negb status then cret (-1) else
  let* bad :=
    (let* w := io (load32 CSW_BUFFER) in cret (negb (w =? 0x53425355))) orelse
    (let* w := io (load32 (CSW_BUFFER + 4)) in cret (negb (w =? tag))) orelse
    (let* w := io (load32 (CSW_BUFFER + 8)) in cret (w >? length)) orelse
    (let* b := io (load8 (CSW_BUFFER + 12)) in cret (b >? 1)) in
  if bad then modify (fun g => g <| transport_dead := 1 |>) ;* cret (-1) else
  let* b := io (load8 (CSW_BUFFER + 12)) in
  if b =? 1 then cret 0 else
  let* residue := io (load32 (CSW_BUFFER + 8)) in
  if negb (residue =? 0) then modify (fun g => g <| transport_dead := 1 |>) ;* cret (-1)
  else cret 1.

Definition storage_ready : unit_code bool :=
  io (report 1 6) ;*
  let ready := [0; 0; 0; 0; 0; 0] in
  let sense := [3; 0; 0; 0; 18; 0] in
  let capacity := [0x25; 0; 0; 0; 0; 0; 0; 0; 0; 0] in
  let* r := cloop 30 0 (fun _ =>
    let* result := scsi ready 6 0 in
    if result <? 0 then cret (Some false)
    else if result =? 1 then
      let* ok := (let* r := scsi capacity 10 8 in cret (r =? 1)) andalso
                 (let* size := io (be32 (TRANSFER_BUFFER + 4)) in cret (size =? 512)) in
      if negb ok then cret (Some false) else
      let* last := io (be32 TRANSFER_BUFFER) in
      modify (fun g => g <| last_block := last |>) ;*
      cret (Some ((last >=? 4095) && negb (last =? 0xFFFFFFFF)))
    else
      let* r := scsi sense 6 18 in
      if r <? 0 then cret (Some false) else
      delay 100 ;*
      cret None) in
  cret (default false r).

Definition read10 (lba blocks : Z) : list Z :=
  [0x28; 0] ++ put_be32 lba ++ [0; u8 (blocks >>> 8); u8 blocks; 0].

Definition usb_read (lba blocks : Z) : unit_code bool :=
  let* last := gets last_block in
  if (blocks =? 0) || (blocks >? BLOCKS_PER_READ) || (lba >? last) ||
     (blocks -% 1 >? last -% lba) then cret false else
  let* r := scsi (read10 lba blocks) 10 (blocks *% BLOCK_SIZE) in
  cret (r =? 1).

(** ** ATA *)
Definition ata_poll (port mask wanted : Z) : prog bus (option bool) :=
  let! status := in8 (port + 7) in
  Ret (if (status =? 0) || (status =? 255) then Some false
       else if status .& 0x80 =? 0 then
         if truthy (status .& 0x21) then Some false
         else if status .& mask =? wanted then Some true else None
       else None).

Definition ata_wait (mask wanted : Z) : unit_code bool :=
  let* start := io rdtsc in
  let* port := gets ata_port in
  let* ticks := gets ticks_per_ms in
  let* r := io (poll fuel start (ticks *% 1000) (ata_poll port mask wanted)) in
  cret (default false r).

(** The 400 ns delay: four reads of the alternate status. *)
Definition ata_settle (port : Z) : prog bus unit :=
  for_range 4 0 (fun _ => in8 (port + 0x206) ;; Ret tt).

(** 256 words from the data port to [destination]. *)
Definition ata_sector (port destination : Z) : prog bus unit :=
  for_range 256 0 (fun word =>
    let! value := in16 port in store16 (destination + 2 * word) value).

Definition ata_read (lba blocks : Z) : unit_code bool :=
  if (blocks =? 0) || (blocks >? BLOCKS_PER_READ) || (lba >? 0x0FFFFFFF) ||
     (blocks -% 1 >? 0x0FFFFFFF -% lba) then cret false else
  let* port := gets ata_port in
  let* device := gets ata_device in
  io (out8 (port + 0x206) 2) ;*
  io (out8 (port + 6) (u8 (0xE0 .| (device <<% 4) .| (lba >>> 24)))) ;*
  io (ata_settle port) ;*
  let* ready := ata_wait 0xC0 0x40 in
  if negb ready then cret false else
  io (out8 (port + 2) (u8 blocks)) ;*
  io (out8 (port + 3) (u8 lba)) ;*
  io (out8 (port + 4) (u8 (lba >>> 8))) ;*
  io (out8 (port + 5) (u8 (lba >>> 16))) ;*
  io (out8 (port + 7) 0x20) ;*
  let* r := cloop (Z.to_nat blocks) 0 (fun sector =>
    io (ata_settle port) ;*
    let* drq := ata_wait 8 8 in
    if negb drq then cret (Some false) else
    io (ata_sector port (TRANSFER_BUFFER + sector * 512)) ;*
    cret None) in
  match r with
  | Some result => cret result
  | None => io (ata_settle port) ;* ata_wait 0x88 0
  end.

(** ** Finding the disk *)
Definition read_blocks (lba blocks : Z) : unit_code bool :=
  let* which := gets backend in
  if which =? 1 then usb_read lba blocks else ata_read lba blocks.

Definition matches_boot_image : unit_code bool :=
  let* which := gets backend in
  (if which =? 1 then io (report 1 7) else cret tt) ;*
  let* boot_sector :=
    read_blocks 0 1 andalso io (equal TRANSFER_BUFFER 0x7C00 16) andalso
    (let* b := io (load8 (TRANSFER_BUFFER + 510)) in cret (b =? 0x55)) andalso
    (let* b := io (load8 (TRANSFER_BUFFER + 511)) in cret (b =? 0xAA)) in
  if negb boot_sector then cret false else
  read_blocks 5 1 andalso io (equal TRANSFER_BUFFER MANIFEST 40).

(** [Storage.c]: hooks of the kernel build *)
Definition storage_usb_candidate (pci : Z) : unit_code bool :=
  let* target := gets companion_target in
  cret ((target =? 0) || (pci =? target)).

Definition storage_handoff_ports (ports keep_port : Z) : unit_code unit :=
  let* target := gets companion_target in
  let* base := gets ehci in
  if (target =? 0) || (base =? 0) then cret tt else
  modify (fun g => g <| companion_ports := ports |> <| companion_keep := keep_port |>) ;*
  cfor (Z.to_nat ports) 0 (fun port =>
    if port =? keep_port then cret tt else
    let index := (0x44 + port * 4) / 4 in
    let* value := io (ehci_read base index) in
    io (ehci_write base index ((value .& not32 (0x2A .| 4)) .| (1 <<% 13))) ;*
    io (ehci_read base index) ;*
    cret tt) ;*
  modify (fun g => g <| companions_ready := 1 |>).

(** The body of the port loop of [find_usb_disk]; [Some tt] is [return 1]. *)
Definition probe_port (ports port : Z) : unit_code (option unit) :=
  let index := (0x44 + port * 4) / 4 in
  let* base := gets ehci in
  let* value := io (ehci_read base index) in
  if (value .& 1 =? 0) || truthy (value .& (1 <<% 13)) then cret None else
  io (report 1 3) ;*
  io (report 3 (port + 1)) ;*
  io (screen "Native USB: resetting port" (port + 1)) ;*
  io (ehci_write base index ((value .& not32 (0x2A .| 4)) .| (1 <<% 8))) ;*
  delay 50 ;*
  let* value := io (ehci_read base index) in
  io (ehci_write base index (value .& not32 (0x2A .| (1 <<% 8)))) ;*
  let* reset := wait_register (0x44 + port * 4) (1 <<% 8) 0 in
  if negb reset then fail "USB port reset timeout" (port + 1) else
  delay 20 ;*
  let* value := io (ehci_read base index) in
  let* found :=
    (if (value .& 5 =? 5) && (value .& (1 <<% 13) =? 0) then
       let* ready := enumerate_storage andalso storage_ready in
       if negb ready then cret false
       else if kernel then storage_handoff_ports ports port ;* cret true
       else matches_boot_image
     else cret false) in
  if found then cret (Some tt) else
  let* value := io (ehci_read base index) in
  io (ehci_write base index (value .& not32 (0x2A .| 4))) ;*
  cret None.

(** The body of the device loop of [find_usb_disk]; [Some true] is [return 1]. *)
Definition probe_controller (device : Z) : unit_code (option bool) :=
  let* candidate := (if kernel then storage_usb_candidate device else cret true) in
  if negb candidate then cret None else
  let* absent :=
    (let* id := io (pci_read device 0) in cret (id .& 0xFFFF =? 0xFFFF)) orelse
    (let* class := io (pci_read device 8) in cret (negb (class >>> 8 =? 0x0C0320))) in
  if absent then cret None else
  io (screen "Native USB: EHCI" device) ;*
  let* ports := start_controller device in
  let* found := cloop (Z.to_nat ports) 0 (probe_port ports) in
  match found with
  | Some tt => cret (Some true)
  | None =>
      (if kernel && (ports >? 0) then storage_handoff_ports ports 0xFFFFFFFF else cret tt) ;*
      stop_controller ;*
      modify (fun g => g <| ehci := 0 |>) ;*
      cret None
  end.

Definition find_usb_disk : unit_code bool :=
  (if kernel then cret tt else modify (fun g => g <| backend := 1 |>)) ;*
  let* r := cloop (Z.to_nat 0x10000) 0 (fun n => probe_controller (n * 0x100)) in
  cret (default false r).

(** One channel of [find_ide_disk]: [ata_device] is the loop variable over its two
    devices; [Some true] is [return 1]. *)
Definition probe_channel (mode channel : Z) : unit_code (option bool) :=
  if truthy (mode .& (if truthy channel then 4 else 1)) then cret None else
  modify (fun g => g <| ata_port := if truthy channel then 0x170 else 0x1F0 |>) ;*
  let* found := cloop 2 0 (fun device =>
    modify (fun g => g <| ata_device := device |>) ;*
    let* found := matches_boot_image in
    cret (if found then Some true else None)) in
  match found with
  | Some x => cret (Some x)
  | None => modify (fun g => g <| ata_device := 2 |>) ;* cret None
  end.

(** The body of its device loop. *)
Definition probe_ide (device : Z) : unit_code (option bool) :=
  let* id := io (pci_read device 0) in
  if id .& 0xFFFF =? 0xFFFF then cret None else
  let* class_code := io (pci_read device 8) in
  let* skip := cret (negb (class_code >>> 16 =? 0x0101)) orelse
    (let* command := io (pci_read device 4) in cret (command .& 1 =? 0)) in
  if skip then cret None else
  cloop 2 0 (probe_channel ((class_code >>> 8) .& 255)).

Definition find_ide_disk : unit_code bool :=
  modify (fun g => g <| backend := 2 |>) ;*
  let* r := cloop (Z.to_nat 0x10000) 0 (fun n => probe_ide (n * 0x100)) in
  cret (default false r).

(** ** Loading *)

(** [while (loaded < sectors)] *)
Fixpoint load_chunks (n : nat) (lba sectors destination loaded : Z) : unit_code unit :=
  if negb (loaded <? sectors) then cret tt else
  match n with
  | O => cdiverge
  | S n' =>
      let count := if sectors -% loaded >? BLOCKS_PER_READ then BLOCKS_PER_READ
                   else sectors -% loaded in
      io (report 6 (lba +% loaded)) ;*
      let* which := gets backend in
      io (screen (if which =? 1 then "USB loading LBA" else "IDE loading LBA") (lba +% loaded)) ;*
      let* ok := read_blocks (lba +% loaded) count in
      if negb ok then fail "Native disk read failed at LBA" (lba +% loaded) else
      io (copy (destination +% loaded *% 512) TRANSFER_BUFFER (count *% 512)) ;*
      load_chunks n' lba sectors destination (loaded +% count)
  end.

Definition load_image (lba sectors destination crc : Z) : unit_code unit :=
  load_chunks (Z.to_nat sectors) lba sectors destination 0 ;*
  let* actual := io (boot_crc32 destination (sectors *% 512)) in
  if negb (actual =? crc) then fail "Kernel payload CRC mismatch" destination else cret tt.

(** The manifest words at [MANIFEST]; nothing writes them, so they are read once. *)
Definition read_manifest : prog bus boot_manifest :=
  let w i := load32 (MANIFEST + 4 * i) in
  let! m0 := w 0 in let! m1 := w 1 in let! m2 := w 2 in let! m3 := w 3 in let! m4 := w 4 in
  let! m5 := w 5 in let! m6 := w 6 in let! m7 := w 7 in let! m8 := w 8 in let! m9 := w 9 in
  Ret (Build_boot_manifest m0 m1 m2 m3 m4 m5 m6 m7 m8 m9).

Definition bootstrap_load_images : unit_code unit :=
  modify (fun _ => bss) ;*
  io (zero BOOT_REPORT 32) ;*
  io (report 0 0x42535452) ;*
  io (report 1 1) ;*
  io (zero DMA_BASE 0x7000) ;*
  let* manifest := io read_manifest in
  if negb (boot_manifest_valid manifest)
  then fail "Invalid bootstrap manifest" (version manifest) else
  io (screen "Starting native storage loader" 0) ;*
  calibrate_timer ;*
  let* found := find_usb_disk orelse find_ide_disk in
  if negb found then
    let* stage := io (load32 (BOOT_REPORT + 4)) in
    fail "No matching USB2/IDE boot image; USB stage" stage
  else
  let* which := gets backend in
  io (report 7 which) ;*
  load_image (high_lba manifest) (high_sectors manifest) 0x34000000 (high_crc manifest) ;*
  load_image (interrupts_lba manifest) (interrupts_sectors manifest) 0x32000000
    (interrupts_crc manifest) ;*
  stop_controller ;*
  io (report 1 8) ;*
  let* which := gets backend in
  io (screen "Native kernel loading complete" which).
End BUILD.
