(* ===== verification/TransportSafety.v ===== *)
(** * What the transport may do to the machine

    The storage code is read-only by construction: [read_only] lists the writes it
    may perform, and every function of the transport is shown to stay within them
    whatever the hardware answers. *)
From stdpp Require Import list gmap strings.
From S2P Require Import Prelude Machine Runtime BootImage StorageRules Transport.

(** ** The policy

    [extra] is the memory a caller lets the code write bytes to: the kernel's
    destination, or the validated buffer of a system call. *)

(** Port output: the PIT channel-2 gate, PCI configuration space, and the ATA task
    file, whose command register only ever gets READ SECTORS or IDENTIFY DEVICE. *)
Definition ata_write_ok (base p v : Z) : Prop :=
  p = base + 2 \/ p = base + 3 \/ p = base + 4 \/ p = base + 5 \/ p = base + 6 \/
  p = base + 0x206 \/ (p = base + 7 /\ (v = 0x20 \/ v = 0xEC)).

(** A transfer descriptor for an OUT transaction carries the 31-byte command wrapper
    or nothing. *)
Definition token_ok (v : Z) : Prop :=
  (v >>> 8) .& 3 = 0 -> (v >>> 16) .& 0x7FFF = 0 \/ (v >>> 16) .& 0x7FFF = 31.

(** Memory-mapped registers: above 2 GiB, or the null page a wrapped or missing
    register base leads to. *)
Definition mmio (a : Z) : Prop := 0 <= a < 0x2000 \/ 0x80000000 <= a < 2 ^ 32.

(** The opcode byte of the command wrapper. *)
Definition opcode_ok (v : Z) : Prop := v = 0x00 \/ v = 0x03 \/ v = 0x25 \/ v = 0x28.

Definition store32_ok (a v : Z) : Prop :=
  mmio a \/ BOOT_REPORT <= a < BOOT_REPORT + 32 \/
  (DMA_BASE <= a < DMA_BASE + 0x800 /\
   (a = descriptor 0 + qtd_token \/ a = descriptor 1 + qtd_token \/ a = descriptor 2 + qtd_token ->
    token_ok v)) \/
  a = CBW_BUFFER \/ a = CBW_BUFFER + 4 \/ a = CBW_BUFFER + 8 \/
  periodic <= a < periodic + 0x1000.

Definition store16_ok (a : Z) : Prop :=
  0xB8000 <= a < 0xB8000 + 160 \/ TRANSFER_BUFFER <= a < TRANSFER_BUFFER + 0x4000.

Definition store8_ok (extra : Z -> Prop) (a v : Z) : Prop :=
  extra a \/ BOOT_REPORT <= a < BOOT_REPORT + 32 \/
  (DMA_BASE <= a < DMA_BASE + 0x7000 /\ (a = CBW_BUFFER + 15 -> opcode_ok v)).

Definition read_only (extra : Z -> Prop) (_ : trace) (e : bus) : Prop :=
  match e with
  | Out W8 p v =>
      p = 0x61 \/ p = 0x43 \/ p = 0x42 \/ ata_write_ok 0x1F0 p v \/ ata_write_ok 0x170 p v
  | Out W16 _ _ => False
  | Out W32 p _ => p = 0xCF8 \/ p = 0xCFC
  | Store W8 a v => store8_ok extra a v
  | Store W16 a _ => store16_ok a
  | Store W32 a v => store32_ok a v
  | Api f args => f = "map_page" /\ hd 0 args = STORAGE_MMIO
  | Xchg _ _ => False
  | _ => True
  end.

(** ** The invariant on the statics *)
Definition base_ok (b : Z) : Prop := 0 <= b < 0x1000 \/ 0x80000000 <= b < 2 ^ 32.
Definition port_ok (p : Z) : Prop := p = 0x1F0 \/ p = 0x170.

(** The statics the transport leaves alone: the tables of the service. *)
Definition tables : Type := list storage_device_info * list Z * Z * Z * Z.
Definition service_tables (g : statics) : tables :=
  (devices g, ata_dead g, device_mask g, initialized g, discovered g).

(** [P] is what is known of [ata_port] and [backend] (nothing before a channel was
    chosen) and of the tables. *)
Definition statics_ok (P : Z -> Z -> tables -> Prop) (g : statics) (_ : trace) : Prop :=
  (base_ok (ehci g) /\ 0 <= companion_ports g <= 15) /\
  P (ata_port g) (backend g) (service_tables g).

(** The arithmetic side conditions: unfold every address and decide. *)
Ltac policy :=
  unfold store32_ok, store16_ok, store8_ok, ata_write_ok, mmio, base_ok, port_ok in *;
  unfold queue, descriptor, periodic, TRANSFER_BUFFER, CBW_BUFFER, CSW_BUFFER, SETUP_BUFFER,
    CONTROL_BUFFER, DMA_BASE, BOOT_REPORT, MANIFEST, qtd_next, qtd_alternate, qtd_token, qtd_buffer,
    qh_link, qh_endpoint, qh_capabilities, qh_next, qh_alternate, qh_token in *;
  try lia.

#[export] Instance read_only_reads extra : AllowsReads (read_only extra).
Proof. intros t e He. destruct e; cbn in *; auto; contradiction. Qed.

Ltac dlia := first [lia | Z.to_euclidean_division_equations; lia].

Section BUS.
Context (ok : trace -> bus -> Prop) `{!AllowsReads ok}.
Abbreviation bok := (bus_ok ok).

Lemma bus_zero destination size :
  (forall t i, 0 <= i < size -> ok t (Store W8 (destination + i) 0)) ->
  bok (zero destination size).
Proof. intros H. unfold zero. repeat bus_step. intros. apply H. lia. Qed.

Lemma bus_copy destination source size :
  (forall t i v, 0 <= i < size -> is_u8 v -> ok t (Store W8 (destination + i) v)) ->
  bok (copy destination source size).
Proof. intros H. unfold copy. repeat bus_step. intros. apply H; [lia|assumption]. Qed.

Lemma bus_copy_local destination l :
  (forall t i v, l !! i = Some v -> ok t (Store W8 (destination + Z.of_nat i) v)) ->
  bok (copy_local destination l).
Proof.
  revert destination. induction l as [|b l IH]; intros d H; [apply bus_ret|].
  apply bus_bind.
  - apply bus_write. intros t. pose proof (H t O b eq_refl) as H0. now rewrite Z.add_0_r in H0.
  - intros _. apply IH. intros t i v Hi.
    replace (d + 1 + Z.of_nat i) with (d + Z.of_nat (S i)) by lia. now apply H.
Qed.

Lemma bus_equal a b size : bok (equal a b size).
Proof. unfold equal. repeat bus_step. Qed.

Lemma bus_be32 a : bok (be32 a).
Proof. unfold be32. repeat bus_step. Qed.

Lemma bus_poll {R} (body : prog bus (option R)) n start limit :
  bok body -> bok (poll n start limit body).
Proof. intros Hb. induction n as [|n IH]; cbn [poll]; repeat bus_step. Qed.

Lemma bus_delay_loop n start duration : bok (delay_loop n start duration).
Proof. induction n as [|n IH]; cbn [delay_loop]; repeat bus_step. Qed.

Lemma bus_pit_wait n : bok (pit_wait n).
Proof.
  induction n as [|[|n] IH]; [cbn [pit_wait]; repeat bus_step..|].
  change (bok (let! v := in8 0x61 in
               if truthy (v .& 0x20) then Ret (Z.of_nat (S (S n))) else pit_wait (S n))).
  repeat bus_step.
Qed.

Lemma bus_boot_crc32 a size : bok (boot_crc32 a size).
Proof. unfold boot_crc32. repeat bus_step. Qed.

Lemma bus_pci_read device offset : (forall t v, ok t (Out W32 0xCF8 v)) -> bok (pci_read device offset).
Proof. intros H. unfold pci_read. repeat bus_step. intros. apply H. Qed.

Lemma bus_pci_write device offset v :
  (forall t v, ok t (Out W32 0xCF8 v)) -> (forall t v, ok t (Out W32 0xCFC v)) ->
  bok (pci_write device offset v).
Proof. intros H1 H2. unfold pci_write. repeat bus_step; intros; auto. Qed.

Lemma bus_legacy_wait n device extended start limit :
  (forall t v, ok t (Out W32 0xCF8 v)) -> bok (legacy_wait n device extended start limit).
Proof.
  intros H. pose proof (fun d o => bus_pci_read d o H).
  induction n as [|n IH]; cbn [legacy_wait]; repeat bus_step.
Qed.
End BUS.

(** ** Every function of the transport *)
Section BASIC.
Context (kernel : bool) (extra : Z -> Prop) (P : Z -> Z -> tables -> Prop).
Abbreviation ok := (read_only extra).
Abbreviation inv := (statics_ok P).
Abbreviation kept := (keeps ok inv).
Abbreviation bok := (bus_ok ok).

Lemma kept_bus {A} (p : prog bus A) : bok p -> kept (lift p).
Proof. intros H. apply keeps_bus; auto. Qed.

Lemma kept_access_bind {B} e (k : Z -> unit_code B) :
  (forall t, ok t e) -> (forall v, reply_ok e v -> kept (k v)) -> kept (cbind (lift (access e)) k).
Proof. intros H Hk. apply keeps_access_bind; [|assumption]. intros g t Hg. auto. Qed.

(** The registers of the controller are MMIO whatever base the statics hold. *)
Lemma ehci_reg_mmio b i : base_ok b -> 0 <= i <= 32 -> mmio (ehci_reg b i).
Proof.
  intros Hb Hi. unfold ehci_reg, mmio, base_ok in *.
  pose proof (add32_range b (4 * i)) as Hr. unfold in_u in Hr.
  unfold add32, u32, wrap in *.
  destruct (Z.lt_ge_cases (b + 4 * i) (2 ^ 32)).
  - rewrite Z.mod_small by lia. lia.
  - replace (b + 4 * i) with (b + 4 * i - 2 ^ 32 + 1 * 2 ^ 32) by lia.
    rewrite Z.mod_add, Z.mod_small by lia. lia.
Qed.

Lemma bus_ehci_write b i v : base_ok b -> 0 <= i <= 32 -> bok (ehci_write b i v).
Proof. intros. apply bus_write. intros t. cbn. left. now apply ehci_reg_mmio. Qed.
Lemma bus_report i v : 0 <= i < 8 -> bok (report i v).
Proof. intros. apply bus_write. intros t. cbn. policy. Qed.
Lemma bus_pci_read' device offset : bok (pci_read device offset).
Proof. apply bus_pci_read; cbn; auto. apply _. Qed.
Lemma bus_pci_write' device offset v : bok (pci_write device offset v).
Proof. apply bus_pci_write; cbn; auto. Qed.

Lemma bus_screen message detail : bok (screen kernel message detail).
Proof.
  unfold screen. bus_step; [bus_step|].
  assert (length (take 65 (codes message)) <= 65)%nat by (rewrite length_take; lia).
  repeat bus_step; intros t; cbn; policy.
Qed.

(** [fail] does not return. *)
Lemma triple_fail {A} message detail Q : triple ok inv (fail (A := A) kernel message detail) Q.
Proof.
  unfold fail. apply triple_if; intros _; [apply triple_panic|].
  eapply triple_bind; [apply (kept_bus _ (bus_screen message detail))|]. intros. apply triple_panic.
Qed.
Lemma kept_fail {A} message detail : kept (fail (A := A) kernel message detail).
Proof. apply triple_fail. Qed.

Lemma safe_of_ok e : (forall t, ok t e) -> safe_access ok inv e.
Proof. intros H g t Hi. split; [apply H|]. intros; exact Hi. Qed.

End BASIC.

#[export] Hint Resolve bus_ehci_write bus_report bus_pci_read' bus_pci_write' bus_screen
  bus_delay_loop bus_pit_wait bus_legacy_wait bus_poll bus_equal bus_be32 bus_hoist
  bus_boot_crc32 kept_fail kept_bus : keeps.
#[export] Hint Extern 5 (AllowsReads _) => apply read_only_reads : keeps.
#[export] Hint Extern 5 (_ <= _ < _) => lia : keeps.
#[export] Hint Extern 5 (_ <= _ <= _) => lia : keeps.

(** Close what [keeps_step] leaves: reads, writes the policy decides, calls. *)
Ltac kept_side :=
  lazymatch goal with
  | |- safe_access _ _ _ => apply safe_of_ok; first [reads | intros ?; cbn; policy]
  | |- keeps _ _ (lift (ehci_write _ _ _)) => apply kept_bus, bus_ehci_write; [|try dlia]
  | |- keeps _ _ (lift (ehci_read _ _)) => apply kept_bus, bus_access; reads
  | |- keeps _ _ (lift _) => apply kept_bus; try solve [repeat bus_step | auto with keeps]
  | |- keeps _ _ _ => solve [auto with keeps]
  | |- base_ok (ehci ?g) => match goal with H : statics_ok _ g _ |- _ => apply H end
  | |- statics_ok _ _ _ => assumption
  end.
Ltac kept_tac := repeat first [keeps_step | kept_side]; try assumption; auto.

Section SAFETY.
Context (kernel : bool) (fuel : nat) (extra : Z -> Prop) (P : Z -> Z -> tables -> Prop).
Abbreviation ok := (read_only extra).
Abbreviation inv := (statics_ok P).
Abbreviation kept := (keeps ok inv).
Abbreviation bok := (bus_ok ok).

Lemma kept_calibrate_timer : kept (calibrate_timer kernel).
Proof.
  unfold calibrate_timer. kept_tac.
Qed.
Hint Resolve kept_calibrate_timer : keeps.

Lemma kept_delay ms : kept (delay fuel ms).
Proof. unfold delay. kept_tac. Qed.
Hint Resolve kept_delay : keeps.

Lemma kept_wait_register offset mask value : kept (wait_register fuel offset mask value).
Proof.
  unfold wait_register. kept_tac. apply bus_poll; [apply _|]. unfold ehci_read. repeat bus_step.
Qed.
Hint Resolve kept_wait_register : keeps.

Lemma kept_stop_controller : kept (stop_controller kernel fuel).
Proof. unfold stop_controller. kept_tac. Qed.
Hint Resolve kept_stop_controller : keeps.

Lemma kept_take_ownership n device extended : kept (take_ownership fuel n device extended).
Proof.
  revert extended. induction n as [|n IH]; intros extended; cbn [take_ownership]; kept_tac.
  apply bus_legacy_wait; [apply _|]. cbn. auto.
Qed.
Hint Resolve kept_take_ownership : keeps.

(** The address of a controller's capability registers: in the kernel the MMIO
    alias, in the bootstrap the BAR itself. *)
Lemma storage_map_mmio_base physical : is_u32 physical ->
  triple ok inv (storage_map_mmio physical)
    (fun c g t => inv g t /\ (c = 0 \/ STORAGE_MMIO <= c <= STORAGE_MMIO + 0xF00)).
Proof.
  intros Hp. unfold storage_map_mmio. apply triple_gets_bind. intros cached.
  assert (0 <= physical .& 0xFFF < 4096) as Ho.
  { change 0xFFF with (2 ^ 12 - 1). rewrite land_ones_mod by lia. apply Z.mod_pos_bound. lia. }
  apply triple_bind with (R := fun r g t => inv g t /\
    (fst r = 0 \/ STORAGE_MMIO <= fst r <= STORAGE_MMIO + 0xF00)).
  - intros g t [Hg _]. unfold lift, storage_map_mmio_window.
    case_if; [cbn; auto|]. bool_to_prop.
    assert (STORAGE_MMIO +% (physical .& 0xFFF) = STORAGE_MMIO + (physical .& 0xFFF)) as ->
      by (apply add32_small; unfold STORAGE_MMIO; lia).
    case_if; [|cbn; split; [assumption|right; lia]]. cbn. split; [auto|].
    intros v t' [_ ->]. case_if; cbn; auto. split; [assumption|right; lia].
  - intros r. apply triple_bind with (R := fun _ g t => inv g t /\
      (fst r = 0 \/ STORAGE_MMIO <= fst r <= STORAGE_MMIO + 0xF00)).
    + apply triple_modify. intros g t H. exact H.
    + intros _. apply triple_ret. auto.
Qed.

Lemma triple_kept {A B} (m : unit_code A) (k : A -> unit_code B) Q :
  kept m -> (forall a, triple ok inv (k a) Q) -> triple ok inv (cbind m k) Q.
Proof. intros Hm Hk. eapply triple_bind; [exact Hm|exact Hk]. Qed.

Ltac seq := refine (triple_kept _ _ _ _ _); [solve [kept_tac]|intros ?].

(** A controller start: at most 15 ports, and the register base is set. *)
Lemma start_controller_ports device :
  triple ok inv (start_controller kernel fuel device) (fun r g t => inv g t /\ 0 <= r <= 15).
Proof.
  unfold start_controller. do 3 seq.
  apply triple_if; intros Hbar; [apply triple_ret; intuition lia|]. bool_to_prop.
  pose proof (land_le a1 (not32 15) ltac:(pose proof (not32_range 15); ulia)) as Hb.
  change (not32 15) with 0xFFFFFFF0 in *. do 2 seq.
  apply triple_bind with (R := fun c g t => inv g t /\ (c = 0 \/ 0x80000000 <= c < 2 ^ 32)).
  { destruct kernel.
    - eapply triple_post; [apply storage_map_mmio_base; ulia|]. unfold STORAGE_MMIO. cbn. intuition lia.
    - apply triple_ret. intuition lia. }
  intros c. apply triple_pure. intros Hc. 
  apply triple_if; intros Hc0; [apply triple_ret; intuition lia|]. bool_to_prop.
  seq. cbv zeta. apply triple_if; intros Hl; [apply triple_ret; intuition lia|]. bool_to_prop.
  seq. seq. apply triple_if; intros Ho; [apply triple_ret; intuition lia|].
  set (base := c +% (a4 .& 255)).
  assert (base_ok base) as Hbase.
  { pose proof (add32_range c (a4 .& 255)) as Hr. unfold base, base_ok, add32, u32, wrap, in_u in *.
    destruct (Z.lt_ge_cases (c + (a4 .& 255)) (2 ^ 32)).
    - rewrite Z.mod_small by lia. lia.
    - replace (c + (a4 .& 255)) with (c + (a4 .& 255) - 2 ^ 32 + 1 * 2 ^ 32) by lia.
      rewrite Z.mod_add, Z.mod_small by lia. lia. }
  refine (triple_kept _ _ _ _ _).
  { apply keeps_modify. intros g t [[_ Hn] Hp]. split; [split; [exact Hbase|exact Hn]|exact Hp]. }
  intros _. do 3 seq. apply triple_if; intros _.
  { apply triple_fail. }
  do 3 seq. refine (triple_kept _ _ _ _ _).
  { kept_tac. }
  intros ?. seq. seq. seq. seq. seq. apply triple_if; intros _; [apply triple_fail|].
  do 2 seq. pose proof (land_le a20 15 ltac:(lia)) as Hports.
  do 2 seq. apply triple_ret. auto.
Qed.

(** The tokens the callers ask for: IN and SETUP, or OUT with no data or the command
    wrapper. *)
Definition packet_ok (pid length : Z) : Prop :=
  pid = 1 \/ pid = 2 \/ (pid = 0 /\ (length = 0 \/ length = 31)).

Lemma shl31 toggle : toggle <<% 31 = 0 \/ toggle <<% 31 = 2 ^ 31.
Proof.
  unfold shl32, u32, wrap. rewrite Z.shiftl_mul_pow2 by lia.
  replace (2 ^ 32) with (2 * 2 ^ 31) by lia.
  rewrite Z.mul_mod_distr_r by lia. pose proof (Z.mod_pos_bound toggle 2). lia.
Qed.

Lemma qtd_token_ok pid toggle length :
  packet_ok pid length -> token_ok (qtd_token_value pid toggle length).
Proof.
  unfold qtd_token_value, token_ok. intros [->|[->|[-> Hl]]] H.
  - apply (f_equal (fun z => Z.testbit z 0)) in H. exfalso.
    rewrite Z.land_spec, Z.shiftr_spec, !Z.lor_spec in H by lia.
    change (Z.testbit (1 <<% 8) (0 + 8)) with true in H. rewrite orb_true_r in H. discriminate.
  - apply (f_equal (fun z => Z.testbit z 1)) in H. exfalso.
    rewrite Z.land_spec, Z.shiftr_spec, !Z.lor_spec in H by lia.
    change (Z.testbit (2 <<% 8) (1 + 8)) with true in H. rewrite orb_true_r in H. discriminate.
  - destruct (shl31 toggle) as [-> | ->], Hl as [-> | ->]; vm_compute; auto.
Qed.

Lemma bus_make_qtd index pid toggle buffer length next :
  0 <= index <= 2 -> packet_ok pid length ->
  bok (make_qtd index pid toggle buffer length next).
Proof.
  intros Hi Hp. unfold make_qtd. pose proof (qtd_token_ok pid toggle length Hp).
  repeat bus_step; try (intros t; cbn; right; right; left; split; [policy|]).
  { apply bus_zero. intros t i Hi'. cbn. right. right. split; policy. }
  all: try (policy; fail). intros _. assumption.
Qed.

Lemma bus_zero_dma d size :
  DMA_BASE <= d -> d + size <= DMA_BASE + 0x7000 -> bok (zero d size).
Proof.
  intros. apply bus_zero. intros t j Hj. cbn. right. right. split; [lia|]. intros _. now left.
Qed.

Lemma kept_transfer endpoint packet_size last :
  kept (transfer kernel fuel endpoint packet_size last).
Proof.
  unfold transfer. kept_tac.
  - apply bus_zero_dma; policy.
  - apply bus_poll; [apply _|]. unfold transfer_poll, ehci_read. repeat bus_step.
Qed.
Hint Resolve kept_transfer : keeps.

(** Bytes placed in the DMA area away from the command wrapper. *)
Lemma bus_local_dma d l :
  DMA_BASE <= d -> d + Z.of_nat (length l) <= DMA_BASE + 0x7000 ->
  (d + Z.of_nat (length l) <= CBW_BUFFER + 15 \/ CBW_BUFFER + 15 < d) -> bok (copy_local d l).
Proof.
  intros H1 H2 H3. apply bus_copy_local. intros t j v Hj. apply lookup_lt_Some in Hj.
  cbn. right. right. split; policy.
Qed.

Lemma kept_control type request value index length :
  truthy (type .& 0x80) = true \/ length = 0 ->
  kept (control kernel fuel type request value index length).
Proof.
  intros Ht. unfold control. kept_tac.
  - apply bus_local_dma; cbn; policy.
  - apply bus_make_qtd; [lia|]. right. now left.
  - apply bus_make_qtd; [lia|]. left. destruct Ht as [-> | ->]; [reflexivity|discriminate].
  - apply bus_make_qtd; [case_if; lia|]. unfold packet_ok. case_if; auto.
Qed.

Lemma kept_enumerate_storage : kept (enumerate_storage kernel fuel).
Proof.
  unfold enumerate_storage, control_byte.
  kept_tac; try (apply kept_control; first [left; reflexivity | right; reflexivity]).
Qed.
Hint Resolve kept_enumerate_storage : keeps.

Lemma kept_bulk input buffer length :
  input = true \/ length = 31 -> kept (bulk kernel fuel input buffer length).
Proof.
  intros Hi. unfold bulk. kept_tac.
  - apply bus_make_qtd; [lia|]. unfold packet_ok. destruct input; intuition congruence.
  - intros g' t' Hg. destruct input; exact Hg.
Qed.

(** The allowlist makes the opcode byte one of the four commands. *)
Lemma cdb_opcode command size length v :
  storage_read_cdb_valid (Some command) size length = true -> command !! O = Some v -> opcode_ok v.
Proof.
  unfold storage_read_cdb_valid, cdb, opcode_ok. intros H Hv. rewrite Hv in H. cbn [default] in H.
  repeat case_if_in H; bool_to_prop; auto; discriminate.
Qed.

Lemma cdb_size command size length :
  storage_read_cdb_valid (Some command) size length = true -> size = 6 \/ size = 10.
Proof.
  unfold storage_read_cdb_valid. intros H.
  repeat case_if_in H; bool_to_prop; auto; discriminate.
Qed.

Lemma kept_scsi command size length : kept (scsi kernel fuel command size length).
Proof.
  unfold scsi. keeps_step; [keeps_step|]. bool_to_prop.
  kept_tac.
  all: lazymatch goal with |- keeps _ _ (bulk _ _ _ _ _) => apply kept_bulk; auto | _ => idtac end.
  - apply bus_zero_dma; policy.
  - apply bus_copy_local. intros t' j v Hj. pose proof Hj as Hl. apply lookup_lt_Some in Hl.
    rewrite length_take in Hl. cbn. right. right.
    destruct (cdb_size _ _ _ H) as [-> | ->]; (split; [policy|]); intros Ha;
      (assert (j = O) as -> by policy); apply lookup_take_Some in Hj as [Hj _];
      exact (cdb_opcode _ _ _ _ H Hj).
Qed.
Hint Resolve kept_scsi : keeps.

Lemma kept_storage_ready : kept (storage_ready kernel fuel).
Proof. unfold storage_ready. kept_tac. Qed.
Hint Resolve kept_storage_ready : keeps.

Lemma kept_usb_read lba blocks : kept (usb_read kernel fuel lba blocks).
Proof. unfold usb_read. kept_tac. Qed.
Hint Resolve kept_usb_read : keeps.

(** *** ATA: a channel has been chosen *)
Lemma kept_ata_wait mask wanted : kept (ata_wait fuel mask wanted).
Proof.
  unfold ata_wait. kept_tac. apply bus_poll; [apply _|]. unfold ata_poll. repeat bus_step.
Qed.
Hint Resolve kept_ata_wait : keeps.

Lemma bus_ata_settle port : bok (ata_settle port).
Proof. unfold ata_settle. repeat bus_step. Qed.
Hint Resolve bus_ata_settle : keeps.

Lemma bus_ata_sector port d :
  TRANSFER_BUFFER <= d -> d + 512 <= TRANSFER_BUFFER + 0x4000 -> bok (ata_sector port d).
Proof. intros. unfold ata_sector. repeat bus_step. intros t. cbn. policy. Qed.

Lemma kept_ata_read lba blocks :
  (forall p b r, P p b r -> port_ok p) -> kept (ata_read fuel lba blocks).
Proof.
  intros HP. unfold ata_read. keeps_step; [keeps_step|]. bool_to_prop.
  keeps_step. match goal with H : statics_ok _ g _ |- _ => destruct H as [Hb Hp] end.
  apply HP in Hp. unfold BLOCKS_PER_READ in *. kept_tac.
  apply bus_ata_sector; policy.
Qed.

(** *** Choosing the disk *)
Lemma kept_handoff_ports ports keep : 0 <= ports <= 15 -> kept (storage_handoff_ports ports keep).
Proof.
  intros Hp. unfold storage_handoff_ports. kept_tac.
  intros g1 t1 [[Hb _] Hg]. split; [split; [exact Hb|exact Hp]|exact Hg].
Qed.
End SAFETY.

#[export] Hint Resolve kept_calibrate_timer kept_delay kept_wait_register kept_stop_controller
  kept_enumerate_storage kept_storage_ready kept_usb_read kept_handoff_ports kept_ata_wait bus_ata_settle : keeps.

Section DISK.
Context (kernel : bool) (fuel : nat) (extra : Z -> Prop).
Abbreviation ok := (read_only extra).
Abbreviation kept P := (keeps ok (statics_ok P)).

(** In the bootstrap a channel is chosen before the ATA backend is used. *)
Definition chosen (port which : Z) (_ : tables) : Prop := which = 1 \/ port_ok port.
Definition anything (_ _ : Z) (_ : tables) : Prop := True.

Lemma kept_read_blocks lba blocks : kept chosen (read_blocks kernel fuel lba blocks).
Proof.
  unfold read_blocks. apply triple_gets_bind. intros which. apply triple_if; intros Hw.
  - eapply triple_pre; [apply kept_usb_read|]. intros g t [H _]. exact H.
  - bool_to_prop. eapply triple_conseq.
    + apply kept_ata_read with (P := fun p b r => chosen p b r /\ b <> 1). unfold chosen. tauto.
    + intros g t [[H1 H2] <-]. split; [exact H1|]. split; assumption.
    + intros a g t [H1 [H2 _]]. split; assumption.
Qed.

Lemma kept_matches_boot_image : kept chosen (matches_boot_image kernel fuel).
Proof.
  pose proof kept_read_blocks. unfold matches_boot_image. kept_tac.
Qed.

Lemma kept_probe_port P ports port :
  (kernel = false -> P = chosen) -> 0 <= ports <= 15 -> 0 <= port < ports ->
  kept P (probe_port kernel fuel ports port).
Proof.
  intros HP H1 H2. unfold probe_port. kept_tac.
  rewrite HP by assumption. apply kept_matches_boot_image.
Qed.

Lemma kept_probe_controller P device :
  (kernel = false -> P = chosen) -> kept P (probe_controller kernel fuel device).
Proof.
  intros HP. unfold probe_controller, storage_usb_candidate.
  keeps_step; [kept_tac|]. keeps_step; [kept_tac|]. keeps_step; [kept_tac|].
  keeps_step; [kept_tac|]. keeps_step; [kept_tac|].
  eapply triple_bind; [apply start_controller_ports|]. intros ports. apply triple_pure. intros Hp.
  to_keeps. keeps_step.
  { apply keeps_loop. intros port Hport. apply kept_probe_port; auto; lia. }
  kept_tac. intros g t [[_ Hn] Hg]. split; [split; [left; cbn; lia|exact Hn]|exact Hg].
Qed.

Lemma find_usb_disk_safe P P0 :
  (kernel = false -> P = chosen) -> (kernel = true -> P0 = P) ->
  triple ok (statics_ok P0) (find_usb_disk kernel fuel) (fun _ => statics_ok P).
Proof.
  intros HP HP0. unfold find_usb_disk. apply triple_bind with (R := fun _ => statics_ok P).
  - apply triple_if; intros Hk.
    + apply triple_ret. now rewrite HP0.
    + apply triple_modify. intros g t [Hb _]. split; [exact Hb|]. rewrite HP by assumption. now left.
  - intros _. apply keeps_bind; [|intros; apply keeps_ret]. apply keeps_loop. intros.
    now apply kept_probe_controller.
Qed.

(** What a search knows: a channel is chosen once it found the disk. *)
Definition found_ok (r : option bool) : statics -> trace -> Prop :=
  statics_ok (match r with Some _ => chosen | None => anything end).

Lemma probe_channel_safe mode channel :
  triple ok (statics_ok anything) (probe_channel kernel fuel mode channel) found_ok.
Proof.
  unfold probe_channel. apply triple_if; intros _; [apply triple_ret; auto|].
  eapply triple_bind with (R := fun _ => statics_ok chosen).
  { apply triple_modify. intros g t [Hb _]. split; [exact Hb|]. right. unfold port_ok. cbn.
    case_if; auto. }
  intros _. apply triple_bind with (R := fun _ => statics_ok chosen).
  - to_keeps. pose proof kept_matches_boot_image. kept_tac.
  - intros [x|]; [apply triple_ret; auto|].
    apply triple_bind with (R := fun _ => statics_ok anything); [|intros; apply triple_ret; auto].
    apply triple_modify. intros g t [Hb _]. split; [exact Hb|exact I].
Qed.

Lemma probe_ide_safe device :
  triple ok (statics_ok anything) (probe_ide kernel fuel device) found_ok.
Proof.
  unfold probe_ide. refine (triple_kept _ _ _ _ _ _ _); [kept_tac|]. intros id.
  apply triple_if; intros _; [apply triple_ret; auto|].
  refine (triple_kept _ _ _ _ _ _ _); [kept_tac|]. intros class_code.
  refine (triple_kept _ _ _ _ _ _ _); [kept_tac|]. intros skip.
  apply triple_if; intros _; [apply triple_ret; auto|].
  apply (triple_loop _ (fun _ => statics_ok anything)); [|auto]. intros j _.
  eapply triple_post; [apply probe_channel_safe|]. intros [x|] g t H; exact H.
Qed.

Lemma find_ide_disk_safe :
  triple ok (statics_ok anything) (find_ide_disk kernel fuel)
    (fun found => statics_ok (if found then chosen else anything)).
Proof.
  unfold find_ide_disk. apply triple_bind with (R := fun _ => statics_ok anything).
  { apply triple_modify. intros g t H. exact H. }
  intros _. apply triple_bind with (R := found_ok).
  - apply (triple_loop _ (fun _ => statics_ok anything)); [|auto]. intros j _.
    eapply triple_post; [apply probe_ide_safe|]. intros [x|] g t H; exact H.
  - intros [[]|]; apply triple_ret; cbn; auto. intros g t [Hb _]. split; [exact Hb|exact I].
Qed.
End DISK.
