(* ===== verification/Bootstrap.v ===== *)
(** * The bootstrap loader: [load_image] and [bootstrap_load_images]

    What is known when the loader returns to the assembly bootstrap, over every
    behaviour of the disks and controllers. *)
From stdpp Require Import list gmap strings.
From S2P Require Import Prelude Machine Runtime BootImage StorageRules Transport TransportSafety.

(** The reads of consecutive bytes [l] at [a], the latest first. *)
Fixpoint loads_of (a : Z) (l : list Z) : trace :=
  match l with
  | [] => []
  | b :: rest => loads_of (a + 1) rest ++ [(Load W8 a, b)]
  end.

(** At some point the [n] bytes at [a] were read back and had checksum [crc]. *)
Definition payload_checked (a n crc : Z) (t : trace) : Prop :=
  exists newer l older, t = newer ++ loads_of a l ++ older /\
    Z.of_nat (length l) = n /\ Forall is_u8 l /\ crc32 l = crc.

Lemma payload_checked_app a n crc d t : payload_checked a n crc t -> payload_checked a n crc (d ++ t).
Proof.
  intros (newer & l & older & -> & H). exists (d ++ newer), l, older. now rewrite <- app_assoc.
Qed.

(** The words of the manifest were read at [MANIFEST]. *)
Definition manifest_words (m : boot_manifest) : list Z :=
  [magic0 m; magic1 m; version m; setup_sectors m; high_lba m; high_sectors m; high_crc m;
   interrupts_lba m; interrupts_sectors m; interrupts_crc m].
Definition manifest_read (m : boot_manifest) (t : trace) : Prop :=
  forall i w, manifest_words m !! i = Some w -> (Load W32 (MANIFEST + 4 * Z.of_nat i), w) ∈ t.

Lemma manifest_read_app m d t : manifest_read m t -> manifest_read m (d ++ t).
Proof. intros H i w Hi. apply elem_of_app. right. eauto. Qed.

Section LOAD.
Context (ok : trace -> bus -> Prop) `{!AllowsReads ok}.

Lemma crc_loop_reads a n i crc t :
  wp (any_hw ok) (for_state (R := unit) n i crc
    (fun index crc => let! b := load8 (a + index) in Ret (crc_byte crc b, None)))
    (fun o t' => exists l, o = Done (fold_left crc_byte l crc, None) /\
       t' = loads_of (a + i) l ++ t /\ length l = n /\ Forall is_u8 l) t.
Proof.
  revert i crc t. induction n as [|n IH]; intros i crc t; cbn [for_state].
  { exists []. auto. }
  cbn. split; [now apply allows_reads|]. intros b t' [Hb ->].
  eapply wp_mono; [|apply (IH (i + 1) (crc_byte crc b))].
  intros o t' (l & -> & -> & Hl & Hf). exists (b :: l).
  rewrite fold_left_cons. cbn [loads_of length].
  rewrite <- app_assoc, Z.add_assoc. repeat split; auto.
Qed.

(** [boot_crc32] reads exactly the bytes whose checksum it returns. *)
Lemma boot_crc32_reads a n t : 0 <= n ->
  wp (any_hw ok) (boot_crc32 a n)
    (fun o t' => exists l, o = Done (crc32 l) /\ t' = loads_of a l ++ t /\
       Z.of_nat (length l) = n /\ Forall is_u8 l) t.
Proof.
  intros Hn. unfold boot_crc32. apply wp_bind. eapply wp_mono; [|apply crc_loop_reads].
  intros o t' (l & -> & -> & Hl & Hf). cbn. exists l. rewrite Z.add_0_r.
  repeat split; auto. lia.
Qed.

Lemma read_manifest_reads {G} (I : G -> trace -> Prop) :
  (forall g t d, I g t -> I g (d ++ t)) ->
  triple ok I (io read_manifest) (fun m g t => I g t /\ manifest_read m t).
Proof.
  intros HI g t Hg. unfold lift, read_manifest. cbn.
  do 10 (split; [now apply allows_reads|]; intros ? ? [_ ->]).
  split.
  - apply (HI g t [_; _; _; _; _; _; _; _; _; _] Hg).
  - intros i w Hi. do 10 (destruct i as [|i]; [injection Hi as <-; set_solver|]). discriminate.
Qed.
End LOAD.

(** ** Loading *)
Section IMAGE.
Context (fuel : nat) (extra : Z -> Prop).
Abbreviation ok := (read_only extra).
Abbreviation inv := (statics_ok chosen).

Lemma kept_load_chunks n lba sectors destination loaded :
  0 <= loaded -> sectors <= 0x10000 -> 0 <= destination -> destination + sectors * 512 < 2 ^ 32 ->
  (forall a, destination <= a < destination + sectors * 512 -> extra a) ->
  keeps ok inv (load_chunks false fuel n lba sectors destination loaded).
Proof.
  intros H0 Hs Hd Hw He. revert loaded H0. induction n as [|n IH]; intros loaded H0; cbn [load_chunks].
  { keeps_step; keeps_step. }
  keeps_step; [keeps_step|]. bool_to_prop.
  set (count := if sectors -% loaded >? BLOCKS_PER_READ then _ else _).
  assert (1 <= count <= 32 /\ loaded + count <= sectors) as [Hc Hl].
  { unfold count, BLOCKS_PER_READ. rewrite sub32_small by ulia. case_if; bool_to_prop; lia. }
  rewrite (add32_small loaded count), (mul32_small loaded 512), (mul32_small count 512),
    (add32_small destination) by ulia.
  pose proof (kept_read_blocks false fuel extra). 
  keeps_step; [apply kept_bus, bus_report; lia|]. keeps_step.
  keeps_step; [apply kept_bus, bus_screen|]. keeps_step; [auto|].
  keeps_step; [apply kept_fail|]. keeps_step; [|apply IH; lia].
  apply kept_bus, bus_copy; [apply _|]. intros. left. apply He. lia.
Qed.

(** The image is accepted only when its checksum, computed over what is in memory
    after the last write, is the manifest's. *)
Lemma load_image_checked lba sectors destination crc :
  0 <= sectors <= 0x10000 -> 0 <= destination -> destination + sectors * 512 < 2 ^ 32 ->
  (forall a, destination <= a < destination + sectors * 512 -> extra a) ->
  triple ok inv (load_image false fuel lba sectors destination crc)
    (fun _ g t => inv g t /\ payload_checked destination (sectors * 512) crc t).
Proof.
  intros Hs Hd Hw He. unfold load_image.
  eapply triple_bind; [apply kept_load_chunks; auto; lia|]. intros ?.
  rewrite mul32_small by ulia.
  apply triple_bind with (R := fun c g t => inv g t /\ payload_checked destination (sectors * 512) c t).
  - intros g t Hg. unfold lift. apply wp_bind. eapply wp_mono; [|apply boot_crc32_reads; [apply _|lia]].
    intros o t' (l & -> & -> & Hl & Hf). cbn. split; [exact Hg|].
    exists [], l, t. auto.
  - intros c. apply triple_if; intros Hc.
    + eapply triple_pre; [apply triple_fail|]. intros g t [H _]. exact H.
    + bool_to_prop. subst c. apply triple_ret. auto.
Qed.
End IMAGE.

(** ** The whole loader *)

(** The two destinations, as the manifest check fixes their sizes. *)
Definition destinations (a : Z) : Prop :=
  0x34000000 <= a < 0x34000000 + 256 * 512 \/ 0x32000000 <= a < 0x32000000 + 2049 * 512.

(** What the loader promises the code that enters the kernel. *)
Definition boot_promise (t : trace) : Prop :=
  exists m, manifest_read m t /\ boot_manifest_valid m = true /\
    payload_checked 0x34000000 (256 * 512) (high_crc m) t /\
    payload_checked 0x32000000 (2049 * 512) (interrupts_crc m) t.

Lemma boot_promise_app d t : boot_promise t -> boot_promise (d ++ t).
Proof.
  intros (m & H1 & H2 & H3 & H4). exists m.
  auto using manifest_read_app, payload_checked_app.
Qed.

Lemma find_disk_safe fuel extra :
  triple (read_only extra) (statics_ok anything)
    (find_usb_disk false fuel orelse find_ide_disk false fuel)
    (fun found => statics_ok (if found then chosen else anything)).
Proof.
  unfold cor. eapply triple_bind.
  - apply (find_usb_disk_safe false fuel extra chosen anything); congruence.
  - intros [].
    + apply triple_ret. auto.
    + eapply triple_pre; [apply find_ide_disk_safe|]. intros g t [Hb _]. split; [exact Hb|exact I].
Qed.

(** A step of the loader that keeps [I] and cannot undo what the trace shows. *)
Lemma framed_seq {A B} ok (I : statics -> trace -> Prop) (F : trace -> Prop)
    (m : unit_code A) (k : A -> unit_code B) Q :
  (forall d t, F t -> F (d ++ t)) -> keeps ok I m ->
  (forall a, triple ok (fun g t => I g t /\ F t) (k a) Q) ->
  triple ok (fun g t => I g t /\ F t) (cbind m k) Q.
Proof.
  intros HF Hm Hk. eapply triple_bind; [apply (triple_frame _ _ _ _ _ HF Hm)|exact Hk].
Qed.

Ltac loader_bus :=
  apply kept_bus; solve
    [ apply bus_screen
    | apply bus_report; lia
    | apply bus_zero_dma; policy
    | apply bus_zero; intros ? ? ?; cbn; policy; right; right; split; policy ].
Ltac framed := refine (framed_seq _ _ _ _ _ _ _ _ _);
  [solve [auto using payload_checked_app, manifest_read_app, boot_promise_app] | first [loader_bus|idtac] | intros ?].

(** The two images, once a disk is chosen. *)
Lemma load_payloads_checked fuel m :
  boot_manifest_valid m = true ->
  triple (read_only destinations) (statics_ok chosen)
    (load_image false fuel (high_lba m) (high_sectors m) 0x34000000 (high_crc m) ;*
     load_image false fuel (interrupts_lba m) (interrupts_sectors m) 0x32000000 (interrupts_crc m))
    (fun _ g t => statics_ok chosen g t /\
       payload_checked 0x34000000 (256 * 512) (high_crc m) t /\
       payload_checked 0x32000000 (2049 * 512) (interrupts_crc m) t).
Proof.
  intros Hm. unfold boot_manifest_valid in Hm. bool_to_prop.
  repeat match goal with H : _ m = _ |- _ => rewrite H; clear H end.
  eapply triple_bind; [apply load_image_checked; unfold destinations; lia|]. intros ?. cbv beta.
  eapply triple_post; [apply triple_frame; [apply payload_checked_app|]|].
  - apply load_image_checked; unfold destinations; lia.
  - cbn. tauto.
Qed.

(** C2: the bootstrap loader changes nothing on any disk (its ATA command writes are
    only READ SECTORS, its SCSI commands only the four of the allowlist, its memory
    writes only to its buffers, the screen, device registers and the two kernel
    destinations), and it returns to enter the kernel only after a manifest with the
    expected layout was read and both payloads, read back from memory, had the
    manifest's checksums: in every other case it halts, whatever the hardware
    answers. *)
Theorem bootstrap_load_images_safe fuel :
  triple (read_only destinations) (fun _ _ => True) (bootstrap_load_images false fuel)
    (fun _ _ => boot_promise).
Proof.
  unfold bootstrap_load_images.
  apply triple_bind with (R := fun _ => statics_ok anything).
  { apply triple_modify. intros g t _. split; [split; [left|]; cbn; lia|exact I]. }
  intros _. do 4 (eapply triple_bind; [loader_bus|intros ?; cbv beta]).
  eapply triple_bind; [apply read_manifest_reads; auto; apply _|]. intros m. cbv beta.
  apply triple_if; intros Hm; [eapply triple_pre; [apply triple_fail with (P := anything)|]; cbn; tauto|].
  bool_to_prop. framed. framed; [apply kept_calibrate_timer|].
  eapply triple_bind; [apply triple_frame; [apply manifest_read_app|apply find_disk_safe]|].
  intros found. apply triple_if; intros Hf; bool_to_prop; subst found.
  { framed; [apply kept_bus, bus_access; reads|]. eapply triple_pre; [apply triple_fail with (P := anything)|]. cbn. tauto. }
  apply triple_gets_bind. intros which.
  eapply triple_pre with (P' := fun g t => statics_ok chosen g t /\ manifest_read m t);
    [|cbn; tauto].
  framed. apply triple_assoc.
  eapply triple_bind; [apply triple_frame; [apply manifest_read_app|now apply load_payloads_checked]|].
  intros ?. cbv beta.
  eapply triple_pre with (P' := fun g t => statics_ok chosen g t /\ boot_promise t).
  2: { intros g t [[H [H1 H2]] Hr]. split; [exact H|]. exists m. auto. }
  framed; [apply kept_stop_controller|]. framed. apply triple_gets_bind. intros ?.
  eapply triple_conseq; [apply triple_frame with (P := statics_ok chosen) (F := boot_promise)| |].
  - apply boot_promise_app.
  - loader_bus.
  - cbn. tauto.
  - cbn. tauto.
Qed.
