(* ===== verification/Deadline.v ===== *)
(** * Deadlines: the polling loops of the transport terminate

    The code bounds its waits by the time-stamp counter. What it relies on is a
    promise of the clock ([Clocked]): the counter moves forward between two reads,
    by less than what would wrap past a whole deadline. Under it, fuel above the
    deadline is always enough. *)
From stdpp Require Import list gmap strings.
From S2P Require Import Prelude Machine Runtime BootImage StorageRules Transport.

(** The most the counter may advance between two reads (2^28 cycles; the longest
    deadline the code computes is 4,000,000 * 1000). *)
Definition CLOCK_STEP : Z := 2 ^ 28.
Definition LONGEST_DEADLINE : Z := 4000000000.

(** A counter that is only visible through [rdtsc]. *)
Class Clocked {S} (hw : hardware bus S) (clock : S -> Z) := {
  clock_allowed : forall s, allowed hw s Rdtsc;
  clock_step : forall s v s', answers hw s Rdtsc v s' ->
    v = u32 (clock s') /\ 1 <= clock s' - clock s <= CLOCK_STEP
}.

Section DEADLINE.
Context {S : Type} (hw : hardware bus S) (clock : S -> Z) `{!Clocked hw clock}.

(** The difference the code computes is the time elapsed, until it wraps. *)
Lemma elapsed_exact c0 c : 0 <= c - c0 < 2 ^ 32 -> u32 c -% u32 c0 = c - c0.
Proof.
  intros H. unfold sub32, u32, wrap. rewrite <- Zminus_mod. now apply Z.mod_small.
Qed.

(** [poll] with fuel above the remaining time: it leaves with what the body
    returned, or times out. [I] is what the body and the clock preserve. *)
Lemma wp_poll {R} (I : S -> Prop) (Q : outcome (option R) -> S -> Prop)
    (body : prog bus (option R)) c0 limit n s :
  (forall s', I s' -> wp hw body (fun o s'' => match o with
     | Done (Some x) => Q (Done (Some x)) s''
     | Done None => I s'' /\ clock s'' = clock s'
     | _ => False
     end) s') ->
  (forall s' v s'', I s' -> answers hw s' Rdtsc v s'' -> I s'') ->
  (forall s', I s' -> Q (Done None) s') ->
  limit <= LONGEST_DEADLINE ->
  I s -> 0 <= clock s - c0 -> clock s - c0 < Z.max 1 limit ->
  limit - (clock s - c0) < Z.of_nat n ->
  (1 <= n)%nat ->
  wp hw (poll n (u32 c0) limit body) Q s.
Proof.
  intros Hbody Hclock Hexit Hlimit. revert s.
  induction n as [|n IH]; intros s Hs Hc Hb Hn Hn1; [lia|]. cbn [poll].
  apply wp_bind. eapply wp_mono; [|apply Hbody, Hs].
  intros [[x|]|m| |] s1; try contradiction; cbn; [auto|]. intros [H1 Hc1].
  split; [apply clock_allowed|]. intros v s2 Hv. destruct (clock_step _ _ _ Hv) as [-> Hstep].
  unfold LONGEST_DEADLINE, CLOCK_STEP in *.
  assert (u32 (clock s2) -% u32 c0 = clock s2 - c0) as -> by (apply elapsed_exact; lia).
  assert (I s2) by eauto.
  case_if; bool_to_prop; [|now apply Hexit].
  apply IH; auto; lia.
Qed.

Lemma wp_delay_loop (I : S -> Prop) (Q : outcome unit -> S -> Prop) c0 duration n s :
  (forall s' v s'', I s' -> answers hw s' Rdtsc v s'' -> I s'') ->
  (forall s', I s' -> Q (Done tt) s') ->
  duration <= LONGEST_DEADLINE ->
  I s -> 0 <= clock s - c0 -> clock s - c0 < Z.max 1 duration ->
  duration - (clock s - c0) < Z.of_nat n -> (1 <= n)%nat ->
  wp hw (delay_loop n (u32 c0) duration) Q s.
Proof.
  intros Hclock Hexit Hd. revert s.
  induction n as [|n IH]; intros s Hs Hc Hb Hn Hn1; [lia|]. cbn.
  split; [apply clock_allowed|]. intros v s2 Hv. destruct (clock_step _ _ _ Hv) as [-> Hstep].
  unfold LONGEST_DEADLINE, CLOCK_STEP in *.
  assert (u32 (clock s2) -% u32 c0 = clock s2 - c0) as -> by (apply elapsed_exact; lia).
  assert (I s2) by eauto.
  case_if; bool_to_prop; [|now apply Hexit]. apply IH; auto; lia.
Qed.
End DEADLINE.
