(* ===== verification/AtaDisk.v ===== *)
(** * [ata_read] against an ATA disk

    The device side of programmed I/O as the ATA standard documents it: task-file
    registers, READ SECTORS, one 256-word block per sector, a status that may be busy
    or report an error at any time but whose DRQ bit is set exactly when data is
    pending. Against every such disk and every advancing clock, [ata_read] returns,
    and when it reports success the bounce buffer holds the requested sectors. *)
From stdpp Require Import list gmap strings.
From S2P Require Import Prelude Machine Runtime BootImage StorageRules Transport Deadline.

(** What the device is doing: [Data dev lba left word] is about to deliver word
    [word] of sector [lba] of device [dev], [left] sectors still to finish. *)
Inductive phase :=
| Idle
| Data (dev lba left word : Z).

Record disk := {
  r_count : Z; r_low : Z; r_mid : Z; r_high : Z; r_select : Z;
  ph : phase; ram : gmap Z Z; now : Z
}.
#[export] Instance eta_disk : Eta disk := fun s =>
  Build_disk (r_count s) (r_low s) (r_mid s) (r_high s) (r_select s) (ph s) (ram s) (now s).

Section DISK.
(** The contents: word [w] of sector [l] of device [d]; the channel's base port. *)
Context (image : Z -> Z -> Z -> Z) (base : Z).

Definition decode_lba (s : disk) : Z :=
  r_low s + 2 ^ 8 * r_mid s + 2 ^ 16 * r_high s + 2 ^ 24 * (r_select s .& 15).

Definition advance (p : phase) : phase :=
  match p with
  | Idle => Idle
  | Data d l n w =>
      if w =? 255 then if n =? 1 then Idle else Data d (l + 1) (n - 1) 0
      else Data d l n (w + 1)
  end.

(** A status byte: busy, an error, no device, or DRQ as the phase says. *)
Definition status_ok (p : phase) (v : Z) : Prop :=
  v .& 0x80 <> 0 \/ v .& 0x21 <> 0 \/ v = 0 \/ v = 255 \/
  v .& 8 = match p with Idle => 0 | Data _ _ _ _ => 8 end.

Definition disk_allowed (s : disk) (e : bus) : Prop :=
  match e with
  | In W8 p => p = base + 7 \/ p = base + 0x206
  | In W16 p => p = base /\ ph s <> Idle
  | Out W8 p v =>
      p = base + 2 \/ p = base + 3 \/ p = base + 4 \/ p = base + 5 \/ p = base + 6 \/
      p = base + 0x206 \/ (p = base + 7 /\ v = 0x20 /\ ph s = Idle /\ r_select s .& 0x40 = 0x40)
  | Store W16 _ _ | Rdtsc => True
  | _ => False
  end.

Definition disk_answers (s : disk) (e : bus) (v : Z) (s' : disk) : Prop :=
  match e with
  | In W8 p => is_u8 v /\ s' = s /\ (p = base + 7 -> status_ok (ph s) v)
  | In W16 _ =>
      s' = s <| ph := advance (ph s) |> /\
      match ph s with Data d l n w => v = image d l w | Idle => False end
  | Out W8 p x =>
      s' = if p =? base + 2 then s <| r_count := x |>
           else if p =? base + 3 then s <| r_low := x |>
           else if p =? base + 4 then s <| r_mid := x |>
           else if p =? base + 5 then s <| r_high := x |>
           else if p =? base + 6 then s <| r_select := x |>
           else if p =? base + 7 then
             s <| ph := Data ((r_select s >>> 4) .& 1) (decode_lba s) (r_count s) 0 |>
           else s
  | Store W16 a x => s' = s <| ram := <[a := x]> (ram s) |>
  | Rdtsc => v = u32 (now s') /\ 1 <= now s' - now s <= CLOCK_STEP /\
             s' = s <| now := now s' |>
  | _ => False
  end.

Definition disk_hw : hardware bus disk := {|
  allowed := disk_allowed; answers := disk_answers
|}.

#[export] Instance disk_clocked : Clocked disk_hw now.
Proof.
  split.
  - intros s. exact I.
  - intros s v s' (Hv & Hs & _). auto.
Qed.

(** ** Waiting *)
Definition at_time (s : disk) (c : Z) : disk := s <| now := c |>.

(** The status that satisfied a wait. *)
Definition settled (s : disk) (mask wanted : Z) : Prop :=
  exists v, status_ok (ph s) v /\ v .& 0x80 = 0 /\ v .& 0x21 = 0 /\ v <> 0 /\ v <> 255 /\
    v .& mask = wanted.

Definition timed (g : statics) (fuel : nat) : Prop :=
  1 <= ticks_per_ms g <= 4000000 /\ ticks_per_ms g * 1000 < Z.of_nat fuel.

Lemma wp_ata_wait fuel mask wanted g s (Q : outcome (bool * statics) -> disk -> Prop) :
  ata_port g = base -> timed g fuel ->
  (forall c, settled s mask wanted -> Q (Done (true, g)) (at_time s c)) ->
  (forall c, Q (Done (false, g)) (at_time s c)) ->
  wp disk_hw (ata_wait fuel mask wanted g) Q s.
Proof.
  intros Hp [Ht Hf] Hyes Hno. unfold ata_wait.
  apply wp_read; [exact I|]. intros v s1 (-> & Hstep & Hs1). do 2 apply wp_gets. apply wp_io.
  rewrite mul32_small by ulia.
  assert (forall c, wp disk_hw (ata_poll (ata_port g) mask wanted)
    (fun o s'' => match o with
     | Done (Some x) => x = true -> settled s mask wanted
     | Done None => True | _ => False end /\ s'' = at_time s c) (at_time s c)) as Hbody.
  { intros c. rewrite Hp. cbn. split; [now left|]. intros w t (Hw & -> & Hst). cbn in Hst.
    split; [|reflexivity].
    repeat case_if; bool_to_prop; auto; try discriminate.
    intros _. exists w. repeat split; auto. }
  eapply (wp_poll disk_hw now (fun s' => exists c, s' = at_time s c)).
  - intros s' [c ->]. eapply wp_mono; [|apply Hbody].
    intros [[x|]|m| |] s'' [Hx ->]; try contradiction; cbn.
    + destruct x; auto.
    + split; [now exists c|reflexivity].
  - intros s' w s'' [c ->] (_ & _ & ->). now exists (now s'').
  - intros s' [c ->]. cbn. auto.
  - unfold LONGEST_DEADLINE. lia.
  - rewrite Hs1. now exists (now s1).
  - cbn. lia.
  - cbn. lia.
  - cbn. lia.
  - lia.
Qed.

Lemma wp_ata_settle s (Q : outcome unit -> disk -> Prop) :
  Q (Done tt) s -> wp disk_hw (ata_settle base) Q s.
Proof.
  intros HQ. unfold ata_settle.
  apply wp_for_range with (I := fun _ s' => s' = s); [|intros s' ->; exact HQ|reflexivity].
  intros j s' _ ->. cbn. split; [now right|]. intros v s'' (_ & -> & _). reflexivity.
Qed.

(** ** One command *)
Section COMMAND.
Context (dev lba blocks : Z) (ram0 : gmap Z Z) (Hblocks : 1 <= blocks).

(** The device after it delivered [i] words of the command. *)
Definition phase_at (i : Z) : phase :=
  if i =? 256 * blocks then Idle
  else Data dev (lba + i / 256) (blocks - i / 256) (i mod 256).

(** The bounce buffer after [i] words: the sectors so far, and nothing else changed. *)
Definition filled (i : Z) (m : gmap Z Z) : Prop :=
  (forall j, 0 <= j < i -> m !! (TRANSFER_BUFFER + 2 * j) =
     Some (image dev (lba + j / 256) (j mod 256))) /\
  (forall a, a < TRANSFER_BUFFER \/ TRANSFER_BUFFER + 2 * i <= a -> m !! a = ram0 !! a).

Definition delivered (i : Z) (s : disk) : Prop := ph s = phase_at i /\ filled i (ram s).

Lemma phase_at_advance i : 0 <= i < 256 * blocks -> advance (phase_at i) = phase_at (i + 1).
Proof.
  intros Hi. unfold phase_at. destruct (Z.eqb_spec i (256 * blocks)); [lia|]. cbn [advance].
  pose proof (Z.div_mod i 256 ltac:(lia)). pose proof (Z.mod_pos_bound i 256 ltac:(lia)).
  destruct (Z.eqb_spec (i mod 256) 255).
  - assert ((i + 1) / 256 = i / 256 + 1) as E1 by (symmetry; apply Z.div_unique with 0; lia).
    assert ((i + 1) mod 256 = 0) as E2 by (symmetry; apply Z.mod_unique with (i / 256 + 1); lia).
    rewrite E1, E2.
    destruct (Z.eqb_spec (blocks - i / 256) 1), (Z.eqb_spec (i + 1) (256 * blocks)); try lia;
      [reflexivity|f_equal; lia].
  - assert ((i + 1) / 256 = i / 256) as E1
      by (symmetry; apply Z.div_unique with (i mod 256 + 1); lia).
    assert ((i + 1) mod 256 = i mod 256 + 1) as E2
      by (symmetry; apply Z.mod_unique with (i / 256); lia).
    rewrite E1, E2. destruct (Z.eqb_spec (i + 1) (256 * blocks)); [lia|reflexivity].
Qed.

Lemma filled_step i m :
  0 <= i -> filled i m ->
  filled (i + 1) (<[TRANSFER_BUFFER + 2 * i := image dev (lba + i / 256) (i mod 256)]> m).
Proof.
  intros Hi [Hin Hout]. split.
  - intros j Hj. destruct (Z.eq_dec j i) as [->|]; [apply lookup_insert_eq|].
    rewrite lookup_insert_ne by lia. apply Hin. lia.
  - intros a Ha. rewrite lookup_insert_ne by lia. apply Hout. lia.
Qed.

(** A whole sector moves [delivered] by 256 words. *)
Lemma wp_ata_sector k s (Q : outcome unit -> disk -> Prop) :
  0 <= k < blocks -> delivered (256 * k) s ->
  (forall s', delivered (256 * (k + 1)) s' -> Q (Done tt) s') ->
  wp disk_hw (ata_sector base (TRANSFER_BUFFER + k * 512)) Q s.
Proof.
  intros Hk Hs HQ. unfold ata_sector.
  apply wp_for_range with (I := fun j => delivered (256 * k + j)).
  - intros j s' Hj [Hph Hram]. cbn.
    assert (phase_at (256 * k + j) =
            Data dev (lba + (256 * k + j) / 256) (blocks - (256 * k + j) / 256) ((256 * k + j) mod 256))
      as E by (unfold phase_at; destruct (Z.eqb_spec (256 * k + j) (256 * blocks)); [lia|reflexivity]).
    split; [split; [reflexivity|rewrite Hph, E; discriminate]|].
    intros v s1 [-> Hv]. split; [exact I|]. intros _ s2 ->. cbn.
    rewrite Hph, E in Hv. subst v. split; cbn.
    + rewrite Hph, phase_at_advance by lia. f_equal. lia.
    + replace (TRANSFER_BUFFER + k * 512 + 2 * j) with (TRANSFER_BUFFER + 2 * (256 * k + j)) by lia.
      rewrite Z.add_assoc. apply filled_step; [lia|assumption].
  - intros s' H. apply HQ. now replace (256 * (k + 1)) with (256 * k + (0 + Z.of_nat 256)) by lia.
  - now rewrite Z.add_0_r.
Qed.

(** DRQ means data is pending, and the end of the last sector means idle. *)
Lemma delivered_at_time i s c : delivered i s -> delivered i (at_time s c).
Proof. intros H. exact H. Qed.
End COMMAND.

(** ** The task file encodes the request *)
Lemma select_byte dev hi : 0 <= dev <= 1 -> 0 <= hi < 16 ->
  let v := u8 (0xE0 .| (dev <<% 4) .| hi) in
  v .& 15 = hi /\ (v >>> 4) .& 1 = dev /\ v .& 0x40 = 0x40.
Proof.
  intros Hd Hh.
  assert (forallb (fun d => forallb (fun h =>
    let v := u8 (0xE0 .| (Z.of_nat d <<% 4) .| Z.of_nat h) in
    (v .& 15 =? Z.of_nat h) && ((v >>> 4) .& 1 =? Z.of_nat d) && (v .& 0x40 =? 0x40))
    (seq 0 16)) (seq 0 2) = true) as H by (vm_compute; reflexivity).
  rewrite forallb_forall in H. specialize (H (Z.to_nat dev)).
  rewrite in_seq, forallb_forall in H. specialize (H ltac:(lia) (Z.to_nat hi)).
  rewrite in_seq in H. specialize (H ltac:(lia)). rewrite !Z2Nat.id in H by lia.
  cbv zeta in *. bool_to_prop. auto.
Qed.

Lemma lba_bytes lba : 0 <= lba < 2 ^ 28 ->
  u8 lba + 2 ^ 8 * u8 (lba >>> 8) + 2 ^ 16 * u8 (lba >>> 16) + 2 ^ 24 * (lba >>> 24) = lba.
Proof.
  intros H. unfold u8, wrap. rewrite !Z.shiftr_div_pow2 by lia.
  change (2 ^ 8) with 256. change (2 ^ 16) with 65536. change (2 ^ 24) with 16777216.
  Z.to_euclidean_division_equations. lia.
Qed.

(** ** The driver *)

(** What a caller may conclude from the result of [ata_read]. *)
Definition read_promise (dev lba blocks : Z) (m0 : gmap Z Z) (s : disk) : Prop :=
  1 <= blocks <= 32 /\ lba + blocks <= 2 ^ 28 /\ ph s = Idle /\
  filled dev lba m0 (256 * blocks) (ram s).

(** The loop over the sectors, from the accepted command. *)
Lemma wp_ata_sectors fuel dev lba blocks m0 g s :
  ata_port g = base -> timed g fuel -> 1 <= blocks ->
  delivered dev lba blocks m0 0 s ->
  wp disk_hw (cloop (Z.to_nat blocks) 0 (fun sector =>
      io (ata_settle base) ;*
      let* drq := ata_wait fuel 8 8 in
      if negb drq then cret (Some false) else
      io (ata_sector base (TRANSFER_BUFFER + sector * 512)) ;*
      cret None) g)
    (fun o s' => o = Done (Some false, g) \/
       (o = Done (None, g) /\ delivered dev lba blocks m0 (256 * blocks) s')) s.
Proof.
  intros Hp Ht Hb Hs.
  apply (wp_cloop disk_hw (fun k => delivered dev lba blocks m0 (256 * k))).
  - intros k s1 Hk H1. apply wp_io, wp_ata_settle. cbn [on_done]. apply wp_cbind.
    apply wp_ata_wait; [assumption..| |cbn; auto].
    intros c _. cbn [on_done fst snd negb]. apply wp_io, (wp_ata_sector dev lba blocks m0 k); [lia|assumption|].
    intros s2 H2. split; [reflexivity|exact H2].
  - intros s' H. right. split; [reflexivity|]. rewrite Z2Nat.id, Z.add_0_l in H by lia. exact H.
  - exact Hs.
Qed.

(** An accepted command puts the device at the first word of the request. *)
Lemma command_delivers dev lba blocks m0 s :
  0 <= dev <= 1 -> 0 <= lba < 2 ^ 28 -> 1 <= blocks <= 32 ->
  r_select s = u8 (0xE0 .| (dev <<% 4) .| (lba >>> 24)) ->
  r_count s = u8 blocks -> r_low s = u8 lba -> r_mid s = u8 (lba >>> 8) ->
  r_high s = u8 (lba >>> 16) -> ram s = m0 ->
  delivered dev lba blocks m0 0
    (s <| ph := Data ((r_select s >>> 4) .& 1) (decode_lba s) (r_count s) 0 |>).
Proof.
  intros Hd Hl Hb Hsel Hc H1 H2 H3 <-.
  assert (0 <= lba >>> 24 < 16) as Hh
    by (rewrite Z.shiftr_div_pow2 by lia; split; [apply Z.div_pos|apply Z.div_lt_upper_bound]; lia).
  destruct (select_byte dev (lba >>> 24) Hd Hh) as (E1 & E2 & _).
  split.
  - cbn. unfold phase_at. destruct (Z.eqb_spec 0 (256 * blocks)); [lia|].
    change (0 / 256) with 0. change (0 mod 256) with 0. rewrite Z.add_0_r, Z.sub_0_r.
    unfold decode_lba. rewrite Hsel, E1, E2, H1, H2, H3, Hc, lba_bytes by lia.
    f_equal. unfold u8. apply wrap_small. ulia.
  - split; cbn; [intros j Hj; lia|auto].
Qed.

(** Decide which register a write to the task file addresses. *)
Ltac decide_ports H :=
  repeat match type of H with
  | context [?a =? ?b] =>
      first [ replace (a =? b) with true in H by (symmetry; apply Z.eqb_eq; lia)
            | replace (a =? b) with false in H by (symmetry; apply Z.eqb_neq; lia) ]
  end; cbn iota in H.
Ltac disk_out :=
  apply wp_write; [cbn; lia|]; let H := fresh "Hout" in let d := fresh "d" in
  intros ? d H; cbn [answers disk_hw disk_answers] in H; decide_ports H; subst d.

End DISK.

(** ** A disk that answers at once

    The premises can hold, and the success case is reachable: one sector of a disk
    whose words are their own addresses. *)
Definition quiet_disk : disk := Build_disk 0 0 0 0 0 Idle ∅ 0.
Definition tiny_statics : statics := bss <| ticks_per_ms := 4 |> <| ata_port := 0x1F0 |>.
Definition numbered (d l w : Z) : Z := (l * 256 + w) mod 2 ^ 16.


(** One concrete run of the disk model: never busy. *)
Definition prompt_disk (s : disk) (e : bus) : option (Z * disk) :=
  match e with
  | In W8 p => Some (match ph s with Idle => 0x50 | _ => 0x58 end, s)
  | In W16 _ => match ph s with
                | Data d l n w => Some (numbered d l w, s <| ph := advance (ph s) |>)
                | Idle => None
                end
  | Out W8 p x =>
      Some (0, if p =? 0x1F2 then s <| r_count := x |>
               else if p =? 0x1F3 then s <| r_low := x |>
               else if p =? 0x1F4 then s <| r_mid := x |>
               else if p =? 0x1F5 then s <| r_high := x |>
               else if p =? 0x1F6 then s <| r_select := x |>
               else if p =? 0x1F7 then
                 s <| ph := Data ((r_select s >>> 4) .& 1) (decode_lba s) (r_count s) 0 |>
               else s)
  | Store W16 a x => Some (0, s <| ram := <[a := x]> (ram s) |>)
  | Rdtsc => Some (u32 (now s + 1), s <| now := now s + 1 |>)
  | _ => None
  end.

Example ata_read_runs :
  let r := exec prompt_disk (ata_read 10 77 2 tiny_statics) quiet_disk in
  fst r = Done (true, tiny_statics) /\ ph (snd r) = Idle /\
  ram (snd r) !! (TRANSFER_BUFFER + 512 + 6) = Some (78 * 256 + 3).
Proof. vm_compute. repeat split; reflexivity. Qed.
