(* ===== verification/Storage.v ===== *)
(** * The kernel storage service: the runtime half of [Drivers/Storage/Storage.c]

    The functions below the included transport: discovery, the ring-0 API and the
    SYSENTER entry [storage_syscall]. The transport is the kernel build of
    [Transport]. *)
From stdpp Require Import list gmap strings.
From S2P Require Import Prelude Machine Runtime BootImage StorageRules Transport.

Definition STORAGE_DEVICE_COUNT : Z := 5.
Definition STORAGE_USB : Z := 1.
Definition STORAGE_ATA : Z := 2.
Definition STORAGE_READ_ONLY : Z := 1.
Definition SYSCALL_STORAGE_INFO : Z := 5.
Definition SYSCALL_STORAGE_READ : Z := 6.
Definition SYSCALL_STORAGE_DEVICES : Z := 7.

(** [enum storage_result] *)
Definition STORAGE_OK : Z := 0.
Definition STORAGE_NO_DEVICE : Z := 0xFFFF0001.
Definition STORAGE_BAD_ARGUMENT : Z := 0xFFFF0002.
Definition STORAGE_IO_ERROR : Z := 0xFFFF0003.
Definition STORAGE_ACCESS_DENIED : Z := 0xFFFF0004.
Definition STORAGE_BAD_BUFFER : Z := 0xFFFF0005.
Definition STORAGE_NOT_READY : Z := 0xFFFF0006.

Definition STORAGE_CALLBACK : Z := 0x8000234C.
Definition PROC_PD_WORD : Z := 0.
Definition PROC_SLOT_WORD : Z := 14.
Definition PROC_TYPE_WORD : Z := 15.
Definition PROC_STORAGE_WORD : Z := 17.
Definition TABLE_POOL_START : Z := 0x30500000.
Definition TABLE_POOL_END : Z := 0x30800000.
Definition PAGE_PRESENT : Z := 1.
Definition PAGE_RW : Z := 2.

(** The words of [struct storage_registers] the service reads. *)
Record storage_registers := { r_edi : Z; r_esi : Z; r_ebx : Z; r_eax : Z }.

Definition enter_storage : prog bus Z := access SaveFlagsCli.
Definition leave_storage (flags : Z) : prog bus unit :=
  if truthy (flags .& 0x200) then access Sti ;; Ret tt else Ret tt.

(** The bytes of a [struct storage_device_info] in memory. *)
Definition le32_bytes (v : Z) : list Z := [u8 v; u8 (v >>> 8); u8 (v >>> 16); u8 (v >>> 24)].
Definition info_bytes (d : storage_device_info) : list Z :=
  le32_bytes (dev_type d) ++ le32_bytes (sector_size d) ++ le32_bytes (block_count d) ++
  le32_bytes (flags d) ++ model d.
Definition INFO_SIZE : Z := 56.

(** The 256 IDENTIFY words in the bounce buffer; programmed I/O only, so they are
    read once. *)
Fixpoint load_words (n : nat) (address : Z) : prog bus (list Z) :=
  match n with
  | O => Ret []
  | S n' =>
      let! w := load16 address in
      let! rest := load_words n' (address + 2) in
      Ret (w :: rest)
  end.

(** The model string: each word holds two characters, high byte first. *)
Definition identify_model (words : list Z) : list Z :=
  flat_map (fun w => [w >>> 8; u8 w]) (take 20 (drop 27 words)).

Definition usb_model : list Z :=
  codes "USB mass storage" ++ replicate 24 32.

Section SERVICE.
Context (fuel : nat) (storage_syscall_address : Z).

Definition identify_ata : unit_code bool :=
  let* port := gets ata_port in
  let* device := gets ata_device in
  io (out8 (port + 0x206) 2) ;*
  io (out8 (port + 6) (u8 (0xA0 .| (device <<% 4)))) ;*
  io (ata_settle port) ;*
  let* status := io (in8 (port + 7)) in
  if (status =? 0) || (status =? 255) || truthy (status .& 0x88) then cret false else
  io (out8 (port + 2) 0) ;*
  io (out8 (port + 3) 0) ;*
  io (out8 (port + 4) 0) ;*
  io (out8 (port + 5) 0) ;*
  io (out8 (port + 7) 0xEC) ;*
  io (ata_settle port) ;*
  let* drq := ata_wait fuel 8 8 in
  if negb drq then cret false else
  io (ata_sector port TRANSFER_BUFFER) ;*
  io (ata_settle port) ;*
  ata_wait fuel 0x88 0.

(** The body of the device loop of [discover_ata]. *)
Definition discover_device (channel device : Z) : unit_code unit :=
  modify (fun g => g <| ata_device := device |>) ;*
  let id := 1 + channel * 2 + device in
  let* ok := identify_ata in
  if negb ok then cret tt else
  let* words := io (load_words 256 TRANSFER_BUFFER) in
  let capacity := storage_identify_capacity words in
  if capacity =? 0 then cret tt else
  modify (fun g => g
    <| devices := <[Z.to_nat id := Build_storage_device_info STORAGE_ATA 512 capacity
                                     STORAGE_READ_ONLY (identify_model words)]> (devices g) |>
    <| device_mask := device_mask g .| (1 <<% id) |>).

(** The two channels of a controller; the result is the new [channels_seen]. *)
Fixpoint discover_channels (n : nat) (channel mode channels_seen : Z) : unit_code Z :=
  match n with
  | O => cret channels_seen
  | S n' =>
      if truthy (mode .& (if truthy channel then 4 else 1)) ||
         truthy (channels_seen .& (1 <<% channel))
      then discover_channels n' (channel + 1) mode channels_seen
      else
        modify (fun g => g <| ata_port := if truthy channel then 0x170 else 0x1F0 |>) ;*
        discover_device channel 0 ;*
        discover_device channel 1 ;*
        modify (fun g => g <| ata_device := 2 |>) ;*
        discover_channels n' (channel + 1) mode (channels_seen .| (1 <<% channel))
  end.

Fixpoint discover_controllers (n : nat) (pci channels_seen : Z) : unit_code unit :=
  match n with
  | O => cret tt
  | S n' =>
      let next := discover_controllers n' (pci + 0x100) in
      let* id := io (pci_read pci 0) in
      if id .& 0xFFFF =? 0xFFFF then next channels_seen else
      let* code := io (pci_read pci 8) in
      let* skip := cret (negb (code >>> 16 =? 0x0101)) orelse
        (let* command := io (pci_read pci 4) in cret (command .& 1 =? 0)) in
      if skip then next channels_seen else
      let* seen := discover_channels 2 0 ((code >>> 8) .& 255) channels_seen in
      next seen
  end.

Definition discover_ata : unit_code unit := discover_controllers (Z.to_nat 0x10000) 0 0.

Definition discover_usb : unit_code unit :=
  let* done := gets usb_discovered in
  if truthy done then cret tt else
  modify (fun g => g <| usb_discovered := 1 |>) ;*
  calibrate_timer true ;*
  io (zero DMA_BASE 0x7000) ;*
  let* found := find_usb_disk true fuel in
  if negb found then cret tt else
  modify (fun g => g
    <| devices := <[0%nat := Build_storage_device_info STORAGE_USB 512 (last_block g +% 1)
                               STORAGE_READ_ONLY usb_model]> (devices g) |>
    <| device_mask := device_mask g .| 1 |>).

Definition companions_result : unit_code Z :=
  let* ready := gets companions_ready in
  let* ticks := gets ticks_per_ms in
  cret (if truthy ready then ticks else 0).

Definition storage_prepare_usb_companions (ehci_pci : Z) : unit_code Z :=
  let* flags := io enter_storage in
  let* ready := gets initialized in
  let* done := gets usb_discovered in
  if (ready =? 0) || truthy done then io (leave_storage flags) ;* companions_result else
  modify (fun g => g <| companion_target := ehci_pci |>) ;*
  discover_usb ;*
  io (leave_storage flags) ;*
  companions_result.

Definition storage_refresh_usb_companions : unit_code unit :=
  let* flags := io enter_storage in
  let* ready := gets companions_ready in
  let* base := gets ehci in
  let* ports := gets companion_ports in
  let* keep := gets companion_keep in
  (if truthy ready && truthy base then
     cfor (Z.to_nat ports) 0 (fun port =>
       if port =? keep then cret tt else
       let index := (0x44 + port * 4) / 4 in
       let* value := io (ehci_read base index) in
       if value .& 0x2001 =? 1 then
         io (ehci_write base index ((value .& not32 (0x2A .| 4)) .| 0x2000)) ;*
         io (ehci_read base index) ;*
         cret tt
       else cret tt)
   else cret tt) ;*
  io (leave_storage flags).

Definition discover_storage : unit_code unit :=
  let* done := gets discovered in
  if truthy done then cret tt else
  modify (fun g => g <| discovered := 1 |>) ;*
  discover_usb ;*
  discover_ata.

Definition storage_initialize : unit_code unit :=
  let* flags := io enter_storage in
  let* done := gets initialized in
  (if truthy done then cret tt else
     let* ok := io (api "map_page" [STORAGE_MMIO; 0x3004F000; PAGE_PRESENT .| PAGE_RW]) in
     if ok =? 0 then cpanic "Cannot reserve storage MMIO mapping" else
     io (store32 STORAGE_CALLBACK storage_syscall_address) ;*
     modify (fun g => g <| initialized := 1 |>)) ;*
  io (leave_storage flags).

Definition storage_device_mask : unit_code Z :=
  let* flags := io enter_storage in
  let* ready := gets initialized in
  (if truthy ready then discover_storage else cret tt) ;*
  let* result := gets device_mask in
  io (leave_storage flags) ;*
  cret result.

Definition storage_get_info (device info : Z) : unit_code Z :=
  let* ready := gets initialized in
  if ready =? 0 then cret STORAGE_NOT_READY else
  if (info =? 0) || (device >=? STORAGE_DEVICE_COUNT) then cret STORAGE_BAD_ARGUMENT else
  let* flags := io enter_storage in
  discover_storage ;*
  let* mask := gets device_mask in
  let* table := gets devices in
  let* result :=
    (if truthy (mask .& (1 <<% device)) then
       match table !! Z.to_nat device with
       | Some d => io (copy_local info (info_bytes d)) ;* cret STORAGE_OK
       | None => cpanic "devices index out of range"
       end
     else cret STORAGE_NO_DEVICE) in
  io (leave_storage flags) ;*
  cret result.

(** The channel a failed ATA read disables: both of its devices. *)
Definition kill_channel (device : Z) (dead : list Z) : list Z :=
  let first := (device - 1) .& not32 1 in
  <[Z.to_nat (first + 1) := 1]> (<[Z.to_nat first := 1]> dead).

(** The part of [storage_read] between entering and leaving; [goto done] returns. *)
Definition storage_read_locked (device lba blocks buffer : Z) : unit_code Z :=
  let* mask := gets device_mask in
  if negb (truthy (mask .& (1 <<% device))) then cret STORAGE_NO_DEVICE else
  let* table := gets devices in
  match table !! Z.to_nat device with
  | None => cpanic "devices index out of range"
  | Some d =>
      if negb (storage_valid_range (block_count d) lba blocks) then cret STORAGE_BAD_ARGUMENT else
      let* dead := gets ata_dead in
      if negb (device =? 0) && truthy (default 0 (dead !! Z.to_nat (device - 1)))
      then cret STORAGE_IO_ERROR else
      let* success :=
        (if device =? 0 then usb_read true fuel lba blocks
         else
           modify (fun g => g <| ata_port := if device >? 2 then 0x170 else 0x1F0 |>
                              <| ata_device := u8 ((device - 1) .& 1) |>) ;*
           let* ok := ata_read fuel lba blocks in
           (if negb ok then modify (fun g => g <| ata_dead := kill_channel device (ata_dead g) |>)
            else cret tt) ;*
           cret ok) in
      if negb success then cret STORAGE_IO_ERROR else
      io (memcpy buffer TRANSFER_BUFFER (blocks *% 512)) ;*
      cret STORAGE_OK
  end.

Definition storage_read (device lba blocks buffer : Z) : unit_code Z :=
  let* ready := gets initialized in
  if ready =? 0 then cret STORAGE_NOT_READY else
  if (buffer =? 0) || (device >=? STORAGE_DEVICE_COUNT) || (blocks =? 0) ||
     (blocks >? STORAGE_MAX_BLOCKS) then cret STORAGE_BAD_ARGUMENT else
  let* flags := io enter_storage in
  discover_storage ;*
  let* result := storage_read_locked device lba blocks buffer in
  io (leave_storage flags) ;*
  cret result.

(** A word of a process control block. *)
Definition proc_word (process word : Z) : prog bus Z := load32 (process +% 4 * word).

Definition storage_allow_process_reads (process allow : Z) : unit_code unit :=
  if process =? 0 then cret tt
  else io (store32 (process +% 4 * PROC_STORAGE_WORD) (if truthy allow then 1 else 0)).

Definition valid_table (physical : Z) : bool :=
  (physical >=? TABLE_POOL_START) && (physical <? TABLE_POOL_END) && (physical .& 4095 =? 0).

(** One page of the loop of [user_output]; [Some tt] is [return NULL]. *)
Definition check_page (pd page : Z) : prog bus (option unit) :=
  let! pde := load32 (pd +% 4 * (page >>> 22)) in
  if negb (pde .& 0x87 =? 7) || negb (valid_table (pde .& not32 4095)) then Ret (Some tt) else
  let! pte := load32 ((pde .& not32 4095) +% 4 * ((page >>> 12) .& 1023)) in
  Ret (if storage_user_page_writable pde pte then None else Some tt).

Definition user_output (process offset size : Z) : prog bus Z :=
  let! slot := proc_word process PROC_SLOT_WORD in
  let linear := storage_user_range slot offset size in
  let! pd := proc_word process PROC_PD_WORD in
  let! cr3 := access (ReadReg CR3) in
  if linear =? 0 then Ret 0 else
  let! type := proc_word process PROC_TYPE_WORD in
  if negb (type =? 0) || negb (valid_table pd) || negb (cr3 .& not32 4095 =? pd) then Ret 0 else
  let last := (linear +% size -% 1) .& not32 4095 in
  let first := linear .& not32 4095 in
  let! r := for_break (Z.to_nat ((last - first) / 4096 + 1)) 0
              (fun j => check_page pd (first + j * 4096)) in
  match r with
  | Some tt => Ret 0
  | None => Ret linear
  end.

Definition storage_syscall (r : storage_registers) (owner : Z) : unit_code Z :=
  let* ready := gets initialized in
  if ready =? 0 then cret STORAGE_NOT_READY else
  if owner =? 0 then cret STORAGE_ACCESS_DENIED else
  let* denied :=
    (let* granted := io (proc_word owner PROC_STORAGE_WORD) in cret (negb (granted =? 1))) orelse
    (let* type := io (proc_word owner PROC_TYPE_WORD) in cret (negb (type =? 0))) in
  if denied then cret STORAGE_ACCESS_DENIED else
  if r_eax r =? SYSCALL_STORAGE_DEVICES then storage_device_mask else
  if negb (r_eax r =? SYSCALL_STORAGE_INFO) && negb (r_eax r =? SYSCALL_STORAGE_READ)
  then cret STORAGE_BAD_ARGUMENT else
  let size := if r_eax r =? SYSCALL_STORAGE_INFO then INFO_SIZE else 512 in
  let* buffer := io (user_output owner (r_edi r) size) in
  if buffer =? 0 then cret STORAGE_BAD_BUFFER else
  if r_eax r =? SYSCALL_STORAGE_INFO then storage_get_info (r_ebx r) buffer
  else storage_read (r_ebx r) (r_esi r) 1 buffer.
End SERVICE.
