(* ===== verification/StorageSafety.v ===== *)
(** * Properties of the kernel storage service

    The tables the service keeps, what its entry points may do to the machine, and
    what a process gets from the system call. *)
From stdpp Require Import list gmap strings.
From S2P Require Import Prelude Machine Runtime BootImage StorageRules Transport TransportSafety Storage.

(** ** The device table *)

(** An advertised device: 512-byte blocks, read-only, and for ATA a capacity that
    28-bit addresses reach. *)
Definition entry_ok (id : nat) (d : storage_device_info) : Prop :=
  sector_size d = 512 /\ flags d = STORAGE_READ_ONLY /\
  (id = O -> dev_type d = STORAGE_USB) /\
  (id <> O -> dev_type d = STORAGE_ATA /\ 1 <= block_count d <= 2 ^ 28).

Definition table_ok (devs : list storage_device_info) (mask : Z) : Prop :=
  length devs = 5%nat /\ 0 <= mask < 32 /\
  forall id d, devs !! id = Some d ->
    length (model d) = 40%nat /\ (Z.testbit mask (Z.of_nat id) = true -> entry_ok id d).

(** The two devices of a channel are disabled together. *)
Definition dead_ok (dead : list Z) : Prop :=
  exists first second, dead = [first; first; second; second] /\
    (first = 0 \/ first = 1) /\ (second = 0 \/ second = 1).

Definition tables_ok (r : tables) : Prop :=
  let '(devs, dead, mask, _, _) := r in table_ok devs mask /\ dead_ok dead.

(** The service invariant, with what is known of the selected ATA channel. *)
Definition service (Q : Z -> Prop) (port _ : Z) (r : tables) : Prop := Q port /\ tables_ok r.
Definition no_port (_ : Z) : Prop := True.
Abbreviation service_inv := (statics_ok (service no_port)).
Abbreviation channel_inv := (statics_ok (service port_ok)).

Lemma service_bss t : service_inv bss t.
Proof.
  split; [split; [left|]; cbn; lia|]. split; [exact I|]. split; [|exists 0, 0; auto].
  split; [reflexivity|]. split; [cbn; lia|]. intros id d Hd. split.
  - do 5 (destruct id as [|id]; [now injection Hd as <-|]). discriminate.
  - cbn. rewrite Z.testbit_0_l. discriminate.
Qed.

(** Advertising device [id] keeps the table well formed. *)
Lemma table_ok_advertise devs mask id d :
  table_ok devs mask -> 0 <= id <= 4 -> length (model d) = 40%nat -> entry_ok (Z.to_nat id) d ->
  table_ok (<[Z.to_nat id := d]> devs) (mask .| (1 <<% id)).
Proof.
  intros (Hl & Hm & Ht) Hid Hmod Hd.
  assert (1 <<% id = 2 ^ id) as E.
  { rewrite shl32_small; [lia|lia|]. rewrite Z.mul_1_l.
    pose proof (Z.pow_le_mono_r 2 id 4 ltac:(lia) ltac:(lia)).
    pose proof (Z.pow_pos_nonneg 2 id ltac:(lia) ltac:(lia)). lia. }
  rewrite E. split; [now rewrite length_insert|]. split.
  { apply (lor_in_u 5); [lia|exact Hm|]. split; [apply Z.pow_nonneg; lia|].
    apply Z.pow_lt_mono_r; lia. }
  intros i e Hi. destruct (decide (i = Z.to_nat id)) as [->|Hne].
  - rewrite list_lookup_insert_eq in Hi by lia. injection Hi as <-. auto.
  - rewrite list_lookup_insert_ne in Hi by congruence. destruct (Ht i e Hi) as [H1 H2].
    split; [exact H1|]. rewrite Z.lor_spec, Z.pow2_bits_false, orb_false_r by lia. exact H2.
Qed.

(** ** Discovery *)
Section DISCOVERY.
Context (fuel : nat).
Abbreviation ok := (read_only (fun _ => False)).

Lemma identify_ata_kept : keeps ok channel_inv (identify_ata fuel).
Proof.
  unfold identify_ata. apply keeps_gets_bind. intros g t [_ [Hp _]].
  apply keeps_gets_bind. intros g' t' _.
  kept_tac. apply bus_ata_sector; unfold TRANSFER_BUFFER; lia.
Qed.

Lemma load_words_length {G} (I : G -> trace -> Prop) n a :
  (forall g t t', I g t -> I g t') ->
  triple ok I (io (load_words n a)) (fun l g t => I g t /\ length l = n /\ Forall is_u16 l).
Proof.
  intros HI g t Hg. apply wp_io_last.
  enough (forall t, wp (any_hw ok) (load_words n a)
    (fun o _ => exists l, o = Done l /\ length l = n /\ Forall is_u16 l) t) as H.
  { eapply wp_mono; [|apply H]. intros o t' (l & -> & H1 & H2). cbn. eauto. }
  clear Hg t g. revert a. induction n as [|n IH]; intros a t; cbn [load_words].
  - exists []. auto.
  - cbn. split; [exact Logic.I|]. intros v t' [Hv ->]. apply wp_bind.
    eapply wp_mono; [|apply IH]. intros o t'' (l & -> & H1 & H2). cbn.
    exists (v :: l). cbn. auto.
Qed.

Lemma identify_model_length words : length words = 256%nat -> length (identify_model words) = 40%nat.
Proof.
  intros H. unfold identify_model.
  assert (length (take 20 (drop 27 words)) = 20%nat) as E by (rewrite length_take, length_drop; lia).
  revert E. generalize (take 20 (drop 27 words)). intros l E.
  do 20 (destruct l as [|? l]; [discriminate|]). destruct l; [reflexivity|discriminate].
Qed.

(** A channel, once chosen, stays chosen until the search moves on. *)
Lemma discover_device_kept channel device :
  0 <= channel <= 1 -> 0 <= device <= 1 ->
  keeps ok channel_inv (discover_device fuel channel device).
Proof.
  intros Hc Hd. unfold discover_device. keeps_step; [kept_tac|].
  keeps_step; [apply identify_ata_kept|]. keeps_step; [keeps_step|].
  eapply triple_bind; [apply (load_words_length channel_inv); auto|]. intros words.
  apply triple_pure. intros [Hl Hw]. to_keeps. keeps_step; [keeps_step|].
  apply keeps_modify. intros g t (Hb & Hp & Ht & Hdead). bool_to_prop.
  split; [exact Hb|]. split; [exact Hp|]. split; [|exact Hdead].
  apply table_ok_advertise; [exact Ht|lia|now apply identify_model_length|].
  pose proof (storage_identify_capacity_bound words Hw).
  repeat split; cbn; try lia.
Qed.

Lemma channel_forget g t : channel_inv g t -> service_inv g t.
Proof. intros (Hb & _ & Ht). split; [exact Hb|]. split; [exact I|exact Ht]. Qed.

Lemma discover_channels_kept n channel mode seen :
  0 <= channel -> channel + Z.of_nat n <= 2 ->
  keeps ok service_inv (discover_channels fuel n channel mode seen).
Proof.
  revert channel seen. induction n as [|n IH]; intros channel seen Hc Hn; cbn [discover_channels].
  { keeps_step. }
  keeps_step; [apply IH; lia|]. apply triple_bind with (R := fun _ => channel_inv).
  { apply triple_modify. intros g t (Hb & _ & Ht). split; [exact Hb|]. split; [|exact Ht].
    unfold port_ok. cbn. case_if; auto. }
  intros _. eapply triple_bind; [apply discover_device_kept; lia|]. intros ?. cbv beta.
  eapply triple_bind; [apply discover_device_kept; lia|]. intros ?. cbv beta.
  apply triple_bind with (R := fun _ => service_inv); [|intros; apply IH; lia].
  apply triple_modify. intros g t Hg. now apply channel_forget in Hg.
Qed.

Lemma discover_ata_kept : keeps ok service_inv (discover_ata fuel).
Proof.
  unfold discover_ata. generalize 0 at 1. generalize 0. generalize (Z.to_nat 65536).
  intros n seen pci. revert seen pci.
  induction n as [|n IH]; intros seen pci; cbn [discover_controllers]; [keeps_step|].
  pose proof (fun mode s => discover_channels_kept 2 0 mode s ltac:(lia) ltac:(lia)).
  kept_tac.
Qed.

Lemma discover_usb_kept : keeps ok service_inv (discover_usb fuel).
Proof.
  unfold discover_usb. keeps_step. keeps_step; [keeps_step|]. keeps_step; [kept_tac|].
  keeps_step; [kept_tac|]. keeps_step; [apply kept_bus, bus_zero_dma; unfold DMA_BASE; lia|].
  keeps_step; [apply find_usb_disk_safe; [discriminate|reflexivity]|].
  keeps_step; [keeps_step|]. apply keeps_modify. intros g' t' (Hb & Hp & Ht & Hdead).
  split; [exact Hb|]. split; [exact Hp|]. split; [|exact Hdead].
  apply (table_ok_advertise _ _ 0); [exact Ht|lia|reflexivity|]. repeat split; cbn; try lia.
Qed.

Lemma discover_storage_kept : keeps ok service_inv (discover_storage fuel).
Proof.
  pose proof discover_usb_kept. pose proof discover_ata_kept. unfold discover_storage. kept_tac.
Qed.
End DISCOVERY.

(** ** The entry points

    [extra t a]: the caller's memory that may be written after trace [t]. *)
Definition service_ok (extra : trace -> Z -> Prop) (t : trace) (e : bus) : Prop :=
  read_only (extra t) t e.

#[export] Instance service_reads extra : AllowsReads (service_ok extra).
Proof. intros t e He. now apply read_only_reads. Qed.

Lemma read_only_service extra t e : read_only (fun _ => False) t e -> service_ok extra t e.
Proof.
  unfold service_ok. destruct e as [| | |w a v| | | | | | | | |]; cbn; auto.
  destruct w; auto. unfold store8_ok. tauto.
Qed.

(** A range a caller owns, as a fact about the trace. *)
Definition owned (extra : trace -> Z -> Prop) (a n : Z) (t : trace) : Prop :=
  forall x, a <= x < a + n -> extra t x.

Section SERVICE.
Context (fuel : nat) (extra : trace -> Z -> Prop).
Context (Hextra : forall d t a, extra t a -> extra (d ++ t) a).
Abbreviation ok := (service_ok extra).

Lemma owned_app a n d t : owned extra a n t -> owned extra a n (d ++ t).
Proof. intros H x Hx. auto. Qed.

Section RANGE.
Context (base size : Z).
Abbreviation inv := (fun g t => service_inv g t /\ owned extra base size t).

(** What the transport does needs no memory of the caller. *)
Lemma kept_service {A} (m : unit_code A) :
  keeps (read_only (fun _ => False)) service_inv m -> keeps ok inv m.
Proof.
  intros H. apply triple_frame; [apply owned_app|].
  eapply triple_weaken; [apply read_only_service|exact H].
Qed.

Lemma kept_owned {A} (p : prog bus A) :
  bus_ok (fun t e => owned extra base size t -> ok t e) p -> keeps ok inv (io p).
Proof. apply keeps_guard; [apply owned_app|auto]. Qed.

Lemma kept_leave f : keeps ok inv (io (leave_storage f)).
Proof. apply kept_service, kept_bus. unfold leave_storage. repeat bus_step. intros t. exact I. Qed.

Lemma kept_enter : keeps ok inv (io enter_storage).
Proof. apply kept_service, kept_bus. apply bus_access. intros t. exact I. Qed.
End RANGE.

Lemma info_bytes_length d : length (model d) = 40%nat -> length (info_bytes d) = 56%nat.
Proof. intros H. unfold info_bytes. rewrite !length_app, H. reflexivity. Qed.

(** [storage_get_info] writes at most the 56 bytes of the caller's structure. *)
Lemma storage_get_info_kept device info :
  keeps ok (fun g t => service_inv g t /\ owned extra info INFO_SIZE t)
    (storage_get_info fuel device info).
Proof.
  unfold storage_get_info. keeps_step. keeps_step; [keeps_step|]. keeps_step; [keeps_step|].
  keeps_step; [apply kept_enter|]. keeps_step; [apply kept_service, discover_storage_kept|].
  keeps_step. keeps_step.
  keeps_step; [|keeps_step; [apply kept_leave|keeps_step]].
  keeps_step; [|keeps_step].
  destruct (devices g1 !! Z.to_nat device) as [d|] eqn:Hd; [|keeps_step].
  keeps_step; [|keeps_step]. apply kept_owned, bus_copy_local.
  intros t' i v Hv Ho. left. apply Ho. apply lookup_lt_Some in Hv.
  match goal with H : _ /\ _ |- _ => destruct H as [[_ [_ [[_ [_ Ht]] _]]] _] end.
  destruct (Ht _ _ Hd) as [Hm _]. rewrite info_bytes_length in Hv by assumption.
  unfold INFO_SIZE. lia.
Qed.

(** The flag of a device, and of its whole channel. *)
Definition device_dead (device : Z) (dead : list Z) : Prop :=
  truthy (default 0 (dead !! Z.to_nat (device - 1))) = true.
Definition channel_dead (device : Z) (dead : list Z) : Prop :=
  exists first, first = (device - 1) .& not32 1 /\
    dead !! Z.to_nat first = Some 1 /\ dead !! Z.to_nat (first + 1) = Some 1.

Lemma kill_channel_ok device dead : 1 <= device <= 4 -> dead_ok dead ->
  dead_ok (kill_channel device dead) /\ channel_dead device (kill_channel device dead).
Proof.
  intros Hd (a & b & -> & Ha & Hb). unfold dead_ok, channel_dead, kill_channel.
  assert (device = 1 \/ device = 2 \/ device = 3 \/ device = 4) as [-> | [-> | [-> | ->]]] by lia;
    (split; [eexists _, _; split; [reflexivity|auto]|eexists; split; [reflexivity|split; reflexivity]]).
Qed.

(** Both flags agree, so one set flag means the channel is disabled. *)
Lemma device_channel_dead device dead :
  1 <= device <= 4 -> dead_ok dead -> device_dead device dead -> channel_dead device dead.
Proof.
  intros Hd (a & b & -> & Ha & Hb) H. unfold channel_dead, device_dead in *.
  assert (device = 1 \/ device = 2 \/ device = 3 \/ device = 4) as [-> | [-> | [-> | ->]]] by lia;
    (eexists; split; [reflexivity|]); vm_compute in H |- *;
    destruct Ha as [-> | ->], Hb as [-> | ->]; try discriminate; auto.
Qed.

(** The transport read of [storage_read]: no memory of the caller is written. *)
Lemma device_read_kept device lba blocks :
  0 <= device <= 4 ->
  keeps (read_only (fun _ => False)) service_inv
    (if device =? 0 then usb_read true fuel lba blocks
     else
       modify (fun g => g <| ata_port := if device >? 2 then 0x170 else 0x1F0 |>
                          <| ata_device := u8 ((device - 1) .& 1) |>) ;*
       let* ok := ata_read fuel lba blocks in
       (if negb ok then modify (fun g => g <| ata_dead := kill_channel device (ata_dead g) |>)
        else cret tt) ;*
       cret ok).
Proof.
  intros Hd. apply keeps_if; intros H0; [apply kept_usb_read|]. bool_to_prop.
  apply triple_bind with (R := fun _ => channel_inv).
  { apply triple_modify. intros g t (Hb & _ & Ht). split; [exact Hb|]. split; [|exact Ht].
    unfold port_ok. cbn. case_if; auto. }
  intros _. eapply triple_bind.
  { apply (kept_ata_read fuel _ (service port_ok)). intros p b r [Hp _]. exact Hp. }
  intros done. eapply triple_pre; [|apply channel_forget]. to_keeps. kept_tac.
  intros g t (Hb & Hp & Ht & Hdead). split; [exact Hb|]. split; [exact Hp|]. split; [exact Ht|].
  apply kill_channel_ok; [lia|exact Hdead].
Qed.

(** [storage_read] writes at most the blocks of the caller's buffer. *)
Lemma storage_read_kept device lba blocks buffer :
  0 <= device -> is_u32 blocks ->
  keeps ok (fun g t => service_inv g t /\ owned extra buffer (blocks * 512) t)
    (storage_read fuel device lba blocks buffer).
Proof.
  intros Hdev Hu. unfold storage_read. keeps_step. keeps_step; [keeps_step|].
  keeps_step; [keeps_step|]. bool_to_prop. unfold STORAGE_DEVICE_COUNT in *.
  keeps_step; [apply kept_enter|]. keeps_step; [apply kept_service, discover_storage_kept|].
  keeps_step; [|keeps_step; [apply kept_leave|keeps_step]].
  unfold storage_read_locked. keeps_step. keeps_step; [keeps_step|]. keeps_step.
  destruct (devices _ !! _) as [d|]; [|keeps_step]. keeps_step; [keeps_step|].
  keeps_step. keeps_step; [keeps_step|].
  keeps_step; [apply kept_service, device_read_kept; lia|]. keeps_step; [keeps_step|].
  keeps_step; [|keeps_step]. apply kept_owned. unfold STORAGE_MAX_BLOCKS in *.
  rewrite mul32_small by ulia. unfold memcpy. repeat bus_step.
  - intros t' Ho. now apply service_reads.
  - intros t' Ho. left. apply Ho. lia.
Qed.
End SERVICE.

(** ** The system call *)

(** The walk of the page tables at [pd] for the page at [page] ended in a
    user-writable entry owned by the process. *)
Definition page_granted (pd : Z) (t : trace) (page : Z) : Prop :=
  exists pde pte, (Load W32 (pd +% 4 * (page >>> 22)), pde) ∈ t /\
    (Load W32 ((pde .& not32 4095) +% 4 * ((page >>> 12) .& 1023)), pte) ∈ t /\
    storage_user_page_writable pde pte = true.

(** Evidence, in the accesses so far, that the process [owner] may have byte [a]
    written for it: it holds the storage grant and is of user type, [a] is in its
    data segment, its directory is the one in CR3, and the page is its own. *)
Definition granted (owner : Z) (t : trace) (a : Z) : Prop :=
  (Load W32 (owner +% 4 * PROC_STORAGE_WORD), 1) ∈ t /\
  (Load W32 (owner +% 4 * PROC_TYPE_WORD), 0) ∈ t /\
  exists slot pd cr3,
    (Load W32 (owner +% 4 * PROC_SLOT_WORD), slot) ∈ t /\
    slot + 0x400000 <= a < slot + 0x900000 /\
    (Load W32 (owner +% 4 * PROC_PD_WORD), pd) ∈ t /\ (ReadReg CR3, cr3) ∈ t /\
    cr3 .& not32 4095 = pd /\ valid_table pd = true /\ page_granted pd t (a - a mod 4096).

Lemma page_granted_app pd d t page : page_granted pd t page -> page_granted pd (d ++ t) page.
Proof. intros (pde & pte & H1 & H2 & H3). exists pde, pte. repeat split; in_trace. Qed.

Lemma granted_app owner d t a : granted owner t a -> granted owner (d ++ t) a.
Proof.
  intros (H1 & H2 & slot & pd & cr3 & H3 & H4 & H5 & H6 & H7 & H8 & H9).
  split; [in_trace|]. split; [in_trace|]. exists slot, pd, cr3.
  repeat split; try solve [in_trace]; try lia; auto using page_granted_app.
Qed.

Section SYSCALL.
Context (ok : trace -> bus -> Prop) `{!AllowsReads ok}.

Lemma check_page_grants pd page t :
  wp (any_hw ok) (check_page pd page)
    (fun o t' => exists r, o = Done r /\ (r = None -> page_granted pd t' page)) t.
Proof.
  unfold check_page. cbn. split; [now apply allows_reads|]. intros pde t1 [_ ->].
  case_if; cbn; [eexists; split; [reflexivity|discriminate]|].
  split; [now apply allows_reads|]. intros pte t2 [_ ->].
  eexists. split; [reflexivity|]. case_if; [|discriminate]. intros _.
  exists pde, pte. repeat split; auto; in_trace.
Qed.

Lemma pages_granted pd first n t :
  wp (any_hw ok) (for_break n 0 (fun j => check_page pd (first + j * 4096)))
    (fun o t' => exists r, o = Done r /\ (r = None ->
       forall j, 0 <= j < Z.of_nat n -> page_granted pd t' (first + j * 4096))) t.
Proof.
  apply wp_for_break with (I := fun i t' =>
    forall j, 0 <= j < i -> page_granted pd t' (first + j * 4096)).
  - intros j t' Hj HI. eapply wp_mono; [|apply wp_trace, check_page_grants].
    intros o t'' ((r & -> & Hr) & d & -> & _). destruct r as [x|]; cbn.
    + eexists. split; [reflexivity|discriminate].
    + intros i Hi. destruct (Z.eq_dec i j) as [->|]; [auto|].
      apply page_granted_app, HI. lia.
  - intros t' HI. eexists. split; [reflexivity|]. auto.
  - intros j Hj. lia.
Qed.

(** A non-null result of [user_output] is a range every byte of which is granted. *)
Lemma user_output_grants owner offset size t :
  is_u32 offset -> 1 <= size <= 4096 ->
  (Load W32 (owner +% 4 * PROC_STORAGE_WORD), 1) ∈ t ->
  wp (any_hw ok) (user_output owner offset size)
    (fun o t' => exists r, o = Done r /\ (r <> 0 -> owned (granted owner) r size t')) t.
Proof.
  intros Ho Hs Hgrant. unfold user_output, proc_word. cbn.
  split; [now apply allows_reads|]. intros slot t1 [Hslot ->].
  split; [now apply allows_reads|]. intros pd t2 [Hpd ->].
  split; [now apply allows_reads|]. intros cr3 t3 [Hcr3 ->].
  case_if; cbn; [eexists; split; [reflexivity|congruence]|].
  split; [now apply allows_reads|]. intros type t4 [Htype ->].
  case_if; cbn; [eexists; split; [reflexivity|congruence]|]. bool_to_prop. subst type.
  set (linear := storage_user_range slot offset size) in *.
  apply wp_bind. eapply wp_mono; [|apply wp_trace, pages_granted].
  intros o t' ((r & -> & Hr) & d & -> & _). cbn. destruct r as [[]|]; cbn.
  { eexists. split; [reflexivity|congruence]. }
  eexists. split; [reflexivity|]. intros _ a Ha. specialize (Hr eq_refl).
  assert (slot + 0x400000 <= linear /\ linear + size <= slot + 0x900000 /\ linear + size <= 2 ^ 30)
    as (H3 & H4 & H5).
  { subst linear. unfold storage_user_range in *. case_if; [congruence|]. bool_to_prop.
    change (0x40000000 -% 0xA00000) with (0x40000000 - 0xA00000) in *.
    rewrite (sub32_small 0x500000 offset) in * by ulia.
    rewrite (add32_small slot), (add32_small (slot + _)) by ulia. ulia. }
  split; [in_trace|]. split; [in_trace|]. exists slot, pd, cr3.
  repeat split; try solve [in_trace]; try lia; auto.
  cbn in Hslot. assert (0 <= linear) by ulia.
  rewrite (add32_small linear), (sub32_small (linear + size)) in Hr by ulia.
  change 4095 with (2 ^ 12 - 1) in Hr.
  rewrite !land_not_mask in Hr by (unfold in_u; lia). change (2 ^ 12) with 4096 in Hr.
  set (first := linear - linear mod 4096) in *.
  assert (a - a mod 4096 = first + (a / 4096 - linear / 4096) * 4096) as Epage.
  { subst first. rewrite !Z.mod_eq by lia. lia. }
  rewrite Epage. apply Hr. subst first. rewrite !Z.mod_eq by lia.
  Z.to_euclidean_division_equations. lia.
Qed.
End SYSCALL.

(** The process holds the storage grant and is of user type: both were read. *)
Definition authorised (owner : Z) (t : trace) : Prop :=
  (Load W32 (owner +% 4 * PROC_STORAGE_WORD), 1) ∈ t /\
  (Load W32 (owner +% 4 * PROC_TYPE_WORD), 0) ∈ t.

Lemma authorised_app owner d t : authorised owner t -> authorised owner (d ++ t).
Proof. intros [H1 H2]. split; in_trace. Qed.

(** What a system call may do: nothing but read until the caller is authorised, and
    then only what the service may do with the caller's granted bytes. *)
Definition syscall_ok (owner : Z) (t : trace) (e : bus) : Prop :=
  is_read e \/ (authorised owner t /\ service_ok (granted owner) t e).

(** The part of [storage_syscall] behind the access check. *)
Definition syscall_body (fuel : nat) (r : storage_registers) (owner : Z) : unit_code Z :=
  if r_eax r =? SYSCALL_STORAGE_DEVICES then storage_device_mask fuel else
  if negb (r_eax r =? SYSCALL_STORAGE_INFO) && negb (r_eax r =? SYSCALL_STORAGE_READ)
  then cret STORAGE_BAD_ARGUMENT else
  let size := if r_eax r =? SYSCALL_STORAGE_INFO then INFO_SIZE else 512 in
  let* buffer := io (user_output owner (r_edi r) size) in
  if buffer =? 0 then cret STORAGE_BAD_BUFFER else
  if r_eax r =? SYSCALL_STORAGE_INFO then storage_get_info fuel (r_ebx r) buffer
  else storage_read fuel (r_ebx r) (r_esi r) 1 buffer.

Lemma storage_device_mask_kept fuel :
  keeps (read_only (fun _ => False)) service_inv (storage_device_mask fuel).
Proof.
  pose proof (discover_storage_kept fuel). unfold storage_device_mask, leave_storage, enter_storage.
  kept_tac. repeat bus_step. intros t'. exact I.
Qed.

Lemma syscall_body_safe fuel r owner :
  is_u32 (r_edi r) -> is_u32 (r_ebx r) ->
  triple (service_ok (granted owner))
    (fun g t => service_inv g t /\ (Load W32 (owner +% 4 * PROC_STORAGE_WORD), 1) ∈ t)
    (syscall_body fuel r owner) (fun _ => service_inv).
Proof.
  intros Hr Hx. unfold syscall_body. apply triple_if; intros H1.
  { eapply triple_pre; [eapply triple_weaken; [apply read_only_service|]|].
    - apply storage_device_mask_kept.
    - intros g t [H _]. exact H. }
  apply triple_if; intros H2; [apply triple_ret; intuition|].
  set (size := if r_eax r =? SYSCALL_STORAGE_INFO then INFO_SIZE else 512).
  assert (1 <= size <= 4096) as Hs by (subst size; case_if; unfold INFO_SIZE; lia).
  apply triple_bind with (R := fun b g t => service_inv g t /\ (b <> 0 -> owned (granted owner) b size t)).
  { intros g t [Hg Ht]. apply wp_io_last.
    eapply wp_mono; [|apply (user_output_grants _); [exact Hr|exact Hs|exact Ht]].
    intros o t' (b & -> & Hb). cbn. split; [exact Hg|exact Hb]. }
  intros b. apply triple_if; intros Hb; [apply triple_ret; intuition|]. bool_to_prop.
  apply triple_pre with (P' := fun g t => service_inv g t /\ owned (granted owner) b size t);
    [|intuition].
  subst size. destruct (r_eax r =? SYSCALL_STORAGE_INFO).
  - eapply triple_post; [apply storage_get_info_kept, granted_app|]. cbn. tauto.
  - eapply triple_conseq.
    + apply (storage_read_kept fuel (granted owner) (granted_app owner) (r_ebx r) (r_esi r) 1 b);
        [apply Hx|unfold in_u; lia].
    + intros g t H. exact H.
    + cbn. tauto.
Qed.



(** ** Failed channels *)
Lemma channel_device_dead device dead :
  1 <= device <= 4 -> channel_dead device dead -> device_dead device dead.
Proof.
  intros Hd (first & -> & H1 & H2). unfold device_dead.
  assert (device = 1 \/ device = 2 \/ device = 3 \/ device = 4) as [-> | [-> | [-> | ->]]] by lia.
  - change (Z.to_nat ((1 - 1) .& not32 1)) with 0%nat in H1.
    change (Z.to_nat (1 - 1)) with 0%nat. now rewrite H1.
  - change (Z.to_nat ((2 - 1) .& not32 1 + 1)) with 1%nat in H2.
    change (Z.to_nat (2 - 1)) with 1%nat. now rewrite H2.
  - change (Z.to_nat ((3 - 1) .& not32 1)) with 2%nat in H1.
    change (Z.to_nat (3 - 1)) with 2%nat. now rewrite H1.
  - change (Z.to_nat ((4 - 1) .& not32 1 + 1)) with 3%nat in H2.
    change (Z.to_nat (4 - 1)) with 3%nat. now rewrite H2.
Qed.

(** Reads and the restoring of the interrupt flag. *)
Definition silent (_ : trace) (e : bus) : Prop := is_read e \/ e = Sti.

#[export] Instance silent_reads : AllowsReads silent.
Proof. intros t e He. now left. Qed.

Section FAILURE.
Context (fuel : nat) (device lba blocks buffer : Z).
Context (Hdev : 1 <= device <= 4) (Hblocks : is_u32 blocks).
Definition buffer_bytes (_ : trace) (a : Z) : Prop := buffer <= a < buffer + blocks * 512.
Abbreviation ok := (service_ok buffer_bytes).
Abbreviation inv := (fun g t => service_inv g t /\ owned buffer_bytes buffer (blocks * 512) t).
Abbreviation failed := (fun (res : Z) (g : statics) (t : trace) =>
  service_inv g t /\ (res = STORAGE_IO_ERROR -> channel_dead device (ata_dead g))).

Lemma ata_attempt_marks :
  triple ok inv
    (modify (fun g => g <| ata_port := if device >? 2 then 0x170 else 0x1F0 |>
                        <| ata_device := u8 ((device - 1) .& 1) |>) ;*
     let* ok := ata_read fuel lba blocks in
     (if negb ok then modify (fun g => g <| ata_dead := kill_channel device (ata_dead g) |>)
      else cret tt) ;*
     cret ok)
    (fun success g t => inv g t /\ (success = false -> channel_dead device (ata_dead g))).
Proof.
  apply triple_bind with (R := fun _ g t => channel_inv g t /\ owned buffer_bytes buffer (blocks * 512) t).
  { apply triple_modify. intros g t [(Hb & _ & Ht) Ho]. split; [|exact Ho].
    split; [exact Hb|]. split; [|exact Ht]. unfold port_ok. cbn. case_if; auto. }
  intros _. eapply triple_bind.
  { apply triple_frame; [intros d t H; exact H|]. eapply triple_weaken; [apply read_only_service|].
    apply (kept_ata_read fuel _ (service port_ok)). intros p b r [Hp _]. exact Hp. }
  intros success. cbv beta.
  apply triple_bind with (R := fun _ g t => inv g t /\ (success = false -> channel_dead device (ata_dead g)));
    [|intros; apply triple_ret; auto].
  apply triple_if; intros Hs; bool_to_prop; subst success.
  - apply triple_modify. intros g t [(Hb & Hp & Ht & Hdead) Ho].
    destruct (kill_channel_ok device (ata_dead g) Hdev Hdead) as [H1 H2].
    split; [split; [|exact Ho]|intros _; exact H2].
    split; [exact Hb|]. split; [exact I|]. split; [exact Ht|exact H1].
  - apply triple_ret. intros g t [H Ho]. split; [split; [now apply channel_forget|exact Ho]|discriminate].
Qed.

Lemma storage_read_locked_marks :
  1 <= blocks <= 32 -> triple ok inv (storage_read_locked fuel device lba blocks buffer) failed.
Proof.
  intros Hb. unfold storage_read_locked.
  apply triple_gets_bind. intros mask. apply triple_if; intros _; [apply triple_ret; cbn; intuition discriminate|].
  apply triple_gets_bind. intros table.
  destruct (table !! Z.to_nat device) as [d|]; [|apply triple_panic].
  apply triple_if; intros _; [apply triple_ret; cbn; intuition discriminate|].
  apply triple_gets_bind. intros dead. replace (device =? 0) with false by (symmetry; apply Z.eqb_neq; lia).
  apply triple_if; intros Hd; cbn [negb andb] in Hd.
  { apply triple_ret. intros g t [[[[Hg _] _] _] Hdead]. split; [exact Hg|]. intros _.
    destruct Hg as (_ & _ & _ & Hok). subst dead. now apply device_channel_dead. }
  apply triple_pre with (P' := inv); [|tauto].
  eapply triple_bind; [apply ata_attempt_marks|]. intros success. cbv beta.
  apply triple_if; intros Hs; bool_to_prop; subst success.
  { apply triple_ret. intros g t [[Hg _] Hf]. auto. }
  apply triple_bind with (R := fun _ => inv); [|intros; apply triple_ret; cbn; intuition discriminate].
  eapply triple_pre with (P' := inv); [|tauto]. to_keeps.
  apply keeps_guard; [intros d' t H; exact H|auto|]. rewrite mul32_small by ulia.
  unfold memcpy. repeat bus_step.
  - intros t' _. now apply service_reads.
  - intros t' Ho. left. apply Ho. lia.
Qed.

(** C11: a channel whose disk failed is left alone. When a read of an ATA disk fails,
    both devices of its channel are disabled; and once a channel is disabled, a read
    of either device fails without a single port write or memory write: the drive
    whose state is unknown gets no further command, and no stale bounce-buffer data
    reaches the caller. *)
Theorem storage_read_dead_channel :
  triple ok service_inv (storage_read fuel device lba blocks buffer) failed /\
  triple silent (fun g t => service_inv g t /\ discovered g <> 0 /\ channel_dead device (ata_dead g))
    (storage_read fuel device lba blocks buffer)
    (fun res g t => res <> STORAGE_OK /\ channel_dead device (ata_dead g)).
Proof.
  unfold storage_read. split.
  - apply triple_pre with (P' := inv).
    2: { intros g t Hg. split; [exact Hg|]. intros a Ha. exact Ha. }
    apply triple_gets_bind. intros ready. apply triple_if; intros _; [apply triple_ret; cbn; intuition discriminate|].
    apply triple_if; intros Hargs; [apply triple_ret; cbn; intuition discriminate|]. bool_to_prop.
    apply triple_pre with (P' := inv); [|tauto].
    assert (forall d t a, buffer_bytes t a -> buffer_bytes (d ++ t) a) as Hx by auto.
    eapply triple_bind; [apply (kept_enter _ Hx)|]. intros flags. cbv beta.
    eapply triple_bind; [apply (kept_service _ Hx), discover_storage_kept|]. intros ?. cbv beta.
    eapply triple_bind.
    { apply storage_read_locked_marks. unfold STORAGE_MAX_BLOCKS in *. ulia. }
    intros res. cbv beta. apply triple_bind with (R := fun _ => failed res); [|intros; apply triple_ret; auto].
    apply keeps_bus; [|auto]. unfold leave_storage. repeat bus_step. intros t. exact I.
  - apply triple_gets_bind. intros ready. apply triple_if; intros _; [apply triple_ret; cbn; intuition discriminate|].
    apply triple_if; intros Hargs; [apply triple_ret; cbn; intuition discriminate|].
    intros g t [(Hg & Hdisc & Hdead) _]. unfold cbind, lift, enter_storage. cbn.
    split; [left; exact I|]. intros flags t1 [Hflags ->].
    unfold discover_storage. cbn. rewrite (proj2 (truthy_true _) Hdisc). cbn.
    unfold storage_read_locked. cbn.
    pose proof (channel_device_dead device _ Hdev Hdead) as Hdd. unfold device_dead in Hdd.
    replace (device =? 0) with false by (symmetry; apply Z.eqb_neq; lia).
    assert (forall res, res <> STORAGE_OK ->
      wp (any_hw silent) (bind (lift (leave_storage flags) g) (fun r => Ret (res, snd r)))
        (post (fun res g t => res <> STORAGE_OK /\ channel_dead device (ata_dead g)))
        ((SaveFlagsCli, flags) :: t)) as Hleave.
    { intros res Hres. unfold lift, leave_storage. case_if; cbn; [|auto].
      split; [now right|]. intros v t2 _. auto. }
    cbn in Hleave. case_if; cbn; [apply Hleave; discriminate|].
    destruct (devices g !! Z.to_nat device) as [d|]; cbn; [|exact I].
    case_if; cbn; [apply Hleave; discriminate|]. rewrite Hdd. cbn. apply Hleave. discriminate.
Qed.
End FAILURE.

Lemma storage_read_dead_channel_witness :
  triple (service_ok (buffer_bytes 2 0x200000)) service_inv (storage_read 10 3 5 2 0x200000)
    (fun res g t => service_inv g t /\ (res = STORAGE_IO_ERROR -> channel_dead 3 (ata_dead g))) /\
  triple silent (fun g t => service_inv g t /\ discovered g <> 0 /\ channel_dead 3 (ata_dead g))
    (storage_read 10 3 5 2 0x200000)
    (fun res g t => res <> STORAGE_OK /\ channel_dead 3 (ata_dead g)).
Proof. apply (storage_read_dead_channel 10 3 5 2 0x200000); unfold in_u; lia. Defined.
