(* ===== verification/Companions.v ===== *)
(** * Handing root ports to the companion controllers

    [storage_handoff_ports] and [storage_refresh_usb_companions] write the EHCI port
    registers while a disk is in use on one of them, and some bits of these registers
    are cleared by writing ones. *)
From stdpp Require Import list gmap strings.
From S2P Require Import Prelude Machine StorageRules Transport Storage TransportSafety.

(** The status-change bits of a port register: writing one clears it. *)
Definition PORT_W1C : Z := 0x2A.
Definition PORT_ENABLE : Z := 4.
Definition PORT_OWNER : Z := 0x2000.

(** A safe way to give up a port: the value written is the value just read with only
    the enable bit cleared, no status change acknowledged and the owner bit set. *)
Definition releases (old v : Z) : Prop :=
  v .& PORT_W1C = 0 /\ v .& PORT_ENABLE = 0 /\ v .& PORT_OWNER = PORT_OWNER /\
  v .& not32 (PORT_W1C .| PORT_ENABLE .| PORT_OWNER)
  = old .& not32 (PORT_W1C .| PORT_ENABLE .| PORT_OWNER).

Section PORTS.
Context (base ports keep : Z).

(** Reads, and releases of a port other than [keep], right after reading it. *)
Definition port_policy (t : trace) (e : bus) : Prop :=
  match e with
  | Store W32 a v =>
      exists port old older, 0 <= port < ports /\ port <> keep /\ a = base + 0x44 + 4 * port /\
        t = (Load W32 a, old) :: older /\ releases old v
  | Sti => True
  | _ => is_read e
  end.

#[export] Instance port_policy_reads : AllowsReads port_policy.
Proof. intros t e He. destruct e; cbn in *; auto; contradiction. Qed.

Lemma release_value old : releases old ((old .& not32 (0x2A .| 4)) .| 0x2000).
Proof.
  unfold releases, PORT_W1C, PORT_ENABLE, PORT_OWNER.
  rewrite !Z.land_lor_distr_l, <- !Z.land_assoc.
  change (not32 (42 .| 4) .& 42) with 0. change (not32 (42 .| 4) .& 4) with 0.
  change (not32 (42 .| 4) .& 8192) with 8192. change (8192 .& 42) with 0.
  change (8192 .& 4) with 0. change (8192 .& 8192) with 8192.
  change (not32 (42 .| 4) .& not32 (42 .| 4 .| 8192)) with (not32 (42 .| 4 .| 8192)).
  change (8192 .& not32 (42 .| 4 .| 8192)) with 0.
  rewrite ?Z.land_0_r, ?Z.lor_0_r. repeat split; auto.
  apply Z.bits_inj'. intros i Hi. rewrite Z.lor_spec, Z.land_spec.
  destruct (Z.testbit old i), (Z.testbit 8192 i); reflexivity.
Qed.

Context (Hbase : 0 <= base) (Hports : ports <= 15) (Htop : base + 0x80 <= 2 ^ 32).

Lemma port_reg port : 0 <= port < ports ->
  ehci_reg base ((0x44 + port * 4) / 4) = base + 0x44 + 4 * port.
Proof.
  intros Hp. replace ((0x44 + port * 4) / 4) with (17 + port)
    by (rewrite Z.div_add by lia; reflexivity).
  unfold ehci_reg. rewrite add32_small; lia.
Qed.

(** Reading a port, releasing it and reading it back. *)
Lemma release_port (I : statics -> trace -> Prop) port (g : statics) t Q :
  (forall g t t', I g t -> I g t') -> 0 <= port < ports -> port <> keep -> I g t ->
  (forall t', I g t' -> Q (Done (tt, g)) t') ->
  forall (test : Z -> bool),
  wp (any_hw port_policy)
    ((let* value := io (ehci_read base ((0x44 + port * 4) / 4)) in
      if test value then
        io (ehci_write base ((0x44 + port * 4) / 4) ((value .& not32 (0x2A .| 4)) .| 0x2000)) ;*
        io (ehci_read base ((0x44 + port * 4) / 4)) ;* cret tt
      else cret tt) g) Q t.
Proof.
  intros HI Hp Hk Hg HQ test. unfold ehci_read, ehci_write. rewrite port_reg by assumption.
  apply wp_read; [now apply allows_reads|]. intros old t1 [_ ->].
  destruct (test old); [|apply HQ; eauto].
  apply wp_write; [exists port, old, t; auto using release_value|]. intros ? t2 [_ ->].
  apply wp_read; [now apply allows_reads|]. intros ? t3 [_ ->]. apply HQ. eauto.
Qed.
End PORTS.

(** C15: while a disk stays attached, its root port is never touched. The handoff after
    discovery and the periodic refresh only write port registers of the controller
    other than the disk's, each right after reading it, releasing the port to its
    companion controller without acknowledging any status change and without
    disturbing any other bit. The handoff records the ports and the kept one so that
    the refresh uses the same choice. *)
Theorem companions_keep_disk_port base ports keep :
  1 <= base -> base + 0x80 <= 2 ^ 32 -> 0 <= ports <= 15 ->
  triple (port_policy base ports keep) (fun g _ => ehci g = base /\ companion_target g <> 0)
    (storage_handoff_ports ports keep)
    (fun _ g _ => ehci g = base /\ companion_ports g = ports /\ companion_keep g = keep /\
       companions_ready g = 1) /\
  triple (port_policy base ports keep)
    (fun g _ => ehci g = base /\ companion_ports g = ports /\ companion_keep g = keep)
    storage_refresh_usb_companions
    (fun _ g _ => ehci g = base /\ companion_ports g = ports /\ companion_keep g = keep).
Proof.
  intros Hb Ht Hp. split.
  - unfold storage_handoff_ports. apply triple_gets_bind. intros target.
    apply triple_gets_bind. intros b. apply triple_if; intros Hz.
    { apply triple_ret. intros g t [[[? ?] ?] ?]. subst. apply orb_true_iff in Hz as [Hz|Hz];
        apply Z.eqb_eq in Hz; congruence || lia. }
    apply triple_bind with (R := fun _ g _ => ehci g = base /\ companion_ports g = ports /\
      companion_keep g = keep /\ b = base).
    { apply triple_modify. intros g t [[[? ?] ?] ?]. cbn. subst. auto. }
    intros _. set (I := fun (g : statics) (_ : trace) => _).
    apply triple_bind with (R := fun _ => I).
    2: { intros _. apply triple_modify. subst I. cbn. intuition. }
    apply (triple_for _ (fun _ => I)). intros port Hport g t Hg. destruct Hg as (H1 & H2 & H3 & ->).
    destruct (Z.eqb_spec port keep); [subst I; cbn; auto|].
    change (1 <<% 13) with 0x2000.
    eapply wp_mono; [|apply (release_port base ports keep) with (test := fun _ => true)
      (I := I) (Q := post (fun _ => I)) (g := g)]; auto; try lia. subst I. cbn. auto.
  - unfold storage_refresh_usb_companions.
    set (I := fun (g : statics) (_ : trace) => _).
    refine (keeps_access_bind _ I _ _ _ _).
    { intros g t Hg. split; [now apply allows_reads|]. intros; exact Hg. }
    intros flags _. apply triple_gets_bind. intros ready. apply triple_gets_bind. intros b.
    apply triple_gets_bind. intros n. apply triple_gets_bind. intros k.
    apply triple_bind with (R := fun _ => I).
    + apply triple_if; intros _.
      * intros g t [[[[HI _] <-] <-] <-]. pose proof HI as (Eb & Ep & Ek). rewrite Eb, Ep, Ek.
        apply (triple_for _ (fun _ => I)); [|exact HI]. clear - Hb Ht Hp.
        intros port Hport g t HI. destruct (Z.eqb_spec port keep); [exact HI|].
        eapply wp_mono; [|apply (release_port base ports keep) with
          (test := fun value => value .& 0x2001 =? 1) (I := I) (Q := post (fun _ => I)) (g := g)];
          auto; try lia.
      * apply triple_ret. tauto.
    + intros _. refine (keeps_bus _ I _ _ _); [|auto]. unfold leave_storage. repeat bus_step.
      intros t. exact Logic.I.
Qed.

Lemma companions_keep_disk_port_witness :
  triple (port_policy 0x80C00020 6 2) (fun g _ => ehci g = 0x80C00020 /\ companion_target g <> 0)
    (storage_handoff_ports 6 2)
    (fun _ g _ => ehci g = 0x80C00020 /\ companion_ports g = 6 /\ companion_keep g = 2 /\
       companions_ready g = 1) /\
  triple (port_policy 0x80C00020 6 2)
    (fun g _ => ehci g = 0x80C00020 /\ companion_ports g = 6 /\ companion_keep g = 2)
    storage_refresh_usb_companions
    (fun _ g _ => ehci g = 0x80C00020 /\ companion_ports g = 6 /\ companion_keep g = 2).
Proof. apply companions_keep_disk_port; lia. Defined.
