(* ===== verification/Intel915.v ===== *)
(** * The Intel 915 graphics driver: [Drivers/Intel915/Intel915.c]

    The three builds of the file: the pure helpers (cursor arithmetic, mode layout, GPU
    commands), the ring-1 driver that draws the desktop, and the kernel half that maps the
    device, moves the hardware cursor and restores the text display. [struct
    intel915_shared] is a record; registers, the graphics translation table, the ring and
    the framebuffer are memory on the bus at their linear addresses. *)
From stdpp Require Import list gmap strings.
From S2P Require Import Prelude Machine Ring Runtime.

Definition I915_BASE : Z := 0x71000000.
Definition I915_RAM_SIZE : Z := 0x00100000.
Definition I915_IMAGE_SOURCE : Z := 0x80010000.
Definition I915_IMAGE_SIZE : Z := 0x00004000.
Definition I915_SHARED_OFFSET : Z := 0x00008000.
Definition I915_HWS_OFFSET : Z := 0x00009000.
Definition I915_RING_OFFSET : Z := 0x0000A000.
Definition I915_MMIO_OFFSET : Z := 0x00400000.
Definition I915_GTT_OFFSET : Z := 0x00500000.
Definition I915_FB_OFFSET : Z := 0x00800000.
Definition I915_FB_MAX_SIZE : Z := 0x00800000.
Definition I915_RING_DWORDS : Z := 1024.
Definition I915_RECTANGLE : Z := 0x00246C80.
Definition I915_CURSOR_WIDTH : Z := 12.
Definition I915_CURSOR_HEIGHT : Z := 16.
Definition I915_CURSOR_OFFSET : Z := 0x00010000.
Definition I915_CURSOR_SIDE : Z := 64.
Definition I915_CURSOR_BYTES : Z := 0x4000.
Definition I915_GATE_ADDRESS : Z := 0x8000233C.
Definition I915_DATA_ADDRESS : Z := 0x80002340.
Definition I915_CODE_ADDRESS : Z := 0x80002344.
Definition I915_READY_ADDRESS : Z := 0x80002348.
Definition INTEL915_INITIALIZE_DESKTOP : Z := 0.
Definition INTEL915_GET_SCREEN_SIZE : Z := 1.
Definition I915_CURSOR_BATCH : Z := 64.
Definition I915_PAGE_LIST_OFFSET : Z := 0x00014000.

Definition I915_READY : Z := 1.
Definition I915_DRAWN : Z := 2.
Definition I915_BAD_MEMORY : Z := 0x11.
Definition I915_NO_GTT : Z := 0x12.
Definition I915_NO_DISPLAY : Z := 0x13.
Definition I915_UNSUPPORTED_MODE : Z := 0x14.
Definition I915_ENGINE_BUSY : Z := 0x15.
Definition I915_NO_SELECTOR : Z := 0x17.
Definition I915_GTT_CONFLICT : Z := 0x18.
Definition I915_COMMAND_OVERFLOW : Z := 0x19.
Definition I915_GPU_TIMEOUT : Z := 0x1A.
Definition I915_BAD_PIXELS : Z := 0x1B.
Definition I915_WRONG_RING : Z := 0x1C.
Definition I915_ALREADY_STARTED : Z := 0x1D.
Definition I915_ACCESS_DENIED : Z := 0x1E.
Definition I915_BUSY : Z := 0x1F.
Definition I915_BAD_REQUEST : Z := 0x20.
Definition I915_CURSOR_FAILED : Z := 0x21.

Definition PGTBL_CTL : Z := 0x02020.
Definition RING_TAIL : Z := 0x02030.
Definition RING_HEAD : Z := 0x02034.
Definition RING_START : Z := 0x02038.
Definition RING_CTL : Z := 0x0203C.
Definition HWS_PGA : Z := 0x02080.
Definition MI_MODE : Z := 0x0209C.
Definition PIPE_SOURCE : Z := 0x6001C.
Definition ADPA : Z := 0x61100.
Definition LVDS : Z := 0x61180.
Definition PIPE_CONF : Z := 0x70008.
Definition PLANE_CONTROL : Z := 0x70180.
Definition PLANE_BASE : Z := 0x70184.
Definition PLANE_STRIDE : Z := 0x70188.
Definition PLANE_POSITION : Z := 0x7018C.
Definition PLANE_SIZE : Z := 0x70190.
Definition VGA_CONTROL : Z := 0x71400.
Definition ENABLE : Z := 0x80000000.
Definition XY_COLOR_BLT : Z := 0x54300004.
Definition MI_FLUSH : Z := 0x02000000.
Definition MI_STORE_INDEX : Z := 0x10800001.
Definition COMPLETION_WORD : Z := 0x20.
Definition COMPLETION_TAG : Z := 0x915D0001.
Definition POLL_LIMIT : Z := 10000000.
Definition RING_MASK : Z := 0x001FFFFC.
Definition STOP_RING : Z := 0x100.
Definition MODE_IDLE : Z := 0x200.
Definition CURSOR_CONTROL : Z := 0x70080.
Definition CURSOR_BASE : Z := 0x70084.
Definition CURSOR_POSITION : Z := 0x70088.
Definition CURSOR_STRIDE : Z := 0x40.
Definition CURSOR_ARGB64 : Z := 0x27.

Record cursor_motion := { dx : Z; dy : Z }.

Record intel915_shared := {
  g_owner_tss_selector : Z; g_request_count : Z; g_code_selector : Z; g_data_selector : Z;
  g_entry_gate : Z; g_status : Z; g_stage : Z; g_observed_cs : Z; g_pci_address : Z;
  g_mmio_physical : Z; g_gtt_physical : Z; g_aperture_physical : Z; g_aperture_size : Z;
  g_stolen_base : Z; g_width : Z; g_height : Z; g_pitch : Z; g_framebuffer_bytes : Z;
  g_framebuffer_gtt : Z; g_ring_gtt : Z; g_hws_physical : Z; g_ring_physical : Z; g_pipe : Z;
  g_command_bytes : Z; g_ring_head : Z; g_ring_tail : Z; g_completion : Z; g_pgtbl_control : Z;
  g_old_vga_control : Z; g_old_plane_a : Z; g_old_plane_b : Z; g_old_plane_base_a : Z;
  g_old_plane_base_b : Z; g_busy : Z; g_cursor_physical : Z; g_cursor_x : Z; g_cursor_y : Z;
  g_cursor_enabled : Z; g_cursor_updates : Z
}.
#[export] Instance eta_shared : Eta intel915_shared := fun s =>
  Build_intel915_shared (g_owner_tss_selector s) (g_request_count s) (g_code_selector s)
    (g_data_selector s) (g_entry_gate s) (g_status s) (g_stage s) (g_observed_cs s) (g_pci_address
    s) (g_mmio_physical s) (g_gtt_physical s) (g_aperture_physical s) (g_aperture_size s)
    (g_stolen_base s) (g_width s) (g_height s) (g_pitch s) (g_framebuffer_bytes s)
    (g_framebuffer_gtt s) (g_ring_gtt s) (g_hws_physical s) (g_ring_physical s) (g_pipe s)
    (g_command_bytes s) (g_ring_head s) (g_ring_tail s) (g_completion s) (g_pgtbl_control s)
    (g_old_vga_control s) (g_old_plane_a s) (g_old_plane_b s) (g_old_plane_base_a s)
    (g_old_plane_base_b s) (g_busy s) (g_cursor_physical s) (g_cursor_x s) (g_cursor_y s)
    (g_cursor_enabled s) (g_cursor_updates s).

(** The driver's memory after it is cleared. *)
Definition zero_shared : intel915_shared :=
  Build_intel915_shared 0 0 0 0 0 0 0 0 0 0 0 0 0 0 0 0 0 0 0 0 0 0 0 0 0 0 0 0 0 0 0 0 0 0 0 0 0
    0 0.

(** ** Cursor arithmetic *)
Definition intel915_cursor_position (width height x y : Z) : Z :=
  if (width =? 0) || (height =? 0) || (2048 <? width) || (2048 <? height) || (width <=? x) || (height <=? y)
  then 0xFFFFFFFF else (y <<% 16) .| x.

Definition intel915_move_axis (position delta limit : Z) : Z :=
  if (limit =? 0) || (2048 <? limit) then 0 else
  let position := if limit <=? position then limit -% 1 else position in
  if delta <? 0 then
    let distance := 0 -% u32 delta in
    if position <? distance then 0 else position -% distance
  else if limit -% position <=? u32 delta then limit -% 1 else position +% u32 delta.

(** [registers[offset / 4]] of the array at [registers]. *)
Definition reg_at (registers offset : Z) : Z := registers + 4 * (offset / 4).

(** The loop over a batch of motions. *)
Definition move_cursor (s : intel915_shared) (motions : list cursor_motion) : Z * Z :=
  fold_left (fun xy m => (intel915_move_axis (fst xy) (dx m) (g_width s),
                          intel915_move_axis (snd xy) (dy m) (g_height s)))
    motions (g_cursor_x s, g_cursor_y s).

Definition cursor_usable (s : intel915_shared) : bool :=
  (g_status s =? I915_DRAWN) && negb (g_cursor_enabled s =? 0) && (g_pipe s <=? 1) &&
  negb (g_cursor_physical s =? 0) && (g_cursor_physical s .& 4095 =? 0) &&
  negb (g_width s =? 0) && (g_width s <=? 2048) && negb (g_height s =? 0) && (g_height s <=? 2048).

(** [motions] holds [count] entries; the pointers are not null. *)
Definition intel915_cursor_flush (registers : Z) (motions : list cursor_motion) (count : Z)
    : code intel915_shared Z :=
  if (count =? 0) || (I915_CURSOR_BATCH <? count) then cret 0 else
  let* busy := gets g_busy in
  modify (fun s => s <| g_busy := 1 |>) ;*
  if negb (busy =? 0) then cret 0 else
  let* s := gets id in
  let* result :=
    if cursor_usable s then
      let '(x, y) := move_cursor s (take (Z.to_nat count) motions) in
      (if negb (x =? g_cursor_x s) || negb (y =? g_cursor_y s) then
         let offset := g_pipe s *% CURSOR_STRIDE in
         let position := reg_at registers (CURSOR_POSITION +% offset) in
         let base := reg_at registers (CURSOR_BASE +% offset) in
         io (store32 position ((y <<% 16) .| x)) ;*
         io (load32 position) ;*
         io (store32 base (g_cursor_physical s)) ;*
         io (load32 base) ;*
         modify (fun s => s <| g_cursor_x := x |> <| g_cursor_y := y |>
                            <| g_cursor_updates := g_cursor_updates s +% 1 |>)
       else cret tt) ;*
      cret 1
    else cret 0 in
  modify (fun s => s <| g_busy := 0 |>) ;*
  cret result.

(** [for (i = 0; i <= count - 4; ++i)]: the first index of four consecutive pages. *)
Fixpoint find_run (n : nat) (i : Z) (pages : list Z) : Z :=
  match n with
  | O => 0xFFFFFFFF
  | S n' =>
      let base := at_slot 0 pages i in
      if negb (base =? 0) && (base .& 4095 =? 0) && (base <=? 0xFFFFC000) &&
         (at_slot 0 pages (i + 1) =? base +% 4096) && (at_slot 0 pages (i + 2) =? base +% 8192) &&
         (at_slot 0 pages (i + 3) =? base +% 12288)
      then i else find_run n' (i + 1) pages
  end.

Definition intel915_find_cursor_pages (pages : list Z) (count : Z) : Z :=
  if count <? 4 then 0xFFFFFFFF else find_run (Z.to_nat (count - 3)) 0 pages.

(** One pixel of the arrow. *)
Definition cursor_color (x y : Z) : Z :=
  if (y <? 12) && (x <=? y) then
    if (1 <? y) && (y <? 11) && (0 <? x) && (x <? y) then 0xFFFFFFFF else 0xFF000000
  else if (12 <=? y) && (y <? 16) then
    let left := 5 + (y - 12) / 2 in
    if (left <=? x) && (x <? left + 4) then
      if (y <? 15) && (left <? x) && (x <? left + 3) then 0xFFFFFFFF else 0xFF000000
    else 0
  else 0.

Definition intel915_build_cursor (pixels capacity : Z) : prog bus Z :=
  if (pixels =? 0) || (capacity <? I915_CURSOR_BYTES / 4) then Ret 0 else
  for_range 64 0 (fun y => for_range 64 0 (fun x =>
    store32 (pixels + 4 * (y * I915_CURSOR_SIDE + x)) (cursor_color x y))) ;;
  Ret 1.

(** ** The mode and the scene *)
Definition intel915_mode_layout (width height : Z) : option (Z * Z) :=
  if (width <? 320) || (2048 <? width) || (height <? 200) || (2048 <? height) then None else
  let row := (width *% 4 +% 63) .& not32 63 in
  let size := (row *% height +% 4095) .& not32 4095 in
  if I915_FB_MAX_SIZE <? size then None else Some (row, size).

(** [struct command_buffer], with the words written so far. *)
Record command_buffer := {
  b_words : list Z; b_capacity : Z; b_width : Z; b_height : Z; b_pitch : Z; b_destination : Z; b_failed : Z
}.
#[export] Instance eta_buffer : Eta command_buffer := fun b =>
  Build_command_buffer (b_words b) (b_capacity b) (b_width b) (b_height b) (b_pitch b) (b_destination b) (b_failed b).
Definition b_count (b : command_buffer) : Z := Z.of_nat (length (b_words b)).

Definition fill_rectangle (b : command_buffer) (x y width height color : Z) : command_buffer :=
  if (b_width b <=? x) || (b_height b <=? y) || (width =? 0) || (height =? 0) then b else
  let width := if b_width b -% x <? width then b_width b -% x else width in
  let height := if b_height b -% y <? height then b_height b -% y else height in
  if b_capacity b -% b_count b <? 6 then b <| b_failed := 1 |> else
  b <| b_words := b_words b ++
         [XY_COLOR_BLT; (3 <<% 24) .| (0xF0 <<% 16) .| b_pitch b; (y <<% 16) .| x;
          ((y +% height) <<% 16) .| (x +% width); b_destination b; color] |>.

(** The words of the ring; [None] is a zero result, nothing was written. *)
Definition scene_words (capacity width height pitch framebuffer_gtt : Z) : option (list Z) :=
  match intel915_mode_layout width height with
  | None => None
  | Some (expected_pitch, bytes) =>
      if negb (pitch =? expected_pitch) || negb (framebuffer_gtt .& 4095 =? 0) ||
         (0x10000000 -% bytes <? framebuffer_gtt) || (capacity <? 8) || (I915_RING_DWORDS <? capacity)
      then None else
      let buffer := Build_command_buffer [] (capacity -% 8) width height pitch framebuffer_gtt 0 in
      let buffer := fill_rectangle buffer 0 0 width height I915_RECTANGLE in
      if negb (b_failed buffer =? 0) then None else
      let words := b_words buffer ++ [MI_FLUSH; MI_STORE_INDEX; COMPLETION_WORD <<% 2; COMPLETION_TAG] in
      Some (if Z.of_nat (length words) .& 1 =? 0 then words else words ++ [0])
  end.

(** Storing them at [commands]; the number of bytes. *)
Definition intel915_build_scene (commands capacity width height pitch framebuffer_gtt : Z) : prog bus Z :=
  match scene_words capacity width height pitch framebuffer_gtt with
  | None => Ret 0
  | Some words =>
      for_range (length words) 0 (fun i => store32 (commands + 4 * i) (at_slot 0 words i)) ;;
      Ret (Z.of_nat (length words) *% 4)
  end.


(** ** The ring-1 driver

    Its segments start at [I915_BASE], so its addresses are the offsets. *)
Definition read_register (offset : Z) : prog bus Z := load32 (I915_MMIO_OFFSET + offset).

Definition write_register (offset value : Z) : prog bus unit :=
  store32 (I915_MMIO_OFFSET + offset) value ;;
  read_register offset ;;
  Ret tt.

(** Both hardware cursors are switched off before one is programmed. *)
Definition disable_cursors : prog bus unit :=
  for_range 2 0 (fun pipe =>
    write_register (CURSOR_CONTROL + pipe * CURSOR_STRIDE) 0 ;;
    write_register (CURSOR_BASE + pipe * CURSOR_STRIDE) 0).

Definition enable_cursor : code intel915_shared Z :=
  let* s := gets id in
  if (g_cursor_physical s =? 0) || negb (g_cursor_physical s .& 4095 =? 0) || (1 <? g_pipe s)
  then cret I915_CURSOR_FAILED else
  let* built := io (intel915_build_cursor I915_CURSOR_OFFSET (I915_CURSOR_BYTES / 4)) in
  if built =? 0 then cret I915_CURSOR_FAILED else
  io disable_cursors ;*
  let offset := g_pipe s *% CURSOR_STRIDE in
  modify (fun s => s <| g_cursor_x := (g_width s -% I915_CURSOR_WIDTH) / 2 |>
                     <| g_cursor_y := (g_height s -% I915_CURSOR_HEIGHT) / 2 |>) ;*
  let* s := gets id in
  io barrier ;*
  io (write_register (CURSOR_BASE +% offset) (g_cursor_physical s)) ;*
  io (write_register (CURSOR_CONTROL +% offset) (CURSOR_ARGB64 .| (g_pipe s <<% 28))) ;*
  io (write_register (CURSOR_POSITION +% offset) ((g_cursor_y s <<% 16) .| g_cursor_x s)) ;*
  io (write_register (CURSOR_BASE +% offset) (g_cursor_physical s)) ;*
  let* bad :=
    (let* v := io (read_register (CURSOR_CONTROL +% offset)) in
     cret (negb (v .& 0x27 =? CURSOR_ARGB64))) orelse
    (let* v := io (read_register (CURSOR_BASE +% offset)) in
     cret (negb (v =? g_cursor_physical s))) in
  if bad then cret I915_CURSOR_FAILED else
  modify (fun s => s <| g_cursor_enabled := 1 |>) ;*
  cret I915_DRAWN.

Definition driver_error (error : Z) : code intel915_shared Z :=
  modify (fun s => s <| g_status := error |>) ;*
  cret error.

(** [POLL_LIMIT] tries of a polling loop, left with [true]. *)
Definition polls {G} (body : code G bool) : code G bool :=
  let* r := cloop (Z.to_nat POLL_LIMIT) 0 (fun _ =>
    let* stop := body in cret (if stop : bool then Some tt else None)) in
  cret (match r with Some _ => true | None => false end).

Definition wait_for_ring : code intel915_shared Z :=
  let* idle := polls (
    let* head := io (read_register RING_HEAD) in
    modify (fun s => s <| g_ring_head := head .& RING_MASK |>) ;*
    let* tail := io (read_register RING_TAIL) in
    modify (fun s => s <| g_ring_tail := tail .& RING_MASK |>) ;*
    gets (fun s => g_ring_head s =? g_ring_tail s)) in
  cret (b2z idle).

(** The GPU address space: the entries of the framebuffer and of the ring. *)
Definition gtt_entry (index : Z) : Z := I915_GTT_OFFSET + 4 * index.
Definition map_gtt (s : intel915_shared) : prog bus unit :=
  for_range (Z.to_nat (g_framebuffer_bytes s / 4096)) 0 (fun index =>
    let! page := load32 (I915_PAGE_LIST_OFFSET + 4 * index) in
    store32 (gtt_entry (g_framebuffer_gtt s / 4096 + index)) (page .| 1)) ;;
  store32 (gtt_entry (g_ring_gtt s / 4096)) (g_ring_physical s .| 1) ;;
  load32 (gtt_entry (g_ring_gtt s / 4096)) ;;
  Ret tt.

(** The ring is given to the GPU, parser stopped, and started. *)
Definition start_ring (s : intel915_shared) : prog bus unit :=
  write_register PGTBL_CTL (g_pgtbl_control s) ;;
  store32 (I915_HWS_OFFSET + 4 * COMPLETION_WORD) 0 ;;
  write_register HWS_PGA (g_hws_physical s) ;;
  write_register RING_TAIL 0 ;;
  write_register RING_HEAD 0 ;;
  write_register RING_START (g_ring_gtt s) ;;
  write_register MI_MODE (STOP_RING <<% 16) ;;
  write_register RING_CTL 1.

(** The word of the framebuffer that the drawing is checked by, besides the first. *)
Definition probe_index (s : intel915_shared) : Z :=
  ((g_height s -% I915_CURSOR_HEIGHT) / 2 +% 4) *% (g_pitch s / 4)
  +% (g_width s -% I915_CURSOR_WIDTH) / 2 +% 2.

(** The running pipe scans the new framebuffer out. *)
Definition program_planes (s : intel915_shared) : prog bus unit :=
  let plane := g_pipe s *% 0x1000 in
  write_register PLANE_CONTROL (g_old_plane_a s .& not32 ENABLE) ;;
  write_register PLANE_BASE (g_old_plane_base_a s) ;;
  write_register (PLANE_CONTROL + 0x1000) (g_old_plane_b s .& not32 ENABLE) ;;
  write_register (PLANE_BASE + 0x1000) (g_old_plane_base_b s) ;;
  write_register (PLANE_STRIDE +% plane) (g_pitch s) ;;
  write_register (PLANE_POSITION +% plane) 0 ;;
  write_register (PLANE_SIZE +% plane) (((g_height s -% 1) <<% 16) .| (g_width s -% 1)) ;;
  write_register (PLANE_CONTROL +% plane) (ENABLE .| (6 <<% 26) .| (g_pipe s <<% 24)) ;;
  write_register (PLANE_BASE +% plane) (g_framebuffer_gtt s) ;;
  write_register VGA_CONTROL (g_old_vga_control s .| ENABLE).

(** [(read_register(RING_CTL) & 1u) != 0u && wait_for_ring() == 0u] *)
Definition ring_in_use : code intel915_shared bool :=
  (let* v := io (read_register RING_CTL) in cret (negb (v .& 1 =? 0))) andalso
  (let* r := wait_for_ring in cret (r =? 0)).

(** The parser is stopped; [true] when it neither stops nor drains its ring. *)
Definition parser_busy : code intel915_shared bool :=
  io (write_register MI_MODE ((STOP_RING <<% 16) .| STOP_RING)) ;*
  let* idle := polls (let* v := io (read_register MI_MODE) in cret (negb (v .& MODE_IDLE =? 0))) in
  cret (negb idle) andalso (let* r := wait_for_ring in cret (r =? 0)).

(** The commands are submitted; [true] when the GPU does not report completion. *)
Definition gpu_timeout (bytes : Z) : code intel915_shared bool :=
  io barrier ;*
  io (write_register RING_TAIL bytes) ;*
  let* done := polls (
    let* v := io (load32 (I915_HWS_OFFSET + 4 * COMPLETION_WORD)) in
    modify (fun s => s <| g_completion := v |>) ;*
    gets (fun s => g_completion s =? COMPLETION_TAG)) in
  let* head := io (read_register RING_HEAD) in
  modify (fun s => s <| g_ring_head := head |>) ;*
  let* tail := io (read_register RING_TAIL) in
  modify (fun s => s <| g_ring_tail := tail |>) ;*
  cret (negb done) orelse (let* r := wait_for_ring in cret (r =? 0)).

(** [true] when the two probed pixels do not have the colour drawn. *)
Definition wrong_pixels (index : Z) : code intel915_shared bool :=
  (let* v := io (load32 I915_FB_OFFSET) in cret (negb (v .& 0xFFFFFF =? I915_RECTANGLE))) orelse
  (let* v := io (load32 (I915_FB_OFFSET + 4 * index)) in cret (negb (v .& 0xFFFFFF =? I915_RECTANGLE))).

Definition set_stage (stage : Z) : code intel915_shared unit :=
  modify (fun s => s <| g_stage := stage |>).

Definition draw_desktop : code intel915_shared Z :=
  let* s := gets id in
  if negb (g_status s =? I915_READY) || negb (g_stage s =? 1) then driver_error I915_ALREADY_STARTED else
  set_stage 2 ;*
  let* busy := ring_in_use in
  if busy : bool then driver_error I915_ENGINE_BUSY else
  let* bytes := io (intel915_build_scene I915_RING_OFFSET I915_RING_DWORDS (g_width s) (g_height s)
                      (g_pitch s) (g_framebuffer_gtt s)) in
  if bytes =? 0 then driver_error I915_COMMAND_OVERFLOW else
  modify (fun s => s <| g_command_bytes := bytes |>) ;*
  let* busy := parser_busy in
  if busy : bool then driver_error I915_ENGINE_BUSY else
  io (write_register RING_CTL 0) ;*
  io (map_gtt s) ;*
  io (start_ring s) ;*
  set_stage 3 ;*
  let* late := gpu_timeout bytes in
  if late : bool then driver_error I915_GPU_TIMEOUT else
  set_stage 4 ;*
  let* wrong := wrong_pixels (probe_index s) in
  if wrong : bool then driver_error I915_BAD_PIXELS else
  set_stage 5 ;*
  io (program_planes s) ;*
  let* r := enable_cursor in
  if negb (r =? I915_DRAWN) then driver_error I915_CURSOR_FAILED else
  set_stage 6 ;*
  modify (fun s => s <| g_status := I915_DRAWN |>) ;*
  cret I915_DRAWN.

(** The work done under the lock. *)
Definition serve_request (operation : Z) : code intel915_shared Z :=
  let* status := gets g_status in
  if operation =? INTEL915_INITIALIZE_DESKTOP then
    if status =? I915_DRAWN then cret I915_DRAWN else draw_desktop
  else if negb (status =? I915_DRAWN) then cret status
  else gets (fun s => (g_height s <<% 16) .| g_width s).

Definition intel915_driver_service (operation x y : Z) : code intel915_shared Z :=
  let* cs := io (access (ReadReg CS)) in
  let* task := io (access (ReadReg TR)) in
  let cs := u16 cs in
  let task := u16 task in
  if negb (cs .& 3 =? 1) then cret I915_WRONG_RING else
  let* owner := gets g_owner_tss_selector in
  if (owner =? 0) || negb (task =? owner) then cret I915_ACCESS_DENIED else
  if INTEL915_GET_SCREEN_SIZE <? operation then cret I915_BAD_REQUEST else
  let* busy := gets g_busy in
  modify (fun s => s <| g_busy := 1 |>) ;*
  if negb (busy =? 0) then cret I915_BUSY else
  modify (fun s => s <| g_observed_cs := cs |> <| g_request_count := g_request_count s +% 1 |>) ;*
  let* result := serve_request operation in
  modify (fun s => s <| g_busy := 0 |>) ;*
  cret result.

(** ** The kernel half *)
Definition KERNEL_PD : Z := 0x30030000.
Definition KNOWN_RAM_END : Z := 0x3F780000.
Definition UNCACHED_RW : Z := 0x1B.

(** [panic_state] is null until a device is found; then it points to the driver's
    shared record. *)
Record intel915_kernel := { panic_state : bool; i_state : intel915_shared }.
#[export] Instance eta_i915_kernel : Eta intel915_kernel := fun k =>
  Build_intel915_kernel (panic_state k) (i_state k).

(** Code on the shared record, run by the kernel. *)
Definition on_shared {A} (m : code intel915_shared A) : code intel915_kernel A := fun k =>
  let! r := m (i_state k) in Ret (fst r, k <| i_state := snd r |>).

Definition intel915_update_cursor (motions : list cursor_motion) (count : Z) : code intel915_kernel Z :=
  let* set := gets panic_state in
  if set : bool
  then on_shared (intel915_cursor_flush (I915_BASE + I915_MMIO_OFFSET) motions count)
  else cret 0.

Definition intel915_claim_desktop (tss_selector : Z) : code intel915_kernel Z :=
  let* k := gets id in
  if negb (panic_state k) || negb (g_status (i_state k) =? I915_READY) ||
     negb (g_owner_tss_selector (i_state k) =? 0) || (tss_selector =? 0) ||
     (0xFFF8 <? tss_selector) || negb (tss_selector .& 7 =? 0)
  then cret 0 else
  on_shared (modify (fun s => s <| g_owner_tss_selector := tss_selector |>)) ;*
  cret 1.

(** [registers[offset / 4] &= ~ENABLE] *)
Definition clear_enable (registers offset : Z) : prog bus unit :=
  let! v := load32 (reg_at registers offset) in
  store32 (reg_at registers offset) (v .& not32 ENABLE).

Definition intel915_restore_text_display : code intel915_kernel unit :=
  let* k := gets id in
  if negb (panic_state k) || (g_stage (i_state k) <? 5) then cret tt else
  let registers := I915_BASE + I915_MMIO_OFFSET in
  io (for_range 2 0 (fun pipe =>
        store32 (reg_at registers (CURSOR_CONTROL + pipe * CURSOR_STRIDE)) 0 ;;
        store32 (reg_at registers (CURSOR_BASE + pipe * CURSOR_STRIDE)) 0)) ;*
  on_shared (modify (fun s => s <| g_cursor_enabled := 0 |>)) ;*
  io (clear_enable registers PLANE_CONTROL) ;*
  io (store32 (reg_at registers PLANE_BASE) (g_old_plane_base_a (i_state k))) ;*
  io (clear_enable registers (PLANE_CONTROL + 0x1000)) ;*
  io (store32 (reg_at registers (PLANE_BASE + 0x1000)) (g_old_plane_base_b (i_state k))) ;*
  io (store32 (reg_at registers VGA_CONTROL) (g_old_vga_control (i_state k) .& not32 ENABLE)) ;*
  io (load32 (reg_at registers VGA_CONTROL)) ;*
  cret tt.

Definition pci_read (device offset : Z) : prog bus Z :=
  out32 0xCF8 (0x80000000 .| device .| (offset .& 0xFC)) ;;
  in32 0xCFC.

Definition enable_bus_master (device : Z) : prog bus unit :=
  let! v := pci_read device 4 in
  let command := u16 v .| 4 in
  out32 0xCF8 (0x80000000 .| device .| 4) ;;
  out16 0xCFC command ;;
  pci_read device 4 ;;
  Ret tt.

Definition find_gpu : prog bus Z :=
  let! r := for_break 256 0 (fun bus =>
    for_break 32 0 (fun device =>
      let address := (bus <<% 16) .| (device <<% 11) in
      let! id := pci_read address 0 in
      if negb (id =? 0x25928086) then Ret None else
      let! class := pci_read address 8 in
      Ret (if class >>> 16 =? 0x0300 then Some address else None))) in
  Ret (match r with Some address => address | None => 0xFFFFFFFF end).

Definition map_checked (address physical flags : Z) : prog bus unit :=
  let! mapped := api "get_physical_address" [KERNEL_PD; address] in
  if negb (mapped =? 0) then kpanic "Intel915 virtual address is already mapped" else
  let! ok := api "map_page" [address; physical; flags] in
  if ok =? 0 then kpanic "Intel915 page mapping failed" else Ret tt.

Definition allocate_page (address flags : Z) : prog bus Z :=
  let! physical := api "pmm_alloc_page" [] in
  if physical =? 0 then kpanic "No physical memory for Intel915" else
  map_checked address physical flags ;;
  Ret physical.

(** The allocation loop: the pages so far, [found] and [base]. *)
Fixpoint collect_pages (fuel : nat) (pages : list Z) : prog bus (list Z * Z * Z) :=
  match fuel with
  | O => Ret (pages, 0xFFFFFFFF, 0)
  | S fuel' =>
      let! physical := api "pmm_alloc_page" [] in
      if physical =? 0 then Ret (pages, 0xFFFFFFFF, 0) else
      let pages := pages ++ [physical] in
      let found := intel915_find_cursor_pages pages (Z.of_nat (length pages)) in
      if negb (found =? 0xFFFFFFFF) then Ret (pages, found, at_slot 0 pages found)
      else collect_pages fuel' pages
  end.

Definition allocate_cursor_pages : prog bus Z :=
  let! '(pages, found, base) := collect_pages 64 [] in
  for_range (length pages) 0 (fun i =>
    if (base =? 0) || (i <? found) || (found +% 4 <=? i)
    then api "pmm_free_page" [at_slot 0 pages i] ;; Ret tt
    else Ret tt) ;;
  Ret base.

Definition host_register (offset : Z) : prog bus Z := load32 (I915_BASE + I915_MMIO_OFFSET + offset).

Definition create_gate (code offset : Z) : prog bus Z :=
  let! selector := api "gdt_alloc_selector" [] in
  (if negb (selector =? 0) then
     api "gdt_write_raw_descriptor" [selector; (code <<% 16) .| (offset .& 0xFFFF);
                                     (offset .& 0xFFFF0000) .| 0xEC00] ;; Ret tt
   else Ret tt) ;;
  Ret selector.

Definition hex_digit (d : Z) : Ascii.ascii :=
  at_slot (Ascii.ascii_of_nat 0) (String.list_ascii_of_string "0123456789ABCDEF") d.

(** Eight digits over [message], from [destination]. *)
Definition write_hex (destination value : Z) (message : list Ascii.ascii) : list Ascii.ascii :=
  fold_left (fun message index =>
    <[Z.to_nat (destination + index) := hex_digit ((value >>> (28 -% index *% 4)) .& 15)]> message)
    (seqZ 0 8) message.

Definition failure_message (s : intel915_shared) (error : Z) : string :=
  let message := String.list_ascii_of_string
    "Intel915 status=00000000 stage=00000000 head=00000000 tail=00000000 done=00000000" in
  let message := write_hex 16 error message in
  let message := write_hex 31 (g_stage s) message in
  let message := write_hex 45 (g_ring_head s) message in
  let message := write_hex 59 (g_ring_tail s) message in
  let message := write_hex 73 (g_completion s) message in
  String.string_of_list_ascii message.

Definition graphics_failure {A} (error : Z) : code intel915_kernel A :=
  on_shared (modify (fun s => s <| g_status := error |>)) ;*
  let* s := gets i_state in
  cpanic (failure_message s error).

(** [if (condition) graphics_failure(state, error);] *)
Definition fail_if (condition : bool) (error : Z) : code intel915_kernel unit :=
  if condition then graphics_failure error else cret tt.

(** What the PCI function says of the device's memory, after the checks. *)
Record gpu_bars := { mmio : Z; gtt : Z; aperture : Z; aperture_size : Z; stolen : Z }.

Definition read_bars (pci : Z) : prog bus gpu_bars :=
  let! mmio := pci_read pci 0x10 in
  let! gtt := pci_read pci 0x1C in
  let! aperture := pci_read pci 0x18 in
  let! msac := pci_read pci 0x60 in
  let aperture_size := if negb (msac .& (2 <<% 16) =? 0) then 0x08000000 else 0x10000000 in
  let! bsm := pci_read pci 0x5C in
  let stolen := bsm .& 0xFFF00000 in
  let! command := pci_read pci 4 in
  if (command .& 2 =? 0) || negb (mmio .& 7 =? 0) || negb (gtt .& 7 =? 0) || negb (aperture .& 7 =? 0)
  then kpanic "Intel915 PCI memory decoding is disabled or BAR type is invalid" else
  let mmio := mmio .& 0xFFF80000 in
  let gtt := gtt .& 0xFFFC0000 in
  let aperture := aperture .& not32 (aperture_size -% 1) in
  if (mmio <? 0x40000000) || (gtt <? 0x40000000) || (aperture <? 0x40000000) ||
     (stolen <? KNOWN_RAM_END) || (0x40000000 <=? stolen) || (gtt .& 0xFFF80000 =? mmio) ||
     (mmio .& not32 (aperture_size -% 1) =? aperture) || (gtt .& not32 (aperture_size -% 1) =? aperture)
  then kpanic "Intel915 BARs/stolen RAM do not match this laptop memory map" else
  Ret (Build_gpu_bars mmio gtt aperture aperture_size stolen).

(** The driver's RAM; the cursor pages are in it, physically contiguous. *)
Definition map_driver_ram (cursor_physical : Z) : prog bus unit :=
  for_range (Z.to_nat (I915_RAM_SIZE / 4096)) 0 (fun page =>
    let offset := page * 4096 in
    if (I915_CURSOR_OFFSET <=? offset) && (offset <? I915_CURSOR_OFFSET + I915_CURSOR_BYTES) then
      map_checked (I915_BASE + offset) (cursor_physical +% offset -% I915_CURSOR_OFFSET) UNCACHED_RW
    else
      let flags := if (offset =? I915_HWS_OFFSET) || (offset =? I915_RING_OFFSET)
                   then UNCACHED_RW else 3 in
      allocate_page (I915_BASE + offset) flags ;; Ret tt).

(** Clearing the RAM also clears the shared record; the image ends below it. *)
Definition load_driver : code intel915_kernel unit :=
  io (memset I915_BASE 0 I915_RAM_SIZE) ;*
  on_shared (modify (fun _ => zero_shared)) ;*
  io (memcpy I915_BASE I915_IMAGE_SOURCE I915_IMAGE_SIZE) ;*
  cret tt.

Definition map_device (b : gpu_bars) : prog bus unit :=
  for_range (Z.to_nat (0x80000 / 4096)) 0 (fun page =>
    map_checked (I915_BASE + I915_MMIO_OFFSET + page * 4096) (mmio b +% page * 4096) UNCACHED_RW) ;;
  for_range (Z.to_nat (0x40000 / 4096)) 0 (fun page =>
    map_checked (I915_BASE + I915_GTT_OFFSET + page * 4096) (gtt b +% page * 4096) UNCACHED_RW).

Definition check_gtt (b : gpu_bars) : code intel915_kernel unit :=
  let* control := io (host_register PGTBL_CTL) in
  on_shared (modify (fun s => s <| g_pgtbl_control := control |>)) ;*
  fail_if (control .& 1 =? 0) I915_NO_GTT ;*
  fail_if ((control .& 0xFFFFF000 <? KNOWN_RAM_END) ||
           (0x40000000 -% aperture_size b / 1024 <? control .& 0xFFFFF000)) I915_BAD_MEMORY.

(** The one output that is on, and so the pipe that drives it. *)
Definition find_output : code intel915_kernel Z :=
  let* output := io (host_register LVDS) in
  let* output :=
    if output .& ENABLE =? 0 then io (host_register ADPA)
    else
      let* both :=
        (let* v := io (host_register ADPA) in cret (negb (v .& ENABLE =? 0))) andalso
        (let* v := io (host_register ADPA) in cret (negb ((v .^ output) .& (1 <<% 30) =? 0))) in
      fail_if both I915_NO_DISPLAY ;*
      cret output in
  fail_if (output .& ENABLE =? 0) I915_NO_DISPLAY ;*
  cret output.

(** The mode the firmware left; the layout of a framebuffer for it. *)
Definition read_mode : code intel915_kernel (Z * Z) :=
  let* output := find_output in
  let pipe := (output >>> 30) .& 1 in
  on_shared (modify (fun s => s <| g_pipe := pipe |>)) ;*
  let* conf := io (host_register (PIPE_CONF +% pipe *% 0x1000)) in
  fail_if (conf .& ENABLE =? 0) I915_NO_DISPLAY ;*
  let* source := io (host_register (PIPE_SOURCE +% pipe *% 0x1000)) in
  let width := ((source >>> 16) .& 0xFFF) +% 1 in
  let height := (source .& 0xFFF) +% 1 in
  on_shared (modify (fun s => s <| g_width := width |> <| g_height := height |>)) ;*
  match intel915_mode_layout width height with
  | None => graphics_failure I915_UNSUPPORTED_MODE
  | Some layout => cret layout
  end.

(** The display registers are saved, and must not point into the new framebuffer. *)
Definition save_display (b : gpu_bars) (layout : Z * Z) : code intel915_kernel unit :=
  let '(pitch, bytes) := layout in
  let framebuffer_gtt := aperture_size b -% 0x01000000 in
  on_shared (modify (fun s => s <| g_pitch := pitch |> <| g_framebuffer_bytes := bytes |>
    <| g_framebuffer_gtt := framebuffer_gtt |> <| g_ring_gtt := framebuffer_gtt +% I915_FB_MAX_SIZE |>)) ;*
  let* vga := io (host_register VGA_CONTROL) in
  let* plane_a := io (host_register PLANE_CONTROL) in
  let* plane_b := io (host_register (PLANE_CONTROL + 0x1000)) in
  let* base_a := io (host_register PLANE_BASE) in
  let* base_b := io (host_register (PLANE_BASE + 0x1000)) in
  on_shared (modify (fun s => s <| g_old_vga_control := vga |> <| g_old_plane_a := plane_a |>
    <| g_old_plane_b := plane_b |> <| g_old_plane_base_a := base_a |> <| g_old_plane_base_b := base_b |>)) ;*
  modify (fun k => k <| panic_state := true |>) ;*
  fail_if ((negb (plane_a .& ENABLE =? 0) && (framebuffer_gtt -% 0x01000000 <=? base_a)) ||
           (negb (plane_b .& ENABLE =? 0) && (framebuffer_gtt -% 0x01000000 <=? base_b)))
    I915_GTT_CONFLICT.

Definition allocate_framebuffer (bytes : Z) : prog bus unit :=
  for_range (Z.to_nat ((bytes + 4095) / 4096)) 0 (fun page =>
    let! physical := allocate_page (I915_BASE + I915_FB_OFFSET + page * 4096) UNCACHED_RW in
    store32 (I915_BASE + I915_PAGE_LIST_OFFSET + 4 * page) physical).

Definition create_descriptors : code intel915_kernel unit :=
  let* hws := io (api "get_physical_address" [KERNEL_PD; I915_BASE + I915_HWS_OFFSET]) in
  let* ring := io (api "get_physical_address" [KERNEL_PD; I915_BASE + I915_RING_OFFSET]) in
  on_shared (modify (fun s => s <| g_hws_physical := hws |> <| g_ring_physical := ring |>)) ;*
  let* code := io (api "gdt_create_code_descriptor" [I915_BASE; 0xFFFF; 0x20]) in
  let* data := io (api "gdt_create_data_descriptor" [I915_BASE; 0xFFFFFF; 0x20]) in
  fail_if ((code =? 0) || (data =? 0)) I915_NO_SELECTOR ;*
  on_shared (modify (fun s => s <| g_code_selector := code .| 1 |> <| g_data_selector := data .| 1 |>)) ;*
  let* gate := io (create_gate code 0) in
  on_shared (modify (fun s => s <| g_entry_gate := gate |>)) ;*
  fail_if (gate =? 0) I915_NO_SELECTOR.

Definition publish_driver (pci : Z) : code intel915_kernel unit :=
  on_shared (modify (fun s => s <| g_status := I915_READY |> <| g_stage := 1 |>)) ;*
  io (enable_bus_master pci) ;*
  let* s := gets i_state in
  io (store32 I915_GATE_ADDRESS (g_entry_gate s .| 3)) ;*
  io (store32 I915_DATA_ADDRESS (g_data_selector s)) ;*
  io (store32 I915_CODE_ADDRESS (g_code_selector s)) ;*
  io (store32 I915_READY_ADDRESS 1).

Definition intel915_initialize : code intel915_kernel Z :=
  let* pci := io find_gpu in
  if pci =? 0xFFFFFFFF then cret 0 else
  let* b := io (read_bars pci) in
  io (api "pmm_mark_range_used" [stolen b; 0x40000000]) ;*
  let* cursor_physical := io allocate_cursor_pages in
  if cursor_physical =? 0 then cpanic "No contiguous memory for Intel915 cursor" else
  io (map_driver_ram cursor_physical) ;*
  load_driver ;*
  on_shared (modify (fun s => s <| g_pci_address := pci |> <| g_cursor_physical := cursor_physical |>
    <| g_mmio_physical := mmio b |> <| g_gtt_physical := gtt b |> <| g_aperture_physical := aperture b |>
    <| g_aperture_size := aperture_size b |> <| g_stolen_base := stolen b |>)) ;*
  io (map_device b) ;*
  check_gtt b ;*
  let* layout := read_mode in
  save_display b layout ;*
  io (allocate_framebuffer (snd layout)) ;*
  create_descriptors ;*
  publish_driver pci ;*
  cret 1.
