(* ===== verification/CursorFacts.v ===== *)
(** * The hardware cursor

    The cursor of [Intel915] moves like a point clamped to the screen; a flush applies a
    whole batch with one register update; its pages are found without leaking any. *)
From stdpp Require Import list gmap strings.
From S2P Require Import Prelude Machine Ring Intel915.

(** ** Moving *)

(** A coordinate moved by [d] and kept on a screen of [limit] pixels. *)
Definition clamp (limit p d : Z) : Z := Z.max 0 (Z.min (limit - 1) (Z.min p (limit - 1) + d)).

Definition is_s32 (d : Z) : Prop := - 2 ^ 31 <= d < 2 ^ 31.

Lemma move_axis_clamp limit p d :
  1 <= limit <= 2048 -> is_u32 p -> is_s32 d -> intel915_move_axis p d limit = clamp limit p d.
Proof.
  intros Hl Hp Hd. unfold intel915_move_axis, clamp, is_s32 in *. unfold in_u in Hp.
  destruct (Z.eqb_spec limit 0); [lia|]. destruct (Z.ltb_spec 2048 limit); [lia|]. cbn [orb].
  cbv zeta. set (q := if limit <=? p then limit -% 1 else p).
  assert (q = Z.min p (limit - 1)) as ->.
  { unfold q. destruct (Z.leb_spec limit p); [rewrite sub32_small by lia|]; lia. }
  destruct (Z.ltb_spec d 0).
  - replace (0 -% u32 d) with (- d).
    2:{ unfold sub32, u32, wrap. rewrite Zminus_mod_idemp_r. symmetry. apply Z.mod_small. lia. }
    destruct (Z.ltb_spec (Z.min p (limit - 1)) (- d)); [lia|]. rewrite sub32_small by lia. lia.
  - unfold u32 at 1 2. rewrite wrap_small by (unfold in_u; lia). rewrite sub32_small by lia.
    destruct (Z.leb_spec (limit - Z.min p (limit - 1)) d); [rewrite sub32_small by lia; lia|].
    rewrite add32_small by lia. lia.
Qed.

Lemma clamp_range limit p d : 1 <= limit -> 0 <= clamp limit p d < limit.
Proof. unfold clamp. lia. Qed.

(** The path of the cursor over a batch. *)
Definition walk (width height : Z) (xy : Z * Z) (motions : list cursor_motion) : Z * Z :=
  fold_left (fun xy m => (clamp width (fst xy) (dx m), clamp height (snd xy) (dy m))) motions xy.

(** After one motion the cursor is on the screen, wherever it was before. *)
Lemma walk_on_screen width height motions : forall xy,
  1 <= width -> 1 <= height -> motions <> [] ->
  0 <= fst (walk width height xy motions) < width /\ 0 <= snd (walk width height xy motions) < height.
Proof.
  unfold walk. induction motions as [|m l IH]; intros xy Hw Hh Hne; [congruence|].
  rewrite fold_left_cons. destruct l as [|m' l].
  - cbn. split; apply clamp_range; assumption.
  - apply IH; [assumption..|discriminate].
Qed.

Definition is_motion (m : cursor_motion) : Prop := is_s32 (dx m) /\ is_s32 (dy m).

Lemma move_cursor_walk s motions :
  1 <= g_width s <= 2048 -> 1 <= g_height s <= 2048 -> is_u32 (g_cursor_x s) -> is_u32 (g_cursor_y s) ->
  Forall is_motion motions ->
  move_cursor s motions = walk (g_width s) (g_height s) (g_cursor_x s, g_cursor_y s) motions.
Proof.
  intros Hw Hh Hx Hy. unfold move_cursor, walk.
  assert (is_u32 (fst (g_cursor_x s, g_cursor_y s)) /\ is_u32 (snd (g_cursor_x s, g_cursor_y s))) as H
    by now split.
  revert H. generalize (g_cursor_x s, g_cursor_y s). induction motions as [|m l IH]; [reflexivity|].
  intros xy [Hx' Hy'] Hf. inversion Hf as [|? ? [Hdx Hdy] Hl]; subst. rewrite !fold_left_cons.
  rewrite !move_axis_clamp by assumption. apply IH; [|assumption].
  cbn [fst snd]. pose proof (clamp_range (g_width s) (fst xy) (dx m)).
  pose proof (clamp_range (g_height s) (snd xy) (dy m)). split; ulia.
Qed.

Lemma cursor_usable_iff s : cursor_usable s = true ->
  g_status s = I915_DRAWN /\ g_pipe s <= 1 /\ g_width s <> 0 /\ g_width s <= 2048 /\ g_height s <> 0 /\
  g_height s <= 2048.
Proof. unfold cursor_usable. intros H. bool_to_prop. tauto. Qed.

(** The accesses of a position update, latest first. *)
Definition cursor_accesses (registers : Z) (s : intel915_shared) (xy : Z * Z) : list bus :=
  let position := reg_at registers (CURSOR_POSITION +% g_pipe s *% CURSOR_STRIDE) in
  let base := reg_at registers (CURSOR_BASE +% g_pipe s *% CURSOR_STRIDE) in
  [Load W32 base; Store W32 base (g_cursor_physical s); Load W32 position;
   Store W32 position ((snd xy <<% 16) .| fst xy)].

(** The shared record of a usable cursor after a flush. *)
Definition moved_to (s : intel915_shared) (xy : Z * Z) : intel915_shared :=
  s <| g_cursor_x := fst xy |> <| g_cursor_y := snd xy |>
    <| g_cursor_updates := g_cursor_updates s +% 1 |> <| g_busy := 0 |>.

Definition batch_of (motions : list cursor_motion) : Prop :=
  1 <= Z.of_nat (length motions) <= 64 /\ Forall is_motion motions.

Lemma flush_spec registers s motions t :
  batch_of motions ->
  (cursor_usable s = true ->
   is_u32 (g_cursor_x s) /\ is_u32 (g_cursor_y s) /\ 0 <= g_width s /\ 0 <= g_height s) ->
  let xy := walk (g_width s) (g_height s) (g_cursor_x s, g_cursor_y s) motions in
  wp (any_hw (fun _ _ => True))
    (intel915_cursor_flush registers motions (Z.of_nat (length motions)) s)
    (fun o t' =>
       if negb (g_busy s =? 0) then o = Done (0, s <| g_busy := 1 |>) /\ t' = t
       else if negb (cursor_usable s) then o = Done (0, s <| g_busy := 0 |>) /\ t' = t
       else 0 <= fst xy < g_width s /\ 0 <= snd xy < g_height s /\
            if decide (xy = (g_cursor_x s, g_cursor_y s))
            then o = Done (1, s <| g_busy := 0 |>) /\ t' = t
            else o = Done (1, moved_to s xy) /\
                 map fst t' = cursor_accesses registers s xy ++ map fst t) t.
Proof.
  intros [Hc Hm] Hrange xy. unfold intel915_cursor_flush, I915_CURSOR_BATCH.
  destruct (Z.eqb_spec (Z.of_nat (length motions)) 0); [lia|].
  destruct (Z.ltb_spec 64 (Z.of_nat (length motions))); [lia|]. cbn [orb].
  apply wp_gets, wp_modify. destruct (g_busy s =? 0) eqn:Eb; cbn [negb]; [|now split].
  apply wp_gets. rewrite take_ge by lia. unfold id.
  change (cursor_usable (s <| g_busy := 1 |>)) with (cursor_usable s).
  change (move_cursor (s <| g_busy := 1 |>) motions) with (move_cursor s motions).
  destruct (cursor_usable s) eqn:Eu; cbn [negb]; [|now split].
  destruct (Hrange eq_refl) as (Hx & Hy & Hw & Hh).
  destruct (cursor_usable_iff s Eu) as (_ & _ & Hw0 & Hw1 & Hh0 & Hh1).
  rewrite move_cursor_walk by (assumption || lia). fold xy.
  assert (0 <= fst xy < g_width s /\ 0 <= snd xy < g_height s) as [Hsx Hsy].
  { apply walk_on_screen; [lia|lia|]. destruct motions; [cbn in Hc; lia|discriminate]. }
  destruct xy as [x y] eqn:Exy. cbn [fst snd] in *.
  change (g_cursor_x (s <| g_busy := 1 |>)) with (g_cursor_x s).
  change (g_cursor_y (s <| g_busy := 1 |>)) with (g_cursor_y s).
  destruct (decide ((x, y) = (g_cursor_x s, g_cursor_y s))) as [E|E].
  - injection E as -> ->. rewrite !Z.eqb_refl. cbn [negb orb]. repeat split; auto; lia.
  - destruct (negb (x =? g_cursor_x s) || negb (y =? g_cursor_y s)) eqn:En.
    2:{ bool_to_prop. subst. now destruct E. }
    cbn. split; [exact I|]. intros ? ? [_ ->]. split; [exact I|]. intros ? ? [_ ->].
    split; [exact I|]. intros ? ? [_ ->]. split; [exact I|]. intros ? ? [_ ->].
    repeat split; lia.
Qed.

(** A flush of a batch. While another flush or the ring-1 driver holds the lock nothing
    is touched; when the cursor is not up, or the record is not sane, only the lock is
    taken and released. Otherwise the cursor goes where the clamped walk over the whole
    batch leads, always a point of the screen; the position register of the active pipe
    is written once with it, then the base register that arms it, each read back, and
    nothing at all is written when the cursor ends where it was. *)
Lemma cursor_flush_correct registers s motions t :
  batch_of motions -> is_u32 (g_cursor_x s) -> is_u32 (g_cursor_y s) ->
  0 <= g_width s -> 0 <= g_height s ->
  let xy := walk (g_width s) (g_height s) (g_cursor_x s, g_cursor_y s) motions in
  wp (any_hw (fun _ _ => True))
    (intel915_cursor_flush registers motions (Z.of_nat (length motions)) s)
    (fun o t' =>
       if negb (g_busy s =? 0) then o = Done (0, s <| g_busy := 1 |>) /\ t' = t
       else if negb (cursor_usable s) then o = Done (0, s <| g_busy := 0 |>) /\ t' = t
       else 0 <= fst xy < g_width s /\ 0 <= snd xy < g_height s /\
            if decide (xy = (g_cursor_x s, g_cursor_y s))
            then o = Done (1, s <| g_busy := 0 |>) /\ t' = t
            else o = Done (1, moved_to s xy) /\
                 map fst t' = cursor_accesses registers s xy ++ map fst t) t.
Proof. intros Hb Hx Hy Hw Hh. apply flush_spec; auto. Qed.

(** A batch that runs into the right and the top edge of pipe B's screen. *)
Definition edge_cursor : intel915_shared :=
  zero_shared <| g_status := I915_DRAWN |> <| g_cursor_enabled := 1 |> <| g_pipe := 1 |>
    <| g_cursor_physical := 0x100000 |> <| g_width := 1024 |> <| g_height := 768 |>
    <| g_cursor_x := 1000 |> <| g_cursor_y := 5 |>.

Lemma cursor_flush_correct_example :
  wp (any_hw (fun _ _ => True))
    (intel915_cursor_flush 0 [Build_cursor_motion 50 (-10); Build_cursor_motion (-3) 0] 2 edge_cursor)
    (fun o t' => o = Done (1, moved_to edge_cursor (1020, 0)) /\
                 map fst t' = cursor_accesses 0 edge_cursor (1020, 0)) [].
Proof.
  eapply wp_mono; [|apply (cursor_flush_correct 0 edge_cursor
    [Build_cursor_motion 50 (-10); Build_cursor_motion (-3) 0] [])].
  - intros o t' H.
    change (g_busy edge_cursor =? 0) with true in H. change (cursor_usable edge_cursor) with true in H.
    destruct H as (_ & _ & H). rewrite decide_False in H by (vm_compute; congruence). exact H.
  - split; [cbn; lia|]. repeat constructor; cbn; lia.
  - cbn. ulia.
  - cbn. ulia.
  - cbn. lia.
  - cbn. lia.
Defined.

(** ** Finding contiguous pages *)
Definition run_at (pages : list Z) (r : Z) : Prop :=
  0 <= r /\ r + 4 <= Z.of_nat (length pages) /\
  exists base, base <> 0 /\ base .& 4095 = 0 /\ base <= 0xFFFFC000 /\ at_slot 0 pages r = base /\
    take 4 (drop (Z.to_nat r) pages) = [base; base + 4096; base + 8192; base + 12288].

Lemma at_slot_lookup l r (i : nat) : 0 <= r -> Z.of_nat i < Z.of_nat (length l) - r ->
  drop (Z.to_nat r) l !! i = Some (at_slot 0 l (r + Z.of_nat i)).
Proof.
  intros Hr Hi. rewrite lookup_drop. unfold at_slot.
  replace (Z.to_nat (r + Z.of_nat i)) with (Z.to_nat r + i)%nat by lia.
  destruct (l !! (Z.to_nat r + i)%nat) eqn:E; [reflexivity|]. apply lookup_ge_None in E. lia.
Qed.

Lemma take4_eq {A} (l : list A) a b c d :
  l !! 0%nat = Some a -> l !! 1%nat = Some b -> l !! 2%nat = Some c -> l !! 3%nat = Some d ->
  take 4 l = [a; b; c; d].
Proof. intros. destruct l as [|? [|? [|? [|? ?]]]]; simplify_eq/=; reflexivity. Qed.

Lemma find_run_sound n : forall i pages,
  Forall is_u32 pages -> 0 <= i -> i + Z.of_nat n + 3 <= Z.of_nat (length pages) ->
  find_run n i pages <> 0xFFFFFFFF -> run_at pages (find_run n i pages).
Proof.
  induction n as [|n IH]; intros i pages Hp Hi Hn Hf; cbn [find_run] in *; [congruence|].
  case_if; [|apply IH; [assumption|lia|lia|assumption]]. clear Hf IH. bool_to_prop.
  set (base := at_slot 0 pages i) in *.
  assert (is_u32 base) as Hb.
  { pose proof (at_slot_lookup pages i 0 Hi ltac:(lia)) as Hl0. rewrite Z.add_0_r in Hl0.
    rewrite lookup_drop in Hl0. eapply Forall_lookup_1 in Hl0; [exact Hl0|exact Hp]. }
  unfold in_u in Hb. split; [lia|]. split; [lia|]. exists base. repeat split; [assumption..|].
  apply take4_eq; rewrite at_slot_lookup by lia; f_equal.
  - now rewrite Z.add_0_r.
  - etransitivity; [eassumption|]. apply add32_small. lia.
  - etransitivity; [eassumption|]. apply add32_small. lia.
  - etransitivity; [eassumption|]. apply add32_small. lia.
Qed.

Lemma find_cursor_pages_sound pages :
  Forall is_u32 pages -> intel915_find_cursor_pages pages (Z.of_nat (length pages)) <> 0xFFFFFFFF ->
  run_at pages (intel915_find_cursor_pages pages (Z.of_nat (length pages))).
Proof.
  intros Hp. unfold intel915_find_cursor_pages. destruct (Z.ltb_spec (Z.of_nat (length pages)) 4); [congruence|].
  apply find_run_sound; [assumption|lia|lia].
Qed.

(** ** What the page allocator was asked *)
Definition alloc_of (x : bus * Z) : option Z :=
  match x with
  | (Api f [], v) => if String.eqb f "pmm_alloc_page" && negb (v =? 0) then Some v else None
  | _ => None
  end.
Definition free_of (x : bus * Z) : option Z :=
  match x with
  | (Api f [p], _) => if String.eqb f "pmm_free_page" then Some p else None
  | _ => None
  end.
(** The pages handed out and given back in a trace, latest first. *)
Definition allocated (t : trace) : list Z := omap alloc_of t.
Definition freed (t : trace) : list Z := omap free_of t.

Definition four_pages (base : Z) : list Z :=
  if base =? 0 then [] else [base; base + 4096; base + 8192; base + 12288].

Lemma collect_pages_spec fuel : forall pages t0 t,
  Forall is_u32 pages ->
  allocated t = reverse pages ++ allocated t0 -> freed t = freed t0 ->
  wp (any_hw (fun _ _ => True)) (collect_pages fuel pages)
    (fun o t' => exists pages' found base, o = Done (pages', found, base) /\
       (length pages' <= length pages + fuel)%nat /\
       allocated t' = reverse pages' ++ allocated t0 /\ freed t' = freed t0 /\
       (base = 0 \/ base <> 0 /\ base .& 4095 = 0 /\ base <= 0xFFFFC000 /\ 0 <= found /\
        found + 4 <= Z.of_nat (length pages') /\ take 4 (drop (Z.to_nat found) pages') = four_pages base)) t.
Proof.
  induction fuel as [|fuel IH]; intros pages t0 t Hp Ha Hf; cbn [collect_pages].
  - exists pages, 0xFFFFFFFF, 0. cbn. repeat split; auto; lia.
  - cbn [bind api access wp allowed any_hw]. split; [exact I|]. intros v t' [Hv ->].
    destruct (v =? 0) eqn:E.
    + exists pages, 0xFFFFFFFF, 0. split; [reflexivity|]. split; [lia|]. split; [|split; [|now left]].
      * unfold allocated. cbn. rewrite E. exact Ha.
      * exact Hf.
    + assert (Forall is_u32 (pages ++ [v])) as Hp' by (apply Forall_app_2; [assumption|now constructor]).
      assert (allocated ((Api "pmm_alloc_page" [], v) :: t) = reverse (pages ++ [v]) ++ allocated t0) as Ha'.
      { unfold allocated in *. cbn. rewrite E. cbn. rewrite reverse_app. cbn. now rewrite Ha. }
      cbv zeta. case_if.
      * pose proof (find_cursor_pages_sound (pages ++ [v]) Hp') as Hs.
        destruct Hs as (H0 & H1 & base & Hb & Hal & Hle & Hat & Htk); [bool_to_prop; assumption|].
        do 3 eexists. split; [reflexivity|]. split; [rewrite length_app; cbn; lia|].
        split; [exact Ha'|]. split; [exact Hf|]. right. rewrite Hat.
        repeat (split; [assumption|]). unfold four_pages. rewrite (proj2 (Z.eqb_neq base 0) Hb). exact Htk.
      * eapply wp_mono; [|apply (IH (pages ++ [v]) t0); assumption].
        intros o t' (p' & f' & b' & -> & Hl & Hr). exists p', f', b'. split; [reflexivity|].
        rewrite length_app in Hl. cbn in Hl. split; [lia|exact Hr].
Qed.

(** The pages the code frees among the first [i]. *)
Definition discarded (base found : Z) (pages : list Z) (i : nat) : list Z :=
  if base =? 0 then take i pages
  else take (Nat.min i (Z.to_nat found)) pages ++ drop (Z.to_nat found + 4) (take i pages).

Lemma discarded_step base found pages (i : nat) :
  (base = 0 \/ 0 <= found <= 60) -> (i < length pages)%nat ->
  discarded base found pages (S i) =
    discarded base found pages i ++
    (if (base =? 0) || (Z.of_nat i <? found) || (found +% 4 <=? Z.of_nat i)
     then [at_slot 0 pages (Z.of_nat i)] else []).
Proof.
  intros Hf Hi. unfold discarded.
  assert (take (S i) pages = take i pages ++ [at_slot 0 pages (Z.of_nat i)]) as E.
  { apply take_S_r. unfold at_slot. rewrite Nat2Z.id. destruct (pages !! i) eqn:El; [reflexivity|].
    apply lookup_ge_None in El. lia. }
  destruct (Z.eqb_spec base 0) as [|Hb]; [exact E|]. cbn [orb]. destruct Hf as [|Hf]; [contradiction|].
  rewrite add32_small by lia.
  destruct (Z.ltb_spec (Z.of_nat i) found); cbn [orb].
  - replace (Nat.min (S i) (Z.to_nat found)) with (S i) by lia.
    replace (Nat.min i (Z.to_nat found)) with i by lia. rewrite E at 1.
    rewrite !drop_ge by (rewrite length_take; lia). now rewrite !app_nil_r.
  - replace (Nat.min (S i) (Z.to_nat found)) with (Z.to_nat found) by lia.
    replace (Nat.min i (Z.to_nat found)) with (Z.to_nat found) by lia. rewrite E, <- app_assoc. f_equal.
    assert (length (take i pages) = i) as El by (rewrite length_take; lia).
    destruct (Z.leb_spec (found + 4) (Z.of_nat i)).
    + apply drop_app_le. lia.
    + rewrite app_nil_r, !drop_ge; [reflexivity|lia|rewrite length_app; cbn; lia].
Qed.

Lemma discarded_all base found pages :
  base = 0 \/ base <> 0 /\ 0 <= found /\ found + 4 <= Z.of_nat (length pages) /\
    take 4 (drop (Z.to_nat found) pages) = four_pages base ->
  discarded base found pages (length pages) ++ four_pages base ≡ₚ pages.
Proof.
  unfold discarded. rewrite firstn_all. intros [->|(Hb & H0 & H1 & H4)]; [now rewrite app_nil_r|].
  destruct (Z.eqb_spec base 0); [contradiction|].
  replace (Nat.min _ _) with (Z.to_nat found) by lia. rewrite <- H4, <- drop_drop.
  rewrite <- (take_drop (Z.to_nat found) pages) at 4.
  rewrite <- (take_drop 4 (drop (Z.to_nat found) pages)) at 3.
  rewrite <- app_assoc. apply Permutation_app_head, Permutation_app_comm.
Qed.

Lemma free_loop_spec base found pages t :
  (base = 0 \/ 0 <= found <= 60) ->
  wp (any_hw (fun _ _ => True))
    (for_range (length pages) 0 (fun i =>
       if (base =? 0) || (i <? found) || (found +% 4 <=? i)
       then api "pmm_free_page" [at_slot 0 pages i] ;; Ret tt else Ret tt))
    (fun o t' => o = Done tt /\ allocated t' = allocated t /\
                 freed t' = reverse (discarded base found pages (length pages)) ++ freed t) t.
Proof.
  intros Hf.
  apply wp_for_range with (I := fun i t' => allocated t' = allocated t /\
    freed t' = reverse (discarded base found pages (Z.to_nat i)) ++ freed t).
  - intros i t' Hi [Ha Hr]. pose proof (discarded_step base found pages (Z.to_nat i) Hf ltac:(lia)) as Es.
    rewrite Z2Nat.id in Es by lia. replace (Z.to_nat (i + 1)) with (S (Z.to_nat i)) by lia. rewrite Es.
    case_if.
    + split; [exact I|]. intros v t'' [Hv ->]. split; [exact Ha|].
      change (freed ((Api "pmm_free_page" [at_slot 0 pages i], v) :: t')) with (at_slot 0 pages i :: freed t').
      rewrite reverse_app, Hr. reflexivity.
    + split; [exact Ha|]. rewrite app_nil_r. exact Hr.
  - intros t' [Ha Hr]. rewrite Z.add_0_l, Nat2Z.id in Hr. auto.
  - split; [reflexivity|]. unfold discarded. change (Z.to_nat 0) with O. cbn [take Nat.min].
    rewrite ?take_0, ?drop_nil. case_if; reflexivity.
Qed.

(** C36: finding the cursor's memory leaks no page. Whatever the page allocator answers, the
    search ends after at most sixty-four requests, and the pages it was given are, as a
    multiset, those it gave back and the four contiguous page-aligned ones it returns
    (none when it returns zero): every other page is freed, exactly once. *)
Theorem cursor_pages_no_leak t :
  wp (any_hw (fun _ _ => True)) allocate_cursor_pages
    (fun o t' => exists base got given,
       o = Done base /\ allocated t' = got ++ allocated t /\ freed t' = given ++ freed t /\
       got ≡ₚ given ++ four_pages base /\ (length got <= 64)%nat /\
       (base <> 0 -> base .& 4095 = 0 /\ base + 16384 <= 2 ^ 32)) t.
Proof.
  unfold allocate_cursor_pages.
  eapply wp_seq with (K := fun r t' => exists pages found base, r = (pages, found, base) /\
    (length pages <= 64)%nat /\ allocated t' = reverse pages ++ allocated t /\ freed t' = freed t /\
    (base = 0 \/ base <> 0 /\ base .& 4095 = 0 /\ base <= 0xFFFFC000 /\ 0 <= found /\
     found + 4 <= Z.of_nat (length pages) /\ take 4 (drop (Z.to_nat found) pages) = four_pages base)).
  - eapply wp_mono; [|apply (collect_pages_spec 64 [] t t); [constructor|reflexivity|reflexivity]].
    intros o t' (p & f & b & -> & Hl & H). cbn in Hl |- *. exists p, f, b. auto.
  - intros [[pages found] base] t1 (? & ? & ? & E & Hl & Ha & Hr & Hb). injection E as <- <- <-.
    eapply wp_seq with (K := fun _ t' => allocated t' = reverse pages ++ allocated t /\
      freed t' = reverse (discarded base found pages (length pages)) ++ freed t).
    { eapply wp_mono; [|apply free_loop_spec; destruct Hb as [->|Hb]; [now left|right; lia]].
      intros o t' (-> & Ha' & Hr'). cbn. rewrite Ha', Hr', Ha, Hr. auto. }
    intros [] t2 [Ha2 Hr2]. exists base, (reverse pages), (reverse (discarded base found pages (length pages))).
    split; [reflexivity|]. split; [exact Ha2|]. split; [exact Hr2|]. split.
    { rewrite !reverse_Permutation. symmetry. apply discarded_all. tauto. }
    split; [rewrite length_reverse; lia|]. intros Hne. destruct Hb as [|Hb]; [contradiction|].
    split; [apply Hb|]. lia.
Qed.
