(* ===== verification/GraphicsSafety.v ===== *)
(** * The ring-1 graphics driver is contained

    What the driver may touch, when it may take the display away from the text mode, and
    what is left behind on every path. The kernel half's promise to ring 1 is
    [layout_ok]; [Intel915Init] shows that initialisation establishes it. *)
From stdpp Require Import list gmap strings.
From S2P Require Import Prelude Machine Ring Intel915.

(** ** The mode *)

Lemma row_bytes width : 320 <= width <= 2048 ->
  (width *% 4 +% 63) .& not32 63 = 64 * ((4 * width + 63) / 64).
Proof.
  intros Hw. rewrite mul32_small, add32_small by lia. change 63 with (2 ^ 6 - 1) at 2.
  rewrite land_not_mask by ulia. change (2 ^ 6) with 64.
  pose proof (Z.div_mod (4 * width + 63) 64 ltac:(lia)). replace (width * 4) with (4 * width) by lia. lia.
Qed.

Lemma page_bytes n : 0 <= n <= 0x1000000 -> (n +% 4095) .& not32 4095 = 4096 * ((n + 4095) / 4096).
Proof.
  intros Hn. rewrite add32_small by lia. change 4095 with (2 ^ 12 - 1) at 2.
  rewrite land_not_mask by ulia. change (2 ^ 12) with 4096.
  pose proof (Z.div_mod (n + 4095) 4096 ltac:(lia)). lia.
Qed.

Lemma layout_inv width height pitch bytes :
  intel915_mode_layout width height = Some (pitch, bytes) <->
  320 <= width <= 2048 /\ 200 <= height <= 2048 /\
  pitch = 64 * ((4 * width + 63) / 64) /\ bytes = 4096 * ((pitch * height + 4095) / 4096) /\
  bytes <= I915_FB_MAX_SIZE.
Proof.
  unfold intel915_mode_layout.
  destruct (_ || _) eqn:E.
  { split; [discriminate|]. intros (H1 & H2 & _). exfalso.
    repeat rewrite orb_true_iff in E. rewrite !Z.ltb_lt in E. lia. }
  bool_to_prop. cbv zeta. rewrite row_bytes by lia. set (row := 64 * ((4 * width + 63) / 64)).
  assert (0 <= row <= 8192) as Hr.
  { unfold row. pose proof (Z.div_mod (4 * width + 63) 64 ltac:(lia)).
    pose proof (Z.mod_pos_bound (4 * width + 63) 64 eq_refl). lia. }
  rewrite mul32_small, page_bytes by nia. case_if; bool_to_prop.
  - split; [discriminate|]. intros (_ & _ & -> & -> & Hle). lia.
  - split; [intros [= <- <-]; repeat split; lia|]. now intros (_ & _ & -> & -> & _).
Qed.

(** The record the kernel half hands over. *)
Definition layout_ok (s : intel915_shared) : Prop :=
  intel915_mode_layout (g_width s) (g_height s) = Some (g_pitch s, g_framebuffer_bytes s) /\
  (g_framebuffer_gtt s = 0x07000000 \/ g_framebuffer_gtt s = 0x0F000000) /\
  g_ring_gtt s = g_framebuffer_gtt s + I915_FB_MAX_SIZE /\ 0 <= g_pipe s <= 1.

(** The probed pixel is a pixel of the framebuffer. *)
Lemma probe_in_framebuffer s : layout_ok s ->
  0 <= probe_index s /\ 4 * probe_index s + 4 <= g_framebuffer_bytes s.
Proof.
  intros (Hm & _). apply layout_inv in Hm as (Hw & Hh & Hp & Hb & Hmax). unfold I915_FB_MAX_SIZE in Hmax.
  unfold probe_index, I915_CURSOR_HEIGHT, I915_CURSOR_WIDTH.
  rewrite (sub32_small (g_height s)), (sub32_small (g_width s)) by lia.
  pose proof (Z.div_mod (4 * g_width s + 63) 64 ltac:(lia)) as D1.
  pose proof (Z.mod_pos_bound (4 * g_width s + 63) 64 eq_refl) as B1.
  set (row := (4 * g_width s + 63) / 64) in *.
  pose proof (Z.div_mod (g_pitch s * g_height s + 4095) 4096 ltac:(lia)) as D2.
  pose proof (Z.mod_pos_bound (g_pitch s * g_height s + 4095) 4096 eq_refl) as B2.
  pose proof (Z.div_mod (g_height s - 16) 2 ltac:(lia)). pose proof (Z.mod_pos_bound (g_height s - 16) 2 eq_refl).
  pose proof (Z.div_mod (g_width s - 12) 2 ltac:(lia)). pose proof (Z.mod_pos_bound (g_width s - 12) 2 eq_refl).
  replace (g_pitch s / 4) with (16 * row).
  2:{ rewrite Hp. replace (64 * row) with (16 * row * 4) by lia. now rewrite Z.div_mul by lia. }
  rewrite (add32_small ((g_height s - 16) / 2)) by lia.
  set (y := (g_height s - 16) / 2 + 4) in *. set (x := (g_width s - 12) / 2) in *.
  assert (0 <= y * (16 * row) /\ y * (16 * row) <= (g_height s - 1) * (16 * row)) by (split; nia).
  assert ((g_height s - 1) * (16 * row) <= 2047 * 2048) by (apply Z.mul_le_mono_nonneg; lia).
  rewrite mul32_small by lia. rewrite (add32_small (y * (16 * row)) x) by lia. rewrite add32_small by lia.
  replace (g_pitch s * g_height s) with (4 * ((g_height s - 1) * (16 * row)) + 64 * row) in * by (rewrite Hp; ring).
  lia.
Qed.

(** ** The policy *)
Definition completion_address : Z := I915_HWS_OFFSET + 4 * COMPLETION_WORD.

(** The caller is the task that owns the display, through the ring-1 gate. *)
Definition granted (s : intel915_shared) (t : trace) : Prop :=
  exists cs task, (ReadReg CS, cs) ∈ t /\ (ReadReg TR, task) ∈ t /\
    u16 cs .& 3 = 1 /\ g_owner_tss_selector s <> 0 /\ u16 task = g_owner_tss_selector s.

Definition painted (a : Z) (t : trace) : Prop :=
  exists v, (Load W32 a, v) ∈ t /\ v .& 0xFFFFFF = I915_RECTANGLE.

(** The GPU was seen to finish, and its pixels were seen in memory. *)
Definition gpu_seen (s : intel915_shared) (t : trace) : Prop :=
  (Load W32 completion_address, COMPLETION_TAG) ∈ t /\
  painted I915_FB_OFFSET t /\ painted (I915_FB_OFFSET + 4 * probe_index s) t.

(** The driver's data segment. *)
Definition in_segment (a : Z) : Prop := 0 <= a /\ a + 4 <= 0x1000000.

Definition engine_registers : list Z :=
  [PGTBL_CTL; RING_TAIL; RING_HEAD; RING_START; RING_CTL; HWS_PGA; MI_MODE].
Definition is_display (a : Z) : Prop := I915_MMIO_OFFSET + 0x70000 <= a < I915_MMIO_OFFSET + 0x72000.

(** Memory the driver may change while the text display is on. *)
Definition engine_store (s : intel915_shared) (a : Z) : Prop :=
  (exists r, r ∈ engine_registers /\ a = I915_MMIO_OFFSET + r) \/
  I915_RING_OFFSET <= a < I915_RING_OFFSET + 4096 \/ a = completion_address \/
  (exists i, 0 <= i < g_framebuffer_bytes s / 4096 /\ a = gtt_entry (g_framebuffer_gtt s / 4096 + i)) \/
  a = gtt_entry (g_ring_gtt s / 4096).

Definition engine_access (s : intel915_shared) (e : bus) : Prop :=
  match e with
  | Load W32 a => in_segment a
  | Store W32 a _ => engine_store s a
  | Barrier => True
  | _ => False
  end.

(** What it may change to take the display over. *)
Definition display_access (e : bus) : Prop :=
  match e with
  | Store W32 a _ => is_display a \/ I915_CURSOR_OFFSET <= a < I915_CURSOR_OFFSET + I915_CURSOR_BYTES
  | _ => False
  end.

Definition graphics_policy (s : intel915_shared) (t : trace) (e : bus) : Prop :=
  e = ReadReg CS \/ e = ReadReg TR \/
  granted s t /\ (engine_access s e \/ gpu_seen s t /\ display_access e).

(** A display register, at ring 1's address or at the kernel's. *)
Definition on_display (a : Z) : Prop := is_display a \/ is_display (a - I915_BASE).

Definition display_touched (t : trace) : Prop :=
  exists a v r, (Store W32 a v, r) ∈ t /\ on_display a.

Lemma engine_register_range r : r ∈ engine_registers -> 0 <= r < 0x3000.
Proof.
  intros Hin. assert (Forall (fun r => 0 <= r < 0x3000) engine_registers) as H.
  { repeat (constructor; [split; [discriminate|reflexivity]|]). constructor. }
  rewrite Forall_forall in H. now apply H.
Qed.

(** Entries of the graphics table. *)
Lemma page_index s : layout_ok s ->
  0 <= g_framebuffer_gtt s / 4096 <= 0xF000 /\ 0 <= g_ring_gtt s / 4096 <= 0xF800 /\
  g_framebuffer_bytes s / 4096 <= 0x800.
Proof.
  intros (Hm & Hg & Hr & _). apply layout_inv in Hm as (_ & _ & _ & _ & Hmax). unfold I915_FB_MAX_SIZE in *.
  pose proof (Z.div_le_mono (g_framebuffer_bytes s) 0x800000 4096 eq_refl Hmax) as Hle. rewrite Hr.
  destruct Hg as [-> | ->]; (split; [now vm_compute|split; [now vm_compute|exact Hle]]).
Qed.

(** An engine access is none of the display. *)
Lemma engine_not_display s a : layout_ok s -> engine_store s a -> ~ on_display a.
Proof.
  intros Hs H. apply page_index in Hs. unfold on_display, is_display, engine_store, gtt_entry, completion_address, I915_FB_MAX_SIZE, I915_BASE in *.
  destruct H as [(r & Hin & ->)|[H|[->|[(i & Hi & ->)| ->]]]].
  - pose proof (engine_register_range r Hin). lia.
  - unfold I915_RING_OFFSET, I915_MMIO_OFFSET in *. lia.
  - unfold I915_HWS_OFFSET, COMPLETION_WORD, I915_MMIO_OFFSET. lia.
  - unfold I915_GTT_OFFSET, I915_MMIO_OFFSET. lia.
  - unfold I915_GTT_OFFSET, I915_MMIO_OFFSET. lia.
Qed.

(** ** The fields that polling records do not matter *)
Definition core (g : intel915_shared) : intel915_shared :=
  g <| g_ring_head := 0 |> <| g_ring_tail := 0 |> <| g_completion := 0 |> <| g_command_bytes := 0 |>.

Definition at_core (c : intel915_shared) (T : trace -> Prop) (g : intel915_shared) (t : trace) : Prop :=
  core g = c /\ T t.

(** The shared record less everything the ring-1 driver may change. *)
Definition frozen (g : intel915_shared) : intel915_shared :=
  core g <| g_status := 0 |> <| g_stage := 0 |> <| g_request_count := 0 |> <| g_observed_cs := 0 |>
    <| g_busy := 0 |> <| g_cursor_x := 0 |> <| g_cursor_y := 0 |> <| g_cursor_enabled := 0 |>
    <| g_cursor_updates := 0 |>.

Lemma elem_of_grown (x : bus * Z) y t : x ∈ t -> x ∈ y :: t.
Proof. apply list_elem_of_further. Qed.

Section DRIVER.
Context (s : intel915_shared) (Hs : layout_ok s).
Abbreviation ok := (graphics_policy s).

(** A trace fact that allows the accesses [B] and survives them. *)
Definition carries (T : trace -> Prop) (B : bus -> Prop) : Prop :=
  forall t e v, T t -> B e -> ok t e /\ T ((e, v) :: t).

Lemma keeps_carried {A} c T B (p : prog bus A) :
  carries T B -> bus_ok (fun _ => B) p -> keeps ok (at_core c T) (lift p).
Proof.
  intros HT Hp. apply keeps_lift. intros g t [Hg Ht]. specialize (Hp t). revert t Ht Hp.
  induction p as [a|e k IH|m|]; cbn; intros t Ht Hp; auto.
  - now split.
  - destruct Hp as [He Hp]. split; [now apply (HT t e 0)|]. intros v t' [Hv ->].
    apply IH; [now apply HT|]. now apply Hp.
Qed.

Lemma granted_grows x t : granted s t -> granted s (x :: t).
Proof. intros (cs & task & H1 & H2 & H). exists cs, task. repeat split; auto using elem_of_grown; apply H. Qed.

Lemma painted_grows a x t : painted a t -> painted a (x :: t).
Proof. intros (v & H & Hv). exists v. auto using elem_of_grown. Qed.

Lemma gpu_seen_grows x t : gpu_seen s t -> gpu_seen s (x :: t).
Proof. intros (H1 & H2 & H3). split; [now apply elem_of_grown|]. split; now apply painted_grows. Qed.

(** Before the GPU is done: the display is as the kernel left it. *)
Definition before (t : trace) : Prop := granted s t /\ ~ display_touched t.
Definition after (t : trace) : Prop := granted s t /\ gpu_seen s t.

Lemma before_carries : carries before (engine_access s).
Proof.
  intros t e v [Hg Hd] He. split; [right; right; now split; [|left]|]. split; [now apply granted_grows|].
  intros (a & w & r & Hin & Ha). apply elem_of_cons in Hin as [E|Hin].
  - injection E as <- <-. now apply (engine_not_display s a Hs He).
  - apply Hd. exists a, w, r. now split.
Qed.

Lemma after_carries : carries after (fun e => engine_access s e \/ display_access e).
Proof.
  intros t e v [Hg Hd] He. split.
  - right. right. split; [assumption|]. destruct He as [He|He]; [now left|right; now split].
  - split; [now apply granted_grows|now apply gpu_seen_grows].
Qed.

Lemma segment_mmio r : 0 <= r < 0x80000 - 4 -> in_segment (I915_MMIO_OFFSET + r).
Proof. unfold in_segment, I915_MMIO_OFFSET. lia. Qed.

Lemma bus_engine_register r v (B : bus -> Prop) :
  r ∈ engine_registers -> (forall e, engine_access s e -> B e) -> bus_ok (fun _ => B) (write_register r v).
Proof.
  intros Hr HB. pose proof (engine_register_range r Hr). unfold write_register.
  apply bus_bind; [apply bus_write|intros _; apply bus_bind; [apply bus_access|intros; apply bus_ret]];
    intros t; apply HB; cbn.
  - left. now exists r.
  - apply segment_mmio. lia.
Qed.

Lemma bus_display_register r v :
  0x70000 <= r < 0x72000 -> bus_ok (fun _ e => engine_access s e \/ display_access e) (write_register r v).
Proof.
  intros Hr. unfold write_register.
  apply bus_bind; [apply bus_write|intros _; apply bus_bind; [apply bus_access|intros; apply bus_ret]]; intros t.
  - right. left. unfold is_display. lia.
  - left. cbn. apply segment_mmio. lia.
Qed.

Lemma bus_read_register r : 0 <= r < 0x80000 - 4 -> bus_ok (fun _ => engine_access s) (read_register r).
Proof. intros Hr. apply bus_access. intros t. cbn. now apply segment_mmio. Qed.

Lemma bus_map_gtt : bus_ok (fun _ => engine_access s) (map_gtt s).
Proof.
  destruct Hs as (Hm & Hg & Hr & _). apply layout_inv in Hm as (_ & _ & _ & _ & Hmax).
  unfold I915_FB_MAX_SIZE in *. unfold map_gtt.
  pose proof (Z.div_le_mono (g_framebuffer_bytes s) 0x800000 4096 eq_refl Hmax) as Hle.
  change (0x800000 / 4096) with 2048 in Hle.
  apply bus_bind; [|intros _; apply bus_bind; [|intros _; apply bus_bind; [|intros _; apply bus_ret]]].
  - apply bus_for_range. intros i Hi. apply bus_bind; [apply bus_access|intros page; apply bus_write]; intros t; cbn.
    + unfold in_segment, I915_PAGE_LIST_OFFSET. lia.
    + do 3 right. left. exists i. split; [lia|reflexivity].
  - apply bus_write. intros t. cbn. do 4 right. reflexivity.
  - apply bus_access. intros t. cbn. unfold in_segment, gtt_entry, I915_GTT_OFFSET.
    pose proof (Z.div_mod (g_ring_gtt s) 4096). pose proof (Z.mod_pos_bound (g_ring_gtt s) 4096). lia.
Qed.

Ltac engine_register := apply bus_engine_register; [unfold engine_registers; set_solver|auto].

Lemma bus_start_ring : bus_ok (fun _ => engine_access s) (start_ring s).
Proof.
  unfold start_ring. apply bus_bind; [engine_register|intros _].
  apply bus_bind; [apply bus_write; intros t; cbn; do 2 right; now left|intros _].
  repeat (apply bus_bind; [engine_register|intros _]). engine_register.
Qed.

Lemma bus_program_planes :
  bus_ok (fun _ e => engine_access s e \/ display_access e) (program_planes s).
Proof.
  destruct Hs as (_ & _ & _ & Hp).
  assert (g_pipe s *% 0x1000 = 0 \/ g_pipe s *% 0x1000 = 0x1000) as H.
  { assert (g_pipe s = 0 \/ g_pipe s = 1) as [-> | ->] by lia; [now left|now right]. }
  unfold program_planes. cbv zeta.
  destruct H as [-> | ->]; repeat (apply bus_bind; [apply bus_display_register; now vm_compute|intros _]);
    apply bus_display_register; now vm_compute.
Qed.

(** *** The commands *)
Lemma scene_length capacity width height pitch fb words :
  scene_words capacity width height pitch fb = Some words -> (length words <= 11)%nat.
Proof.
  unfold scene_words. destruct (intel915_mode_layout width height) as [[p b]|]; [|discriminate].
  case_if; [discriminate|]. cbv zeta. set (b0 := fill_rectangle _ _ _ _ _ _).
  assert (length (b_words b0) <= 6)%nat as Hb.
  { unfold b0, fill_rectangle. case_if; [cbn; lia|]. cbv zeta.
    lazymatch goal with |- context [if _ <? 6 then _ else _] => destruct (_ <? 6) end; cbn; lia. }
  case_if; [discriminate|]. intros [= <-]. case_if; rewrite !length_app; cbn [length]; lia.
Qed.

Lemma bus_build_scene width height pitch fb :
  bus_ok (fun _ => engine_access s) (intel915_build_scene I915_RING_OFFSET I915_RING_DWORDS width height pitch fb).
Proof.
  unfold intel915_build_scene. destruct (scene_words _ _ _ _ _) as [words|] eqn:E; [|apply bus_ret].
  apply scene_length in E. apply bus_bind; [|intros; apply bus_ret]. apply bus_for_range. intros i Hi.
  apply bus_write. intros t. cbn. right. left. unfold I915_RING_OFFSET. lia.
Qed.

(** *** Polling *)
Lemma triple_polls {G} (J : G -> trace -> Prop) (F : trace -> Prop) (body : code G bool) :
  triple ok J body (fun b g t => J g t /\ (b = true -> F t)) ->
  triple ok J (polls body) (fun b g t => J g t /\ (b = true -> F t)).
Proof.
  intros Hb. unfold polls.
  eapply triple_bind with (R := fun r g t => J g t /\ (r = Some tt -> F t)).
  - apply (triple_loop ok (fun _ => J)).
    + intros j _. eapply triple_bind; [exact Hb|]. intros [|]; apply triple_ret; cbn.
      * intros g t [HJ HF]. split; [assumption|]. auto.
      * intros g t [HJ _]. exact HJ.
    + intros g t HJ. split; [exact HJ|]. discriminate.
  - intros [[]|]; apply triple_ret; intros g t [HJ HF]; split; auto. discriminate.
Qed.

Section CORE.
Context (c : intel915_shared) (T : trace -> Prop) (HT : carries T (engine_access s)).
Abbreviation J := (at_core c T).

Lemma keeps_record (f : intel915_shared -> intel915_shared) :
  (forall g, core (f g) = core g) -> keeps ok J (modify f).
Proof. intros Hf. apply keeps_modify. intros g t [Hg Ht]. split; [|assumption]. now rewrite Hf. Qed.

Lemma keeps_register r : 0 <= r < 0x80000 - 4 -> keeps ok J (lift (read_register r)).
Proof. intros. eapply keeps_carried; [exact HT|now apply bus_read_register]. Qed.

Lemma keeps_wait_for_ring : keeps ok J wait_for_ring.
Proof.
  unfold wait_for_ring. apply keeps_bind; [|intros; apply keeps_ret].
  apply (triple_post ok _ _ _ (fun b g t => J g t /\ (b = true -> True))); [|tauto].
  apply triple_polls.
  apply (triple_post ok _ _ _ (fun _ => J)); [|tauto]. to_keeps.
  apply keeps_bind; [apply keeps_register; now vm_compute|intros v].
  apply keeps_bind; [now apply keeps_record|intros _].
  apply keeps_bind; [apply keeps_register; now vm_compute|intros w].
  apply keeps_bind; [now apply keeps_record|intros _]. apply keeps_gets.
Qed.

Lemma keeps_ring_idle : keeps ok J (let* r := wait_for_ring in cret (r =? 0)).
Proof. apply keeps_bind; [apply keeps_wait_for_ring|intros; apply keeps_ret]. Qed.

Lemma keeps_ring_in_use : keeps ok J ring_in_use.
Proof.
  unfold ring_in_use, cand. apply keeps_bind.
  - apply keeps_bind; [apply keeps_register; now vm_compute|intros; apply keeps_ret].
  - intros [|]; [apply keeps_ring_idle|apply keeps_ret].
Qed.

Lemma keeps_parser_busy : keeps ok J parser_busy.
Proof.
  unfold parser_busy. apply keeps_bind; [eapply keeps_carried; [exact HT|engine_register]|intros _].
  apply keeps_bind.
  - apply (triple_post ok _ _ _ (fun b g t => J g t /\ (b = true -> True))); [|tauto]. apply triple_polls.
    apply (triple_post ok _ _ _ (fun _ => J)); [|tauto]. to_keeps.
    apply keeps_bind; [apply keeps_register; now vm_compute|intros; apply keeps_ret].
  - intros idle. unfold cand. apply keeps_bind; [apply keeps_ret|].
    intros [|]; [apply keeps_ring_idle|apply keeps_ret].
Qed.
End CORE.

(** A load of the driver's memory, whose value the trace remembers. *)
Lemma triple_load {B} (T : trace -> Prop) c a (k : Z -> code intel915_shared B) Q :
  carries T (engine_access s) -> in_segment a ->
  (forall v, triple ok (at_core c (fun t => T t /\ (Load W32 a, v) ∈ t)) (k v) Q) ->
  triple ok (at_core c T) (cbind (lift (load32 a)) k) Q.
Proof.
  intros HT Ha Hk g t [Hg Ht]. cbn. split; [now apply (HT t (Load W32 a) 0)|].
  intros v t' [Hv ->]. apply Hk. split; [exact Hg|]. split; [now apply HT|]. apply list_elem_of_here.
Qed.

Lemma carries_and T B (F : trace -> Prop) :
  carries T B -> (forall x t, F t -> F (x :: t)) -> carries (fun t => T t /\ F t) B.
Proof. intros HT HF t e v [Ht Hf] He. destruct (HT t e v Ht He). auto. Qed.

Definition completed (t : trace) : Prop := (Load W32 completion_address, COMPLETION_TAG) ∈ t.

Lemma completed_grows b x t : (b = true -> completed t) -> b = true -> completed (x :: t).
Proof. intros H Hb. now apply elem_of_grown, H. Qed.

Lemma triple_gpu_timeout c bytes :
  triple ok (at_core c before) (gpu_timeout bytes)
    (fun late g t => at_core c before g t /\ (late = false -> completed t)).
Proof.
  unfold gpu_timeout. pose proof before_carries as HB.
  eapply triple_bind; [eapply keeps_carried; [exact HB|apply bus_write; intros; exact I]|intros ?; cbn beta].
  eapply triple_bind; [eapply keeps_carried; [exact HB|engine_register]|intros ?; cbn beta].
  eapply triple_bind with (R := fun done => at_core c (fun t => before t /\ (done = true -> completed t))).
  - eapply triple_post; [apply (triple_polls (at_core c before) completed)|].
    2:{ intros done g t [[Hg Ht] HF]. split; [exact Hg|]. now split. }
    intros g t [Hg Ht]. cbn. split; [apply (HB t (Load W32 completion_address) 0 Ht); now vm_compute|].
    intros v t' [Hv ->]. split.
    + split; [exact Hg|]. apply HB; [exact Ht|]. now vm_compute.
    + intros E. apply Z.eqb_eq in E. rewrite E. apply list_elem_of_here.
  - intros done.
    assert (carries (fun t => before t /\ (done = true -> completed t)) (engine_access s)) as HT
      by (apply carries_and; [exact HB|intros x t; apply completed_grows]).
    eapply triple_bind; [apply keeps_register; [exact HT|now vm_compute]|intros head; cbn beta].
    eapply triple_bind; [now apply keeps_record|intros ?; cbn beta].
    eapply triple_bind; [apply keeps_register; [exact HT|now vm_compute]|intros tail; cbn beta].
    eapply triple_bind; [now apply keeps_record|intros ?; cbn beta].
    unfold cor. eapply triple_bind; [apply (triple_ret ok _ (negb done) (fun b g t =>
      at_core c (fun t => before t /\ (done = true -> completed t)) g t /\ b = negb done)); now split|].
    intros b. apply triple_pure. intros ->. destruct done; cbn [negb].
    + eapply triple_post; [apply keeps_ring_idle, HT|]. intros r g t (Hg & Ht & Hc). split; [now split|]. auto.
    + apply triple_ret. intros g t (Hg & Ht & _). split; [now split|]. discriminate.
Qed.

Lemma triple_wrong_pixels c index :
  0 <= index -> 4 * index + 4 <= 0x800000 ->
  triple ok (at_core c (fun t => before t /\ completed t)) (wrong_pixels index)
    (fun wrong g t => at_core c (fun t => before t /\ completed t) g t /\
       (wrong = false -> painted I915_FB_OFFSET t /\ painted (I915_FB_OFFSET + 4 * index) t)).
Proof.
  intros H0 H1. unfold wrong_pixels, cor.
  assert (carries (fun t => before t /\ completed t) (engine_access s)) as HT
    by (apply carries_and; [apply before_carries|intros; now apply elem_of_grown]).
  intros g t [Hg Ht]. cbn. split; [apply (HT t (Load W32 I915_FB_OFFSET) 0 Ht); now vm_compute|].
  intros v t1 [Hv ->]. assert (HT' := HT t (Load W32 I915_FB_OFFSET) v Ht). destruct HT' as [_ Ht1]; [now vm_compute|].
  destruct (Z.eqb_spec (v .& 0xFFFFFF) I915_RECTANGLE) as [E|E]; cbn.
  - assert (engine_access s (Load W32 (I915_FB_OFFSET + 4 * index))) as He
      by (cbn; unfold in_segment, I915_FB_OFFSET; lia).
    split; [exact (proj1 (HT _ _ 0 Ht1 He))|]. intros w t2 [Hw ->].
    split; [split; [exact Hg|exact (proj2 (HT _ _ w Ht1 He))]|]. intros Ew. bool_to_prop. split.
    + exists v. split; [apply elem_of_grown, list_elem_of_here|exact E].
    + exists w. split; [apply list_elem_of_here|exact Ew].
  - split; [now split|]. discriminate.
Qed.

(** *** Taking the display *)
Abbreviation takeover := (fun e => engine_access s e \/ display_access e).

Lemma bus_build_cursor :
  bus_ok (fun _ => takeover) (intel915_build_cursor I915_CURSOR_OFFSET (I915_CURSOR_BYTES / 4)).
Proof.
  unfold intel915_build_cursor. apply bus_if; intros _; [apply bus_ret|].
  apply bus_bind; [|intros; apply bus_ret]. apply bus_for_range. intros y Hy. apply bus_for_range. intros x Hx.
  apply bus_write. intros t. right. right. unfold I915_CURSOR_OFFSET, I915_CURSOR_SIDE, I915_CURSOR_BYTES. lia.
Qed.

Lemma bus_disable_cursors : bus_ok (fun _ => takeover) disable_cursors.
Proof.
  unfold disable_cursors. apply bus_for_range. intros pipe Hp.
  apply bus_bind; [|intros _]; apply bus_display_register;
    unfold CURSOR_CONTROL, CURSOR_BASE, CURSOR_STRIDE; lia.
Qed.

(** The driver's own fields apart, the record is the one it was given. *)
Definition held (g : intel915_shared) : Prop := frozen g = frozen s.

(** The cursor is a point of the screen, at least while it is shown. *)
Definition on_screen (g : intel915_shared) : Prop :=
  0 <= g_cursor_x g < g_width g /\ 0 <= g_cursor_y g < g_height g.
Definition shown (g : intel915_shared) : Prop := g_cursor_enabled g <> 0 -> on_screen g.

Definition display_taken (stage : Z) (E : intel915_shared -> Prop) (g : intel915_shared) (t : trace) : Prop :=
  held g /\ g_stage g = stage /\ E g /\ after t.

Lemma keeps_display {A} stage E (p : prog bus A) :
  bus_ok (fun _ => takeover) p -> keeps ok (display_taken stage E) (lift p).
Proof.
  intros Hp. apply keeps_lift. intros g t (Hh & Hst & HE & Ht). specialize (Hp t). revert t Ht Hp.
  induction p as [a|e k IH|m|]; cbn; intros t Ht Hp; auto.
  - exact (conj Hh (conj Hst (conj HE Ht))).
  - destruct Hp as [He Hp]. split; [now apply (after_carries t e 0)|]. intros v t' [Hv ->].
    apply IH; [now apply after_carries|]. now apply Hp.
Qed.

Lemma held_pipe g : held g -> g_pipe g = 0 \/ g_pipe g = 1.
Proof.
  intros Hh. assert (g_pipe g = g_pipe s) as -> by exact (f_equal g_pipe Hh). destruct Hs as (_ & _ & _ & Hp). lia.
Qed.

(** The cursor starts in the middle of the screen. *)
Lemma centre_on_screen g : held g ->
  on_screen (g <| g_cursor_x := (g_width g -% I915_CURSOR_WIDTH) / 2 |>
               <| g_cursor_y := (g_height g -% I915_CURSOR_HEIGHT) / 2 |>).
Proof.
  intros Hh. destruct Hs as (Hm & _). apply layout_inv in Hm as (Hw & Hht & _).
  assert (g_width g = g_width s) as Ew by exact (f_equal g_width Hh).
  assert (g_height g = g_height s) as Eh by exact (f_equal g_height Hh).
  unfold on_screen, I915_CURSOR_WIDTH, I915_CURSOR_HEIGHT. cbn. rewrite Ew, Eh, !sub32_small by lia.
  pose proof (Z.div_mod (g_width s - 12) 2 ltac:(lia)). pose proof (Z.mod_pos_bound (g_width s - 12) 2 eq_refl).
  pose proof (Z.div_mod (g_height s - 16) 2 ltac:(lia)). pose proof (Z.mod_pos_bound (g_height s - 16) 2 eq_refl).
  lia.
Qed.

Lemma triple_enable_cursor stage :
  triple ok (display_taken stage shown) enable_cursor
    (fun r g t => display_taken stage shown g t /\ (r = I915_DRAWN -> g_cursor_enabled g = 1)).
Proof.
  unfold enable_cursor. apply triple_gets_bind. intros g0.
  eapply triple_pre with (P' := fun g t => display_taken stage shown g t /\ held g0).
  2:{ intros g t [Hd <-]. split; [exact Hd|apply Hd]. }
  apply triple_pure. intros Hg0. apply held_pipe in Hg0.
  apply triple_if; intros _; [apply triple_ret; split; [assumption|discriminate]|].
  eapply triple_bind; [apply keeps_display, bus_build_cursor|]. intros built. cbn beta.
  apply triple_if; intros _; [apply triple_ret; split; [assumption|discriminate]|].
  eapply triple_bind; [apply keeps_display, bus_disable_cursors|]. intros ?. cbn beta zeta.
  eapply triple_bind; [apply (triple_modify ok _ _ (fun _ => display_taken stage on_screen))|].
  { intros g t (Hh & Hst & _ & Ht). exact (conj Hh (conj Hst (conj (centre_on_screen g Hh) Ht))). }
  intros ?. cbn beta.
  apply triple_gets_bind. intros g1. eapply triple_pre with (P' := display_taken stage on_screen); [|tauto].
  eapply triple_bind; [apply keeps_display, bus_write; intros; left; exact I|]. intros ?. cbn beta.
  assert (forall r, r = CURSOR_BASE \/ r = CURSOR_CONTROL \/ r = CURSOR_POSITION ->
            0x70000 <= r +% g_pipe g0 *% CURSOR_STRIDE < 0x72000) as Hr.
  { intros r Hr. destruct Hg0 as [-> | ->], Hr as [-> |[-> | ->]]; now vm_compute. }
  do 4 (eapply triple_bind; [apply keeps_display, bus_display_register, Hr; tauto|]; intros ?; cbn beta).
  assert (forall r, r = CURSOR_BASE \/ r = CURSOR_CONTROL ->
            bus_ok (fun _ => takeover) (read_register (r +% g_pipe g0 *% CURSOR_STRIDE))) as Hrd.
  { intros r Hrc. apply bus_access. intros t. left. apply segment_mmio.
    pose proof (Hr r ltac:(tauto)). lia. }
  eapply triple_bind with (R := fun _ => display_taken stage on_screen).
  - to_keeps. unfold cor. apply keeps_bind.
    + apply keeps_bind; [apply keeps_display, Hrd; tauto|intros; apply keeps_ret].
    + intros [|]; [apply keeps_ret|]. apply keeps_bind; [apply keeps_display, Hrd; tauto|intros; apply keeps_ret].
  - assert (forall g, on_screen g -> shown g) as Hsh by (intros g Hg _; exact Hg).
    intros bad. apply triple_if; intros _.
    + apply triple_ret. intros g t (Hh & Hst & HE & Ht). split; [|discriminate].
      exact (conj Hh (conj Hst (conj (Hsh g HE) Ht))).
    + eapply triple_bind; [apply (triple_modify ok _ _ (fun _ g t => display_taken stage shown g t /\ g_cursor_enabled g = 1))|].
      * intros g t (Hh & Hst & HE & Ht). split; [|reflexivity]. exact (conj Hh (conj Hst (conj (fun _ => HE) Ht))).
      * intros ?. apply triple_ret. intros g t [Hd He]. split; [exact Hd|auto].
Qed.

(** *** Drawing *)

(** The panic path restores the display whenever it was touched. *)
Definition covered (g : intel915_shared) (t : trace) : Prop := display_touched t -> 5 <= g_stage g.

Definition drawn (r : Z) (g : intel915_shared) (t : trace) : Prop :=
  held g /\ covered g t /\ shown g /\ g_status g = r /\
  (r = I915_DRAWN -> gpu_seen s t /\ g_stage g = 6 /\ g_cursor_enabled g = 1).

Lemma triple_driver_error (P : intel915_shared -> trace -> Prop) error :
  (forall g t, P g t -> held g /\ covered g t /\ shown g) -> error <> I915_DRAWN ->
  triple ok P (driver_error error) drawn.
Proof.
  intros HP He. unfold driver_error. eapply triple_bind; [apply (triple_modify ok _ _ (fun _ => drawn error))|].
  - intros g t Hg. destruct (HP g t Hg) as (Hh & Hc & Hsh). split; [exact Hh|]. split; [exact Hc|].
    split; [exact Hsh|]. split; [reflexivity|]. intros ->. contradiction.
  - intros ?. apply triple_ret. auto.
Qed.

Lemma triple_stage c T stage :
  triple ok (at_core c T) (set_stage stage) (fun _ => at_core (c <| g_stage := stage |>) T).
Proof. apply triple_modify. intros g t [<- Ht]. now split. Qed.

Section DRAW.
Context (c : intel915_shared) (Hc : held c) (Hsh : shown c).

Lemma at_core_held stage T g t : at_core (c <| g_stage := stage |>) T g t -> held g /\ g_stage g = stage /\ shown g.
Proof.
  intros [E _]. split; [|split; [exact (f_equal g_stage E)|]].
  - unfold held. rewrite <- Hc. exact (f_equal frozen E).
  - change (shown (core g)). rewrite E. exact Hsh.
Qed.

Lemma fails_before stage T error :
  (forall t, T t -> ~ display_touched t) -> error <> I915_DRAWN ->
  triple ok (at_core (c <| g_stage := stage |>) T) (driver_error error) drawn.
Proof.
  intros HT He. apply triple_driver_error; [|exact He]. intros g t Hg. destruct (at_core_held _ _ _ _ Hg) as (Hh & _ & Hg').
  split; [exact Hh|]. split; [|exact Hg']. intros Hd. now destruct (HT t (proj2 Hg)).
Qed.

Lemma triple_take_display :
  triple ok (at_core (c <| g_stage := 4 |>) after)
    (set_stage 5 ;*
     io (program_planes s) ;*
     let* r := enable_cursor in
     if negb (r =? I915_DRAWN) then driver_error I915_CURSOR_FAILED else
     set_stage 6 ;*
     modify (fun s => s <| g_status := I915_DRAWN |>) ;*
     cret I915_DRAWN) drawn.
Proof.
  eapply triple_bind with (R := fun _ => display_taken 5 shown).
  { apply triple_modify. intros g t Hg. destruct (at_core_held _ _ _ _ Hg) as (Hh & _ & Hg').
    exact (conj Hh (conj eq_refl (conj Hg' (proj2 Hg)))). }
  intros ?. eapply triple_bind; [apply keeps_display, bus_program_planes|]. intros ?. cbn beta.
  eapply triple_bind; [apply triple_enable_cursor|]. intros r. cbn beta. apply triple_if; intros E.
  - apply triple_driver_error; [|discriminate]. intros g t [(Hh & Hst & HE & _) _]. split; [exact Hh|].
    split; [|exact HE]. intros _. rewrite Hst. lia.
  - bool_to_prop. subst r.
    eapply triple_bind; [apply (triple_modify ok _ _ (fun _ g t => display_taken 6 shown g t /\ g_cursor_enabled g = 1))|].
    { intros g t [(Hh & _ & HE & Ha) He]. exact (conj (conj Hh (conj eq_refl (conj HE Ha))) (He eq_refl)). }
    intros ?. cbn beta.
    eapply triple_bind; [apply (triple_modify ok _ _ (fun _ => drawn I915_DRAWN))|].
    { intros g t [(Hh & Hst & HE & [_ Ha]) He]. split; [exact Hh|].
      split; [intros _; change (5 <= g_stage g); lia|]. auto. }
    intros ?. apply triple_ret. auto.
Qed.
End DRAW.

Lemma triple_draw_desktop :
  triple ok (fun g t => held g /\ granted s t /\ covered g t /\ shown g) draw_desktop drawn.
Proof.
  unfold draw_desktop. apply triple_gets_bind. intros g0. unfold id. apply triple_if; intros E.
  { apply triple_driver_error; [tauto|discriminate]. }
  bool_to_prop. set (c := core g0).
  eapply triple_pre with (P' := fun g t => at_core c before g t /\ (held g0 /\ shown g0)).
  2:{ intros g t [(Hh & Hg & Hcov & Hsh) <-]. split; [|exact (conj Hh Hsh)]. split; [reflexivity|]. split; [exact Hg|].
      intros Hd. apply Hcov in Hd. lia. }
  apply triple_pure. intros [Hg0 Hsh]. assert (held c) as Hc by exact Hg0. assert (shown c) as Hshc by exact Hsh. pose proof before_carries as HB.
  assert (forall t, before t -> ~ display_touched t) as Hnd by (now intros t []).
  eapply triple_bind; [apply triple_stage|]. intros ?. cbn beta.
  eapply triple_bind; [apply keeps_ring_in_use, HB|]. intros busy. cbn beta.
  apply triple_if; intros _; [now apply fails_before|].
  eapply triple_bind; [eapply keeps_carried; [exact HB|apply bus_build_scene]|]. intros bytes. cbn beta.
  apply triple_if; intros _; [now apply fails_before|].
  eapply triple_bind; [now apply keeps_record|]. intros ?. cbn beta.
  eapply triple_bind; [apply keeps_parser_busy, HB|]. intros busy'. cbn beta.
  apply triple_if; intros _; [now apply fails_before|].
  eapply triple_bind; [eapply keeps_carried; [exact HB|engine_register]|]. intros ?. cbn beta.
  change (map_gtt g0) with (map_gtt (frozen g0)). change (start_ring g0) with (start_ring (frozen g0)).
  change (probe_index g0) with (probe_index (frozen g0)).
  change (program_planes g0) with (program_planes (frozen g0)). rewrite Hg0.
  change (map_gtt (frozen s)) with (map_gtt s). change (start_ring (frozen s)) with (start_ring s).
  change (probe_index (frozen s)) with (probe_index s).
  change (program_planes (frozen s)) with (program_planes s).
  eapply triple_bind; [eapply keeps_carried; [exact HB|apply bus_map_gtt]|]. intros ?. cbn beta.
  eapply triple_bind; [eapply keeps_carried; [exact HB|apply bus_start_ring]|]. intros ?. cbn beta.
  eapply triple_bind; [apply triple_stage|]. intros ?. cbn beta.
  eapply triple_bind; [apply triple_gpu_timeout|]. intros late. cbn beta.
  apply triple_if; intros ->; [eapply triple_pre; [now apply (fails_before c Hc Hshc 3 before)|tauto]|].
  eapply triple_bind with (R := fun _ => at_core (c <| g_stage := 4 |>) (fun t => before t /\ completed t)).
  { apply triple_modify. intros g t [[Hg Ht] Hd]. split; [exact (f_equal (fun x => x <| g_stage := 4 |>) Hg)|auto]. }
  intros ?. destruct (probe_in_framebuffer s Hs) as [Hp0 Hp1].
  assert (g_framebuffer_bytes s <= 0x800000) as Hmax
    by (destruct Hs as (Hm & _); now apply layout_inv in Hm).
  eapply triple_bind; [apply triple_wrong_pixels; [exact Hp0|lia]|]. intros wrong. cbn beta.
  apply triple_if; intros ->; [eapply triple_pre;
    [now apply (fails_before c Hc Hshc 4 before)|intros g t [[Hg [Ht _]] _]; now split]|].
  eapply triple_pre; [apply (triple_take_display c Hc Hshc)|].
  intros g t [[Hg [Ht Hcm]] Hp]. split; [exact Hg|]. split; [apply Ht|]. now split; [|apply Hp].
Qed.
End DRIVER.

(** Nothing was done. *)
Ltac refused :=
  split; [reflexivity|]; split; [now split|]; split; [now intros|]; split; [tauto|tauto].

Lemma granted_mono s d t : granted s t -> granted s (d ++ t).
Proof. intros H. induction d as [|x d IH]; [exact H|]. now apply (granted_grows s). Qed.

Lemma serve_request_safe s (Hs : layout_ok s) operation :
  triple (graphics_policy s)
    (fun g t => held s g /\ granted s t /\ (covered g t /\ shown g) /\
                g_status g = g_status s /\ g_stage g = g_stage s)
    (serve_request operation)
    (fun r g t => held s g /\ (covered g t /\ shown g) /\
       (g_status g = I915_DRAWN ->
        g_status s = I915_DRAWN /\ g_stage g = g_stage s \/
        gpu_seen s t /\ g_stage g = 6 /\ g_cursor_enabled g = 1)).
Proof.
  unfold serve_request. apply triple_gets_bind. intros status. apply triple_if; intros _; apply triple_if; intros E.
  - apply triple_ret. intros g t ((Hh & _ & Hc & Hst & Hsg) & Ev). bool_to_prop. split; [exact Hh|]. split; [exact Hc|].
    left. split; congruence.
  - eapply triple_conseq; [apply (triple_draw_desktop s Hs)|tauto|].
    intros r g t (Hh & Hc & Hsh & Hst & Hd). split; [exact Hh|]. split; [now split|]. rewrite Hst. auto.
  - apply triple_ret. intros g t ((Hh & _ & Hc & Hst & Hsg) & Ev). bool_to_prop. split; [exact Hh|]. split; [exact Hc|].
    intros ?. left. split; congruence.
  - intros g t ((Hh & _ & Hc & Hst & Hsg) & Ev). split; [exact Hh|]. split; [exact Hc|]. intros ?. left. split; congruence.
Qed.

Lemma service_safe s operation x y :
  layout_ok s ->
  triple (graphics_policy s) (fun g t => g = s /\ covered g t /\ shown g) (intel915_driver_service operation x y)
    (fun r g t =>
       held s g /\ (covered g t /\ shown g) /\ (g_busy s = 0 -> g_busy g = 0) /\
       (granted s t \/ g = s /\ (r = I915_WRONG_RING \/ r = I915_ACCESS_DENIED)) /\
       (g_status g = I915_DRAWN ->
        g_status s = I915_DRAWN /\ g_stage g = g_stage s \/
        gpu_seen s t /\ g_stage g = 6 /\ g_cursor_enabled g = 1)).
Proof.
  intros Hs g0 t0 (-> & Hcov & Hsh). unfold intel915_driver_service.
  apply wp_read; [now left|]. intros cs t1 [_ ->]. apply wp_read; [right; now left|]. intros task t2 [_ ->].
  set (t2 := (ReadReg TR, task) :: (ReadReg CS, cs) :: t0).
  assert (covered s t2) as Hcov2.
  { intros (a & v & r & Hin & Ha). apply Hcov. exists a, v, r. split; [|exact Ha]. unfold t2 in Hin.
    apply elem_of_cons in Hin as [?|Hin]; [discriminate|]. apply elem_of_cons in Hin as [?|Hin]; [discriminate|].
    exact Hin. }
  cbv zeta. case_if.
  { refused. }
  apply wp_gets. case_if.
  { refused. }
  bool_to_prop.
  assert (granted s t2) as Hgr.
  { exists cs, task. unfold t2. repeat split; auto; [|apply list_elem_of_here].
    apply elem_of_grown, list_elem_of_here. }
  case_if; [refused|].
  apply wp_gets, wp_modify. destruct (g_busy s =? 0) eqn:Eb; cbn [negb]; bool_to_prop.
  2:{ refused. }
  apply wp_modify. set (s1 := assign g_request_count _ _).
  pose proof (serve_request_safe s Hs operation s1 t2 (conj eq_refl (conj Hgr (conj (conj Hcov2 Hsh) (conj eq_refl eq_refl))))) as Hreq.
  apply wp_cbind. eapply wp_mono; [|apply wp_trace, Hreq].
  intros [[r g]|m| |] t' [HQ (d & -> & _)]; cbn in *; auto. destruct HQ as (Hh & Hc & Hd).
  split; [exact Hh|]. split; [exact Hc|]. split; [auto|]. split; [left; now apply granted_mono|exact Hd].
Qed.

(** C5: the ring-1 graphics service, whatever the caller asks and whatever the hardware
    answers. Until the caller is known to run in ring 1 as the task that owns the
    display, it reads two CPU registers and nothing else, and changes nothing. For the
    owner every access stays inside the driver's segment: GPU engine registers, the ring
    page, the completion word, and the graphics-table entries of the driver's own
    framebuffer and ring. Display registers and the cursor image are written only after
    the GPU reported completion and both probed pixels were read back in the right
    colour. On every return the lock is free again, the fields the kernel handed over
    are unchanged, the stage covers every display register written, so a panic restores
    it, a shown cursor is on the screen, and the desktop counts as drawn only after all
    of that. *)
Theorem graphics_service_safe s operation x y :
  layout_ok s ->
  triple (graphics_policy s) (fun g t => g = s /\ covered g t /\ shown g) (intel915_driver_service operation x y)
    (fun r g t =>
       held s g /\ (covered g t /\ shown g) /\ (g_busy s = 0 -> g_busy g = 0) /\
       (granted s t \/ g = s /\ (r = I915_WRONG_RING \/ r = I915_ACCESS_DENIED)) /\
       (g_status g = I915_DRAWN ->
        g_status s = I915_DRAWN /\ g_stage g = g_stage s \/
        gpu_seen s t /\ g_stage g = 6 /\ g_cursor_enabled g = 1)).
Proof. apply service_safe. Qed.

(** A display of 1024 by 768 pixels on pipe B, owned by task 0x48. *)
Definition ready_display : intel915_shared :=
  zero_shared <| g_owner_tss_selector := 0x48 |> <| g_status := I915_READY |> <| g_stage := 1 |>
    <| g_width := 1024 |> <| g_height := 768 |> <| g_pitch := 4096 |> <| g_framebuffer_bytes := 0x300000 |>
    <| g_framebuffer_gtt := 0x0F000000 |> <| g_ring_gtt := 0x0F800000 |> <| g_pipe := 1 |>
    <| g_cursor_physical := 0x100000 |>.

Lemma graphics_service_safe_witness :
  layout_ok ready_display /\
  wp (any_hw (graphics_policy ready_display)) (intel915_driver_service 0 0 0 ready_display)
    (post (fun r g t => held ready_display g /\ g_busy g = 0 /\
                        (g_status g = I915_DRAWN -> gpu_seen ready_display t))) [].
Proof.
  assert (layout_ok ready_display) as H.
  { split; [reflexivity|]. split; [now right|]. split; [reflexivity|]. cbn. lia. }
  split; [exact H|].
  eapply wp_mono; [|apply (graphics_service_safe ready_display 0 0 0 H)].
  - intros [[r g]|m| |] t; cbn; auto. intros (Hh & _ & Hb & _ & Hd). split; [exact Hh|].
    split; [now apply Hb|]. intros Hst. destruct (Hd Hst) as [[E _]|[E _]]; [discriminate|exact E].
  - split; [reflexivity|]. split; [|now intros []]. intros (a & v & r & Hin & _). now apply not_elem_of_nil in Hin.
Defined.

(** ** The commands *)

(** One solid rectangle and a completion packet. *)
Definition scene (width height pitch framebuffer_gtt : Z) : list Z :=
  [XY_COLOR_BLT; 3 * 2 ^ 24 + 0xF0 * 2 ^ 16 + pitch; 0; height * 2 ^ 16 + width; framebuffer_gtt;
   I915_RECTANGLE; MI_FLUSH; MI_STORE_INDEX; 4 * COMPLETION_WORD; COMPLETION_TAG].

Lemma layout_fits width height pitch bytes :
  intel915_mode_layout width height = Some (pitch, bytes) ->
  4 * width <= pitch <= 8192 /\ pitch * height <= bytes <= 0x800000.
Proof.
  intros Hm. apply layout_inv in Hm as (Hw & Hh & Hp & Hb & Hmax). unfold I915_FB_MAX_SIZE in Hmax.
  pose proof (Z.div_mod (4 * width + 63) 64 ltac:(lia)). pose proof (Z.mod_pos_bound (4 * width + 63) 64 eq_refl).
  pose proof (Z.div_mod (pitch * height + 4095) 4096 ltac:(lia)).
  pose proof (Z.mod_pos_bound (pitch * height + 4095) 4096 eq_refl). lia.
Qed.

Lemma corner_word x y : 0 <= x <= 2048 -> 0 <= y <= 2048 ->
  ((0 +% y) <<% 16) .| (0 +% x) = y * 2 ^ 16 + x.
Proof.
  intros Hx Hy. rewrite !add32_small by lia. rewrite shl32_small by lia. rewrite lor_add by ulia. lia.
Qed.

(** The rectangle is appended, or the buffer is marked when it is full. *)
Lemma fill_screen capacity width height pitch fb :
  8 <= capacity <= 1024 -> 1 <= width <= 2048 -> 1 <= height <= 2048 -> 0 <= pitch <= 8192 ->
  let buffer := Build_command_buffer [] (capacity -% 8) width height pitch fb 0 in
  fill_rectangle buffer 0 0 width height I915_RECTANGLE =
    if capacity <? 14 then buffer <| b_failed := 1 |>
    else buffer <| b_words := [XY_COLOR_BLT; 3 * 2 ^ 24 + 0xF0 * 2 ^ 16 + pitch; 0;
                               height * 2 ^ 16 + width; fb; I915_RECTANGLE] |>.
Proof.
  intros Hc Hw Hh Hp. cbv zeta. unfold fill_rectangle. cbn [b_width b_height b_capacity b_words b_pitch b_destination].
  destruct (Z.leb_spec width 0); [lia|]. destruct (Z.leb_spec height 0); [lia|].
  destruct (Z.eqb_spec width 0); [lia|]. destruct (Z.eqb_spec height 0); [lia|]. cbn [orb].
  rewrite (sub32_small width 0), (sub32_small height 0), !Z.sub_0_r, !Z.ltb_irrefl by lia.
  rewrite corner_word by lia. unfold b_count. cbn [b_words length app]. change (Z.of_nat 0) with 0.
  rewrite (sub32_small capacity 8), (sub32_small (capacity - 8) 0) by lia.
  assert ((3 <<% 24) .| (0xF0 <<% 16) .| pitch = 3 * 2 ^ 24 + 0xF0 * 2 ^ 16 + pitch) as ->.
  { change ((3 <<% 24) .| (0xF0 <<% 16)) with (0x3F0 * 2 ^ 16). rewrite lor_add by ulia. lia. }
  destruct (Z.ltb_spec (capacity - 8 - 0) 6), (Z.ltb_spec capacity 14); try lia; reflexivity.
Qed.

(** C38: the command stream, exactly. A scene is built when and only when the mode is
    supported, the pitch is the mode's, the framebuffer is page aligned and all of it
    lies in the 256 MiB graphics space, and the ring has room; it is one blit whose
    corners are the screen's and whose row length is the pitch, so its last row ends
    inside the framebuffer, then the flush and the completion tag: ten words, an even
    number, that leave the required gap in the ring. *)
Theorem scene_exact capacity width height pitch framebuffer_gtt words :
  is_u32 capacity -> is_u32 framebuffer_gtt ->
  scene_words capacity width height pitch framebuffer_gtt = Some words <->
  exists bytes, intel915_mode_layout width height = Some (pitch, bytes) /\
    framebuffer_gtt mod 4096 = 0 /\ framebuffer_gtt + bytes <= 0x10000000 /\
    4 * width <= pitch /\ pitch * height <= bytes /\
    14 <= capacity <= I915_RING_DWORDS /\ words = scene width height pitch framebuffer_gtt.
Proof.
  intros Hcap Hfb. unfold scene_words.
  destruct (intel915_mode_layout width height) as [[p b]|] eqn:Em.
  2:{ split; [discriminate|]. intros (? & E & _). discriminate. }
  pose proof (proj1 (layout_inv _ _ _ _) Em) as (Hw & Hh & Hp & Hb & Hmax).
  destruct (layout_fits _ _ _ _ Em) as [Hpb Hbb].
  assert (0 <= p * height) by (apply Z.mul_nonneg_nonneg; lia).
  rewrite (sub32_small 0x10000000 b) by lia. change (framebuffer_gtt .& 4095) with (framebuffer_gtt .& (2 ^ 12 - 1)).
  rewrite land_ones_mod by lia. change (2 ^ 12) with 4096. unfold I915_RING_DWORDS in *.
  destruct (_ || _) eqn:Eg.
  { split; [discriminate|]. intros (b' & E & Hal & Hin & _ & _ & Hc & _). injection E as <- <-. exfalso.
    repeat rewrite orb_true_iff in Eg. rewrite !negb_true_iff, !Z.eqb_neq, !Z.ltb_lt in Eg. unfold in_u in Hcap. lia. }
  bool_to_prop. subst pitch. cbv zeta. rewrite fill_screen by lia.
  destruct (Z.ltb_spec capacity 14); cbn [negb].
  { split; [discriminate|]. intros (b' & E & _ & _ & _ & _ & Hc & _). lia. }
  change (b_failed _ =? 0) with true. cbn [negb]. split.
  - intros [= <-]. exists b. repeat split; lia.
  - now intros (b' & _ & _ & _ & _ & _ & _ & ->).
Qed.

Lemma scene_exact_witness :
  scene_words 1024 1024 768 4096 0x0F000000 = Some (scene 1024 768 4096 0x0F000000).
Proof.
  apply (scene_exact 1024 1024 768 4096 0x0F000000); [ulia|ulia|]. exists 0x300000.
  repeat split; unfold I915_RING_DWORDS; (reflexivity || lia).
Defined.
