(* ===== verification/Intel915Init.v ===== *)
(** * Bringing the graphics driver up

    [intel915_initialize] only reads the device: it maps, copies and allocates, and hands
    ring 1 a record that satisfies [layout_ok], the promise [GraphicsSafety] relies on. *)
From stdpp Require Import list gmap strings.
From S2P Require Import Prelude Machine Ring Runtime Intel915 CursorFacts GraphicsSafety.

(** ** What initialisation may do *)
Definition published (t : trace) : Prop :=
  forall a, a = I915_GATE_ADDRESS \/ a = I915_DATA_ADDRESS \/ a = I915_CODE_ADDRESS ->
  exists v r, (Store W32 a v, r) ∈ t.

Definition init_policy (t : trace) (e : bus) : Prop :=
  match e with
  | In w p => w = W32 /\ p = 0xCFC
  | Out W32 p v => p = 0xCF8
  | Out W16 p v => p = 0xCFC /\ Z.testbit v 2 = true
  | Load _ _ => True
  | Store W8 a _ => I915_BASE <= a < I915_BASE + I915_RAM_SIZE
  | Store W32 a _ =>
      I915_BASE + I915_PAGE_LIST_OFFSET <= a < I915_BASE + I915_RAM_SIZE \/
      a = I915_GATE_ADDRESS \/ a = I915_DATA_ADDRESS \/ a = I915_CODE_ADDRESS \/
      a = I915_READY_ADDRESS /\ published t
  | Api f args =>
      f ∈ ["get_physical_address"; "pmm_alloc_page"; "pmm_free_page"; "pmm_mark_range_used";
           "gdt_create_code_descriptor"; "gdt_create_data_descriptor"; "gdt_alloc_selector";
           "gdt_write_raw_descriptor"] \/
      f = "map_page" /\ exists a p fl, args = [a; p; fl] /\
        I915_BASE <= a < I915_BASE + 0x1000000 /\ (a - I915_BASE) mod 4096 = 0
  | _ => False
  end.

(** A specification under no policy holds under one the program obeys. *)
Lemma wp_restrict {A} (ok : trace -> bus -> Prop) (p : prog bus A) Q t :
  bus_ok ok p -> wp (any_hw (fun _ _ => True)) p Q t -> wp (any_hw ok) p Q t.
Proof.
  intros Hp. specialize (Hp t). revert t Hp. induction p as [a|e k IH|m|]; cbn; intros t Hp H; auto.
  destruct Hp as [He Hp], H as [_ H]. split; [exact He|]. intros v t' Hv. auto.
Qed.

Section INIT.
Abbreviation ok := init_policy.
Abbreviation bok := (bus_ok ok).

Ltac bus_api := intros t; left; set_solver.

Lemma init_pci_read d o : bok (pci_read d o).
Proof.
  apply bus_bind; [apply bus_write; intros t; reflexivity|]. intros _. apply bus_access. intros t. now split.
Qed.

Lemma init_find_gpu : bok find_gpu.
Proof.
  apply bus_bind; [|intros; apply bus_ret]. apply bus_for_break. intros b Hb. apply bus_for_break. intros d Hd.
  apply bus_bind; [apply init_pci_read|]. intros id. apply bus_if; intros _; [apply bus_ret|].
  apply bus_bind; [apply init_pci_read|]. intros; apply bus_ret.
Qed.

Lemma init_bus_master d : bok (enable_bus_master d).
Proof.
  apply bus_bind; [apply init_pci_read|]. intros v. cbv zeta.
  apply bus_bind; [apply bus_write; intros t; reflexivity|]. intros _.
  apply bus_bind; [apply bus_write|].
  - intros t. split; [reflexivity|]. rewrite Z.lor_spec. apply orb_true_r.
  - intros _. apply bus_bind; [apply init_pci_read|intros; apply bus_ret].
Qed.

Lemma init_map a p fl : (exists page, 0 <= page < 4096 /\ a = I915_BASE + page * 4096) -> bok (map_checked a p fl).
Proof.
  intros (page & Hp & ->). apply bus_access_bind; [bus_api|]. intros v _. apply bus_if; intros _; [apply bus_halt|].
  apply bus_access_bind; [|intros w _; apply bus_if; intros _; [apply bus_halt|apply bus_ret]].
  intros t. right. split; [reflexivity|]. do 3 eexists. split; [reflexivity|]. split; [lia|].
  replace (I915_BASE + page * 4096 - I915_BASE) with (page * 4096) by lia. now apply Z.mod_mul.
Qed.

Lemma init_page a fl : (exists page, 0 <= page < 4096 /\ a = I915_BASE + page * 4096) -> bok (allocate_page a fl).
Proof.
  intros Ha. apply bus_access_bind; [bus_api|]. intros v _. apply bus_if; intros _; [apply bus_halt|].
  apply bus_bind; [now apply init_map|intros; apply bus_ret].
Qed.

Lemma init_collect fuel : forall pages, bok (collect_pages fuel pages).
Proof.
  induction fuel as [|fuel IH]; intros pages; cbn [collect_pages]; [apply bus_ret|].
  apply bus_access_bind; [bus_api|]. intros v _. apply bus_if; intros _; [apply bus_ret|].
  cbv zeta. apply bus_if; intros _; [apply bus_ret|apply IH].
Qed.

Lemma init_cursor_pages : bok allocate_cursor_pages.
Proof.
  apply bus_bind; [apply init_collect|]. intros [[pages found] base]. apply bus_bind; [|intros; apply bus_ret].
  apply bus_for_range. intros i Hi. apply bus_if; intros _; [|apply bus_ret].
  apply bus_bind; [apply bus_access; bus_api|intros; apply bus_ret].
Qed.

Lemma init_driver_ram cp : bok (map_driver_ram cp).
Proof.
  apply bus_for_range. intros page Hp. change (0 + Z.of_nat _) with 256 in Hp. cbv zeta.
  apply bus_if; intros _.
  - apply init_map. exists page. split; [lia|reflexivity].
  - apply bus_bind; [apply init_page; exists page; split; [lia|reflexivity]|intros; apply bus_ret].
Qed.

Lemma init_map_device b : bok (map_device b).
Proof.
  apply bus_bind; [|intros _]; apply bus_for_range; intros page Hp.
  - change (0 + Z.of_nat _) with 128 in Hp. apply init_map. exists (page + 0x400).
    unfold I915_MMIO_OFFSET. split; lia.
  - change (0 + Z.of_nat _) with 64 in Hp. apply init_map. exists (page + 0x500).
    unfold I915_GTT_OFFSET. split; lia.
Qed.

Lemma init_framebuffer bytes : 0 <= bytes <= 0x800000 -> bok (allocate_framebuffer bytes).
Proof.
  intros Hb. apply bus_for_range. intros page Hp.
  pose proof (Z.div_mod (bytes + 4095) 4096 ltac:(lia)). pose proof (Z.mod_pos_bound (bytes + 4095) 4096 eq_refl).
  assert (0 <= page < 2048) by lia.
  apply bus_bind.
  - apply init_page. exists (page + 0x800). unfold I915_FB_OFFSET. split; lia.
  - intros v. apply bus_write. intros t. left. unfold I915_PAGE_LIST_OFFSET, I915_RAM_SIZE. lia.
Qed.

Lemma init_memset : bok (memset I915_BASE 0 I915_RAM_SIZE).
Proof.
  apply bus_bind; [|intros; apply bus_ret]. apply bus_for_range. intros i Hi. rewrite Z2Nat.id in Hi by discriminate.
  apply bus_write. intros t. cbn. lia.
Qed.

Lemma init_memcpy : bok (memcpy I915_BASE I915_IMAGE_SOURCE I915_IMAGE_SIZE).
Proof.
  apply bus_bind; [|intros; apply bus_ret]. apply bus_for_range. intros i Hi. rewrite Z2Nat.id in Hi by discriminate.
  apply bus_access_bind; [intros t; exact I|]. intros v _. apply bus_write. intros t. cbn.
  unfold I915_IMAGE_SIZE, I915_RAM_SIZE in *. lia.
Qed.

Lemma init_host r : bok (host_register r).
Proof. apply bus_access. intros t. exact I. Qed.

(** ** The record, step by step *)
Implicit Types k : intel915_kernel.

(** Assertions on the record alone: the trace does not matter. *)
Definition rec (P : intel915_shared -> Prop) k (t : trace) : Prop := P (i_state k).

Lemma keeps_rec {A} P (p : prog bus A) : bok p -> keeps ok (rec P) (lift p).
Proof. intros Hp. now apply keeps_bus. Qed.

Lemma triple_set P Q (f : intel915_shared -> intel915_shared) :
  (forall s, P s -> Q (f s)) -> triple ok (rec P) (on_shared (modify f)) (fun _ => rec Q).
Proof. intros H k t Hk. cbn. exact (H _ Hk). Qed.

Lemma triple_failure {A} P error (Q : A -> intel915_kernel -> trace -> Prop) :
  triple ok P (graphics_failure error) Q.
Proof. intros k t Hk. exact I. Qed.

Lemma triple_fail_if P b error :
  triple ok (rec P) (fail_if b error) (fun _ => rec (fun s => P s /\ b = false)).
Proof.
  unfold fail_if. destruct b; [apply triple_failure|]. apply triple_ret. intros k t Hk. now split.
Qed.

(** A register is read, and any word may be the answer. *)
Lemma triple_host {B} P r (kk : Z -> code intel915_kernel B) Q :
  (forall v, is_u32 v -> triple ok (rec P) (kk v) Q) -> triple ok (rec P) (cbind (lift (host_register r)) kk) Q.
Proof. intros H k t Hk. cbn. split; [exact I|]. intros v t' [Hv ->]. apply (H v Hv). exact Hk. Qed.

Definition fresh (cursor_physical : Z) (s : intel915_shared) : Prop :=
  g_owner_tss_selector s = 0 /\ g_busy s = 0 /\ g_cursor_enabled s = 0 /\ g_cursor_physical s = cursor_physical.

Definition moded cp (layout : Z * Z) (s : intel915_shared) : Prop :=
  fresh cp s /\ 0 <= g_pipe s <= 1 /\ intel915_mode_layout (g_width s) (g_height s) = Some layout.

Definition framed cp (s : intel915_shared) : Prop := fresh cp s /\ layout_ok s.

Lemma triple_find_output P : triple ok (rec P) find_output (fun _ => rec P).
Proof.
  unfold find_output. apply triple_host. intros output _.
  eapply triple_bind with (R := fun _ => rec P).
  - apply triple_if; intros _; [apply keeps_rec, init_host|].
    eapply triple_bind with (R := fun _ => rec P).
    + unfold cand. eapply triple_bind with (R := fun _ => rec P).
      * apply triple_host. intros v _. apply triple_ret. auto.
      * intros [|]; [|apply triple_ret; auto]. apply triple_host. intros v _. apply triple_ret. auto.
    + intros both. eapply triple_bind; [apply triple_fail_if|]. intros ?. apply triple_ret. now intros k t [].
  - intros out. eapply triple_bind; [apply triple_fail_if|]. intros ?. apply triple_ret. now intros k t [].
Qed.

Lemma triple_read_mode cp : triple ok (rec (fresh cp)) read_mode (fun layout => rec (moded cp layout)).
Proof.
  unfold read_mode. eapply triple_bind; [apply triple_find_output|]. intros output. cbn beta zeta.
  assert (0 <= (output >>> 30) .& 1 <= 1) as Hp by (apply land_le; lia).
  eapply triple_bind; [apply triple_set with (Q := fun s => fresh cp s /\ 0 <= g_pipe s <= 1)|].
  { intros s H. split; [exact H|exact Hp]. }
  intros ?. cbn beta. apply triple_host. intros conf _.
  eapply triple_bind; [apply triple_fail_if|]. intros ?. cbn beta. apply triple_host. intros source _.
  eapply triple_bind; [apply triple_set with (Q := fun s => (fresh cp s /\ 0 <= g_pipe s <= 1) /\
    g_width s = ((source >>> 16) .& 0xFFF) +% 1 /\ g_height s = (source .& 0xFFF) +% 1)|].
  { intros s [H _]. exact (conj H (conj eq_refl eq_refl)). }
  intros ?. cbn beta. destruct (intel915_mode_layout _ _) as [layout|] eqn:E; [|apply triple_failure].
  apply triple_ret. intros k t ((Hf & Hpp) & Hw & Hh). split; [exact Hf|]. split; [exact Hpp|]. now rewrite Hw, Hh.
Qed.

Lemma triple_save_display cp b layout :
  aperture_size b = 0x08000000 \/ aperture_size b = 0x10000000 ->
  triple ok (rec (moded cp layout)) (save_display b layout)
    (fun _ k t => panic_state k = true /\ framed cp (i_state k) /\ g_framebuffer_bytes (i_state k) = snd layout).
Proof.
  intros Hb. destruct layout as [pitch bytes]. unfold save_display. cbv zeta.
  assert (forall s, moded cp (pitch, bytes) s ->
    framed cp (s <| g_pitch := pitch |> <| g_framebuffer_bytes := bytes |>
      <| g_framebuffer_gtt := aperture_size b -% 0x01000000 |>
      <| g_ring_gtt := aperture_size b -% 0x01000000 +% I915_FB_MAX_SIZE |>)) as Hset.
  { intros s (Hf & Hp & Hm). split; [exact Hf|]. split; [exact Hm|].
    cbn. destruct Hb as [-> | ->]; (split; [|split; [reflexivity|exact Hp]]); [now left|now right]. }
  eapply triple_bind; [apply triple_set with (Q := fun s => framed cp s /\ g_framebuffer_bytes s = bytes)|].
  { intros s Hs. split; [now apply Hset|reflexivity]. }
  intros ?. cbn beta. do 5 (apply triple_host; intros ? _).
  eapply triple_bind; [apply triple_set with (Q := fun s => framed cp s /\ g_framebuffer_bytes s = bytes)|].
  { intros s Hs. exact Hs. }
  intros ?. cbn beta.
  eapply triple_bind; [apply (triple_modify ok _ _ (fun _ k t =>
    panic_state k = true /\ framed cp (i_state k) /\ g_framebuffer_bytes (i_state k) = bytes))|].
  { intros k t Hk. split; [reflexivity|exact Hk]. }
  intros ?. unfold fail_if. case_if; [apply triple_failure|]. apply triple_ret. auto.
Qed.

Lemma init_bars pci : bok (read_bars pci).
Proof.
  unfold read_bars. do 3 (apply bus_bind; [apply init_pci_read|intros ?]).
  apply bus_bind; [apply init_pci_read|intros ?]. cbv zeta. apply bus_bind; [apply init_pci_read|intros ?].
  cbv zeta. apply bus_bind; [apply init_pci_read|intros ?]. apply bus_if; intros _; [apply bus_halt|].
  apply bus_if; intros _; [apply bus_halt|apply bus_ret].
Qed.

Lemma wp_pci_any {A} d o (f : Z -> prog bus A) Q t :
  (forall v t', wp (any_hw (fun _ _ => True)) (f v) Q t') ->
  wp (any_hw (fun _ _ => True)) (bind (pci_read d o) f) Q t.
Proof. intros H. cbn. split; [exact I|]. intros v t' _. split; [exact I|]. intros w t'' _. apply H. Qed.

(** The aperture is 128 or 256 MiB. *)
Lemma bars_aperture P pci :
  triple ok (rec P) (lift (read_bars pci))
    (fun b => rec (fun s => P s /\ (aperture_size b = 0x08000000 \/ aperture_size b = 0x10000000))).
Proof.
  intros k t Hk. apply wp_io_last, wp_restrict; [apply init_bars|]. unfold read_bars.
  do 4 (apply wp_pci_any; intros ? ?). cbv zeta. apply wp_pci_any; intros ? ?. apply wp_pci_any; intros ? ?.
  destruct (negb (_ .& (2 <<% 16) =? 0)); (case_if; [exact I|]; case_if; [exact I|]; split; [exact Hk|]);
    [now left|now right].
Qed.

(** The cursor's pages are aligned. *)
Lemma cursor_pages_aligned P :
  triple ok (rec P) (lift allocate_cursor_pages) (fun base => rec (fun s => P s /\ base .& 4095 = 0)).
Proof.
  intros k t Hk. apply wp_io_last, wp_restrict; [apply init_cursor_pages|]. unfold allocate_cursor_pages.
  eapply wp_seq with (K := fun r _ => snd r = 0 \/ snd r .& 4095 = 0 /\ 0 <= snd (fst r) <= 60).
  - eapply wp_mono; [|apply (collect_pages_spec 64 [] t t); [constructor|reflexivity|reflexivity]].
    intros o t' (p & f & b & -> & Hl & _ & _ & H). cbn in Hl |- *. destruct H as [->|H]; [now left|]. right.
    split; [apply H|]. lia.
  - intros [[pages found] base] t1 H. cbn in H.
    eapply wp_seq with (K := fun _ _ => True).
    + eapply wp_mono; [|apply free_loop_spec; tauto]. now intros o t' (-> & _).
    + intros [] t2 _. split; [exact Hk|]. destruct H as [->|[H _]]; [reflexivity|exact H].
Qed.

(** ** The driver is handed over *)
Definition set_up (cp : Z) k (t : trace) : Prop := panic_state k = true /\ framed cp (i_state k).

(** What the kernel and ring 1 may rely on afterwards. *)
Definition handed_over k : Prop :=
  panic_state k = true /\ layout_ok (i_state k) /\ g_status (i_state k) = I915_READY /\
  g_stage (i_state k) = 1 /\ g_owner_tss_selector (i_state k) = 0 /\ g_busy (i_state k) = 0 /\
  g_cursor_enabled (i_state k) = 0 /\ g_cursor_physical (i_state k) <> 0 /\
  g_cursor_physical (i_state k) .& 4095 = 0.

Lemma keeps_set cp (f : intel915_shared -> intel915_shared) :
  (forall s, framed cp s -> framed cp (f s)) -> keeps ok (set_up cp) (on_shared (modify f)).
Proof. intros Hf k t [Hp Hk]. split; [exact Hp|]. exact (Hf _ Hk). Qed.

Lemma keeps_fail_if cp b error : keeps ok (set_up cp) (fail_if b error).
Proof. unfold fail_if. destruct b; [apply triple_failure|apply keeps_ret]. Qed.

Lemma keeps_up {A} cp (p : prog bus A) : bok p -> keeps ok (set_up cp) (lift p).
Proof. intros Hp. now apply keeps_bus. Qed.

Lemma init_create_gate code offset : bok (create_gate code offset).
Proof.
  apply bus_access_bind; [bus_api|]. intros v _. apply bus_bind; [|intros; apply bus_ret].
  apply bus_if; intros _; [|apply bus_ret]. apply bus_bind; [apply bus_access; bus_api|intros; apply bus_ret].
Qed.

Lemma keeps_create_descriptors cp : keeps ok (set_up cp) create_descriptors.
Proof.
  unfold create_descriptors. do 2 (apply keeps_bind; [apply keeps_up, bus_access; bus_api|intros ?]).
  apply keeps_bind; [now apply keeps_set|intros ?].
  do 2 (apply keeps_bind; [apply keeps_up, bus_access; bus_api|intros ?]).
  apply keeps_bind; [apply keeps_fail_if|intros ?]. apply keeps_bind; [now apply keeps_set|intros ?].
  apply keeps_bind; [apply keeps_up, init_create_gate|intros ?]. apply keeps_bind; [now apply keeps_set|intros ?].
  apply keeps_fail_if.
Qed.

Lemma triple_publish cp pci : cp <> 0 -> cp .& 4095 = 0 ->
  triple ok (set_up cp) (publish_driver pci) (fun _ k t => handed_over k).
Proof.
  intros H0 Hal. unfold publish_driver.
  eapply triple_bind with (R := fun _ k t => handed_over k).
  { intros k t (Hp & (Ho & Hb & He & Hc) & Hl). cbn. unfold handed_over. cbn. rewrite Hc.
    exact (conj Hp (conj Hl (conj eq_refl (conj eq_refl (conj Ho (conj Hb (conj He (conj H0 Hal)))))))). }
  intros ?. eapply triple_bind; [apply (keeps_bus ok (fun k _ => handed_over k)); [apply init_bus_master|auto]|].
  intros ?. cbn beta. apply triple_gets_bind. intros s.
  intros k t [Hk _]. cbn. split; [tauto|]. intros ? ? [_ ->]. split; [tauto|]. intros ? ? [_ ->].
  split; [tauto|]. intros ? ? [_ ->]. split; [|now intros ? ? [_ ->]].
  right. do 3 right. split; [reflexivity|]. intros w [-> |[-> | ->]]; do 2 eexists; in_trace.
Qed.

Lemma triple_load_driver P : P zero_shared -> triple ok (fun _ _ => True) load_driver (fun _ => rec P).
Proof.
  intros H0. unfold load_driver.
  eapply triple_bind; [apply (keeps_bus ok (fun _ _ => True)); [apply init_memset|auto]|]. intros ?. cbn beta.
  eapply triple_bind with (R := fun _ => rec P); [intros k t _; exact H0|]. intros ?.
  eapply triple_bind; [apply keeps_rec, init_memcpy|]. intros ?. apply triple_ret. auto.
Qed.

Lemma triple_check_gtt P b :
  (forall s v, P s -> P (s <| g_pgtbl_control := v |>)) -> triple ok (rec P) (check_gtt b) (fun _ => rec P).
Proof.
  intros HP. unfold check_gtt. apply triple_host. intros v _.
  eapply triple_bind; [apply triple_set; intros s; apply HP|]. intros ?. cbn beta.
  eapply triple_bind; [apply triple_fail_if|]. intros ?. cbn beta.
  eapply triple_post; [apply triple_fail_if|]. intros ? k t [[Hk _] _]. exact Hk.
Qed.
End INIT.

Lemma initialize_spec k0 :
  triple init_policy (fun k t => k = k0) intel915_initialize
    (fun r k t => r = 0 /\ k = k0 \/ r = 1 /\ handed_over k).
Proof.
  unfold intel915_initialize.
  eapply triple_bind; [apply (keeps_bus init_policy (fun k _ => k = k0)); [apply init_find_gpu|auto]|].
  intros pci. cbn beta. apply triple_if; intros _; [apply triple_ret; auto|].
  eapply triple_bind with (R := fun b k t => aperture_size b = 0x08000000 \/ aperture_size b = 0x10000000).
  { eapply triple_conseq; [apply (bars_aperture (fun _ => True))|now intros|]. now intros b k t [_ H]. }
  intros b. cbn beta.
  eapply triple_pre with (P' := fun k t => True /\ (aperture_size b = 0x08000000 \/ aperture_size b = 0x10000000));
    [|tauto].
  apply triple_pure. intros Hb.
  eapply triple_bind; [apply (keeps_bus init_policy (fun _ _ => True)); [apply bus_access; intros t; left; set_solver|auto]|].
  intros ?. cbn beta.
  eapply triple_bind with (R := fun base k t => True /\ base .& 4095 = 0).
  { eapply triple_conseq; [apply (cursor_pages_aligned (fun _ => True))|now intros|]. auto. }
  intros cp. cbn beta. apply triple_pure. intros Hal. apply triple_if; intros E; [apply triple_panic|]. bool_to_prop.
  eapply triple_bind; [apply (keeps_bus init_policy (fun _ _ => True)); [apply init_driver_ram|auto]|]. intros ?. cbn beta.
  eapply triple_bind; [apply (triple_load_driver (fresh 0)); repeat split|]. intros ?. cbn beta.
  eapply triple_bind; [apply (triple_set (fresh 0) (fresh cp))|].
  { intros s (H1 & H2 & H3 & _). repeat split; assumption. }
  intros ?. cbn beta.
  eapply triple_bind; [apply keeps_rec, init_map_device|]. intros ?. cbn beta.
  eapply triple_bind; [apply triple_check_gtt; auto|]. intros ?. cbn beta.
  eapply triple_bind; [apply triple_read_mode|]. intros layout. cbn beta.
  eapply triple_bind with (R := fun _ k t => set_up cp k t /\ 0 <= snd layout <= 0x800000).
  { eapply triple_post; [apply (triple_save_display cp b layout Hb)|]. intros ? k t (Hp & Hf & Hbytes).
    split; [now split|]. destruct Hf as [_ [Hm _]]. rewrite Hbytes in Hm.
    pose proof (layout_fits _ _ _ _ Hm). apply layout_inv in Hm as (Hw & Hh & _).
    assert (0 <= g_pitch (i_state k) * g_height (i_state k)) by (apply Z.mul_nonneg_nonneg; lia). lia. }
  intros ?. apply triple_pure. intros Hbytes.
  eapply triple_bind; [apply keeps_up, init_framebuffer, Hbytes|]. intros ?. cbn beta.
  eapply triple_bind; [apply keeps_create_descriptors|]. intros ?. cbn beta.
  eapply triple_bind; [apply triple_publish; assumption|]. intros ?. apply triple_ret. auto.
Qed.

