(* ===== verification/GraphicsSystem.v ===== *)
(** * The graphics driver over time

    After initialisation the shared record is changed by four operations: the kernel claims
    the display for the desktop task, the owner calls the ring-1 service, the mouse moves
    the cursor, and a panic takes the text display back. A history is a sequence of such
    steps with any arguments and any answers of the hardware; the invariant below holds
    along every history. The operations of the lock's holder are steps of their own, since
    any other operation finds the lock taken and leaves. *)
From stdpp Require Import list gmap strings.
From S2P Require Import Prelude Machine Ring Intel915 CursorFacts GraphicsSafety Intel915Init.

Abbreviation configuration := (intel915_kernel * trace)%type.

Inductive graphics_step : configuration -> configuration -> Prop :=
| step_claim selector r k t k' t' : is_u32 selector ->
    run (intel915_claim_desktop selector k) t (Done (r, k')) t' -> graphics_step (k, t) (k', t')
| step_service operation x y r k t k' t' :
    run (on_shared (intel915_driver_service operation x y) k) t (Done (r, k')) t' ->
    graphics_step (k, t) (k', t')
| step_cursor motions r k t k' t' : batch_of motions ->
    run (intel915_update_cursor motions (Z.of_nat (length motions)) k) t (Done (r, k')) t' ->
    graphics_step (k, t) (k', t')
| step_restore k t k' t' :
    run (intel915_restore_text_display k) t (Done (tt, k')) t' -> graphics_step (k, t) (k', t').

(** A task selector of the global descriptor table. *)
Definition is_task (selector : Z) : Prop := 0 < selector <= 0xFFF8 /\ selector .& 7 = 0.

Record graphics_ok (k : intel915_kernel) (t : trace) : Prop := {
  ok_found : panic_state k = true;
  ok_layout : layout_ok (i_state k);
  ok_owner : g_owner_tss_selector (i_state k) = 0 \/ is_task (g_owner_tss_selector (i_state k));
  ok_free : g_busy (i_state k) = 0;
  ok_covered : covered (i_state k) t;
  ok_shown : shown (i_state k);
  ok_drawn : g_status (i_state k) = I915_DRAWN -> 5 <= g_stage (i_state k)
}.

(** ** Each step *)
Lemma wp_on_shared {S A} (hw : hardware bus S) (m : code intel915_shared A) k Q s :
  wp hw (m (i_state k)) (on_done (fun r => Q (Done (fst r, k <| i_state := snd r |>))) Q) s ->
  wp hw (on_shared m k) Q s.
Proof. intros H. now apply wp_bind. Qed.

Abbreviation free := (any_hw (fun _ _ => True)).
(** The invariant holds of every result. *)
Definition stays {A} (o : outcome (A * intel915_kernel)) (t : trace) : Prop :=
  match o with Done (_, k) => graphics_ok k t | _ => True end.

Lemma claim_ok selector k t :
  is_u32 selector -> graphics_ok k t -> wp free (intel915_claim_desktop selector k) stays t.
Proof.
  intros Hsel Hk. unfold intel915_claim_desktop. apply wp_gets. unfold id. case_if; [exact Hk|]. bool_to_prop.
  destruct Hk. constructor; cbn in *; auto. right. unfold is_task, in_u in *. lia.
Qed.

Lemma service_ok operation x y k t :
  graphics_ok k t -> wp (any_hw (graphics_policy (i_state k))) (on_shared (intel915_driver_service operation x y) k) stays t.
Proof.
  intros Hk. pose proof Hk as [Hp Hl Ho Hf Hc Hsh Hd]. apply wp_on_shared.
  eapply wp_mono; [|exact (service_safe (i_state k) operation x y Hl (i_state k) t (conj eq_refl (conj Hc Hsh)))].
  intros [[r g]|m| |] t'; cbn; auto. intros (Hh & (Hc' & Hsh') & Hb & _ & Hst).
  constructor; cbn; auto.
  - change (layout_ok (frozen g)). rewrite Hh. exact Hl.
  - change (g_owner_tss_selector g) with (g_owner_tss_selector (frozen g)). rewrite Hh. exact Ho.
  - intros E. destruct (Hst E) as [[E' ->]|(_ & -> & _)]; [now apply Hd|lia].
Qed.

(** A trace that grew by accesses to the cursor of a drawn display. *)
Lemma covered_drawn s t : 5 <= g_stage s -> covered s t.
Proof. intros H _. exact H. Qed.

Lemma cursor_ok motions k t :
  batch_of motions -> graphics_ok k t ->
  wp free (intel915_update_cursor motions (Z.of_nat (length motions)) k) stays t.
Proof.
  intros Hb Hk. pose proof Hk as [Hp Hl Ho Hf Hc Hsh Hd]. unfold intel915_update_cursor. apply wp_gets.
  rewrite Hp. apply wp_on_shared. set (s := i_state k) in *.
  eapply wp_mono; [|apply (flush_spec (I915_BASE + I915_MMIO_OFFSET) s motions t); [exact Hb|]].
  - intros o t'. rewrite Hf. change (0 =? 0) with true. cbn [negb].
    destruct (cursor_usable s) eqn:Eu; cbn [negb].
    + assert (5 <= g_stage s) as H5 by (apply Hd; now destruct (cursor_usable_iff s Eu)).
      intros (Hx' & Hy' & H). destruct (decide _); destruct H as [-> H];
        (constructor; cbn; auto; [now apply covered_drawn|..]). intros _. now split.
    + intros [-> ->]. now constructor.
  - intros Eu. assert (on_screen s) as [Hx Hy].
    { apply Hsh. unfold cursor_usable in Eu. bool_to_prop. assumption. }
    pose proof (proj1 Hl) as Hm. apply layout_inv in Hm as (Hw & Hh & _).
    unfold in_u. lia.
Qed.

Lemma bus_any {A} (p : prog bus A) : bus_ok (fun _ _ => True) p.
Proof. induction p as [a|e k IH|m|]; intros t; cbn; auto. split; [exact I|]. intros. apply IH. Qed.

Lemma keeps_any {G A} (I : G -> trace -> Prop) (p : prog bus A) :
  (forall g t t', I g t -> I g t') -> keeps (fun _ _ => True) I (lift p).
Proof. intros HI. apply keeps_bus; [apply bus_any|exact HI]. Qed.

(** With the display taken the invariant does not depend on the trace. *)
Definition restorable (k : intel915_kernel) (t : trace) : Prop :=
  (forall t', graphics_ok k t') /\ 5 <= g_stage (i_state k).

Lemma keeps_restore : keeps (fun _ _ => True) restorable intel915_restore_text_display.
Proof.
  unfold intel915_restore_text_display. apply keeps_bind; [apply keeps_gets|intros k].
  apply keeps_if; intros _; [apply keeps_ret|]. cbv zeta.
  apply keeps_bind; [now apply keeps_any|intros ?]. apply keeps_bind.
  { intros k' t [Hk H5]. split; [|exact H5]. intros t'. destruct (Hk t').
    constructor; cbn in *; auto. intros E. now destruct E. }
  intros ?. repeat (apply keeps_bind; [now apply keeps_any|intros ?]). apply keeps_ret.
Qed.

Lemma restore_ok k t : graphics_ok k t -> wp free (intel915_restore_text_display k) stays t.
Proof.
  intros Hk. destruct (Z.lt_ge_cases (g_stage (i_state k)) 5) as [H|H].
  - unfold intel915_restore_text_display. apply wp_gets. unfold id.
    rewrite (proj2 (Z.ltb_lt _ _) H), orb_true_r. exact Hk.
  - eapply wp_mono; [|apply (keeps_restore k t)].
    + intros [[[] k']|m| |] t'; cbn; auto. intros [Hr _]. apply Hr.
    + split; [|exact H]. intros t'. destruct Hk. constructor; auto. now apply covered_drawn.
Qed.

Lemma step_ok k t k' t' : graphics_step (k, t) (k', t') -> graphics_ok k t -> graphics_ok k' t'.
Proof.
  intros Hst Hk. inversion Hst as [sel r ? ? ? ? Hsel Hr|op x y r ? ? ? ? Hr|ms r ? ? ? ? Hb Hr|? ? ? ? Hr]; subst.
  - exact (wp_run _ _ _ _ _ _ (claim_ok sel k t Hsel Hk) Hr).
  - exact (wp_run _ _ _ _ _ _ (service_ok op x y k t Hk) Hr).
  - exact (wp_run _ _ _ _ _ _ (cursor_ok ms k t Hb Hk) Hr).
  - exact (wp_run _ _ _ _ _ _ (restore_ok k t Hk) Hr).
Qed.

Lemma handed_over_ok k t : handed_over k -> ~ display_touched t -> graphics_ok k t.
Proof.
  intros (Hp & Hl & Hst & Hsg & Ho & Hb & He & _) Ht. constructor; auto.
  - intros Hd. contradiction.
  - intros E. now rewrite He in E.
  - rewrite Hst. discriminate.
Qed.

(** C7: along every history of the initialised driver, in any order and with any
    arguments and answers of the hardware: the mode and its layout stay consistent, the
    owner is none or a task selector, the lock is free between operations, a shown
    cursor is a point of the screen, and whenever a display register has been written,
    by ring 1 or by the kernel, the stage tells the panic path to restore it. *)
Theorem graphics_invariant k t k' t' :
  handed_over k -> ~ display_touched t -> rtc graphics_step (k, t) (k', t') -> graphics_ok k' t'.
Proof.
  intros Hh Ht Hr. apply (handed_over_ok k t Hh) in Ht.
  assert (forall c c', rtc graphics_step c c' -> graphics_ok (fst c) (snd c) -> graphics_ok (fst c') (snd c')) as H.
  { intros c c' Hc. induction Hc as [c|[k1 t1] [k2 t2] c' Hs _ IH]; intros Hk; [exact Hk|].
    apply IH. exact (step_ok _ _ _ _ Hs Hk). }
  exact (H _ _ Hr Ht).
Qed.

(** The display is claimed for task 0x48. *)
Definition unowned_display : intel915_kernel :=
  Build_intel915_kernel true (ready_display <| g_owner_tss_selector := 0 |>).

Lemma graphics_invariant_witness :
  graphics_ok (unowned_display <| i_state := ready_display |>) [] /\
  is_task (g_owner_tss_selector ready_display).
Proof.
  split; [|unfold is_task; cbn; split; [lia|reflexivity]].
  apply (graphics_invariant unowned_display [] _ []).
  - assert (layout_ok (i_state unowned_display)) as Hl.
    { split; [reflexivity|]. split; [now right|]. split; [reflexivity|]. cbn. lia. }
    split; [reflexivity|]. split; [exact Hl|]. do 5 (split; [reflexivity|]). split; [discriminate|reflexivity].
  - intros (a & v & r & Hin & _). now apply not_elem_of_nil in Hin.
  - apply rtc_once. apply (step_claim 0x48 1); [ulia|].
    assert (intel915_claim_desktop 0x48 unowned_display = Ret (1, unowned_display <| i_state := ready_display |>))
      as -> by (vm_compute; reflexivity). apply run_ret.
Defined.

(** ** The panic path *)

(** Word memory: a load gives what was last stored. *)
Definition word_ram (m : gmap Z Z) (e : bus) : option (Z * gmap Z Z) :=
  match e with
  | Load W32 a => Some (default 0 (m !! a), m)
  | Store W32 a v => Some (0, <[a := v]> m)
  | _ => None
  end.

Definition register_of (m : gmap Z Z) (offset : Z) : Z := default 0 (m !! (I915_BASE + I915_MMIO_OFFSET + offset)).

Definition restored_registers : list Z :=
  [CURSOR_CONTROL; CURSOR_BASE; CURSOR_CONTROL + CURSOR_STRIDE; CURSOR_BASE + CURSOR_STRIDE;
   PLANE_CONTROL; PLANE_BASE; PLANE_CONTROL + 0x1000; PLANE_BASE + 0x1000; VGA_CONTROL].

Ltac lookups :=
  repeat first [rewrite lookup_insert_eq | rewrite lookup_insert_ne by (vm_compute; congruence)].

(** C37: restoring the text display. When the display was taken, both hardware cursors
    are off, both planes are disabled with every other control bit as it was, their
    bases are the saved ones, the VGA control is the saved one with the VGA plane
    enabled again, nothing else is written, and the cursor is marked off; before the
    display was taken, or when there is no such device, the restore does nothing. *)
Theorem text_display_restored k m :
  let '(o, m') := exec word_ram (intel915_restore_text_display k) m in
  if panic_state k && (5 <=? g_stage (i_state k)) then
    o = Done (tt, k <| i_state := (i_state k) <| g_cursor_enabled := 0 |> |>) /\
    (forall pipe, pipe = 0 \/ pipe = 1 ->
       register_of m' (CURSOR_CONTROL + pipe * CURSOR_STRIDE) = 0 /\
       register_of m' (CURSOR_BASE + pipe * CURSOR_STRIDE) = 0 /\
       register_of m' (PLANE_CONTROL + pipe * 0x1000) =
         register_of m (PLANE_CONTROL + pipe * 0x1000) .& not32 ENABLE) /\
    register_of m' PLANE_BASE = g_old_plane_base_a (i_state k) /\
    register_of m' (PLANE_BASE + 0x1000) = g_old_plane_base_b (i_state k) /\
    register_of m' VGA_CONTROL = g_old_vga_control (i_state k) .& not32 ENABLE /\
    (forall a, a ∉ map (fun r => I915_BASE + I915_MMIO_OFFSET + r) restored_registers -> m' !! a = m !! a)
  else o = Done (tt, k) /\ m' = m.
Proof.
  unfold intel915_restore_text_display.
  destruct (panic_state k) eqn:Hp; [|cbn; rewrite Hp; now split].
  destruct (Z.leb_spec 5 (g_stage (i_state k))) as [H5|H5]; cbn [andb].
  2:{ cbn. rewrite Hp. cbn. rewrite (proj2 (Z.ltb_lt _ _) H5). now split. }
  cbn. rewrite Hp. cbn. rewrite (proj2 (Z.ltb_ge _ _) H5). cbn.
  split; [reflexivity|]. split; [|split; [|split; [|split]]].
  - intros pipe [-> | ->]; unfold register_of; (split; [|split]); lookups; reflexivity.
  - unfold register_of. lookups. reflexivity.
  - unfold register_of. lookups. reflexivity.
  - unfold register_of. lookups. reflexivity.
  - intros a Ha. rewrite !lookup_insert_ne; [reflexivity|..]; intros <-; apply Ha; vm_compute; set_solver.
Qed.
