(* ===== verification/Azalia.v ===== *)
(** * The audio codec probe: [Drivers/Audio/Azalia.c]

    The controller's registers are memory on the bus at [AZALIA_MMIO]; [audio] and
    [initialized] are the statics. The probe takes the function that sends a verb as an
    argument, as the source does: [None] is a zero result, and the response pointer is
    written only on success. *)
From stdpp Require Import list gmap strings.
From S2P Require Import Prelude Machine Runtime Ring.

Definition AZALIA_MMIO : Z := 0x72400000.
Definition AZALIA_STACKS : Z := 0x72020000.
Definition AZALIA_STACK_BYTES : Z := 100 * 8192.
Definition AZALIA_GATE_ADDRESS : Z := 0x80002368.
Definition AZALIA_DATA_ADDRESS : Z := 0x8000236C.
Definition AZALIA_SERVICE_ADDRESS : Z := 0x80002370.
Definition AZALIA_STATE_ADDRESS : Z := 0x80002374.
Definition AZALIA_ENTRY_ADDRESS : Z := 0x80002378.
Definition ALC269_CODEC_ID : Z := 0x10EC0269.
Definition AZALIA_MAX_WIDGETS : Z := 64.

Definition AZALIA_ABSENT : Z := 0.
Definition AZALIA_CONTROLLER_READY : Z := 1.
Definition AZALIA_CODEC_READY : Z := 2.
Definition AZALIA_BAD_BAR : Z := 0x10.
Definition AZALIA_LINK_STOPPED : Z := 0x11.
Definition AZALIA_COMMAND_DMA_ACTIVE : Z := 0x12.
Definition AZALIA_COMMAND_TIMEOUT : Z := 0x13.
Definition AZALIA_CODEC_NOT_FOUND : Z := 0x14.
Definition AZALIA_BAD_TOPOLOGY : Z := 0x15.
Definition AZALIA_BUSY : Z := 0x16.
Definition AZALIA_WRONG_RING : Z := 0x17.
Definition AZALIA_BAD_REQUEST : Z := 0x18.

Record azalia_widget := { w_node : Z; w_capabilities : Z; w_pin_default : Z; w_pcm : Z; w_formats : Z }.
#[export] Instance eta_widget : Eta azalia_widget := fun w =>
  Build_azalia_widget (w_node w) (w_capabilities w) (w_pin_default w) (w_pcm w) (w_formats w).
Definition no_widget : azalia_widget := Build_azalia_widget 0 0 0 0 0.

Record azalia_state := {
  a_status : Z; a_pci : Z; a_controller_id : Z; a_mmio_physical : Z; a_capabilities : Z;
  a_codec_mask : Z; a_codec_address : Z; a_codec_id : Z; a_revision : Z; a_audio_group : Z;
  a_widget_count : Z; a_code_selector : Z; a_data_selector : Z; a_gate_selector : Z; a_busy : Z;
  a_observed_cpl : Z; a_commands : Z; a_last_command : Z; a_widgets : list azalia_widget
}.
#[export] Instance eta_azalia : Eta azalia_state := fun a =>
  Build_azalia_state (a_status a) (a_pci a) (a_controller_id a) (a_mmio_physical a) (a_capabilities a)
    (a_codec_mask a) (a_codec_address a) (a_codec_id a) (a_revision a) (a_audio_group a)
    (a_widget_count a) (a_code_selector a) (a_data_selector a) (a_gate_selector a) (a_busy a)
    (a_observed_cpl a) (a_commands a) (a_last_command a) (a_widgets a).

Definition zero_azalia : azalia_state :=
  Build_azalia_state 0 0 0 0 0 0 0 0 0 0 0 0 0 0 0 0 0 0 (replicate 64 no_widget).

Definition azalia_verb (codec node verb payload : Z) : Z :=
  if (14 <? codec) || (255 <? node) || (0xFFF <? verb) || (255 <? payload) then 0xFFFFFFFF
  else (codec <<% 28) .| (node <<% 20) .| (verb <<% 8) .| payload.

(** ** The probe *)
Section PROBE.
Context (send : Z -> code azalia_state (option Z)).

Definition parameter (node id : Z) : code azalia_state (option Z) :=
  let* codec := gets a_codec_address in
  send (azalia_verb codec node 0xF00 id).

Definition finish (status : Z) : code azalia_state Z :=
  modify (fun a => a <| a_status := status |>) ;*
  cret status.

(** [goto timeout], [goto bad_topology] and the other returns are [inl] of the status. *)
Definition or_timeout {A} (m : code azalia_state (option Z)) (k : Z -> code azalia_state (Z + A))
    : code azalia_state (Z + A) :=
  let* r := m in
  match r with
  | None => cret (inl AZALIA_COMMAND_TIMEOUT)
  | Some v => k v
  end.

(** The loop over the codecs of the link. *)
Definition find_codec : code azalia_state (Z + unit) :=
  let* r := cloop 15 0 (fun codec =>
    let* mask := gets a_codec_mask in
    if mask .& (1 <<% codec) =? 0 then cret None else
    modify (fun a => a <| a_codec_address := codec |>) ;*
    let* vendor := parameter 0 0 in
    match vendor with
    | None => cret (Some false)
    | Some vendor =>
        if vendor =? ALC269_CODEC_ID then
          modify (fun a => a <| a_codec_id := vendor |>) ;* cret (Some true)
        else cret None
    end) in
  if match r with Some false => true | _ => false end then cret (inl AZALIA_COMMAND_TIMEOUT) else
  let* id := gets a_codec_id in
  cret (if id =? 0 then inl AZALIA_CODEC_NOT_FOUND else inr tt).

(** [start] and [count] of a node range. *)
Definition node_range (nodes : Z) : Z * Z := ((nodes >>> 16) .& 255, nodes .& 255).

(** The first function group of type audio. *)
Definition find_group (start count : Z) : code azalia_state (Z + unit) :=
  let* r := cloop (Z.to_nat count) start (fun node =>
    let* type := parameter node 5 in
    match type with
    | None => cret (Some false)
    | Some type =>
        if type .& 255 =? 1 then
          modify (fun a => a <| a_audio_group := node |>) ;* cret (Some true)
        else cret None
    end) in
  if match r with Some false => true | _ => false end then cret (inl AZALIA_COMMAND_TIMEOUT) else
  let* group := gets a_audio_group in
  cret (if group =? 0 then inl AZALIA_BAD_TOPOLOGY else inr tt).

(** [widget->field = value] for [widget = &state->widgets[i]]. *)
Definition set_widget (i : Z) (f : azalia_widget -> azalia_widget) : code azalia_state unit :=
  modify (fun a => a <| a_widgets := alter f (Z.to_nat i) (a_widgets a) |>).

(** One widget: [false] is [goto timeout]. *)
Definition probe_widget (start i : Z) : code azalia_state bool :=
  let node := start +% i in
  set_widget i (fun w => w <| w_node := node |> <| w_formats := 0 |> <| w_pcm := 0 |> <| w_pin_default := 0 |>) ;*
  let* capabilities := parameter node 9 in
  match capabilities with
  | None => cret false
  | Some capabilities =>
      set_widget i (fun w => w <| w_capabilities := capabilities |>) ;*
      let type := (capabilities >>> 20) .& 15 in
      let* pin :=
        if type =? 4 then
          let* codec := gets a_codec_address in
          let* v := send (azalia_verb codec node 0xF1C 0) in
          match v with
          | None => cret false
          | Some v => set_widget i (fun w => w <| w_pin_default := v |>) ;* cret true
          end
        else cret true in
      if negb pin then cret false else
      let* formats :=
        if type <=? 1 then
          let* group := gets a_audio_group in
          let format_node := if negb (capabilities .& (1 <<% 4) =? 0) then node else group in
          let* pcm := parameter format_node 0xA in
          match pcm with
          | None => cret false
          | Some pcm =>
              set_widget i (fun w => w <| w_pcm := pcm |>) ;*
              let* formats := parameter format_node 0xB in
              match formats with
              | None => cret false
              | Some formats => set_widget i (fun w => w <| w_formats := formats |>) ;* cret true
              end
          end
        else cret true in
      if negb formats then cret false else
      modify (fun a => a <| a_widget_count := a_widget_count a +% 1 |>) ;*
      cret true
  end.

Definition probe_widgets (start count : Z) : code azalia_state (Z + unit) :=
  let* r := cloop (Z.to_nat count) 0 (fun i =>
    let* ok := probe_widget start i in cret (if ok : bool then None else Some tt)) in
  cret (match r with Some _ => inl AZALIA_COMMAND_TIMEOUT | None => inr tt end).

(** [if (!start || !count || ... || start + count > 256) goto bad_topology;] *)
Definition bad_range (start count limit : Z) : bool :=
  (start =? 0) || (count =? 0) || (limit <? count) || (256 <? start + count).

Definition then_probe {A} (m : code azalia_state (Z + unit)) (k : code azalia_state (Z + A))
    : code azalia_state (Z + A) :=
  let* r := m in
  match r with inl status => cret (inl status) | inr _ => k end.

Definition probe_steps : code azalia_state (Z + unit) :=
  then_probe find_codec (
  or_timeout (parameter 0 2) (fun revision =>
  modify (fun a => a <| a_revision := revision |>) ;*
  or_timeout (parameter 0 4) (fun nodes =>
  let '(start, count) := node_range nodes in
  if bad_range start count 255 then cret (inl AZALIA_BAD_TOPOLOGY) else
  then_probe (find_group start count) (
  let* group := gets a_audio_group in
  or_timeout (parameter group 4) (fun nodes =>
  let '(start, count) := node_range nodes in
  if bad_range start count AZALIA_MAX_WIDGETS then cret (inl AZALIA_BAD_TOPOLOGY) else
  probe_widgets start count))))).

Definition azalia_probe_codec : code azalia_state Z :=
  modify (fun a => a <| a_revision := 0 |> <| a_widget_count := 0 |> <| a_audio_group := 0 |> <| a_codec_id := 0 |>) ;*
  let* r := probe_steps in
  finish (match r with inl status => status | inr _ => AZALIA_CODEC_READY end).
End PROBE.

(** ** The controller *)
Definition pci_read (pci reg : Z) : prog bus Z :=
  out32 0xCF8 (0x80000000 .| pci .| reg) ;;
  in32 0xCFC.

Definition find_controller : prog bus Z :=
  let! r := for_break 256 0 (fun bus => for_break 32 0 (fun device =>
    let base := (bus <<% 16) .| (device <<% 11) in
    let! id := pci_read base 0 in
    if id .& 0xFFFF =? 0xFFFF then Ret None else
    let! header := pci_read base 0xC in
    let functions := if negb (header .& 0x800000 =? 0) then 8 else 1 in
    for_break (Z.to_nat functions) 0 (fun function =>
      let pci := base .| (function <<% 8) in
      let! id := pci_read pci 0 in
      if id .& 0xFFFF =? 0xFFFF then Ret None else
      let! class := pci_read pci 8 in
      Ret (if class >>> 8 =? 0x040300 then Some pci else None)))) in
  Ret (match r with Some pci => pci | None => 0xFFFFFFFF end).

Definition immediate_verb (command : Z) : code azalia_state (option Z) :=
  let status := AZALIA_MMIO + 0x68 in
  let* v := io (load16 status) in
  if negb (v .& 1 =? 0) then cret None else
  io (store16 status 2) ;*
  io (store32 (AZALIA_MMIO + 0x60) command) ;*
  modify (fun a => a <| a_last_command := command |> <| a_commands := a_commands a +% 1 |>) ;*
  io (store16 status 1) ;*
  let* r := cloop (Z.to_nat 100000) 0 (fun _ =>
    let* value := io (load16 status) in
    if (value .& 1 =? 0) && negb (value .& 2 =? 0) then
      if negb (value .& 4 =? 0) && (negb (value .& 8 =? 0) || negb (value >>> 4 =? command >>> 28))
      then cret (Some None) else
      let* response := io (load32 (AZALIA_MMIO + 0x64)) in
      io (store16 status 2) ;*
      cret (Some (Some response))
    else cret None) in
  match r with
  | Some result => cret result
  | None => io (store16 status 0) ;* cret None
  end.

(** Operation 0: probe the codec, once. *)
Definition query_codec : code azalia_state unit :=
  let* gctl := io (load32 (AZALIA_MMIO + 8)) in
  if gctl .& 1 =? 0 then modify (fun a => a <| a_status := AZALIA_LINK_STOPPED |>) else
  let* dma :=
    (let* v := io (load8 (AZALIA_MMIO + 0x4C)) in cret (negb (v .& 2 =? 0))) orelse
    (let* v := io (load8 (AZALIA_MMIO + 0x5C)) in cret (negb (v .& 2 =? 0))) in
  if dma then modify (fun a => a <| a_status := AZALIA_COMMAND_DMA_ACTIVE |>) else
  let* mask := io (load16 (AZALIA_MMIO + 0xE)) in
  modify (fun a => a <| a_codec_mask := mask .& 0x7FFF |>) ;*
  azalia_probe_codec immediate_verb ;*
  cret tt.

Definition azalia_driver_service (operation : Z) : code azalia_state Z :=
  let* cs := io (access (ReadReg CS)) in
  let cs := u16 cs in
  if negb (cs .& 3 =? 1) then cret AZALIA_WRONG_RING else
  if 2 <? operation then cret AZALIA_BAD_REQUEST else
  let* busy := gets a_busy in
  modify (fun a => a <| a_busy := 1 |>) ;*
  if negb (busy =? 0) then cret AZALIA_BUSY else
  modify (fun a => a <| a_observed_cpl := cs .& 3 |>) ;*
  let* status := gets a_status in
  (if (operation =? 0) && negb (status =? AZALIA_CODEC_READY) then query_codec else cret tt) ;*
  let* result := gets (fun a => if operation =? 2 then a_codec_id a else a_status a) in
  modify (fun a => a <| a_busy := 0 |>) ;*
  cret result.

Definition map_page (address physical flags : Z) : prog bus unit :=
  let! mapped := api "get_physical_address" [0x30030000; address] in
  if negb (mapped =? 0) then kpanic "Cannot map Azalia driver memory" else
  let! ok := api "map_page" [address; physical; flags] in
  if ok =? 0 then kpanic "Cannot map Azalia driver memory" else Ret tt.

Record azalia_kernel := { audio : azalia_state; initialized : Z }.
#[export] Instance eta_azalia_kernel : Eta azalia_kernel := fun k =>
  Build_azalia_kernel (audio k) (initialized k).

Definition set_audio (f : azalia_state -> azalia_state) : code azalia_kernel unit :=
  modify (fun k => k <| audio := f (audio k) |>).

(** The ring-1 stacks, descriptors and gate. *)
Definition publish_audio (service : Z) : code azalia_kernel unit :=
  io (for_range (Z.to_nat (AZALIA_STACK_BYTES / 4096)) 0 (fun page =>
        let! physical := api "pmm_alloc_page" [] in
        if physical =? 0 then kpanic "No memory for Azalia ring-1 stacks" else
        map_page (AZALIA_STACKS + page * 4096) physical 3)) ;*
  io (memset AZALIA_STACKS 0 AZALIA_STACK_BYTES) ;*
  let* code := io (api "gdt_create_code_descriptor" [0; 0xFFFFFFFF; 0x20]) in
  set_audio (fun a => a <| a_code_selector := code .| 1 |>) ;*
  let* data := io (api "gdt_create_data_descriptor" [0; 0xFFFFFFFF; 0x20]) in
  set_audio (fun a => a <| a_data_selector := data .| 1 |>) ;*
  let* gate := io (api "gdt_alloc_selector" []) in
  set_audio (fun a => a <| a_gate_selector := gate |>) ;*
  if (code .| 1 =? 1) || (data .| 1 =? 1) || (gate =? 0)
  then cpanic "Cannot create Azalia ring-1 descriptors" else
  let* entry := io (load32 AZALIA_ENTRY_ADDRESS) in
  io (api "gdt_write_raw_descriptor" [gate; ((code .| 1) <<% 16) .| (entry .& 0xFFFF);
                                      (entry .& 0xFFFF0000) .| 0xEC00]) ;*
  io (store32 AZALIA_DATA_ADDRESS (data .| 1)) ;*
  io (store32 AZALIA_SERVICE_ADDRESS service) ;*
  io (store32 AZALIA_GATE_ADDRESS (gate .| 3)) ;*
  set_audio (fun a => a <| a_status := AZALIA_CONTROLLER_READY |>).

(** [state] and [service] are the addresses of [audio] and of the service. *)
Definition azalia_initialize (state service : Z) : code azalia_kernel unit :=
  let* flags := io (access (ReadReg EFLAGS)) in
  if negb (flags .& 0x200 =? 0) then cpanic "Initialize Azalia before enabling interrupts" else
  let* done := gets initialized in
  if negb (done =? 0) then cret tt else
  modify (fun k => k <| initialized := 1 |>) ;*
  io (store32 AZALIA_STATE_ADDRESS state) ;*
  let* pci := io find_controller in
  if pci =? 0xFFFFFFFF then cret tt else
  let* id := io (pci_read pci 0) in
  set_audio (fun a => a <| a_pci := pci |> <| a_controller_id := id |>) ;*
  let* bar := io (pci_read pci 0x10) in
  let type := bar .& 7 in
  let base := bar .& not32 0xF in
  let* bad :=
    cret (negb (type =? 0) && negb (type =? 4)) orelse
    (cret (type =? 4) andalso (let* v := io (pci_read pci 0x14) in cret (negb (v =? 0)))) orelse
    cret ((base <? 0x40000000) || (0xFFFFC000 <? base) || negb (base .& 0x3FFF =? 0)) orelse
    (let* v := io (pci_read pci 4) in cret (v .& 2 =? 0)) in
  if bad then set_audio (fun a => a <| a_status := AZALIA_BAD_BAR |>) else
  set_audio (fun a => a <| a_mmio_physical := base |>) ;*
  io (for_range 4 0 (fun page => map_page (AZALIA_MMIO + page * 4096) (base +% page * 4096) 0x1B)) ;*
  let* capabilities := io (load16 AZALIA_MMIO) in
  set_audio (fun a => a <| a_capabilities := capabilities |>) ;*
  let* mask := io (load16 (AZALIA_MMIO + 0xE)) in
  set_audio (fun a => a <| a_codec_mask := mask .& 0x7FFF |>) ;*
  if capabilities =? 0xFFFF then set_audio (fun a => a <| a_status := AZALIA_BAD_BAR |>) else
  publish_audio service.
