(* ===== verification/AzaliaSafety.v ===== *)
(** * The audio service is contained

    What a codec can answer is arbitrary; what the probe then asks and stores is not. *)
From stdpp Require Import list gmap strings.
From S2P Require Import Prelude Machine Runtime Ring Azalia.

(** ** Verbs *)

(** The fields of a well-formed verb. *)
Definition verb_of (codec node verb payload c : Z) : Prop :=
  0 <= codec <= 14 /\ 0 <= node <= 255 /\ 0 <= verb <= 0xFFF /\ 0 <= payload <= 255 /\
  c = codec * 2 ^ 28 + node * 2 ^ 20 + verb * 2 ^ 8 + payload.
Definition valid_verb (c : Z) : Prop := exists codec node verb payload, verb_of codec node verb payload c.

Lemma azalia_verb_ok codec node verb payload :
  0 <= codec <= 14 -> 0 <= node <= 255 -> 0 <= verb <= 0xFFF -> 0 <= payload <= 255 ->
  verb_of codec node verb payload (azalia_verb codec node verb payload).
Proof.
  intros Hc Hn Hv Hp. unfold verb_of, azalia_verb.
  destruct (Z.ltb_spec 14 codec); [lia|]. destruct (Z.ltb_spec 255 node); [lia|].
  destruct (Z.ltb_spec 0xFFF verb); [lia|]. destruct (Z.ltb_spec 255 payload); [lia|]. cbn [orb].
  repeat split; try lia. rewrite !shl32_small by lia.
  rewrite (lor_add 28) by (unfold in_u; lia).
  replace (codec * 2 ^ 28 + node * 2 ^ 20) with ((codec * 2 ^ 8 + node) * 2 ^ 20) by lia.
  rewrite (lor_add 20) by (unfold in_u; lia).
  replace ((codec * 2 ^ 8 + node) * 2 ^ 20 + verb * 2 ^ 8) with (((codec * 2 ^ 8 + node) * 2 ^ 12 + verb) * 2 ^ 8) by lia.
  rewrite (lor_add 8) by (unfold in_u; lia). lia.
Qed.

(** ** The policy *)
Definition ring_one (t : trace) : Prop := exists cs, (ReadReg CS, cs) ∈ t /\ u16 cs .& 3 = 1.

(** The link runs and both command engines were seen stopped. *)
Definition link_idle (t : trace) : Prop :=
  (exists v, (Load W32 (AZALIA_MMIO + 8), v) ∈ t /\ v .& 1 <> 0) /\
  (exists v, (Load W8 (AZALIA_MMIO + 0x4C), v) ∈ t /\ v .& 2 = 0) /\
  (exists v, (Load W8 (AZALIA_MMIO + 0x5C), v) ∈ t /\ v .& 2 = 0).

Definition command_access (e : bus) : Prop :=
  match e with
  | Store W32 a v => a = AZALIA_MMIO + 0x60 /\ valid_verb v
  | Store W16 a v => a = AZALIA_MMIO + 0x68 /\ (v = 0 \/ v = 1 \/ v = 2)
  | Load _ a => AZALIA_MMIO <= a < AZALIA_MMIO + 0x4000
  | _ => False
  end.

Definition audio_policy (t : trace) (e : bus) : Prop :=
  e = ReadReg CS \/
  ring_one t /\ (command_access e /\ link_idle t \/
                 match e with Load _ a => AZALIA_MMIO <= a < AZALIA_MMIO + 0x4000 | _ => False end).

(** ** Sending a verb *)
Definition quiet (a : azalia_state) : azalia_state := a <| a_last_command := 0 |> <| a_commands := 0 |>.
Definition open (t : trace) : Prop := ring_one t /\ link_idle t.
Definition calm (P : azalia_state -> Prop) (a : azalia_state) (t : trace) : Prop := P (quiet a) /\ open t.

Lemma ring_one_grows x t : ring_one t -> ring_one (x :: t).
Proof. intros (cs & H & Hc). exists cs. split; [now apply list_elem_of_further|exact Hc]. Qed.

Lemma link_idle_grows x t : link_idle t -> link_idle (x :: t).
Proof.
  intros ((v1 & I1 & J1) & (v2 & I2 & J2) & (v3 & I3 & J3)). unfold link_idle.
  repeat split; eexists; (split; [apply list_elem_of_further; eassumption|assumption]).
Qed.

Lemma open_grows x t : open t -> open (x :: t).
Proof. intros [H1 H2]. split; [now apply ring_one_grows|now apply link_idle_grows]. Qed.

Lemma calm_access P e : command_access e -> safe_access audio_policy (calm P) e.
Proof.
  intros He a t [HP Ht]. split; [right; split; [apply Ht|]; left; split; [exact He|apply Ht]|].
  intros v _. split; [exact HP|now apply open_grows].
Qed.

(** What the probe relies on: a verb, if well formed, leaves everything else alone. *)
Definition sends (send : Z -> code azalia_state (option Z)) : Prop :=
  forall P c, valid_verb c ->
  triple audio_policy (calm P) (send c) (fun r a t => calm P a t /\ (forall v, r = Some v -> is_u32 v)).

Lemma status_access v : v = 0 \/ v = 1 \/ v = 2 -> command_access (Store W16 (AZALIA_MMIO + 0x68) v).
Proof. now split. Qed.

Lemma immediate_verb_sends : sends immediate_verb.
Proof.
  intros P c Hc. unfold immediate_verb. cbv zeta.
  set (Q := fun (r : option Z) a t => calm P a t /\ (forall v, r = Some v -> is_u32 v)).
  assert (forall a t, calm P a t -> Q None a t) as Hnone by (intros a t Hp; split; [exact Hp|discriminate]).
  eapply triple_bind; [apply keeps_access, calm_access; cbn; lia|]. intros v. cbn beta.
  apply triple_if; intros _; [apply triple_ret; exact Hnone|].
  eapply triple_bind; [apply keeps_write, calm_access, status_access; tauto|]. intros ?u. cbn beta.
  eapply triple_bind; [apply keeps_write, calm_access; now split|]. intros ?u. cbn beta.
  eapply triple_bind; [apply keeps_modify; intros b t Hp; exact Hp|]. intros ?u. cbn beta.
  eapply triple_bind; [apply keeps_write, calm_access, status_access; tauto|]. intros ?u. cbn beta.
  eapply triple_bind with (R := fun r a t => match r with Some x => Q x a t | None => calm P a t end).
  - apply (triple_loop audio_policy (fun _ => calm P)); [|auto]. intros j _.
    eapply triple_bind; [apply keeps_access, calm_access; cbn; lia|]. intros value. cbn beta.
    apply triple_if; intros _; [|apply triple_ret; auto].
    apply triple_if; intros _; [apply triple_ret; exact Hnone|].
    eapply triple_bind with (R := fun x a t => calm P a t /\ is_u32 x).
    { apply triple_access; intros; edestruct (calm_access P (Load W32 (AZALIA_MMIO + 0x64))) as [? Hn];
        [cbn; lia|eassumption| |cbn; lia|eassumption|]; [assumption|]. split; [now apply Hn|assumption]. }
    intros x. apply triple_pure. intros Hx.
    eapply triple_bind; [apply keeps_write, calm_access, status_access; tauto|]. intros ?u. cbn beta.
    apply triple_ret. intros b t Hp. split; [exact Hp|]. congruence.
  - intros [x|]; [apply triple_ret; auto|].
    eapply triple_bind; [apply keeps_write, calm_access, status_access; tauto|]. intros ?u. apply triple_ret. exact Hnone.
Qed.

(** ** The probe *)
Definition wf (a : azalia_state) : Prop :=
  length (a_widgets a) = 64%nat /\ 0 <= a_codec_address a <= 14 /\ 0 <= a_audio_group a <= 255.

(** The nodes of the first [n] widgets are consecutive from [start]. *)
Definition nodes_from (start : Z) (n : nat) (l : list azalia_widget) : Prop :=
  forall j w, (j < n)%nat -> l !! j = Some w -> w_node w = start + Z.of_nat j.

(** A codec was found, with its audio group and widgets. *)
Definition described (a : azalia_state) : Prop :=
  a_codec_id a = ALC269_CODEC_ID /\ 1 <= a_audio_group a <= 255 /\ 1 <= a_widget_count a <= 64 /\
  exists start, 1 <= start /\ start + a_widget_count a <= 256 /\
    nodes_from start (Z.to_nat (a_widget_count a)) (a_widgets a).

Section PROBE_OK.
Context (send : Z -> code azalia_state (option Z)) (Hsend : sends send).
Abbreviation ok := audio_policy.
Implicit Types P Q : azalia_state -> Prop.

Lemma send_codec P node verb payload :
  (forall a, P a -> wf a) -> 0 <= node <= 255 -> 0 <= verb <= 0xFFF -> 0 <= payload <= 255 ->
  triple ok (calm P) (let* codec := gets a_codec_address in send (azalia_verb codec node verb payload))
    (fun r a t => calm P a t /\ (forall v, r = Some v -> is_u32 v)).
Proof.
  intros HP Hn Hv Hp. apply triple_gets_bind. intros codec.
  eapply triple_pre with (P' := fun a t => calm P a t /\ 0 <= codec <= 14).
  2:{ intros a t [Hc <-]. split; [exact Hc|]. apply (HP _ (proj1 Hc)). }
  apply triple_pure. intros Hcodec. apply Hsend. do 4 eexists. now apply azalia_verb_ok.
Qed.

Lemma parameter_ok P node id :
  (forall a, P a -> wf a) -> 0 <= node <= 255 -> 0 <= id <= 255 ->
  triple ok (calm P) (parameter send node id) (fun r a t => calm P a t /\ (forall v, r = Some v -> is_u32 v)).
Proof. intros. apply send_codec; auto; lia. Qed.

(** A query, then what follows a response; a missing one satisfies the invariant. *)
Lemma triple_query {B} P (m : code azalia_state (option Z)) (k : option Z -> code azalia_state B) R :
  triple ok (calm P) m (fun r a t => calm P a t /\ (forall v, r = Some v -> is_u32 v)) ->
  triple ok (calm P) (k None) R -> (forall v, is_u32 v -> triple ok (calm P) (k (Some v)) R) ->
  triple ok (calm P) (cbind m k) R.
Proof.
  intros Hm HN HS. eapply triple_bind; [exact Hm|]. intros [v|]; cbn beta.
  - eapply triple_pre with (P' := fun a t => calm P a t /\ is_u32 v); [apply triple_pure; apply HS|].
    intros a t [Hc Hv]. split; [exact Hc|]. now apply Hv.
  - eapply triple_pre; [exact HN|tauto].
Qed.

Lemma triple_assoc_query {A B} P (m : code azalia_state A) (k : A -> code azalia_state (option Z))
    (h : option Z -> code azalia_state B) R :
  triple ok (calm P) (cbind m k) (fun r a t => calm P a t /\ (forall v, r = Some v -> is_u32 v)) ->
  triple ok (calm P) (h None) R -> (forall v, is_u32 v -> triple ok (calm P) (h (Some v)) R) ->
  triple ok (calm P) (cbind m (fun x => cbind (k x) h)) R.
Proof. intros. now apply triple_assoc, triple_query. Qed.

Lemma triple_calm P Q (f : azalia_state -> azalia_state) :
  (forall a, P (quiet a) -> Q (quiet (f a))) -> triple ok (calm P) (modify f) (fun _ => calm Q).
Proof. intros H. apply triple_modify. intros a t [Ha Ht]. split; [now apply H|exact Ht]. Qed.

(** The result of a step: the wanted state, or an error that keeps the shape. *)
Definition step_to Q (r : Z + unit) : azalia_state -> trace -> Prop :=
  match r with
  | inl status => calm (fun a => wf a /\ status <> AZALIA_CODEC_READY)
  | inr _ => calm Q
  end.

Lemma step_fails P Q status :
  (forall a, P a -> wf a) -> status <> AZALIA_CODEC_READY ->
  triple ok (calm P) (cret (inl status)) (step_to Q).
Proof. intros HP Hs. apply triple_ret. intros a t [Ha Ht]. split; [|exact Ht]. split; [now apply HP|exact Hs]. Qed.

(** A search loop that leaves with [Some true] when found and [Some false] on a timeout. *)
Lemma search_exit P Q (test : azalia_state -> Z) error (r : option bool) :
  (forall a, P a -> wf a) -> error <> AZALIA_CODEC_READY ->
  (r = None -> forall a, P a -> test a = 0) -> (r = Some true -> forall a, P a -> Q a) ->
  (forall a, test (quiet a) = test a) ->
  triple ok (calm P)
    (if match r with Some false => true | _ => false end then cret (inl AZALIA_COMMAND_TIMEOUT) else
     let* x := gets test in cret (if x =? 0 then inl error else inr tt)) (step_to Q).
Proof.
  intros HP He HN HT Hq. destruct r as [[|]|]; [|now apply step_fails|]; apply triple_gets_bind; intros x.
  - apply triple_ret. intros a t [[Ha Ht] _]. destruct (x =? 0); (split; [|exact Ht]); [|now apply HT].
    split; [now apply HP|exact He].
  - apply triple_ret. intros a t [[Ha Ht] Ex]. rewrite (proj2 (Z.eqb_eq x 0)).
    + split; [|exact Ht]. split; [now apply HP|exact He].
    + rewrite <- Ex, <- Hq. now apply HN.
Qed.

Lemma find_codec_ok :
  triple ok (calm (fun a => wf a /\ a_codec_id a = 0 /\ a_audio_group a = 0 /\ a_widget_count a = 0)) (find_codec send)
    (step_to (fun a => wf a /\ a_codec_id a = ALC269_CODEC_ID /\ a_audio_group a = 0 /\ a_widget_count a = 0)).
Proof.
  unfold find_codec. set (I0 := fun a => wf a /\ a_codec_id a = 0 /\ a_audio_group a = 0 /\ a_widget_count a = 0).
  set (I1 := fun a => wf a /\ a_codec_id a = ALC269_CODEC_ID /\ a_audio_group a = 0 /\ a_widget_count a = 0).
  eapply triple_bind with (R := fun (r : option bool) => calm (if r is Some true then I1 else I0)).
  - apply (triple_loop ok (fun _ => calm I0)); [|auto]. intros codec Hc. change (0 + Z.of_nat 15) with 15 in Hc.
    apply triple_gets_bind. intros mask. eapply triple_pre with (P' := calm I0); [|tauto].
    apply triple_if; intros _; [apply triple_ret; auto|].
    eapply triple_bind; [apply (triple_calm I0 I0)|].
    { intros a ((Hl & _ & Hg) & Hid). exact (conj (conj Hl (conj (conj (proj1 Hc) (proj1 (Z.lt_succ_r codec 14) (proj2 Hc))) Hg)) Hid). }
    intros ?u. cbn beta. apply triple_query.
    + apply parameter_ok; [now intros ? []|lia|lia].
    + apply triple_ret. auto.
    + intros v Hv. apply triple_if; intros E; [|apply triple_ret; auto]. bool_to_prop. subst v.
      eapply triple_bind; [apply (triple_calm I0 I1)|intros ?u; apply triple_ret; auto].
      intros b (Hw & _ & Hg). exact (conj Hw (conj eq_refl Hg)).
  - intros r. apply search_exit; [|discriminate| | |reflexivity].
    + destruct r as [[|]|]; now intros ? [].
    + intros ->. now intros ? (_ & -> & _).
    + intros ->. auto.
Qed.

Lemma find_group_ok start count :
  1 <= start -> 0 <= count -> start + count <= 256 ->
  triple ok (calm (fun a => wf a /\ a_codec_id a = ALC269_CODEC_ID /\ a_audio_group a = 0 /\ a_widget_count a = 0)) (find_group send start count)
    (step_to (fun a => wf a /\ a_codec_id a = ALC269_CODEC_ID /\ 1 <= a_audio_group a /\ a_widget_count a = 0)).
Proof.
  intros Hs Hc Hsc. unfold find_group. set (I0 := fun a => wf a /\ a_codec_id a = ALC269_CODEC_ID /\ a_audio_group a = 0 /\ a_widget_count a = 0).
  set (I1 := fun a => wf a /\ a_codec_id a = ALC269_CODEC_ID /\ 1 <= a_audio_group a /\ a_widget_count a = 0).
  eapply triple_bind with (R := fun (r : option bool) => calm (if r is Some true then I1 else I0)).
  - apply (triple_loop ok (fun _ => calm I0)); [|auto]. intros node Hnd. rewrite Z2Nat.id in Hnd by lia.
    apply triple_query; [apply parameter_ok; [now intros ? []|lia|lia]|apply triple_ret; auto|].
    intros v _. apply triple_if; intros _; [|apply triple_ret; auto].
    eapply triple_bind; [apply (triple_calm I0 I1)|intros ?u; apply triple_ret; auto].
    intros a ((Hl & Hca & _) & Hid & _ & Hn). assert (0 <= node <= 255 /\ 1 <= node) as [H1 H2] by lia.
    exact (conj (conj Hl (conj Hca H1)) (conj Hid (conj H2 Hn))).
  - intros r. apply search_exit; [|discriminate| | |reflexivity].
    + destruct r as [[|]|]; now intros ? [].
    + intros ->. now intros ? (_ & _ & -> & _).
    + intros ->. auto.
Qed.

(** *** The widgets *)
Lemma nodes_alter start n l i (f : azalia_widget -> azalia_widget) :
  (forall w, w_node (f w) = w_node w) -> nodes_from start n l -> nodes_from start n (alter f i l).
Proof.
  intros Hf Hl j w Hj. destruct (decide (i = j)) as [->|Hne].
  - rewrite list_lookup_alter_eq. intros Hw. apply fmap_Some in Hw as (w0 & Hw0 & ->). rewrite Hf. now apply Hl.
  - rewrite list_lookup_alter_ne by exact Hne. now apply Hl.
Qed.

Lemma nodes_next start i l (f : azalia_widget -> azalia_widget) :
  (forall w, w_node (f w) = start + Z.of_nat i) -> nodes_from start i l -> nodes_from start (S i) (alter f i l).
Proof.
  intros Hf Hl j w Hj. destruct (decide (i = j)) as [<-|Hne].
  - rewrite list_lookup_alter_eq. intros Hw. apply fmap_Some in Hw as (w0 & Hw0 & ->). apply Hf.
  - rewrite list_lookup_alter_ne by exact Hne. apply Hl. lia.
Qed.

(** [n] widgets are named and [count] of them are complete. *)
Definition named (start : Z) (n : nat) (count : Z) (a : azalia_state) : Prop :=
  wf a /\ a_codec_id a = ALC269_CODEC_ID /\ 1 <= a_audio_group a /\ a_widget_count a = count /\
  nodes_from start n (a_widgets a).

Lemma named_wf start n count a : named start n count a -> wf a.
Proof. now intros []. Qed.

Lemma named_set start n count i (f : azalia_widget -> azalia_widget) :
  (forall w, w_node (f w) = w_node w) ->
  triple ok (calm (named start n count)) (set_widget i f) (fun _ => calm (named start n count)).
Proof.
  intros Hf. apply triple_calm. intros a ((Hl & Hc & Hg) & Hid & Hg1 & Hn & Hw).
  split; [|exact (conj Hid (conj Hg1 (conj Hn (nodes_alter _ _ _ _ _ Hf Hw))))].
  split; [|exact (conj Hc Hg)]. cbn in *. now rewrite length_alter.
Qed.

Lemma probe_widget_ok start (i : Z) :
  1 <= start -> 0 <= i < 64 -> start + i <= 255 ->
  triple ok (calm (named start (Z.to_nat i) i)) (probe_widget send start i)
    (fun r => calm (if r : bool then named start (Z.to_nat (i + 1)) (i + 1) else wf)).
Proof.
  intros Hs Hi Hsi. unfold probe_widget. rewrite add32_small by lia. cbv zeta.
  set (M := named start (S (Z.to_nat i)) i). pose proof (named_wf start (S (Z.to_nat i)) i) as HM. fold M in HM.
  assert (triple ok (calm M) (cret false) (fun r => calm (if r : bool then named start (Z.to_nat (i + 1)) (i + 1) else wf))) as Hfail.
  { apply triple_ret. intros a t [Ha Ht]. split; [now apply HM|exact Ht]. }
  eapply triple_bind with (R := fun _ => calm M).
  { apply triple_calm. intros a ((Hl & Hc & Hg) & Hid & Hg1 & Hn & Hw).
    split; [split; [|exact (conj Hc Hg)]; cbn in *; now rewrite length_alter|].
    refine (conj Hid (conj Hg1 (conj Hn _))). apply nodes_next; [|exact Hw]. intros w. cbn. lia. }
  intros _. apply triple_query; [apply parameter_ok; [exact HM|lia|lia]|exact Hfail|]. intros capabilities _.
  eapply triple_bind; [now apply named_set|]. intros ?u. cbn beta. fold M.
  eapply triple_bind with (R := fun _ => calm M).
  { apply triple_if; intros _; [|apply triple_ret; auto].
    eapply triple_pre; [|intros a t H; exact H].
    apply triple_assoc_query; [apply send_codec; [exact HM|lia|lia|lia]|apply triple_ret; auto|]. intros v _.
    eapply triple_bind; [now apply named_set|]. intros ?u. apply triple_ret. auto. }
  intros pin. apply triple_if; intros _; [exact Hfail|].
  eapply triple_bind with (R := fun _ => calm M).
  { apply triple_if; intros _; [|apply triple_ret; auto]. apply triple_gets_bind. intros group.
    eapply triple_pre with (P' := fun a t => calm M a t /\ 1 <= group <= 255).
    2:{ intros a t [Ha <-]. split; [exact Ha|]. destruct Ha as [((_ & _ & Hg) & _ & Hg1 & _) _]. cbn in *. lia. }
    apply triple_pure. intros Hg. set (format_node := if negb _ then start + i else group).
    assert (0 <= format_node <= 255) as Hfn by (unfold format_node; case_if; lia).
    apply triple_query; [apply parameter_ok; [exact HM|lia|lia]|apply triple_ret; auto|]. intros pcm _.
    eapply triple_bind; [now apply named_set|]. intros ?u. cbn beta. fold M.
    apply triple_query; [apply parameter_ok; [exact HM|lia|lia]|apply triple_ret; auto|]. intros formats _.
    eapply triple_bind; [now apply named_set|]. intros ?u. apply triple_ret. auto. }
  intros formats. apply triple_if; intros _; [exact Hfail|].
  eapply triple_bind with (R := fun _ => calm (named start (Z.to_nat (i + 1)) (i + 1))); [|intros ?u; apply triple_ret; auto].
  apply triple_calm. replace (Z.to_nat (i + 1)) with (S (Z.to_nat i)) by lia.
  intros a (Hw & Hid & Hg & Hn & Hns). refine (conj Hw (conj Hid (conj Hg (conj _ Hns)))).
  cbn in *. rewrite Hn. apply add32_small. lia.
Qed.

Lemma probe_widgets_ok start count :
  1 <= start -> 1 <= count <= 64 -> start + count <= 256 ->
  triple ok (calm (named start 0 0)) (probe_widgets send start count) (step_to (fun a => wf a /\ described a)).
Proof.
  intros Hs Hc Hsc. unfold probe_widgets.
  eapply triple_bind with (R := fun (r : option unit) => calm (if r is None then named start (Z.to_nat count) count else wf)).
  - apply (triple_loop ok (fun i => calm (named start (Z.to_nat i) i))).
    + intros i Hi. rewrite Z2Nat.id in Hi by lia. eapply triple_bind; [apply probe_widget_ok; lia|].
      intros [|]; apply triple_ret; auto.
    + rewrite Z2Nat.id by lia. auto.
  - intros [[]|]; apply triple_ret; intros a t [Ha Ht]; (split; [|exact Ht]).
    + split; [exact Ha|discriminate].
    + destruct Ha as ((Hl & Hca & Hg) & Hid & Hg1 & Hn & Hns). split; [exact (conj Hl (conj Hca Hg))|].
      unfold described. rewrite Hn. split; [exact Hid|]. split; [lia|]. split; [lia|]. exists start.
      exact (conj Hs (conj Hsc Hns)).
Qed.

Lemma bad_range_false start count limit :
  0 <= start -> 0 <= count -> bad_range start count limit = false ->
  1 <= start /\ 1 <= count <= limit /\ start + count <= 256.
Proof. intros Hs Hc H. unfold bad_range in H. bool_to_prop. lia. Qed.

Lemma node_range_ok nodes : 0 <= fst (node_range nodes) /\ 0 <= snd (node_range nodes).
Proof. unfold node_range. cbn. split; apply Z.land_nonneg; lia. Qed.

Lemma triple_then P Q R (m : code azalia_state (Z + unit)) (k : code azalia_state (Z + unit)) :
  triple ok (calm P) m (step_to Q) -> triple ok (calm Q) k (step_to R) ->
  triple ok (calm P) (then_probe m k) (step_to R).
Proof.
  intros Hm Hk. unfold then_probe. eapply triple_bind; [exact Hm|]. intros [status|[]]; [|exact Hk].
  apply triple_ret. auto.
Qed.

Lemma triple_or_timeout P Q (m : code azalia_state (option Z)) (k : Z -> code azalia_state (Z + unit)) :
  (forall a, P a -> wf a) ->
  triple ok (calm P) m (fun r a t => calm P a t /\ (forall v, r = Some v -> is_u32 v)) ->
  (forall v, is_u32 v -> triple ok (calm P) (k v) (step_to Q)) ->
  triple ok (calm P) (or_timeout m k) (step_to Q).
Proof. intros HP Hm Hk. apply triple_query; [exact Hm|now apply step_fails|exact Hk]. Qed.

Lemma probe_steps_ok :
  triple ok (calm (fun a => wf a /\ a_codec_id a = 0 /\ a_audio_group a = 0 /\ a_widget_count a = 0)) (probe_steps send)
    (step_to (fun a => wf a /\ described a)).
Proof.
  unfold probe_steps. eapply triple_then; [apply find_codec_ok|].
  set (P := fun a => wf a /\ a_codec_id a = ALC269_CODEC_ID /\ a_audio_group a = 0 /\ a_widget_count a = 0).
  assert (forall a, P a -> wf a) as HP by now intros a [].
  apply triple_or_timeout; [exact HP|apply parameter_ok; [exact HP|lia|lia]|]. intros revision _.
  eapply triple_bind; [apply (triple_calm P P); intros a Ha; exact Ha|]. intros ?u. cbn beta.
  apply triple_or_timeout; [exact HP|apply parameter_ok; [exact HP|lia|lia]|]. intros nodes _.
  pose proof (node_range_ok nodes) as [H0 H1]. destruct (node_range nodes) as [start count]. cbn [fst snd] in *.
  apply triple_if; intros E; [now apply step_fails|]. apply bad_range_false in E as (Hs & Hc & Hsc); [|assumption..].
  eapply triple_then; [apply find_group_ok; lia|].
  set (Q := fun a => wf a /\ a_codec_id a = ALC269_CODEC_ID /\ 1 <= a_audio_group a /\ a_widget_count a = 0).
  assert (forall a, Q a -> wf a) as HQ by now intros a [].
  apply triple_gets_bind. intros group.
  eapply triple_pre with (P' := fun a t => calm Q a t /\ 0 <= group <= 255).
  2:{ intros a t [Ha <-]. split; [exact Ha|]. now destruct Ha as [((_ & _ & Hg) & _) _]. }
  apply triple_pure. intros Hg.
  apply triple_or_timeout; [exact HQ|apply parameter_ok; [exact HQ|lia|lia]|]. intros nodes' _.
  pose proof (node_range_ok nodes') as [H2 H3]. destruct (node_range nodes') as [start' count']. cbn [fst snd] in *.
  apply triple_if; intros E; [now apply step_fails|]. apply bad_range_false in E as (Hs' & Hc' & Hsc'); [|assumption..].
  eapply triple_pre; [apply probe_widgets_ok; [lia|exact Hc'|lia]|].
  intros a t [(Hw & Hid & Hg1 & Hn) Ht]. split; [|exact Ht].
  refine (conj Hw (conj Hid (conj Hg1 (conj Hn _)))). intros j w Hj. lia.
Qed.

Lemma probe_codec_ok :
  triple ok (calm wf) (azalia_probe_codec send)
    (fun r => calm (fun a => wf a /\ a_status a = r /\ (r = AZALIA_CODEC_READY -> described a))).
Proof.
  unfold azalia_probe_codec.
  eapply triple_bind; [apply (triple_calm wf (fun a => wf a /\ a_codec_id a = 0 /\ a_audio_group a = 0 /\ a_widget_count a = 0))|].
  { intros a (Hl & Hc & _). assert (0 <= 0 <= 255) as Hz by lia.
    exact (conj (conj Hl (conj Hc Hz)) (conj eq_refl (conj eq_refl eq_refl))). }
  intros ?u. cbn beta. eapply triple_bind; [apply probe_steps_ok|]. intros r. unfold finish.
  eapply triple_bind with (R := fun _ => calm (fun a => wf a /\
    a_status a = match r with inl status => status | inr _ => AZALIA_CODEC_READY end /\
    (a_status a = AZALIA_CODEC_READY -> described a))).
  - destruct r as [status|[]]; apply triple_calm; cbn.
    + intros a [Hw Hne]. refine (conj Hw (conj eq_refl _)). intros E. now destruct Hne.
    + intros a [Hw Hd]. exact (conj Hw (conj eq_refl (fun _ => Hd))).
  - intros ?u. apply triple_ret. intros a t [(Hw & Hst & Hd) Ht]. split; [|exact Ht].
    refine (conj Hw (conj Hst _)). intros E. apply Hd. now rewrite Hst.
Qed.
End PROBE_OK.

(** ** The service *)
Definition sound (a : azalia_state) : Prop := wf a /\ (a_status a = AZALIA_CODEC_READY -> described a).

(** A register of the controller is read once ring 1 is established. *)
Lemma triple_audio_load {B} (F : trace -> Prop) w a (k : Z -> code azalia_state B) Q :
  AZALIA_MMIO <= a < AZALIA_MMIO + 0x4000 -> (forall x t, F t -> F (x :: t)) ->
  (forall v, triple audio_policy (fun g t => wf g /\ ring_one t /\ (F t /\ (Load w a, v) ∈ t)) (k v) Q) ->
  triple audio_policy (fun g t => wf g /\ ring_one t /\ F t) (cbind (lift (access (Load w a))) k) Q.
Proof.
  intros Ha HF Hk g t (Hw & Hr & Ht). cbn. split; [right; split; [exact Hr|now right]|].
  intros v t' [_ ->]. apply Hk. split; [exact Hw|]. split; [now apply ring_one_grows|].
  split; [now apply HF|apply list_elem_of_here].
Qed.

Lemma elem_grows {A} (y x : A) l : y ∈ l -> y ∈ x :: l.
Proof. apply list_elem_of_further. Qed.

Lemma query_codec_ok :
  triple audio_policy (fun a t => wf a /\ ring_one t /\ True) query_codec (fun _ a t => sound a).
Proof.
  assert (forall status (P : azalia_state -> trace -> Prop), status <> AZALIA_CODEC_READY -> (forall a t, P a t -> wf a) ->
    triple audio_policy P (modify (fun a => a <| a_status := status |>)) (fun _ a t => sound a)) as Hstop.
  { intros status P Hs HP. apply triple_modify. intros a t Ha. split; [exact (HP a t Ha)|]. intros E. now destruct Hs. }
  unfold query_codec. apply triple_audio_load; [lia|auto|]. intros gctl.
  apply triple_if; intros Eg; [apply Hstop; [discriminate|now intros a t []]|].
  eapply triple_bind with (R := fun (dma : bool) a t => wf a /\ ring_one t /\
    ((Load W32 (AZALIA_MMIO + 8), gctl) ∈ t /\ (dma = false ->
     (exists v, (Load W8 (AZALIA_MMIO + 0x4C), v) ∈ t /\ v .& 2 = 0) /\
     (exists v, (Load W8 (AZALIA_MMIO + 0x5C), v) ∈ t /\ v .& 2 = 0)))).
  - intros a t (Hw & Hr & _ & Hg). cbn. split; [right; split; [exact Hr|right; lia]|]. intros v t1 [_ ->].
    apply (ring_one_grows (Load W8 (AZALIA_MMIO + 0x4C), v)) in Hr.
    destruct (Z.eqb_spec (v .& 2) 0) as [Ev|Ev]; cbn.
    + split; [right; split; [exact Hr|right; lia]|]. intros w t2 [_ ->]. split; [exact Hw|].
      split; [now apply ring_one_grows|]. split; [now apply elem_grows, elem_grows|].
      intros Ew. bool_to_prop. split; [exists v|exists w]; (split; [in_trace|assumption]).
    + split; [exact Hw|]. split; [exact Hr|]. split; [now apply elem_grows|discriminate].
  - intros [|]; [apply Hstop; [discriminate|now intros a t []]|]. bool_to_prop.
    eapply triple_pre with (P' := fun a t => wf a /\ ring_one t /\ link_idle t).
    2:{ intros a t (Hw & Hr & Hg & Hd). split; [exact Hw|]. split; [exact Hr|]. split; [|now apply Hd].
        now exists gctl. }
    apply triple_audio_load; [lia|exact link_idle_grows|]. intros mask.
    eapply triple_bind with (R := fun _ => calm wf).
    { apply triple_modify. intros a t (Hw & Hr & Hl & _). exact (conj Hw (conj Hr Hl)). }
    intros ?u. eapply triple_bind; [apply probe_codec_ok, immediate_verb_sends|]. intros r. apply triple_ret.
    intros a t [(Hw & Hst & Hd) _]. split; [exact Hw|]. intros E. apply Hd. rewrite <- Hst. exact E.
Qed.

(** C24: the audio service, whatever it is asked and whatever the codec and the controller
    answer. A caller outside ring 1 causes no access and no change. Otherwise the device
    is only read until the link is seen running and both command engines are seen
    stopped; then the only stores are well-formed verbs (one of fifteen codecs, a node, a
    twelve-bit verb and a byte of payload, never the error value) to the command
    register and the three handshakes of the status register. On every return the lock
    is free and the widget table has its 64 entries, and the codec is reported ready
    only with the supported codec's id, an audio group, and between 1 and 64 widgets
    with consecutive node numbers that fit a byte. *)
Theorem azalia_service_safe a0 operation :
  sound a0 ->
  triple audio_policy (fun a t => a = a0) (azalia_driver_service operation)
    (fun r a t => sound a /\ (a_busy a0 = 0 -> a_busy a = 0) /\
                  (ring_one t \/ a = a0 /\ r = AZALIA_WRONG_RING)).
Proof.
  intros Hs a t ->. unfold azalia_driver_service. apply wp_read; [now left|]. intros cs t1 [_ ->]. cbv zeta.
  case_if; [now split; [|split; [|right]]|]. bool_to_prop.
  assert (ring_one ((ReadReg CS, cs) :: t)) as Hr by (exists cs; split; [apply list_elem_of_here|assumption]).
  case_if; [now split; [|split; [|left]]|].
  apply wp_gets, wp_modify. destruct (a_busy a0 =? 0) eqn:Eb; cbn [negb]; bool_to_prop.
  2:{ split; [exact Hs|]. split; [now intros|now left]. }
  apply wp_modify, wp_gets. apply wp_cbind.
  match goal with |- wp _ (?m ?g) _ ?tr =>
    assert (triple audio_policy (fun a t => sound a /\ ring_one t) m (fun _ a t => sound a)) as Hm end.
  { apply triple_if; intros _; [|apply triple_ret; tauto].
    eapply triple_pre; [apply query_codec_ok|]. intros a t' [[Hw _] Hr']. now split; [|split]. }
  eapply wp_mono; [|apply wp_trace, Hm; split; [exact Hs|exact Hr]].
  intros [[u a]|m| |] t' [H (d & -> & _)]; cbn in *; auto. split; [exact H|]. split; [reflexivity|]. left.
  clear - Hr. induction d as [|x d IH]; [exact Hr|now apply ring_one_grows].
Qed.

Lemma azalia_service_safe_witness :
  sound zero_azalia /\
  wp (any_hw audio_policy) (azalia_driver_service 0 zero_azalia)
    (post (fun r a t => sound a /\ a_busy a = 0)) [].
Proof.
  assert (sound zero_azalia) as H.
  { split; [|discriminate]. split; [reflexivity|]. cbn. lia. }
  split; [exact H|].
  eapply wp_mono; [|exact (azalia_service_safe zero_azalia 0 H zero_azalia [] eq_refl)].
  intros [[r a]|m| |] t; cbn; auto. intros (Hs & Hb & _). auto.
Defined.
