(* ===== verification/Vga.v ===== *)
(** * The VGA text mode: [Drivers/Vga/VgaTextMode.c]

    The startup font is read out of plane 2 before anything else uses the display, and a
    panic programs mode 3 again and writes the font back. The ports and the font window
    are bus accesses; [startup_font] and its state word are the statics, beside those of
    the graphics driver that the restore calls first. *)
From stdpp Require Import list gmap strings.
From S2P Require Import Prelude Machine Ring Intel915.

Definition VGA_FONT_MEMORY : Z := 0x80A00000.
Definition VGA_GLYPH_COUNT : Z := 256.
Definition VGA_GLYPH_HEIGHT : Z := 16.
Definition VGA_GLYPH_SLOT_SIZE : Z := 32.
Definition VGA_MISC_WRITE : Z := 0x03C2.
Definition VGA_SEQUENCER_INDEX : Z := 0x03C4.
Definition VGA_SEQUENCER_DATA : Z := 0x03C5.
Definition VGA_DAC_MASK : Z := 0x03C6.
Definition VGA_DAC_WRITE_INDEX : Z := 0x03C8.
Definition VGA_DAC_DATA : Z := 0x03C9.
Definition VGA_GRAPHICS_INDEX : Z := 0x03CE.
Definition VGA_GRAPHICS_DATA : Z := 0x03CF.
Definition VGA_ATTRIBUTE_INDEX : Z := 0x03C0.
Definition VGA_CRTC_INDEX : Z := 0x03D4.
Definition VGA_CRTC_DATA : Z := 0x03D5.
Definition VGA_INPUT_STATUS_1 : Z := 0x03DA.
Definition VGA_FONT_NOT_CAPTURED : Z := 0x56474100.
Definition VGA_FONT_CAPTURED : Z := 0x56474101.

Record vga_statics := { startup_font : list Z; startup_font_state : Z; v_gpu : intel915_kernel }.
#[export] Instance eta_vga : Eta vga_statics := fun v =>
  Build_vga_statics (startup_font v) (startup_font_state v) (v_gpu v).

Definition mode3_sequencer : list Z := [0x00; 0x03; 0x00; 0x02].
Definition mode3_crtc : list Z :=
  [0x5F; 0x4F; 0x50; 0x82; 0x55; 0x81; 0xBF; 0x1F; 0x00; 0x4F; 0x0D; 0x0E; 0x00; 0x00; 0x00; 0x00;
   0x9C; 0x8E; 0x8F; 0x28; 0x1F; 0x96; 0xB9; 0xA3; 0xFF].
Definition mode3_graphics : list Z := [0x00; 0x00; 0x00; 0x00; 0x00; 0x10; 0x0E; 0x0F; 0xFF].
Definition mode3_attribute : list Z :=
  [0x00; 0x01; 0x02; 0x03; 0x04; 0x05; 0x14; 0x07; 0x38; 0x39; 0x3A; 0x3B; 0x3C; 0x3D; 0x3E; 0x3F;
   0x0C; 0x00; 0x0F; 0x08].
Definition mode3_palette : list (Z * Z * Z) :=
  [(0x00, 0x00, 0x00); (0x00, 0x00, 0x2A); (0x00, 0x2A, 0x00); (0x00, 0x2A, 0x2A);
   (0x2A, 0x00, 0x00); (0x2A, 0x00, 0x2A); (0x2A, 0x15, 0x00); (0x2A, 0x2A, 0x2A);
   (0x15, 0x15, 0x15); (0x15, 0x15, 0x3F); (0x15, 0x3F, 0x15); (0x15, 0x3F, 0x3F);
   (0x3F, 0x15, 0x15); (0x3F, 0x15, 0x3F); (0x3F, 0x3F, 0x15); (0x3F, 0x3F, 0x3F)].

Definition vga_out8 (port value : Z) : prog bus unit := out8 port value.
Definition vga_in8 (port : Z) : prog bus Z := in8 port.

Definition vga_write_indexed (index_port data_port index value : Z) : prog bus unit :=
  vga_out8 index_port index ;;
  vga_out8 data_port value.

Definition vga_begin_font_access : prog bus unit :=
  vga_write_indexed VGA_SEQUENCER_INDEX VGA_SEQUENCER_DATA 0x00 0x01 ;;
  vga_write_indexed VGA_SEQUENCER_INDEX VGA_SEQUENCER_DATA 0x02 0x04 ;;
  vga_write_indexed VGA_SEQUENCER_INDEX VGA_SEQUENCER_DATA 0x04 0x07 ;;
  vga_write_indexed VGA_SEQUENCER_INDEX VGA_SEQUENCER_DATA 0x00 0x03 ;;
  vga_write_indexed VGA_GRAPHICS_INDEX VGA_GRAPHICS_DATA 0x04 0x02 ;;
  vga_write_indexed VGA_GRAPHICS_INDEX VGA_GRAPHICS_DATA 0x05 0x00 ;;
  vga_write_indexed VGA_GRAPHICS_INDEX VGA_GRAPHICS_DATA 0x06 0x04.

Definition vga_end_font_access : prog bus unit :=
  vga_write_indexed VGA_SEQUENCER_INDEX VGA_SEQUENCER_DATA 0x00 0x01 ;;
  vga_write_indexed VGA_SEQUENCER_INDEX VGA_SEQUENCER_DATA 0x02 0x03 ;;
  vga_write_indexed VGA_SEQUENCER_INDEX VGA_SEQUENCER_DATA 0x04 0x03 ;;
  vga_write_indexed VGA_SEQUENCER_INDEX VGA_SEQUENCER_DATA 0x00 0x03 ;;
  vga_write_indexed VGA_GRAPHICS_INDEX VGA_GRAPHICS_DATA 0x06 0x0E ;;
  vga_write_indexed VGA_GRAPHICS_INDEX VGA_GRAPHICS_DATA 0x04 0x00 ;;
  vga_write_indexed VGA_GRAPHICS_INDEX VGA_GRAPHICS_DATA 0x05 0x10.

(** [for glyph ... for row ... body(glyph, row)] *)
Definition each_row (body : Z -> Z -> code vga_statics unit) : code vga_statics unit :=
  cfor (Z.to_nat VGA_GLYPH_COUNT) 0 (fun glyph =>
    cfor (Z.to_nat VGA_GLYPH_HEIGHT) 0 (fun row => body glyph row)).

Definition vga_capture_startup_font : code vga_statics unit :=
  io vga_begin_font_access ;*
  each_row (fun glyph row =>
    let* v := io (load8 (VGA_FONT_MEMORY + (glyph * VGA_GLYPH_SLOT_SIZE + row))) in
    modify (fun s => s <| startup_font := <[Z.to_nat (glyph * VGA_GLYPH_HEIGHT + row) := v]> (startup_font s) |>)) ;*
  io vga_end_font_access ;*
  modify (fun s => s <| startup_font_state := VGA_FONT_CAPTURED |>).

Definition vga_restore_startup_font : code vga_statics unit :=
  let* state := gets startup_font_state in
  if negb (state =? VGA_FONT_CAPTURED) then cret tt else
  io vga_begin_font_access ;*
  each_row (fun glyph row =>
    let* font := gets startup_font in
    io (store8 (VGA_FONT_MEMORY + (glyph * VGA_GLYPH_SLOT_SIZE + row))
          (at_slot 0 font (glyph * VGA_GLYPH_HEIGHT + row)))) ;*
  io vga_end_font_access.

Definition component_of (color : Z * Z * Z) (component : Z) : Z :=
  match color with (r, g, b) => at_slot 0 [r; g; b] component end.

Definition vga_restore_palette : prog bus unit :=
  vga_out8 VGA_DAC_MASK 0xFF ;;
  vga_out8 VGA_DAC_WRITE_INDEX 0x00 ;;
  for_range 16 0 (fun color => for_range 3 0 (fun component =>
    vga_out8 VGA_DAC_DATA (component_of (at_slot (0, 0, 0) mode3_palette color) component))).

(** The sequencer, CRTC, graphics and attribute registers of mode 3. *)
Definition vga_mode3_registers : prog bus unit :=
  vga_out8 VGA_MISC_WRITE 0x67 ;;
  vga_write_indexed VGA_SEQUENCER_INDEX VGA_SEQUENCER_DATA 0x00 0x01 ;;
  for_range 4 0 (fun index =>
    vga_write_indexed VGA_SEQUENCER_INDEX VGA_SEQUENCER_DATA (u8 (index + 1)) (at_slot 0 mode3_sequencer index)) ;;
  vga_write_indexed VGA_SEQUENCER_INDEX VGA_SEQUENCER_DATA 0x00 0x03 ;;
  vga_write_indexed VGA_CRTC_INDEX VGA_CRTC_DATA 0x11 0x00 ;;
  for_range 25 0 (fun index =>
    vga_write_indexed VGA_CRTC_INDEX VGA_CRTC_DATA (u8 index) (at_slot 0 mode3_crtc index)) ;;
  for_range 9 0 (fun index =>
    vga_write_indexed VGA_GRAPHICS_INDEX VGA_GRAPHICS_DATA (u8 index) (at_slot 0 mode3_graphics index)) ;;
  for_range 20 0 (fun index =>
    vga_in8 VGA_INPUT_STATUS_1 ;;
    vga_out8 VGA_ATTRIBUTE_INDEX (u8 index) ;;
    vga_out8 VGA_ATTRIBUTE_INDEX (at_slot 0 mode3_attribute index)) ;;
  vga_in8 VGA_INPUT_STATUS_1 ;;
  vga_out8 VGA_ATTRIBUTE_INDEX 0x14 ;;
  vga_out8 VGA_ATTRIBUTE_INDEX 0x00.

(** Code of the graphics driver, run on its statics. *)
Definition on_gpu {A} (m : code intel915_kernel A) : code vga_statics A := fun v =>
  let! r := m (v_gpu v) in Ret (fst r, v <| v_gpu := snd r |>).

Definition vga_restore_text_mode : code vga_statics unit :=
  on_gpu intel915_restore_text_display ;*
  io vga_mode3_registers ;*
  io vga_restore_palette ;*
  vga_restore_startup_font ;*
  io (vga_write_indexed VGA_CRTC_INDEX VGA_CRTC_DATA 0x0A 0x20) ;*
  io (vga_in8 VGA_INPUT_STATUS_1) ;*
  io (vga_out8 VGA_ATTRIBUTE_INDEX 0x20).
