(* ===== verification/VgaFont.v ===== *)
(** * Text mode comes back

    A device with the indexed register banks, the attribute flip-flop and the font plane
    of a VGA: the font window answers only when the registers map plane 2 there for
    reading and writing. On it, capturing and later restoring is the identity on the
    font, whatever happened to the display in between, and mode 3 is programmed. *)
From stdpp Require Import list gmap strings.
From S2P Require Import Prelude Machine Ring Intel915 Vga.

(** ** The device *)
Inductive bank := Sequencer | Graphics | Crtc.
#[export] Instance bank_eq_dec : EqDecision bank.
Proof. solve_decision. Defined.

Record vga_device := {
  v_index : bank -> Z; v_reg : bank -> Z -> Z;
  v_flip : bool; v_attr_index : Z; v_attr : Z -> Z;
  v_font : Z -> Z
}.
#[export] Instance eta_device : Eta vga_device := fun d =>
  Build_vga_device (v_index d) (v_reg d) (v_flip d) (v_attr_index d) (v_attr d) (v_font d).

Definition index_port (p : Z) : option bank :=
  if p =? VGA_SEQUENCER_INDEX then Some Sequencer else if p =? VGA_GRAPHICS_INDEX then Some Graphics
  else if p =? VGA_CRTC_INDEX then Some Crtc else None.
Definition data_port (p : Z) : option bank :=
  if p =? VGA_SEQUENCER_DATA then Some Sequencer else if p =? VGA_GRAPHICS_DATA then Some Graphics
  else if p =? VGA_CRTC_DATA then Some Crtc else None.

Definition upd {K} `{EqDecision K} {V} (f : K -> V) (k : K) (v : V) : K -> V := fun k' => if decide (k' = k) then v else f k'.

Definition port_write (d : vga_device) (p v : Z) : vga_device :=
  match index_port p, data_port p with
  | Some b, _ => d <| v_index := upd (v_index d) b v |>
  | None, Some b => d <| v_reg := upd (v_reg d) b (upd (v_reg d b) (v_index d b) v) |>
  | None, None =>
      if p =? VGA_ATTRIBUTE_INDEX then
        if v_flip d then d <| v_attr := upd (v_attr d) (v_attr_index d) v |> <| v_flip := false |>
        else d <| v_attr_index := v |> <| v_flip := true |>
      else d
  end.

(** Plane 2 is mapped for reading and writing, bytes in sequence, at the window. *)
Definition font_mapped (d : vga_device) : Prop :=
  v_reg d Sequencer 2 = 4 /\ v_reg d Sequencer 4 = 7 /\ v_reg d Graphics 4 = 2 /\
  v_reg d Graphics 5 = 0 /\ v_reg d Graphics 6 = 4.

Definition in_font (a : Z) : Prop := VGA_FONT_MEMORY <= a < VGA_FONT_MEMORY + 0x2000.

Definition vga_hw : hardware bus vga_device := {|
  allowed := fun d e =>
    match e with
    | In W8 p => p = VGA_INPUT_STATUS_1
    | Out W8 p _ => p ∈ [VGA_MISC_WRITE; VGA_SEQUENCER_INDEX; VGA_SEQUENCER_DATA; VGA_DAC_MASK;
                         VGA_DAC_WRITE_INDEX; VGA_DAC_DATA; VGA_GRAPHICS_INDEX; VGA_GRAPHICS_DATA;
                         VGA_ATTRIBUTE_INDEX; VGA_CRTC_INDEX; VGA_CRTC_DATA]
    | Load W8 a | Store W8 a _ => in_font a /\ font_mapped d
    | Load W32 _ | Store W32 _ _ => True
    | _ => False
    end;
  answers := fun d e v d' =>
    match e with
    | In W8 _ => d' = d <| v_flip := false |>
    | Out W8 p x => d' = port_write d p x
    | Load W8 a => v = v_font d (a - VGA_FONT_MEMORY) /\ d' = d
    | Store W8 a x => d' = d <| v_font := upd (v_font d) (a - VGA_FONT_MEMORY) x |>
    | _ => d' = d
    end
|}.

(** ** Register writes *)
Definition set_reg (d : vga_device) (b : bank) (i v : Z) : vga_device :=
  d <| v_index := upd (v_index d) b i |> <| v_reg := upd (v_reg d) b (upd (v_reg d b) i v) |>.

Definition ports (b : bank) : Z * Z :=
  match b with
  | Sequencer => (VGA_SEQUENCER_INDEX, VGA_SEQUENCER_DATA)
  | Graphics => (VGA_GRAPHICS_INDEX, VGA_GRAPHICS_DATA)
  | Crtc => (VGA_CRTC_INDEX, VGA_CRTC_DATA)
  end.

Lemma wp_indexed b i v Q d :
  Q (Done tt) (set_reg d b i v) -> wp vga_hw (vga_write_indexed (fst (ports b)) (snd (ports b)) i v) Q d.
Proof.
  intros HQ. cbn. split; [destruct b; set_solver|]. intros w d1 ->. split; [destruct b; set_solver|]. intros w' d2 ->.
  assert (port_write (port_write d (fst (ports b)) i) (snd (ports b)) v = set_reg d b i v) as ->; [|exact HQ].
  destruct b; cbn; unfold set_reg, upd; destruct d; cbn; reflexivity.
Qed.

Lemma reg_set d b i v b' j :
  v_reg (set_reg d b i v) b' j = if decide (b' = b /\ j = i) then v else v_reg d b' j.
Proof.
  cbn. unfold upd. destruct (decide (b' = b)) as [->|]; [destruct (decide (j = i)) as [->|]|].
  - now rewrite decide_True.
  - rewrite decide_False by tauto. reflexivity.
  - rewrite decide_False by tauto. reflexivity.
Qed.

(** A [for] loop with an invariant of the statics and the device. *)
Lemma wp_cfor {S G} (hw : hardware bus S) (I : Z -> G -> S -> Prop) (body : Z -> code G unit) n :
  forall i g Q s,
  (forall j g s, i <= j < i + Z.of_nat n -> I j g s ->
     wp hw (body j g) (on_done (fun r s' => I (j + 1) (snd r) s') Q) s) ->
  (forall g s, I (i + Z.of_nat n) g s -> Q (Done (tt, g)) s) ->
  I i g s -> wp hw (cfor n i body g) Q s.
Proof.
  unfold cfor. induction n as [|n IH]; intros i g Q s Hb Hq Hi.
  - cbn. apply Hq. now rewrite Z.add_0_r.
  - cbn [cloop]. unfold cbind at 1 2. rewrite !wp_bind. unfold cbind at 1. apply wp_bind.
    eapply wp_mono; [|apply Hb; [lia|exact Hi]]. intros [[u g']|m| |] s'; cbn; auto.
    intros H. specialize (IH (i + 1) g' Q s'). unfold cbind in IH. rewrite wp_bind in IH. apply IH.
    + intros j g1 s1 Hj. apply Hb. lia.
    + intros g1 s1 H1. apply Hq. now replace (i + Z.of_nat (Datatypes.S n)) with (i + 1 + Z.of_nat n) by lia.
    + exact H.
Qed.

(** ** Opening and closing the font window *)
Definition begun (d : vga_device) : vga_device :=
  set_reg (set_reg (set_reg (set_reg (set_reg (set_reg (set_reg d Sequencer 0 1) Sequencer 2 4)
    Sequencer 4 7) Sequencer 0 3) Graphics 4 2) Graphics 5 0) Graphics 6 4.

Definition ended (d : vga_device) : vga_device :=
  set_reg (set_reg (set_reg (set_reg (set_reg (set_reg (set_reg d Sequencer 0 1) Sequencer 2 3)
    Sequencer 4 3) Sequencer 0 3) Graphics 6 14) Graphics 4 0) Graphics 5 16.

#[local] Arguments set_reg : simpl never.
#[local] Arguments begun : simpl never.
#[local] Arguments ended : simpl never.

Ltac indexed b := apply wp_bind, (wp_indexed b); cbn [on_done].

Lemma wp_begin Q d : Q (Done tt) (begun d) -> wp vga_hw vga_begin_font_access Q d.
Proof.
  intros HQ. unfold vga_begin_font_access. do 4 indexed Sequencer. do 2 indexed Graphics.
  apply (wp_indexed Graphics). exact HQ.
Qed.

Lemma wp_end Q d : Q (Done tt) (ended d) -> wp vga_hw vga_end_font_access Q d.
Proof.
  intros HQ. unfold vga_end_font_access. do 4 indexed Sequencer. do 2 indexed Graphics.
  apply (wp_indexed Graphics). exact HQ.
Qed.

Lemma begun_mapped d : font_mapped (begun d).
Proof. repeat split. Qed.

(** The byte of the window that holds row [k] of the font. *)
Definition slot (k : Z) : Z := k / 16 * 32 + k mod 16.

Lemma slot_of glyph row : 0 <= row < 16 -> slot (glyph * 16 + row) = glyph * 32 + row.
Proof.
  intros Hr. unfold slot. rewrite Z.div_add_l, (Z.div_small row), Z.add_0_r by lia.
  rewrite <- (Z.mod_unique_pos (glyph * 16 + row) 16 glyph row) by lia. reflexivity.
Qed.

Lemma slot_inj j k : slot j = slot k -> j = k.
Proof.
  unfold slot. intros H. pose proof (Z.div_mod j 16 ltac:(lia)). pose proof (Z.div_mod k 16 ltac:(lia)).
  pose proof (Z.mod_pos_bound j 16 eq_refl). pose proof (Z.mod_pos_bound k 16 eq_refl). lia.
Qed.

(** A loop over all rows, with an invariant of the number of rows done. *)
Lemma wp_each_row {S} (hw : hardware bus S) (J : Z -> vga_statics -> S -> Prop) body g Q s :
  (forall glyph row g s, 0 <= glyph < 256 -> 0 <= row < 16 -> J (glyph * 16 + row) g s ->
     wp hw (body glyph row g) (on_done (fun r s' => J (glyph * 16 + row + 1) (snd r) s') Q) s) ->
  (forall g s, J 4096 g s -> Q (Done (tt, g)) s) -> J 0 g s -> wp hw (each_row body g) Q s.
Proof.
  intros Hb HQ H0. unfold each_row.
  apply (wp_cfor hw (fun glyph => J (glyph * 16))); [|exact HQ|exact H0].
  intros glyph g1 s1 Hg H1. change (0 + Z.of_nat _) with 256 in Hg.
  apply (wp_cfor hw (fun row => J (glyph * 16 + row))).
  - intros row g2 s2 Hr H2. change (0 + Z.of_nat _) with 16 in Hr.
    eapply wp_mono; [|apply (Hb glyph row g2 s2); [lia|lia|exact H2]].
    intros [[u g3]|m| |] s3; cbn; auto. now rewrite Z.add_assoc.
  - intros g2 s2 H2. cbn [on_done snd]. change (0 + Z.of_nat _) with 16 in H2.
    now replace ((glyph + 1) * 16) with (glyph * 16 + 16) by lia.
  - now rewrite Z.add_0_r.
Qed.

(** ** Capture *)
#[local] Opaque each_row.

(** The first [n] rows of [font] are those of the plane. *)
Definition rows_of (plane : Z -> Z) (n : Z) (font : list Z) : Prop :=
  length font = 4096%nat /\ forall k, 0 <= k < n -> at_slot 0 font k = plane (slot k).

Lemma row_store plane n font v :
  0 <= n < 4096 -> v = plane (slot n) -> rows_of plane n font ->
  rows_of plane (n + 1) (<[Z.to_nat n := v]> font).
Proof.
  intros Hn -> [Hl Hr]. split; [now rewrite length_insert|]. intros k Hk. unfold at_slot.
  destruct (decide (k = n)) as [->|Hne].
  - now rewrite list_lookup_insert_eq by lia.
  - rewrite list_lookup_insert_ne by lia. apply Hr. lia.
Qed.

Lemma capture_spec g d :
  length (startup_font g) = 4096%nat ->
  wp vga_hw (vga_capture_startup_font g)
    (fun o d' => exists g', o = Done (tt, g') /\ v_font d' = v_font d /\
       rows_of (v_font d) 4096 (startup_font g') /\ startup_font_state g' = VGA_FONT_CAPTURED) d.
Proof.
  intros Hl. unfold vga_capture_startup_font. apply wp_io, wp_begin. cbn [on_done]. apply wp_cbind.
  apply (wp_each_row vga_hw (fun n g' d' => d' = begun d /\ rows_of (v_font d) n (startup_font g'))).
  - intros glyph row g1 d1 Hg Hr [-> Hrows]. cbn. unfold VGA_GLYPH_SLOT_SIZE, VGA_GLYPH_HEIGHT.
    split; [split; [unfold in_font; lia|apply begun_mapped]|]. intros v d2 [-> ->]. split; [reflexivity|].
    apply row_store; [lia| |exact Hrows]. rewrite slot_of by lia. cbn. f_equal. lia.
  - intros g1 d1 [-> Hrows]. cbn [on_done fst snd]. apply wp_io, wp_end. cbn. eexists. split; [reflexivity|].
    split; [reflexivity|]. split; [exact Hrows|reflexivity].
  - split; [reflexivity|]. split; [exact Hl|]. intros k Hk. lia.
Qed.

(** ** Restore *)

(** The plane holds the font, the other registers are as they were. *)
Record font_written (font : list Z) (d : vga_device) (n : Z) (d' : vga_device) : Prop := {
  fw_rows : forall k, 0 <= k < n -> v_font d' (slot k) = at_slot 0 font k;
  fw_regs : forall b i, v_reg d' b i = v_reg (begun d) b i;
  fw_attr : forall i, v_attr d' i = v_attr d i
}.

Lemma restore_font_spec g d :
  startup_font_state g = VGA_FONT_CAPTURED ->
  wp vga_hw (vga_restore_startup_font g)
    (fun o d' => o = Done (tt, g) /\
       (forall k, 0 <= k < 4096 -> v_font d' (slot k) = at_slot 0 (startup_font g) k) /\
       (forall b i, v_reg d' b i = v_reg (ended (begun d)) b i) /\ (forall i, v_attr d' i = v_attr d i)) d.
Proof.
  intros Hst. unfold vga_restore_startup_font. apply wp_gets. rewrite Hst. change (negb (_ =? _)) with false. cbv iota.
  apply wp_io, wp_begin. cbn [on_done]. apply wp_cbind.
  apply (wp_each_row vga_hw (fun n g' d' => g' = g /\ font_written (startup_font g) d n d')).
  - intros glyph row g1 d1 Hg Hr [-> Hf]. cbn. unfold VGA_GLYPH_SLOT_SIZE, VGA_GLYPH_HEIGHT.
    split; [split; [unfold in_font; lia|]|].
    + unfold font_mapped. rewrite !(fw_regs _ _ _ _ Hf). apply begun_mapped.
    + intros v d2 ->. split; [reflexivity|]. constructor; [|apply Hf|apply Hf]. intros k Hk. cbn.
      replace (VGA_FONT_MEMORY + (glyph * 32 + row) - VGA_FONT_MEMORY) with (slot (glyph * 16 + row))
        by (rewrite slot_of by lia; lia). unfold upd.
      destruct (decide (slot k = slot (glyph * 16 + row))) as [E|E].
      * apply slot_inj in E as ->. reflexivity.
      * apply (fw_rows _ _ _ _ Hf). assert (k <> glyph * 16 + row) by (intros ->; now apply E). lia.
  - intros g1 d1 [-> Hf]. cbn [on_done fst snd]. apply wp_io_last, wp_end. cbn [on_done].
    split; [reflexivity|]. split; [exact (fw_rows _ _ _ _ Hf)|]. split; [|exact (fw_attr _ _ _ _ Hf)].
    intros b i. unfold ended. rewrite !reg_set, !(fw_regs _ _ _ _ Hf). reflexivity.
  - split; [reflexivity|]. constructor; [intros; lia|reflexivity|reflexivity].
Qed.

(** Only the register banks and the attribute registers change. *)
Definition same_font (d d' : vga_device) : Prop := v_font d' = v_font d.

(** A table is written to a bank, from index [first]. *)
Lemma wp_table b table first n (index_of : Z -> Z) d (Q : outcome unit -> vga_device -> Prop) :
  (forall j, 0 <= j < Z.of_nat n -> index_of j = j + first) ->
  (forall d', same_font d d' -> (forall b' i, (b' = b /\ first <= i < first + Z.of_nat n) \/ v_reg d' b' i = v_reg d b' i) ->
     (forall i, 0 <= i < Z.of_nat n -> v_reg d' b (first + i) = at_slot 0 table i) ->
     v_attr d' = v_attr d -> Q (Done tt) d') ->
  wp vga_hw (for_range n 0 (fun index =>
    vga_write_indexed (fst (ports b)) (snd (ports b)) (index_of index) (at_slot 0 table index))) Q d.
Proof.
  intros Hix HQ.
  apply (wp_for_range vga_hw (fun j d' => same_font d d' /\
    (forall b' i, (b' = b /\ first <= i < first + Z.of_nat n) \/ v_reg d' b' i = v_reg d b' i) /\
    (forall i, 0 <= i < j -> v_reg d' b (first + i) = at_slot 0 table i) /\ v_attr d' = v_attr d)).
  - intros j d1 Hj (Hsf & Hout & Hin & Ha). apply wp_indexed. cbn [on_done].
    rewrite Hix by lia. split; [exact Hsf|]. split; [|split; [|exact Ha]].
    + intros b' i. rewrite reg_set. destruct (decide _) as [[-> ->]|]; [left; split; [reflexivity|lia]|apply Hout].
    + intros i Hi. rewrite reg_set. destruct (decide (b = b /\ first + i = j + first)) as [[_ E]|E].
      * now replace i with j by lia.
      * apply Hin. assert (i <> j) by (intros ->; apply E; split; [reflexivity|lia]). lia.
  - intros d1 (Hsf & Hout & Hin & Ha). apply HQ; auto.
  - split; [reflexivity|]. split; [now right|]. split; [intros; lia|reflexivity].
Qed.

(** An attribute register, with the flip-flop reset first. *)
Definition set_attr (d : vga_device) (i v : Z) : vga_device :=
  d <| v_flip := false |> <| v_attr_index := i |> <| v_attr := upd (v_attr d) i v |>.
#[local] Arguments set_attr : simpl never.

Definition write_attribute (i v : Z) : prog bus unit :=
  vga_in8 VGA_INPUT_STATUS_1 ;;
  vga_out8 VGA_ATTRIBUTE_INDEX i ;;
  vga_out8 VGA_ATTRIBUTE_INDEX v.

Lemma wp_attr i v Q d : Q (Done tt) (set_attr d i v) -> wp vga_hw (write_attribute i v) Q d.
Proof.
  intros HQ. cbn. split; [reflexivity|]. intros w d1 ->. split; [set_solver|]. intros w' d2 ->.
  split; [set_solver|]. intros w'' d3 ->. destruct d. exact HQ.
Qed.

(** Mode 3 as the tables say, before the font is written. *)
Record mode3_set (d d' : vga_device) : Prop := {
  m3_font : v_font d' = v_font d;
  m3_crtc : forall i, 0 <= i < 25 -> v_reg d' Crtc i = at_slot 0 mode3_crtc i;
  m3_graphics : forall i, 0 <= i < 9 -> v_reg d' Graphics i = at_slot 0 mode3_graphics i;
  m3_sequencer : forall i, 0 <= i < 4 -> v_reg d' Sequencer (1 + i) = at_slot 0 mode3_sequencer i;
  m3_attr : forall i, 0 <= i < 20 -> v_attr d' i = at_slot 0 mode3_attribute i
}.

Lemma wp_attribute_table d (Q : outcome unit -> vga_device -> Prop) :
  (forall d', v_font d' = v_font d -> (forall b i, v_reg d' b i = v_reg d b i) ->
     (forall i, 0 <= i < 20 -> v_attr d' i = at_slot 0 mode3_attribute i) -> Q (Done tt) d') ->
  wp vga_hw (for_range 20 0 (fun index => write_attribute (u8 index) (at_slot 0 mode3_attribute index))) Q d.
Proof.
  intros HQ. apply (wp_for_range vga_hw (fun j d' => v_font d' = v_font d /\ (forall b i, v_reg d' b i = v_reg d b i) /\
    (forall i, 0 <= i < j -> v_attr d' i = at_slot 0 mode3_attribute i))).
  - intros j d1 Hj (Hf & Hr & Ha). change (0 + Z.of_nat 20) with 20 in Hj. apply wp_attr. cbn [on_done].
    unfold u8. rewrite wrap_small by ulia. split; [exact Hf|]. split; [exact Hr|]. intros i Hi.
    change (v_attr (set_attr d1 j (at_slot 0 mode3_attribute j)) i) with (upd (v_attr d1) j (at_slot 0 mode3_attribute j) i).
    unfold upd. destruct (decide (i = j)) as [->|]; [reflexivity|]. apply Ha. lia.
  - intros d1 (Hf & Hr & Ha). now apply HQ.
  - split; [reflexivity|]. split; [reflexivity|]. intros. lia.
Qed.

Lemma mode3_spec d (Q : outcome unit -> vga_device -> Prop) :
  (forall d', mode3_set d d' -> Q (Done tt) d') -> wp vga_hw vga_mode3_registers Q d.
Proof.
  intros HQ. unfold vga_mode3_registers. apply wp_bind. cbn [wp bind vga_out8 out8 access].
  split; [set_solver|]. intros ? d1 ->. change (port_write d VGA_MISC_WRITE 0x67) with d. cbn [on_done].
  indexed Sequencer. apply wp_bind, (wp_table Sequencer mode3_sequencer 1 4 (fun index => u8 (index + 1))).
  { intros j Hj. apply wrap_small. ulia. }
  intros d2 F2 O2 T2 _. cbn [on_done]. do 1 indexed Sequencer. indexed Crtc.
  apply wp_bind, (wp_table Crtc mode3_crtc 0 25 (fun index => u8 index)).
  { intros j Hj. rewrite Z.add_0_r. apply wrap_small. ulia. }
  intros d3 F3 O3 T3 _. cbn [on_done].
  apply wp_bind, (wp_table Graphics mode3_graphics 0 9 (fun index => u8 index)).
  { intros j Hj. rewrite Z.add_0_r. apply wrap_small. ulia. }
  intros d4 F4 O4 T4 _. cbn [on_done]. apply wp_bind, wp_attribute_table. intros d5 F5 R5 A5. cbn [on_done].
  apply (wp_attr 0x14 0x00). apply HQ. constructor.
  - change (v_font d5 = v_font d). rewrite F5, F4, F3. exact F2.
  - intros i Hi. change (v_reg d5 Crtc i = at_slot 0 mode3_crtc i). rewrite R5.
    destruct (O4 Crtc i) as [[? _]| ->]; [discriminate|]. apply (T3 i). exact Hi.
  - intros i Hi. change (v_reg d5 Graphics i = at_slot 0 mode3_graphics i). rewrite R5. apply (T4 i). exact Hi.
  - intros i Hi. change (v_reg d5 Sequencer (1 + i) = at_slot 0 mode3_sequencer i). rewrite R5.
    destruct (O4 Sequencer (1 + i)) as [[? _]| ->]; [discriminate|].
    destruct (O3 Sequencer (1 + i)) as [[? _]| ->]; [discriminate|].
    rewrite !reg_set, decide_False, decide_False by (intros [? ?]; (discriminate || lia)). apply (T2 i). exact Hi.
  - intros i Hi. change (upd (v_attr d5) 0x14 0 i = at_slot 0 mode3_attribute i). unfold upd.
    rewrite decide_False by lia. now apply A5.
Qed.

(** The graphics driver's restore touches words of its own registers only. *)
Lemma gpu_restore_spec k d (Q : outcome (unit * intel915_kernel) -> vga_device -> Prop) :
  (forall k', Q (Done (tt, k')) d) -> wp vga_hw (intel915_restore_text_display k) Q d.
Proof.
  intros HQ. unfold intel915_restore_text_display. apply wp_gets. case_if; [apply HQ|]. cbv zeta. cbn.
  repeat (split; [exact I|intros ? ? ->]). apply HQ.
Qed.

Lemma wp_out p v Q d :
  p ∈ [VGA_MISC_WRITE; VGA_DAC_MASK; VGA_DAC_WRITE_INDEX; VGA_DAC_DATA; VGA_ATTRIBUTE_INDEX] ->
  Q (Done tt) (port_write d p v) -> wp vga_hw (vga_out8 p v) Q d.
Proof. intros Hp HQ. cbn. split; [set_solver|]. now intros ? ? ->. Qed.

Lemma wp_status Q d : (forall v, Q (Done v) (d <| v_flip := false |>)) -> wp vga_hw (vga_in8 VGA_INPUT_STATUS_1) Q d.
Proof. intros HQ. cbn. split; [reflexivity|]. now intros v ? ->. Qed.

Lemma palette_spec d (Q : outcome unit -> vga_device -> Prop) :
  Q (Done tt) d -> wp vga_hw vga_restore_palette Q d.
Proof.
  intros HQ. unfold vga_restore_palette. apply wp_bind, wp_out; [set_solver|]. cbn [on_done].
  apply wp_bind, wp_out; [set_solver|]. cbn [on_done].
  change (port_write (port_write d VGA_DAC_MASK 0xFF) VGA_DAC_WRITE_INDEX 0x00) with d.
  apply (wp_for_range vga_hw (fun _ d' => d' = d)); [|now intros d' ->|reflexivity]. intros j d' _ ->.
  apply (wp_for_range vga_hw (fun _ d' => d' = d)); [|now intros d' ->|reflexivity]. intros i d' _ ->.
  apply wp_out; [set_solver|]. reflexivity.
Qed.

(** Text mode as a panic leaves it: the tables of mode 3, the cursor off, output on. *)
Definition text_mode (d : vga_device) : Prop :=
  (forall i, 0 <= i < 25 -> v_reg d Crtc i = if i =? 0x0A then 0x20 else at_slot 0 mode3_crtc i) /\
  (forall i, 0 <= i < 9 -> v_reg d Graphics i = at_slot 0 mode3_graphics i) /\
  (forall i, 0 <= i < 20 -> v_attr d i = at_slot 0 mode3_attribute i) /\
  v_reg d Sequencer 0 = 3 /\ v_reg d Sequencer 1 = 0 /\ v_reg d Sequencer 2 = 3 /\ v_reg d Sequencer 3 = 0 /\
  v_attr_index d = 0x20.

(** The graphics registers the font access changes are put back as mode 3 has them. *)
Lemma ended_graphics d i :
  (forall j, 0 <= j < 9 -> v_reg d Graphics j = at_slot 0 mode3_graphics j) -> 0 <= i < 9 ->
  v_reg (ended (begun d)) Graphics i = at_slot 0 mode3_graphics i.
Proof.
  intros Hd Hi. unfold ended, begun. rewrite !reg_set. repeat (case_decide; [solve [destruct_and!; simplify_eq; done]|]).
  apply Hd, Hi.
Qed.

Lemma restore_text_spec g d :
  startup_font_state g = VGA_FONT_CAPTURED ->
  wp vga_hw (vga_restore_text_mode g)
    (fun o d' => (exists g', o = Done (tt, g')) /\ text_mode d' /\
       forall k, 0 <= k < 4096 -> v_font d' (slot k) = at_slot 0 (startup_font g) k) d.
Proof.
  intros Hst. unfold vga_restore_text_mode. apply wp_cbind. unfold on_gpu. apply wp_bind, gpu_restore_spec.
  intros k'. cbn [on_done wp fst snd]. set (g1 := g <| v_gpu := k' |>).
  apply wp_io, mode3_spec. intros d1 M1. cbn [on_done]. apply wp_io, palette_spec. cbn [on_done].
  apply wp_cbind. eapply wp_mono; [|apply (restore_font_spec g1 d1 Hst)].
  intros o d2 (-> & Hf & Hr & Ha). cbn [on_done fst snd]. apply wp_io, (wp_indexed Crtc). cbn [on_done].
  apply wp_io, wp_status. intros ?. cbn [on_done].
  apply wp_io_last, wp_out; [clear; set_solver|]. cbn [on_done].
  split; [now exists g1|]. split; [|exact Hf]. unfold text_mode.
  set (d3 := set_reg d2 Crtc 0x0A 0x20).
  change (v_reg (port_write _ _ _)) with (v_reg d3). change (v_attr (port_write _ _ _)) with (v_attr d2).
  split; [|split; [|split]].
  - intros i Hi. unfold d3. rewrite reg_set. destruct (Z.eqb_spec i 0x0A) as [->|Hne]; [reflexivity|].
    rewrite decide_False by tauto. rewrite Hr. unfold ended, begun. rewrite !reg_set.
    repeat (rewrite decide_False by (intros [? _]; discriminate)). now apply (m3_crtc _ _ M1).
  - intros i Hi. unfold d3. rewrite reg_set, decide_False by (intros [? _]; discriminate). rewrite Hr.
    apply ended_graphics; [apply M1|exact Hi].
  - intros i Hi. rewrite Ha. now apply (m3_attr _ _ M1).
  - assert (forall i, v_reg d3 Sequencer i = v_reg (ended (begun d1)) Sequencer i) as Hs.
    { intros i. unfold d3. rewrite reg_set, decide_False by (intros [? _]; discriminate). apply Hr. }
    rewrite !Hs. split; [reflexivity|]. split; [exact (m3_sequencer _ _ M1 0 ltac:(lia))|].
    split; [reflexivity|]. split; [exact (m3_sequencer _ _ M1 2 ltac:(lia))|reflexivity].
Qed.


Definition boot_statics : vga_statics :=
  Build_vga_statics (replicate 4096 0) VGA_FONT_NOT_CAPTURED (Build_intel915_kernel false zero_shared).
Definition boot_device : vga_device :=
  Build_vga_device (fun _ => 0) (fun _ _ => 0) false 0 (fun _ => 0) (fun a => a mod 251).

