(* ===== verification/Panic.v ===== *)
(** * Panics, exceptions and local-APIC interrupts: [Kernel/Panic.c], [Arch/x86/Exceptions.c],
    [Arch/x86/LapicInterrupts.c]

    The panic screen is 80 by 25 cells of video memory, its cursor a static. Texts are
    strings, [None] a null pointer. The functions that never return end in a loop of
    [hlt]; here they return when they reach it. *)
From stdpp Require Import list gmap strings.
From S2P Require Import Prelude Machine Ring Intel915 Vga.

Definition VGA_TEXT_ADDRESS : Z := 0x80B80000.
Definition VGA_WIDTH : Z := 80.
Definition VGA_HEIGHT : Z := 25.
Definition PANIC_ATTRIBUTE : Z := 0x4F.
Definition PANIC_BACKTRACE_DEPTH : Z := 10.
Definition EXCEPTION_CALLBACK_ADDRESS : Z := 0x80002320.
Definition EFLAGS_VM : Z := 0x00020000.

Record exception_frame := {
  x_edi : Z; x_esi : Z; x_ebp : Z; x_saved_esp : Z; x_ebx : Z; x_edx : Z; x_ecx : Z; x_eax : Z;
  x_gs : Z; x_fs : Z; x_es : Z; x_ds : Z; x_vector : Z; x_error_code : Z; x_eip : Z; x_cs : Z;
  x_eflags : Z; x_user_esp : Z; x_user_ss : Z
}.

Record panic_statics := { panic_cursor : Z; p_vga : vga_statics }.
#[export] Instance eta_panic : Eta panic_statics := fun p => Build_panic_statics (panic_cursor p) (p_vga p).

(** ** The screen *)
Definition newline : Z := 10.

Definition panic_put_character (character : Z) : code panic_statics unit :=
  let* cursor := gets panic_cursor in
  if character =? newline then
    modify (fun p => p <| panic_cursor := cursor +% (VGA_WIDTH -% cursor mod VGA_WIDTH) |>)
  else if cursor <? VGA_WIDTH * VGA_HEIGHT then
    io (store16 (VGA_TEXT_ADDRESS + 2 * cursor) (u16 (u8 character .| (PANIC_ATTRIBUTE <<% 8)))) ;*
    modify (fun p => p <| panic_cursor := cursor +% 1 |>)
  else cret tt.

Fixpoint put_characters (text : string) : code panic_statics unit :=
  match text with
  | EmptyString => cret tt
  | String c text' => panic_put_character (Z.of_nat (Ascii.nat_of_ascii c)) ;* put_characters text'
  end.

Definition panic_put_text (text : option string) : code panic_statics unit :=
  match text with
  | None => cret tt
  | Some text => put_characters text
  end.

(** A literal; [panic_put_line] is one that starts with a new line. *)
Definition put (text : string) : code panic_statics unit := panic_put_text (Some text).
Definition nl : string := String (Ascii.ascii_of_nat 10) EmptyString.

(** The digits, lowest first; ten are enough for 32 bits. *)
Fixpoint decimal_digits (fuel : nat) (value : Z) : list Z :=
  match fuel with
  | O => []
  | S fuel' =>
      (48 + value mod 10) :: (if negb (value / 10 =? 0) then decimal_digits fuel' (value / 10) else [])
  end.

Fixpoint put_bytes (l : list Z) : code panic_statics unit :=
  match l with
  | [] => cret tt
  | c :: l' => panic_put_character c ;* put_bytes l'
  end.

Definition panic_put_decimal (value : Z) : code panic_statics unit :=
  put_bytes (reverse (decimal_digits 10 value)).

Definition panic_hex_digit (d : Z) : Z := Z.of_nat (Ascii.nat_of_ascii (hex_digit d)).

(** [for (shift = 28u; shift <= 28u; shift -= 4u)]: 28, 24, ..., 0. *)
Definition panic_put_hex (value : Z) : code panic_statics unit :=
  put "0x" ;*
  cfor 8 0 (fun i => panic_put_character (panic_hex_digit ((value >>> (28 - 4 * i)) .& 0x0F))).

Definition panic_put_hex_byte (value : Z) : code panic_statics unit :=
  panic_put_character (panic_hex_digit (value >>> 4)) ;*
  panic_put_character (panic_hex_digit (value .& 0x0F)).

Definition panic_read_cr3 : prog bus Z := access (ReadReg CR3).

(** ** Looking at memory *)
Definition panic_range_is_mapped (cr3 address size : Z) : prog bus bool :=
  if size =? 0 then Ret true else
  let last := address +% size -% 1 in
  if last <? address then Ret false else
  let! first := api "get_physical_address" [cr3; address] in
  if first =? 0 then Ret false else
  let! p := api "get_physical_address" [cr3; last] in
  Ret (negb (p =? 0)).

Definition panic_put_instruction_bytes (eip : Z) : code panic_statics unit :=
  let* cr3 := io panic_read_cr3 in
  put (nl +:+ "CODE: ") ;*
  cfor 16 0 (fun index =>
    let address := eip +% index in
    (if address <? eip then put "??" else
     let* p := io (api "get_physical_address" [cr3; address]) in
     if p =? 0 then put "??" else
     let* byte := io (load8 address) in
     panic_put_hex_byte byte) ;*
    panic_put_character 32).

(** The loop over the saved frame pointers, [n] of them left, at [depth]. *)
Fixpoint backtrace (n : nat) (depth cr3 frame_pointer : Z) : code panic_statics unit :=
  match n with
  | O => cret tt
  | S n' =>
      if negb (frame_pointer .& 3 =? 0) then cret tt else
      let* mapped := io (panic_range_is_mapped cr3 frame_pointer 8) in
      if negb mapped then cret tt else
      let* next_frame := io (load32 frame_pointer) in
      let* return_address := io (load32 (frame_pointer + 4)) in
      if return_address =? 0 then cret tt else
      put (nl +:+ "#") ;*
      panic_put_decimal depth ;*
      panic_put_character 32 ;*
      panic_put_hex return_address ;*
      if next_frame <=? frame_pointer then cret tt
      else backtrace n' (depth + 1) cr3 next_frame
  end.

Definition panic_put_backtrace (frame : exception_frame) : code panic_statics unit :=
  let* cr3 := io panic_read_cr3 in
  put (nl +:+ "CALL STACK:") ;*
  put (nl +:+ "#0 ") ;*
  panic_put_hex (x_eip frame) ;*
  backtrace (Z.to_nat (PANIC_BACKTRACE_DEPTH - 1)) 1 cr3 (x_ebp frame).

Definition panic_clear_screen : code panic_statics unit :=
  io (for_range (Z.to_nat (VGA_WIDTH * VGA_HEIGHT)) 0 (fun index =>
        store16 (VGA_TEXT_ADDRESS + 2 * index) (u16 (32 .| (PANIC_ATTRIBUTE <<% 8))))) ;*
  modify (fun p => p <| panic_cursor := 0 |>).

(** ** The panics *)
Definition on_vga {A} (m : code vga_statics A) : code panic_statics A := fun p =>
  let! r := m (p_vga p) in Ret (fst r, p <| p_vga := snd r |>).

Definition cli : prog bus unit := access Cli ;; Ret tt.

Definition kernel_panic (message file : option string) (line : Z) : code panic_statics unit :=
  io cli ;*
  on_vga vga_restore_text_mode ;*
  panic_clear_screen ;*
  put ("KERNEL PANIC" +:+ nl) ;*
  panic_put_text message ;*
  put nl ;*
  panic_put_text file ;*
  panic_put_character 58 ;*
  panic_put_decimal line.

(** A label and a register of the frame. *)
Definition put_register (label : string) (value : Z) : code panic_statics unit :=
  put label ;* panic_put_hex value.

Definition kernel_exception_panic (frame : exception_frame) (name : option string) : code panic_statics unit :=
  io cli ;*
  let* cr2 := if x_vector frame =? 14 then io (access (ReadReg CR2)) else cret 0 in
  on_vga vga_restore_text_mode ;*
  panic_clear_screen ;*
  let privilege := x_cs frame .& 3 in
  put (if privilege =? 3 then "DESKTOP USER EXCEPTION" +:+ nl
       else if negb (privilege =? 0) then "DRIVER EXCEPTION" +:+ nl else "KERNEL EXCEPTION" +:+ nl) ;*
  panic_put_text name ;*
  put_register "  VECTOR=" (x_vector frame) ;*
  put_register "  ERROR=" (x_error_code frame) ;*
  put_register (nl +:+ "EIP=") (x_eip frame) ;*
  put_register "  CS=" (x_cs frame) ;*
  put_register "  EFLAGS=" (x_eflags frame) ;*
  put_register (nl +:+ "EAX=") (x_eax frame) ;*
  put_register "  EBX=" (x_ebx frame) ;*
  put_register "  ECX=" (x_ecx frame) ;*
  put_register "  EDX=" (x_edx frame) ;*
  put_register (nl +:+ "ESI=") (x_esi frame) ;*
  put_register "  EDI=" (x_edi frame) ;*
  put_register "  EBP=" (x_ebp frame) ;*
  put_register (nl +:+ "ESP=") (if negb (privilege =? 0) then x_user_esp frame else x_saved_esp frame +% 36) ;*
  (if negb (privilege =? 0) then put_register "  SS=" (x_user_ss frame) else cret tt) ;*
  (if x_vector frame =? 14 then put_register "  CR2=" cr2 else cret tt) ;*
  if privilege =? 0 then
    panic_put_instruction_bytes (x_eip frame) ;*
    panic_put_backtrace frame
  else put (nl +:+ "EIP/ESP are segment offsets; flat code/stack walk skipped.").

Definition kernel_assert_fail (expression message file : option string) (line : Z) : code panic_statics unit :=
  match message with
  | Some _ => kernel_panic message file line
  | None => kernel_panic expression file line
  end.

(** ** Exceptions *)
Definition exception_names : list string :=
  ["Division Error"; "Debug"; "Non-maskable Interrupt"; "Breakpoint"; "Overflow";
   "BOUND Range Exceeded"; "Invalid Opcode"; "Device Not Available"; "Double Fault";
   "Coprocessor Segment Overrun"; "Invalid TSS"; "Segment Not Present"; "Stack-Segment Fault";
   "General Protection Fault"; "Page Fault"; "Reserved"; "x87 Floating-Point Exception";
   "Alignment Check"; "Machine Check"; "SIMD Floating-Point Exception"; "Reserved"; "Reserved";
   "Reserved"; "Reserved"; "Reserved"; "Reserved"; "Reserved"; "Reserved"; "Reserved"; "Reserved";
   "Reserved"; "Reserved"].

(** [dispatch] is the address of [exception_dispatch]. *)
Definition exception_initialize (dispatch : Z) : prog bus unit := store32 EXCEPTION_CALLBACK_ADDRESS dispatch.

(** The halt loop at the end of [kernel_exception_panic] is the end of the program. *)
Definition exception_panic {A} (frame : exception_frame) : code panic_statics A :=
  kernel_exception_panic frame (exception_names !! Z.to_nat (x_vector frame)) ;*
  cpanic "exception".

Definition exception_dispatch (frame : option exception_frame) : code panic_statics unit :=
  match frame with
  | None => cpanic "Invalid CPU exception frame"
  | Some frame =>
      if 32 <=? x_vector frame then cpanic "Invalid CPU exception frame" else
      let privilege := x_cs frame .& 3 in
      if (x_eflags frame .& EFLAGS_VM =? 0) && ((privilege =? 1) || (privilege =? 2)) then exception_panic frame
      else if negb (x_eflags frame .& EFLAGS_VM =? 0) || negb (privilege =? 0) then cret tt
      else exception_panic frame
  end.

(** ** Local-APIC interrupts *)
Definition LAPIC_BASE_ADDRESS : Z := 0xFEE00000.
Definition LAPIC_ESR_OFFSET : Z := 0x00000280.
Definition LAPIC_CALLBACK_ADDRESS : Z := 0x80002324.
Definition LAPIC_LINT0_VECTOR : Z := 0x21.
Definition LAPIC_LINT1_VECTOR : Z := 0x22.
Definition LAPIC_ERROR_VECTOR : Z := 0x23.
Definition LAPIC_SPURIOUS_VECTOR : Z := 0xFF.

Record lapic_counts := {
  lapic_lint0_count : Z; lapic_lint1_count : Z; lapic_error_count : Z; lapic_spurious_count : Z;
  lapic_last_error_status : Z
}.
#[export] Instance eta_lapic : Eta lapic_counts := fun l =>
  Build_lapic_counts (lapic_lint0_count l) (lapic_lint1_count l) (lapic_error_count l) (lapic_spurious_count l)
    (lapic_last_error_status l).

Definition lapic_register (offset : Z) : Z := LAPIC_BASE_ADDRESS + offset.

Definition lapic_interrupt_initialize (dispatch : Z) : code lapic_counts unit :=
  modify (fun _ => Build_lapic_counts 0 0 0 0 0) ;*
  io (store32 LAPIC_CALLBACK_ADDRESS dispatch).

Definition lapic_interrupt_dispatch (frame : option exception_frame) : code lapic_counts unit :=
  match frame with
  | None => cpanic "Null LAPIC interrupt frame"
  | Some frame =>
      let vector := x_vector frame in
      if vector =? LAPIC_LINT0_VECTOR then
        modify (fun l => l <| lapic_lint0_count := lapic_lint0_count l +% 1 |>)
      else if vector =? LAPIC_LINT1_VECTOR then
        modify (fun l => l <| lapic_lint1_count := lapic_lint1_count l +% 1 |>)
      else if vector =? LAPIC_ERROR_VECTOR then
        modify (fun l => l <| lapic_error_count := lapic_error_count l +% 1 |>) ;*
        io (store32 (lapic_register LAPIC_ESR_OFFSET) 0) ;*
        let* v := io (load32 (lapic_register LAPIC_ESR_OFFSET)) in
        modify (fun l => l <| lapic_last_error_status := v |>)
      else if vector =? LAPIC_SPURIOUS_VECTOR then
        modify (fun l => l <| lapic_spurious_count := lapic_spurious_count l +% 1 |>)
      else cpanic "Unexpected LAPIC interrupt vector"
  end.
