(* ===== verification/PanicSafety.v ===== *)
(** * The panic screen is safe to reach from anywhere

    A panic runs when anything may be wrong. It writes video memory and display registers
    only, reads memory only at addresses whose mapping it has just confirmed, and always
    gets to its final halt loop. *)
From stdpp Require Import list gmap strings.
From S2P Require Import Prelude Machine Ring Intel915 Vga Panic.

(** ** Programs that always finish *)
Fixpoint total {E A} (p : prog E A) : Prop :=
  match p with
  | Ret _ => True
  | Vis _ k => forall v, total (k v)
  | Halt _ | OutOfFuel => False
  end.

Lemma total_bind {E A B} (p : prog E A) (f : A -> prog E B) :
  total p -> (forall a, total (f a)) -> total (bind p f).
Proof. intros Hp Hf. induction p; cbn in *; auto; contradiction. Qed.

Lemma total_for_range {E} (body : Z -> prog E unit) n : forall i,
  (forall j, total (body j)) -> total (for_range n i body).
Proof. induction n as [|n IH]; intros i H; cbn [for_range]; [exact I|]. apply total_bind; auto. Qed.

Lemma wp_total {E S A} (hw : hardware E S) (p : prog E A) (Q : outcome A -> S -> Prop) s :
  total p -> wp hw p (fun o s' => match o with Done a => Q (Done a) s' | Faulted => False | _ => True end) s ->
  wp hw p Q s.
Proof.
  revert s. induction p as [a|e k IH|m|]; cbn; intros s Ht H; auto; try contradiction.
  destruct H as [He H]. split; [exact He|]. intros v s' Hv. apply IH; [apply Ht|now apply H].
Qed.

(** Code that finishes from every state of the statics. *)
Definition finishes {G A} (m : code G A) : Prop := forall g, total (m g).

Section FINISHES.
Context {G : Type}.
Lemma fin_ret {A} (a : A) : finishes (cret (G := G) a).
Proof. intros g. exact I. Qed.
Lemma fin_bind {A B} (m : code G A) (k : A -> code G B) : finishes m -> (forall a, finishes (k a)) -> finishes (cbind m k).
Proof. intros Hm Hk g. apply total_bind; [apply Hm|]. intros [a g']. apply Hk. Qed.
Lemma fin_gets {A} (f : G -> A) : finishes (gets f).
Proof. intros g. exact I. Qed.
Lemma fin_modify (f : G -> G) : finishes (modify f).
Proof. intros g. exact I. Qed.
Lemma fin_lift {A} (p : prog bus A) : total p -> finishes (lift (G := G) p).
Proof. intros Hp g. apply total_bind; [exact Hp|]. intros a. exact I. Qed.
Lemma fin_if {A} (b : bool) (m1 m2 : code G A) : finishes m1 -> finishes m2 -> finishes (if b then m1 else m2).
Proof. destruct b; auto. Qed.
Lemma fin_for (body : Z -> code G unit) n i : (forall j, finishes (body j)) -> finishes (cfor n i body).
Proof.
  intros H. unfold cfor. apply fin_bind; [|intros; apply fin_ret]. revert i.
  induction n as [|n IH]; intros i; cbn [cloop]; [apply fin_ret|]. apply fin_bind.
  - apply fin_bind; [apply H|intros; apply fin_ret].
  - intros [x|]; [apply fin_ret|apply IH].
Qed.
End FINISHES.

Create HintDb fin discriminated.
#[export] Hint Resolve fin_ret fin_gets fin_modify : fin.

Ltac fin_step :=
  lazymatch goal with
  | |- finishes (cbind _ _) => apply fin_bind; [|intros ?]
  | |- finishes (if _ then _ else _) => apply fin_if
  | |- finishes (lift _) => apply fin_lift
  | |- finishes (cfor _ _ _) => apply fin_for; intros ?
  | |- finishes (let _ := _ in _) => cbv zeta
  | |- finishes (match ?x with _ => _ end) => destruct x
  | |- total (for_range _ _ _) => apply total_for_range; intros ?
  | |- total (bind _ _) => apply total_bind; [|intros ?]
  | |- total (let _ := _ in _) => cbv zeta
  | |- total (if ?b then _ else _) => destruct b
  | |- total _ => first [solve [auto with fin nocore] | solve [cbn; intros; exact I]]
  | |- finishes _ => solve [auto with fin nocore]
  end.
Ltac fin := repeat fin_step.

Lemma fin_character c : finishes (panic_put_character c).
Proof. unfold panic_put_character. fin. Qed.
#[export] Hint Resolve fin_character : fin.

Lemma fin_characters text : finishes (put_characters text).
Proof. induction text as [|c text IH]; cbn [put_characters]; [apply fin_ret|]. apply fin_bind; [apply fin_character|auto]. Qed.

Lemma fin_text text : finishes (panic_put_text text).
Proof. destruct text; [apply fin_characters|apply fin_ret]. Qed.
Lemma fin_put text : finishes (put text).
Proof. apply fin_characters. Qed.
#[export] Hint Resolve fin_text fin_put : fin.

Lemma fin_decimal v : finishes (panic_put_decimal v).
Proof.
  unfold panic_put_decimal. induction (reverse _) as [|c l IH]; cbn [put_bytes]; [apply fin_ret|].
  apply fin_bind; [apply fin_character|auto].
Qed.
Lemma fin_hex v : finishes (panic_put_hex v).
Proof. unfold panic_put_hex. fin. Qed.
Lemma fin_hex_byte v : finishes (panic_put_hex_byte v).
Proof. unfold panic_put_hex_byte. fin. Qed.
#[export] Hint Resolve fin_decimal fin_hex fin_hex_byte : fin.

Lemma fin_register label v : finishes (put_register label v).
Proof. unfold put_register. fin. Qed.
Lemma fin_instructions eip : finishes (panic_put_instruction_bytes eip).
Proof. unfold panic_put_instruction_bytes. fin. Qed.

Lemma total_mapped cr3 a n : total (panic_range_is_mapped cr3 a n).
Proof. unfold panic_range_is_mapped. fin. Qed.
#[export] Hint Resolve total_mapped : fin.

Lemma fin_backtrace n : forall depth cr3 fp, finishes (backtrace n depth cr3 fp).
Proof. induction n as [|n IH]; intros depth cr3 fp; cbn [backtrace]; fin. Qed.
#[export] Hint Resolve fin_register fin_instructions fin_backtrace : fin.

Lemma fin_put_backtrace frame : finishes (panic_put_backtrace frame).
Proof. unfold panic_put_backtrace. fin. Qed.
Lemma fin_clear : finishes panic_clear_screen.
Proof. unfold panic_clear_screen. fin. Qed.
#[export] Hint Resolve fin_put_backtrace fin_clear : fin.

(** *** The display *)
Lemma fin_on_gpu {A} (m : code intel915_kernel A) : finishes m -> finishes (on_gpu m).
Proof. intros H g. apply total_bind; [apply H|]. intros r. exact I. Qed.
Lemma fin_on_vga {A} (m : code vga_statics A) : finishes m -> finishes (on_vga m).
Proof. intros H g. apply total_bind; [apply H|]. intros r. exact I. Qed.

Lemma fin_gpu_restore : finishes intel915_restore_text_display.
Proof.
  unfold intel915_restore_text_display, clear_enable, on_shared. fin.
  intros k. exact I.
Qed.

Lemma total_indexed ip dp i v : total (vga_write_indexed ip dp i v).
Proof. cbn. auto. Qed.
#[export] Hint Resolve total_indexed fin_gpu_restore : fin.

Lemma fin_restore_font : finishes vga_restore_startup_font.
Proof. unfold vga_restore_startup_font, vga_begin_font_access, vga_end_font_access, each_row. fin. Qed.
#[export] Hint Resolve fin_restore_font : fin.

Lemma fin_restore_text : finishes vga_restore_text_mode.
Proof.
  unfold vga_restore_text_mode. apply fin_bind; [apply fin_on_gpu, fin_gpu_restore|intros _].
  unfold vga_mode3_registers, vga_restore_palette. fin.
Qed.

Lemma fin_kernel_panic message file line : finishes (kernel_panic message file line).
Proof. unfold kernel_panic. apply fin_bind; [fin|intros _]. apply fin_bind; [apply fin_on_vga, fin_restore_text|intros _]. fin. Qed.

Lemma fin_exception_panic frame name : finishes (kernel_exception_panic frame name).
Proof.
  unfold kernel_exception_panic. apply fin_bind; [fin|intros _]. apply fin_bind; [fin|intros cr2].
  apply fin_bind; [apply fin_on_vga, fin_restore_text|intros _]. fin.
Qed.

(** ** What a panic touches *)
Definition translated (a : Z) (t : trace) : Prop :=
  exists cr3 p, (Api "get_physical_address" [cr3; a], p) ∈ t /\ p <> 0.

(** A word of a stack frame at [f]: aligned, and its first and last byte are mapped. *)
Definition frame_word (a : Z) (t : trace) : Prop :=
  exists f, f .& 3 = 0 /\ 0 <= f /\ f + 8 <= 2 ^ 32 /\ (a = f \/ a = f + 4) /\ translated f t /\ translated (f + 7) t.

Definition gpu_register (a : Z) : Prop :=
  I915_BASE + I915_MMIO_OFFSET <= a < I915_BASE + I915_MMIO_OFFSET + 0x80000.

Definition panic_policy (t : trace) (e : bus) : Prop :=
  match e with
  | Cli | ReadReg CR2 | ReadReg CR3 => True
  | In W8 p | Out W8 p _ => VGA_ATTRIBUTE_INDEX <= p <= VGA_INPUT_STATUS_1
  | Api f [_; _] => f = "get_physical_address"
  | Load W8 a => translated a t
  | Load W32 a => gpu_register a \/ frame_word a t
  | Store W8 a _ => VGA_FONT_MEMORY <= a < VGA_FONT_MEMORY + 0x2000
  | Store W16 a v => (exists cell, 0 <= cell < VGA_WIDTH * VGA_HEIGHT /\ a = VGA_TEXT_ADDRESS + 2 * cell) /\
                     v >>> 8 = PANIC_ATTRIBUTE
  | Store W32 a _ => gpu_register a
  | _ => False
  end.

Abbreviation ok := panic_policy.
Definition cursor_sane (g : panic_statics) (t : trace) : Prop := 0 <= panic_cursor g.
Definition anything {G} (g : G) (t : trace) : Prop := True.

Lemma pan_character c : keeps ok cursor_sane (panic_put_character c).
Proof.
  unfold panic_put_character. apply keeps_gets_bind. intros g0 t0 H0. unfold cursor_sane in H0.
  apply keeps_if; intros _; [apply keeps_modify; intros g t _; apply add32_range|].
  apply keeps_if; intros E; [|apply keeps_ret]. bool_to_prop. apply keeps_bind.
  - apply keeps_write. intros g t Hg. split; [|intros v _; exact Hg]. split.
    + exists (panic_cursor g0). split; [lia|reflexivity].
    + unfold PANIC_ATTRIBUTE. change (79 <<% 8) with (79 * 2 ^ 8). rewrite Z.lor_comm, lor_add by (try apply u8_range; lia).
      pose proof (u8_range c) as Hc. unfold in_u in Hc. unfold u16. rewrite wrap_small by ulia.
      rewrite Z.shiftr_div_pow2, Z.add_comm, Z.div_add by lia. rewrite Z.div_small by lia. reflexivity.
  - intros _. apply keeps_modify. intros g t _. apply add32_range.
Qed.

Lemma pan_characters text : keeps ok cursor_sane (put_characters text).
Proof.
  induction text as [|c text IH]; cbn [put_characters]; [apply keeps_ret|]. apply keeps_bind; [apply pan_character|auto].
Qed.

Lemma pan_bytes l : keeps ok cursor_sane (put_bytes l).
Proof. induction l as [|c l IH]; cbn [put_bytes]; [apply keeps_ret|]. apply keeps_bind; [apply pan_character|auto]. Qed.

Lemma pan_text text : keeps ok cursor_sane (panic_put_text text).
Proof. destruct text; [apply pan_characters|apply keeps_ret]. Qed.

Lemma pan_hex v : keeps ok cursor_sane (panic_put_hex v).
Proof.
  unfold panic_put_hex. apply keeps_bind; [apply pan_characters|intros _]. apply keeps_for. intros. apply pan_character.
Qed.

Lemma pan_register label v : keeps ok cursor_sane (put_register label v).
Proof. apply keeps_bind; [apply pan_characters|intros _; apply pan_hex]. Qed.

Lemma pan_cr3 : keeps ok cursor_sane (io panic_read_cr3).
Proof. apply keeps_access. intros g t Hg. now split. Qed.

Lemma pan_instructions eip : keeps ok cursor_sane (panic_put_instruction_bytes eip).
Proof.
  unfold panic_put_instruction_bytes. apply keeps_bind; [apply pan_cr3|intros cr3].
  apply keeps_bind; [apply pan_characters|intros _]. apply keeps_for. intros index _. cbv zeta.
  apply keeps_bind; [|intros _; apply pan_character]. apply keeps_if; intros _; [apply pan_characters|].
  set (a := eip +% index).
  eapply triple_bind with (R := fun p g t => cursor_sane g t /\ (Api "get_physical_address" [cr3; a], p) ∈ t).
  { apply triple_access; [now intros|]. intros v g t _ Hg. split; [exact Hg|apply list_elem_of_here]. }
  intros p. apply triple_if; intros Ep; [eapply triple_pre; [apply pan_characters|tauto]|]. bool_to_prop.
  eapply triple_bind with (R := fun _ => cursor_sane).
  { apply triple_access; [|intros v g t _ [Hg _]; exact Hg]. intros g t [_ Hin]. now exists cr3, p. }
  intros byte. apply keeps_bind; [apply pan_character|intros _; apply pan_character].
Qed.

(** A frame pointer whose eight bytes are mapped. *)
Lemma pan_mapped cr3 f :
  is_u32 f -> f .& 3 = 0 ->
  triple ok cursor_sane (io (panic_range_is_mapped cr3 f 8))
    (fun b g t => cursor_sane g t /\ (b = true -> frame_word f t /\ frame_word (f + 4) t)).
Proof.
  intros Hf Hal g t Hg. unfold lift. apply wp_bind. unfold panic_range_is_mapped. change (8 =? 0) with false. cbv iota zeta.
  destruct (Z.ltb_spec (f +% 8 -% 1) f) as [Hw|Hw]; [cbn; split; [exact Hg|discriminate]|].
  assert (f +% 8 -% 1 = f + 7 /\ f + 8 <= 2 ^ 32) as [El Hb].
  { unfold in_u in Hf. assert (f + 7 < 2 ^ 32 \/ 2 ^ 32 <= f + 7) as [H|H] by lia.
    - unfold sub32, add32, u32, wrap. rewrite Zminus_mod_idemp_l. replace (f + 8 - 1) with (f + 7) by lia.
      rewrite Z.mod_small by lia. lia.
    - exfalso. revert Hw. unfold sub32, add32, u32, wrap. rewrite Zminus_mod_idemp_l.
      replace (f + 8 - 1) with (f + 7 - 2 ^ 32 + 1 * 2 ^ 32) by lia. rewrite Z_mod_plus_full, Z.mod_small by lia. lia. }
  rewrite El. cbn. split; [reflexivity|]. intros p t1 [_ ->].
  destruct (Z.eqb_spec p 0) as [->|Hp]; [cbn; split; [exact Hg|discriminate]|].
  cbn. split; [reflexivity|]. intros q t2 [_ ->]. split; [exact Hg|]. intros Eq. bool_to_prop.
  split; exists f; unfold in_u in Hf; (split; [exact Hal|]); (split; [lia|]); (split; [exact Hb|]); (split; [tauto|]);
    (split; [exists cr3, p|exists cr3, q]; (split; [in_trace|assumption])).
Qed.

Lemma frame_word_grows a x t : frame_word a t -> frame_word a (x :: t).
Proof.
  intros (f & H1 & H2 & H3 & H4 & (c & p & Hin & Hp) & (c' & q & Hin' & Hq)). exists f.
  do 4 (split; [assumption|]). split; [exists c, p|exists c', q]; (split; [now apply list_elem_of_further|assumption]).
Qed.

Lemma pan_backtrace n : forall depth cr3 f, is_u32 f -> keeps ok cursor_sane (backtrace n depth cr3 f).
Proof.
  induction n as [|n IH]; intros depth cr3 f Hf; cbn [backtrace]; [apply keeps_ret|].
  apply keeps_if; intros Eal; [apply keeps_ret|]. bool_to_prop.
  eapply triple_bind; [now apply pan_mapped|]. intros [|]; cbn [negb].
  2:{ apply triple_ret. tauto. }
  eapply triple_bind with (R := fun v g t => (cursor_sane g t /\ frame_word (f + 4) t) /\ is_u32 v).
  { apply triple_access; [intros g t [_ H]; right; now apply H|]. intros v g t Hv [Hg H].
    split; [|exact Hv]. split; [exact Hg|]. now apply frame_word_grows, H. }
  intros next. apply triple_pure. intros Hn.
  eapply triple_bind with (R := fun _ => cursor_sane).
  { apply triple_access; [intros g t [_ H]; now right|]. now intros v g t _ [Hg _]. }
  intros ra. to_keeps. apply keeps_if; intros _; [apply keeps_ret|].
  apply keeps_bind; [apply pan_characters|intros _]. apply keeps_bind; [apply pan_bytes|intros _].
  apply keeps_bind; [apply pan_character|intros _]. apply keeps_bind; [apply pan_hex|intros _].
  apply keeps_if; intros _; [apply keeps_ret|now apply IH].
Qed.

Lemma pan_clear : keeps ok cursor_sane panic_clear_screen.
Proof.
  unfold panic_clear_screen. apply keeps_bind; [|intros _; apply keeps_modify; intros g t _; apply Z.le_refl].
  apply keeps_bus; [|auto]. apply bus_for_range. intros i Hi. change (0 + Z.of_nat _) with 2000 in Hi.
  apply bus_write. intros t. split; [exists i; split; [unfold VGA_WIDTH, VGA_HEIGHT; lia|reflexivity]|reflexivity].
Qed.

(** *** The display *)
Lemma pan_port p v : VGA_ATTRIBUTE_INDEX <= p <= VGA_INPUT_STATUS_1 -> bus_ok ok (vga_out8 p v).
Proof. intros Hp. apply bus_write. now intros t. Qed.

Lemma pan_indexed ip dp i v :
  VGA_ATTRIBUTE_INDEX <= ip <= VGA_INPUT_STATUS_1 -> VGA_ATTRIBUTE_INDEX <= dp <= VGA_INPUT_STATUS_1 ->
  bus_ok ok (vga_write_indexed ip dp i v).
Proof. intros Hi Hd. apply bus_bind; [now apply pan_port|intros _; now apply pan_port]. Qed.

Ltac pan_ports :=
  repeat match goal with
  | |- bus_ok _ (vga_out8 _ _) => apply pan_port; now vm_compute
  | |- bus_ok _ (vga_write_indexed _ _ _ _) => apply pan_indexed; now vm_compute
  | |- bus_ok _ (vga_in8 _) => apply bus_access; intros ?; now vm_compute
  | |- bus_ok _ (bind _ _) => apply bus_bind; [|intros ?]
  | |- bus_ok _ (for_range _ _ _) => apply bus_for_range; intros ? ?
  end.

Lemma pan_begin : bus_ok ok vga_begin_font_access.
Proof. unfold vga_begin_font_access. pan_ports. Qed.
Lemma pan_end : bus_ok ok vga_end_font_access.
Proof. unfold vga_end_font_access. pan_ports. Qed.
Lemma pan_mode3 : bus_ok ok vga_mode3_registers.
Proof. unfold vga_mode3_registers. pan_ports. Qed.
Lemma pan_palette : bus_ok ok vga_restore_palette.
Proof. unfold vga_restore_palette. pan_ports. Qed.

Lemma keeps_free {G A} (p : prog bus A) : bus_ok ok p -> keeps ok (anything (G := G)) (lift p).
Proof. intros Hp. now apply keeps_bus. Qed.

Lemma pan_font : keeps ok anything vga_restore_startup_font.
Proof.
  unfold vga_restore_startup_font. apply keeps_gets_bind. intros g0 t0 _. apply keeps_if; intros _; [apply keeps_ret|].
  apply keeps_bind; [apply keeps_free, pan_begin|intros _]. apply keeps_bind; [|intros _; apply keeps_free, pan_end].
  unfold each_row. apply keeps_for. intros glyph Hg. apply keeps_for. intros row Hr.
  change (0 + Z.of_nat _) with 256 in Hg. change (0 + Z.of_nat _) with 16 in Hr.
  apply keeps_gets_bind. intros g t _. apply keeps_free, bus_write. intros t'. cbn.
  unfold VGA_FONT_MEMORY, VGA_GLYPH_SLOT_SIZE. lia.
Qed.

Lemma gpu_reg r : 0 <= r < 0x80000 -> gpu_register (reg_at (I915_BASE + I915_MMIO_OFFSET) r).
Proof.
  intros Hr. unfold gpu_register, reg_at. pose proof (Z.div_mod r 4 ltac:(lia)).
  pose proof (Z.mod_pos_bound r 4 eq_refl). lia.
Qed.

Lemma pan_gpu : keeps ok anything intel915_restore_text_display.
Proof.
  assert (forall r v, 0 <= r < 0x80000 -> bus_ok ok (store32 (reg_at (I915_BASE + I915_MMIO_OFFSET) r) v)) as Hst.
  { intros r v Hr. apply bus_write. intros t. now apply gpu_reg. }
  assert (forall r, 0 <= r < 0x80000 -> bus_ok ok (load32 (reg_at (I915_BASE + I915_MMIO_OFFSET) r))) as Hld.
  { intros r Hr. apply bus_access. intros t. left. now apply gpu_reg. }
  unfold intel915_restore_text_display. apply keeps_gets_bind. intros k t _. apply keeps_if; intros _; [apply keeps_ret|].
  cbv zeta. apply keeps_bind.
  { apply keeps_free, bus_for_range. intros pipe Hp. apply bus_bind; [|intros _]; apply Hst;
      unfold CURSOR_CONTROL, CURSOR_BASE, CURSOR_STRIDE; lia. }
  intros _. apply keeps_bind; [intros k' t' _; exact I|intros _]. unfold clear_enable.
  apply keeps_bind; [apply keeps_free, bus_bind; [apply Hld; now vm_compute|intros ?; apply Hst; now vm_compute]|intros _].
  apply keeps_bind; [apply keeps_free, Hst; now vm_compute|intros _].
  apply keeps_bind; [apply keeps_free, bus_bind; [apply Hld; now vm_compute|intros ?; apply Hst; now vm_compute]|intros _].
  do 2 (apply keeps_bind; [apply keeps_free, Hst; now vm_compute|intros _]).
  apply keeps_bind; [apply keeps_free, Hld; now vm_compute|intros _]. apply keeps_ret.
Qed.

Lemma keeps_on_vga {A} (m : code vga_statics A) : keeps ok anything m -> keeps ok cursor_sane (on_vga m).
Proof.
  intros Hm p t Hp. unfold on_vga. apply wp_bind. eapply wp_mono; [|exact (Hm (p_vga p) t I)].
  intros [[a v]|m'| |] t'; cbn; auto.
Qed.

Lemma pan_restore_text : keeps ok cursor_sane (on_vga vga_restore_text_mode).
Proof.
  apply keeps_on_vga. unfold vga_restore_text_mode. apply keeps_bind.
  { intros v t _. unfold on_gpu. apply wp_bind. eapply wp_mono; [|exact (pan_gpu (v_gpu v) t I)].
    intros [[a k]|m'| |] t'; cbn; auto. }
  intros _. apply keeps_bind; [apply keeps_free, pan_mode3|intros _].
  apply keeps_bind; [apply keeps_free, pan_palette|intros _]. apply keeps_bind; [apply pan_font|intros _].
  apply keeps_bind; [apply keeps_free; pan_ports|intros _]. apply keeps_bind; [apply keeps_free; pan_ports|intros _].
  apply keeps_free. pan_ports.
Qed.

Lemma pan_cli : keeps ok cursor_sane (io cli).
Proof. apply keeps_write. intros g t Hg. now split. Qed.

Lemma pan_exception frame name : is_u32 (x_ebp frame) -> keeps ok cursor_sane (kernel_exception_panic frame name).
Proof.
  intros Hebp. unfold kernel_exception_panic. apply keeps_bind; [apply pan_cli|intros _].
  apply keeps_bind; [apply keeps_if; intros _; [apply keeps_access; intros g t Hg; now split|apply keeps_ret]|intros cr2].
  apply keeps_bind; [apply pan_restore_text|intros _]. apply keeps_bind; [apply pan_clear|intros _]. cbv zeta.
  apply keeps_bind; [apply pan_characters|intros _]. apply keeps_bind; [apply pan_text|intros _].
  do 13 (apply keeps_bind; [apply pan_register|intros _]).
  apply keeps_bind; [apply keeps_if; intros _; [apply pan_register|apply keeps_ret]|intros _].
  apply keeps_bind; [apply keeps_if; intros _; [apply pan_register|apply keeps_ret]|intros _].
  apply keeps_if; intros _; [|apply pan_characters]. apply keeps_bind; [apply pan_instructions|intros _].
  unfold panic_put_backtrace. apply keeps_bind; [apply pan_cr3|intros cr3].
  do 2 (apply keeps_bind; [apply pan_characters|intros _]). apply keeps_bind; [apply pan_hex|intros _].
  now apply pan_backtrace.
Qed.

Lemma pan_kernel message file line : keeps ok cursor_sane (kernel_panic message file line).
Proof.
  unfold kernel_panic. apply keeps_bind; [apply pan_cli|intros _]. apply keeps_bind; [apply pan_restore_text|intros _].
  apply keeps_bind; [apply pan_clear|intros _]. apply keeps_bind; [apply pan_characters|intros _].
  apply keeps_bind; [apply pan_text|intros _]. apply keeps_bind; [apply pan_characters|intros _].
  apply keeps_bind; [apply pan_text|intros _]. apply keeps_bind; [apply pan_character|intros _]. apply pan_bytes.
Qed.

(** A run that stays within the policy and ends. *)
Definition reaches_halt {A} (m : code panic_statics A) (g : panic_statics) (t : trace) : Prop :=
  wp (any_hw panic_policy) (m g) (fun o _ => exists r, o = Done r) t.

Lemma finishes_within {A} (m : code panic_statics A) g t :
  finishes m -> keeps ok cursor_sane m -> 0 <= panic_cursor g -> reaches_halt m g t.
Proof.
  intros Hf Hk Hg. apply wp_total; [apply Hf|]. eapply wp_mono; [|exact (Hk g t Hg)].
  intros [[a g']|m'| |] t'; cbn; auto. intros _. now eexists.
Qed.

(** C8: a panic, for an exception with any register contents and any exception name or for
    any message (also a null pointer), whatever memory and the page tables hold and
    whatever the hardware answers, always reaches its halt loop. On the way it writes
    nothing but the 2000 cells of the screen, in the panic colours, the font window,
    VGA ports and display registers; the bytes at the faulting instruction and the words
    of each stack frame are read only after the kernel's page tables were asked about
    that very address, or about both ends of that aligned frame, and said it is mapped. *)
Theorem panic_contained frame name message file line g t :
  is_u32 (x_ebp frame) -> 0 <= panic_cursor g ->
  reaches_halt (kernel_exception_panic frame name) g t /\ reaches_halt (kernel_panic message file line) g t.
Proof.
  intros Hebp Hg. split; apply finishes_within; try assumption.
  - apply fin_exception_panic.
  - now apply pan_exception.
  - apply fin_kernel_panic.
  - apply pan_kernel.
Qed.

(** A page fault in the kernel, with a frame pointer that points nowhere. *)
Definition page_fault : exception_frame :=
  Build_exception_frame 0 0 0xFFFFFFFC 0x1000 0 0 0 0 0 0 0 0 14 2 0xFFFFFFF8 8 0x202 0 0.
Definition first_panic : panic_statics :=
  Build_panic_statics 0 (Build_vga_statics [] VGA_FONT_NOT_CAPTURED (Build_intel915_kernel false zero_shared)).

Lemma panic_contained_witness :
  is_u32 (x_ebp page_fault) /\
  reaches_halt (kernel_exception_panic page_fault (Some "Page Fault")) first_panic [] /\
  reaches_halt (kernel_panic None (Some "Intel915.c") 700) first_panic [].
Proof.
  assert (is_u32 (x_ebp page_fault)) as H by (cbn; ulia). split; [exact H|].
  apply panic_contained; [exact H|]. cbn. lia.
Defined.

(** ** Dispatch *)

(** The fault belongs to a user task: V86 mode, or ring 3. *)
Definition from_user (frame : exception_frame) : bool :=
  negb (x_eflags frame .& EFLAGS_VM =? 0) || (x_cs frame .& 3 =? 3).

(** C14: which exceptions a process survives. The dispatcher returns to the assembly stub exactly for
    faults of V86 tasks and of ring 3, touching nothing; a fault of the kernel or of a ring-1 or ring-2 driver, which may hold shared
    state, never returns: it ends on the panic screen. A missing frame or a vector
    beyond the CPU's 32 exceptions is itself a panic, before the frame is used. *)
Theorem exception_dispatch_spec frame g t :
  0 <= panic_cursor g -> (forall f, frame = Some f -> is_u32 (x_ebp f)) ->
  wp (any_hw panic_policy) (exception_dispatch frame g)
    (fun o t' =>
       match frame with
       | None => o = Panicked "Invalid CPU exception frame" /\ t' = t
       | Some f =>
           if 32 <=? x_vector f then o = Panicked "Invalid CPU exception frame" /\ t' = t
           else if from_user f then o = Done (tt, g) /\ t' = t
           else o = Panicked "exception"
       end) t.
Proof.
  intros Hg Hf. destruct frame as [f|]; [|now split]. specialize (Hf f eq_refl). unfold exception_dispatch.
  case_if; [now split|]. cbv zeta. unfold from_user.
  assert (wp (any_hw panic_policy) (exception_panic (A := unit) f g) (fun o t' => o = Panicked "exception") t) as Hp.
  { unfold exception_panic. apply wp_cbind.
    eapply wp_mono; [|apply (finishes_within _ g t (fin_exception_panic f _) (pan_exception f _ Hf) Hg)].
    intros o t' [[u g'] ->]. reflexivity. }
  pose proof (land_le (x_cs f) 3 ltac:(lia)) as Hc.
  destruct (Z.eqb_spec (x_eflags f .& EFLAGS_VM) 0); cbn [andb orb negb]; [|now split].
  destruct (Z.eqb_spec (x_cs f .& 3) 3) as [E3|E3].
  - rewrite E3. now split.
  - destruct (Z.eqb_spec (x_cs f .& 3) 1); [exact Hp|]. destruct (Z.eqb_spec (x_cs f .& 3) 2); [exact Hp|]. cbn [orb].
    destruct (Z.eqb_spec (x_cs f .& 3) 0); [exact Hp|]. lia.
Qed.

Lemma exception_dispatch_spec_witness :
  wp (any_hw panic_policy) (exception_dispatch (Some page_fault) first_panic)
    (fun o _ => o = Panicked "exception") [].
Proof.
  eapply wp_mono; [|apply (exception_dispatch_spec (Some page_fault) first_panic [])].
  - intros o t H. exact H.
  - cbn. lia.
  - intros f [= <-]. cbn. ulia.
Defined.
