(* ===== verification/Keyboard.v ===== *)
(** * The keyboard driver: [Drivers/Keyboard/KeyboardDriver.c]

    The ring-2 decoder and its service entry. The fields of [struct keyboard_shared]
    that only ring 2 touches are the record [decoder]; the queue it shares with the
    interrupt handler ([lock], [head], [tail], [dropped], [bytes]) is memory on the
    bus, so that the handler can run between any two accesses. Addresses are the
    linear ones: the ring-2 data segment has base [KEYBOARD_DRIVER_BASE]. *)
From stdpp Require Import list gmap strings.
From S2P Require Import Prelude Machine.

Definition KEYBOARD_DRIVER_BASE : Z := 0x70000000.
Definition KEYBOARD_DRIVER_SIZE : Z := 0x100000.
Definition KEYBOARD_QUEUE_OFFSET : Z := 0x8000.
Definition KEYBOARD_QUEUE_SIZE : Z := 256.
Definition KEYBOARD_QUEUE_MASK : Z := 255.
Definition KEYBOARD_QUERY_KEY : Z := 0.
Definition KEYBOARD_QUERY_ANY : Z := 1.
Definition KEYBOARD_PROCESS_INPUT : Z := 2.

(** The queue fields of [struct keyboard_shared]. *)
Definition KEYBOARD_STATE : Z := KEYBOARD_DRIVER_BASE + KEYBOARD_QUEUE_OFFSET.
Definition lock_at : Z := KEYBOARD_STATE.
Definition head_at : Z := KEYBOARD_STATE + 4.
Definition tail_at : Z := KEYBOARD_STATE + 8.
Definition dropped_at : Z := KEYBOARD_STATE + 12.
Definition byte_at (i : Z) : Z := KEYBOARD_STATE + 296 + i.

(** Its other fields. *)
Record decoder := {
  last_cpl : Z; calls : Z; observed_dropped : Z;
  extended : Z; pause_remaining : Z; down_count : Z; down : list Z
}.
#[export] Instance eta_decoder : Eta decoder := fun s =>
  Build_decoder (last_cpl s) (calls s) (observed_dropped s) (extended s) (pause_remaining s)
    (down_count s) (down s).

Definition is_down (s : decoder) (key : Z) : Z := default 0 (down s !! Z.to_nat key).

Definition keyboard_decode_byte (state : decoder) (byte : Z) : decoder :=
  if negb (pause_remaining state =? 0) then
    state <| pause_remaining := pause_remaining state -% 1 |>
  else if byte =? 0xE1 then state <| pause_remaining := 5 |> <| extended := 0 |>
  else if byte =? 0xE0 then state <| extended := 1 |>
  else
    let key := byte .& 0x7F in
    let pressed := byte .& 0x80 =? 0 in
    let was_extended := negb (extended state =? 0) in
    let state := if was_extended then state <| extended := 0 |> else state in
    if was_extended && ((key =? 0x2A) || (key =? 0x36)) then state else
    let key := if was_extended then key +% 128 else key in
    if (key =? 0) || (key =? 0x7F) then state
    else if pressed && (is_down state key =? 0) then
      state <| down := <[Z.to_nat key := 1]> (down state) |>
            <| down_count := down_count state +% 1 |>
    else if negb pressed && negb (is_down state key =? 0) then
      state <| down := <[Z.to_nat key := 0]> (down state) |>
            <| down_count := down_count state -% 1 |>
    else state.

(** The reset after lost input. *)
Definition forget_keys (state : decoder) : decoder :=
  state <| down := replicate 256 0 |> <| down_count := 0 |> <| extended := 0 |>
        <| pause_remaining := 0 |>.

(** [while (remaining != 0 && tail != head)] *)
Fixpoint keyboard_drain (remaining : nat) : code decoder unit :=
  match remaining with
  | O => cret tt
  | S remaining' =>
      let* t := io (load32 tail_at) in
      let* h := io (load32 head_at) in
      if t =? h then cret tt else
      let* tail := io (load32 tail_at) in
      let* byte := io (load8 (byte_at tail)) in
      io (store32 tail_at ((tail +% 1) .& KEYBOARD_QUEUE_MASK)) ;*
      modify (fun s => keyboard_decode_byte s byte) ;*
      keyboard_drain remaining'
  end.

Definition keyboard_process_queue : code decoder unit :=
  let* observed := gets observed_dropped in
  let* dropped := io (load32 dropped_at) in
  (if negb (observed =? dropped) then
     let* dropped := io (load32 dropped_at) in
     modify (fun s => forget_keys s <| observed_dropped := dropped |>) ;*
     let* head := io (load32 head_at) in
     io (store32 tail_at head)
   else cret tt) ;*
  keyboard_drain (Z.to_nat KEYBOARD_QUEUE_SIZE).

(** The spin on [xchgl]. *)
Fixpoint take_lock (fuel : nat) : prog bus unit :=
  match fuel with
  | O => OutOfFuel
  | S fuel' =>
      let! busy := access (Xchg lock_at 1) in
      if negb (busy =? 0) then take_lock fuel' else Ret tt
  end.

Definition keyboard_answer (s : decoder) (operation key : Z) : Z :=
  if (operation =? KEYBOARD_QUERY_KEY) && (key <? 256) then is_down s key
  else if operation =? KEYBOARD_QUERY_ANY then b2z (negb (down_count s =? 0))
  else if operation =? KEYBOARD_PROCESS_INPUT then 0
  else 0xFFFFFFFF.

Definition keyboard_driver_service (fuel : nat) (operation key : Z) : code decoder Z :=
  io (take_lock fuel) ;*
  let* cs := io (access (ReadReg CS)) in
  modify (fun s => s <| last_cpl := cs .& 3 |> <| calls := calls s +% 1 |>) ;*
  keyboard_process_queue ;*
  let* result := gets (fun s => keyboard_answer s operation key) in
  io (store32 lock_at 0) ;*
  cret result.

(** ** The decoder

    Abstractly: a set of pressed keys and a scanner. *)
Inductive scanner :=
| Plain
| Extended
| InPause (left : Z).

(** One byte of the Set-1 stream: the scanner's next state and the key event, if the
    byte completes one. *)
Definition scan (m : scanner) (byte : Z) : scanner * option (Z * bool) :=
  match m with
  | InPause n => (if n =? 1 then Plain else InPause (n - 1), None)
  | _ =>
      if byte =? 0xE1 then (InPause 5, None)
      else if byte =? 0xE0 then (Extended, None)
      else
        let code := byte mod 128 in
        let make := byte <? 128 in
        let event :=
          match m with
          | Extended => if (code =? 0x2A) || (code =? 0x36) then None else Some (128 + code, make)
          | _ => if (code =? 0) || (code =? 0x7F) then None else Some (code, make)
          end in
        (Plain, event)
  end.

Definition press (keys : gset Z) (event : option (Z * bool)) : gset Z :=
  match event with
  | None => keys
  | Some (key, true) => {[key]} ∪ keys
  | Some (key, false) => keys ∖ {[key]}
  end.

Definition scan_byte (a : scanner * gset Z) (byte : Z) : scanner * gset Z :=
  let (m, event) := scan (fst a) byte in (m, press (snd a) event).

(** The decoder implements a scanner state and a key set. *)
Definition scanner_of (s : decoder) (m : scanner) : Prop :=
  match m with
  | Plain => extended s = 0 /\ pause_remaining s = 0
  | Extended => extended s = 1 /\ pause_remaining s = 0
  | InPause n => extended s = 0 /\ pause_remaining s = n /\ 1 <= n <= 5
  end.

Definition decodes (s : decoder) (a : scanner * gset Z) : Prop :=
  scanner_of s (fst a) /\ length (down s) = 256%nat /\
  down_count s = Z.of_nat (size (snd a)) /\
  (forall key, key ∈ snd a -> 0 <= key < 256) /\
  (forall key, 0 <= key < 256 -> is_down s key = if decide (key ∈ snd a) then 1 else 0).

Lemma break_bit b : is_u8 b -> (b .& 0x80 =? 0) = (b <? 128).
Proof.
  intros Hb. apply eqb_prop.
  apply (u8_forall (fun b => Bool.eqb (b .& 0x80 =? 0) (b <? 128))); [vm_compute; reflexivity|exact Hb].
Qed.

(** At most 256 keys are down, so the counter never wraps. *)
Lemma keys_bound (keys : gset Z) :
  (forall key, key ∈ keys -> 0 <= key < 256) -> Z.of_nat (size keys) <= 256.
Proof.
  intros H. assert (keys ⊆ (list_to_set (seqZ 0 256) : gset Z)) as Hs.
  { intros x Hx. apply elem_of_list_to_set, elem_of_seqZ. apply H in Hx. lia. }
  apply subseteq_size in Hs. rewrite size_list_to_set in Hs by apply NoDup_seqZ.
  rewrite length_seqZ in Hs. lia.
Qed.

Lemma is_down_insert s key v k :
  length (down s) = 256%nat -> 0 <= key < 256 -> 0 <= k < 256 ->
  default 0 (<[Z.to_nat key := v]> (down s) !! Z.to_nat k) = if decide (k = key) then v else is_down s k.
Proof.
  intros Hl Hk1 Hk2. destruct (decide (k = key)) as [->|Hne].
  - rewrite list_lookup_insert_eq by lia. reflexivity.
  - rewrite list_lookup_insert_ne by lia. reflexivity.
Qed.

(** The key table under a press or a release. *)
Lemma decodes_press s keys key make m :
  decodes s (m, keys) -> 0 <= key < 256 ->
  decodes (if make && (is_down s key =? 0) then
             s <| down := <[Z.to_nat key := 1]> (down s) |> <| down_count := down_count s +% 1 |>
           else if negb make && negb (is_down s key =? 0) then
             s <| down := <[Z.to_nat key := 0]> (down s) |> <| down_count := down_count s -% 1 |>
           else s)
    (m, press keys (Some (key, make))).
Proof.
  intros (Hm & Hl & Hc & Hr & Hd) Hk. cbn [fst snd] in *. pose proof (keys_bound keys Hr) as Hn.
  rewrite (Hd key Hk). destruct (decide (key ∈ keys)) as [Hin|Hout], make; cbn [andb negb Z.eqb].
  - change (1 =? 0) with false. cbn [press]. replace ({[key]} ∪ keys) with keys by set_solver.
    repeat split; auto; apply Hr; assumption.
  - change (negb (1 =? 0)) with true. cbn [press].
    assert (size (keys ∖ {[key]}) = pred (size keys)) as Es.
    { rewrite size_difference by set_solver. rewrite size_singleton. lia. }
    assert (size keys <> O) by (rewrite size_non_empty_iff; set_solver).
    split; [exact Hm|]. cbn. split; [now rewrite length_insert|]. split; [|split].
    + rewrite Hc, Es, sub32_small by ulia. lia.
    + intros k Hk'. apply Hr. set_solver.
    + intros k Hk'. unfold is_down. cbn. rewrite is_down_insert by assumption.
      destruct (decide (k = key)) as [->|Hne]; [destruct (decide _); set_solver|].
      rewrite Hd by assumption. repeat destruct (decide _); set_solver.
  - change (0 =? 0) with true. cbn [press].
    assert (size ({[key]} ∪ keys) = S (size keys)) as Es.
    { rewrite size_union by set_solver. rewrite size_singleton. lia. }
    split; [exact Hm|]. cbn. split; [now rewrite length_insert|]. split; [|split].
    + rewrite Hc, Es, add32_small by ulia. lia.
    + intros k Hk'. apply elem_of_union in Hk' as [Hk'|Hk']; [|auto].
      apply elem_of_singleton in Hk'. lia.
    + intros k Hk'. unfold is_down. cbn. rewrite is_down_insert by assumption.
      destruct (decide (k = key)) as [->|Hne]; [destruct (decide _); set_solver|].
      rewrite Hd by assumption. repeat destruct (decide _); set_solver.
  - change (negb (0 =? 0)) with false. cbn [press]. replace (keys ∖ {[key]}) with keys by set_solver.
    repeat split; auto; apply Hr; assumption.
Qed.

Lemma decodes_scanner s m m' keys s' :
  decodes s (m, keys) -> scanner_of s' m' -> down s' = down s -> down_count s' = down_count s ->
  decodes s' (m', keys).
Proof.
  intros (_ & Hl & Hc & Hr & Hd) Hm Ed Ec. unfold decodes, is_down in *. cbn [fst snd] in *.
  rewrite Ed, Ec. auto.
Qed.

Lemma decode_byte_refines s a byte :
  is_u8 byte -> decodes s a -> decodes (keyboard_decode_byte s byte) (scan_byte a byte).
Proof.
  intros Hb Hs. destruct a as [m keys]. pose proof Hs as (Hm & Hl & Hc & Hr & Hd).
  unfold keyboard_decode_byte, scan_byte, scan. cbn [fst snd] in *.
  rewrite break_bit by assumption.
  replace (byte .& 0x7F) with (byte mod 128) by (symmetry; apply (land_ones_mod byte 7); lia).
  pose proof (Z.mod_pos_bound byte 128 ltac:(lia)) as Hmod.
  destruct m as [| |n]; cbn in Hm.
  - destruct Hm as [He Hp]. rewrite Hp, He. cbn [negb Z.eqb].
    change (negb (0 =? 0)) with false. cbn [andb].
    destruct (byte =? 225) eqn:E1.
    { eapply decodes_scanner; [exact Hs| |reflexivity..]. cbn. lia. }
    destruct (byte =? 224) eqn:E2.
    { eapply decodes_scanner; [exact Hs| |reflexivity..]. cbn. lia. }
    destruct ((byte mod 128 =? 0) || (byte mod 128 =? 127)); [exact Hs|].
    apply decodes_press; [exact Hs|lia].
  - destruct Hm as [He Hp]. rewrite Hp, He. change (negb (0 =? 0)) with false.
    change (negb (1 =? 0)) with true. cbn [andb].
    destruct (byte =? 225) eqn:E1.
    { eapply decodes_scanner; [exact Hs| |reflexivity..]. cbn. lia. }
    destruct (byte =? 224) eqn:E2.
    { eapply decodes_scanner; [exact Hs| |reflexivity..]. cbn. lia. }
    assert (decodes (s <| extended := 0 |>) (Plain, keys)) as Hs'.
    { eapply decodes_scanner; [exact Hs| |reflexivity..]. cbn. lia. }
    destruct ((byte mod 128 =? 42) || (byte mod 128 =? 54)); [exact Hs'|].
    rewrite add32_small, Z.add_comm by lia.
    destruct (Z.eqb_spec (128 + byte mod 128) 0); [lia|].
    destruct (Z.eqb_spec (128 + byte mod 128) 127); [lia|]. cbn [orb].
    apply decodes_press; [exact Hs'|lia].
  - destruct Hm as (He & Hp & Hn). rewrite Hp.
    destruct (Z.eqb_spec n 0); [lia|]. cbn [negb]. rewrite sub32_small by lia.
    eapply decodes_scanner; [exact Hs| |reflexivity..].
    destruct (Z.eqb_spec n 1) as [->|]; cbn; lia.
Qed.

Definition idle_decoder : decoder := Build_decoder 0 0 0 0 0 0 (replicate 256 0).

Lemma decodes_forget s : decodes (forget_keys s) (Plain, ∅).
Proof.
  split; [cbn; auto|]. split; [reflexivity|]. split; [reflexivity|]. split; [set_solver|].
  intros key Hk. unfold is_down. change (down (forget_keys s)) with (replicate 256 0).
  rewrite lookup_replicate_2 by lia. destruct (decide _); set_solver.
Qed.

(** C19: the decoder refines an abstract Set-1 scanner: from any state that represents
    a scanner state and a set of pressed keys, every stream of bytes takes it to the
    state that represents what the scanner and the set become. In particular the key table has
    one entry per key, the counter is the number of pressed keys and never wraps, a
    key stays down until its own release, the fake shifts of Print Screen and the
    Pause sequence press nothing. *)
Theorem keyboard_decode_refines s a bytes :
  Forall is_u8 bytes -> decodes s a ->
  decodes (fold_left keyboard_decode_byte bytes s) (fold_left scan_byte bytes a).
Proof.
  intros Hb. revert s a. induction Hb as [|b l Hb Hl IH]; intros s a Hs; [exact Hs|].
  rewrite !fold_left_cons. auto using decode_byte_refines.
Qed.

(** A is pressed, the right arrow is pressed and released, Pause goes by. *)
Lemma keyboard_decode_refines_witness :
  let bytes := [0x1E; 0xE0; 0x4D; 0xE0; 0xCD; 0xE1; 0x1D; 0x45; 0xE1; 0x9D; 0xC5] in
  decodes (fold_left keyboard_decode_byte bytes idle_decoder) (fold_left scan_byte bytes (Plain, ∅)) /\
  fold_left scan_byte bytes (Plain, ∅) = (Plain, {[0x1E]}).
Proof.
  cbv zeta. split; [|vm_compute; reflexivity].
  apply (keyboard_decode_refines idle_decoder (Plain, ∅)).
  - repeat constructor; unfold in_u; lia.
  - apply (decodes_forget idle_decoder).
Defined.
