(* ===== verification/Ps2.v ===== *)
(** * The PS/2 keyboard controller: [Drivers/Keyboard/Ps2Keyboard.c], and the kernel side of
    the driver's image: [Drivers/Keyboard/KeyboardDriverHost.c]

    Controller initialisation, the interrupt handler that feeds the shared queue, and
    the set-up of the ring-2 driver. *)
From stdpp Require Import list gmap strings.
From S2P Require Import Prelude Machine Runtime Keyboard.

Definition PS2_DATA_PORT : Z := 0x60.
Definition PS2_STATUS_PORT : Z := 0x64.
Definition PS2_COMMAND_PORT : Z := 0x64.
Definition PS2_IO_TIMEOUT : Z := 1000000.
Definition PS2_QUEUE_SIZE : Z := 256.
Definition PS2_KEYBOARD_VECTOR : Z := 0x31.
Definition PS2_KEYBOARD_CALLBACK_ADDRESS : Z := 0x80002328.
Definition KEYBOARD_GATE_ADDRESS : Z := 0x8000232C.
Definition KEYBOARD_DATA_ADDRESS : Z := 0x80002330.
Definition KEYBOARD_CODE_ADDRESS : Z := 0x80002334.
Definition KEYBOARD_READY_ADDRESS : Z := 0x80002338.
Definition IOAPIC_BASE_ADDRESS : Z := 0xFEC00000.
Definition LAPIC_BASE_ADDRESS : Z := 0xFEE00000.

Record ps2_statics := {
  ps2_keyboard_interrupt_count : Z; ps2_keyboard_dropped_count : Z; ps2_keyboard_last_scancode : Z
}.
#[export] Instance eta_ps2_statics : Eta ps2_statics := fun s =>
  Build_ps2_statics (ps2_keyboard_interrupt_count s) (ps2_keyboard_dropped_count s)
    (ps2_keyboard_last_scancode s).

(** ** The I/O APIC *)
Definition ioapic_read (index : Z) : prog bus Z :=
  store32 IOAPIC_BASE_ADDRESS index ;; load32 (IOAPIC_BASE_ADDRESS + 0x10).
Definition ioapic_write (index value : Z) : prog bus unit :=
  store32 IOAPIC_BASE_ADDRESS index ;; store32 (IOAPIC_BASE_ADDRESS + 0x10) value.

Definition ps2_route_keyboard_interrupt : prog bus bool :=
  let! version := ioapic_read 1 in
  let maximum_redirection := (version >>> 16) .& 0xFF in
  if maximum_redirection <? 1 then Ret false else
  let low_register := 0x10 + 1 * 2 in
  let! lapic_id := load32 (LAPIC_BASE_ADDRESS + 0x20) in
  ioapic_write (low_register + 1) (lapic_id .& 0xFF000000) ;;
  ioapic_write low_register PS2_KEYBOARD_VECTOR ;;
  Ret true.

(** ** The controller *)

(** [while (remaining != 0) { if (test) return 1; --remaining; } return 0] *)
Fixpoint ps2_poll (remaining : nat) (test : Z -> bool) : prog bus bool :=
  match remaining with
  | O => Ret false
  | S remaining' =>
      let! status := in8 PS2_STATUS_PORT in
      if test status then Ret true else ps2_poll remaining' test
  end.

Definition ps2_wait_input_empty : prog bus bool :=
  ps2_poll (Z.to_nat PS2_IO_TIMEOUT) (fun status => status .& 0x02 =? 0).
Definition ps2_wait_output_full : prog bus bool :=
  ps2_poll (Z.to_nat PS2_IO_TIMEOUT) (fun status => negb (status .& 0x01 =? 0)).

Definition ps2_write_command (command : Z) : prog bus bool :=
  let! ready := ps2_wait_input_empty in
  if negb ready then Ret false else out8 PS2_COMMAND_PORT command ;; Ret true.

Definition ps2_write_data (value : Z) : prog bus bool :=
  let! ready := ps2_wait_input_empty in
  if negb ready then Ret false else out8 PS2_DATA_PORT value ;; Ret true.

(** [None] is a timeout. *)
Definition ps2_read_data : prog bus (option Z) :=
  let! ready := ps2_wait_output_full in
  if negb ready then Ret None else let! value := in8 PS2_DATA_PORT in Ret (Some value).

Fixpoint ps2_flush_loop (remaining : nat) : prog bus unit :=
  match remaining with
  | O => Ret tt
  | S remaining' =>
      let! status := in8 PS2_STATUS_PORT in
      if status .& 0x01 =? 0 then Ret tt
      else in8 PS2_DATA_PORT ;; ps2_flush_loop remaining'
  end.
Definition ps2_flush_output : prog bus unit := ps2_flush_loop (Z.to_nat PS2_QUEUE_SIZE).

Definition ps2_write_config (configuration : Z) : prog bus bool :=
  let! ok := ps2_write_command 0x60 in
  if ok then ps2_write_data configuration else Ret false.

(** A command whose answer is one byte. *)
Definition ps2_query (command : Z) : prog bus (option Z) :=
  let! ok := ps2_write_command command in
  if ok then ps2_read_data else Ret None.

(** The configuration during the tests, and the final one. *)
Definition ps2_quiet_config (configuration : Z) : Z :=
  configuration .& u8 (Z.lnot (0x01 .| 0x02 .| 0x40)).
Definition ps2_final_config (configuration : Z) : Z :=
  let configuration := configuration .| (0x01 .| 0x40) in
  let configuration := configuration .& u8 (Z.lnot (0x02 .| 0x10)) in
  configuration .| 0x20.

Section CONTROLLER.
Context (ps2_keyboard_interrupt_address : Z).

Definition ps2_keyboard_initialize : code ps2_statics bool :=
  modify (fun _ => Build_ps2_statics 0 0 0) ;*
  let* ready := io (load32 KEYBOARD_READY_ADDRESS) in
  if ready =? 0 then cpanic "Keyboard driver queue is not mapped" else
  io (store32 head_at 0) ;*
  io (store32 tail_at 0) ;*
  io (store32 PS2_KEYBOARD_CALLBACK_ADDRESS ps2_keyboard_interrupt_address) ;*
  let* ok := io (ps2_write_command 0xAD) andalso io (ps2_write_command 0xA7) in
  if negb ok then cret false else
  io ps2_flush_output ;*
  let* answer := io (ps2_query 0x20) in
  match answer with
  | None => cret false
  | Some configuration =>
      let configuration := ps2_quiet_config configuration in
      let* ok := io (ps2_write_config configuration) in
      if negb ok then cret false else
      let* answer := io (ps2_query 0xAA) in
      if negb (bool_decide (answer = Some 0x55)) then cret false else
      let* answer := io (ps2_query 0xAB) in
      if negb (bool_decide (answer = Some 0x00)) then cret false else
      let* ok := io (ps2_write_command 0xAE) in
      if negb ok then cret false else
      let* ok := io (ps2_write_data 0xF4) in
      if negb ok then cret false else
      let* answer := io ps2_read_data in
      if negb (bool_decide (answer = Some 0xFA)) then cret false else
      io (ps2_write_config (ps2_final_config configuration)) andalso
      io ps2_route_keyboard_interrupt
  end.

(** ** The interrupt handler

    [frame] is the saved vector, [None] a null pointer. *)
Definition ps2_keyboard_interrupt (frame : option Z) : code ps2_statics unit :=
  if negb (bool_decide (frame = Some PS2_KEYBOARD_VECTOR))
  then cpanic "Invalid PS/2 keyboard interrupt frame" else
  modify (fun g => g <| ps2_keyboard_interrupt_count := ps2_keyboard_interrupt_count g +% 1 |>) ;*
  let* status := io (in8 PS2_STATUS_PORT) in
  if status .& 0x01 =? 0 then cret tt else
  let* scancode := io (in8 PS2_DATA_PORT) in
  if negb (status .& 0x20 =? 0) then cret tt else
  let drop :=
    modify (fun g => g <| ps2_keyboard_dropped_count := ps2_keyboard_dropped_count g +% 1 |>) ;*
    let* dropped := io (load32 dropped_at) in
    io (store32 dropped_at (dropped +% 1)) in
  if negb (status .& 0xC0 =? 0) then drop else
  modify (fun g => g <| ps2_keyboard_last_scancode := scancode |>) ;*
  let* head := io (load32 head_at) in
  let next_head := (head +% 1) .& KEYBOARD_QUEUE_MASK in
  let* tail := io (load32 tail_at) in
  if next_head =? tail then drop else
  let* head := io (load32 head_at) in
  io (store8 (byte_at head) scancode) ;*
  io (store32 head_at next_head).
End CONTROLLER.

(** ** Setting up the ring-2 driver: [KeyboardDriverHost.c] *)
Definition PAGE_DIRECTORY_BASE : Z := 0x30030000.
Definition DRIVER_IMAGE_SOURCE : Z := 0x80018000.
Definition DRIVER_IMAGE_SIZE : Z := 0x4000.
Definition DESCRIPTOR_DPL2 : Z := 0x40.

Definition kassert (condition : bool) (message : string) : prog bus unit :=
  if condition then Ret tt else kpanic message.

Definition create_driver_call_gate (code_selector : Z) : prog bus Z :=
  let! gate := api "gdt_alloc_selector" [] in
  if gate =? 0 then Ret 0 else
  api "gdt_write_raw_descriptor" [gate; code_selector <<% 16; 0xEC00] ;;
  Ret (gate .| 3).

(** One page of the driver region. *)
Definition map_driver_page (offset : Z) : prog bus unit :=
  let! mapped := api "get_physical_address" [PAGE_DIRECTORY_BASE; KEYBOARD_DRIVER_BASE + offset] in
  kassert (mapped =? 0) "Keyboard driver address already mapped" ;;
  let! physical := api "pmm_alloc_page" [] in
  kassert (negb (physical =? 0)) "No physical memory for keyboard driver" ;;
  let! ok := api "map_page" [KEYBOARD_DRIVER_BASE + offset; physical; 3] in
  kassert (negb (ok =? 0)) "Cannot map keyboard driver".

Definition keyboard_driver_initialize : prog bus unit :=
  let! ready := load32 KEYBOARD_READY_ADDRESS in
  kassert (ready =? 0) "Keyboard driver initialized twice" ;;
  for_range 256 0 (fun page => map_driver_page (page * 0x1000)) ;;
  memset KEYBOARD_DRIVER_BASE 0 KEYBOARD_DRIVER_SIZE ;;
  memcpy KEYBOARD_DRIVER_BASE DRIVER_IMAGE_SOURCE DRIVER_IMAGE_SIZE ;;
  let! driver_code := api "gdt_create_code_descriptor"
    [KEYBOARD_DRIVER_BASE; DRIVER_IMAGE_SIZE - 1; DESCRIPTOR_DPL2] in
  let! driver_data := api "gdt_create_data_descriptor"
    [KEYBOARD_DRIVER_BASE; KEYBOARD_DRIVER_SIZE - 1; DESCRIPTOR_DPL2] in
  kassert (negb (driver_code =? 0) && negb (driver_data =? 0))
    "Cannot allocate keyboard driver segments" ;;
  let! driver_gate := create_driver_call_gate driver_code in
  kassert (negb (driver_gate =? 0)) "Cannot allocate keyboard call gate" ;;
  store32 KEYBOARD_GATE_ADDRESS driver_gate ;;
  store32 KEYBOARD_DATA_ADDRESS (driver_data .| 2) ;;
  store32 KEYBOARD_CODE_ADDRESS (driver_code .| 2) ;;
  store32 KEYBOARD_READY_ADDRESS 1.
