(* ===== verification/KeyboardQueue.v ===== *)
(** * The keyboard queue under interrupts

    The ring buffer between the PS/2 interrupt handler (producer) and the ring-2
    driver (consumer). The handler may run between any two accesses of the consumer;
    [shared_hw] is the memory they share with every such interleaving. *)
From stdpp Require Import list gmap strings relations.
From S2P Require Import Prelude Machine Ring Keyboard Ps2.

(** The queue fields in memory. *)
Record kq := { q_lock : Z; q_head : Z; q_tail : Z; q_dropped : Z; q_bytes : list Z }.
#[export] Instance eta_kq : Eta kq := fun q =>
  Build_kq (q_lock q) (q_head q) (q_tail q) (q_dropped q) (q_bytes q).

Definition ring_ok (q : kq) : Prop :=
  0 <= q_head q < 256 /\ 0 <= q_tail q < 256 /\ length (q_bytes q) = 256%nat /\
  Forall is_u8 (q_bytes q) /\ is_u32 (q_dropped q).

Definition slot (q : kq) (i : Z) : Z := at_slot 0 (q_bytes q) i.

(** The queued bytes in the order they arrived. *)
Definition pending (q : kq) : list Z := window 0 256 (q_bytes q) (q_head q) (q_tail q).

(** ** What an interrupt does to the queue *)
Definition lose (q : kq) : kq := q <| q_dropped := q_dropped q +% 1 |>.
Definition is_full (q : kq) : bool := (q_head q +% 1) .& KEYBOARD_QUEUE_MASK =? q_tail q.
Definition enqueue (q : kq) (b : Z) : kq :=
  q <| q_bytes := <[Z.to_nat (q_head q) := b]> (q_bytes q) |>
    <| q_head := (q_head q +% 1) .& KEYBOARD_QUEUE_MASK |>.

(** [irq (q, seen) (q', seen')]: [seen] lists the bytes queued so far. *)
Inductive irq : kq * list Z -> kq * list Z -> Prop :=
| irq_lost q seen : irq (q, seen) (lose q, seen)
| irq_byte q seen b : is_u8 b -> is_full q = false -> irq (q, seen) (enqueue q b, seen ++ [b]).

(** ** The memory *)
Definition kq_access (q : kq) (e : bus) : option (Z * kq) :=
  match e with
  | Load W32 a =>
      if a =? head_at then Some (q_head q, q)
      else if a =? tail_at then Some (q_tail q, q)
      else if a =? dropped_at then Some (q_dropped q, q)
      else None
  | Load W8 a =>
      let i := a - byte_at 0 in
      if (0 <=? i) && (i <? 256) then Some (slot q i, q) else None
  | Store W32 a v =>
      if a =? head_at then Some (0, q <| q_head := v |>)
      else if a =? tail_at then Some (0, q <| q_tail := v |>)
      else if a =? dropped_at then Some (0, q <| q_dropped := v |>)
      else if a =? lock_at then Some (0, q <| q_lock := v |>)
      else None
  | Store W8 a v =>
      let i := a - byte_at 0 in
      if (0 <=? i) && (i <? 256) then Some (0, q <| q_bytes := <[Z.to_nat i := v]> (q_bytes q) |>)
      else None
  | Xchg a v => if a =? lock_at then Some (q_lock q, q <| q_lock := v |>) else None
  | _ => None
  end.

(** The handler's view: the ports answer anything, no one else runs. *)
Definition irq_hw : hardware bus kq := {|
  allowed := fun q e => match e with
    | In W8 p => p = PS2_STATUS_PORT \/ p = PS2_DATA_PORT
    | _ => is_Some (kq_access q e)
    end;
  answers := fun q e v q' => match e with
    | In W8 _ => is_u8 v /\ q' = q
    | _ => kq_access q e = Some (v, q')
    end
|}.

(** The driver's view: interrupts may come before every access. *)
Definition shared_hw : hardware bus (kq * list Z) := {|
  allowed := fun s e => match e with
    | ReadReg CS => True
    | _ => forall s', rtc irq s s' -> is_Some (kq_access (fst s') e)
    end;
  answers := fun s e v s' => exists s1, rtc irq s s1 /\
    match e with
    | ReadReg CS => s' = s1
    | _ => snd s' = snd s1 /\ kq_access (fst s1) e = Some (v, fst s')
    end
|}.

(** ** The ring *)
Lemma ring_of q : ring_ok q -> ring 256 (q_bytes q) (q_head q) (q_tail q).
Proof. intros (Hh & Ht & Hl & _). split; [exact Hh|]. split; [exact Ht|lia]. Qed.

Lemma next_index i : 0 <= i < 256 -> (i +% 1) .& KEYBOARD_QUEUE_MASK = next 256 i.
Proof. apply (mask_next 256 eq_refl 8); lia. Qed.

Lemma pending_enqueue q b : ring_ok q -> is_full q = false -> pending (enqueue q b) = pending q ++ [b].
Proof.
  intros Hq Hf. unfold is_full in Hf. bool_to_prop. unfold pending, enqueue. cbn.
  rewrite next_index in * by apply Hq. apply window_push; [lia|now apply ring_of|exact Hf].
Qed.

Lemma pending_empty q : q_tail q = q_head q -> pending q = [].
Proof. unfold pending. intros ->. apply window_empty. Qed.

Definition dequeue (q : kq) : kq := q <| q_tail := (q_tail q +% 1) .& KEYBOARD_QUEUE_MASK |>.

Lemma pending_dequeue q : ring_ok q -> q_tail q <> q_head q ->
  pending q = slot q (q_tail q) :: pending (dequeue q).
Proof.
  intros Hq Hne. unfold pending, dequeue. cbn. rewrite next_index by apply Hq.
  apply window_pop; [lia|now apply ring_of|exact Hne].
Qed.

Ltac ring_fields :=
  unfold ring_ok; cbn; rewrite ?next_index, ?length_insert by lia;
  split_and!; solve [lia|assumption|now apply Forall_insert|apply add32_range
                    |apply (next_range 256); lia].

Lemma ring_ok_enqueue q b : ring_ok q -> is_u8 b -> ring_ok (enqueue q b).
Proof. intros (Hh & Ht & Hl & Hb & Hd) H. unfold enqueue. ring_fields. Qed.

Lemma ring_ok_lose q : ring_ok q -> ring_ok (lose q).
Proof. intros (Hh & Ht & Hl & Hb & Hd). unfold lose. ring_fields. Qed.

Lemma ring_ok_dequeue q : ring_ok q -> ring_ok (dequeue q).
Proof. intros (Hh & Ht & Hl & Hb & Hd). unfold dequeue. ring_fields. Qed.

(** Interrupts only append: the driver's side of the queue is left alone. *)
Definition grew (q q' : kq) (d : list Z) : Prop :=
  ring_ok q' /\ q_tail q' = q_tail q /\ q_lock q' = q_lock q /\ pending q' = pending q ++ d.

Lemma irqs_grow s s' : rtc irq s s' -> ring_ok (fst s) ->
  exists d, grew (fst s) (fst s') d /\ snd s' = snd s ++ d.
Proof.
  induction 1 as [s|s s1 s' H _ IH]; intros Hq.
  - exists []. unfold grew. rewrite !app_nil_r. auto.
  - inversion H as [q seen|q seen b Hb Hf]; subst; cbn [fst snd] in *.
    + destruct (IH (ring_ok_lose q Hq)) as (d & (H1 & H2 & H3 & H4) & H5). exists d. now split_and!.
    + destruct (IH (ring_ok_enqueue q b Hq Hb)) as (d & (H1 & H2 & H3 & H4) & H5). exists (b :: d).
      rewrite pending_enqueue, <- app_assoc in H4 by assumption.
      rewrite <- app_assoc in H5. now split_and!.
Qed.

Definition empty_kq : kq := Build_kq 0 0 0 0 (replicate 256 0).
Lemma empty_ok : ring_ok empty_kq.
Proof.
  split; [cbn; lia|]. split; [cbn; lia|]. split; [reflexivity|].
  split; [apply Forall_replicate|]; unfold in_u; cbn; lia.
Qed.

(** ** The handler is one such step *)
Lemma access_head q : kq_access q (Load W32 head_at) = Some (q_head q, q).
Proof. reflexivity. Qed.
Lemma access_tail q : kq_access q (Load W32 tail_at) = Some (q_tail q, q).
Proof. reflexivity. Qed.
Lemma access_dropped q : kq_access q (Load W32 dropped_at) = Some (q_dropped q, q).
Proof. reflexivity. Qed.
Lemma access_byte q i : 0 <= i < 256 -> kq_access q (Load W8 (byte_at i)) = Some (slot q i, q).
Proof.
  intros Hi. cbn. replace (byte_at i - byte_at 0) with i by (unfold byte_at; lia).
  destruct (Z.leb_spec 0 i), (Z.ltb_spec i 256); (reflexivity || lia).
Qed.
Lemma access_put q i v : 0 <= i < 256 ->
  kq_access q (Store W8 (byte_at i) v) = Some (0, q <| q_bytes := <[Z.to_nat i := v]> (q_bytes q) |>).
Proof.
  intros Hi. cbn. replace (byte_at i - byte_at 0) with i by (unfold byte_at; lia).
  destruct (Z.leb_spec 0 i), (Z.ltb_spec i 256); (reflexivity || lia).
Qed.

(** A step of the handler's program. *)
Ltac irq_in :=
  apply wp_read; [cbn; auto|]; intros ? ? [? ->].
Ltac irq_access lem :=
  first [apply wp_read | apply wp_write];
  [cbn [allowed irq_hw]; rewrite lem by lia; eauto|];
  cbn [answers irq_hw]; rewrite lem by lia; intros ? ? [= <- <-].

(** C29: the interrupt handler terminates whatever the controller answers, keeps the ring
    well formed, and does exactly one of three things: nothing (no data, or mouse
    data), count a loss (a transmission error or a full queue), or append the byte it read
    behind every byte already queued. It never overwrites a queued byte and never
    touches the driver's index or lock. So it makes at most one step of [irq], which is what
    [shared_hw] lets happen between the driver's accesses. *)
Theorem ps2_interrupt_queue q g :
  ring_ok q ->
  wp irq_hw (ps2_keyboard_interrupt (Some PS2_KEYBOARD_VECTOR) g)
    (fun o q' => exists g', o = Done (tt, g') /\ ring_ok q' /\
       ps2_keyboard_interrupt_count g' = ps2_keyboard_interrupt_count g +% 1 /\
       q_tail q' = q_tail q /\ q_lock q' = q_lock q /\
       (exists d, rtc irq (q, []) (q', d)) /\
       (pending q' = pending q /\ q_dropped q' = q_dropped q /\
          ps2_keyboard_dropped_count g' = ps2_keyboard_dropped_count g \/
        pending q' = pending q /\ q_dropped q' = q_dropped q +% 1 /\
          ps2_keyboard_dropped_count g' = ps2_keyboard_dropped_count g +% 1 \/
        is_u8 (ps2_keyboard_last_scancode g') /\ is_full q = false /\
          pending q' = pending q ++ [ps2_keyboard_last_scancode g'] /\ q_dropped q' = q_dropped q /\
          ps2_keyboard_dropped_count g' = ps2_keyboard_dropped_count g)) q.
Proof.
  intros Hq. pose proof Hq as (Hh & Ht & _). unfold ps2_keyboard_interrupt.
  change (negb (bool_decide (Some PS2_KEYBOARD_VECTOR = Some PS2_KEYBOARD_VECTOR))) with false.
  cbv iota. apply wp_modify. irq_in. case_if; [cbn; eauto 12 using rtc_refl|].
  irq_in. case_if; [cbn; eauto 12 using rtc_refl|].
  cbv zeta. case_if.
  - apply wp_modify. irq_access access_dropped. cbn. split; [eauto|]. intros ? ? [= <- <-].
    eexists. split; [reflexivity|]. split; [exact (ring_ok_lose q Hq)|]. cbn.
    split_and!; eauto using rtc_once, irq_lost.
  - apply wp_modify. irq_access access_head. irq_access access_tail. case_if.
    + apply wp_modify. irq_access access_dropped. cbn. split; [eauto|]. intros ? ? [= <- <-].
      eexists. split; [reflexivity|]. split; [exact (ring_ok_lose q Hq)|]. cbn.
      split_and!; eauto using rtc_once, irq_lost.
    + irq_access access_head. irq_access access_put. cbn. split; [eauto|]. intros ? ? [= <- <-].
      eexists. split; [reflexivity|]. split; [exact (ring_ok_enqueue q _ Hq ltac:(eassumption))|].
      cbn. split_and!; [auto..|eexists; apply rtc_once; now constructor|]. right. right. split_and!; auto.
      exact (pending_enqueue q _ Hq ltac:(eassumption)).
Qed.

Lemma ps2_interrupt_queue_witness :
  ring_ok empty_kq /\
  wp irq_hw (ps2_keyboard_interrupt (Some PS2_KEYBOARD_VECTOR) (Build_ps2_statics 0 0 0))
    (fun o _ => exists g', o = Done (tt, g')) empty_kq.
Proof.
  split; [exact empty_ok|].
  eapply wp_mono; [|exact (ps2_interrupt_queue _ (Build_ps2_statics 0 0 0) empty_ok)].
  intros o q' (g' & E & _). eauto.
Defined.

(** ** The driver, with interrupts between its accesses *)

(** What the driver knows at some point of a call that began with queue [q0] and [seen0]
    bytes seen: [c] was taken from the queue, [d] arrived. *)
Definition during (q0 : kq) (seen0 c d : list Z) (s : kq * list Z) : Prop :=
  ring_ok (fst s) /\ q_lock (fst s) = q_lock q0 /\ snd s = seen0 ++ d /\
  pending q0 ++ d = c ++ pending (fst s).

Lemma during_irqs q0 seen0 c d s s' :
  rtc irq s s' -> during q0 seen0 c d s ->
  exists d', during q0 seen0 c (d ++ d') s' /\ grew (fst s) (fst s') d'.
Proof.
  intros H (Hq & Hl & Hs & Hp). destruct (irqs_grow s s' H Hq) as (d' & Hg & Hd).
  exists d'. split; [|exact Hg]. destruct Hg as (G1 & G2 & G3 & G4).
  split_and!; [auto|congruence|now rewrite Hd, Hs, app_assoc|].
  now rewrite G4, app_assoc, Hp, app_assoc.
Qed.

Lemma during_read q0 seen0 c d s e f B (k : Z -> code decoder B) g Q :
  (forall q, ring_ok q -> q_tail q = q_tail (fst s) -> kq_access q e = Some (f q, q)) ->
  (match e with ReadReg _ => False | _ => True end) ->
  during q0 seen0 c d s ->
  (forall s' d', during q0 seen0 c (d ++ d') s' -> grew (fst s) (fst s') d' ->
     wp shared_hw (k (f (fst s')) g) Q s') ->
  wp shared_hw (cbind (lift (access e)) k g) Q s.
Proof.
  intros He Hr Hd Hk. apply wp_read.
  - enough (forall s', rtc irq s s' -> is_Some (kq_access (fst s') e)) as H
      by (destruct e; try exact H; contradiction).
    intros s' H. destruct (during_irqs _ _ _ _ _ _ H Hd) as (d' & Hd' & G). rewrite He by apply G. eauto.
  - intros v s' (s1 & H & Ha). destruct (during_irqs _ _ _ _ _ _ H Hd) as (d' & Hd' & G).
    assert (snd s' = snd s1 /\ kq_access (fst s1) e = Some (v, fst s')) as [E1 E2]
      by (destruct e; try exact Ha; contradiction).
    rewrite He in E2 by apply G. injection E2 as E2 E3.
    assert (s' = s1) as -> by (destruct s', s1; cbn in *; congruence). subst v. eauto.
Qed.

Lemma during_store q0 seen0 c d s e q1 B (k : unit -> code decoder B) g Q :
  (forall q, kq_access q e = Some (0, q1 q)) ->
  (match e with ReadReg _ => False | _ => True end) ->
  during q0 seen0 c d s ->
  (forall s' d', during q0 seen0 c (d ++ d') s' -> grew (fst s) (fst s') d' ->
     wp shared_hw (k tt g) Q (q1 (fst s'), snd s')) ->
  wp shared_hw (cbind (lift (access e ;; Ret tt)) k g) Q s.
Proof.
  intros He Hr Hd Hk. apply wp_write.
  - enough (forall s', rtc irq s s' -> is_Some (kq_access (fst s') e)) as H
      by (destruct e; try exact H; contradiction).
    intros s' H. rewrite He. eauto.
  - intros v s' (s1 & H & Ha). destruct (during_irqs _ _ _ _ _ _ H Hd) as (d' & Hd' & G).
    assert (snd s' = snd s1 /\ kq_access (fst s1) e = Some (v, fst s')) as [E1 E2]
      by (destruct e; try exact Ha; contradiction).
    rewrite He in E2. injection E2 as E2 E3.
    assert (s' = (q1 (fst s1), snd s1)) as -> by (destruct s'; cbn in *; congruence). eauto.
Qed.

(** [tail = head] with a head read earlier: what arrived since is still queued. *)
Lemma pending_restart q q' d : ring_ok q -> grew q q' d ->
  pending (q' <| q_tail := q_head q |>) = d.
Proof.
  intros Hq (Hq' & Ht & _ & Hp). unfold pending in *. cbn [q_head q_tail q_bytes assign].
  pose proof (ahead_window 0 256 ltac:(lia) _ _ _ (ring_of q Hq)) as E.
  rewrite <- Ht in E at 2. cbn. rewrite <- E.
  rewrite window_drop by (lia || now apply ring_of || (rewrite Hp, length_app; lia)).
  rewrite Hp. apply drop_app_length.
Qed.

Lemma grew_trans q1 q2 q3 d1 d2 : grew q1 q2 d1 -> grew q2 q3 d2 -> grew q1 q3 (d1 ++ d2).
Proof.
  intros (_ & T1 & L1 & P1) (H & T2 & L2 & P2). split_and!; [auto|congruence..|].
  now rewrite P2, P1, app_assoc.
Qed.

(** The oldest byte stays the oldest. *)
Lemma grew_front q q' d : ring_ok q -> grew q q' d -> q_tail q <> q_head q ->
  slot q' (q_tail q') = slot q (q_tail q) /\ pending q' = slot q (q_tail q) :: pending (dequeue q').
Proof.
  intros Hq (Hq' & T & _ & P) Hne. rewrite (pending_dequeue q Hq Hne) in P.
  destruct (decide (q_tail q' = q_head q')) as [E|E].
  { rewrite (pending_empty q' E) in P. discriminate. }
  pose proof (pending_dequeue q' Hq' E) as P'. rewrite P in P'. injection P' as E1 E2.
  split; [congruence|]. rewrite P. cbn. f_equal. exact E2.
Qed.

Lemma drain_fifo q0 seen0 n : forall s a0 c0 c d st,
  decodes s (fold_left scan_byte c a0) -> during q0 seen0 (c0 ++ c) d st ->
  wp shared_hw (keyboard_drain n s)
    (fun o st' => exists s' c' d', o = Done (tt, s') /\
       decodes s' (fold_left scan_byte c' a0) /\ during q0 seen0 (c0 ++ c') d' st' /\
       (length c + Nat.min n (length (pending (fst st))) <= length c')%nat) st.
Proof.
  induction n as [|n IH]; intros s a0 c0 c d st Hs Hd; cbn [keyboard_drain].
  { cbn. exists s, c, d. split_and!; auto. lia. }
  eapply (during_read _ _ _ _ _ _ q_tail); [reflexivity|exact I|exact Hd|].
  intros s1 d1 Hd1 G1.
  eapply (during_read _ _ _ _ _ _ q_head); [reflexivity|exact I|exact Hd1|].
  intros s2 d2 Hd2 G2. destruct (Z.eqb_spec (q_tail (fst s1)) (q_head (fst s2))) as [E|E].
  { cbn. eexists s, c, _. split_and!; [auto..|exact Hd2|].
    assert (pending (fst s2) = []) as E2.
    { apply pending_empty. destruct G2 as (_ & -> & _). exact E. }
    destruct G1 as (_ & _ & _ & P1), G2 as (_ & _ & _ & P2).
    rewrite E2, P1 in P2. symmetry in P2. apply app_nil in P2 as [P2 _]. apply app_nil in P2 as [-> _].
    cbn. lia. }
  eapply (during_read _ _ _ _ _ _ q_tail); [reflexivity|exact I|exact Hd2|].
  intros s3 d3 Hd3 G3.
  eapply (during_read _ _ _ _ _ _ (fun q => slot q (q_tail q))); [|exact I|exact Hd3|].
  { intros q Hq ->. apply access_byte. apply Hd3. }
  intros s4 d4 Hd4 G4.
  eapply (during_store _ _ _ _ _ _ (fun q => q <| q_tail := _ |>)); [reflexivity|exact I|exact Hd4|].
  intros s5 d5 Hd5 G5.
  pose proof (grew_trans _ _ _ _ _ G3 G4) as G24. pose proof (grew_trans _ _ _ _ _ G24 G5) as G25.
  assert (ring_ok (fst s2)) as Hq2 by apply G2.
  assert (q_tail (fst s2) <> q_head (fst s2)) as Hne by (destruct G2 as (_ & -> & _); exact E).
  destruct (grew_front _ _ _ Hq2 G24 Hne) as [-> _].
  destruct (grew_front _ _ _ Hq2 G25 Hne) as [_ P5]. set (x := slot (fst s2) _) in *.
  replace (q_tail (fst s3)) with (q_tail (fst s5)) by (rewrite (proj1 (proj2 G5)); apply G4).
  change ((fst s5) <| q_tail := _ |>) with (dequeue (fst s5)). apply wp_modify.
  destruct Hd5 as (Hq5 & Hl5 & Hs5 & Hp5).
  assert (is_u8 x) as Hx.
  { destruct Hq2 as (Hh & Ht & Hlen & Hb & _). unfold x, slot, at_slot.
    destruct (lookup_lt_is_Some_2 (q_bytes (fst s2)) (Z.to_nat (q_tail (fst s2)))) as [y Hy]; [lia|].
    rewrite Hy. exact (Forall_lookup_1 _ _ _ _ Hb Hy). }
  eapply wp_mono; [|eapply (IH _ a0 c0 (c ++ [x]))].
  - intros o st' (s' & c' & d' & H1 & H2 & H3 & H4). exists s', c', d'. split_and!; auto.
    assert (length (pending (fst st)) <= S (length (pending (dequeue (fst s5)))))%nat.
    { destruct G1 as (_ & _ & _ & P1), G2 as (_ & _ & _ & P2), G25 as (_ & _ & _ & P3).
      apply (f_equal length) in P1, P2, P3, P5. rewrite !length_app in *. cbn in P5. lia. }
    rewrite length_app in H4. cbn [length fst] in H4. lia.
  - rewrite fold_left_app. now apply decode_byte_refines.
  - split_and!; [now apply ring_ok_dequeue|exact Hl5|exact Hs5|].
    rewrite Hp5, P5. now rewrite <- !app_assoc.
Qed.

(** ** The whole service call *)
Definition answer_of (keys : gset Z) (operation key : Z) : Z :=
  if operation =? KEYBOARD_QUERY_KEY then
    if key <? 256 then if decide (key ∈ keys) then 1 else 0 else 0xFFFFFFFF
  else if operation =? KEYBOARD_QUERY_ANY then if decide (keys = ∅) then 0 else 1
  else if operation =? KEYBOARD_PROCESS_INPUT then 0
  else 0xFFFFFFFF.

Lemma answer_decodes s a operation key : decodes s a -> 0 <= key ->
  keyboard_answer s operation key = answer_of (snd a) operation key.
Proof.
  intros (_ & _ & Hc & _ & Hd) Hk. unfold keyboard_answer, answer_of.
  destruct (Z.eqb_spec operation KEYBOARD_QUERY_KEY) as [->|]; cbn [andb].
  - destruct (Z.ltb_spec key 256); [apply Hd; lia|reflexivity].
  - case_if; [|reflexivity]. rewrite Hc. destruct (decide (snd a = ∅)) as [->|Hne]; [reflexivity|].
    destruct (Z.eqb_spec (Z.of_nat (size (snd a))) 0) as [E0|]; [|reflexivity].
    destruct Hne. apply leibniz_equiv, size_empty_inv. lia.
Qed.

(** The state a drain starts from: the decoder's own, or a reset one because at some point
    of the call input was seen to be lost. *)
Definition starts_from (q : kq) (seen : list Z) (s : decoder) (a a0 : scanner * gset Z) (lost : list Z) : Prop :=
  (lost = [] /\ a0 = a) \/
  (a0 = (Plain, ∅) /\ exists s1, rtc irq (q, seen) s1 /\ q_dropped (fst s1) <> observed_dropped s).

Lemma during_start q seen : ring_ok q -> during q seen [] [] (q, seen).
Proof. intros H. split_and!; [auto..|now rewrite app_nil_r|now rewrite app_nil_r]. Qed.

Lemma process_queue_fifo q seen s a :
  ring_ok q -> decodes s a ->
  wp shared_hw (keyboard_process_queue s)
    (fun o st => exists s' a0 lost c d, o = Done (tt, s') /\ starts_from q seen s a a0 lost /\
       decodes s' (fold_left scan_byte c a0) /\ during q seen (lost ++ c) d st /\
       (length (pending q) <= length (lost ++ c))%nat) (q, seen).
Proof.
  intros Hq Hs. pose proof (during_start q seen Hq) as H0. unfold keyboard_process_queue.
  apply wp_gets. apply wp_read.
  { intros s1 _. cbn. eauto. }
  intros v s1 (s1' & Hirq & E1 & E2). injection E2 as E2 E3.
  assert (s1' = s1) as -> by (destruct s1, s1'; cbn in *; congruence).
  destruct (during_irqs _ _ _ _ _ _ Hirq H0) as (d1 & Hd1 & G1). cbn [fst app] in *.
  assert (length (pending q) <= length (pending (fst s1)))%nat as Hlen.
  { destruct G1 as (_ & _ & _ & ->). rewrite length_app. lia. }
  pose proof (window_bound 0 256 ltac:(lia) (q_bytes (fst s1)) (q_head (fst s1)) (q_tail (fst s1))) as Hf.
  fold (pending (fst s1)) in Hf.
  destruct (Z.eqb_spec (observed_dropped s) v) as [E|E].
  - change (negb true) with false. cbv iota. apply wp_cbind. cbn [cret wp on_done fst snd].
    eapply wp_mono; [|eapply (drain_fifo q seen _ s a [] []); [exact Hs|exact Hd1]].
    intros o st (s' & c & d & H1 & H2 & H3 & H4). exists s', a, [], c, d. split_and!; auto.
    + now left.
    + cbn in H4 |- *. change (Z.to_nat KEYBOARD_QUEUE_SIZE) with 256%nat in H4. lia.
  - change (negb false) with true. cbv iota. apply wp_cbind.
    eapply (during_read _ _ _ _ _ _ q_dropped); [reflexivity|exact I|exact Hd1|]. intros s2 d2 Hd2 G2.
    apply wp_modify.
    eapply (during_read _ _ _ _ _ _ q_head); [reflexivity|exact I|exact Hd2|]. intros s3 d3 Hd3 G3.
    split; [intros s4 _; cbn; eauto|]. intros v' s4 (s4' & H4 & E4 & E4').
    destruct (during_irqs _ _ _ _ _ _ H4 Hd3) as (d4 & (Hq4 & Hl4 & Hs4 & Hp4) & G4).
    injection E4' as _ E4'. cbn [bind wp on_done fst snd].
    assert (s4 = ((fst s4') <| q_tail := q_head (fst s3) |>, snd s4')) as -> by (destruct s4; cbn in *; congruence).
    assert (ring_ok (fst s3)) as Hq3 by apply G3. pose proof (pending_restart _ _ _ Hq3 G4) as Hr.
    set (q4 := (fst s4') <| q_tail := _ |>) in *.
    eapply wp_mono; [|eapply (drain_fifo q seen _ _ (Plain, ∅) (pending (fst s3)) [])].
    + intros o st (s' & c & d & H1 & H2 & H3 & H5). exists s', (Plain, ∅), (pending (fst s3)), c, d.
      split_and!; auto.
      * right. split; [reflexivity|]. exists s1. split; [assumption|]. congruence.
      * rewrite length_app. destruct G2 as (_ & _ & _ & P2), G3 as (_ & _ & _ & P3).
        rewrite P3, P2, !length_app. lia.
    + apply decodes_scanner with (s := forget_keys s) (m := Plain); [apply decodes_forget|cbn; auto|reflexivity..].
    + split_and!; [|exact Hl4|exact Hs4|].
      * destruct Hq4 as (F1 & F2 & F3). destruct Hq3 as (F4 & _). split_and!; solve [apply F1|apply F2|apply F4|apply F3].
      * rewrite app_nil_r. cbn [fst]. rewrite Hr, Hp4. cbn. apply G4.
Qed.

Lemma irqs_kept_access s s' : rtc irq s s' -> q_lock (fst s') = q_lock (fst s).
Proof.
  induction 1 as [s|s s1 s' H _ IH]; [reflexivity|]. rewrite IH. now inversion H.
Qed.

Definition with_lock (l : Z) (s : kq * list Z) : kq * list Z := ((fst s) <| q_lock := l |>, snd s).

Lemma pair_is {A B} (s : A * B) a b : a = fst s -> snd s = b -> s = (a, b).
Proof. destruct s. cbn. congruence. Qed.

Lemma irqs_with_lock l s s' : rtc irq s s' -> rtc irq (with_lock l s) (with_lock l s').
Proof.
  induction 1 as [s|s s1 s' H _ IH]; [apply rtc_refl|]. eapply rtc_l; [|exact IH].
  inversion H as [q seen|q seen b Hb Hf]; subst; [exact (irq_lost _ _)|].
  assert ((enqueue q b) <| q_lock := l |> = enqueue (q <| q_lock := l |>) b) as E by (unfold enqueue, assign; reflexivity).
  unfold with_lock. cbn [fst snd]. rewrite E. now constructor.
Qed.

Lemma ring_ok_lock q l : ring_ok q -> ring_ok (q <| q_lock := l |>).
Proof. auto. Qed.

(** C6: one call of the service, with any number of keyboard interrupts before each of its
    accesses, is a first-in first-out consumer. It takes the free lock, returns, and leaves
    the lock free and the ring well formed. The bytes queued at the call and those that
    arrived during it ([d]) are, in order, what a reset discarded ([lost]), what was decoded
    ([c]) and what is still queued: none is lost, repeated or reordered, and every
    byte queued at the call is gone. The keys are those the scanner gets from [c],
    from the keys of before, or from no key when the loss counter had moved (then and
    only then is anything discarded); the result is the answer on that set of keys. *)
Theorem keyboard_service_fifo fuel operation key s a q seen :
  ring_ok q -> q_lock q = 0 -> decodes s a -> 0 <= key ->
  wp shared_hw (keyboard_driver_service (S fuel) operation key s)
    (fun o st => exists r s' a0 lost c d, o = Done (r, s') /\
       ring_ok (fst st) /\ q_lock (fst st) = 0 /\ snd st = seen ++ d /\
       pending q ++ d = lost ++ c ++ pending (fst st) /\
       (length (pending q) <= length (lost ++ c))%nat /\
       ((lost = [] /\ a0 = a) \/
        (a0 = (Plain, ∅) /\ exists s1, rtc irq (q, seen) s1 /\ q_dropped (fst s1) <> observed_dropped s)) /\
       decodes s' (fold_left scan_byte c a0) /\
       r = answer_of (snd (fold_left scan_byte c a0)) operation key) (q, seen).
Proof.
  intros Hq Hlock Hs Hk. unfold keyboard_driver_service. apply wp_io. cbn [take_lock].
  split; [intros s1 _; cbn; eauto|]. intros v s1 (s1' & H1 & E1 & E1').
  injection E1' as E1' E2. rewrite (irqs_kept_access _ _ H1) in E1'. cbn [fst] in E1'. rewrite Hlock in E1'.
  subst v. change (negb (0 =? 0)) with false. cbn [bind wp on_done].
  destruct (irqs_grow _ _ H1 Hq) as (d1 & (Hq1 & T1 & L1 & P1) & S1). cbn [fst snd] in *.
  apply wp_read; [exact I|]. intros cs s2 (s2' & H2 & ->). apply wp_modify.
  assert (s1 = with_lock 1 s1') as -> by exact (pair_is _ _ _ E2 E1).
  destruct (irqs_grow _ _ H2 (ring_ok_lock _ 1 Hq1)) as (d2 & (Hq2 & T2 & L2 & P2) & S2).
  apply wp_cbind. destruct s2' as [q2 seen2]. cbn [fst snd with_lock] in *.
  eapply wp_mono; [|apply (process_queue_fifo q2 seen2 _ a Hq2)].
  2: { apply decodes_scanner with (s := s) (m := fst a); [now destruct a|apply Hs|reflexivity..]. }
  intros o st (s' & a0 & lost & c & d & -> & Hst & Hdec & Hd & Hlen). cbn [on_done fst snd].
  apply wp_gets. apply wp_write; [intros s3 _; cbn; eauto|]. intros v s3 (s3' & H3 & E3 & E3').
  injection E3' as _ E3'. destruct (during_irqs _ _ _ _ _ _ H3 Hd) as (d3 & (Hq3 & L3 & S3 & P3) & _).
  assert (s3 = with_lock 0 s3') as -> by exact (pair_is _ _ _ E3' E3).
  cbn [cret wp with_lock fst snd]. eexists _, s', a0, lost, c, (d1 ++ d2 ++ d ++ d3).
  split; [reflexivity|]. split; [now apply ring_ok_lock|]. split; [reflexivity|].
  rewrite (answer_decodes _ _ _ _ Hdec Hk). change (pending (assign q_lock 1 (fst s1'))) with (pending (fst s1')) in P2.
  change (pending (assign q_lock 0 (fst s3'))) with (pending (fst s3')).
  split_and!; [| | | |exact Hdec|reflexivity].
  - rewrite S3, S2, S1. now rewrite <- !app_assoc.
  - rewrite P2, P1, <- !app_assoc in P3. exact P3.
  - etrans; [|exact Hlen]. rewrite P2, P1, !length_app. lia.
  - destruct Hst as [?|[-> (s4 & H4 & Hne)]]; [now left|]. right. split; [reflexivity|].
    exists (with_lock 0 s4). split; [|exact Hne]. etrans; [exact H1|].
    assert (q_lock (fst s1') = 0) as L0 by congruence.
    assert (s1' = with_lock 0 (with_lock 1 s1')) as E.
    { clear - L0. destruct s1' as [[] ?]. cbn in L0. subst. reflexivity. }
    rewrite E. apply irqs_with_lock. etrans; [exact H2|exact H4].
Qed.

(** Two bytes are queued and the driver is asked about the key they press. *)
Lemma keyboard_service_fifo_witness :
  let q := enqueue (enqueue empty_kq 0xE0) 0x4D in
  pending q = [0xE0; 0x4D] /\
  wp shared_hw (keyboard_driver_service 1 KEYBOARD_QUERY_KEY 0xCD idle_decoder)
    (fun o st => exists r s', o = Done (r, s') /\ q_lock (fst st) = 0) (q, []).
Proof.
  cbv zeta. split; [vm_compute; reflexivity|]. eapply wp_mono; [|apply (keyboard_service_fifo 0 _ _ _ (Plain, ∅))].
  - intros o st (r & s' & _ & _ & _ & _ & H & _ & Hl & _). eauto.
  - apply ring_ok_enqueue; [apply ring_ok_enqueue; [apply empty_ok|]|]; unfold in_u; lia.
  - reflexivity.
  - apply (decodes_forget idle_decoder).
  - lia.
Defined.
