(* ===== verification/UsbHost.v ===== *)
(** * The UHCI host controllers: [Drivers/Usb/UsbHost.c]

    Discovery and interrupt routing, endpoint-zero transfers, the periodic report
    stream with its interrupt handler and idle-time recovery. Descriptors and buffers
    are memory on the bus, shared with the controller; the driver's own variables are
    [usb]. The report callback is a function pointer to a client with its own state
    [K]; the storage service the host calls keeps its statics in [storage]. *)
From stdpp Require Import list gmap strings.
From S2P Require Import Prelude Machine Runtime Transport Storage Ring.

Definition UHCI_CONTROLLER_COUNT : Z := 4.
Definition UHCI_VECTOR_BASE : Z := 0x40.
Definition UHCI_IRQ_CALLBACK : Z := 0x80002350.
Definition UHCI_STATUS_POINTER : Z := 0x80002354.
Definition UHCI_DMA_BASE : Z := 0x30060000.
Definition UHCI_DMA_STRIDE : Z := 0x4000.
Definition UHCI_ACTIVE : Z := 0x800000.
Definition UHCI_IOC : Z := 0x1000000.
Definition UHCI_ERRORS : Z := 0x00760000.
Definition UHCI_REPORT_COUNT : Z := 16.
Definition UHCI_REPORT_BYTES : Z := 64.
Definition USB_CONFIGURATION_MAX_BYTES : Z := 4096.

Definition UHCI_ABSENT : Z := 0.
Definition UHCI_READY : Z := 1.
Definition UHCI_BAD_ROUTE : Z := 2.
Definition UHCI_BAD_BAR : Z := 3.
Definition UHCI_CONTROLLER_ERROR : Z := 4.
Definition UHCI_TRANSFER_ERROR : Z := 5.
Definition UHCI_DISCONNECTED : Z := 6.
Definition USB_REPORT_CONNECTED : Z := 1.
Definition USB_REPORT_DATA : Z := 2.
Definition USB_REPORT_DISCONNECTED : Z := 3.

(** ** Packet and routing helpers *)
Definition NO_GSI : Z := 0xFFFFFFFF.

Definition uhci_resolve_gsi (lpc_id controller_id function pin d29ip d29ir : Z) : Z :=
  if (negb (lpc_id =? 0x26418086) && negb (lpc_id =? 0x26408086)) || (4 <=? function) ||
     negb (controller_id =? 0x26588086 +% (function <<% 16)) || (pin <? 1) || (4 <? pin) ||
     negb ((d29ip >>> (function *% 4)) .& 15 =? pin)
  then NO_GSI else
  let pirq := (d29ir >>> ((pin -% 1) *% 4)) .& 15 in
  if pirq <? 8 then 16 + pirq else NO_GSI.

Definition uhci_token (pid address endpoint toggle length : Z) : Z :=
  if (negb (pid =? 0x69) && negb (pid =? 0xE1) && negb (pid =? 0x2D)) || (127 <? address) ||
     (15 <? endpoint) || (1 <? toggle) || (64 <? length)
  then 0xFFFFFFFF else
  pid .| (address <<% 8) .| (endpoint <<% 15) .| (toggle <<% 19) .| (((length -% 1) .& 0x7FF) <<% 21).

(** [while (result * 2 <= ms) result *= 2]; eight rounds reach 255. *)
Fixpoint interval_loop (fuel : nat) (result ms : Z) : Z :=
  match fuel with
  | O => result
  | S fuel' => if result *% 2 <=? ms then interval_loop fuel' (result *% 2) ms else result
  end.

Definition uhci_interval (ms : Z) : Z :=
  if (ms =? 0) || (255 <? ms) then 0 else interval_loop 8 1 ms.

Definition uhci_completed_length (status requested : Z) : Z :=
  if negb (status .& UHCI_ACTIVE =? 0) then -2
  else if negb (status .& UHCI_ERRORS =? 0) then -1
  else
    let actual := ((status .& 0x7FF) +% 1) .& 0x7FF in
    if actual <=? requested then actual else -1.

Definition uhci_port_update (previous clear set : Z) : Z :=
  (previous .& not32 (0x080A .| clear)) .| set.

(** ** The driver's variables *)
Definition ICH6_LPC : Z := 0x0000F800.
Definition ICH6_USB : Z := 0x0000E800.
Definition ICH6_EHCI : Z := 0x0000EF00.
Definition RCBA_ALIAS : Z := 0x80D00000.
Definition USB_RUN : Z := 0xC1.
Definition USB_HALTED : Z := 0x20.
Definition PORT_CONNECTED : Z := 1.
Definition PORT_ENABLED : Z := 4.
Definition PORT_LOW_SPEED : Z := 0x100.
Definition PORT_RESET : Z := 0x200.
Definition IOAPIC_MASK : Z := 0x10000.

Record uhci_controller_info := {
  i_pci : Z; i_io_base : Z; i_gsi : Z; i_vector : Z;
  i_status : Z; i_interrupts : Z; i_last_status : Z; i_dma : Z;
  i_port_status : list Z; i_reports : Z; i_dropped : Z
}.
#[export] Instance eta_info : Eta uhci_controller_info := fun i =>
  Build_uhci_controller_info (i_pci i) (i_io_base i) (i_gsi i) (i_vector i) (i_status i)
    (i_interrupts i) (i_last_status i) (i_dma i) (i_port_status i) (i_reports i) (i_dropped i).

Record uhci_controller := {
  frames : Z; control_qh : Z; interrupt_qh : Z; control_td : Z; interrupt_td : Z;
  control_data : Z; interrupt_data : Z; report_queue : Z;
  producer : Z; consumer : Z; c_address : Z; c_endpoint : Z; c_low_speed : Z; c_packet : Z;
  c_toggle : Z; c_active : Z; c_port : Z; last_request : Z; last_control_result : Z
}.
#[export] Instance eta_controller : Eta uhci_controller := fun c =>
  Build_uhci_controller (frames c) (control_qh c) (interrupt_qh c) (control_td c) (interrupt_td c)
    (control_data c) (interrupt_data c) (report_queue c) (producer c) (consumer c) (c_address c)
    (c_endpoint c) (c_low_speed c) (c_packet c) (c_toggle c) (c_active c) (c_port c)
    (last_request c) (last_control_result c).

(** Offsets in [struct uhci_td] and [struct uhci_qh]. *)
Definition td_link (td : Z) : Z := td.
Definition td_status (td : Z) : Z := td + 4.
Definition td_token (td : Z) : Z := td + 8.
Definition td_buffer (td : Z) : Z := td + 12.
Definition uhci_qh_link (qh : Z) : Z := qh.
Definition uhci_qh_element (qh : Z) : Z := qh + 4.

Definition no_info : uhci_controller_info := Build_uhci_controller_info 0 0 0 0 0 0 0 0 [0; 0] 0 0.
Definition no_controller : uhci_controller :=
  Build_uhci_controller 0 0 0 0 0 0 0 0 0 0 0 0 0 0 0 0 0 0 0.

Section HOST.
Context {K : Type}.

(** [struct usb_host_info host], [controllers] and the other statics. *)
Record usb := {
  controller_count : Z; route_mask : Z; host_error : Z; unclaimed_interrupts : Z;
  infos : list uhci_controller_info; polls : Z; poll_completions : Z;
  last_td : list Z; port_generation : list (list Z); ehci_bar : Z;
  ctrls : list uhci_controller; h_ticks_per_ms : Z; h_initialized : Z; hotplug_time : Z;
  unclaimed_streak : list Z;
  report_callback : option (Z -> Z -> Z -> Z -> code K unit);
  client : K; storage : statics
}.
#[export] Instance eta_usb : Eta usb := fun u =>
  Build_usb (controller_count u) (route_mask u) (host_error u) (unclaimed_interrupts u) (infos u)
    (polls u) (poll_completions u) (last_td u) (port_generation u) (ehci_bar u) (ctrls u)
    (h_ticks_per_ms u) (h_initialized u) (hotplug_time u) (unclaimed_streak u) (report_callback u)
    (client u) (storage u).

Definition info_of (id : Z) (u : usb) : uhci_controller_info := at_slot no_info (infos u) id.
Definition ctrl_of (id : Z) (u : usb) : uhci_controller := at_slot no_controller (ctrls u) id.
Definition set_info (id : Z) (f : uhci_controller_info -> uhci_controller_info) : code usb unit :=
  modify (fun u => u <| infos := <[Z.to_nat id := f (info_of id u)]> (infos u) |>).
Definition set_ctrl (id : Z) (f : uhci_controller -> uhci_controller) : code usb unit :=
  modify (fun u => u <| ctrls := <[Z.to_nat id := f (ctrl_of id u)]> (ctrls u) |>).

(** [report_callback(id, event, data, length)], when it is set. *)
Definition call_report (id event data length : Z) : code usb unit :=
  let* callback := gets report_callback in
  match callback with
  | None => cret tt
  | Some f => fun u => let! r := f id event data length (client u) in Ret (tt, u <| client := snd r |>)
  end.

Definition in_storage {A} (m : code statics A) : code usb A :=
  fun u => let! r := m (storage u) in Ret (fst r, u <| storage := snd r |>).

Definition usb_host_set_report_callback (callback : option (Z -> Z -> Z -> Z -> code K unit)) : code usb Z :=
  let* flags := io (access SaveFlagsCli) in
  let* busy := gets (fun u => existsb (fun id => negb (c_active (ctrl_of id u) =? 0)) (seqZ 0 4)) in
  (if busy then cret tt else modify (fun u => u <| report_callback := callback |>)) ;*
  (if negb (flags .& 0x200 =? 0) then io (access Sti ;; Ret tt) else cret tt) ;*
  cret (if busy then 0 else 1).

Definition irq_save : code usb Z := io (access SaveFlagsCli).
Definition irq_restore (flags : Z) : code usb unit :=
  if negb (flags .& 0x200 =? 0) then io (access Sti ;; Ret tt) else cret tt.

Definition pci_read (device reg : Z) : prog bus Z :=
  out32 0xCF8 (0x80000000 .| device .| (reg .& not32 3)) ;; in32 0xCFC.
Definition pci_write16 (device reg value : Z) : prog bus unit :=
  out32 0xCF8 (0x80000000 .| device .| (reg .& not32 3)) ;;
  out16 (u16 (0xCFC + (reg .& 2))) value.
Definition ioapic_read (reg : Z) : prog bus Z :=
  store32 0xFEC00000 reg ;; load32 0xFEC00010.
Definition ioapic_write (reg value : Z) : prog bus unit :=
  store32 0xFEC00000 reg ;; store32 0xFEC00010 value ;; load32 0xFEC00010 ;; Ret tt.

Context (fuel : nat).

Definition delay (ms : Z) : code usb unit :=
  let* start := io rdtsc in
  let* ticks := gets h_ticks_per_ms in
  io (delay_loop fuel start (ms *% ticks)).

Definition wait_io (port mask value : Z) : code usb bool :=
  let* start := io rdtsc in
  let* ticks := gets h_ticks_per_ms in
  let* r := io (poll fuel start (ticks *% 1000)
    (let! v := in16 port in Ret (if v .& mask =? value then Some true else None))) in
  cret (default false r).

(** The I/O ports of a controller, as [uint16_t]. *)
Definition io_port (id offset : Z) (u : usb) : Z := u16 (u16 (i_io_base (info_of id u)) + offset).

Definition stop (id : Z) : code usb unit :=
  let* io0 := gets (io_port id 0) in
  io (out16 io0 0) ;*
  let* status := gets (io_port id 2) in
  let* ok := wait_io status USB_HALTED USB_HALTED in
  if negb ok then
    let* enable := gets (io_port id 4) in
    io (out16 enable 0) ;* cpanic "UHCI cannot stop DMA safely"
  else cret tt.

Definition arm_interrupt (id : Z) : code usb unit :=
  let* c := gets (ctrl_of id) in
  let td := interrupt_td c in
  io (store32 (td_link td) 1) ;*
  io (store32 (td_token td) (uhci_token 0x69 (c_address c) (c_endpoint c) (c_toggle c) (c_packet c))) ;*
  io (store32 (td_buffer td) (interrupt_data c)) ;*
  io (store32 (td_status td)
        (0x7FF .| UHCI_ACTIVE .| UHCI_IOC .| (3 <<% 27) .| (1 <<% 29) .| (c_low_speed c <<% 26))) ;*
  io barrier ;*
  io (store32 (uhci_qh_element (interrupt_qh c)) td).

(** ** One controller's pending work *)

(** A fatal status: quiet the controller and its stream. *)
Definition controller_failed (id : Z) : code usb unit :=
  let* pci := gets (fun u => i_pci (info_of id u)) in
  let* enable := gets (io_port id 4) in
  io (out16 enable 0) ;*
  let* io0 := gets (io_port id 0) in
  io (out16 io0 0) ;*
  let* command := io (pci_read pci 4) in
  io (pci_write16 pci 4 (u16 (command .| 0x400))) ;*
  set_ctrl id (fun c => c <| c_active := 0 |>) ;*
  set_info id (fun i => i <| i_status := UHCI_CONTROLLER_ERROR |>) ;*
  call_report id USB_REPORT_DISCONNECTED 0 0.

(** A completed report: callback, copy queue, next transfer. *)
Definition receive_report (id from_irq td_value : Z) : code usb unit :=
  let* c := gets (ctrl_of id) in
  let length := u32 (uhci_completed_length td_value (c_packet c)) in
  (if from_irq =? 0 then modify (fun u => u <| poll_completions := poll_completions u +% 1 |>) else cret tt) ;*
  set_info id (fun i => i <| i_reports := i_reports i +% 1 |>) ;*
  call_report id USB_REPORT_DATA (interrupt_data c) length ;*
  let* c := gets (ctrl_of id) in
  (if producer c -% consumer c <? UHCI_REPORT_COUNT then
     let report := report_queue c + 68 * (producer c .& (UHCI_REPORT_COUNT - 1)) in
     io (store32 report length) ;*
     io (memset (report + 4) 0 UHCI_REPORT_BYTES ;; Ret tt) ;*
     io (memcpy (report + 4) (interrupt_data c) length ;; Ret tt) ;*
     set_ctrl id (fun c => c <| producer := producer c +% 1 |>)
   else set_info id (fun i => i <| i_dropped := i_dropped i +% 1 |>)) ;*
  set_ctrl id (fun c => c <| c_toggle := c_toggle c .^ 1 |>) ;*
  arm_interrupt id.

Definition service_controller (id from_irq : Z) : code usb Z :=
  let* c := gets (ctrl_of id) in
  let* info := gets (info_of id) in
  if (frames c =? 0) || (i_status info =? UHCI_CONTROLLER_ERROR) then cret 0 else
  let* status_port := gets (io_port id 2) in
  let* status := io (in16 status_port) in
  let acted := b2z (negb (status .& 0x1F =? 0)) in
  (if negb (status .& 0x1F =? 0) then
     (if negb (from_irq =? 0) then set_info id (fun i => i <| i_interrupts := i_interrupts i +% 1 |>) else cret tt) ;*
     set_info id (fun i => i <| i_last_status := status |>) ;*
     io (out16 status_port (u16 (status .& 0x1F)))
   else cret tt) ;*
  if negb (status .& 0x18 =? 0) then controller_failed id ;* cret 1 else
  if c_active c =? 0 then cret acted else
  let* port_reg := gets (io_port id (0x10 + c_port c * 2)) in
  let* port := io (in16 port_reg) in
  set_info id (fun i => i <| i_port_status := <[Z.to_nat (c_port c) := port]> (i_port_status i) |>) ;*
  let* td_value := io (load32 (td_status (interrupt_td c))) in
  modify (fun u => u <| last_td := <[Z.to_nat id := td_value]> (last_td u) |>) ;*
  let gone := negb (port .& 5 =? 5) || negb (port .& 2 =? 0) in
  if negb gone && negb (td_value .& UHCI_ACTIVE =? 0) then cret acted else
  (if gone then set_info id (fun i => i <| i_status := UHCI_DISCONNECTED |>)
   else if uhci_completed_length td_value (c_packet c) <? 0
   then set_info id (fun i => i <| i_status := UHCI_TRANSFER_ERROR |>)
   else cret tt) ;*
  io (store32 (uhci_qh_element (interrupt_qh c)) 1) ;*
  let* status := gets (fun u => i_status (info_of id u)) in
  if negb (status =? UHCI_READY) then
    set_ctrl id (fun c => c <| c_active := 0 |>) ;*
    call_report id USB_REPORT_DISCONNECTED 0 0 ;*
    cret 1
  else
    receive_report id from_irq td_value ;*
    cret 1.

(** [frame] is the saved vector, [None] a null pointer. *)
Definition usb_host_interrupt (frame : option Z) : code usb unit :=
  match frame with
  | None => cpanic "Invalid UHCI interrupt frame"
  | Some vector =>
      if (vector <? 0x40) || (0x47 <? vector) then cpanic "Invalid UHCI interrupt frame" else
      let gsi := 16 + vector - 0x40 in
      let serve claimed id :=
        let* info := gets (info_of id) in
        if i_gsi info =? gsi then let* r := service_controller id 1 in cret (claimed .| r) else cret claimed in
      let* claimed := serve 0 0 in
      let* claimed := serve claimed 1 in
      let* claimed := serve claimed 2 in
      let* claimed := serve claimed 3 in
      let streak := Z.to_nat (gsi - 16) in
      if negb (claimed =? 0) then modify (fun u => u <| unclaimed_streak := <[streak := 0]> (unclaimed_streak u) |>) else
      modify (fun u => u
        <| unclaimed_interrupts := unclaimed_interrupts u +% 1 |>
        <| unclaimed_streak := <[streak := at_slot 0 (unclaimed_streak u) (gsi - 16) +% 1]> (unclaimed_streak u) |>) ;*
      let* count := gets (fun u => at_slot 0 (unclaimed_streak u) (gsi - 16)) in
      if count <? 32 then cret tt else
      let reg := 0x10 + gsi * 2 in
      let* entry := io (ioapic_read reg) in
      io (ioapic_write reg (entry .| IOAPIC_MASK)) ;*
      modify (fun u => u <| route_mask := route_mask u .& not32 (1 <<% (gsi - 16)) |>)
  end.

(** The schedule with no stream: every frame goes to the control queue. *)
Definition idle_frames (c : uhci_controller) : prog bus unit :=
  for_range 1024 0 (fun frame => store32 (frames c + 4 * frame) (control_qh c .| 2)).

(** The root ports of one controller in a poll. *)
Definition poll_port (id port : Z) : code usb unit :=
  let* reg := gets (io_port id (0x10 + port * 2)) in
  let* value := io (in16 reg) in
  set_info id (fun i => i <| i_port_status := <[Z.to_nat port := value]> (i_port_status i) |>) ;*
  (if negb (value .& 2 =? 0) then
     modify (fun u =>
       let row := at_slot [] (port_generation u) id in
       u <| port_generation := <[Z.to_nat id := <[Z.to_nat port := at_slot 0 row port +% 1]> row]> (port_generation u) |>)
   else cret tt) ;*
  if negb (value .& 0x080A =? 0) then
    io (out16 reg (u16 (uhci_port_update value 0 0 .| (value .& 0x080A))))
  else cret tt.

(** Recovery of a stream that stopped: the controller is halted, its schedule emptied and
    started again. *)
Definition restart_schedule (id : Z) : code usb unit :=
  let* enable := gets (io_port id 4) in
  io (out16 enable 0) ;*
  stop id ;*
  let* c := gets (ctrl_of id) in
  io (store32 (uhci_qh_element (control_qh c)) 1) ;*
  io (store32 (uhci_qh_element (interrupt_qh c)) 1) ;*
  io (store32 (td_status (interrupt_td c)) 0) ;*
  set_ctrl id (fun c => c <| producer := 0 |> <| consumer := 0 |>) ;*
  io (idle_frames c) ;*
  io barrier ;*
  set_info id (fun i => i <| i_status := UHCI_READY |>) ;*
  let* status := gets (io_port id 2) in
  io (out16 status 0x1F) ;*
  let* io0 := gets (io_port id 0) in
  io (out16 io0 USB_RUN) ;*
  io (out16 enable 0x0D).

(** The part of a poll between the guard and the ports: whether to go on. *)
Definition poll_stream (id : Z) : code usb bool :=
  let* c := gets (ctrl_of id) in
  let* enable := gets (io_port id 4) in
  let* io0 := gets (io_port id 0) in
  let* paused :=
    if c_active c =? 0 then cret false
    else let* v := io (load32 (td_status (interrupt_td c))) in cret (v .& UHCI_ACTIVE =? 0) in
  (if paused then io (out16 enable 0) ;* stop id else cret tt) ;*
  service_controller id 0 ;*
  let* status := gets (fun u => i_status (info_of id u)) in
  if status =? UHCI_CONTROLLER_ERROR then cret false else
  let* c := gets (ctrl_of id) in
  (if paused && negb (c_active c =? 0) then io (out16 io0 USB_RUN) ;* io (out16 enable 0x0D) else cret tt) ;*
  (if (status =? UHCI_DISCONNECTED) || (status =? UHCI_TRANSFER_ERROR) then restart_schedule id else cret tt) ;*
  cret true.

Definition poll_controller (id active : Z) : code usb Z :=
  let* c := gets (ctrl_of id) in
  let* info := gets (info_of id) in
  if (frames c =? 0) || (i_status info =? UHCI_CONTROLLER_ERROR) then cret active else
  let* go := poll_stream id in
  if negb go then cret active else
  poll_port id 0 ;*
  poll_port id 1 ;*
  let* c := gets (ctrl_of id) in
  cret (if negb (c_active c =? 0) then active .| (1 <<% id) else active).

Definition usb_host_poll : code usb Z :=
  let* ticks := gets h_ticks_per_ms in
  if ticks =? 0 then cret 0 else
  let* flags := irq_save in
  modify (fun u => u <| polls := polls u +% 1 |>) ;*
  in_storage storage_refresh_usb_companions ;*
  let* active := poll_controller 0 0 in
  let* active := poll_controller 1 active in
  let* active := poll_controller 2 active in
  let* active := poll_controller 3 active in
  irq_restore flags ;*
  cret active.

Definition usb_uhci_hotplug_due : code usb bool :=
  let* ticks := gets h_ticks_per_ms in
  if ticks =? 0 then cret false else
  let* now := io rdtsc in
  let* last := gets hotplug_time in
  if now -% last <? ticks *% 100 then cret false else
  modify (fun u => u <| hotplug_time := now |>) ;*
  cret true.

(** ** Initialisation *)

(** The pieces of the reserved DMA block of a controller. *)
Definition dma_layout (dma : Z) (c : uhci_controller) : uhci_controller :=
  c <| frames := dma |> <| control_qh := dma + 0x1000 |> <| interrupt_qh := dma + 0x1010 |>
    <| control_td := dma + 0x1020 |> <| interrupt_td := dma + 0x1030 |>
    <| control_data := dma + 0x2000 |> <| interrupt_data := dma + 0x2100 |>
    <| report_queue := dma + 0x3000 |>.

(** Reset, empty schedule and start; [false] leaves the controller in error. *)
Definition start_uhci (id : Z) : code usb bool :=
  let* pci := gets (fun u => i_pci (info_of id u)) in
  let* dma := gets (fun u => i_dma (info_of id u)) in
  let* io0 := gets (io_port id 0) in
  let* status := gets (io_port id 2) in
  let* enable := gets (io_port id 4) in
  let* frame_number := gets (io_port id 6) in
  let* frame_base := gets (io_port id 8) in
  let* command := io (pci_read pci 4) in
  io (pci_write16 pci 4 (u16 ((command .| 5) .& not32 0x400))) ;*
  io (pci_write16 pci 0xC0 0x2000) ;*
  io (out16 enable 0) ;*
  stop id ;*
  io (out16 io0 2) ;*
  let* ok := wait_io io0 2 0 in
  if negb ok then cret false else
  io (memset dma 0 UHCI_DMA_STRIDE ;; Ret tt) ;*
  set_ctrl id (dma_layout dma) ;*
  let* c := gets (ctrl_of id) in
  io (store32 (uhci_qh_element (control_qh c)) 1) ;*
  io (store32 (uhci_qh_link (control_qh c)) 1) ;*
  io (store32 (uhci_qh_link (interrupt_qh c)) (control_qh c .| 2)) ;*
  io (store32 (uhci_qh_element (interrupt_qh c)) 1) ;*
  io (idle_frames c) ;*
  io (out16 status 0x1F) ;*
  io (out16 frame_number 0) ;*
  io (out32 frame_base dma) ;*
  io barrier ;*
  io (out16 io0 USB_RUN) ;*
  wait_io status USB_HALTED 0.

(** One function of the chipset's USB device. *)
Definition initialize_controller (lpc d29ip d29ir max_gsi id : Z) : code usb unit :=
  let pci := ICH6_USB .| (id <<% 8) in
  let* device := io (pci_read pci 0) in
  let* skip := if device .& 0xFFFF =? 0xFFFF then cret true
               else let* class := io (pci_read pci 8) in cret (negb (class >>> 8 =? 0x0C0300)) in
  if skip then cret tt else
  set_info id (fun i => i <| i_pci := pci |>) ;*
  let* pin := io (pci_read pci 0x3C) in
  let pin := (pin >>> 8) .& 255 in
  let gsi := uhci_resolve_gsi lpc device id pin d29ip d29ir in
  if (gsi =? NO_GSI) || (max_gsi <? gsi) then set_info id (fun i => i <| i_status := UHCI_BAD_ROUTE |>) else
  let bit := 1 <<% (gsi - 16) in
  let redir := 0x10 + gsi * 2 in
  let* previous := io (ioapic_read redir) in
  let* routed := gets route_mask in
  if (routed .& bit =? 0) && ((previous .& IOAPIC_MASK =? 0) || negb (previous .& 0x5000 =? 0))
  then set_info id (fun i => i <| i_status := UHCI_BAD_ROUTE |>) else
  let* bar := io (pci_read pci 0x20) in
  if (bar .& 1 =? 0) || negb (bar .& 0xFFFF0000 =? 0) || (bar .& not32 0x1F <? 0x100) || negb (bar .& 0x1E =? 0)
  then set_info id (fun i => i <| i_status := UHCI_BAD_BAR |>) else
  set_info id (fun i => i <| i_io_base := bar .& not32 0x1F |> <| i_gsi := gsi |>
                          <| i_vector := UHCI_VECTOR_BASE + gsi - 16 |>
                          <| i_dma := UHCI_DMA_BASE + id * UHCI_DMA_STRIDE |>) ;*
  let* ok := start_uhci id in
  if negb ok then set_info id (fun i => i <| i_status := UHCI_CONTROLLER_ERROR |>) else
  let* port0 := gets (io_port id 0x10) in
  let* value := io (in16 port0) in
  set_info id (fun i => i <| i_port_status := <[0%nat := value]> (i_port_status i) |>) ;*
  let* port1 := gets (io_port id 0x12) in
  let* value := io (in16 port1) in
  set_info id (fun i => i <| i_port_status := <[1%nat := value]> (i_port_status i) |>) ;*
  (if routed .& bit =? 0 then
     io (ioapic_write redir (previous .| IOAPIC_MASK)) ;*
     let* lapic_id := io (load32 0xFEE00020) in
     io (ioapic_write (redir + 1) (lapic_id .& 0xFF000000)) ;*
     let* vector := gets (fun u => i_vector (info_of id u)) in
     io (ioapic_write redir (IOAPIC_MASK .| 0xA000 .| vector)) ;*
     modify (fun u => u <| route_mask := route_mask u .| bit |>)
   else cret tt) ;*
  set_info id (fun i => i <| i_status := UHCI_READY |>) ;*
  let* enable := gets (io_port id 4) in
  io (out16 enable 0x0D) ;*
  modify (fun u => u <| controller_count := controller_count u +% 1 |>).

Definition unmask_route (route : Z) : code usb unit :=
  let* routed := gets route_mask in
  if routed .& (1 <<% route) =? 0 then cret tt else
  let reg := 0x10 + (16 + route) * 2 in
  let* entry := io (ioapic_read reg) in
  io (ioapic_write reg (entry .& not32 IOAPIC_MASK)).

Context (host_address usb_host_interrupt_address : Z).

(** The body between [irq_save] and [done]. *)
Definition initialize_host : code usb unit :=
  modify (fun u => u <| h_initialized := 1 |>) ;*
  io (store32 UHCI_STATUS_POINTER host_address) ;*
  io (store32 UHCI_IRQ_CALLBACK usb_host_interrupt_address) ;*
  let* lpc := io (pci_read ICH6_LPC 0) in
  if negb (lpc =? 0x26418086) && negb (lpc =? 0x26408086) then cret tt else
  let* rcba := io (pci_read ICH6_LPC 0xF0) in
  if (rcba .& 1 =? 0) || (rcba .& not32 0x3FFF <? 0x40000000)
  then modify (fun u => u <| host_error := UHCI_BAD_ROUTE |>) else
  cfor 4 0 (fun page =>
    let offset := page * 4096 in
    let* ok := io (api "map_page" [RCBA_ALIAS + offset; (rcba .& not32 0x3FFF) +% offset; 0x1B]) in
    if ok =? 0 then cpanic "Cannot map ICH6 routing registers" else cret tt) ;*
  let* d29ip := io (load32 (RCBA_ALIAS + 0x3108)) in
  let* d29ir := io (load32 (RCBA_ALIAS + 0x3144)) in
  let d29ir := d29ir .& 0xFFFF in
  let* bar := io (pci_read ICH6_EHCI 0x10) in
  modify (fun u => u <| ehci_bar := bar |>) ;*
  let* ticks := in_storage (storage_prepare_usb_companions fuel ICH6_EHCI) in
  modify (fun u => u <| h_ticks_per_ms := ticks |>) ;*
  if ticks =? 0 then modify (fun u => u <| host_error := UHCI_CONTROLLER_ERROR |>) else
  let* version := io (ioapic_read 1) in
  let max_gsi := (version >>> 16) .& 255 in
  cfor 4 0 (initialize_controller lpc d29ip d29ir max_gsi) ;*
  cfor 8 0 unmask_route.

Definition usb_host_initialize : code usb Z :=
  let* flags := irq_save in
  let* done := gets h_initialized in
  (if negb (done =? 0) then cret tt else initialize_host) ;*
  irq_restore flags ;*
  gets controller_count.

(** ** Root ports *)

(** [out16(io, uhci_port_update(in16(io), clear, set))] *)
Definition update_port (reg clear set : Z) : code usb unit :=
  let* value := io (in16 reg) in
  io (out16 reg (u16 (uhci_port_update value clear set))).

Definition usb_uhci_reset_port (id port : Z) : code usb Z :=
  let* info := gets (info_of id) in
  if (4 <=? id) || (1 <? port) || negb (i_status info =? UHCI_READY) then cret 0 else
  let* flags := irq_save in
  let* c := gets (ctrl_of id) in
  if negb (c_active c =? 0) then irq_restore flags ;* cret 0 else
  let reg := u16 (i_io_base info +% 0x10 +% port *% 2) in
  let* value := io (in16 reg) in
  if value .& PORT_CONNECTED =? 0 then irq_restore flags ;* cret 0 else
  io (out16 reg (u16 (uhci_port_update value PORT_ENABLED PORT_RESET))) ;*
  delay 50 ;*
  update_port reg PORT_RESET 0 ;*
  delay 10 ;*
  update_port reg 0 PORT_ENABLED ;*
  delay 10 ;*
  let* value := io (in16 reg) in
  set_info id (fun i => i <| i_port_status := <[Z.to_nat port := value]> (i_port_status i) |>) ;*
  irq_restore flags ;*
  cret (if value .& 5 =? 5 then if negb (value .& PORT_LOW_SPEED =? 0) then 2 else 1 else 0).

(** [while (milliseconds--) delay(1)] *)
Definition usb_uhci_delay (milliseconds : Z) : code usb unit :=
  cfor (Z.to_nat milliseconds) 0 (fun _ => delay 1).

Definition usb_uhci_disable_port (id port : Z) : code usb unit :=
  let* info := gets (info_of id) in
  let* c := gets (ctrl_of id) in
  if (4 <=? id) || (1 <? port) || (i_io_base info =? 0) || negb (c_active c =? 0) then cret tt else
  let* flags := irq_save in
  let reg := u16 (i_io_base info +% 0x10 +% port *% 2) in
  update_port reg (PORT_ENABLED .| PORT_RESET) 0 ;*
  let* value := io (in16 reg) in
  set_info id (fun i => i <| i_port_status := <[Z.to_nat port := value]> (i_port_status i) |>) ;*
  irq_restore flags.

(** [struct uhci_debug_snapshot] is eleven words at [snapshot]. *)
Definition usb_uhci_debug_snapshot (id snapshot : Z) : code usb unit :=
  if snapshot =? 0 then cret tt else
  io (memset snapshot 0 44 ;; Ret tt) ;*
  let* c := gets (ctrl_of id) in
  if (4 <=? id) || (frames c =? 0) then cret tt else
  let* flags := irq_save in
  let put index port :=
    let* reg := gets (io_port id port) in
    let* v := io (in16 reg) in
    io (store32 (snapshot + 4 * index) v) in
  put 0 0 ;* put 1 2 ;* put 2 4 ;* put 3 6 ;* put 7 0x10 ;* put 8 0x12 ;*
  let* v := io (load32 (td_status (interrupt_td c))) in
  io (store32 (snapshot + 16) v) ;*
  let* v := io (load32 (uhci_qh_element (interrupt_qh c))) in
  io (store32 (snapshot + 20) v) ;*
  let* v := io (load32 (td_status (control_td c))) in
  io (store32 (snapshot + 24) v) ;*
  io (store32 (snapshot + 36) (last_request c)) ;*
  io (store32 (snapshot + 40) (last_control_result c)) ;*
  irq_restore flags.

(** ** Endpoint-zero transfers *)

(** [while ((td->status & ACTIVE) && tsc() - start < limit)] *)
Fixpoint td_wait (n : nat) (td start limit : Z) : prog bus unit :=
  match n with
  | O => OutOfFuel
  | S n' =>
      let! v := load32 (td_status td) in
      if v .& UHCI_ACTIVE =? 0 then Ret tt else
      let! now := rdtsc in
      if now -% start <? limit then td_wait n' td start limit else Ret tt
  end.

Definition control_packet (id pid address low toggle length : Z) : code usb Z :=
  let* c := gets (ctrl_of id) in
  let* io0 := gets (io_port id 0) in
  let* status_port := gets (io_port id 2) in
  let* pci := gets (fun u => i_pci (info_of id u)) in
  let td := control_td c in
  stop id ;*
  io (store32 (td_link td) 1) ;*
  io (store32 (td_token td) (uhci_token pid address 0 toggle length)) ;*
  io (store32 (td_buffer td) (control_data c)) ;*
  io (store32 (td_status td) (0x7FF .| UHCI_ACTIVE .| (3 <<% 27) .| (low <<% 26))) ;*
  io (store32 (uhci_qh_element (control_qh c)) td) ;*
  io barrier ;*
  io (out16 io0 USB_RUN) ;*
  let* start := io rdtsc in
  let* ticks := gets h_ticks_per_ms in
  io (td_wait fuel td start (ticks *% 1000)) ;*
  stop id ;*
  let* v := io (load32 (td_status td)) in
  let result := uhci_completed_length v length in
  let* status := io (in16 status_port) in
  let* result :=
    if negb (status .& 0x18 =? 0) then
      set_info id (fun i => i <| i_status := UHCI_CONTROLLER_ERROR |>) ;*
      let* command := io (pci_read pci 4) in
      io (pci_write16 pci 4 (u16 (command .| 0x400))) ;*
      cret (-1)
    else cret result in
  io (store32 (uhci_qh_element (control_qh c)) 1) ;*
  io (out16 status_port 0x1F) ;*
  cret result.

(** The DATA stage: [None] when it fails, else the bytes received. *)
Fixpoint data_stage (rounds : nat) (id address low packet : Z) (inward : bool) (data length received toggle : Z)
    : code usb (option Z) :=
  if negb (received <? length) then cret (Some received) else
  match rounds with
  | O => cdiverge
  | S rounds' =>
      let* c := gets (ctrl_of id) in
      let count := length -% received in
      let count := if packet <? count then packet else count in
      (if inward then cret tt else io (memcpy (control_data c) (data +% received) count ;; Ret tt)) ;*
      let* actual := control_packet id (if inward then 0x69 else 0xE1) address low toggle count in
      if actual <? 0 then cret None else
      (if inward then io (memcpy (data +% received) (control_data c) actual ;; Ret tt) else cret tt) ;*
      let received := received +% actual in
      if actual <? count then cret (if inward then Some received else None) else
      data_stage rounds' id address low packet inward data length received (toggle .^ 1)
  end.

(** SETUP, DATA and STATUS: [-1] when any stage fails. *)
Definition control_stages (id address low packet : Z) (setup : list Z) (data length : Z) : code usb Z :=
  let* c := gets (ctrl_of id) in
  let inward := negb (at_slot 0 setup 0 .& 0x80 =? 0) in
  io (copy_local (control_data c) setup) ;*
  let* r := control_packet id 0x2D address low 0 8 in
  if negb (r =? 8) then cret (-1) else
  let* received := data_stage 4096 id address low packet inward data length 0 1 in
  match received with
  | None => cret (-1)
  | Some received =>
      let* r := control_packet id (if negb (length =? 0) && inward then 0xE1 else 0x69) address low 1 0 in
      cret (if negb (r =? 0) then -1 else received)
  end.

(** [setup] is the caller's eight bytes. *)
Definition usb_uhci_control (id address low packet : Z) (setup : list Z) (data : Z) : code usb Z :=
  let* info := gets (info_of id) in
  if (4 <=? id) || (127 <? address) || (1 <? low) || negb (i_status info =? UHCI_READY) ||
     (negb (packet =? 8) && negb (packet =? 16) && negb (packet =? 32) && negb (packet =? 64)) ||
     (negb (low =? 0) && negb (packet =? 8)) then cret (-1) else
  let length := at_slot 0 setup 6 .| (at_slot 0 setup 7 <<% 8) in
  if (USB_CONFIGURATION_MAX_BYTES <? length) || (negb (length =? 0) && (data =? 0)) then cret (-1) else
  let* flags := irq_save in
  let* c := gets (ctrl_of id) in
  if negb (c_active c =? 0) then irq_restore flags ;* cret (-1) else
  set_ctrl id (fun c => c <| last_request := (at_slot 0 setup 0 <<% 24) .| (at_slot 0 setup 1 <<% 16) .|
                                             (at_slot 0 setup 3 <<% 8) .| at_slot 0 setup 2 |>) ;*
  let* io0 := gets (io_port id 0) in
  let* enable := gets (io_port id 4) in
  io (out16 enable 0) ;*
  let* result := control_stages id address low packet setup data length in
  set_ctrl id (fun c => c <| last_control_result := u32 result |>) ;*
  let* status := gets (fun u => i_status (info_of id u)) in
  (if status =? UHCI_READY then io (out16 io0 USB_RUN) ;* io (out16 enable 0x0D) else cret tt) ;*
  irq_restore flags ;*
  cret result.

(** ** The report stream *)
Definition stream_frames (c : uhci_controller) (interval : Z) : prog bus unit :=
  for_range 1024 0 (fun frame =>
    store32 (frames c + 4 * frame) ((if negb (frame mod interval =? 0) then control_qh c else interrupt_qh c) .| 2)).

Definition usb_uhci_start_interrupt (id port address endpoint low packet ms : Z) : code usb Z :=
  let interval := uhci_interval ms in
  let* info := gets (info_of id) in
  if (4 <=? id) || (1 <? port) || (address <? 1) || (127 <? address) || (endpoint <? 1) || (15 <? endpoint) ||
     (1 <? low) || (packet =? 0) || (64 <? packet) || (negb (low =? 0) && (8 <? packet)) || (interval =? 0) ||
     negb (i_status info =? UHCI_READY) then cret 0 else
  let* flags := irq_save in
  let* c := gets (ctrl_of id) in
  if negb (c_active c =? 0) then irq_restore flags ;* cret 0 else
  let* reg := gets (io_port id (0x10 + port * 2)) in
  let* port_value := io (in16 reg) in
  if negb (port_value .& 5 =? 5) || negb (b2z (negb (port_value .& PORT_LOW_SPEED =? 0)) =? low)
  then irq_restore flags ;* cret 0 else
  stop id ;*
  io (out16 reg (u16 (uhci_port_update port_value 0 0 .| (port_value .& 0x080A)))) ;*
  set_ctrl id (fun c => c <| c_address := address |> <| c_endpoint := endpoint |> <| c_low_speed := low |>
                          <| c_packet := packet |> <| c_toggle := 0 |> <| c_port := port |>
                          <| producer := 0 |> <| consumer := 0 |> <| c_active := 1 |>) ;*
  call_report id USB_REPORT_CONNECTED 0 0 ;*
  let* c := gets (ctrl_of id) in
  io (stream_frames c interval) ;*
  arm_interrupt id ;*
  let* status := gets (io_port id 2) in
  io (out16 status 0x1F) ;*
  let* enable := gets (io_port id 4) in
  io (out16 enable 0x0D) ;*
  let* io0 := gets (io_port id 0) in
  io (out16 io0 USB_RUN) ;*
  irq_restore flags ;*
  cret 1.

Definition usb_uhci_read_report (id report : Z) : code usb Z :=
  if (4 <=? id) || (report =? 0) then cret 0 else
  let* flags := irq_save in
  let* c := gets (ctrl_of id) in
  let* result :=
    if negb (consumer c =? producer c) then
      io (memcpy report (report_queue c + 68 * (consumer c .& (UHCI_REPORT_COUNT - 1))) 68 ;; Ret tt) ;*
      set_ctrl id (fun c => c <| consumer := consumer c +% 1 |>) ;*
      cret 1
    else cret 0 in
  irq_restore flags ;*
  cret result.
End HOST.
