(* ===== verification/UsbSafety.v ===== *)
(** * What the UHCI driver may write

    The controllers do DMA from descriptors the driver writes, so a stray write is a write
    to memory by the hardware. Every operation on one controller is shown to write only that
    controller's reserved block, the I/O APIC's two registers and the buffer its
    caller passed, whatever the hardware and the devices answer. *)
From stdpp Require Import list gmap strings.
From S2P Require Import Prelude Machine Runtime Transport TransportSafety Storage Ring UsbHost.

(** ** The policy *)
Definition block (id : Z) : Z := UHCI_DMA_BASE + id * UHCI_DMA_STRIDE.
Definition in_block (id a n : Z) : Prop := block id <= a /\ a + n <= block id + UHCI_DMA_STRIDE.

(** [extra] is the memory the caller of an operation lets it write. *)
Definition contained (id : Z) (extra : Z -> Prop) (_ : trace) (e : bus) : Prop :=
  match e with
  | Store W8 a _ => in_block id a 1 \/ extra a
  | Store W32 a _ => in_block id a 4 \/ a = 0xFEC00000 \/ a = 0xFEC00010
  | Store W16 _ _ | Out W8 _ _ | Xchg _ _ | Api _ _ => False
  | Out W32 p v => p = 0xCF8 \/ v = block id
  | _ => True
  end.

#[export] Instance contained_reads id extra : AllowsReads (contained id extra).
Proof. intros t e He. destruct e; cbn in *; auto; contradiction. Qed.

(** A client that only looks at memory. *)
Definition only_reads (_ : trace) (e : bus) : Prop := is_read e.
#[export] Instance only_reads_reads : AllowsReads only_reads.
Proof. intros t e He. exact He. Qed.

(** ** The invariant *)
Definition pointers (c : uhci_controller) : list Z :=
  [frames c; control_qh c; interrupt_qh c; control_td c; interrupt_td c; control_data c; interrupt_data c; report_queue c].
Definition layout (id : Z) : list Z :=
  let dma := block id in
  [dma; dma + 0x1000; dma + 0x1010; dma + 0x1020; dma + 0x1030; dma + 0x2000; dma + 0x2100; dma + 0x3000].

Section CONTAINED.
Context {K : Type}.
Abbreviation usb := (@usb K).
Implicit Types u : usb.

Definition safe_client (f : Z -> Z -> Z -> Z -> code K unit) : Prop :=
  forall id event data length, 0 <= length <= 64 ->
    keeps only_reads (fun _ _ => True) (f id event data length).

Definition laid (id : Z) u : Prop := pointers (ctrl_of id u) = layout id.

#[export] Instance laid_dec id u : Decision (laid id u).
Proof. unfold laid. apply _. Defined.

Definition ctrl_ok (id : Z) u : Prop :=
  (frames (ctrl_of id u) <> 0 -> laid id u) /\ (i_status (info_of id u) = UHCI_READY -> laid id u) /\
  (c_active (ctrl_of id u) <> 0 -> laid id u) /\ 0 <= c_packet (ctrl_of id u) <= 64.

Definition host_ok u : Prop :=
  length (infos u) = 4%nat /\ length (ctrls u) = 4%nat /\
  (forall id, 0 <= id < 4 -> ctrl_ok id u) /\
  match report_callback u with None => True | Some f => safe_client f end.

(** What an operation on an initialised controller relies on and preserves. *)
Definition live (id : Z) u (_ : trace) : Prop := host_ok u /\ laid id u.

Lemma slot_same {A} (d : A) l i x : (Z.to_nat i < length l)%nat -> at_slot d (<[Z.to_nat i := x]> l) i = x.
Proof. intros H. unfold at_slot. now rewrite list_lookup_insert_eq. Qed.
Lemma slot_other {A} (d : A) l i j x : 0 <= i -> 0 <= j -> i <> j -> at_slot d (<[Z.to_nat i := x]> l) j = at_slot d l j.
Proof. intros. unfold at_slot. now rewrite list_lookup_insert_ne by lia. Qed.

Lemma live_set_info id f u t : 0 <= id < 4 -> live id u t ->
  live id (u <| infos := <[Z.to_nat id := f (info_of id u)]> (infos u) |>) t.
Proof.
  intros Hid [(Hi & Hc & Hok & Hcb) Hl]. split; [|exact Hl].
  split; [cbn; now rewrite length_insert|]. split; [exact Hc|]. split; [|exact Hcb].
  intros j Hj. destruct (Hok j Hj) as (H1 & H2 & H3 & H4). split; [exact H1|]. split; [|now split].
  unfold info_of in *. cbn. destruct (decide (j = id)) as [->|Hne]; [intros _; exact Hl|].
  rewrite slot_other by lia. exact H2.
Qed.

Lemma live_set_ctrl id f u t : 0 <= id < 4 ->
  (forall c, pointers (f c) = pointers c) -> 0 <= c_packet (f (ctrl_of id u)) <= 64 ->
  live id u t -> live id (u <| ctrls := <[Z.to_nat id := f (ctrl_of id u)]> (ctrls u) |>) t.
Proof.
  intros Hid Hf Hp [(Hi & Hc & Hok & Hcb) Hl].
  set (u' := u <| ctrls := _ |>).
  assert (ctrl_of id u' = f (ctrl_of id u)) as E by (apply slot_same; lia).
  assert (forall j, 0 <= j < 4 -> j <> id -> ctrl_of j u' = ctrl_of j u) as Eo by (intros; apply slot_other; lia).
  assert (laid id u') as Hl' by (unfold laid; rewrite E, Hf; exact Hl).
  split; [|exact Hl']. split; [exact Hi|]. split; [cbn; now rewrite length_insert|]. split; [|exact Hcb].
  intros j Hj. destruct (decide (j = id)) as [->|Hne].
  - split; [auto|]. split; [auto|]. split; [auto|]. rewrite E. exact Hp.
  - destruct (Hok j Hj) as (H1 & H2 & H3 & H4). unfold ctrl_ok, laid. rewrite (Eo j Hj Hne).
    split; [exact H1|]. split; [exact H2|]. now split.
Qed.

Section ONE.
Context (id : Z) (Hid : 0 <= id < 4) (extra : Z -> Prop).
Abbreviation kept := (keeps (contained id extra) (live id)).

Lemma kept_set_info f : kept (set_info id f).
Proof. apply keeps_modify. intros u t Hu. now apply live_set_info. Qed.

Lemma kept_set_ctrl f : (forall c, pointers (f c) = pointers c) ->
  (forall c, 0 <= c_packet c <= 64 -> 0 <= c_packet (f c) <= 64) -> kept (set_ctrl id f).
Proof.
  intros H1 H2. apply keeps_modify. intros u t Hu. apply live_set_ctrl; auto.
  apply H2. destruct Hu as [(_ & _ & Hok & _) _]. apply (Hok id Hid).
Qed.

(** An update of the other variables. *)
Lemma kept_modify (f : usb -> usb) :
  (forall u, infos (f u) = infos u) -> (forall u, ctrls (f u) = ctrls u) ->
  (forall u, report_callback (f u) = report_callback u) -> kept (modify f).
Proof.
  intros H1 H2 H3. apply keeps_modify. intros u t [(Hi & Hc & Hok & Hcb) Hl].
  unfold live, host_ok, ctrl_ok, laid, info_of, ctrl_of in *. rewrite H1, H2, H3.
  exact (conj (conj Hi (conj Hc (conj Hok Hcb))) Hl).
Qed.

Lemma usb_kept_bus {A} (p : prog bus A) : bus_ok (contained id extra) p -> kept (io p).
Proof. intros H. apply keeps_bus; [exact H|auto]. Qed.

Lemma kept_call_report event data length : 0 <= length <= 64 -> kept (call_report id event data length).
Proof.
  intros Hlen. unfold call_report. apply keeps_gets_bind. intros u t Hu.
  destruct (report_callback u) as [f|] eqn:E; [|apply keeps_ret].
  intros u' t' Hu'. apply wp_bind.
  assert (safe_client f) as Hf.
  { destruct Hu as [(_ & _ & _ & Hcb) _]. now rewrite E in Hcb. }
  eapply wp_mono; [|eapply (wp_weaken only_reads); [|apply (Hf id event data length Hlen); exact I]].
  - intros [[[] k]|m| |] t'' H; cbn in *; try exact H. exact Hu'.
  - intros t'' e He. destruct e; cbn in *; auto; contradiction.
Qed.

(** Bus programs of the driver. *)
Lemma usb_bus_pci_read device reg : bus_ok (contained id extra) (UsbHost.pci_read device reg).
Proof. unfold UsbHost.pci_read. repeat bus_step. intros. now left. Qed.
Lemma bus_pci_write16 device reg v : bus_ok (contained id extra) (pci_write16 device reg v).
Proof. unfold pci_write16. repeat bus_step; intros; first [exact I|now left]. Qed.
Lemma bus_out16 p v : bus_ok (contained id extra) (out16 p v).
Proof. unfold out16. repeat bus_step. intros. exact I. Qed.
Lemma bus_store32 a v : in_block id a 4 \/ a = 0xFEC00000 \/ a = 0xFEC00010 ->
  bus_ok (contained id extra) (store32 a v).
Proof. intros H. unfold store32. repeat bus_step. intros. exact H. Qed.
Lemma bus_td_wait n td start limit : bus_ok (contained id extra) (td_wait n td start limit).
Proof. induction n as [|n IH]; cbn [td_wait]; repeat bus_step. Qed.

(** The fields of a live controller. *)
Lemma live_pointers u t : live id u t ->
  let c := ctrl_of id u in
  frames c = block id /\ control_qh c = block id + 0x1000 /\ interrupt_qh c = block id + 0x1010 /\
  control_td c = block id + 0x1020 /\ interrupt_td c = block id + 0x1030 /\
  control_data c = block id + 0x2000 /\ interrupt_data c = block id + 0x2100 /\
  report_queue c = block id + 0x3000 /\ 0 <= c_packet c <= 64.
Proof.
  intros [(_ & _ & Hok & _) Hl]. destruct (Hok id Hid) as (_ & _ & _ & Hp).
  unfold laid, pointers, layout in Hl. cbn in Hl |- *. injection Hl as -> -> -> -> -> -> -> ->. auto 10.
Qed.

(** One step of a proof that an operation is contained; addresses of live controllers are
    resolved to their offsets in the block. *)
Ltac usb_addr :=
  unfold in_block, td_link, td_status, td_token, td_buffer, uhci_qh_link, uhci_qh_element, block,
    UHCI_DMA_BASE, UHCI_DMA_STRIDE, UHCI_REPORT_COUNT, UHCI_REPORT_BYTES in *; lia.
Ltac kept_step :=
  lazymatch goal with
  | |- keeps _ _ (set_info _ _) => apply kept_set_info
  | |- keeps _ _ (set_ctrl _ _) => apply kept_set_ctrl; [reflexivity|cbn; auto]
  | |- keeps _ _ (call_report _ _ _ _) => apply kept_call_report
  | |- keeps _ _ (modify _) => apply kept_modify; reflexivity
  | |- keeps _ _ (cbind (gets (ctrl_of _)) _) =>
      apply keeps_gets_bind; let u := fresh "u" in let t := fresh "t" in let H := fresh "Hu" in
      intros u t H; pose proof (live_pointers u t H) as (? & ? & ? & ? & ? & ? & ? & ? & ?)
  | |- keeps _ _ (cbind (gets _) _) => apply keeps_gets_bind; intros ? ? _
  | |- keeps _ _ (cbind (io ?p) _) =>
      tryif read_head p then (apply keeps_access_bind; [intros ? ? ?; split; [exact I|auto]|intros ? ?])
      else (apply keeps_bind; [|intros ?])
  | |- keeps _ _ (io ?p) => apply usb_kept_bus
  | _ => keeps_step
  end.

Context (fuel : nat).

Lemma kept_irq_save : kept irq_save.
Proof. unfold irq_save. apply usb_kept_bus. repeat bus_step. Qed.
Lemma kept_irq_restore flags : kept (irq_restore flags).
Proof. unfold irq_restore. repeat kept_step. repeat bus_step. intros. exact I. Qed.
Lemma usb_kept_delay ms : kept (UsbHost.delay fuel ms).
Proof. unfold UsbHost.delay. repeat kept_step. apply bus_delay_loop. typeclasses eauto. Qed.
Lemma kept_wait_io port mask value : kept (wait_io fuel port mask value).
Proof.
  unfold wait_io. repeat kept_step. apply bus_poll; [typeclasses eauto|]. repeat bus_step.
Qed.

Lemma bus_memset d v n : (forall i, 0 <= i < n -> in_block id (d + i) 1 \/ extra (d + i)) ->
  bus_ok (contained id extra) (memset d v n).
Proof. intros H. unfold memset. repeat bus_step. intros. apply H. lia. Qed.
Lemma bus_memcpy d s n : (forall i, 0 <= i < n -> in_block id (d + i) 1 \/ extra (d + i)) ->
  bus_ok (contained id extra) (memcpy d s n).
Proof. intros H. unfold memcpy. repeat bus_step. intros. apply H. lia. Qed.

Ltac usb_bus :=
  lazymatch goal with
  | |- bus_ok _ (store32 _ _) => apply bus_store32; left; usb_addr
  | |- bus_ok _ (out16 _ _) => apply bus_out16
  | |- bus_ok _ (pci_write16 _ _ _) => apply bus_pci_write16
  | |- bus_ok _ (UsbHost.pci_read _ _) => apply usb_bus_pci_read
  | |- bus_ok _ (td_wait _ _ _ _) => apply bus_td_wait
  | |- bus_ok _ (bind (memset _ _ _) _) => apply bus_bind; [apply bus_memset; intros; left; usb_addr|intros; apply bus_ret]
  | |- bus_ok _ (bind (memcpy _ _ _) _) => apply bus_bind; [apply bus_memcpy; intros; left; usb_addr|intros; apply bus_ret]
  | |- bus_ok _ _ => bus_step
  end.
Ltac kept_known :=
  lazymatch goal with
  | |- keeps _ _ irq_save => apply kept_irq_save
  | |- keeps _ _ (irq_restore _) => apply kept_irq_restore
  | |- keeps _ _ (UsbHost.delay _ _) => apply usb_kept_delay
  | |- keeps _ _ (wait_io _ _ _ _) => apply kept_wait_io
  end.
Ltac usb_steps := repeat first [kept_known | kept_step | usb_bus].

Lemma kept_stop : kept (stop fuel id).
Proof. unfold stop. usb_steps. Qed.

Lemma kept_arm_interrupt : kept (arm_interrupt id).
Proof. unfold arm_interrupt. usb_steps. Qed.

Lemma kept_controller_failed : kept (controller_failed id).
Proof. unfold controller_failed. usb_steps. lia. Qed.

Lemma completed_bound status requested : 0 <= requested ->
  uhci_completed_length status requested <= requested.
Proof. intros H. unfold uhci_completed_length. cbv zeta. repeat case_if; bool_to_prop; lia. Qed.

Lemma report_slot p : 0 <= p .& (UHCI_REPORT_COUNT - 1) <= 15.
Proof. apply land_le. unfold UHCI_REPORT_COUNT. lia. Qed.

(** A fact every state of the precondition implies. *)
Lemma triple_fact {G A} ok (P : G -> trace -> Prop) (F : Prop) (m : code G A) Q :
  (forall g t, P g t -> F) -> (F -> triple ok P m Q) -> triple ok P m Q.
Proof. intros H1 H2 g t Hg. exact (H2 (H1 g t Hg) g t Hg). Qed.

Lemma kept_receive_report from_irq td :
  triple (contained id extra)
    (fun u t => live id u t /\ 0 <= uhci_completed_length td (c_packet (ctrl_of id u)))
    (receive_report id from_irq td) (fun _ => live id).
Proof.
  unfold receive_report. apply triple_gets_bind. intros c.
  apply triple_fact with (F := interrupt_data c = block id + 0x2100 /\
    0 <= uhci_completed_length td (c_packet c) <= 64).
  { intros u t [[Hu H0] <-]. pose proof (live_pointers u t Hu) as (_ & _ & _ & _ & _ & _ & ? & _ & Hp).
    pose proof (completed_bound td (c_packet (ctrl_of id u)) ltac:(lia)). lia. }
  intros [_ Hn]. eapply triple_pre; [|intros u t [[Hu _] _]; exact Hu]. to_keeps.
  rewrite (wrap_small 32) by (unfold in_u; lia). set (n := uhci_completed_length _ _) in *. clearbody n.
  apply keeps_bind; [usb_steps|]. intros _. apply keeps_bind; [usb_steps|]. intros _.
  apply keeps_bind; [now apply kept_call_report|]. intros _. kept_step.
  pose proof (report_slot (producer (ctrl_of id u))).
  apply keeps_bind; [|intros _; apply keeps_bind; [usb_steps|intros _; apply kept_arm_interrupt]].
  usb_steps.
Qed.

(** The state around the completion check: [c] is the controller as it was read, [bad]
    whether the stream stops. *)
Definition checked (c : uhci_controller) (bad : bool) (u : usb) (t : trace) : Prop :=
  live id u t /\ ctrl_of id u = c /\ (bad = true -> i_status (info_of id u) <> UHCI_READY).

Lemma checked_bus {A} c bad (p : prog bus A) : bus_ok (contained id extra) p ->
  keeps (contained id extra) (checked c bad) (io p).
Proof. intros H. apply keeps_bus; [exact H|auto]. Qed.

(** The end of a service call, from the completion check on. *)
Lemma kept_finish c (gone : bool) from_irq td : interrupt_qh c = block id + 0x1010 ->
  triple (contained id extra) (fun u t => live id u t /\ ctrl_of id u = c)
    ((if gone then set_info id (fun i => i <| i_status := UHCI_DISCONNECTED |>)
      else if uhci_completed_length td (c_packet c) <? 0
      then set_info id (fun i => i <| i_status := UHCI_TRANSFER_ERROR |>)
      else cret tt) ;*
     io (store32 (uhci_qh_element (interrupt_qh c)) 1) ;*
     let* status := gets (fun u => i_status (info_of id u)) in
     if negb (status =? UHCI_READY) then
       set_ctrl id (fun c => c <| c_active := 0 |>) ;*
       call_report id USB_REPORT_DISCONNECTED 0 0 ;*
       cret 1
     else
       receive_report id from_irq td ;*
       cret 1) (fun _ => live id).
Proof.
  intros Hqh. set (bad := gone || (uhci_completed_length td (c_packet c) <? 0)).
  eapply triple_bind with (R := fun _ => checked c bad).
  { assert (forall s, s <> UHCI_READY -> triple (contained id extra) (fun u t => live id u t /\ ctrl_of id u = c)
      (set_info id (fun i => i <| i_status := s |>)) (fun _ => checked c bad)) as Hset.
    { intros s Hs. apply triple_modify. intros u t [Hu Hc].
      split; [now apply live_set_info|]. split; [exact Hc|]. intros _.
      unfold info_of. cbn. rewrite slot_same; [exact Hs|]. destruct Hu as [(Hi & _) _]. lia. }
    apply triple_if; intros Eg; [refine (Hset _ _); discriminate|].
    apply triple_if; intros El; [refine (Hset _ _); discriminate|].
    apply triple_ret. intros u t [Hu Hc]. split; [exact Hu|]. split; [exact Hc|].
    unfold bad. rewrite Eg, El. discriminate. }
  intros _. eapply triple_bind with (R := fun _ => checked c bad).
  { apply checked_bus. apply bus_store32. left. rewrite Hqh. usb_addr. }
  intros _. apply triple_gets_bind. intros status. apply triple_if; intros Es; bool_to_prop.
  { eapply triple_pre; [|intros u t [[Hu _] _]; exact Hu]. to_keeps. usb_steps. lia. }
  eapply triple_bind with (R := fun _ => live id); [|intros _; apply triple_ret; auto].
  eapply triple_pre; [apply kept_receive_report|]. intros u t [[Hu [Hc Hb]] E]. split; [exact Hu|].
  rewrite Hc. destruct bad eqn:Eb; [exfalso; apply Hb; [reflexivity|congruence]|].
  unfold bad in Eb. bool_to_prop. lia.
Qed.

Lemma triple_cret_keep {A} (P : usb -> trace -> Prop) (a : A) : (forall u t, P u t -> live id u t) ->
  triple (contained id extra) P (cret a) (fun _ => live id).
Proof. intros H. apply triple_ret. auto. Qed.

(** Statics other than the controller's own record. *)
Definition same_ctrl (c : uhci_controller) (u : usb) (t : trace) : Prop := live id u t /\ ctrl_of id u = c.

Lemma same_info c f : keeps (contained id extra) (same_ctrl c) (set_info id f).
Proof. apply keeps_modify. intros u t [Hu Hc]. split; [now apply live_set_info|exact Hc]. Qed.
Lemma same_bus {A} c (p : prog bus A) : bus_ok (contained id extra) p ->
  keeps (contained id extra) (same_ctrl c) (io p).
Proof. intros H. apply keeps_bus; [exact H|auto]. Qed.

Lemma kept_service_laid from_irq : kept (service_controller id from_irq).
Proof.
  unfold service_controller. apply triple_gets_bind. intros c.
  apply triple_fact with (F := interrupt_qh c = block id + 0x1010).
  { intros u t [Hu <-]. apply (live_pointers u t Hu). }
  intros Hqh. change (fun (u : usb) t => live id u t /\ ctrl_of id u = c) with (same_ctrl c).
  apply triple_gets_bind. intros info. eapply triple_pre; [|intros u t [Hu _]; exact Hu].
  apply triple_if; intros _; [apply triple_cret_keep; now intros u t [Hu _]|].
  apply triple_gets_bind. intros sp. eapply triple_pre; [|intros u t [Hu _]; exact Hu].
  eapply triple_bind; [apply same_bus; repeat bus_step|]. intros status. cbv zeta.
  eapply triple_bind with (R := fun _ => same_ctrl c).
  { to_keeps. repeat first [apply same_info | apply same_bus; usb_bus | keeps_step]. }
  intros _. apply triple_if; intros _.
  { eapply triple_pre; [|intros u t [Hu _]; exact Hu]. to_keeps.
    apply keeps_bind; [apply kept_controller_failed|intros; apply keeps_ret]. }
  apply triple_if; intros _; [apply triple_cret_keep; now intros u t [Hu _]|].
  apply triple_gets_bind. intros reg. eapply triple_pre; [|intros u t [Hu _]; exact Hu].
  eapply triple_bind; [apply same_bus; repeat bus_step|]. intros port.
  eapply triple_bind with (R := fun _ => same_ctrl c); [apply same_info|]. intros _.
  eapply triple_bind; [apply same_bus; repeat bus_step|]. intros td.
  eapply triple_bind with (R := fun _ => same_ctrl c).
  { apply triple_modify. intros u t [[(Hi & Hc & Hok & Hcb) Hl] E]. exact (conj (conj (conj Hi (conj Hc (conj Hok Hcb))) Hl) E). }
  intros _. apply triple_if; intros _; [apply triple_cret_keep; now intros u t [Hu _]|].
  now apply kept_finish.
Qed.

Lemma kept_poll_port port : kept (poll_port id port).
Proof. unfold poll_port. usb_steps. Qed.

Lemma bus_frames c (f : Z -> Z) : frames c = block id ->
  bus_ok (contained id extra) (for_range 1024 0 (fun frame => store32 (frames c + 4 * frame) (f frame))).
Proof. intros E. apply bus_for_range. intros j Hj. apply bus_store32. left. rewrite E. usb_addr. Qed.

Lemma kept_restart_schedule : kept (restart_schedule fuel id).
Proof.
  unfold restart_schedule. usb_steps;
    lazymatch goal with
    | |- bus_ok _ (idle_frames ?c) => apply (bus_frames c (fun _ => control_qh c .| 2)); assumption
    | |- keeps _ _ (stop _ _) => apply kept_stop
    end.
Qed.

Lemma kept_poll_stream : kept (poll_stream fuel id).
Proof.
  unfold poll_stream. usb_steps;
    lazymatch goal with
    | |- keeps _ _ (stop _ _) => apply kept_stop
    | |- keeps _ _ (service_controller _ _) => apply kept_service_laid
    | |- keeps _ _ (restart_schedule _ _) => apply kept_restart_schedule
    end.
Qed.

Lemma kept_update_port reg clear set : kept (update_port reg clear set).
Proof. unfold update_port. usb_steps. Qed.

(** A control packet transfers at most what was asked. *)
Lemma triple_control_packet pid address low toggle length : 0 <= length ->
  triple (contained id extra) (live id) (control_packet fuel id pid address low toggle length)
    (fun r u t => live id u t /\ r <= length).
Proof.
  intros Hn. unfold control_packet. apply triple_gets_bind. intros c.
  apply triple_fact with (F := control_td c = block id + 0x1020 /\ control_qh c = block id + 0x1000).
  { intros u t [Hu <-]. destruct (live_pointers u t Hu) as (_ & ? & _ & ? & _). auto. }
  intros [Htd Hqh]. eapply triple_pre; [|intros u t [Hu _]; exact Hu].
  assert (forall A B (m : code usb A) (k : A -> code usb B) Q, kept m ->
    (forall a, triple (contained id extra) (live id) (k a) Q) ->
    triple (contained id extra) (live id) (cbind m k) Q) as Hseq by (intros; eapply triple_bind; eauto).
  do 3 (apply Hseq; [apply keeps_gets|intros ?]). cbv zeta.
  apply Hseq; [apply kept_stop|intros _].
  do 8 (apply Hseq; [usb_steps|intros ?]).
  apply Hseq; [apply keeps_gets|intros ticks]. apply Hseq; [usb_steps|intros _].
  apply Hseq; [apply kept_stop|intros _]. do 2 (apply Hseq; [usb_steps|intros ?]).
  eapply triple_bind with (R := fun r u t => live id u t /\ r <= length).
  { apply triple_if; intros _.
    - eapply triple_bind with (R := fun _ => live id); [apply kept_set_info|]. intros _.
      do 2 (apply Hseq; [usb_steps|intros ?]). apply triple_ret. intros u t Hu. split; [exact Hu|lia].
    - apply triple_ret. intros u t Hu. split; [exact Hu|now apply completed_bound]. }
  intros r. apply triple_pure. intros Hr.
  do 2 (apply Hseq; [usb_steps|intros _]). apply triple_ret. auto.
Qed.

Lemma kept_seq {A B} (m : code usb A) (k : A -> code usb B) Q : kept m ->
  (forall a, triple (contained id extra) (live id) (k a) Q) ->
  triple (contained id extra) (live id) (cbind m k) Q.
Proof. intros. eapply triple_bind; eauto. Qed.

(** *** A whole control transfer *)
Section TRANSFER.
Context (data length : Z) (Hlength : 0 <= length <= 4096) (Hdata : 0 <= data /\ data + length <= 2 ^ 32).
Context (Hextra : forall a, data <= a < data + length -> extra a).
Context (address low packet : Z) (Hpacket : 1 <= packet <= 64).

Definition stage_ok (r : option Z) (u : usb) (t : trace) : Prop :=
  live id u t /\ match r with Some n => 0 <= n <= length | None => True end.

Lemma triple_data_stage inward rounds : forall received toggle, 0 <= received <= length ->
  triple (contained id extra) (live id)
    (data_stage fuel rounds id address low packet inward data length received toggle) stage_ok.
Proof.
  induction rounds as [|rounds IH]; intros received toggle Hr; cbn [data_stage];
    (apply triple_if; intros Ed; bool_to_prop;
     [apply triple_ret; intros u t Hu; split; [exact Hu|lia]|]); [apply triple_diverge|].
  apply triple_gets_bind. intros c.
  apply triple_fact with (F := control_data c = block id + 0x2000).
  { intros u t [Hu <-]. now destruct (live_pointers u t Hu) as (_ & _ & _ & _ & _ & ? & _). }
  intros Hcd. eapply triple_pre; [|intros u t [Hu _]; exact Hu]. cbv zeta.
  rewrite sub32_small by lia. set (count := if packet <? length - received then _ else _).
  assert (1 <= count <= 64 /\ received + count <= length) as Hcount.
  { unfold count. case_if; bool_to_prop; lia. }
  clearbody count. apply kept_seq; [usb_steps|intros _].
  eapply triple_bind; [apply triple_control_packet; lia|]. intros actual. cbv beta.
  apply triple_pure. intros Ha. apply triple_if; intros En; bool_to_prop.
  { apply triple_ret. intros u t Hu. now split. }
  apply kept_seq.
  { apply keeps_if; intros _; [|usb_steps]. apply usb_kept_bus.
    apply bus_bind; [|intros; apply bus_ret]. apply bus_memcpy. intros i Hi. right. apply Hextra.
    rewrite add32_small; lia. }
  intros _. rewrite (add32_small received) by lia. apply triple_if; intros Es; bool_to_prop.
  { apply triple_ret. intros u t Hu. split; [exact Hu|]. destruct inward; [lia|exact I]. }
  apply IH. lia.
Qed.

Lemma triple_control_stages setup : Datatypes.length setup = 8%nat ->
  triple (contained id extra) (live id)
    (control_stages fuel id address low packet setup data length)
    (fun r u t => live id u t /\ r <= length).
Proof.
  intros Hs. unfold control_stages. apply triple_gets_bind. intros c.
  apply triple_fact with (F := control_data c = block id + 0x2000).
  { intros u t [Hu <-]. now destruct (live_pointers u t Hu) as (_ & _ & _ & _ & _ & ? & _). }
  intros Hcd. eapply triple_pre; [|intros u t [Hu _]; exact Hu]. cbv zeta.
  apply kept_seq.
  { apply usb_kept_bus, bus_copy_local. intros t i v Hi. left. apply lookup_lt_Some in Hi. rewrite Hs in Hi.
    rewrite Hcd. usb_addr. }
  intros _. eapply triple_bind; [apply triple_control_packet; lia|]. intros r. cbv beta. apply triple_pure. intros _.
  apply triple_if; intros _; [apply triple_ret; intros u t Hu; split; [exact Hu|lia]|].
  eapply triple_bind; [apply triple_data_stage; lia|]. intros received. unfold stage_ok.
  apply triple_pure. intros Hrec. destruct received as [n|].
  - eapply triple_bind; [apply triple_control_packet; lia|]. intros r2. cbv beta. apply triple_pure. intros _.
    apply triple_ret. intros u t Hu. split; [exact Hu|]. case_if; lia.
  - apply triple_ret. intros u t Hu. split; [exact Hu|lia].
Qed.
End TRANSFER.
End ONE.

(** ** The operations, from any well-formed state *)
Definition hosted u (_ : trace) : Prop := host_ok u.

Lemma live_of id u t : 0 <= id < 4 -> host_ok u ->
  frames (ctrl_of id u) <> 0 \/ i_status (info_of id u) = UHCI_READY \/ c_active (ctrl_of id u) <> 0 -> live id u t.
Proof.
  intros Hid Hu H. split; [exact Hu|]. destruct Hu as (_ & _ & Hok & _).
  destruct (Hok id Hid) as (H1 & H2 & H3 & _). destruct H as [H|[H|H]]; auto.
Qed.

(** An operation that needs a laid-out controller, and does nothing otherwise. *)
Lemma hosted_by_live {A} ok id (m : code usb A) (Q : A -> usb -> trace -> Prop) :
  triple ok (live id) m (fun a u t => live id u t /\ Q a u t) ->
  (forall u t, host_ok u -> ~ laid id u -> wp (any_hw ok) (m u) (post (fun a u t => host_ok u /\ Q a u t)) t) ->
  triple ok hosted m (fun a u t => host_ok u /\ Q a u t).
Proof.
  intros H1 H2 u t Hu. destruct (decide (laid id u)) as [Hl|Hl]; [|now apply H2].
  eapply wp_mono; [|exact (H1 u t (conj Hu Hl))].
  intros [[a u']|m'| |] t'; cbn; auto. intros [[Hu' _] HQ]. auto.
Qed.

Lemma keeps_true {A} ok id (m : code usb A) : keeps ok (live id) m ->
  triple ok (live id) m (fun a u t => live id u t /\ True).
Proof. intros H. eapply triple_post; [exact H|]. auto. Qed.

Lemma not_laid id u : 0 <= id < 4 -> host_ok u -> ~ laid id u ->
  frames (ctrl_of id u) = 0 /\ (i_status (info_of id u) =? UHCI_READY) = false /\ c_active (ctrl_of id u) = 0.
Proof.
  intros Hid (_ & _ & Hok & _) Hl. destruct (Hok id Hid) as (H1 & H2 & H3 & _). split_and!.
  - destruct (decide (frames (ctrl_of id u) = 0)); tauto.
  - apply Z.eqb_neq. tauto.
  - destruct (decide (c_active (ctrl_of id u) = 0)); tauto.
Qed.

Lemma hosted_service id from_irq extra : 0 <= id < 4 ->
  triple (contained id extra) hosted (service_controller id from_irq) (fun _ u _ => host_ok u /\ True).
Proof.
  intros Hid. apply (hosted_by_live _ id); [now apply keeps_true, kept_service_laid|].
  intros u t Hu Hl. destruct (not_laid id u Hid Hu Hl) as (E & _).
  unfold service_controller. do 2 apply wp_gets. rewrite E. change (0 =? 0) with true. cbn [orb]. now split.
Qed.

Lemma hosted_poll fuel id active extra : 0 <= id < 4 ->
  triple (contained id extra) hosted (poll_controller fuel id active) (fun _ u _ => host_ok u /\ True).
Proof.
  intros Hid. apply (hosted_by_live _ id).
  - apply keeps_true. unfold poll_controller. repeat first [keeps_step | apply kept_poll_stream; exact Hid | apply kept_poll_port; exact Hid].
  - intros u t Hu Hl. destruct (not_laid id u Hid Hu Hl) as (E & _).
    unfold poll_controller. do 2 apply wp_gets. rewrite E. change (0 =? 0) with true. cbn [orb]. now split.
Qed.

Lemma hosted_control fuel id address low packet setup data : 0 <= id < 4 -> length setup = 8%nat -> Forall is_u8 setup ->
  let n := at_slot 0 setup 6 .| (at_slot 0 setup 7 <<% 8) in
  0 <= data -> data + n <= 2 ^ 32 ->
  triple (contained id (fun a => data <= a < data + n)) hosted
    (usb_uhci_control fuel id address low packet setup data) (fun r u _ => host_ok u /\ r <= n).
Proof.
  intros Hid Hs Hb n H0 Hd.
  assert (0 <= n) as Hn.
  { apply Z.lor_nonneg. split; [|apply shl32_range]. unfold at_slot.
    destruct (setup !! Z.to_nat 6) eqn:E; [|cbn; lia]. exact (proj1 (Forall_lookup_1 _ _ _ _ Hb E)). }
  set (extra := fun a => _). apply (hosted_by_live _ id).
  - unfold usb_uhci_control. fold n. apply kept_seq; [apply keeps_gets|]. intros info. cbv zeta.
    assert (forall r, r <= n -> triple (contained id extra) (live id) (cret r) (fun a u t => live id u t /\ a <= n)) as Hret.
    { intros r Hr. apply triple_ret. auto. }
    apply triple_if; intros Eg; [apply Hret; lia|]. apply triple_if; intros El; [apply Hret; lia|]. bool_to_prop.
    apply kept_seq; [apply kept_irq_save|]. intros flags. apply kept_seq; [apply keeps_gets|]. intros c.
    apply triple_if; intros _; [apply kept_seq; [apply kept_irq_restore|intros; apply Hret; lia]|].
    apply kept_seq; [apply kept_set_ctrl; [exact Hid|reflexivity|cbn; auto]|]. intros _.
    do 2 (apply kept_seq; [apply keeps_gets|intros ?]).
    apply kept_seq; [apply usb_kept_bus, bus_out16|]. intros _.
    eapply triple_bind; [apply triple_control_stages|].
    + exact Hid.
    + unfold USB_CONFIGURATION_MAX_BYTES in *. lia.
    + lia.
    + intros x Hx. exact Hx.
    + assert (packet = 8 \/ packet = 16 \/ packet = 32 \/ packet = 64); [|lia].
      repeat match goal with H : _ && _ = false |- _ => apply andb_false_iff in H end.
      destruct (Z.eqb_spec packet 8), (Z.eqb_spec packet 16), (Z.eqb_spec packet 32), (Z.eqb_spec packet 64); auto.
      exfalso. intuition discriminate.
    + exact Hs.
    + intros r. cbv beta. apply triple_pure. intros Hr.
      apply kept_seq; [apply kept_set_ctrl; [exact Hid|reflexivity|cbn; auto]|]. intros _.
      apply kept_seq; [apply keeps_gets|]. intros status.
      apply kept_seq.
      { apply keeps_if; intros _; [|apply keeps_ret].
        apply keeps_bind; [apply usb_kept_bus, bus_out16|intros _; apply usb_kept_bus, bus_out16]. }
      intros _.
      apply kept_seq; [apply kept_irq_restore|]. intros _. now apply Hret.
  - intros u t Hu Hl. destruct (not_laid id u Hid Hu Hl) as (_ & E & _).
    unfold usb_uhci_control. apply wp_gets. rewrite E. cbn [negb]. rewrite !orb_true_r. cbn [orb].
    cbn. split; [exact Hu|lia].
Qed.

Lemma hosted_start fuel id port address endpoint low packet ms extra : 0 <= id < 4 -> 0 <= packet ->
  triple (contained id extra) hosted (usb_uhci_start_interrupt fuel id port address endpoint low packet ms)
    (fun _ u _ => host_ok u /\ True).
Proof.
  intros Hid Hp0. apply (hosted_by_live _ id).
  - apply keeps_true. unfold usb_uhci_start_interrupt. cbv zeta.
    apply keeps_bind; [apply keeps_gets|]. intros info. apply keeps_if; intros Eg; [apply keeps_ret|]. bool_to_prop.
    apply keeps_bind; [apply kept_irq_save|]. intros flags. apply keeps_bind; [apply keeps_gets|]. intros c.
    assert (keeps (contained id extra) (live id) (irq_restore flags ;* cret 0)) as Hout
      by (apply keeps_bind; [apply kept_irq_restore|intros; apply keeps_ret]).
    apply keeps_if; intros _; [exact Hout|]. apply keeps_bind; [apply keeps_gets|]. intros reg.
    apply keeps_bind; [apply usb_kept_bus; repeat bus_step|]. intros pv. apply keeps_if; intros _; [exact Hout|].
    apply keeps_bind; [now apply kept_stop|]. intros _. apply keeps_bind; [apply usb_kept_bus, bus_out16|]. intros _.
    apply keeps_bind; [apply kept_set_ctrl; [exact Hid|reflexivity|cbn; lia]|]. intros _.
    apply keeps_bind; [apply kept_call_report; lia|]. intros _.
    apply keeps_gets_bind. intros u t Hu. pose proof (live_pointers id Hid u t Hu) as (Hfr & _).
    apply keeps_bind; [apply usb_kept_bus; unfold stream_frames; exact (bus_frames id extra (ctrl_of id u) _ Hfr)|].
    intros _. apply keeps_bind; [now apply kept_arm_interrupt|]. intros _.
    do 3 (apply keeps_bind; [apply keeps_gets|intros ?]; apply keeps_bind; [apply usb_kept_bus, bus_out16|intros _]).
    apply keeps_bind; [apply kept_irq_restore|intros; apply keeps_ret].
  - intros u t Hu Hl. destruct (not_laid id u Hid Hu Hl) as (_ & E & _).
    unfold usb_uhci_start_interrupt. cbv zeta. apply wp_gets. rewrite E. cbn [negb]. rewrite !orb_true_r.
    cbn. now split.
Qed.

(** Updates that keep what the invariant looks at need no laid-out controller. *)
Lemma hosted_set_info ok id f : 0 <= id < 4 -> (forall i, i_status (f i) = i_status i) ->
  keeps ok hosted (set_info id f).
Proof.
  intros Hid Hf. apply keeps_modify. intros u t (Hi & Hc & Hok & Hcb).
  split; [cbn; now rewrite length_insert|]. split; [exact Hc|]. split; [|exact Hcb].
  intros j Hj. destruct (Hok j Hj) as (H1 & H2 & H3 & H4). split; [exact H1|]. split; [|now split].
  unfold info_of in *. cbn. destruct (decide (j = id)) as [->|Hne].
  - rewrite slot_same by lia. rewrite Hf. exact H2.
  - rewrite slot_other by lia. exact H2.
Qed.

Lemma hosted_set_ctrl ok id f : 0 <= id < 4 ->
  (forall c, pointers (f c) = pointers c /\ c_active (f c) = c_active c /\ c_packet (f c) = c_packet c) ->
  keeps ok hosted (set_ctrl id f).
Proof.
  intros Hid Hf. apply keeps_modify. intros u t (Hi & Hc & Hok & Hcb).
  split; [exact Hi|]. split; [cbn; now rewrite length_insert|]. split; [|exact Hcb].
  intros j Hj. destruct (Hok j Hj) as (H1 & H2 & H3 & H4). unfold ctrl_ok, laid, ctrl_of in *. cbn.
  destruct (decide (j = id)) as [->|Hne].
  - rewrite slot_same by lia. destruct (Hf (at_slot no_controller (ctrls u) id)) as (E1 & E2 & E3).
    assert (frames (f (at_slot no_controller (ctrls u) id)) = frames (at_slot no_controller (ctrls u) id)) as E0
      by now injection E1.
    rewrite E0, E1, E2, E3. exact (conj H1 (conj H2 (conj H3 H4))).
  - rewrite slot_other by lia. exact (conj H1 (conj H2 (conj H3 H4))).
Qed.

Lemma hosted_bus {A} ok (p : prog bus A) : bus_ok ok p -> keeps ok hosted (io p).
Proof. intros H. apply keeps_bus; [exact H|auto]. Qed.

Ltac hosted_step :=
  lazymatch goal with
  | |- keeps _ _ (set_info _ _) => apply hosted_set_info; [assumption|reflexivity]
  | |- keeps _ _ (set_ctrl _ _) => apply hosted_set_ctrl; [assumption|intros ?; repeat split]
  | |- keeps _ _ (cbind (gets _) _) => apply keeps_gets_bind; intros ? ? _
  | |- keeps _ _ (cbind (io ?p) _) => apply keeps_bind; [|intros ?]
  | |- keeps _ _ (io ?p) => apply hosted_bus
  | |- keeps _ _ irq_save => unfold irq_save
  | |- keeps _ _ (irq_restore _) => unfold irq_restore
  | |- keeps _ _ (UsbHost.delay _ _) => unfold UsbHost.delay
  | |- keeps _ _ (update_port _ _ _) => unfold update_port
  | |- keeps _ _ _ => keeps_step
  | |- bus_ok _ (out16 _ _) => apply bus_out16
  | |- bus_ok _ (delay_loop _ _ _) => apply bus_delay_loop; typeclasses eauto
  | |- bus_ok _ _ => bus_step
  | |- forall _ : trace, contained _ _ _ _ => intros; exact I
  end.

Lemma hosted_reset fuel id port extra : 0 <= id < 4 ->
  keeps (contained id extra) hosted (usb_uhci_reset_port fuel id port).
Proof. intros Hid. unfold usb_uhci_reset_port. repeat hosted_step. Qed.

Lemma hosted_disable id port extra : 0 <= id < 4 ->
  keeps (contained id extra) hosted (usb_uhci_disable_port id port).
Proof. intros Hid. unfold usb_uhci_disable_port. repeat hosted_step. Qed.

Lemma hosted_read_report id report : 0 <= id < 4 ->
  keeps (contained id (fun a => report <= a < report + 68)) hosted (usb_uhci_read_report id report).
Proof.
  intros Hid. unfold usb_uhci_read_report.
  repeat lazymatch goal with
  | |- bus_ok _ (bind (memcpy _ _ _) _) => apply bus_bind; [apply bus_memcpy; intros; right; lia|intros; apply bus_ret]
  | _ => hosted_step
  end.
Qed.

(** Every controller's block: what the shared interrupt handler may write. *)
Definition any_block (t : trace) (e : bus) : Prop := exists id, 0 <= id < 4 /\ contained id (fun _ => False) t e.
#[local] Instance any_block_reads : AllowsReads any_block.
Proof. intros t e He. exists 0. split; [lia|]. now apply contained_reads. Qed.

Lemma hosted_interrupt frame : keeps any_block hosted (usb_host_interrupt frame).
Proof.
  unfold usb_host_interrupt. destruct frame as [vector|]; [|apply keeps_panic].
  apply keeps_if; intros _; [apply keeps_panic|]. cbv zeta.
  assert (forall id claimed gsi, 0 <= id < 4 -> keeps any_block hosted
    (let* info := gets (info_of id) in
     if i_gsi info =? gsi then let* r := service_controller id 1 in cret (claimed .| r) else cret claimed)) as Hserve.
  { intros id claimed gsi Hid. apply keeps_bind; [apply keeps_gets|]. intros info. apply keeps_if; intros _; [|apply keeps_ret].
    apply keeps_bind; [|intros; apply keeps_ret].
    eapply triple_weaken; [|eapply triple_post; [apply (hosted_service id 1 (fun _ => False) Hid)|]].
    - intros t e He. now exists id.
    - intros r u t [Hu _]. exact Hu. }
  do 4 (apply keeps_bind; [apply Hserve; lia|intros ?]).
  assert (forall f : usb -> usb, (forall u, infos (f u) = infos u) -> (forall u, ctrls (f u) = ctrls u) ->
    (forall u, report_callback (f u) = report_callback u) -> keeps any_block hosted (modify f)) as Hmod.
  { intros f H1 H2 H3. apply keeps_modify. intros u t (Hi & Hc & Hok & Hcb).
    unfold hosted, host_ok, ctrl_ok, laid, info_of, ctrl_of in *. rewrite H1, H2, H3.
    exact (conj Hi (conj Hc (conj Hok Hcb))). }
  assert (forall p v, p = 0xFEC00000 \/ p = 0xFEC00010 -> bus_ok any_block (store32 p v)) as Hst.
  { intros p v Hp. unfold store32. apply bus_write. intros t. exists 0. split; [lia|]. right. exact Hp. }
  apply keeps_if; intros _; [apply Hmod; reflexivity|].
  apply keeps_bind; [apply Hmod; reflexivity|]. intros _. apply keeps_bind; [apply keeps_gets|]. intros count.
  apply keeps_if; intros _; [apply keeps_ret|].
  apply keeps_bind; [apply hosted_bus; unfold UsbHost.ioapic_read; apply bus_bind; [apply Hst; auto|intros; repeat bus_step]|].
  intros entry. apply keeps_bind; [|intros; apply Hmod; reflexivity]. apply hosted_bus. unfold UsbHost.ioapic_write.
  do 2 (apply bus_bind; [apply Hst; auto|intros _]). repeat bus_step.
Qed.

End CONTAINED.

(** A host with no controller is well formed, and the theorem speaks of real runs. *)
Definition no_host {K} (k : K) : usb :=
  Build_usb 0 0 0 0 (replicate 4 no_info) 0 0 (replicate 4 0) (replicate 4 [0; 0]) 0 (replicate 4 no_controller)
    0 0 0 (replicate 8 0) None k bss.

Lemma no_host_ok {K} (k : K) : host_ok (no_host k).
Proof.
  split; [reflexivity|]. split; [reflexivity|]. split; [|exact I]. intros id Hid.
  assert (id = 0 \/ id = 1 \/ id = 2 \/ id = 3) as [->|[->|[->| ->]]] by lia;
    (split; [|split; [|split]]); cbv; intros; congruence || (split; congruence).
Qed.

