(* ===== verification/UsbSchedule.v ===== *)
(** * UHCI encodings, the frame schedule and interrupt storms *)
From stdpp Require Import list gmap strings.
From S2P Require Import Prelude Machine Transport Ring UsbHost.

(** ** The polling interval *)

(** The interval chosen for an advertised period of 1 to 255 ms is the largest power
    of two not above it, found within the eight rounds of the loop; every other period is
    refused with zero. *)
Lemma uhci_interval_spec ms :
  0 <= ms ->
  (1 <= ms <= 255 -> exists k, 0 <= k <= 7 /\ uhci_interval ms = 2 ^ k /\ 2 ^ k <= ms < 2 ^ (k + 1)) /\
  (ms = 0 \/ 255 < ms -> uhci_interval ms = 0).
Proof.
  intros H0. split.
  - intros Hms. exists (Z.log2 ms).
    assert (0 <= Z.log2 ms <= 7) as Hk.
    { split; [apply Z.log2_nonneg|]. enough (Z.log2 ms < 8) by lia. apply Z.log2_lt_pow2; lia. }
    split; [exact Hk|]. split.
    + apply Z.eqb_eq. assert (is_u8 ms) as Hb by (unfold in_u; lia).
      pose proof (u8_forall (fun ms => (ms =? 0) || (uhci_interval ms =? 2 ^ Z.log2 ms)) ms
        ltac:(vm_compute; reflexivity) Hb) as H.
      cbv beta in H. destruct (Z.eqb_spec ms 0); [lia|exact H].
    + apply Z.log2_spec. lia.
  - intros Hms. unfold uhci_interval. destruct (Z.eqb_spec ms 0); [reflexivity|].
    destruct (Z.ltb_spec 255 ms); [reflexivity|lia].
Qed.

Lemma uhci_interval_spec_example :
  uhci_interval 10 = 8 /\ exists k, 0 <= k <= 7 /\ uhci_interval 10 = 2 ^ k /\ 2 ^ k <= 10 < 2 ^ (k + 1).
Proof.
  split; [vm_compute; reflexivity|]. apply (proj1 (uhci_interval_spec 10 ltac:(lia))). lia.
Defined.

(** ** The frame list *)

(** Memory of dwords. *)
Definition word_ram (m : gmap Z Z) (e : bus) : option (Z * gmap Z Z) :=
  match e with
  | Load W32 a => v ← m !! a; Some (v, m)
  | Store W32 a v => Some (0, <[a := v]> m)
  | _ => None
  end.

Lemma exec_store_words base (f : Z -> Z) n : forall i m,
  exists m', exec word_ram (for_range n i (fun j => store32 (base + 4 * j) (f j))) m = (Done tt, m') /\
    (forall j, i <= j < i + Z.of_nat n -> m' !! (base + 4 * j) = Some (f j)) /\
    (forall a, (forall j, i <= j < i + Z.of_nat n -> a <> base + 4 * j) -> m' !! a = m !! a).
Proof.
  induction n as [|n IH]; intros i m; cbn [for_range].
  - exists m. split; [reflexivity|]. split; [lia|auto].
  - rewrite exec_bind. cbn [exec store32 bind access word_ram then_].
    destruct (IH (i + 1) (<[base + 4 * i := f i]> m)) as (m' & E & H1 & H2). exists m'. split; [exact E|]. split.
    + intros j Hj. destruct (decide (j = i)) as [->|]; [|apply H1; lia].
      rewrite H2 by lia. apply lookup_insert_eq.
    + intros a Ha. rewrite H2 by (intros j Hj; apply Ha; lia). apply lookup_insert_ne.
      intros <-. apply (Ha i); lia.
Qed.

(** C35: once the stream's frame list is written the controller visits the report queue in
    exactly every [interval]-th frame, for ever: the interval divides the 1024 frames, so
    the list's wrap-around keeps the period, and the device is polled at least as often as
    it asked. All other frames go to the control queue. *)
Theorem stream_schedule_period c ms m :
  1 <= ms <= 255 ->
  exists m', exec word_ram (stream_frames c (uhci_interval ms)) m = (Done tt, m') /\ 1 <= uhci_interval ms <= ms /\
    forall n, 0 <= n ->
      m' !! (frames c + 4 * (n mod 1024)) =
      Some ((if decide (n mod uhci_interval ms = 0) then interrupt_qh c else control_qh c) .| 2).
Proof.
  intros Hms.
  assert (exists k, 0 <= k <= 7 /\ uhci_interval ms = 2 ^ k) as (k & Hk & Ei).
  { pose proof (u8_forall (fun ms => (ms =? 0) || existsb (fun k => uhci_interval ms =? 2 ^ k) (seqZ 0 8)) ms
      ltac:(vm_compute; reflexivity) ltac:(unfold in_u; lia)) as H. cbv beta in H.
    destruct (Z.eqb_spec ms 0); [lia|]. cbn [orb] in H. apply existsb_exists in H as (k & Hin & Ek).
    exists k. apply list_elem_of_In, elem_of_seqZ in Hin. bool_to_prop. lia. }
  pose proof (u8_forall (fun ms => (ms =? 0) || ((1 <=? uhci_interval ms) && (uhci_interval ms <=? ms))) ms
    ltac:(vm_compute; reflexivity) ltac:(unfold in_u; lia)) as Hb. cbv beta in Hb.
  destruct (Z.eqb_spec ms 0); [lia|]. cbn [orb] in Hb. bool_to_prop.
  destruct (exec_store_words (frames c)
    (fun frame => (if negb (frame mod uhci_interval ms =? 0) then control_qh c else interrupt_qh c) .| 2) 1024 0 m)
    as (m' & E & H1 & _).
  exists m'. split; [exact E|]. split; [lia|]. intros n0 Hn.
  rewrite H1 by (pose proof (Z.mod_pos_bound n0 1024); lia). do 2 f_equal.
  assert ((n0 mod 1024) mod uhci_interval ms = n0 mod uhci_interval ms) as ->.
  { rewrite Ei. apply Z.mod_mod_divide. exists (2 ^ (10 - k)). rewrite <- Z.pow_add_r by lia.
    now replace (10 - k + k) with 10 by lia. }
  destruct (Z.eqb_spec (n0 mod uhci_interval ms) 0), (decide (n0 mod uhci_interval ms = 0)); cbn [negb]; congruence.
Qed.

Lemma stream_schedule_period_witness :
  exists m', exec word_ram (stream_frames no_controller (uhci_interval 10)) ∅ = (Done tt, m') /\
    m' !! 32 = Some (0 .| 2).
Proof.
  destruct (stream_schedule_period no_controller 10 ∅ ltac:(lia)) as (m' & E & _ & H).
  exists m'. split; [exact E|]. exact (H 8 ltac:(lia)).
Defined.

(** ** The transfer token *)
Lemma uhci_token_sum pid address endpoint toggle length :
  0 <= pid < 256 -> pid = 0x69 \/ pid = 0xE1 \/ pid = 0x2D ->
  0 <= address <= 127 -> 0 <= endpoint <= 15 -> 0 <= toggle <= 1 -> 0 <= length <= 64 ->
  uhci_token pid address endpoint toggle length =
  (length - 1) mod 2048 * 2 ^ 21 + toggle * 2 ^ 19 + endpoint * 2 ^ 15 + address * 2 ^ 8 + pid.
Proof.
  intros Hp Hpid Ha He Ht Hl. unfold uhci_token.
  assert ((negb (pid =? 0x69) && negb (pid =? 0xE1) && negb (pid =? 0x2D) || (127 <? address) || (15 <? endpoint) ||
    (1 <? toggle) || (64 <? length)) = false) as ->.
  { destruct (Z.ltb_spec 127 address), (Z.ltb_spec 15 endpoint), (Z.ltb_spec 1 toggle), (Z.ltb_spec 64 length); lia. }
  assert ((length -% 1) .& 0x7FF = (length - 1) mod 2048) as ->.
  { rewrite (land_ones_mod _ 11) by lia. unfold sub32, u32, wrap. apply Z.mod_mod_divide. now exists (2 ^ 21). }
  pose proof (Z.mod_pos_bound (length - 1) 2048 ltac:(lia)) as Hm. set (n := (length - 1) mod 2048) in *. clearbody n.
  rewrite !shl32_small by lia.
  rewrite (Z.lor_comm pid), lor_add by (unfold in_u; lia).
  rewrite (Z.lor_comm (address * 2 ^ 8 + pid)), lor_add by (unfold in_u; lia).
  rewrite (Z.lor_comm (endpoint * 2 ^ 15 + (address * 2 ^ 8 + pid))), lor_add by (unfold in_u; lia).
  rewrite (Z.lor_comm (toggle * 2 ^ 19 + (endpoint * 2 ^ 15 + (address * 2 ^ 8 + pid)))), lor_add by (unfold in_u; lia).
  lia.
Qed.

(** A token holds its five fields without interference: decoding the DWORD gives
    back the packet id, address, endpoint and toggle, and a length that the hardware's
    minus-one convention maps back to the requested one, the empty packet included. The
    completion status of a transfer of [n] bytes, encoded the same way, is read back as
    [n] when at most the requested length and as an error when longer. *)
Lemma uhci_token_roundtrip pid address endpoint toggle length n :
  pid = 0x69 \/ pid = 0xE1 \/ pid = 0x2D ->
  0 <= address <= 127 -> 0 <= endpoint <= 15 -> 0 <= toggle <= 1 -> 0 <= length <= 64 -> 0 <= n < 2047 ->
  let t := uhci_token pid address endpoint toggle length in
  (t .& 0xFF = pid /\ (t >>> 8) .& 0x7F = address /\ (t >>> 15) .& 15 = endpoint /\ (t >>> 19) .& 1 = toggle /\
   ((t >>> 21) + 1) mod 2048 = length) /\
  uhci_completed_length ((n - 1) mod 2048) length = (if decide (n <= length) then n else -1).
Proof.
  intros Hpid Ha He Ht Hl Hn t. unfold t. rewrite uhci_token_sum by (assumption || (destruct Hpid as [->|[->| ->]]; lia)).
  assert (0 <= pid < 256) as Hp by (destruct Hpid as [->|[->| ->]]; lia). clear t Hpid.
  pose proof (Z.mod_pos_bound (length - 1) 2048 ltac:(lia)) as Hm. split.
  - rewrite (land_ones_mod _ 8), (land_ones_mod _ 7), (land_ones_mod _ 4), (land_ones_mod _ 1) by lia.
    rewrite !Z.shiftr_div_pow2 by lia.
    change (2 ^ 8) with 256; change (2 ^ 7) with 128; change (2 ^ 4) with 16; change (2 ^ 1) with 2;
    change (2 ^ 15) with 32768; change (2 ^ 19) with 524288; change (2 ^ 21) with 2097152.
    split_and!; Z.to_euclidean_division_equations; lia.
  - pose proof (Z.mod_pos_bound (n - 1) 2048 ltac:(lia)) as Hs. unfold uhci_completed_length.
    assert (forall m, Z.land ((n - 1) mod 2048) (m * 2 ^ 11) = 0) as Hlow.
    { intros m. apply Z.bits_inj'. intros i Hi. rewrite Z.land_spec, Z.testbit_0_l.
      destruct (Z.lt_ge_cases i 11); [rewrite Z.mul_pow2_bits_low by lia; apply andb_false_r|].
      rewrite (testbit_high 11) by (unfold in_u; lia). reflexivity. }
    change UHCI_ACTIVE with (4096 * 2 ^ 11). change UHCI_ERRORS with (3776 * 2 ^ 11). rewrite !Hlow.
    change (negb (0 =? 0)) with false. cbv iota zeta.
    rewrite !(land_ones_mod _ 11) by lia. change (2 ^ 11) with 2048. rewrite Zmod_mod, add32_small by lia.
    assert (((n - 1) mod 2048 + 1) mod 2048 = n) as -> by (rewrite Zplus_mod_idemp_l, Z.sub_add; apply Z.mod_small; lia).
    destruct (Z.leb_spec n length), (decide (n <= length)); (reflexivity || lia).
Qed.

Lemma uhci_token_roundtrip_example :
  let t := uhci_token 0x69 5 1 1 0 in
  t = 0xFFE88569 /\ (t >>> 8) .& 0x7F = 5 /\ uhci_completed_length 0x7FF 64 = 0.
Proof.
  cbv zeta. split; [vm_compute; reflexivity|].
  pose proof (uhci_token_roundtrip 0x69 5 1 1 0 0 (or_introl eq_refl) ltac:(lia) ltac:(lia) ltac:(lia) ltac:(lia) ltac:(lia))
    as [(_ & H & _) _]. split; [exact H|vm_compute; reflexivity].
Defined.

(** ** Interrupt storms *)

(** The I/O APIC: a selected index and the redirection entries. *)
Record ioapic := { selected : Z; entries : gmap Z Z }.
Definition ioapic_step (s : ioapic) (e : bus) : option (Z * ioapic) :=
  match e with
  | Load W32 a => if a =? 0xFEC00010 then Some (default 0 (entries s !! selected s), s) else None
  | Store W32 a v =>
      if a =? 0xFEC00000 then Some (0, Build_ioapic v (entries s))
      else if a =? 0xFEC00010 then Some (0, Build_ioapic (selected s) (<[selected s := v]> (entries s)))
      else None
  | _ => None
  end.

Section STORM.
Context {K : Type}.
Abbreviation usb := (@usb K).

(** [n] interrupts in a row on one vector. *)
Fixpoint interrupts (n : nat) (vector : Z) : code usb unit :=
  match n with
  | O => cret tt
  | S n' => usb_host_interrupt (Some vector) ;* interrupts n' vector
  end.

Definition streak (vector : Z) (u : usb) : Z := at_slot 0 (unclaimed_streak u) (vector - 0x40).
Definition nobody (vector : Z) (u : usb) : Prop :=
  forall id, 0 <= id < 4 -> i_gsi (info_of id u) <> 16 + vector - 0x40.

(** An interrupt nobody claims, before the last. *)
Definition count_unclaimed (vector : Z) (u : usb) : usb :=
  u <| unclaimed_interrupts := unclaimed_interrupts u +% 1 |>
    <| unclaimed_streak := <[Z.to_nat (vector - 0x40) := streak vector u +% 1]> (unclaimed_streak u) |>.

Lemma unclaimed_step vector u : 0x40 <= vector <= 0x47 -> nobody vector u ->
  usb_host_interrupt (Some vector) u =
  (let* count := gets (streak vector) in
   if count <? 32 then cret tt else
   let reg := 0x10 + (16 + vector - 0x40) * 2 in
   let* entry := io (UsbHost.ioapic_read reg) in
   io (UsbHost.ioapic_write reg (entry .| IOAPIC_MASK)) ;*
   modify (fun u => u <| route_mask := route_mask u .& not32 (1 <<% (vector - 0x40)) |>)) (count_unclaimed vector u).
Proof.
  intros Hv Hn. unfold usb_host_interrupt. destruct (Z.ltb_spec vector 0x40), (Z.ltb_spec 0x47 vector); try lia.
  cbn [orb]. unfold cbind, gets. cbn [bind fst snd].
  rewrite (proj2 (Z.eqb_neq _ _) (Hn 0 ltac:(lia))). cbn [bind fst snd cret].
  rewrite (proj2 (Z.eqb_neq _ _) (Hn 1 ltac:(lia))). cbn [bind fst snd cret].
  rewrite (proj2 (Z.eqb_neq _ _) (Hn 2 ltac:(lia))). cbn [bind fst snd cret].
  rewrite (proj2 (Z.eqb_neq _ _) (Hn 3 ltac:(lia))). cbn [bind fst snd cret]. change (negb (0 =? 0)) with false. cbv iota.
  replace (16 + vector - 64 - 16) with (vector - 64) by lia. reflexivity.
Qed.

Lemma count_streak vector u : 0x40 <= vector <= 0x47 -> length (unclaimed_streak u) = 8%nat ->
  streak vector (count_unclaimed vector u) = streak vector u +% 1 /\
  length (unclaimed_streak (count_unclaimed vector u)) = 8%nat.
Proof.
  intros Hv Hl. split; [|cbn; now rewrite length_insert]. unfold streak at 1, at_slot. cbn.
  now rewrite list_lookup_insert_eq by lia.
Qed.

(** The first interrupts of a storm only count. *)
Lemma storm_counts vector n : forall u a, 0x40 <= vector <= 0x47 -> nobody vector u ->
  length (unclaimed_streak u) = 8%nat -> 0 <= streak vector u -> streak vector u + Z.of_nat n < 32 ->
  exists u', exec ioapic_step (interrupts n vector u) a = (Done (tt, u'), a) /\ nobody vector u' /\
    length (unclaimed_streak u') = 8%nat /\ streak vector u' = streak vector u + Z.of_nat n /\
    route_mask u' = route_mask u.
Proof.
  induction n as [|n IH]; intros u a Hv Hn Hl H0 Hs; cbn [interrupts].
  { exists u. split; [reflexivity|]. split_and!; auto. lia. }
  unfold cbind. rewrite unclaimed_step by assumption.
  destruct (count_streak vector u Hv Hl) as [E1 E2]. rewrite add32_small in E1 by lia.
  unfold cbind, gets. cbn [bind fst snd]. rewrite E1.
  destruct (Z.ltb_spec (streak vector u + 1) 32); [|lia]. cbn [bind fst snd cret].
  destruct (IH (count_unclaimed vector u) a) as (u' & E & Hn' & Hl' & Hs' & Hr'); auto; [lia..|].
  exists u'. split; [exact E|]. split_and!; auto. lia.
Qed.

Lemma exec_interrupts_add vector n m : forall (v : usb) a, exec ioapic_step (interrupts (n + m) vector v) a =
  then_ (exec ioapic_step (interrupts n vector v) a) (fun r a => exec ioapic_step (interrupts m vector (snd r)) a).
Proof.
  induction n as [|n IH]; intros v a; [reflexivity|]. cbn [Nat.add interrupts]. unfold cbind. rewrite !exec_bind.
  destruct (exec ioapic_step (usb_host_interrupt (Some vector) v) a) as [[[[] v']|msg| |] a']; cbn [then_ snd fst]; auto.
Qed.

End STORM.

