(* ===== verification/UsbMouse.v ===== *)
(** * Mouse discovery: [Drivers/Usb/UsbMouse.c]

    The descriptor parser, the probe of a root port through the host API, start-up and
    hot-plug. Buffers of the caller ([device], [scratch]) are addresses; the descriptor
    parser reads the stream by index. *)
From stdpp Require Import list gmap strings.
From S2P Require Import Prelude Machine Runtime BootImage Transport Storage Ring UsbHost.

Definition USB_MOUSE_FULL_SPEED_INTERVAL_MS : Z := 1.
Definition USB_MOUSE_NOT_PROBED : Z := 0.
Definition USB_MOUSE_ABSENT : Z := 1.
Definition USB_MOUSE_NOT_SUPPORTED : Z := 2.
Definition USB_MOUSE_BAD_DESCRIPTOR : Z := 3.
Definition USB_MOUSE_CONTROL_FAILED : Z := 4.
Definition USB_MOUSE_START_FAILED : Z := 5.
Definition USB_MOUSE_STREAMING : Z := 6.

Record usb_mouse_interface := {
  mi_configuration : Z; mi_interface_number : Z; mi_endpoint : Z; mi_packet : Z; mi_interval : Z
}.
Definition no_interface : usb_mouse_interface := Build_usb_mouse_interface 0 0 0 0 0.

Record usb_mouse_port := {
  mp_status : Z; mp_address : Z; mp_low_speed : Z; mp_vendor : Z; mp_product : Z;
  mp_interface : usb_mouse_interface; mp_scheduled_interval : Z
}.
#[export] Instance eta_mouse_port : Eta usb_mouse_port := fun p =>
  Build_usb_mouse_port (mp_status p) (mp_address p) (mp_low_speed p) (mp_vendor p) (mp_product p)
    (mp_interface p) (mp_scheduled_interval p).
Definition no_port : usb_mouse_port := Build_usb_mouse_port 0 0 0 0 0 no_interface 0.

Definition usb_mouse_poll_interval (low_speed advertised_ms : Z) : Z :=
  if (1 <? low_speed) || (advertised_ms =? 0) || (255 <? advertised_ms) then 0
  else if (low_speed =? 0) && negb (USB_MOUSE_FULL_SPEED_INTERVAL_MS =? 0) &&
          (USB_MOUSE_FULL_SPEED_INTERVAL_MS <? advertised_ms)
  then USB_MOUSE_FULL_SPEED_INTERVAL_MS
  else advertised_ms.

(** ** The configuration parser *)
Definition read16 (offset : Z) : prog Z Z :=
  let! lo := rd offset in let! hi := rd (offset + 1) in Ret (lo .| (hi <<% 8)).

(** [-1], [0], and [1] with the result. *)
Inductive find_result := Malformed | Unsupported | Found (i : usb_mouse_interface).

(** The loop's variables. *)
Record walk := {
  w_candidate : bool; w_number : Z; w_found : option usb_mouse_interface; w_have_interface : bool;
  w_endpoints : Z; w_expected : Z
}.
#[export] Instance eta_walk : Eta walk := fun w =>
  Build_walk (w_candidate w) (w_number w) (w_found w) (w_have_interface w) (w_endpoints w) (w_expected w).

Fixpoint find_loop (fuel : nat) (low length offset : Z) (w : walk) : prog Z find_result :=
  if negb (offset <? length) then
    Ret (if w_have_interface w && negb (w_endpoints w =? w_expected w) then Malformed
         else match w_found w with Some i => Found i | None => Unsupported end)
  else match fuel with
  | O => OutOfFuel
  | S fuel' =>
      if length -% offset <? 2 then Ret Malformed else
      let d i := rd (offset + i) in
      let! size := d 0 in
      if (size <? 2) || (length -% offset <? size) then Ret Malformed else
      let! type := d 1 in
      if type =? 4 then
        if (size <? 9) || (w_have_interface w && negb (w_endpoints w =? w_expected w)) then Ret Malformed else
        let! expected := d 4 in
        let! number := d 2 in
        let! d3 := d 3 in let! d5 := d 5 in let! d6 := d 6 in let! d7 := d 7 in
        find_loop fuel' low length (offset +% size)
          (Build_walk ((d3 =? 0) && (d5 =? 3) && (d6 =? 1) && (d7 =? 2)) number (w_found w) true 0 expected)
      else if type =? 5 then
        if (size <? 7) || negb (w_have_interface w) || (w_expected w <? w_endpoints w +% 1) then Ret Malformed else
        let w := w <| w_endpoints := w_endpoints w +% 1 |> in
        let! packet := read16 (offset + 4) in
        let! d2 := d 2 in let! d3 := d 3 in
        if w_candidate w && negb (bool_decide (is_Some (w_found w))) && negb (d2 .& 0x80 =? 0) && (d3 .& 3 =? 3) then
          let! d6 := d 6 in
          if (d2 .& 15 =? 0) || negb (d2 .& 0x70 =? 0) || (packet <? 3) ||
             ((if negb (low =? 0) then 8 else 64) <? packet) || (d6 =? 0) || (negb (low =? 0) && (d6 <? 10))
          then Ret Malformed else
          let! configuration := rd 5 in
          find_loop fuel' low length (offset +% size)
            (w <| w_found := Some (Build_usb_mouse_interface configuration (w_number w) (d2 .& 15) packet d6) |>)
        else find_loop fuel' low length (offset +% size) w
      else if (type =? 2) || (type =? 1) then Ret Malformed
      else find_loop fuel' low length (offset +% size) w
  end.

(** The [data] and [result] pointers are not null here. *)
Definition usb_mouse_find_interface (length low : Z) : prog Z find_result :=
  if (1 <? low) || (length <? 9) || (USB_CONFIGURATION_MAX_BYTES <? length) then Ret Malformed else
  let! d0 := rd 0 in let! d1 := rd 1 in let! total := read16 2 in let! d5 := rd 5 in
  if negb (d0 =? 9) || negb (d1 =? 2) || negb (total =? length) || (d5 =? 0) then Ret Malformed
  else find_loop (Z.to_nat length) low length 9 (Build_walk false 0 None false 0 0).

(** ** Probing a root port *)
Section MOUSE.
Context {K : Type} (fuel : nat).

(** [hotplug[id][port]] *)
Record hotplug_state := { hp_generation : Z; hp_connected : Z; hp_attempted : Z }.
#[export] Instance eta_hotplug : Eta hotplug_state := fun h =>
  Build_hotplug_state (hp_generation h) (hp_connected h) (hp_attempted h).

(** The statics of this file, and the host it drives. Tables are indexed by
    [2 * controller + port]. *)
Record mouse_unit := {
  mouse_count : Z; mouse_ports : list usb_mouse_port; boot_mouse_count : Z;
  mu_initialized : Z; hotplug : list hotplug_state; mu_host : @usb K
}.
#[export] Instance eta_mouse_unit : Eta mouse_unit := fun m =>
  Build_mouse_unit (mouse_count m) (mouse_ports m) (boot_mouse_count m) (mu_initialized m) (hotplug m) (mu_host m).

Definition in_host {A} (m : code (@usb K) A) : code mouse_unit A :=
  fun u => let! r := m (mu_host u) in Ret (fst r, u <| mu_host := snd r |>).

Definition setup_packet (type operation value index length : Z) : list Z :=
  [u8 type; u8 operation; u8 value; u8 (value >>> 8); u8 index; u8 (index >>> 8); u8 length; u8 (length >>> 8)].

Definition request (controller : Z) (info : usb_mouse_port) (packet type operation value index length data : Z)
    : code mouse_unit Z :=
  in_host (usb_uhci_control fuel controller (mp_address info) (mp_low_speed info) packet
             (setup_packet type operation value index length) data).

Definition read16_at (a : Z) : prog bus Z :=
  let! lo := load8 a in let! hi := load8 (a + 1) in Ret (lo .| (hi <<% 8)).

(** The parser on the scratch buffer. *)
Definition find_interface_at (scratch length low : Z) : prog bus find_result :=
  hoist (fun i => Load W8 (scratch + i)) (usb_mouse_find_interface length low).

(** The two device-descriptor reads and SET_ADDRESS: the port so far, and the packet size
    and number of configurations when the device qualifies. *)
Definition identify_device (controller port device : Z) (info : usb_mouse_port)
    : code mouse_unit (usb_mouse_port * option (Z * Z)) :=
  let info := info <| mp_status := USB_MOUSE_CONTROL_FAILED |> in
  let* r := request controller info 8 0x80 6 0x0100 0 8 device in
  if negb (r =? 8) then cret (info, None) else
  let info := info <| mp_status := USB_MOUSE_BAD_DESCRIPTOR |> in
  let* packet := io (load8 (device + 7)) in
  let* d0 := io (load8 device) in
  let* d1 := io (load8 (device + 1)) in
  if negb (d0 =? 18) || negb (d1 =? 1) ||
     (negb (packet =? 8) && negb (packet =? 16) && negb (packet =? 32) && negb (packet =? 64)) ||
     (negb (mp_low_speed info =? 0) && negb (packet =? 8)) then cret (info, None) else
  let info := info <| mp_status := USB_MOUSE_CONTROL_FAILED |> in
  let address := port +% 1 in
  let* r := request controller info packet 0 5 address 0 0 0 in
  if negb (r =? 0) then cret (info, None) else
  in_host (usb_uhci_delay fuel 2) ;*
  let info := info <| mp_address := address |> in
  let* r := request controller info packet 0x80 6 0x0100 0 18 device in
  if negb (r =? 18) then cret (info, None) else
  let info := info <| mp_status := USB_MOUSE_BAD_DESCRIPTOR |> in
  let* d0 := io (load8 device) in
  let* d1 := io (load8 (device + 1)) in
  let* d7 := io (load8 (device + 7)) in
  let* d17 := io (load8 (device + 17)) in
  if negb (d0 =? 18) || negb (d1 =? 1) || negb (d7 =? packet) || (d17 =? 0) then cret (info, None) else
  let* vendor := io (read16_at (device + 8)) in
  let* product := io (read16_at (device + 10)) in
  let info := info <| mp_vendor := vendor |> <| mp_product := product |> <| mp_status := USB_MOUSE_NOT_SUPPORTED |> in
  let* d4 := io (load8 (device + 4)) in
  if (d4 =? 9) || (8 <? d17) then cret (info, None) else cret (info, Some (packet, d17)).

(** Steps 5 and 6: activate the configuration and start the stream. *)
Definition start_mouse (controller port packet : Z) (info : usb_mouse_port) : code mouse_unit (usb_mouse_port * bool) :=
  let i := mp_interface info in
  let info := info <| mp_status := USB_MOUSE_CONTROL_FAILED |> in
  let* r := request controller info packet 0 9 (mi_configuration i) 0 0 0 in
  if negb (r =? 0) then cret (info, false) else
  let* r := request controller info packet 0x21 11 0 (mi_interface_number i) 0 0 in
  if negb (r =? 0) then cret (info, false) else
  request controller info packet 0x21 10 0 (mi_interface_number i) 0 0 ;*
  let info := info <| mp_status := USB_MOUSE_START_FAILED |>
                   <| mp_scheduled_interval := usb_mouse_poll_interval (mp_low_speed info) (mi_interval i) |> in
  let* r := in_host (usb_uhci_start_interrupt fuel controller port (port +% 1) (mi_endpoint i) (mp_low_speed info)
                       (mi_packet i) (mp_scheduled_interval info)) in
  if r =? 0 then cret (info, false) else cret (info <| mp_status := USB_MOUSE_STREAMING |>, true).

(** The configurations in turn; [true] when a stream runs. *)
Fixpoint try_configurations (n : nat) (config : Z) (controller port packet scratch : Z) (info : usb_mouse_port)
    : code mouse_unit (usb_mouse_port * bool) :=
  match n with
  | O => cret (info <| mp_status := USB_MOUSE_NOT_SUPPORTED |>, false)
  | S n' =>
      let info := info <| mp_status := USB_MOUSE_CONTROL_FAILED |> in
      let* r := request controller info packet 0x80 6 (0x0200 .| config) 0 9 scratch in
      if negb (r =? 9) then cret (info, false) else
      let* length := io (read16_at (scratch + 2)) in
      let info := info <| mp_status := USB_MOUSE_BAD_DESCRIPTOR |> in
      let* s0 := io (load8 scratch) in
      let* s1 := io (load8 (scratch + 1)) in
      let* s5 := io (load8 (scratch + 5)) in
      if negb (s0 =? 9) || negb (s1 =? 2) || (length <? 9) || (s5 =? 0) then cret (info, false) else
      if USB_CONFIGURATION_MAX_BYTES <? length
      then try_configurations n' (config + 1) controller port packet scratch info else
      let info := info <| mp_status := USB_MOUSE_CONTROL_FAILED |> in
      let* r := request controller info packet 0x80 6 (0x0200 .| config) 0 length scratch in
      if negb (r =? length) then cret (info, false) else
      let* found := io (find_interface_at scratch length (mp_low_speed info)) in
      let info := info <| mp_status := USB_MOUSE_BAD_DESCRIPTOR |> in
      match found with
      | Malformed => cret (info, false)
      | Unsupported => try_configurations n' (config + 1) controller port packet scratch info
      | Found i => start_mouse controller port packet (info <| mp_interface := i |>)
      end
  end.

(** [device] is the address of the local 18-byte array, [old] what [*info] held. *)
Definition usb_mouse_probe_port (controller port scratch device : Z) (old : usb_mouse_port)
    : code mouse_unit (usb_mouse_port * bool) :=
  if (UHCI_CONTROLLER_COUNT <=? controller) || (1 <? port) then cret (old, false) else
  let info := no_port <| mp_status := USB_MOUSE_ABSENT |> in
  let* speed := in_host (usb_uhci_reset_port fuel controller port) in
  let* r :=
    if speed =? 0 then cret (info, false) else
    let info := info <| mp_low_speed := b2z (speed =? 2) |> in
    let* d := identify_device controller port device info in
    match d with
    | (info, None) => cret (info, false)
    | (info, Some (packet, configurations)) =>
        try_configurations (Z.to_nat configurations) 0 controller port packet scratch info
    end in
  (if snd r then cret tt else in_host (usb_uhci_disable_port controller port)) ;*
  cret r.

(** ** Start-up and hot-plug *)
Context (configuration_buffer device : Z).

Definition port_index (id port : Z) : nat := Z.to_nat (2 * id + port).
Definition port_of (id port : Z) (m : mouse_unit) : usb_mouse_port := at_slot no_port (mouse_ports m) (2 * id + port).
Definition plug_of (id port : Z) (m : mouse_unit) : hotplug_state :=
  at_slot (Build_hotplug_state 0 0 0) (hotplug m) (2 * id + port).
Definition set_port (id port : Z) (p : usb_mouse_port) : code mouse_unit unit :=
  modify (fun m => m <| mouse_ports := <[port_index id port := p]> (mouse_ports m) |>).
Definition set_plug (id port : Z) (f : hotplug_state -> hotplug_state) : code mouse_unit unit :=
  modify (fun m => m <| hotplug := <[port_index id port := f (plug_of id port m)]> (hotplug m) |>).

(** What the host's diagnostics say of a port. *)
Definition port_connected (id port : Z) (m : mouse_unit) : Z :=
  at_slot 0 (i_port_status (info_of id (mu_host m))) port .& 1.
Definition generation_of (id port : Z) (m : mouse_unit) : Z :=
  at_slot 0 (at_slot [] (port_generation (mu_host m)) id) port.
Definition controller_status (id : Z) (m : mouse_unit) : Z := i_status (info_of id (mu_host m)).

(** [usb_mouse_probe_port(..., &usb_mouse_state.port[id][port])] *)
Definition probe (id port : Z) : code mouse_unit bool :=
  let* old := gets (port_of id port) in
  let* r := usb_mouse_probe_port id port configuration_buffer device old in
  set_port id port (fst r) ;*
  cret (snd r).

(** One controller at start-up. *)
Definition initialize_mice (id : Z) : code mouse_unit unit :=
  let* status := gets (controller_status id) in
  if negb (status =? UHCI_READY) then cret tt else
  in_host (usb_uhci_disable_port id 0) ;*
  in_host (usb_uhci_disable_port id 1) ;*
  in_host (usb_uhci_delay fuel 100) ;*
  cloop (R := unit) 2 0 (fun port =>
    let* ok := probe id port in
    if ok then modify (fun m => m <| mouse_count := mouse_count m +% 1 |>) ;* cret (Some tt) else
    let* status := gets (controller_status id) in
    cret (if negb (status =? UHCI_READY) then Some tt else None)) ;*
  cfor 2 0 (fun port =>
    let* connected := gets (port_connected id port) in
    let* generation := gets (generation_of id port) in
    let* info := gets (port_of id port) in
    set_plug id port (fun _ => Build_hotplug_state generation connected (b2z (negb (mp_status info =? 0))))).

Definition usb_mouse_initialize : code mouse_unit Z :=
  let* done := gets mu_initialized in
  if negb (done =? 0) then gets mouse_count else
  modify (fun m => m <| mu_initialized := 1 |>) ;*
  cfor 4 0 initialize_mice ;*
  modify (fun m => m <| boot_mouse_count := mouse_count m |>) ;*
  gets mouse_count.

(** One port of a hot-plug scan; the mask of active controllers goes through. *)
Definition service_port (id port active : Z) : code mouse_unit Z :=
  let* info := gets (port_of id port) in
  (if (mp_status info =? USB_MOUSE_STREAMING) && (active .& (1 <<% id) =? 0) then
     set_port id port (info <| mp_status := USB_MOUSE_ABSENT |>) ;*
     set_plug id port (fun h => h <| hp_connected := 0 |> <| hp_attempted := 0 |>)
   else cret tt) ;*
  let* status := gets (controller_status id) in
  if negb (status =? UHCI_READY) then cret active else
  let* connected := gets (port_connected id port) in
  let* generation := gets (generation_of id port) in
  let* plug := gets (plug_of id port) in
  if negb (connected =? hp_connected plug) || negb (generation =? hp_generation plug) then
    set_plug id port (fun h => h <| hp_connected := connected |> <| hp_generation := generation |> <| hp_attempted := 0 |>) ;*
    (if connected =? 0 then
       let* info := gets (port_of id port) in set_port id port (info <| mp_status := USB_MOUSE_ABSENT |>)
     else cret tt) ;*
    cret active
  else if (connected =? 0) || negb (active .& (1 <<% id) =? 0) || negb (hp_attempted plug =? 0) then cret active
  else
    set_plug id port (fun h => h <| hp_attempted := 1 |>) ;*
    in_host (usb_uhci_disable_port id 0) ;*
    in_host (usb_uhci_disable_port id 1) ;*
    let* ok := probe id port in
    cret (if ok then active .| (1 <<% id) else active).

(** The controllers from [id] on; the final mask and count. *)
Fixpoint service_controllers (n : nat) (id active count : Z) : code mouse_unit Z :=
  match n with
  | O => cret count
  | S n' =>
      let* active := service_port id 0 active in
      let* active := service_port id 1 active in
      service_controllers n' (id + 1) active (if negb (active .& (1 <<% id) =? 0) then count +% 1 else count)
  end.

Definition usb_mouse_service : code mouse_unit unit :=
  let* done := gets mu_initialized in
  if done =? 0 then cret tt else
  let* active := in_host (usb_host_poll fuel) in
  let* due := in_host usb_uhci_hotplug_due in
  if negb due then cret tt else
  let* count := service_controllers 4 0 active 0 in
  modify (fun m => m <| mouse_count := count |>).
End MOUSE.
