(* ===== verification/UsbMouseFacts.v ===== *)
(** * Mouse discovery: the parser, the probe and hot-plug *)
From stdpp Require Import list gmap strings.
From S2P Require Import Prelude Machine Runtime BootImage Transport TransportSafety Storage Ring UsbHost UsbSafety UsbMouse.

(** ** The parser *)
Section DESCRIPTORS.
Context (data : list Z) (length low : Z).
Abbreviation byte := (byte data).
Abbreviation chain := (chain data length).

(** A boot-protocol mouse interface, setting 0. *)
Definition mouse_interface (o number : Z) : Prop :=
  byte (o + 1) 4 /\ byte (o + 2) number /\ byte (o + 3) 0 /\ byte (o + 5) 3 /\ byte (o + 6) 1 /\ byte (o + 7) 2.

(** Its interrupt-IN endpoint, within the limits of the device's speed. *)
Definition mouse_endpoint (o : Z) (i : usb_mouse_interface) : Prop :=
  exists address attributes lo hi,
    byte (o + 1) 5 /\ byte (o + 2) address /\ address .& 0x80 <> 0 /\ address .& 0x70 = 0 /\
    byte (o + 3) attributes /\ attributes .& 3 = 3 /\
    byte (o + 4) lo /\ byte (o + 5) hi /\ mi_packet i = lo .| (hi <<% 8) /\
    byte (o + 6) (mi_interval i) /\ mi_endpoint i = address .& 15.

(** The current interface, when it is a mouse: it starts at [oi] and the descriptors read so
    far, up to [offset], are not interfaces. *)
Definition in_mouse (number offset : Z) : Prop :=
  exists oi li, chain (fun _ => True) 9 oi /\ byte oi li /\ mouse_interface oi number /\
    chain (not_interface data) (oi + li) offset.

Definition limits (i : usb_mouse_interface) : Prop :=
  1 <= mi_endpoint i <= 15 /\ 3 <= mi_packet i <= (if negb (low =? 0) then 8 else 64) /\
  1 <= mi_interval i <= 255 /\ (low <> 0 -> 10 <= mi_interval i).

(** A mouse endpoint [oe] of the interface it belongs to. *)
Definition selected (i : usb_mouse_interface) : Prop :=
  byte 5 (mi_configuration i) /\ mi_configuration i <> 0 /\ limits i /\
  exists oe, in_mouse (mi_interface_number i) oe /\ mouse_endpoint oe i.

Definition walk_ok (w : walk) (offset : Z) : Prop :=
  0 <= w_endpoints w <= 255 /\ 0 <= w_expected w <= 255 /\
  (w_candidate w = true -> in_mouse (w_number w) offset) /\
  (forall i, w_found w = Some i -> selected i).

Definition find_post (o : outcome find_result) (s : list Z) : Prop :=
  s = data /\ exists r, o = Done r /\ forall i, r = Found i -> selected i.

Lemma find_reject : find_post (Done Malformed) data.
Proof. split; [reflexivity|]. eexists. split; [reflexivity|discriminate]. Qed.
#[local] Hint Resolve find_reject : crange.

Context (Hlen : length <= Z.of_nat (Datatypes.length data)) (Hmax : length <= 4096) (Hbytes : Forall is_u8 data).

Lemma byte_u8 o v : byte o v -> is_u8 v.
Proof. intros H. exact (Forall_lookup_1 _ _ _ _ Hbytes H). Qed.

Lemma in_mouse_skip number offset size :
  in_mouse number offset -> byte offset size -> 2 <= size <= length - offset -> not_interface data offset ->
  in_mouse number (offset + size).
Proof.
  intros (oi & li & H1 & H2 & H3 & H4) Hb Hs Ho. exists oi, li. split_and!; auto; try apply H3. now apply chain_step.
Qed.

Lemma find_loop_ok d5 fuel : byte 5 d5 -> d5 <> 0 -> forall offset w, 9 <= offset <= length -> length - offset <= Z.of_nat fuel ->
  chain (fun _ => True) 9 offset -> walk_ok w offset ->
  wp list_hw (find_loop fuel low length offset w) find_post data.
Proof.
  intros Hb5 Hd5. induction fuel as [|fuel IH]; intros offset w Ho Hf Hch (He1 & He2 & Hc & Hfound); cbn [find_loop].
  all: destruct (Z.ltb_spec offset length) as [Hlt|Hge]; cbn [negb].
  1: lia.
  1,3: cbn; case_if; [auto with crange|]; split; [reflexivity|]; eexists; (split; [reflexivity|]);
       intros i; destruct (w_found w) eqn:Efnd; [intros [= <-]; auto|discriminate].
  rewrite sub32_small by lia. case_if; [cbn; auto with crange|]. bool_to_prop.
  read_byte sz Hsize. rewrite Z.add_0_r in Hsize. case_if; [cbn; auto with crange|]. bool_to_prop.
  rewrite add32_small by lia. read_byte ty Htype.
  assert (chain (fun _ => True) 9 (offset + sz)) as Hch' by (apply chain_step; auto with lia).
  destruct (Z.eqb_spec ty 4) as [->|Hn4].
  - case_if; [cbn; auto with crange|]. bool_to_prop.
    read_byte d4 Rb4. read_byte d2 Rb2. read_byte d3 Rb3. read_byte dd5 Rb5. read_byte d6 Rb6. read_byte d7 Rb7.
    apply IH; [lia|lia|exact Hch'|]. apply byte_u8 in Rb4 as Hd4. unfold in_u in Hd4.
    split_and!; cbn; [lia..| |exact Hfound].
    intros Hcand. bool_to_prop. subst. exists offset, sz. split_and!; auto; [now split_and!|apply chain_nil].
  - assert (not_interface data offset) as Hni by (exists ty; auto).
    assert (walk_ok w (offset + sz)) as Hw.
    { split_and!; auto; try lia. intros Hcand. apply in_mouse_skip; auto with lia. }
    destruct (Z.eqb_spec ty 5) as [->|Hn5].
    + case_if; [cbn; auto with crange|]. bool_to_prop. rewrite add32_small in * by lia.
      unfold read16. read_byte lo Hlo. replace (offset + 4 + 1) with (offset + 5) by lia. read_byte hi Hhi.
      read_byte d2 Rb2. read_byte d3 Rb3. cbn [w_candidate w_found assign].
      match goal with |- wp _ (if ?b then _ else _) _ _ => destruct b eqn:Esel end.
      * bool_to_prop. read_byte d6 Rb6.
        match goal with |- wp _ (if ?b then _ else _) _ _ => destruct b eqn:Ebad end; [cbn; auto with crange|]. bool_to_prop.
        read_byte conf Hconf. assert (conf = d5) as -> by (unfold BootImage.byte in *; congruence).
        apply IH; [lia|lia|exact Hch'|]. split_and!; cbn; [lia..| |].
        -- intros Hcand. apply in_mouse_skip; auto with lia.
        -- intros i [= <-]. apply byte_u8 in Rb6 as Hd6.
           assert (1 <= d2 .& 15 <= 15) by (pose proof (land_le d2 15); lia).
           split; [exact Hb5|]. split; [exact Hd5|]. split; [unfold limits; cbn; split_and!|]; try (unfold in_u in *; lia).
           exists offset. split; [now apply Hc|]. exists d2, d3, lo, hi. split_and!; auto.
      * apply IH; [lia|lia|exact Hch'|]. destruct Hw as (_ & _ & Hw3 & Hw4). split_and!; cbn; auto; lia.
    + case_if; [cbn; auto with crange|]. apply IH; [lia|lia|exact Hch'|exact Hw].
Qed.

Lemma find_interface_ok :
  0 <= length -> wp list_hw (usb_mouse_find_interface length low) find_post data.
Proof.
  intros H0. unfold usb_mouse_find_interface. case_if; [cbn; auto with crange|]. bool_to_prop.
  read_byte d0 Hd0. read_byte d1 Hd1. unfold read16. read_byte lo Hlo. read_byte hi Hhi. read_byte d5 Hd5.
  case_if; [cbn; auto with crange|]. bool_to_prop.
  apply (find_loop_ok d5); auto; try lia.
  - apply chain_nil.
  - split_and!; cbn; try lia; discriminate.
Qed.
End DESCRIPTORS.

(** C31: the mouse descriptor parser is total and safe on every byte stream: it reads no
    byte outside the [length] bytes fetched, it terminates, and when it finds a mouse the
    interface number is that of a boot-protocol mouse interface of the stream, the endpoint
    is an interrupt-IN endpoint that follows it before the next interface, the
    configuration is the stream's own, and all values are within the limits the host driver
    demands for the device's speed. *)
Theorem usb_mouse_find_interface_sound data length low :
  0 <= length <= Z.of_nat (Datatypes.length data) -> length <= 4096 -> Forall is_u8 data ->
  exists r, exec list_reader (usb_mouse_find_interface length low) data = (Done r, data) /\
    forall i, r = Found i -> selected data length low i.
Proof.
  intros H0 Hmax Hb.
  pose proof (exec_wp _ _ _ _ data list_reader_ok (find_interface_ok data length low ltac:(lia) Hmax Hb ltac:(lia))) as H.
  destruct (exec _ _ data) as [o s]. cbn in H. destruct H as (-> & r & -> & Hr). eauto.
Qed.

(** A keyboard interface first, then a mouse on endpoint 2. *)
Definition combo_descriptor : list Z :=
  [9; 2; 59; 0; 2; 1; 0; 0xA0; 50] ++
  [9; 4; 0; 0; 1; 3; 1; 1; 0] ++ [9; 33; 0x11; 1; 0; 1; 34; 65; 0] ++ [7; 5; 0x81; 3; 8; 0; 10] ++
  [9; 4; 1; 0; 1; 3; 1; 2; 0] ++ [9; 33; 0x11; 1; 0; 1; 34; 46; 0] ++ [7; 5; 0x82; 3; 4; 0; 10].

Lemma usb_mouse_find_interface_sound_witness :
  exec list_reader (usb_mouse_find_interface 59 1) combo_descriptor =
    (Done (Found (Build_usb_mouse_interface 1 1 2 4 10)), combo_descriptor) /\
  selected combo_descriptor 59 1 (Build_usb_mouse_interface 1 1 2 4 10).
Proof.
  assert (exec list_reader (usb_mouse_find_interface 59 1) combo_descriptor =
    (Done (Found (Build_usb_mouse_interface 1 1 2 4 10)), combo_descriptor)) as E by (vm_compute; reflexivity).
  split; [exact E|].
  assert (Forall is_u8 combo_descriptor) as Hb.
  { unfold combo_descriptor. repeat constructor; unfold in_u; lia. }
  destruct (usb_mouse_find_interface_sound combo_descriptor 59 1 ltac:(vm_compute; split; congruence) ltac:(lia) Hb)
    as (r & Er & Hr). apply Hr. congruence.
Defined.

(** ** The probe *)
Section PROBE.
Context {K : Type} (fuel : nat) (id : Z) (Hid : 0 <= id < 4).
Context (scratch device : Z) (Hscratch : 0 <= scratch /\ scratch + 4096 <= 2 ^ 32)
  (Hdevice : 0 <= device /\ device + 18 <= 2 ^ 32).
Abbreviation mouse_unit := (@mouse_unit K).

Definition buffers (a : Z) : Prop := scratch <= a < scratch + 4096 \/ device <= a < device + 18.
Definition unit_ok (m : mouse_unit) (_ : trace) : Prop := host_ok (mu_host m).
Abbreviation kept := (keeps (contained id buffers) unit_ok).

Lemma contained_mono (extra extra' : Z -> Prop) t e :
  (forall a, extra a -> extra' a) -> contained id extra t e -> contained id extra' t e.
Proof. intros H He. destruct e as [| | |w a v| | | | | | | | |]; auto. destruct w; cbn in *; intuition. Qed.

Lemma in_host_triple {A} (extra : Z -> Prop) (m : code (@usb K) A) (Q : A -> @usb K -> trace -> Prop) :
  (forall a, extra a -> buffers a) ->
  triple (contained id extra) hosted m (fun a u t => host_ok u /\ Q a u t) -> kept (in_host m).
Proof.
  intros Hx Hm mu t Hu. unfold in_host. apply wp_bind.
  eapply wp_weaken; [intros t' e; apply (contained_mono extra buffers t' e Hx)|].
  eapply wp_mono; [|apply (Hm (mu_host mu) t Hu)].
  intros [[a u]|msg| |] t'; cbn; auto. intros [H _]. exact H.
Qed.

Lemma setup_length type operation value index n : 0 <= n < 65536 ->
  let setup := setup_packet type operation value index n in
  at_slot 0 setup 6 .| (at_slot 0 setup 7 <<% 8) = n /\ length setup = 8%nat /\ Forall is_u8 setup.
Proof.
  intros Hn. cbv zeta. split_and!.
  - change (u8 n .| (u8 (n >>> 8) <<% 8) = n).
    assert (u8 (n >>> 8) = n / 256) as ->.
    { rewrite Z.shiftr_div_pow2 by lia. apply wrap_small. change (2 ^ 8) with 256. unfold in_u.
      Z.to_euclidean_division_equations; lia. }
    assert (0 <= n / 256 < 256) by (Z.to_euclidean_division_equations; lia).
    rewrite shl32_small, Z.lor_comm, lor_add by (try apply u8_range; lia).
    unfold u8, wrap. pose proof (Z.div_mod n 256). change (2 ^ 8) with 256. lia.
  - reflexivity.
  - unfold setup_packet. repeat constructor; apply u8_range.
Qed.

Lemma kept_request info packet type operation value index n data :
  0 <= n < 65536 -> 0 <= data -> (n = 0 \/ data = scratch /\ n <= 4096 \/ data = device /\ n <= 18) -> data + n <= 2 ^ 32 ->
  kept (request fuel id info packet type operation value index n data).
Proof.
  intros Hn Hd Hbuf Hend. destruct (setup_length type operation value index n Hn) as (E & Hl & Hb).
  unfold request. eapply in_host_triple with (extra := fun a => data <= a < data + n).
  - intros a Ha. unfold buffers. lia.
  - pose proof (hosted_control (K := K) fuel id (mp_address info) (mp_low_speed info) packet
      (setup_packet type operation value index n) data Hid Hl Hb) as H. cbv zeta in H. rewrite E in H.
    apply H; lia.
Qed.

Lemma kept_io {A} (p : prog bus A) : bus_ok (contained id buffers) p -> kept (io p).
Proof. intros H. apply keeps_bus; [exact H|auto]. Qed.

Lemma kept_host {A} (m : code (@usb K) A) : keeps (contained id buffers) hosted m -> kept (in_host m).
Proof.
  intros H. apply in_host_triple with (extra := buffers) (Q := fun _ _ _ => True); [auto|].
  eapply triple_post; [exact H|]. intros a u t Hu. now split.
Qed.

Lemma kept_delay_ms ms : kept (in_host (usb_uhci_delay fuel ms)).
Proof.
  apply kept_host. unfold usb_uhci_delay. apply keeps_for. intros j Hj. unfold UsbHost.delay.
  apply keeps_bind; [apply hosted_bus; repeat bus_step|]. intros start.
  apply keeps_bind; [apply keeps_gets|]. intros ticks. apply hosted_bus. apply bus_delay_loop. typeclasses eauto.
Qed.

Ltac probe_step :=
  lazymatch goal with
  | |- keeps _ _ (request _ _ _ _ _ _ _ _ _ _) => apply kept_request; lia
  | |- keeps _ _ (in_host (usb_uhci_delay _ _)) => apply kept_delay_ms
  | |- keeps _ _ (cbind (io _) _) => apply keeps_bind; [|intros ?]
  | |- keeps _ _ (io (read16_at _)) => apply kept_io; unfold read16_at
  | |- keeps _ _ (io _) => apply kept_io
  | |- keeps _ _ _ => keeps_step
  | |- bus_ok _ _ => bus_step
  end.

Lemma kept_identify port info : kept (identify_device fuel id port device info).
Proof. unfold identify_device. cbv zeta. repeat probe_step. Qed.

(** The parser on the scratch buffer, whatever the bytes: what it finds is within limits. *)
Definition limits_post low (o : outcome find_result) (_ : trace) : Prop :=
  match o with Done (Found i) => limits low i | Faulted => False | _ => True end.

Ltac any_byte v H := cbn [bind rd access hoist wp]; split; [exact I|]; intros v ? [H _].

Lemma find_loop_limits low length n : forall offset w t,
  (forall i, w_found w = Some i -> limits low i) ->
  wp (any_hw (contained id buffers)) (hoist (fun i => Load W8 (scratch + i)) (find_loop n low length offset w))
    (limits_post low) t.
Proof.
  induction n as [|n IH]; intros offset w t Hw; cbn [find_loop];
    (match goal with |- context [if negb (offset <? length) then _ else _] => destruct (negb (offset <? length)) end;
     [cbn; case_if; [exact I|]; destruct (w_found w) eqn:E'; cbn; auto|]); [exact I|].
  case_if; [exact I|]. any_byte sz Hsz. case_if; [exact I|]. any_byte ty Hty. case_if.
  - case_if; [exact I|]. any_byte b4 Rb4. any_byte b2 Rb2. any_byte b3 Rb3. any_byte b5 Rb5. any_byte b6 Rb6. any_byte b7 Rb7.
    apply IH. exact Hw.
  - case_if.
    + case_if; [exact I|]. unfold read16. any_byte lo Hlo. any_byte hi Hhi. any_byte d2 Rb2. any_byte d3 Rb3.
      match goal with |- wp _ (hoist _ (if ?b then _ else _)) _ _ => destruct b eqn:Esel end; [|apply IH; exact Hw].
      any_byte d6 Rb6. cbn [reply_ok wbits] in Rb6. unfold in_u in Rb6.
      match goal with |- wp _ (hoist _ (if ?b then _ else _)) _ _ => destruct b eqn:Ebad end; [exact I|]. bool_to_prop.
      any_byte conf Hconf. apply IH. cbn [w_found assign]. intros i [= <-].
      assert (1 <= d2 .& 15 <= 15) by (pose proof (land_le d2 15); lia).
      unfold limits. cbn. split_and!; lia.
    + case_if; [exact I|]. apply IH. exact Hw.
Qed.

Lemma triple_find length low :
  triple (contained id buffers) unit_ok (io (find_interface_at scratch length low))
    (fun r m t => unit_ok m t /\ match r with Found i => limits low i | _ => True end).
Proof.
  intros m t Hm. unfold io, lift. apply wp_bind.
  assert (wp (any_hw (contained id buffers)) (find_interface_at scratch length low) (limits_post low) t) as H.
  { unfold find_interface_at, usb_mouse_find_interface. case_if; [exact I|].
    any_byte d0 H0. any_byte d1 H1. unfold read16. any_byte lo Hlo. any_byte hi Hhi. any_byte d5 H5.
    case_if; [exact I|]. apply find_loop_limits. discriminate. }
  eapply wp_mono; [|exact H]. intros [[| |i]|msg| |] t'; cbn; auto.
Qed.

(** [true] goes with the streaming status. *)
Definition streaming (r : usb_mouse_port * bool) (m : mouse_unit) (t : trace) : Prop :=
  unit_ok m t /\ (snd r = true -> mp_status (fst r) = USB_MOUSE_STREAMING).

Lemma streaming_failed info : triple (contained id buffers) unit_ok (cret (info, false)) streaming.
Proof. apply triple_ret. intros m t Hm. split; [exact Hm|discriminate]. Qed.

Lemma unit_seq {A B} (m : code mouse_unit A) (k : A -> code mouse_unit B) Q : kept m ->
  (forall a, triple (contained id buffers) unit_ok (k a) Q) ->
  triple (contained id buffers) unit_ok (cbind m k) Q.
Proof. intros. eapply triple_bind; eauto. Qed.

Lemma start_mouse_ok port packet info : limits (mp_low_speed info) (mp_interface info) ->
  triple (contained id buffers) unit_ok (start_mouse fuel id port packet info) streaming.
Proof.
  intros (_ & Hp & _). unfold start_mouse. cbv zeta.
  apply unit_seq; [apply kept_request; lia|intros r1]. apply triple_if; intros _; [apply streaming_failed|].
  apply unit_seq; [apply kept_request; lia|intros r2]. apply triple_if; intros _; [apply streaming_failed|].
  apply unit_seq; [apply kept_request; lia|intros _].
  apply unit_seq.
  { eapply in_host_triple with (extra := buffers); [auto|]. apply hosted_start; [exact Hid|lia]. }
  intros r3. apply triple_if; intros _; [apply streaming_failed|].
  apply triple_ret. intros m t Hm. now split.
Qed.

Lemma try_configurations_ok port packet n : forall config info,
  triple (contained id buffers) unit_ok (try_configurations fuel n config id port packet scratch info) streaming.
Proof.
  induction n as [|n IH]; intros config info; cbn [try_configurations]; [apply streaming_failed|]. cbv zeta.
  apply unit_seq; [apply kept_request; lia|intros r1]. apply triple_if; intros _; [apply streaming_failed|].
  eapply triple_bind with (R := fun length m t => unit_ok m t /\ 0 <= length < 65536).
  { intros m t Hm. unfold read16_at, io, lift, load8. cbn. split; [exact I|]. intros lo t1 [Hlo ->].
    split; [exact I|]. intros hi t2 [Hhi ->]. split; [exact Hm|]. cbn [reply_ok wbits] in *. unfold in_u in *.
    rewrite shl32_small, Z.lor_comm, lor_add by (unfold in_u; lia). lia. }
  intros length. apply triple_pure. intros Hlen.
  do 3 (apply unit_seq; [apply kept_io; repeat bus_step|intros ?]).
  apply triple_if; intros _; [apply streaming_failed|].
  apply triple_if; intros Hmax; [apply IH|]. bool_to_prop. unfold USB_CONFIGURATION_MAX_BYTES in Hmax.
  apply unit_seq; [apply kept_request; lia|intros r2]. apply triple_if; intros _; [apply streaming_failed|].
  eapply triple_bind; [apply triple_find|]. intros found. cbv beta. apply triple_pure. intros Hfound.
  destruct found as [| |i]; [apply streaming_failed|apply IH|]. now apply start_mouse_ok.
Qed.

(** C32: probing a root port composes the host driver safely: whatever the device answers,
    it writes only that controller's block and the two buffers it was given (the 18 bytes of
    the device descriptor and the 4096 of the configuration), keeps the host state well
    formed, and succeeds only with the port marked as streaming. *)
Theorem usb_mouse_probe_contained port old :
  triple (contained id buffers) unit_ok (usb_mouse_probe_port fuel id port scratch device old)
    (fun r m t => host_ok (mu_host m) /\ (snd r = true -> mp_status (fst r) = USB_MOUSE_STREAMING)).
Proof.
  unfold usb_mouse_probe_port. cbv zeta. apply triple_if; intros _; [apply streaming_failed|].
  apply unit_seq; [apply kept_host, hosted_reset; exact Hid|intros speed].
  eapply triple_bind with (R := streaming).
  - apply triple_if; intros _; [apply streaming_failed|].
    apply unit_seq; [apply kept_identify|]. intros [info [[packet n]|]]; [|apply streaming_failed].
    apply try_configurations_ok.
  - intros r. intros m t [Hm Hr]. revert m t Hm. change (triple (contained id buffers) unit_ok
      ((if snd r then cret tt else in_host (usb_uhci_disable_port id port)) ;* cret r) streaming).
    apply unit_seq; [apply keeps_if; intros _; [apply keeps_ret|apply kept_host, hosted_disable; exact Hid]|].
    intros _. apply triple_ret. intros m t Hm. now split.
Qed.
End PROBE.

Lemma usb_mouse_probe_contained_witness :
  wp (any_hw (contained 1 (buffers 0x1000 0x3000)))
    (usb_mouse_probe_port 5 1 0 0x1000 0x3000 no_port
       (Build_mouse_unit 0 (replicate 8 no_port) 0 1 (replicate 8 (Build_hotplug_state 0 0 0)) (no_host tt)))
    (post (fun r m _ => host_ok (mu_host m) /\ (snd r = true -> mp_status (fst r) = USB_MOUSE_STREAMING))) [].
Proof.
  apply (usb_mouse_probe_contained 5 1 ltac:(lia) 0x1000 0x3000 ltac:(lia) ltac:(lia) 0 no_port). apply no_host_ok.
Defined.

(** ** Hot-plug *)
Section HOTPLUG.
Context {K : Type} (fuel : nat) (buffer device : Z).
Abbreviation mouse_unit := (@mouse_unit K).
Abbreviation scan := (service_port fuel buffer device).

(** The port differs from what the last scan recorded. *)
Definition changed (id port : Z) (m : mouse_unit) : bool :=
  negb (port_connected id port m =? hp_connected (plug_of id port m)) ||
  negb (generation_of id port m =? hp_generation (plug_of id port m)).

End HOTPLUG.

(** A mouse appears on port 0 of controller 0. *)
Definition plugged : @mouse_unit unit :=
  Build_mouse_unit 0 (replicate 8 no_port) 0 1 (replicate 8 (Build_hotplug_state 0 0 0))
    ((no_host tt) <| infos := <[0%nat := no_info <| i_status := UHCI_READY |> <| i_port_status := [3; 0] |>]> (replicate 4 no_info) |>).

