(* ===== verification/Mouse.v ===== *)
(** * The mouse driver: [Drivers/Usb/MouseDriver.c]

    Two queues fed by the USB host's reports: the cursor queue, which only the kernel
    touches with interrupts off, and the event queue, which ring 2 consumes. Both are
    values here; a ring-2 call is one step on [struct mouse_shared]. A report pointer
    is [None] when null. *)
From stdpp Require Import list gmap strings.
From S2P Require Import Prelude Machine Runtime Ring Intel915 UsbHost.

Definition MOUSE_CURSOR_QUEUE_SIZE : Z := 64.
Definition MOUSE_QUEUE_SIZE : Z := 32.
Definition MOUSE_REPORT_BYTES : Z := 64.
Definition MOUSE_CONTROLLER_COUNT : Z := 4.
Definition MOUSE_READ_EVENT : Z := 0.
Definition MOUSE_GET_BUTTONS : Z := 1.
Definition MOUSE_GET_DEVICES : Z := 2.
Definition MOUSE_EVENT_VALID : Z := 0x80000000.
Definition MOUSE_EVENT_LOST : Z := 0x40000000.
Definition MOUSE_BUSY : Z := 0x20000000.
Definition MOUSE_BAD_REQUEST : Z := 0x10000000.
Definition MOUSE_DRIVER_BASE : Z := 0x70000000.
Definition MOUSE_ENTRY_OFFSET : Z := 0x4000.
Definition MOUSE_IMAGE_SOURCE : Z := 0x8001D000.
Definition MOUSE_IMAGE_SIZE : Z := 0x3000.
Definition MOUSE_GATE_ADDRESS : Z := 0x80002358.
Definition MOUSE_READY_ADDRESS : Z := 0x8000235C.
Definition MOUSE_CURSOR_CALLBACK_ADDRESS : Z := 0x80002364.

Record mouse_cursor_packet := { c_dx : Z; c_dy : Z; c_controller : Z }.
#[export] Instance eta_cursor_packet : Eta mouse_cursor_packet := fun p =>
  Build_mouse_cursor_packet (c_dx p) (c_dy p) (c_controller p).

Record mouse_cursor_queue := {
  c_head : Z; c_tail : Z; c_dropped : Z;
  c_peak_pending : Z; c_saturated_reports : Z; c_flushes : Z; c_retry_count : Z;
  c_packets : list mouse_cursor_packet
}.
#[export] Instance eta_cursor_queue : Eta mouse_cursor_queue := fun q =>
  Build_mouse_cursor_queue (c_head q) (c_tail q) (c_dropped q) (c_peak_pending q)
    (c_saturated_reports q) (c_flushes q) (c_retry_count q) (c_packets q).

Record mouse_packet := { p_controller : Z; p_length : Z; p_data : list Z }.

Record mouse_shared := {
  m_lock : Z; m_head : Z; m_tail : Z; m_dropped : Z; m_connected : Z;
  m_last_cpl : Z; m_calls : Z; m_decoded : Z; m_malformed : Z;
  m_observed_dropped : Z; m_buttons : list Z; m_packets : list mouse_packet
}.
#[export] Instance eta_mouse_shared : Eta mouse_shared := fun s =>
  Build_mouse_shared (m_lock s) (m_head s) (m_tail s) (m_dropped s) (m_connected s)
    (m_last_cpl s) (m_calls s) (m_decoded s) (m_malformed s) (m_observed_dropped s)
    (m_buttons s) (m_packets s).

Definition no_cursor : mouse_cursor_packet := Build_mouse_cursor_packet 0 0 0.
Definition no_packet : mouse_packet := Build_mouse_packet 0 0 (replicate 64 0).

(** [data[i]] of a report. *)
Definition report_byte (data : list Z) (i : Z) : Z := at_slot 0 data i.

(** ** The cursor queue *)
Definition mouse_cursor_enqueue (queue : mouse_cursor_queue) (controller : Z)
    (data : option (list Z)) (length : Z) : mouse_cursor_queue :=
  match data with
  | None => queue
  | Some data =>
      let d1 := report_byte data 1 in
      let d2 := report_byte data 2 in
      if (MOUSE_CONTROLLER_COUNT <=? controller) || (length <? 3) || (MOUSE_REPORT_BYTES <? length) ||
         ((d1 =? 0) && (d2 =? 0))
      then queue else
      let next := (c_head queue +% 1) .& (MOUSE_CURSOR_QUEUE_SIZE - 1) in
      if next =? c_tail queue then queue <| c_dropped := c_dropped queue +% 1 |> else
      let packet := Build_mouse_cursor_packet (s8 d1) (s8 d2) (u8 controller) in
      let queue := queue <| c_packets := <[Z.to_nat (c_head queue) := packet]> (c_packets queue) |>
                         <| c_head := next |> in
      let pending := (next -% c_tail queue) .& (MOUSE_CURSOR_QUEUE_SIZE - 1) in
      let queue := if c_peak_pending queue <? pending then queue <| c_peak_pending := pending |> else queue in
      if (d1 =? 0x7F) || (d1 =? 0x80) || (d2 =? 0x7F) || (d2 =? 0x80)
      then queue <| c_saturated_reports := c_saturated_reports queue +% 1 |> else queue
  end.

(** [for (i = tail; i != head; i = (i + 1) & 63)]; 64 rounds are enough when the indices
    are in range ([cancel_spec]). *)
Fixpoint cancel_loop (fuel : nat) (i head controller : Z) (packets : list mouse_cursor_packet)
    : list mouse_cursor_packet :=
  match fuel with
  | O => packets
  | S fuel' =>
      if i =? head then packets else
      let packet := at_slot no_cursor packets i in
      let packets := if c_controller packet =? controller
                     then <[Z.to_nat i := packet <| c_controller := 255 |>]> packets else packets in
      cancel_loop fuel' ((i +% 1) .& (MOUSE_CURSOR_QUEUE_SIZE - 1)) head controller packets
  end.

Definition mouse_cursor_cancel (queue : mouse_cursor_queue) (controller : Z) : mouse_cursor_queue :=
  queue <| c_packets := cancel_loop (Z.to_nat MOUSE_CURSOR_QUEUE_SIZE) (c_tail queue) (c_head queue)
                          controller (c_packets queue) |>.

(** [packet->controller < 4 && connected & (1u << packet->controller)] *)
Definition is_connected (connected id : Z) : bool :=
  (id <? MOUSE_CONTROLLER_COUNT) && negb (connected .& (1 <<% id) =? 0).

(** The scan of a drain: the motions to submit and the tail after them. *)
Fixpoint drain_scan (rounds : nat) (tail head connected : Z) (packets : list mouse_cursor_packet)
    : list cursor_motion * Z :=
  match rounds with
  | O => ([], tail)
  | S rounds' =>
      if tail =? head then ([], tail) else
      let packet := at_slot no_cursor packets tail in
      let '(motions, tail') :=
        drain_scan rounds' ((tail +% 1) .& (MOUSE_CURSOR_QUEUE_SIZE - 1)) head connected packets in
      (if is_connected connected (c_controller packet)
       then Build_cursor_motion (c_dx packet) (c_dy packet) :: motions else motions, tail')
  end.

(** [submit] is the function pointer, [None] when null. *)
Definition mouse_cursor_drain {G} (queue : mouse_cursor_queue) (connected : Z)
    (submit : option (list cursor_motion -> Z -> code G Z)) : code G (Z * mouse_cursor_queue) :=
  let '(motions, tail) := drain_scan (Z.to_nat I915_CURSOR_BATCH) (c_tail queue) (c_head queue)
                            connected (c_packets queue) in
  let count := Z.of_nat (length motions) in
  let accepted := queue <| c_tail := tail |> in
  if count =? 0 then cret (0, accepted) else
  let* ok := match submit with
             | None => cret 0
             | Some submit => submit motions count
             end in
  if ok =? 0 then cret (0, queue <| c_retry_count := c_retry_count queue +% 1 |>)
  else cret (count, queue <| c_flushes := c_flushes queue +% 1 |> <| c_tail := tail |>).

(** ** The event queue *)

(** [for (byte = 0; byte < length; ++byte) packet->data[byte] = data[byte]] *)
Fixpoint copy_report (n : nat) (byte : Z) (data packet : list Z) : list Z :=
  match n with
  | O => packet
  | S n' => copy_report n' (byte + 1) data (<[Z.to_nat byte := report_byte data byte]> packet)
  end.

Definition mouse_queue_report (state : mouse_shared) (controller : Z) (data : option (list Z))
    (length : Z) : mouse_shared :=
  match data with
  | None => state
  | Some data =>
      if (MOUSE_CONTROLLER_COUNT <=? controller) || (MOUSE_REPORT_BYTES <? length) then state else
      let head := m_head state in
      let next := (head +% 1) .& (MOUSE_QUEUE_SIZE - 1) in
      if next =? m_tail state then state <| m_dropped := m_dropped state +% 1 |> else
      let packet := at_slot no_packet (m_packets state) head in
      let packet := Build_mouse_packet controller length
                      (copy_report (Z.to_nat length) 0 data (p_data packet)) in
      state <| m_packets := <[Z.to_nat head := packet]> (m_packets state) |> <| m_head := next |>
  end.

Definition button_of (state : mouse_shared) (id : Z) : Z := at_slot 0 (m_buttons state) id.
Definition set_button (state : mouse_shared) (id v : Z) : mouse_shared :=
  state <| m_buttons := <[Z.to_nat id := v]> (m_buttons state) |>.

(** The loop that forgets the buttons of controllers that are gone. *)
Definition clear_disconnected (state : mouse_shared) : mouse_shared :=
  fold_left (fun state id =>
    if m_connected state .& (1 <<% id) =? 0 then set_button state id 0 else state)
    (seqZ 0 MOUSE_CONTROLLER_COUNT) state.

Definition mouse_event (id dx dy buttons : Z) : Z :=
  MOUSE_EVENT_VALID .| (id <<% 24) .| (dy <<% 16) .| (dx <<% 8) .| buttons.

(** The loop of a read: [for (remaining = 32; remaining && tail != head; --remaining)] *)
Fixpoint mouse_read (remaining : nat) (state : mouse_shared) : Z * mouse_shared :=
  match remaining with
  | O => (0, state)
  | S remaining' =>
      if m_tail state =? m_head state then (0, state) else
      let tail := m_tail state in
      let packet := at_slot no_packet (m_packets state) tail in
      let id := p_controller packet in
      let length := p_length packet in
      let buttons := report_byte (p_data packet) 0 .& 7 in
      let dx := report_byte (p_data packet) 1 in
      let dy := report_byte (p_data packet) 2 in
      let state := state <| m_tail := (tail +% 1) .& (MOUSE_QUEUE_SIZE - 1) |> in
      if (MOUSE_CONTROLLER_COUNT <=? id) || (length <? 3) || (MOUSE_REPORT_BYTES <? length) then
        mouse_read remaining' (state <| m_malformed := m_malformed state +% 1 |>)
      else if m_connected state .& (1 <<% id) =? 0 then mouse_read remaining' state
      else
        let state := set_button state id (u8 buttons) in
        (mouse_event id dx dy buttons, state <| m_decoded := m_decoded state +% 1 |>)
  end.

Definition mouse_process_request (state : mouse_shared) (operation : Z) : Z * mouse_shared :=
  if MOUSE_GET_DEVICES <? operation then (MOUSE_BAD_REQUEST, state) else
  let state := clear_disconnected state in
  if negb (m_observed_dropped state =? m_dropped state) then
    let state := state <| m_observed_dropped := m_dropped state |> <| m_tail := m_head state |> in
    (MOUSE_EVENT_LOST,
     fold_left (fun state id => set_button state id 0) (seqZ 0 MOUSE_CONTROLLER_COUNT) state)
  else if operation =? MOUSE_GET_DEVICES then (m_connected state, state)
  else if operation =? MOUSE_GET_BUTTONS then
    (fold_left (fun buttons id => buttons .| button_of state id) (seqZ 0 MOUSE_CONTROLLER_COUNT) 0, state)
  else mouse_read (Z.to_nat MOUSE_QUEUE_SIZE) state.

Definition mouse_driver_service (operation : Z) : code mouse_shared Z :=
  let* busy := gets m_lock in
  modify (fun s => s <| m_lock := 1 |>) ;*
  if negb (busy =? 0) then cret MOUSE_BUSY else
  let* cs := io (access (ReadReg CS)) in
  modify (fun s => s <| m_last_cpl := cs .& 3 |> <| m_calls := m_calls s +% 1 |>) ;*
  let* cpl := gets m_last_cpl in
  let* result := if cpl =? 2 then
                   let* r := gets (fun s => mouse_process_request s operation) in
                   modify (fun _ => snd r) ;* cret (fst r)
                 else cret MOUSE_BAD_REQUEST in
  modify (fun s => s <| m_lock := 0 |>) ;*
  cret result.

(** ** The kernel half *)
Record mouse_kernel := { mouse_state : mouse_shared; cursor_queue : mouse_cursor_queue }.
#[export] Instance eta_mouse_kernel : Eta mouse_kernel := fun k =>
  Build_mouse_kernel (mouse_state k) (cursor_queue k).

Definition mouse_receive (k : mouse_kernel) (controller event : Z) (data : option (list Z)) (length : Z)
    : mouse_kernel :=
  let state := mouse_state k in
  if MOUSE_CONTROLLER_COUNT <=? controller then k
  else if event =? USB_REPORT_CONNECTED then
    k <| mouse_state := state <| m_connected := m_connected state .| (1 <<% controller) |> |>
  else if event =? USB_REPORT_DISCONNECTED then
    k <| mouse_state := state <| m_connected := m_connected state .& not32 (1 <<% controller) |>
                              <| m_dropped := m_dropped state +% 1 |> |>
      <| cursor_queue := mouse_cursor_cancel (cursor_queue k) controller |>
  else if event =? USB_REPORT_DATA then
    k <| mouse_state := mouse_queue_report state controller data length |>
      <| cursor_queue := mouse_cursor_enqueue (cursor_queue k) controller data length |>
  else k.

(** ** The cursor queue as a list of packets *)
Definition cursor_ok (q : mouse_cursor_queue) : Prop := ring 64 (c_packets q) (c_head q) (c_tail q).
Definition cursor_pending (q : mouse_cursor_queue) : list mouse_cursor_packet :=
  window no_cursor 64 (c_packets q) (c_head q) (c_tail q).

Lemma cursor_next i : 0 <= i < 64 -> (i +% 1) .& (MOUSE_CURSOR_QUEUE_SIZE - 1) = next 64 i.
Proof. apply (mask_next 64 eq_refl 6); lia. Qed.

(** A cancelled packet matches no controller. *)
Definition cancelled (controller : Z) (p : mouse_cursor_packet) : mouse_cursor_packet :=
  if c_controller p =? controller then p <| c_controller := 255 |> else p.

Lemma at_slot_insert {A} (d : A) l i x j :
  0 <= i < Z.of_nat (length l) -> 0 <= j ->
  at_slot d (<[Z.to_nat i := x]> l) j = if decide (j = i) then x else at_slot d l j.
Proof.
  intros Hi Hj. unfold at_slot. destruct (decide _) as [->|].
  - now rewrite list_lookup_insert_eq by lia.
  - now rewrite list_lookup_insert_ne by lia.
Qed.

Lemma cancel_length fuel : forall i head c l, length (cancel_loop fuel i head c l) = length l.
Proof.
  induction fuel as [|fuel IH]; intros i head c l; [reflexivity|]. cbn [cancel_loop]. case_if; [reflexivity|].
  rewrite IH. case_if; [apply length_insert|reflexivity].
Qed.

(** The packets between [i] and [head] are cancelled, the others are left alone. *)
Lemma cancel_slot fuel : forall i head c l j,
  ring 64 l head i -> 0 <= j < 64 -> (head - i) mod 64 <= Z.of_nat fuel ->
  at_slot no_cursor (cancel_loop fuel i head c l) j =
  if decide ((j - i) mod 64 < (head - i) mod 64) then cancelled c (at_slot no_cursor l j)
  else at_slot no_cursor l j.
Proof.
  induction fuel as [|fuel IH]; intros i head c l j Hr Hj Hf; pose proof Hr as (Hh & Hi & Hl);
    cbn [cancel_loop].
  - rewrite !fill_case in * by lia. repeat destruct (decide _); (reflexivity || lia).
  - destruct (Z.eqb_spec i head) as [->|Hne].
    { rewrite !fill_case in * by lia. repeat destruct (decide _); (reflexivity || lia). }
    rewrite cursor_next by lia. pose proof (next_range 64 eq_refl i) as Hn.
    pose proof (next_case 64 eq_refl i Hi) as En.
    lazymatch goal with |- context [cancel_loop fuel _ _ _ ?x] => set (l' := x) end.
    assert (at_slot no_cursor l' j = if decide (j = i) then cancelled c (at_slot no_cursor l j) else at_slot no_cursor l j) as Ej.
    { unfold l', cancelled. destruct (decide (j = i)) as [->|].
      - case_if; [|reflexivity]. rewrite at_slot_insert by lia. now rewrite decide_True.
      - case_if; [|reflexivity]. rewrite at_slot_insert by lia. now rewrite decide_False. }
    assert (Z.of_nat (length l') = 64) as Hl' by (unfold l'; case_if; rewrite ?length_insert; exact Hl).
    rewrite IH; [|now split_and!|exact Hj|].
    + rewrite Ej. rewrite !fill_case in * by lia. repeat destruct (decide _); (reflexivity || lia).
    + rewrite !fill_case in * by lia. repeat destruct (decide _); lia.
Qed.

Lemma cursor_cancel_pending q controller : cursor_ok q ->
  cursor_ok (mouse_cursor_cancel q controller) /\
  cursor_pending (mouse_cursor_cancel q controller) = map (cancelled controller) (cursor_pending q).
Proof.
  intros Hr. pose proof Hr as (Hh & Ht & Hl). split.
  - split; [exact Hh|]. split; [exact Ht|]. cbn. rewrite cancel_length. exact Hl.
  - unfold cursor_pending, mouse_cursor_cancel, window. cbn. rewrite map_map. apply map_ext_in.
    intros i Hi. apply list_elem_of_In, elem_of_seqZ in Hi.
    pose proof (Z.mod_pos_bound (c_head q - c_tail q) 64 eq_refl).
    rewrite cancel_slot; [|exact Hr|apply Z.mod_pos_bound; lia|change (Z.of_nat _) with 64; lia].
    rewrite decide_True; [reflexivity|]. rewrite slot_case by lia.
    rewrite fill_case by (repeat destruct (decide _); lia).
    repeat destruct (decide _); lia.
Qed.

(** What a drain submits: the motions of the connected controllers, in order. *)
Definition motions_of (connected : Z) (l : list mouse_cursor_packet) : list cursor_motion :=
  map (fun p => Build_cursor_motion (c_dx p) (c_dy p))
    (filter (fun p => is_connected connected (c_controller p) = true) l).

Lemma drain_scan_all rounds : forall tail head connected l,
  ring 64 l head tail -> Z.of_nat (length (window no_cursor 64 l head tail)) <= Z.of_nat rounds ->
  drain_scan rounds tail head connected l = (motions_of connected (window no_cursor 64 l head tail), head).
Proof.
  induction rounds as [|rounds IH]; intros tail head connected l Hr Hn; cbn [drain_scan].
  - destruct (window no_cursor 64 l head tail) eqn:E; [|cbn in Hn; lia].
    pose proof (length_window no_cursor 64 eq_refl l head tail) as Hw. rewrite E in Hw. cbn in Hw.
    destruct Hr as (Hh & Ht & _). rewrite fill_case in Hw by lia.
    f_equal. destruct (decide _); lia.
  - destruct (Z.eqb_spec tail head) as [->|Hne]; [now rewrite window_empty|].
    rewrite cursor_next by apply Hr. rewrite (window_pop no_cursor 64 eq_refl l head tail Hr Hne) in Hn |- *.
    rewrite IH; [|now apply ring_pop|cbn [length] in Hn; lia]. unfold motions_of.
    destruct (is_connected connected _) eqn:E.
    + rewrite filter_cons_True by exact E. reflexivity.
    + rewrite filter_cons_False by (rewrite E; discriminate). reflexivity.
Qed.

(** One drain always deals with the whole queue. The batch passed to [submit] is
    exactly the queued motions of the controllers still connected, oldest first, and
    nothing is left when it is accepted (or when there is nothing to submit); when
    it is refused every packet stays queued for the next attempt, and only the retry
    counter moves. This holds of every [submit], whatever it does. *)
Lemma drain_submits {G} q connected (submit : list cursor_motion -> Z -> code G Z) :
  cursor_ok q ->
  let motions := motions_of connected (cursor_pending q) in
  let emptied := q <| c_tail := c_head q |> in
  (length motions <= 63)%nat /\
  mouse_cursor_drain q connected (Some submit) =
    match motions with
    | [] => cret (0, emptied)
    | _ => let* ok := submit motions (Z.of_nat (length motions)) in
           if ok =? 0 then cret (0, q <| c_retry_count := c_retry_count q +% 1 |>)
           else cret (Z.of_nat (length motions), emptied <| c_flushes := c_flushes q +% 1 |>)
    end.
Proof.
  intros Hr. cbv zeta. pose proof (window_bound no_cursor 64 eq_refl (c_packets q) (c_head q) (c_tail q)) as Hb.
  split.
  - unfold motions_of, cursor_pending. rewrite length_map.
    pose proof (length_filter (fun p => is_connected connected (c_controller p) = true)
                  (window no_cursor 64 (c_packets q) (c_head q) (c_tail q))). lia.
  - unfold mouse_cursor_drain. rewrite drain_scan_all;
      [|exact Hr|change (Z.to_nat I915_CURSOR_BATCH) with 64%nat; lia].
    unfold cursor_pending. destruct (motions_of _ _) as [|m l]; [reflexivity|].
    destruct (Z.eqb_spec (Z.of_nat (length (m :: l))) 0); [cbn in *; lia|]. reflexivity.
Qed.

(** A motion of mouse 1 is queued behind one of mouse 0, which is gone. *)
Definition two_motions : mouse_cursor_queue :=
  let empty := Build_mouse_cursor_queue 0 0 0 0 0 0 0 (replicate 64 no_cursor) in
  mouse_cursor_enqueue (mouse_cursor_enqueue empty 0 (Some [0; 5; 0]) 3) 1 (Some [0; 0; 0xFE]) 3.

Lemma two_motions_drained :
  cursor_ok two_motions /\
  mouse_cursor_drain (G := unit) two_motions 2 (Some (fun _ _ => cret 1)) =
    cret (1, two_motions <| c_tail := 2 |> <| c_flushes := 1 |>) /\
  motions_of 2 (cursor_pending two_motions) = [Build_cursor_motion 0 (-2)].
Proof.
  assert (cursor_ok two_motions) as H by (vm_compute; split_and!; congruence).
  split; [exact H|]. split; [|vm_compute; reflexivity].
  etransitivity; [exact (proj2 (drain_submits two_motions 2 (fun _ _ => cret 1) H))|].
  vm_compute. reflexivity.
Qed.
