(* ===== verification/MouseEvents.v ===== *)
(** * The mouse event queue as an abstract mailbox

    What [struct mouse_shared] promises to its clients: reports come out in the order they
    went in, losses are announced before anything else, buttons belong to connected
    controllers. [mouse_refines] shows that the ring and its operations are that mailbox
    for every sequence of operations. *)
From stdpp Require Import list gmap strings.
From S2P Require Import Prelude Machine Ring UsbHost Mouse.

(** ** The mailbox *)
Record mailbox := { b_reports : list mouse_packet; b_lost : Z; b_connected : Z; b_buttons : list Z }.
#[export] Instance eta_mailbox : Eta mailbox := fun b =>
  Build_mailbox (b_reports b) (b_lost b) (b_connected b) (b_buttons b).

Inductive mouse_op :=
| Report (controller : Z) (data : list Z)
| Connect (controller : Z)
| Disconnect (controller : Z)
| Request (operation : Z).

Definition well_formed (p : mouse_packet) : bool :=
  (p_controller p <? 4) && (3 <=? p_length p) && (p_length p <=? 64).

(** The first report worth an event, and the reports behind it. *)
Fixpoint next_event (connected : Z) (l : list mouse_packet) : option mouse_packet * list mouse_packet :=
  match l with
  | [] => (None, [])
  | p :: l =>
      if well_formed p && is_connected connected (p_controller p) then (Some p, l)
      else next_event connected l
  end.

Definition event_of (p : mouse_packet) : Z :=
  mouse_event (p_controller p) (report_byte (p_data p) 1) (report_byte (p_data p) 2)
    (report_byte (p_data p) 0 .& 7).

Definition live_buttons (connected : Z) (buttons : list Z) : list Z :=
  imap (fun id b => if connected .& (1 <<% Z.of_nat id) =? 0 then 0 else b) buttons.

Definition request (b : mailbox) (operation : Z) : Z * mailbox :=
  if 2 <? operation then (MOUSE_BAD_REQUEST, b) else
  if negb (b_lost b =? 0) then
    (MOUSE_EVENT_LOST, b <| b_reports := [] |> <| b_lost := 0 |> <| b_buttons := [0; 0; 0; 0] |>)
  else
    let live := live_buttons (b_connected b) (b_buttons b) in
    let b := b <| b_buttons := live |> in
    if operation =? 2 then (b_connected b, b)
    else if operation =? 1 then (fold_left Z.lor live 0, b)
    else match next_event (b_connected b) (b_reports b) with
         | (None, rest) => (0, b <| b_reports := rest |>)
         | (Some p, rest) =>
             (event_of p, b <| b_reports := rest |>
                            <| b_buttons := <[Z.to_nat (p_controller p) := report_byte (p_data p) 0 .& 7]> live |>)
         end.

Definition mailbox_step (b : mailbox) (op : mouse_op) : Z * mailbox :=
  match op with
  | Report controller data =>
      let n := Z.of_nat (length data) in
      (0, if (4 <=? controller) || (64 <? n) then b
          else if decide (length (b_reports b) = 31%nat) then b <| b_lost := b_lost b +% 1 |>
          else b <| b_reports := b_reports b ++ [Build_mouse_packet controller n data] |>)
  | Connect c => (0, b <| b_connected := b_connected b .| (1 <<% c) |>)
  | Disconnect c =>
      (0, b <| b_connected := b_connected b .& not32 (1 <<% c) |> <| b_lost := b_lost b +% 1 |>)
  | Request operation => request b operation
  end.

(** ** The implementation's steps: the kernel's callback and the ring-2 request *)
Definition mouse_step (k : mouse_kernel) (op : mouse_op) : Z * mouse_kernel :=
  match op with
  | Report controller data =>
      (0, mouse_receive k controller USB_REPORT_DATA (Some data) (Z.of_nat (length data)))
  | Connect c => (0, mouse_receive k c USB_REPORT_CONNECTED None 0)
  | Disconnect c => (0, mouse_receive k c USB_REPORT_DISCONNECTED None 0)
  | Request operation =>
      let (r, s) := mouse_process_request (mouse_state k) operation in (r, k <| mouse_state := s |>)
  end.

Fixpoint run {S} (step : S -> mouse_op -> Z * S) (s : S) (ops : list mouse_op) : list Z * S :=
  match ops with
  | [] => ([], s)
  | op :: ops =>
      let (r, s) := step s op in let (rs, s) := run step s ops in (r :: rs, s)
  end.

(** ** The abstraction *)
Definition reports (s : mouse_shared) : list mouse_packet :=
  window no_packet 32 (m_packets s) (m_head s) (m_tail s).

(** Only the reported bytes of a slot mean anything. *)
Definition clean (p : mouse_packet) : mouse_packet :=
  Build_mouse_packet (p_controller p) (p_length p) (take (Z.to_nat (p_length p)) (p_data p)).

Definition mailbox_of (s : mouse_shared) : mailbox :=
  Build_mailbox (map clean (reports s)) (m_dropped s -% m_observed_dropped s) (m_connected s) (m_buttons s).

Definition packet_ok (p : mouse_packet) : Prop :=
  length (p_data p) = 64%nat /\ Forall is_u8 (p_data p) /\ 0 <= p_controller p /\ 0 <= p_length p.

Definition mouse_ok (s : mouse_shared) : Prop :=
  ring 32 (m_packets s) (m_head s) (m_tail s) /\ Forall packet_ok (m_packets s) /\
  length (m_buttons s) = 4%nat /\ is_u32 (m_dropped s) /\ is_u32 (m_observed_dropped s).

Definition valid_op (op : mouse_op) : Prop :=
  match op with
  | Report controller data => 0 <= controller /\ Forall is_u8 data
  | Connect c | Disconnect c => 0 <= c < 4
  | Request operation => 0 <= operation
  end.

Lemma event_next i : 0 <= i < 32 -> (i +% 1) .& (MOUSE_QUEUE_SIZE - 1) = next 32 i.
Proof. apply (mask_next 32 eq_refl 5); lia. Qed.

(** ** Reports *)
Lemma copy_report_spec n : forall byte data packet,
  0 <= byte -> byte + Z.of_nat n <= Z.of_nat (length data) -> byte + Z.of_nat n <= Z.of_nat (length packet) ->
  copy_report n byte data packet =
  take (Z.to_nat byte) packet ++ take n (drop (Z.to_nat byte) data) ++ drop (Z.to_nat byte + n) packet.
Proof.
  induction n as [|n IH]; intros byte data packet Hb Hd Hp; cbn [copy_report].
  - rewrite take_0, Nat.add_0_r. cbn. now rewrite take_drop.
  - rewrite IH by (rewrite ?length_insert; lia).
    replace (Z.to_nat (byte + 1)) with (S (Z.to_nat byte)) by lia.
    destruct (lookup_lt_is_Some_2 data (Z.to_nat byte)) as [x Hx]; [lia|].
    replace (report_byte data byte) with x by (unfold report_byte, at_slot; now rewrite Hx).
    rewrite (drop_S data x (Z.to_nat byte) Hx). cbn [take].
    rewrite drop_insert_lt by lia.
    rewrite (take_S_r _ _ x) by (apply list_lookup_insert_eq; lia).
    rewrite take_insert_ge by lia. rewrite <- app_assoc. cbn [app]. do 3 f_equal. f_equal. lia.
Qed.

Lemma slot_packet_ok l i : Forall packet_ok l -> packet_ok (at_slot no_packet l i).
Proof.
  intros H. unfold at_slot. destruct (l !! Z.to_nat i) as [p|] eqn:E; cbn.
  - exact (Forall_lookup_1 _ _ _ _ H E).
  - split; [reflexivity|]. split; [apply Forall_replicate; unfold in_u; lia|]. cbn. lia.
Qed.

Lemma report_packet controller data old :
  0 <= controller -> Forall is_u8 data -> Z.of_nat (length data) <= 64 -> packet_ok old ->
  let p := Build_mouse_packet controller (Z.of_nat (length data))
             (copy_report (Z.to_nat (Z.of_nat (length data))) 0 data (p_data old)) in
  packet_ok p /\ clean p = Build_mouse_packet controller (Z.of_nat (length data)) data.
Proof.
  intros Hc Hd Hn (Hl & Hb & _). cbv zeta. rewrite copy_report_spec by lia.
  rewrite Nat2Z.id. change (Z.to_nat 0) with O. rewrite take_0, drop_0, (take_ge data) by lia. cbn [app Nat.add].
  split.
  - split; [|split].
    + cbn. rewrite length_app, length_drop. lia.
    + cbn. apply Forall_app_2; [exact Hd|]. now apply Forall_drop.
    + cbn. lia.
  - unfold clean. cbn [p_controller p_length p_data]. rewrite Nat2Z.id. f_equal. apply take_app_length.
Qed.

Lemma reports_full s : mouse_ok s ->
  next 32 (m_head s) = m_tail s <-> length (reports s) = 31%nat.
Proof.
  intros ((Hh & Ht & Hl) & _). pose proof (length_window no_packet 32 eq_refl (m_packets s) (m_head s) (m_tail s)) as E.
  fold (reports s) in E. rewrite fill_case in E by lia. pose proof (next_case 32 eq_refl (m_head s) Hh) as En.
  repeat destruct (decide _); lia.
Qed.

(** What one step of the mailbox says about the shared state. *)
Definition refines (s s' : mouse_shared) (b : mailbox) : Prop := mouse_ok s' /\ mailbox_of s' = b.

Lemma sub_add_one a b : is_u32 b -> (a +% 1) -% b = (a -% b) +% 1.
Proof.
  intros Hb. unfold add32, sub32, u32, wrap. rewrite Zminus_mod_idemp_l, Zplus_mod_idemp_l. f_equal. lia.
Qed.

Lemma report_refines s controller data : mouse_ok s -> 0 <= controller -> Forall is_u8 data ->
  refines s (mouse_queue_report s controller (Some data) (Z.of_nat (length data)))
    (snd (mailbox_step (mailbox_of s) (Report controller data))).
Proof.
  intros Hs Hc Hd. pose proof Hs as (Hr & Hp & Hb & Hd1 & Hd2). unfold mouse_queue_report. cbn [mailbox_step snd].
  unfold MOUSE_CONTROLLER_COUNT, MOUSE_REPORT_BYTES. case_if; [now split|]. bool_to_prop.
  rewrite event_next by apply Hr. pose proof (reports_full s Hs) as Hfull.
  cbn [b_reports mailbox_of]. rewrite length_map.
  destruct (Z.eqb_spec (next 32 (m_head s)) (m_tail s)) as [E|E].
  - rewrite decide_True by tauto. split; [exact (conj Hr (conj Hp (conj Hb (conj (add32_range _ _) Hd2))))|].
    unfold mailbox_of, assign. cbn. now rewrite sub_add_one.
  - rewrite decide_False by tauto.
    destruct (report_packet controller data (at_slot no_packet (m_packets s) (m_head s)))
      as [Hok Hclean]; [assumption|assumption|lia|now apply slot_packet_ok|]. split.
    + split; [now apply ring_push|]. exact (conj (Forall_insert _ _ _ _ Hp Hok) (conj Hb (conj Hd1 Hd2))).
    + unfold mailbox_of, reports, assign. cbn. f_equal.
      rewrite window_push by (lia || assumption). rewrite map_app. cbn [map]. now rewrite Hclean.
Qed.

(** ** Requests *)
Lemma clear_buttons s : length (m_buttons s) = 4%nat ->
  clear_disconnected s = s <| m_buttons := live_buttons (m_connected s) (m_buttons s) |>.
Proof.
  intros H. destruct s as [? ? ? ? c ? ? ? ? ? b ?]. cbn in H.
  destruct b as [|b0 [|b1 [|b2 [|b3 [|]]]]]; try discriminate. unfold clear_disconnected, live_buttons.
  change (seqZ 0 MOUSE_CONTROLLER_COUNT) with [0; 1; 2; 3]. cbn [fold_left].
  unfold set_button, assign. cbn [m_connected m_buttons imap compose].
  change (Z.of_nat 0) with 0. change (Z.of_nat 1) with 1. change (Z.of_nat 2) with 2. change (Z.of_nat 3) with 3.
  repeat (case_if; cbn [m_connected m_buttons]); reflexivity.
Qed.

Lemma connected_bit connected id : 0 <= id < 4 -> is_connected connected id = negb (connected .& (1 <<% id) =? 0).
Proof.
  intros Hi. unfold is_connected, MOUSE_CONTROLLER_COUNT. destruct (Z.ltb_spec id 4); [reflexivity|lia].
Qed.

(** The loop over the ring is the search over the list; the counter of malformed
    reports is the only trace the skipped ones leave. *)
Lemma mouse_read_refines n : forall s, mouse_ok s -> (length (reports s) <= n)%nat ->
  let (r, s') := mouse_read n s in
  mouse_ok s' /\ m_connected s' = m_connected s /\ m_dropped s' = m_dropped s /\
  m_observed_dropped s' = m_observed_dropped s /\
  match next_event (m_connected s) (map clean (reports s)) with
  | (None, rest) => r = 0 /\ map clean (reports s') = rest /\ m_buttons s' = m_buttons s
  | (Some p, rest) =>
      r = event_of p /\ map clean (reports s') = rest /\
      m_buttons s' = <[Z.to_nat (p_controller p) := report_byte (p_data p) 0 .& 7]> (m_buttons s)
  end.
Proof.
  induction n as [|n IH]; intros s Hs Hn; cbn [mouse_read].
  { destruct (reports s) eqn:E; [|cbn in Hn; lia]. cbv beta iota. cbn [map next_event]. auto 10. }
  destruct (Z.eqb_spec (m_tail s) (m_head s)) as [E|E].
  { assert (reports s = []) as Er by (unfold reports; rewrite E; apply window_empty). cbv beta iota. rewrite Er.
    cbn [map next_event]. auto 10. }
  pose proof Hs as (Hr & Hp & Hb & Hd1 & Hd2). rewrite event_next by apply Hr.
  pose proof (window_pop no_packet 32 eq_refl _ _ _ Hr E) as Hpop. fold (reports s) in Hpop.
  set (p := at_slot no_packet (m_packets s) (m_tail s)) in *. rewrite Hpop in Hn |- *. cbn [length] in Hn.
  assert (packet_ok p) as (Hpl & Hpb & Hpc & Hpn) by now apply slot_packet_ok.
  set (s1 := s <| m_tail := next 32 (m_tail s) |>).
  assert (mouse_ok s1) as Hs1 by exact (conj (ring_pop 32 eq_refl _ _ _ Hr) (conj Hp (conj Hb (conj Hd1 Hd2)))).
  change (window no_packet 32 (m_packets s) (m_head s) (next 32 (m_tail s))) with (reports s1) in *.
  cbn [map next_event]. unfold MOUSE_CONTROLLER_COUNT, MOUSE_REPORT_BYTES.
  change (well_formed (clean p)) with (well_formed p). change (p_controller (clean p)) with (p_controller p).
  assert (well_formed p = negb ((4 <=? p_controller p) || (p_length p <? 3) || (64 <? p_length p))) as ->.
  { unfold well_formed. rewrite !negb_orb, <- Z.ltb_antisym, <- Z.leb_antisym, <- Z.leb_antisym. reflexivity. }
  destruct ((4 <=? p_controller p) || (p_length p <? 3) || (64 <? p_length p)) eqn:Em; cbn [negb andb].
  { set (s2 := s1 <| m_malformed := m_malformed s1 +% 1 |>).
    assert (mouse_ok s2) as Hs2 by (unfold mouse_ok in *; exact Hs1).
    assert (reports s2 = reports s1) as E2 by reflexivity.
    specialize (IH s2 Hs2). rewrite E2 in IH. destruct (mouse_read n s2). apply IH. lia. }
  bool_to_prop. rewrite connected_bit by lia. change (m_connected s1) with (m_connected s).
  destruct (m_connected s .& (1 <<% p_controller p) =? 0) eqn:Ec; cbn [negb].
  { assert (length (reports s1) <= n)%nat as Hn1 by lia. specialize (IH s1 Hs1 Hn1).
    destruct (mouse_read n s1). exact IH. }
  assert (forall i, 0 <= i < 3 -> report_byte (p_data (clean p)) i = report_byte (p_data p) i) as Hbyte.
  { intros i Hi. unfold report_byte, at_slot, clean. cbn. rewrite lookup_take_lt by lia. reflexivity. }
  unfold event_of. change (p_controller (clean p)) with (p_controller p). rewrite !Hbyte by lia.
  assert (u8 (report_byte (p_data p) 0 .& 7) = report_byte (p_data p) 0 .& 7) as ->.
  { apply wrap_small. pose proof (land_le (report_byte (p_data p) 0) 7). ulia. }
  split.
  { split; [apply Hs1|]. split; [exact Hp|]. split; [|exact (conj Hd1 Hd2)].
    cbn. rewrite length_insert. exact Hb. }
  auto 10.
Qed.

Lemma live_length connected buttons : length (live_buttons connected buttons) = length buttons.
Proof. apply length_imap. Qed.

Lemma forget_all s : length (m_buttons s) = 4%nat ->
  fold_left (fun state id => set_button state id 0) (seqZ 0 MOUSE_CONTROLLER_COUNT) s =
  s <| m_buttons := [0; 0; 0; 0] |>.
Proof.
  intros H. destruct s as [? ? ? ? ? ? ? ? ? ? b ?]. cbn in H.
  destruct b as [|b0 [|b1 [|b2 [|b3 [|]]]]]; try discriminate. reflexivity.
Qed.

Lemma or_buttons s : length (m_buttons s) = 4%nat ->
  fold_left (fun buttons id => buttons .| button_of s id) (seqZ 0 MOUSE_CONTROLLER_COUNT) 0 =
  fold_left Z.lor (m_buttons s) 0.
Proof.
  intros H. destruct s as [? ? ? ? ? ? ? ? ? ? b ?]. cbn in H.
  destruct b as [|b0 [|b1 [|b2 [|b3 [|]]]]]; try discriminate. reflexivity.
Qed.

Lemma sub_zero a b : is_u32 a -> is_u32 b -> (a -% b =? 0) = (b =? a).
Proof.
  intros Ha Hb. destruct (Z.eqb_spec b a) as [->|Hne].
  - unfold sub32. now rewrite Z.sub_diag.
  - apply Z.eqb_neq. intros E. apply Hne. unfold sub32, u32, wrap in E.
    apply Z.mod_divide in E; [|lia]. destruct E as [k E]. unfold in_u in *. nia.
Qed.

Lemma request_refines s operation : mouse_ok s ->
  fst (mouse_process_request s operation) = fst (request (mailbox_of s) operation) /\
  refines s (snd (mouse_process_request s operation)) (snd (request (mailbox_of s) operation)).
Proof.
  intros Hs. pose proof Hs as (Hr & Hp & Hb & Hd1 & Hd2). unfold mouse_process_request, request.
  change MOUSE_GET_DEVICES with 2. case_if; [now split|]. cbn [b_lost mailbox_of].
  rewrite sub_zero, clear_buttons by assumption. cbn [m_observed_dropped m_dropped assign].
  set (live := live_buttons _ _). assert (length live = 4%nat) as Hlive by (unfold live; now rewrite live_length).
  set (s1 := s <| m_buttons := live |>).
  assert (mouse_ok s1) as Hs1 by exact (conj Hr (conj Hp (conj Hlive (conj Hd1 Hd2)))).
  change (m_observed_dropped s1) with (m_observed_dropped s). change (m_dropped s1) with (m_dropped s).
  destruct (negb (m_observed_dropped s =? m_dropped s)) eqn:El.
  - rewrite forget_all by exact Hlive. split; [reflexivity|]. split.
    + destruct Hr as (Hh & Ht & Hl). exact (conj (conj Hh (conj Hh Hl)) (conj Hp (conj eq_refl (conj Hd1 Hd1)))).
    + unfold mailbox_of, reports, assign. cbn [snd m_packets m_head m_tail m_dropped m_observed_dropped m_connected m_buttons].
      rewrite window_empty. unfold sub32. rewrite Z.sub_diag. reflexivity.
  - change MOUSE_GET_BUTTONS with 1. case_if; [exact (conj eq_refl (conj Hs1 eq_refl))|]. case_if.
    + rewrite or_buttons by exact Hlive. exact (conj eq_refl (conj Hs1 eq_refl)).
    + pose proof (window_bound no_packet 32 eq_refl (m_packets s) (m_head s) (m_tail s)) as Hw.
      assert (length (reports s1) <= 32)%nat as Hn.
      { change (reports s1) with (window no_packet 32 (m_packets s) (m_head s) (m_tail s)). lia. }
      pose proof (mouse_read_refines 32 s1 Hs1 Hn) as H. change (Z.to_nat MOUSE_QUEUE_SIZE) with 32%nat.
      destruct (mouse_read 32 s1) as [r s']. destruct H as (Hok & Ec & Ed & Eo & H).
      change (next_event _ _) with (next_event (m_connected s1) (map clean (reports s1))).
      destruct (next_event _ _) as [[p|] rest]; destruct H as (-> & Hrest & Hbut); (split; [reflexivity|]);
        (split; [exact Hok|]); change (mailbox_of (snd _)) with (Build_mailbox (map clean (reports s'))
          (m_dropped s' -% m_observed_dropped s') (m_connected s') (m_buttons s'));
        rewrite Hrest, Hbut, Ec, Ed, Eo; reflexivity.
Qed.

(** ** Every operation *)
Lemma step_refines k op : mouse_ok (mouse_state k) -> valid_op op ->
  fst (mouse_step k op) = fst (mailbox_step (mailbox_of (mouse_state k)) op) /\
  refines (mouse_state k) (mouse_state (snd (mouse_step k op)))
    (snd (mailbox_step (mailbox_of (mouse_state k)) op)).
Proof.
  intros Hs Hop. destruct op as [c data|c|c|o]; cbn [valid_op] in Hop; cbn [mouse_step mailbox_step].
  - split; [reflexivity|]. destruct Hop as [Hc Hd].
    pose proof (report_refines (mouse_state k) c data Hs Hc Hd) as H. unfold mouse_receive.
    destruct (Z.leb_spec MOUSE_CONTROLLER_COUNT c) as [Hge|Hlt]; [|exact H].
    unfold mouse_queue_report in H. destruct (Z.leb_spec MOUSE_CONTROLLER_COUNT c); [exact H|lia].
  - split; [reflexivity|]. unfold mouse_receive. destruct (Z.leb_spec MOUSE_CONTROLLER_COUNT c);
      [unfold MOUSE_CONTROLLER_COUNT in *; lia|]. split; [exact Hs|reflexivity].
  - split; [reflexivity|]. unfold mouse_receive. destruct (Z.leb_spec MOUSE_CONTROLLER_COUNT c);
      [unfold MOUSE_CONTROLLER_COUNT in *; lia|]. repeat closed_if. destruct Hs as (Hr & Hp & Hb & Hd1 & Hd2).
    split; [exact (conj Hr (conj Hp (conj Hb (conj (add32_range _ _) Hd2))))|].
    unfold mailbox_of, assign. cbn. now rewrite sub_add_one.
  - pose proof (request_refines (mouse_state k) o Hs) as H.
    destruct (mouse_process_request (mouse_state k) o) as [r s]. exact H.
Qed.

(** C10: for every sequence of reports, connections, disconnections and ring-2 requests,
    the driver answers exactly what the abstract mailbox answers, and its state stays a
    well-formed representation of the mailbox: reports are delivered once, in order, only
    while their controller is connected; malformed and stale ones are skipped; a loss is
    announced by the next request, which empties the queue and releases all buttons. *)
Theorem mouse_refines k ops :
  mouse_ok (mouse_state k) -> Forall valid_op ops ->
  fst (run mouse_step k ops) = fst (run mailbox_step (mailbox_of (mouse_state k)) ops) /\
  mouse_ok (mouse_state (snd (run mouse_step k ops))) /\
  mailbox_of (mouse_state (snd (run mouse_step k ops))) =
    snd (run mailbox_step (mailbox_of (mouse_state k)) ops).
Proof.
  intros Hs Hops. revert k Hs. induction Hops as [|op ops Hop _ IH]; intros k Hs; [now split_and!|].
  cbn [run]. destruct (step_refines k op Hs Hop) as [E1 [Hs' E2]].
  destruct (mouse_step k op) as [r k']. destruct (mailbox_step _ op) as [r' b']. cbn [fst snd] in *. subst r' b'.
  destruct (IH k' Hs') as (E3 & Hok & E4).
  destruct (run mouse_step k' ops), (run mailbox_step _ ops). cbn [fst snd] in *. subst. now split_and!.
Qed.

Definition idle_mouse : mouse_kernel :=
  Build_mouse_kernel
    (Build_mouse_shared 0 0 0 0 0 0 0 0 0 0 [0; 0; 0; 0] (replicate 32 no_packet))
    (Build_mouse_cursor_queue 0 0 0 0 0 0 0 (replicate 64 no_cursor)).

Lemma idle_ok : mouse_ok (mouse_state idle_mouse).
Proof.
  split; [vm_compute; split_and!; congruence|]. split; [|vm_compute; split_and!; congruence].
  apply Forall_replicate. split; [reflexivity|].
  split; [apply Forall_replicate; unfold in_u; lia|cbn; lia].
Qed.

(** A click with a motion, read back, then a disconnection. *)
Lemma mouse_refines_witness :
  let ops := [Connect 2; Report 2 [1; 3; 0xFF]; Request 0; Request 0; Disconnect 2; Request 1; Request 1] in
  Forall valid_op ops /\
  fst (run mouse_step idle_mouse ops) = fst (run mailbox_step (mailbox_of (mouse_state idle_mouse)) ops) /\
  fst (run mouse_step idle_mouse ops) = [0; 0; 0x82FF0301; 0; 0; MOUSE_EVENT_LOST; 0].
Proof.
  cbv zeta. assert (Forall valid_op [Connect 2; Report 2 [1; 3; 0xFF]; Request 0; Request 0; Disconnect 2; Request 1; Request 1]) as H.
  { repeat constructor; cbn; lia. }
  split; [exact H|]. split; [exact (proj1 (mouse_refines idle_mouse _ idle_ok H))|vm_compute; reflexivity].
Defined.

(** ** The event word *)
Lemma mouse_event_sum id dx dy buttons :
  0 <= id < 4 -> is_u8 dx -> is_u8 dy -> 0 <= buttons < 8 ->
  mouse_event id dx dy buttons = 2 ^ 31 + id * 2 ^ 24 + dy * 2 ^ 16 + dx * 2 ^ 8 + buttons.
Proof.
  intros Hi Hx Hy Hb. unfold mouse_event, MOUSE_EVENT_VALID. unfold in_u in *. rewrite !shl32_small by lia.
  change 0x80000000 with (32 * 2 ^ 26). rewrite lor_add by (unfold in_u; lia).
  replace (32 * 2 ^ 26 + id * 2 ^ 24) with ((128 + id) * 2 ^ 24) by lia. rewrite lor_add by (unfold in_u; lia).
  replace ((128 + id) * 2 ^ 24 + dy * 2 ^ 16) with ((256 * (128 + id) + dy) * 2 ^ 16) by lia.
  rewrite lor_add by (unfold in_u; lia).
  replace ((256 * (128 + id) + dy) * 2 ^ 16 + dx * 2 ^ 8) with ((256 * (256 * (128 + id) + dy) + dx) * 2 ^ 8) by lia.
  rewrite lor_add by (unfold in_u; lia). lia.
Qed.

(** An event word carries its four fields without interference, so a client that
    shifts and masks gets the controller, both deltas and the buttons back; its top four
    bits are exactly the valid mark, so it is never taken for a lost, busy or bad-request
    answer. *)
Lemma mouse_event_fields id dx dy buttons :
  0 <= id < 4 -> is_u8 dx -> is_u8 dy -> 0 <= buttons < 8 ->
  let e := mouse_event id dx dy buttons in
  is_u32 e /\ e .& 0xF0000000 = MOUSE_EVENT_VALID /\
  (e >>> 24) .& 3 = id /\ (e >>> 16) .& 0xFF = dy /\ (e >>> 8) .& 0xFF = dx /\ e .& 7 = buttons.
Proof.
  intros Hi Hx Hy Hb e. unfold e. rewrite mouse_event_sum by assumption. clear e. unfold in_u in *.
  assert (is_u32 (2 ^ 31 + id * 2 ^ 24 + dy * 2 ^ 16 + dx * 2 ^ 8 + buttons)) as Hu by (unfold in_u; lia).
  split; [exact Hu|]. change 0xF0000000 with (not32 (2 ^ 28 - 1)). rewrite land_not_mask by (exact Hu || lia).
  rewrite !Z.shiftr_div_pow2 by lia.
  rewrite (land_ones_mod _ 2), !(land_ones_mod _ 8), (land_ones_mod _ 3) by lia.
  change MOUSE_EVENT_VALID with (2 ^ 31).
  change (2 ^ 31) with 2147483648; change (2 ^ 28) with 268435456; change (2 ^ 24) with 16777216;
  change (2 ^ 16) with 65536; change (2 ^ 8) with 256; change (2 ^ 2) with 4; change (2 ^ 3) with 8.
  split_and!; Z.to_euclidean_division_equations; lia.
Qed.

(** ** Disconnection *)
Lemma motions_cancelled connected c l :
  motions_of connected (map (cancelled c) l) =
  motions_of connected (filter (fun p => c_controller p <> c) l).
Proof.
  unfold motions_of. induction l as [|p l IH]; [reflexivity|]. cbn [map]. unfold cancelled at 1.
  destruct (Z.eqb_spec (c_controller p) c) as [E|E].
  - rewrite filter_cons_False by (cbn; discriminate). rewrite (filter_cons_False _ p) by tauto. exact IH.
  - rewrite (filter_cons_True (fun p => c_controller p <> c)) by exact E.
    destruct (is_connected connected (c_controller p)) eqn:Ec.
    + rewrite !filter_cons_True by exact Ec. cbn [map]. now f_equal.
    + rewrite !filter_cons_False by (rewrite Ec; discriminate). exact IH.
Qed.

(** C30: nothing a mouse reported before it was disconnected is used after: the cursor
    queue never submits its motions again, whichever controllers are connected later (its
    own number reused included), while the motions of the other mice stay queued in
    order; and the next request, of any kind, announces the loss, drops every
    queued event and releases every button. *)
Theorem mouse_disconnect_forgets k c :
  mouse_ok (mouse_state k) -> cursor_ok (cursor_queue k) -> 0 <= c < 4 ->
  m_observed_dropped (mouse_state k) = m_dropped (mouse_state k) ->
  let k' := mouse_receive k c USB_REPORT_DISCONNECTED None 0 in
  (forall connected,
     motions_of connected (cursor_pending (cursor_queue k')) =
     motions_of connected (filter (fun p => c_controller p <> c) (cursor_pending (cursor_queue k)))) /\
  (forall connected operation, 0 <= operation <= 2 ->
     let '(r, s) := mouse_process_request ((mouse_state k') <| m_connected := connected |>) operation in
     r = MOUSE_EVENT_LOST /\ reports s = [] /\ m_buttons s = [0; 0; 0; 0]).
Proof.
  intros Hs Hq Hc Hd k'. pose proof Hs as (Hr & Hp & Hb & Hd1 & Hd2).
  assert (k' = mouse_receive k c USB_REPORT_DISCONNECTED None 0) as E by reflexivity. clearbody k'.
  unfold mouse_receive in E. destruct (Z.leb_spec MOUSE_CONTROLLER_COUNT c); [unfold MOUSE_CONTROLLER_COUNT in *; lia|].
  change (USB_REPORT_DISCONNECTED =? USB_REPORT_CONNECTED) with false in E.
  change (USB_REPORT_DISCONNECTED =? USB_REPORT_DISCONNECTED) with true in E. cbn iota in E. subst k'. split.
  - intros connected. destruct (cursor_cancel_pending (cursor_queue k) c Hq) as [_ Ep].
    cbn [cursor_queue assign]. rewrite <- motions_cancelled, <- Ep. reflexivity.
  - intros connected operation Hop.
    match goal with |- context [mouse_process_request ?x _] => set (s := x) end.
    assert (mouse_ok s) as Hs' by exact (conj Hr (conj Hp (conj Hb (conj (add32_range _ _) Hd2)))).
    destruct (request_refines s operation Hs') as [E1 [_ E2]].
    destruct (mouse_process_request s operation) as [r s']. cbn [fst snd] in E1, E2.
    assert (b_lost (mailbox_of s) = 1) as Hl.
    { change (b_lost (mailbox_of s)) with ((m_dropped (mouse_state k) +% 1) -% m_observed_dropped (mouse_state k)).
      rewrite Hd, sub_add_one by assumption. unfold sub32. rewrite Z.sub_diag. reflexivity. }
    unfold request in E1, E2. rewrite Hl in E1, E2. destruct (Z.ltb_spec 2 operation); [lia|].
    change (negb (1 =? 0)) with true in E1, E2. cbn iota in E1, E2. split; [exact E1|].
    injection E2 as E2 _ _ E3. split; [|exact E3]. now apply map_eq_nil in E2.
Qed.

Lemma mouse_disconnect_forgets_witness :
  let k := snd (run mouse_step idle_mouse [Connect 1; Report 1 [1; 9; 9]]) in
  length (cursor_pending (cursor_queue k)) = 1%nat /\
  motions_of 15 (cursor_pending (cursor_queue (mouse_receive k 1 USB_REPORT_DISCONNECTED None 0))) = [].
Proof.
  cbv zeta. set (k := snd _). split; [vm_compute; reflexivity|].
  assert (mouse_ok (mouse_state k)) as H.
  { destruct (step_refines (snd (mouse_step idle_mouse (Connect 1))) (Report 1 [1; 9; 9])) as [_ [H _]].
    - destruct (step_refines idle_mouse (Connect 1) idle_ok) as [_ [H _]]; [cbn; lia|exact H].
    - split; [lia|]. repeat constructor; unfold in_u; lia.
    - exact H. }
  rewrite (proj1 (mouse_disconnect_forgets k 1 H ltac:(vm_compute; split_and!; congruence) ltac:(lia) ltac:(vm_compute; reflexivity)) 15).
  vm_compute. reflexivity.
Defined.
