(* ===== verification/MouseHost.v ===== *)
(** * The kernel side of the mouse: [Drivers/Usb/MouseDriver.c] between USB and graphics

    [mouse_driver_initialize] installs the ring-2 image and attaches [mouse_receive] to
    the USB host; [mouse_cursor_service] moves the hardware cursor by what has been
    queued. The callback is shown to be a client the containment theorem of the USB host
    accepts; [Pointer] joins the rest. *)
From stdpp Require Import list gmap strings.
From S2P Require Import Prelude Machine Runtime Ring Intel915 CursorFacts GraphicsSafety Intel915Init GraphicsSystem Ps2 UsbHost UsbSafety Mouse MouseEvents.

Definition MOUSE_SHARED_OFFSET : Z := 0xA000.

(** The kernel's mouse statics and the graphics record its cursor moves in. *)
Record pointer := { pt_mouse : mouse_kernel; pt_gpu : intel915_kernel }.
#[export] Instance eta_pointer : Eta pointer := fun p => Build_pointer (pt_mouse p) (pt_gpu p).

Definition on_gpu_of {A} (m : code intel915_kernel A) : code pointer A := fun p =>
  let! r := m (pt_gpu p) in Ret (fst r, p <| pt_gpu := snd r |>).

Definition set_queue (q : mouse_cursor_queue) : code pointer unit :=
  modify (fun p => p <| pt_mouse := (pt_mouse p) <| cursor_queue := q |> |>).

Definition mouse_cursor_service : code pointer unit :=
  let* flags := io (access SaveFlagsCli) in
  let* m := gets pt_mouse in
  let* r := on_gpu_of (mouse_cursor_drain (cursor_queue m) (m_connected (mouse_state m))
                         (Some intel915_update_cursor)) in
  set_queue (snd r) ;*
  io (access (RestoreFlags flags) ;; Ret tt).

(** [data[0 .. n)] of a report. *)
Fixpoint load_bytes (n : nat) (a : Z) : prog bus (list Z) :=
  match n with
  | O => Ret []
  | S n' => let! b := load8 a in let! l := load_bytes n' (a + 1) in Ret (b :: l)
  end.

(** [mouse_receive] as the host calls it, with a pointer to the report. The report is
    loaded when one of the two queues looks at it; the controller is done with the
    buffer by then. *)
Definition mouse_callback (controller event data length : Z) : code mouse_kernel unit :=
  let* bytes :=
    if (controller <? MOUSE_CONTROLLER_COUNT) && (event =? USB_REPORT_DATA) && negb (data =? 0) &&
       (length <=? MOUSE_REPORT_BYTES)
    then io (let! l := load_bytes (Z.to_nat length) data in Ret (Some l)) else cret None in
  modify (fun k => mouse_receive k controller event bytes length).

(** The records after [memset(.., 0, sizeof ..)]. *)
Definition zero_mouse : mouse_kernel :=
  Build_mouse_kernel
    (Build_mouse_shared 0 0 0 0 0 0 0 0 0 0 (replicate 4 0) (replicate 32 no_packet))
    (Build_mouse_cursor_queue 0 0 0 0 0 0 0 (replicate 64 no_cursor)).

Definition mouse_driver_initialize (mouse_cursor_service_address : Z) : code (@usb mouse_kernel) unit :=
  let* ready := io (load32 KEYBOARD_READY_ADDRESS) in
  io (kassert (ready =? 1) "Mouse driver requires ring-2 stack setup") ;*
  let* ready := io (load32 MOUSE_READY_ADDRESS) in
  io (kassert (ready =? 0) "Mouse driver initialized twice") ;*
  io (memcpy (MOUSE_DRIVER_BASE + MOUSE_ENTRY_OFFSET) MOUSE_IMAGE_SOURCE MOUSE_IMAGE_SIZE) ;*
  modify (fun u => u <| client := zero_mouse |>) ;*
  let* code := io (api "gdt_create_code_descriptor"
    [MOUSE_DRIVER_BASE; MOUSE_ENTRY_OFFSET + MOUSE_IMAGE_SIZE - 1; DESCRIPTOR_DPL2]) in
  io (kassert (negb (code =? 0)) "Cannot allocate mouse code selector") ;*
  let* gate := io (api "gdt_alloc_selector" []) in
  io (kassert (negb (gate =? 0)) "Cannot allocate mouse call gate") ;*
  io (api "gdt_write_raw_descriptor" [gate; (code <<% 16) .| MOUSE_ENTRY_OFFSET; 0xEC00]) ;*
  let* attached := usb_host_set_report_callback (Some mouse_callback) in
  io (kassert (negb (attached =? 0)) "Cannot attach mouse report queue") ;*
  io (store32 MOUSE_GATE_ADDRESS (gate .| 3)) ;*
  io (store32 MOUSE_READY_ADDRESS 1) ;*
  io (store32 MOUSE_CURSOR_CALLBACK_ADDRESS mouse_cursor_service_address).

(** ** The callback *)

(** The callback is a client of the USB host that only looks at memory. *)
Lemma load_bytes_reads n : forall a, bus_ok only_reads (load_bytes n a).
Proof.
  induction n as [|n IH]; intros a; cbn [load_bytes]; [apply bus_ret|].
  repeat bus_step.
Qed.

Lemma callback_reads controller event data length :
  keeps only_reads (fun _ _ => True) (mouse_callback controller event data length).
Proof.
  unfold mouse_callback. apply keeps_bind.
  - apply keeps_if; intros _; [|apply keeps_ret]. apply keeps_bus; [|auto].
    apply bus_bind; [apply load_bytes_reads|intros ?; apply bus_ret].
  - intros bytes. now apply keeps_modify.
Qed.

Lemma mouse_callback_client : safe_client mouse_callback.
Proof. intros id event data length _. apply callback_reads. Qed.

(** The bytes of a report: as many as it says. *)
Lemma load_bytes_spec n : forall a Q t,
  (forall l t', length l = n -> Forall is_u8 l -> Q (Done l) t') ->
  wp free (load_bytes n a) Q t.
Proof.
  induction n as [|n IH]; intros a Q t HQ; cbn [load_bytes]; [now apply HQ|].
  cbn. split; [exact I|]. intros b t' [Hb _]. apply wp_bind, IH. intros l t'' Hl Hf. cbn.
  apply HQ; [cbn; lia|]. now constructor.
Qed.

Definition report_ok (length : Z) (report : option (list Z)) : Prop :=
  match report with
  | None => True
  | Some l => Z.of_nat (List.length l) = length /\ Forall is_u8 l
  end.

(** What a call of the callback does to the statics: [mouse_receive] on the bytes
    loaded, or on no report at all. *)
Lemma callback_spec controller event data length k t :
  0 <= length ->
  wp free (mouse_callback controller event data length k)
    (fun o t' => exists bytes,
       o = Done (tt, mouse_receive k controller event bytes length) /\ report_ok length bytes) t.
Proof.
  intros Hl. unfold mouse_callback. apply wp_cbind. case_if.
  - apply wp_io_last, wp_bind, load_bytes_spec. intros l t' Hn Hf. cbn. exists (Some l).
    split; [reflexivity|]. split; [lia|exact Hf].
  - cbn. exists None. now split.
Qed.
