(* ===== verification/Pointer.v ===== *)
(** * From the mouse to the screen

    The mouse callback, the cursor service, the ring-2 mouse requests and the operations of
    the graphics driver work on shared records. Their histories are compared with an
    abstract pointer: a point of the screen moved by the motions of the connected mice. *)
From stdpp Require Import list gmap strings.
From S2P Require Import Prelude Machine Ring Intel915 CursorFacts GraphicsSafety GraphicsSystem UsbHost UsbSafety Mouse MouseEvents MouseHost.

(** ** The abstract pointer

    A point on a screen, the motions on their way to it, and the mice that are connected.
    [ap_screen] is the size of the screen while a cursor is shown on it. *)
Record abstract_pointer := {
  ap_pending : list mouse_cursor_packet; ap_connected : Z; ap_at : Z * Z; ap_screen : option (Z * Z)
}.
#[export] Instance eta_abstract_pointer : Eta abstract_pointer := fun a =>
  Build_abstract_pointer (ap_pending a) (ap_connected a) (ap_at a) (ap_screen a).

(** The motion in a report, if it is one: three bytes at least, and not at rest. *)
Definition motion_in (controller : Z) (report : list Z) : option mouse_cursor_packet :=
  match report with
  | _ :: b1 :: b2 :: _ =>
      if (controller <? 4) && (Z.of_nat (length report) <=? 64) && negb ((b1 =? 0) && (b2 =? 0))
      then Some (Build_mouse_cursor_packet (s8 b1) (s8 b2) controller) else None
  | _ => None
  end.

Inductive pointer_op :=
| Received (controller event : Z) (report : option (list Z))
| Served                                  (* [mouse_cursor_service] *)
| Asked                                   (* a ring-2 request *)
| Shown (at_ : Z * Z) (screen : option (Z * Z)).  (* an operation on the display *)

Definition add_motion (c : Z) (report : list Z) (pending : list mouse_cursor_packet) : list mouse_cursor_packet :=
  match motion_in c report with
  | Some m => if decide (length pending = 63%nat) then pending else pending ++ [m]
  | None => pending
  end.

Definition abstract_step (a : abstract_pointer) (op : pointer_op) : abstract_pointer :=
  match op with
  | Received c event report =>
      if 4 <=? c then a
      else if event =? USB_REPORT_CONNECTED then a <| ap_connected := ap_connected a .| (1 <<% c) |>
      else if event =? USB_REPORT_DISCONNECTED then
        a <| ap_connected := ap_connected a .& not32 (1 <<% c) |>
          <| ap_pending := map (cancelled c) (ap_pending a) |>
      else if event =? USB_REPORT_DATA then
        a <| ap_pending := match report with Some l => add_motion c l (ap_pending a) | None => ap_pending a end |>
      else a
  | Served =>
      let motions := motions_of (ap_connected a) (ap_pending a) in
      match motions, ap_screen a with
      | _ :: _, None => a
      | _, None => a <| ap_pending := [] |>
      | _, Some (w, h) => a <| ap_at := walk w h (ap_at a) motions |> <| ap_pending := [] |>
      end
  | Asked => a
  | Shown at_ screen => a <| ap_at := at_ |> <| ap_screen := screen |>
  end.

(** ** The implementation's steps *)
Definition at_of (k : intel915_kernel) : Z * Z := (g_cursor_x (i_state k), g_cursor_y (i_state k)).
Definition screen_of (k : intel915_kernel) : option (Z * Z) :=
  if panic_state k && cursor_usable (i_state k) then Some (g_width (i_state k), g_height (i_state k)) else None.

Definition pointer_of (p : pointer) : abstract_pointer :=
  Build_abstract_pointer (cursor_pending (cursor_queue (pt_mouse p))) (m_connected (mouse_state (pt_mouse p)))
    (at_of (pt_gpu p)) (screen_of (pt_gpu p)).

(** The report a label names is one the callback may have loaded ([callback_spec]). *)
Inductive pointer_step : pointer * trace -> pointer_op -> pointer * trace -> Prop :=
| step_received controller event data length report p t m t' :
    is_u32 controller -> is_u32 length -> report_ok length report ->
    Machine.run (mouse_callback controller event data length (pt_mouse p)) t (Done (tt, m)) t' ->
    m = mouse_receive (pt_mouse p) controller event report length ->
    pointer_step (p, t) (Received controller event report) (p <| pt_mouse := m |>, t')
| step_served p t p' t' :
    Machine.run (mouse_cursor_service p) t (Done (tt, p')) t' -> pointer_step (p, t) Served (p', t')
| step_asked operation r p t s t' : is_u32 operation ->
    Machine.run (mouse_driver_service operation (mouse_state (pt_mouse p))) t (Done (r, s)) t' ->
    pointer_step (p, t) Asked (p <| pt_mouse := (pt_mouse p) <| mouse_state := s |> |>, t')
| step_shown p t k t' : panic_state (pt_gpu p) = true ->
    graphics_step (pt_gpu p, t) (k, t') ->
    pointer_step (p, t) (Shown (at_of k) (screen_of k)) (p <| pt_gpu := k |>, t').

Inductive pointer_run : pointer * trace -> list pointer_op -> pointer * trace -> Prop :=
| run_nil c : pointer_run c [] c
| run_cons c op c1 ops c2 : pointer_step c op c1 -> pointer_run c1 ops c2 -> pointer_run c (op :: ops) c2.

(** ** Well-typed queues *)
Definition motion_typed (p : mouse_cursor_packet) : Prop :=
  -128 <= c_dx p < 128 /\ -128 <= c_dy p < 128 /\ is_u8 (c_controller p).

Definition queue_typed (q : mouse_cursor_queue) : Prop :=
  cursor_ok q /\ Forall motion_typed (c_packets q) /\
  is_u32 (c_dropped q) /\ is_u32 (c_peak_pending q) /\ is_u32 (c_saturated_reports q) /\
  is_u32 (c_flushes q) /\ is_u32 (c_retry_count q).

Lemma s8_range x : -128 <= s8 x < 128.
Proof.
  unfold s8, sext, wrap. pose proof (Z.mod_pos_bound x (2 ^ 8)). change (2 ^ 8) with 256 in *.
  change (2 ^ (8 - 1)) with 128. repeat case_if; lia.
Qed.

Lemma cursor_full q : cursor_ok q ->
  next 64 (c_head q) = c_tail q <-> length (cursor_pending q) = 63%nat.
Proof.
  intros (Hh & Ht & Hl). pose proof (length_window no_cursor 64 eq_refl (c_packets q) (c_head q) (c_tail q)) as E.
  fold (cursor_pending q) in E. rewrite fill_case in E by lia.
  pose proof (next_case 64 eq_refl (c_head q) Hh). repeat destruct (decide _); lia.
Qed.

(** Counting a motion: the peak and the saturated reports. *)
Definition counted (q : mouse_cursor_queue) (pending : Z) (saturated : bool) : mouse_cursor_queue :=
  let q := if c_peak_pending q <? pending then q <| c_peak_pending := pending |> else q in
  if saturated then q <| c_saturated_reports := c_saturated_reports q +% 1 |> else q.

Lemma counted_same q pending saturated :
  cursor_pending (counted q pending saturated) = cursor_pending q /\
  (is_u32 pending -> queue_typed q -> queue_typed (counted q pending saturated)).
Proof.
  unfold counted. repeat case_if; (split; [reflexivity|]); intros Hp (H1 & H2 & H3 & H4 & H5 & H6 & H7);
    (split; [exact H1|]); (split; [exact H2|]); cbn; auto using add32_range.
Qed.

Lemma short_report l : ~ (3 <= Z.of_nat (length l)) -> forall c, motion_in c l = None.
Proof. intros H c. destruct l as [|? [|? [|? ?]]]; cbn [length] in H; (reflexivity || lia). Qed.

Lemma enqueue_pending q c l : queue_typed q -> 0 <= c < 4 -> Forall is_u8 l ->
  let q' := mouse_cursor_enqueue q c (Some l) (Z.of_nat (length l)) in
  queue_typed q' /\ cursor_pending q' = add_motion c l (cursor_pending q).
Proof.
  intros Hq Hc Hl q'. pose proof Hq as (Hr & Hp & Hd & Hrest). unfold q', mouse_cursor_enqueue, add_motion. clear q'.
  unfold MOUSE_CONTROLLER_COUNT, MOUSE_REPORT_BYTES.
  destruct (Z.leb_spec 4 c); [lia|]. cbn [orb].
  destruct (Z.ltb_spec (Z.of_nat (length l)) 3).
  { rewrite short_report by lia. now split. }
  destruct l as [|b0 [|b1 [|b2 l]]]; try (cbn in *; lia). cbn [motion_in].
  set (n := length (b0 :: b1 :: b2 :: l)) in *. change (report_byte _ 1) with b1. change (report_byte _ 2) with b2.
  destruct (Z.ltb_spec c 4); [|lia]. rewrite (Z.leb_antisym 64 (Z.of_nat n)).
  destruct (Z.ltb_spec 64 (Z.of_nat n)); [now split|]. cbn [orb andb negb].
  destruct ((b1 =? 0) && (b2 =? 0)); [now split|]. cbn [negb].
  rewrite cursor_next by apply Hr. pose proof (cursor_full q Hr) as Hfull.
  destruct (Z.eqb_spec (next 64 (c_head q)) (c_tail q)).
  { rewrite decide_True by tauto. split; [|reflexivity]. split; [exact Hr|]. split; [exact Hp|].
    split; [apply add32_range|exact Hrest]. }
  rewrite decide_False by tauto.
  set (packet := Build_mouse_cursor_packet (s8 b1) (s8 b2) (u8 c)).
  assert (packet = Build_mouse_cursor_packet (s8 b1) (s8 b2) c) as E.
  { unfold packet. f_equal. apply wrap_small. ulia. }
  set (q1 := q <| c_packets := <[Z.to_nat (c_head q) := packet]> (c_packets q) |> <| c_head := next 64 (c_head q) |>).
  assert (queue_typed q1) as Hq1.
  { split; [now apply ring_push|]. split; [|exact (conj Hd Hrest)].
    apply Forall_insert; [exact Hp|]. rewrite E. split; [apply s8_range|]. split; [apply s8_range|]. cbn. ulia. }
  lazymatch goal with |- queue_typed (if ?b then _ else _) /\ _ =>
    match goal with |- context [c_peak_pending _ <? ?n] => change (queue_typed (counted q1 n b) /\ cursor_pending (counted q1 n b) =
      cursor_pending q ++ [Build_mouse_cursor_packet (s8 b1) (s8 b2) c]);
      destruct (counted_same q1 n b) as [Ep Ht] end end.
  split.
  - apply Ht; [|exact Hq1]. apply land_in_u; [lia|apply sub32_range|unfold MOUSE_CURSOR_QUEUE_SIZE; lia].
  - rewrite Ep, <- E. unfold cursor_pending. apply window_push; [lia|exact Hr|assumption].
Qed.

Lemma pending_typed q : queue_typed q -> Forall motion_typed (cursor_pending q).
Proof.
  intros (_ & Hp & _). apply Forall_map, Forall_true. intros i. unfold compose, at_slot.
  destruct (_ !! _) as [p|] eqn:E; cbn; [exact (Forall_lookup_1 _ _ _ _ Hp E)|].
  split; [cbn; lia|]. split; [cbn; lia|]. cbn. ulia.
Qed.

Lemma motions_typed connected q : queue_typed q -> Forall is_motion (motions_of connected (cursor_pending q)).
Proof.
  intros Hq. apply pending_typed in Hq. unfold motions_of. apply Forall_map, Forall_forall. intros p Hp.
  apply list_elem_of_filter in Hp as [_ Hp]. rewrite Forall_forall in Hq. destruct (Hq p Hp) as (Hx & Hy & _).
  split; unfold is_s32; cbn; lia.
Qed.

(** A batch that is not empty fits the graphics driver's limit. *)
Lemma motions_batch connected q : queue_typed q -> motions_of connected (cursor_pending q) <> [] ->
  batch_of (motions_of connected (cursor_pending q)).
Proof.
  intros Hq Hne. split; [|now apply motions_typed].
  pose proof (window_bound no_cursor 64 eq_refl (c_packets q) (c_head q) (c_tail q)) as Hw.
  fold (cursor_pending q) in Hw.
  pose proof (length_filter (fun p => is_connected connected (c_controller p) = true) (cursor_pending q)).
  unfold motions_of in *. rewrite length_map. destruct (filter _ _); [now destruct Hne|]. cbn [length] in *. lia.
Qed.

Lemma cancel_typed q c : queue_typed q -> queue_typed (mouse_cursor_cancel q c).
Proof.
  intros (Hr & Hp & Hrest). destruct (cursor_cancel_pending q c Hr) as [Hr' _].
  split; [exact Hr'|]. split; [|exact Hrest]. unfold mouse_cursor_cancel. cbn [c_packets assign].
  clear Hr' Hrest Hr. generalize (c_tail q) (c_head q) (Z.to_nat MOUSE_CURSOR_QUEUE_SIZE). intros i head n.
  revert i. generalize dependent (c_packets q). induction n as [|n IH]; intros l Hl i; cbn [cancel_loop]; [exact Hl|].
  case_if; [exact Hl|]. apply IH. case_if; [|exact Hl]. apply Forall_insert; [exact Hl|].
  unfold at_slot. destruct (l !! _) as [p|] eqn:El; cbn.
  - destruct (Forall_lookup_1 _ _ _ _ Hl El) as (Hx & Hy & _). split; [exact Hx|]. split; [exact Hy|]. cbn. ulia.
  - split; [cbn; lia|]. split; [cbn; lia|]. cbn. ulia.
Qed.

(** ** Well-typed shared state *)
Definition fields_typed (s : mouse_shared) : Prop :=
  Forall is_u32 [m_lock s; m_connected s; m_last_cpl s; m_calls s; m_decoded s; m_malformed s] /\
  Forall is_u8 (m_buttons s) /\
  Forall (fun p => is_u32 (p_controller p) /\ is_u32 (p_length p)) (m_packets s).
Definition shared_typed (s : mouse_shared) : Prop := mouse_ok s /\ fields_typed s.

Lemma fields_counted s s' :
  fields_typed s -> m_lock s' = m_lock s -> m_connected s' = m_connected s -> m_last_cpl s' = m_last_cpl s ->
  m_calls s' = m_calls s -> is_u32 (m_decoded s') -> is_u32 (m_malformed s') -> Forall is_u8 (m_buttons s') ->
  m_packets s' = m_packets s -> fields_typed s'.
Proof.
  intros (Hf & Hb & Hp) E1 E2 E3 E4 H5 H6 H7 E8. split; [|split; [exact H7|now rewrite E8]].
  rewrite E1, E2, E3, E4. repeat (apply Forall_cons in Hf as [? Hf]). now repeat (constructor; [assumption|]).
Qed.

Lemma fields_decoded s : fields_typed s -> is_u32 (m_decoded s) /\ is_u32 (m_malformed s).
Proof. intros (Hf & _). repeat (apply Forall_cons in Hf as [? Hf]). now split. Qed.

Lemma mouse_read_typed n : forall s, fields_typed s -> fields_typed (snd (mouse_read n s)).
Proof.
  induction n as [|n IH]; intros s Hs; cbn [mouse_read]; [exact Hs|].
  destruct (fields_decoded s Hs) as [Hd Hm]. pose proof Hs as (_ & Hb & _).
  case_if; [exact Hs|]. cbv zeta. case_if.
  { apply IH. eapply fields_counted; [exact Hs|..]; try reflexivity; auto using add32_range. exact (add32_range _ 1). }
  case_if.
  { apply IH. eapply fields_counted; [exact Hs|..]; try reflexivity; auto. }
  eapply fields_counted; [exact Hs|..]; try reflexivity; auto; [exact (add32_range _ 1)|].
  apply Forall_insert; [exact Hb|apply u8_range].
Qed.

Lemma live_typed connected buttons : Forall is_u8 buttons -> Forall is_u8 (live_buttons connected buttons).
Proof.
  intros H. apply Forall_lookup_2. intros i x Hx. unfold live_buttons in Hx. rewrite list_lookup_imap in Hx.
  destruct (buttons !! i) as [b|] eqn:E; [|discriminate]. cbn in Hx. injection Hx as <-.
  case_if; [ulia|exact (Forall_lookup_1 _ _ _ _ H E)].
Qed.

Lemma request_typed s operation : shared_typed s -> shared_typed (snd (mouse_process_request s operation)).
Proof.
  intros [Hs Hf]. split; [apply (request_refines s operation Hs)|].
  destruct (fields_decoded s Hf) as [Hd Hm]. pose proof Hs as (_ & _ & Hn & _). pose proof Hf as (_ & Hb & _).
  unfold mouse_process_request. case_if; [exact Hf|]. rewrite clear_buttons by exact Hn.
  set (s1 := s <| m_buttons := _ |>). assert (fields_typed s1) as Hf1.
  { eapply fields_counted; [exact Hf|..]; try reflexivity; auto. now apply live_typed. }
  case_if.
  - rewrite forget_all; [|unfold s1; cbn; now rewrite live_length].
    eapply fields_counted; [exact Hf1|..]; try reflexivity; auto. repeat (constructor; [ulia|]). constructor.
  - repeat (case_if; [exact Hf1|]). now apply mouse_read_typed.
Qed.

Lemma report_typed s c l : shared_typed s -> is_u32 c -> Forall is_u8 l ->
  shared_typed (mouse_queue_report s c (Some l) (Z.of_nat (length l))).
Proof.
  intros [Hs Hf] Hc Hl. split; [apply report_refines; [exact Hs|ulia|exact Hl]|].
  pose proof Hf as (H1 & H2 & H3). unfold mouse_queue_report, MOUSE_REPORT_BYTES. case_if; [exact Hf|].
  case_if; [exact (conj H1 (conj H2 H3))|]. split; [exact H1|]. split; [exact H2|]. bool_to_prop.
  apply Forall_insert; [exact H3|]. split; [exact Hc|]. cbn. ulia.
Qed.

Definition mouse_typed (m : mouse_kernel) : Prop := shared_typed (mouse_state m) /\ queue_typed (cursor_queue m).

Lemma connected_typed s (c : Z) : shared_typed s -> is_u32 c -> shared_typed (s <| m_connected := c |>).
Proof.
  intros [Hs (H1 & H2 & H3)] Hc. split; [exact Hs|]. split; [|exact (conj H2 H3)].
  repeat (apply Forall_cons in H1 as [? H1]). now repeat (constructor; [assumption|]).
Qed.

Lemma dropped_typed s : shared_typed s -> shared_typed (s <| m_dropped := m_dropped s +% 1 |>).
Proof.
  intros [(Hr & Hp & Hb & Hd1 & Hd2) Hf]. split; [|exact Hf].
  exact (conj Hr (conj Hp (conj Hb (conj (add32_range _ _) Hd2)))).
Qed.

Lemma fields_connected s : shared_typed s -> is_u32 (m_connected s).
Proof. intros [_ (H & _)]. now repeat (apply Forall_cons in H as [? H]). Qed.

(** The callback keeps both queues well typed and does to the pointer what the abstract
    step says. *)
Lemma receive_refines m c event report length k :
  mouse_typed m -> is_u32 c -> report_ok length report ->
  let m' := mouse_receive m c event report length in
  mouse_typed m' /\
  pointer_of (Build_pointer m' k) = abstract_step (pointer_of (Build_pointer m k)) (Received c event report).
Proof.
  intros [Hs Hq] Hc Hrep m'. unfold m', mouse_receive, pointer_of, abstract_step. clear m'. cbn [pt_mouse pt_gpu].
  change MOUSE_CONTROLLER_COUNT with 4. destruct (Z.leb_spec 4 c); [now split|].
  pose proof (fields_connected _ Hs) as Hcon. case_if.
  { split; [|reflexivity]. split; [|exact Hq]. apply connected_typed; [exact Hs|]. apply lor_in_u; [lia|exact Hcon|apply shl32_range]. }
  case_if.
  { split.
    - split; [|now apply cancel_typed].
      assert (is_u32 (m_connected (mouse_state m) .& not32 (1 <<% c))) as Hc'.
      { apply land_in_u; [lia|exact Hcon|]. pose proof (not32_range (1 <<% c)). ulia. }
      exact (dropped_typed _ (connected_typed _ _ Hs Hc')).
    - destruct (cursor_cancel_pending (cursor_queue m) c (proj1 Hq)) as [_ Ep].
      cbn [ap_pending ap_connected assign]. rewrite <- Ep. reflexivity. }
  case_if; [|now split].
  destruct report as [l|]; [|now split]. destruct Hrep as [<- Hl].
  destruct (enqueue_pending (cursor_queue m) c l Hq ltac:(ulia) Hl) as [Hq' Ep]. split.
  - split; [|exact Hq']. apply report_typed; auto.
  - unfold assign. cbn. f_equal; [exact Ep|]. unfold mouse_queue_report. repeat case_if; reflexivity.
Qed.

Lemma request_connected s operation : shared_typed s ->
  m_connected (snd (mouse_process_request s operation)) = m_connected s.
Proof.
  intros [Hs _]. destruct (request_refines s operation Hs) as [_ [_ E]].
  change (m_connected (snd (mouse_process_request s operation)))
    with (b_connected (mailbox_of (snd (mouse_process_request s operation)))). rewrite E. unfold request.
  repeat (case_if; [reflexivity|]). cbv zeta. destruct (next_event _ _) as [[p|] rest]; reflexivity.
Qed.

(** The lock and the bookkeeping of a call. *)
Lemma locked_typed s (lock cpl calls : Z) : shared_typed s -> is_u32 lock -> is_u32 cpl -> is_u32 calls ->
  shared_typed (s <| m_lock := lock |> <| m_last_cpl := cpl |> <| m_calls := calls |>).
Proof.
  intros [Hs (H1 & H2 & H3)] Hl Hc Hn. split; [exact Hs|]. split; [|exact (conj H2 H3)].
  repeat (apply Forall_cons in H1 as [? H1]). now repeat (constructor; [assumption|]).
Qed.

Lemma fields_calls s : shared_typed s -> is_u32 (m_last_cpl s) /\ is_u32 (m_calls s).
Proof. intros [_ (H & _)]. now repeat (apply Forall_cons in H as [? H]). Qed.

Lemma lock_typed s (lock : Z) : shared_typed s -> is_u32 lock -> shared_typed (s <| m_lock := lock |>).
Proof. intros Hs Hl. destruct (fields_calls s Hs). now apply (locked_typed s lock (m_last_cpl s) (m_calls s)). Qed.

Lemma driver_service_typed s operation t :
  shared_typed s ->
  wp free (mouse_driver_service operation s)
    (fun o t' => exists r s' d, o = Done (r, s') /\ shared_typed s' /\ m_connected s' = m_connected s /\
       t' = d ++ t /\ Forall (fun x => is_read (fst x)) d) t.
Proof.
  intros Hs. unfold mouse_driver_service. apply wp_gets, wp_modify.
  case_if.
  { cbn. exists MOUSE_BUSY, (s <| m_lock := 1 |>), []. split; [reflexivity|].
    split; [apply lock_typed; [exact Hs|ulia]|]. now split. }
  apply wp_read; [exact I|]. intros cs t' [Hcs ->]. apply wp_modify, wp_gets.
  set (s1 := (_ <| m_last_cpl := _ |>) <| m_calls := _ |>).
  assert (shared_typed s1) as Hs1.
  { apply locked_typed; [exact Hs|ulia| |apply add32_range]. apply land_in_u; [lia|exact Hcs|lia]. }
  apply wp_cbind. case_if.
  - cbn. exists (fst (mouse_process_request s1 operation)), ((snd (mouse_process_request s1 operation)) <| m_lock := 0 |>), [(ReadReg CS, cs)].
    split; [reflexivity|]. split; [apply lock_typed; [now apply request_typed|ulia]|].
    split; [exact (request_connected s1 operation Hs1)|]. split; [reflexivity|]. now repeat constructor.
  - cbn. exists MOUSE_BAD_REQUEST, (s1 <| m_lock := 0 |>), [(ReadReg CS, cs)].
    split; [reflexivity|]. split; [apply lock_typed; [exact Hs1|ulia]|]. split; [reflexivity|]. split; [reflexivity|].
    now repeat constructor.
Qed.

(** ** The cursor service *)
Definition emptied (q : mouse_cursor_queue) : mouse_cursor_queue := q <| c_tail := c_head q |>.

(** What a flush needs of the shared record. *)
Definition flushable (k : intel915_kernel) : Prop :=
  let s := i_state k in
  panic_state k = true ->
  (g_busy s = 0 \/ g_busy s = 1) /\
  (cursor_usable s = true -> is_u32 (g_cursor_x s) /\ is_u32 (g_cursor_y s) /\ 0 <= g_width s /\ 0 <= g_height s).

(** The service's effect on the graphics record and on the bus, for a batch that is not
    empty: refused, accepted without moving, or a move to [xy]. *)
Definition flush_result (k : intel915_kernel) (motions : list cursor_motion) (ok : Z)
    (k' : intel915_kernel) (d : trace) : Prop :=
  let s := i_state k in
  let xy := walk (g_width s) (g_height s) (g_cursor_x s, g_cursor_y s) motions in
  if panic_state k && (g_busy s =? 0) && cursor_usable s then
    ok = 1 /\ 0 <= fst xy < g_width s /\ 0 <= snd xy < g_height s /\
    if decide (xy = (g_cursor_x s, g_cursor_y s)) then k' = k /\ d = []
    else k' = k <| i_state := moved_to s xy |> /\
         map fst d = cursor_accesses (I915_BASE + I915_MMIO_OFFSET) s xy
  else ok = 0 /\ k' = k /\ d = [].

Lemma same_busy k : k <| i_state := (i_state k) <| g_busy := g_busy (i_state k) |> |> = k.
Proof. destruct k as [? []]. reflexivity. Qed.

Lemma update_spec k motions t :
  batch_of motions -> flushable k ->
  wp free (intel915_update_cursor motions (Z.of_nat (length motions)) k)
    (fun o t' => exists ok k' d, o = Done (ok, k') /\ t' = d ++ t /\ flush_result k motions ok k' d) t.
Proof.
  intros Hb Hfl. unfold intel915_update_cursor, flush_result. apply wp_gets.
  destruct (panic_state k) eqn:Hp; cbn [andb].
  2:{ exists 0, k, []. now split_and!. }
  destruct (Hfl Hp) as [Hbusy Hrange]. apply wp_on_shared.
  eapply wp_mono; [|apply wp_trace, (flush_spec _ (i_state k) motions t); [exact Hb|exact Hrange]].
  intros o t' [H (d & -> & _)]. revert H.
  assert (forall d', d' ++ t = t -> d' = []) as Hnil by (intros d' E; now apply (app_inv_tail t _ [])).
  pose proof (same_busy k) as Hk.
  destruct Hbusy as [Hf|Hf]; rewrite Hf in *;
    [change (0 =? 0) with true|change (1 =? 0) with false]; cbn [negb andb].
  - destruct (cursor_usable (i_state k)) eqn:Eu; cbn [negb].
    + cbn [andb]. intros (Hx & Hy & H). destruct (decide _); destruct H as [-> H]; cbn [on_done fst snd].
      * exists 1, k, d. rewrite Hk. split; [reflexivity|]. split; [reflexivity|]. auto 10.
      * eexists 1, _, d. split; [reflexivity|]. split; [reflexivity|]. rewrite map_app in H.
        apply app_inv_tail in H. auto 10.
    + intros [-> E]. cbn [on_done fst snd andb]. exists 0, k, d. rewrite Hk. split; [reflexivity|]. split; [reflexivity|]. auto 10.
  - intros [-> E]. cbn [on_done fst snd andb]. exists 0, k, d. rewrite Hk. split; [reflexivity|]. split; [reflexivity|]. auto 10.
Qed.

(** The queue after the service, and the accesses between the two flag instructions. *)
Definition service_result (p : pointer) (p' : pointer) (d : trace) : Prop :=
  let q := cursor_queue (pt_mouse p) in
  let motions := motions_of (m_connected (mouse_state (pt_mouse p))) (cursor_pending q) in
  exists q', pt_mouse p' = (pt_mouse p) <| cursor_queue := q' |> /\
  match motions with
  | [] => q' = emptied q /\ pt_gpu p' = pt_gpu p /\ d = []
  | _ => exists ok, flush_result (pt_gpu p) motions ok (pt_gpu p') d /\
         q' = if ok =? 0 then q <| c_retry_count := c_retry_count q +% 1 |>
              else (emptied q) <| c_flushes := c_flushes q +% 1 |>
  end.

Lemma service_spec p t :
  queue_typed (cursor_queue (pt_mouse p)) -> flushable (pt_gpu p) ->
  wp free (mouse_cursor_service p)
    (fun o t' => exists flags p' d, o = Done (tt, p') /\
       t' = (RestoreFlags flags, 0) :: d ++ (SaveFlagsCli, flags) :: t /\ service_result p p' d) t.
Proof.
  intros Hq Hk. unfold mouse_cursor_service. apply wp_read; [exact I|]. intros flags t1 [_ ->]. apply wp_gets.
  apply wp_cbind. unfold on_gpu_of. apply wp_bind.
  set (q := cursor_queue (pt_mouse p)) in *. set (connected := m_connected _).
  destruct (drain_submits q connected intel915_update_cursor (proj1 Hq)) as [_ ->].
  unfold service_result. fold q connected. pose proof (motions_batch connected q Hq) as Hb.
  destruct (motions_of connected (cursor_pending q)) as [|m l] eqn:Em.
  - cbn. split; [exact I|]. intros ? ? [-> ->]. eexists flags, _, []. split; [reflexivity|].
    split; [reflexivity|]. exists (emptied q). now split.
  - apply wp_cbind. eapply wp_mono; [|apply update_spec; [apply Hb; discriminate|exact Hk]].
    intros o t2 (ok & k' & d & -> & -> & Hres). cbn [on_done fst snd].
    destruct (ok =? 0) eqn:Eok; (cbn; split; [exact I|]; intros ? ? [-> ->]; eexists flags, _, d;
      split; [reflexivity|]; split; [reflexivity|]; eexists; split; [reflexivity|];
      exists ok; rewrite Eok; now split).
Qed.

(** ** Histories *)
Record pointer_ok (p : pointer) (t : trace) : Prop := {
  po_mouse : mouse_typed (pt_mouse p);
  po_graphics : panic_state (pt_gpu p) = true -> graphics_ok (pt_gpu p) t
}.

(** Accesses that write no memory do not concern the display. *)
Definition quiet (x : bus * Z) : Prop := match fst x with Store _ _ _ => False | _ => True end.

Lemma graphics_more k d t : Forall quiet d -> graphics_ok k t -> graphics_ok k (d ++ t).
Proof.
  intros Hd Hk. destruct Hk. constructor; auto. intros (a & v & r & Hin & Ha). apply ok_covered.
  exists a, v, r. split; [|exact Ha]. apply elem_of_app in Hin as [Hin|Hin]; [|exact Hin].
  rewrite Forall_forall in Hd. now apply Hd in Hin.
Qed.

Lemma reads_quiet d : Forall (was_ok only_reads) d -> Forall quiet d.
Proof.
  intros H. eapply Forall_impl; [exact H|]. intros [e v] [t He]. unfold quiet. cbn in *.
  now destruct e.
Qed.

Lemma ok_flushable p t : pointer_ok p t -> flushable (pt_gpu p).
Proof.
  intros [_ Hg] Hp. destruct (Hg Hp) as [_ Hl _ Hf _ Hsh _]. split; [now left|]. intros Eu.
  assert (on_screen (i_state (pt_gpu p))) as [Hx Hy].
  { apply Hsh. unfold cursor_usable in Eu. bool_to_prop. assumption. }
  pose proof (proj1 Hl) as Hm. apply layout_inv in Hm as (Hw & Hh & _). unfold in_u. lia.
Qed.

Lemma emptied_typed q : queue_typed q -> queue_typed (emptied q) /\ cursor_pending (emptied q) = [].
Proof.
  intros ((Hh & Ht & Hl) & Hrest). split; [|apply window_empty].
  split; [exact (conj Hh (conj Hh Hl))|exact Hrest].
Qed.

Lemma flush_ok k motions ok k' d t :
  flush_result k motions ok k' d -> graphics_ok k t -> graphics_ok k' (d ++ t).
Proof.
  unfold flush_result. case_if; [|now intros (_ & -> & ->)]. intros (_ & Hx & Hy & H) Hk.
  destruct (decide _); [now destruct H as [-> ->]|]. destruct H as [-> _]. bool_to_prop.
  destruct Hk. assert (5 <= g_stage (i_state k)) as H5.
  { apply ok_drawn. now destruct (cursor_usable_iff (i_state k)). }
  constructor; cbn; auto; [now apply covered_drawn|]. intros _. now split.
Qed.

Lemma screen_moved k xy : screen_of (k <| i_state := moved_to (i_state k) xy |>) = screen_of k.
Proof. now destruct k as [? []]. Qed.

Lemma flush_shown k motions ok k' d :
  g_busy (i_state k) = 0 -> flush_result k motions ok k' d ->
  screen_of k' = screen_of k /\
  match screen_of k with
  | None => ok = 0 /\ at_of k' = at_of k
  | Some (w, h) => ok = 1 /\ at_of k' = walk w h (at_of k) motions
  end.
Proof.
  intros Hb. unfold flush_result, screen_of at 2 3. rewrite Hb. change (0 =? 0) with true. rewrite andb_true_r.
  destruct (panic_state k && cursor_usable (i_state k)) eqn:E; cbn iota.
  - intros (-> & Hx & Hy & H). destruct (decide _) as [Ew|Ew].
    + destruct H as [-> _]. unfold screen_of. rewrite E. split; [reflexivity|]. split; [reflexivity|]. now symmetry.
    + destruct H as [-> _]. rewrite screen_moved. unfold screen_of. rewrite E. split; [reflexivity|]. split; [reflexivity|]. unfold at_of. cbn. now destruct (walk _ _ _ _).
  - intros (-> & -> & _). unfold screen_of. rewrite E. now split.
Qed.

(** The result of a service, abstractly. *)
Lemma service_refines p t p' flags d :
  pointer_ok p t -> service_result p p' d ->
  pointer_ok p' ((RestoreFlags flags, 0) :: d ++ (SaveFlagsCli, flags) :: t) /\
  pointer_of p' = abstract_step (pointer_of p) Served.
Proof.
  intros [[Hs Hq] Hg] (q' & Em & H). destruct p as [m k], p' as [m' k']. cbn [pt_mouse pt_gpu] in *. subst m'.
  set (q := cursor_queue m) in *. destruct (emptied_typed q Hq) as [Hq0 Ep].
  assert (forall k2, graphics_ok k2 t -> graphics_ok k2 ((SaveFlagsCli, flags) :: t)) as Hsave.
  { intros k2. apply (graphics_more k2 [_]). now repeat constructor. }
  assert (forall k2 t2, graphics_ok k2 t2 -> graphics_ok k2 ((RestoreFlags flags, 0) :: t2)) as Hrestore.
  { intros k2 t2. apply (graphics_more k2 [_]). now repeat constructor. }
  unfold pointer_of, abstract_step. cbn [pt_mouse pt_gpu ap_connected ap_pending ap_screen ap_at]. fold q.
  destruct (motions_of _ _) as [|mo l] eqn:Emo.
  - destruct H as (-> & -> & ->). split.
    + constructor; cbn; [now split|]. auto.
    + change (cursor_pending _) with (cursor_pending (emptied q)) at 1. rewrite Ep.
      destruct (screen_of k) as [[w h]|]; reflexivity.
  - destruct H as (ok & Hf & ->). destruct (panic_state k) eqn:Hp.
    + specialize (Hg eq_refl). destruct (flush_shown k _ ok k' d (ok_free _ _ Hg) Hf) as [Es Hat].
      assert (graphics_ok k' (d ++ (SaveFlagsCli, flags) :: t)) as Hg' by (eapply flush_ok; eauto).
      rewrite Es. destruct (screen_of k) as [[w h]|]; destruct Hat as [-> ->]; cbn [Z.eqb].
      * split; [constructor; cbn; [|auto]|].
        -- split; [exact Hs|]. destruct Hq0 as (H1 & H2 & H3 & H4 & H5 & H6 & H7).
           exact (conj H1 (conj H2 (conj H3 (conj H4 (conj H5 (conj (add32_range _ _) H7)))))).
        -- change (cursor_pending _) with (cursor_pending (emptied q)) at 1. now rewrite Ep.
      * split; [|reflexivity]. constructor; cbn; [|auto].
        split; [exact Hs|]. destruct Hq as (H1 & H2 & H3 & H4 & H5 & H6 & H7).
        exact (conj H1 (conj H2 (conj H3 (conj H4 (conj H5 (conj H6 (add32_range _ _))))))).
    + unfold flush_result in Hf. rewrite Hp in Hf. destruct Hf as (-> & -> & ->). cbn [Z.eqb].
      unfold screen_of. rewrite Hp. cbn [andb]. split; [|reflexivity]. constructor; cbn; [|congruence].
      split; [exact Hs|]. destruct Hq as (H1 & H2 & H3 & H4 & H5 & H6 & H7).
      exact (conj H1 (conj H2 (conj H3 (conj H4 (conj H5 (conj H6 (add32_range _ _))))))).
Qed.

(** One step of the implementation is one step of the abstract pointer. *)
Lemma pointer_step_refines p t op p' t' :
  pointer_step (p, t) op (p', t') -> pointer_ok p t ->
  pointer_ok p' t' /\ pointer_of p' = abstract_step (pointer_of p) op.
Proof.
  intros Hst Hp. pose proof Hp as [Hm Hg]. inversion Hst as
    [c event data len report ? ? m ? Hc Hlen Hrep Hr ->|? ? ? ? Hr|o r ? ? s ? Ho Hr|? ? k ? Hf Hgs]; subst.
  - destruct (wp_run _ _ _ _ _ _ (wp_trace _ _ _ _ (callback_reads c event data len (pt_mouse p) t I)) Hr)
      as [_ (d & -> & Hd)].
    destruct p as [m k]. destruct (receive_refines m c event report len k Hm Hc Hrep) as [Hm' E].
    split; [|exact E]. constructor; [exact Hm'|]. intros Hf. apply graphics_more; [now apply reads_quiet|now apply Hg].
  - destruct (wp_run _ _ _ _ _ _ (service_spec p t (proj2 Hm) (ok_flushable p t Hp)) Hr)
      as (flags & p2 & d & E & -> & Hres). injection E as <-. now apply (service_refines p t).
  - destruct Hm as [Hs Hq].
    destruct (wp_run _ _ _ _ _ _ (driver_service_typed (mouse_state (pt_mouse p)) o t Hs) Hr)
      as (r2 & s2 & d & E & Hs2 & Hcon & -> & Hd). injection E as <- <-. split.
    + constructor; [now split|]. intros Hf. apply graphics_more; [|now apply Hg].
      eapply Forall_impl; [exact Hd|]. intros [[] x]; cbn; auto.
    + unfold pointer_of. cbn. now rewrite Hcon.
  - split; [|reflexivity]. constructor; [exact Hm|]. intros _. exact (step_ok _ _ _ _ Hgs (Hg Hf)).
Qed.

Lemma pointer_run_refines c ops c' :
  pointer_run c ops c' -> pointer_ok (fst c) (snd c) ->
  pointer_ok (fst c') (snd c') /\ pointer_of (fst c') = fold_left abstract_step ops (pointer_of (fst c)).
Proof.
  intros Hr. induction Hr as [c|[p t] op [p1 t1] ops c2 Hs _ IH]; intros Hc; [now split|].
  destruct (pointer_step_refines p t op p1 t1 Hs Hc) as [H1 E1]. destruct (IH H1) as [H2 E2].
  split; [exact H2|]. rewrite E2. cbn [fst]. now rewrite E1.
Qed.

(** C4: from the mice to the screen. Along every history of reports, connections and
    disconnections, cursor services, ring-2 requests and display operations, with any
    answers of the hardware, the position of the hardware cursor, the motions on their
    way and the set of connected mice are what the abstract pointer says: each report's
    motion is applied once, in order, clamped to the screen, by the next service that finds
    a cursor shown; it waits otherwise; it is dropped only when sixty-three are waiting,
    and forgotten when its mouse goes. *)
Theorem pointer_refines p t ops p' t' :
  pointer_ok p t -> pointer_run (p, t) ops (p', t') ->
  pointer_of p' = fold_left abstract_step ops (pointer_of p).
Proof. intros Hp Hr. exact (proj2 (pointer_run_refines _ _ _ Hr Hp)). Qed.


(** C25: the cursor service. It runs with interrupts off, from the instruction that saves
    the flags to the one that restores exactly them. With nothing to move it empties the
    queue; when the graphics lock is held or no cursor is up it changes nothing but the
    retry counter, and every motion stays queued; otherwise the cursor goes where the
    clamped walk over all motions of the connected mice leads, with one update of its
    registers, none when it stays, and the queue is empty. *)
Theorem cursor_service_correct p t :
  queue_typed (cursor_queue (pt_mouse p)) -> flushable (pt_gpu p) ->
  wp free (mouse_cursor_service p)
    (fun o t' => exists flags p' d, o = Done (tt, p') /\
       t' = (RestoreFlags flags, 0) :: d ++ (SaveFlagsCli, flags) :: t /\ service_result p p' d) t.
Proof. apply service_spec. Qed.

(** Pipe B's screen with a cursor near its edge, and a mouse that moves. *)
Definition shown_display : intel915_kernel :=
  Build_intel915_kernel true (ready_display <| g_status := I915_DRAWN |> <| g_stage := 6 |>
    <| g_cursor_enabled := 1 |> <| g_cursor_physical := 0x100000 |> <| g_cursor_x := 5 |> <| g_cursor_y := 5 |>).
Definition still_pointer : pointer := Build_pointer zero_mouse shown_display.
Definition moving_pointer : pointer :=
  still_pointer <| pt_mouse := mouse_receive (mouse_receive zero_mouse 1 USB_REPORT_CONNECTED None 0)
                                 1 USB_REPORT_DATA (Some [0; 0xF0; 3]) 3 |>.

Lemma still_ok : pointer_ok still_pointer [].
Proof.
  constructor.
  - split.
    + split; [exact idle_ok|]. split; [repeat (constructor; [cbn; ulia|]); constructor|].
      split; [apply Forall_replicate; ulia|]. apply Forall_replicate. split; cbn; ulia.
    + split; [vm_compute; split_and!; congruence|].
      split; [|split; [cbn; ulia|]; split; [cbn; ulia|]; split; [cbn; ulia|]; split; cbn; ulia].
      apply Forall_replicate. split; [cbn; lia|]. split; [cbn; lia|]. cbn. ulia.
  - intros _. constructor.
    + reflexivity.
    + split; [reflexivity|]. split; [now right|]. split; [reflexivity|]. cbn. lia.
    + right. unfold is_task. cbn. split; [lia|reflexivity].
    + reflexivity.
    + intros _. cbn. lia.
    + intros _. unfold on_screen. cbn. lia.
    + intros _. cbn. lia.
Qed.

(** Mouse 1 is connected, moves by (-16, 3), and the cursor follows to the left edge. *)
Definition moved_pointer : pointer :=
  Build_pointer ((pt_mouse moving_pointer) <| cursor_queue :=
      (emptied (cursor_queue (pt_mouse moving_pointer))) <| c_flushes := 1 |> |>)
    (shown_display <| i_state := moved_to (i_state shown_display) (0, 8) |>).

Definition three_steps : list pointer_op :=
  [Received 1 USB_REPORT_CONNECTED None; Received 1 USB_REPORT_DATA (Some [0; 0xF0; 3]); Served].

Definition connected_pointer : pointer :=
  still_pointer <| pt_mouse := mouse_receive zero_mouse 1 USB_REPORT_CONNECTED None 0 |>.
Definition report_trace : trace :=
  [(Load W8 0x30062102, 3); (Load W8 0x30062101, 0xF0); (Load W8 0x30062100, 0)].
Definition move_trace : trace :=
  (RestoreFlags 0x202, 0) ::
  map (fun e => (e, 0)) (cursor_accesses (I915_BASE + I915_MMIO_OFFSET) (i_state shown_display) (0, 8)) ++
  (SaveFlagsCli, 0x202) :: report_trace.

Lemma three_steps_run : pointer_run (still_pointer, []) three_steps (moved_pointer, move_trace).
Proof.
  apply (run_cons _ _ (connected_pointer, [])).
  { apply (step_received 1 USB_REPORT_CONNECTED 0 0 None); [ulia|ulia|exact I| |reflexivity].
    apply (replay_run _ []). vm_compute. reflexivity. }
  apply (run_cons _ _ (moving_pointer, report_trace)).
  { apply (step_received 1 USB_REPORT_DATA 0x30062100 3 (Some [0; 0xF0; 3]) connected_pointer []
             (pt_mouse moving_pointer)); [ulia|ulia| | |reflexivity].
    - split; [reflexivity|]. repeat (constructor; [ulia|]). constructor.
    - apply (replay_run _ [0; 0xF0; 3]). vm_compute. reflexivity. }
  apply (run_cons _ _ (moved_pointer, move_trace)); [|apply run_nil]. apply step_served.
  apply (replay_run _ [0x202; 0; 0; 0; 0; 0]). vm_compute. reflexivity.
Qed.

Lemma pointer_refines_witness :
  pointer_run (still_pointer, []) three_steps (moved_pointer, move_trace) /\
  pointer_of moved_pointer = fold_left abstract_step three_steps (pointer_of still_pointer) /\
  ap_at (pointer_of moved_pointer) = (0, 8).
Proof.
  split; [exact three_steps_run|]. split; [|vm_compute; reflexivity].
  exact (pointer_refines still_pointer [] three_steps moved_pointer move_trace still_ok three_steps_run).
Defined.


Lemma cursor_service_correct_witness :
  wp free (mouse_cursor_service still_pointer)
    (fun o t' => exists flags, o = Done (tt, still_pointer) /\
       t' = [(RestoreFlags flags, 0); (SaveFlagsCli, flags)]) [].
Proof.
  eapply wp_mono; [|apply (cursor_service_correct still_pointer [])].
  - intros o t' (flags & [m k] & d & -> & -> & q' & Em & -> & Ek & ->). exists flags. cbn in Em, Ek. subst.
    now split.
  - exact (proj2 (po_mouse _ _ still_ok)).
  - exact (ok_flushable _ _ still_ok).
Defined.
