(* ===== verification/Desktop.v ===== *)
(** * The desktop process: [Desktop/Desktop.c]

    The file is compiled twice: [desktop_create] is the kernel's half, [desktop_main] the
    ring-3 program. The program's service calls ([User/UserServices.h]) are calls through
    the assembly gateway, [Api] accesses here; a loop that never ends and does nothing is
    [OutOfFuel]. *)
From stdpp Require Import list gmap strings.
From S2P Require Import Prelude Machine Ring Intel915 CursorFacts GraphicsSafety Intel915Init GraphicsSystem UsbHost Mouse MouseEvents MouseHost Pointer.

Definition USER_MOUSE_VALID : Z := 0x80000000.
Definition USER_MOUSE_LOST : Z := 0x40000000.
Definition USER_MOUSE_BUSY : Z := 0x20000000.
Definition DESKTOP_IMAGE_SOURCE : Z := 0x80014000.
Definition DESKTOP_IMAGE_SIZE : Z := 0x1000.
Definition PROCESS_TSS_SELECTOR_OFFSET : Z := 44.
Definition PROCESS_TYPE_PROTECTED32 : Z := 0.

(** ** The user program *)
Definition display_write_cell (cell character : Z) : prog bus Z := api "display_write_cell" [cell; character].

Definition desktop_graphics_error {A} (result : Z) : prog bus A :=
  display_write_cell 0 71 ;;
  for_range 8 0 (fun index =>
    let digit := (result >>> (28 -% index *% 4)) .& 15 in
    display_write_cell (index +% 1) (if digit <? 10 then 48 +% digit else 65 +% digit -% 10) ;; Ret tt) ;;
  OutOfFuel.

(** What the loop does with an event: [break] is [Some], [continue] is [None]. *)
Definition handle_event (event : Z) : option unit :=
  if (event =? 0) || (event =? USER_MOUSE_BUSY) then Some tt
  else if event =? USER_MOUSE_LOST then None
  else if event .& USER_MOUSE_VALID =? 0 then Some tt
  else None.

(** One pass over the queued events. *)
Definition desktop_round : prog bus unit :=
  for_break 32 0 (fun _ => let! event := api "mouse_read_event" [] in Ret (handle_event event)) ;;
  Ret tt.

(** [for (;;)], for as many rounds as are watched. *)
Fixpoint desktop_loop (rounds : nat) : prog bus Empty_set :=
  match rounds with
  | O => OutOfFuel
  | S rounds' => desktop_round ;; desktop_loop rounds'
  end.

Definition desktop_main (rounds : nat) : prog bus Empty_set :=
  let! result := api "graphics_initialize_desktop" [] in
  if negb (result =? I915_DRAWN) then desktop_graphics_error result else
  let! screen := api "graphics_get_screen_size" [] in
  let width := screen .& 0xFFFF in
  let height := screen >>> 16 in
  if (width <? 320) || (2048 <? width) || (height <? 200) || (2048 <? height)
  then desktop_graphics_error screen else
  api "audio_initialize" [] ;;
  desktop_loop rounds.

(** ** The kernel's half *)
Definition desktop_create : code intel915_kernel unit :=
  let* flags := io (access (ReadReg EFLAGS)) in
  if negb (flags .& 0x200 =? 0) then cpanic "Create the boot desktop before enabling interrupts" else
  let* process := io (api "process_create" [PROCESS_TYPE_PROTECTED32]) in
  if process =? 0 then cpanic "Cannot create desktop process" else
  let* prepared := io (api "process_prepare_test_task" [process; DESKTOP_IMAGE_SOURCE; DESKTOP_IMAGE_SIZE]) in
  if prepared =? 0 then
    io (api "process_destroy" [process]) ;* cpanic "Cannot load desktop code and stack"
  else
  let* selector := io (load32 (process +% PROCESS_TSS_SELECTOR_OFFSET)) in
  let* claimed := intel915_claim_desktop selector in
  if claimed =? 0 then
    io (api "process_destroy" [process]) ;* cpanic "Cannot assign graphics ownership to the desktop"
  else cret tt.

(** ** Creation *)

(** The process created in a trace and not destroyed since. *)
Fixpoint live_process (t : trace) : option Z :=
  match t with
  | [] => None
  | (Api f args, v) :: t =>
      if String.eqb f "process_create" then if v =? 0 then None else Some v
      else if String.eqb f "process_destroy" then
        match live_process t with
        | Some p => if bool_decide (args = [p]) then None else Some p
        | None => None
        end
      else live_process t
  | _ :: t => live_process t
  end.

(** A record whose display is ready for a first owner. *)
Definition unclaimed (k : intel915_kernel) : Prop :=
  panic_state k = true /\ g_status (i_state k) = I915_READY /\ g_owner_tss_selector (i_state k) = 0.

Definition valid_selector (selector : Z) : bool :=
  negb (selector =? 0) && (selector <=? 0xFFF8) && (selector .& 7 =? 0).

Lemma claim_result k selector : unclaimed k ->
  intel915_claim_desktop selector k =
  if valid_selector selector
  then Ret (1, k <| i_state := (i_state k) <| g_owner_tss_selector := selector |> |>) else Ret (0, k).
Proof.
  intros (Hp & Hs & Ho). unfold intel915_claim_desktop, cbind, gets, id. cbn [bind fst snd].
  rewrite Hp, Hs, Ho, Z.eqb_refl. cbn [negb orb]. unfold valid_selector.
  rewrite Z.leb_antisym. destruct (selector =? 0), (0xFFF8 <? selector), (selector .& 7 =? 0); reflexivity.
Qed.



(** ** The event loop *)

(** A ring-2 call through the gate, while no other call is inside. *)
Definition in_ring2 (_ : unit) (e : bus) : option (Z * unit) :=
  match e with ReadReg CS => Some (0x22, tt) | _ => None end.

(** What the desktop's calls do to the mouse driver. *)
Definition mouse_gate (s : mouse_shared) (e : bus) : option (Z * mouse_shared) :=
  match e with
  | Api f [] =>
      if String.eqb f "mouse_read_event" then
        match exec in_ring2 (mouse_driver_service MOUSE_READ_EVENT s) tt with
        | (Done (r, s'), _) => Some (r, s')
        | _ => None
        end
      else None
  | _ => None
  end.

(** A call runs one request; the bookkeeping aside, the state is the request's. *)
Definition called (s : mouse_shared) : mouse_shared :=
  s <| m_lock := 1 |> <| m_last_cpl := 2 |> <| m_calls := m_calls s +% 1 |>.

Lemma gate_reads s : m_lock s = 0 ->
  mouse_gate s (Api "mouse_read_event" []) =
  let '(r, s') := mouse_process_request (called s) MOUSE_READ_EVENT in Some (r, s' <| m_lock := 0 |>).
Proof.
  intros Hl. unfold mouse_gate. rewrite String.eqb_refl. unfold mouse_driver_service, cbind, gets, modify, lift.
  cbn [bind fst snd exec]. rewrite Hl. change (0 =? 0) with true.
  cbn [negb bind exec in_ring2]. change (0x22 .& 3 =? 2) with true. change (0x22 .& 3) with 2.
  transitivity (Some (fst (mouse_process_request (called s) MOUSE_READ_EVENT),
                      (snd (mouse_process_request (called s) MOUSE_READ_EVENT)) <| m_lock := 0 |>));
    [reflexivity|]. now destruct (mouse_process_request _ _).
Qed.

(** *** One read of the mailbox *)
Lemma next_event_shrinks connected l :
  match next_event connected l with
  | (None, rest) => rest = []
  | (Some p, rest) => p ∈ l /\ well_formed p = true /\ (length rest < length l)%nat
  end.
Proof.
  induction l as [|p l IH]; cbn [next_event]; [reflexivity|]. case_if.
  - bool_to_prop. split; [apply list_elem_of_here|]. split; [assumption|cbn; lia].
  - destruct (next_event connected l) as [[p'|] rest]; [|exact IH]. destruct IH as (Hin & Hw & Hl).
    split; [now apply list_elem_of_further|]. split; [exact Hw|cbn; lia].
Qed.

(** How many reads it takes to catch up. *)
Definition backlog (b : mailbox) : nat := if b_lost b =? 0 then length (b_reports b) else 1.

Lemma report_byte_u8 l i : Forall is_u8 l -> is_u8 (report_byte l i).
Proof.
  intros H. unfold report_byte, at_slot. destruct (l !! _) as [x|] eqn:E; cbn; [|ulia].
  exact (Forall_lookup_1 _ _ _ _ H E).
Qed.

Lemma event_is_valid p : 0 <= p_controller p -> Forall is_u8 (p_data p) -> well_formed p = true ->
  event_of p <> 0 /\ event_of p <> USER_MOUSE_BUSY /\ event_of p <> USER_MOUSE_LOST /\
  event_of p .& USER_MOUSE_VALID <> 0.
Proof.
  intros Hc Hd Hw. unfold well_formed in Hw. bool_to_prop. unfold event_of.
  pose proof (land_le (report_byte (p_data p) 0) 7).
  set (b := report_byte (p_data p) 0 .& 7) in *.
  destruct (mouse_event_fields (p_controller p) (report_byte (p_data p) 1) (report_byte (p_data p) 2) b)
    as (Hu & Hv & _); [lia|now apply report_byte_u8|now apply report_byte_u8|lia|].
  set (e := mouse_event _ _ _ _) in *.
  assert (e .& USER_MOUSE_VALID = USER_MOUSE_VALID) as Hvalid.
  { change USER_MOUSE_VALID with (0xF0000000 .& 0x80000000) at 1. rewrite Z.land_assoc, Hv. reflexivity. }
  rewrite Hvalid. split_and!; try discriminate; intros E; rewrite E in Hv; discriminate Hv.
Qed.

Definition reports_bytes (b : mailbox) : Prop :=
  Forall (fun p => 0 <= p_controller p /\ Forall is_u8 (p_data p)) (b_reports b).

(** A read that goes on leaves less to read; one that stops leaves nothing. *)
Lemma read_catches_up b : reports_bytes b ->
  let (r, b') := request b MOUSE_READ_EVENT in
  b_lost b' = 0 /\
  match handle_event r with None => (backlog b' < backlog b)%nat | Some _ => b_reports b' = [] end.
Proof.
  intros Hb. unfold request, backlog. change (2 <? MOUSE_READ_EVENT) with false. cbn iota.
  destruct (b_lost b =? 0) eqn:El; cbn [negb].
  2:{ split; [reflexivity|]. exact (Nat.lt_0_succ 0). }
  change (MOUSE_READ_EVENT =? 2) with false. change (MOUSE_READ_EVENT =? 1) with false. cbn iota zeta.
  cbn [b_connected b_reports assign]. pose proof (next_event_shrinks (b_connected b) (b_reports b)) as H.
  destruct (next_event (b_connected b) (b_reports b)) as [[p|] rest].
  - destruct H as (Hin & Hw & Hl). unfold reports_bytes in Hb. rewrite Forall_forall in Hb.
    destruct (Hb p Hin) as [Hc Hd]. destruct (event_is_valid p Hc Hd Hw) as (H0 & H1 & H2 & H3).
    apply Z.eqb_eq in El. split; [exact El|]. unfold handle_event.
    rewrite (proj2 (Z.eqb_neq _ _) H0), (proj2 (Z.eqb_neq _ _) H1), (proj2 (Z.eqb_neq _ _) H2), (proj2 (Z.eqb_neq _ _) H3).
    cbn. rewrite El. exact Hl.
  - subst rest. apply Z.eqb_eq in El. split; [exact El|]. reflexivity.
Qed.

(** *** Rounds *)
Lemma mailbox_bytes s : mouse_ok s -> reports_bytes (mailbox_of s).
Proof.
  intros (_ & Hp & _). unfold reports_bytes, mailbox_of, reports, window. cbn [b_reports]. rewrite map_map.
  apply Forall_map, Forall_true. intros i. unfold compose.
  destruct (slot_packet_ok (m_packets s) ((m_tail s + i) mod 32) Hp) as (_ & Hd & Hc & _).
  split; [exact Hc|]. now apply Forall_take.
Qed.

Definition caught_up (s : mouse_shared) : Prop :=
  mouse_ok s /\ m_lock s = 0 /\ reports s = [] /\ m_observed_dropped s = m_dropped s.

(** The gate, as a read of the mailbox. *)
Lemma gate_mailbox s : mouse_ok s -> m_lock s = 0 ->
  exists r s', mouse_gate s (Api "mouse_read_event" []) = Some (r, s') /\ mouse_ok s' /\ m_lock s' = 0 /\
    r = fst (request (mailbox_of s) MOUSE_READ_EVENT) /\
    mailbox_of s' = snd (request (mailbox_of s) MOUSE_READ_EVENT).
Proof.
  intros Hs Hl. rewrite gate_reads by exact Hl.
  destruct (request_refines (called s) MOUSE_READ_EVENT Hs) as [Er [Hok Em]].
  destruct (mouse_process_request (called s) MOUSE_READ_EVENT) as [r s'].
  exists r, (s' <| m_lock := 0 |>). split; [reflexivity|]. split; [exact Hok|]. split; [reflexivity|].
  split; [exact Er|exact Em].
Qed.

Lemma caught s : mouse_ok s -> m_lock s = 0 -> b_lost (mailbox_of s) = 0 -> b_reports (mailbox_of s) = [] -> caught_up s.
Proof.
  intros Hs Hl Hlost Hr. split; [exact Hs|]. split; [exact Hl|]. split; [now apply map_eq_nil in Hr|].
  destruct Hs as (_ & _ & _ & H1 & H2). apply Z.eqb_eq. rewrite <- sub_zero by assumption. now apply Z.eqb_eq.
Qed.

Lemma round_catches_up n : forall i s, mouse_ok s -> m_lock s = 0 -> (backlog (mailbox_of s) <= n)%nat ->
  exists r s', exec mouse_gate (for_break n i (fun _ => let! event := api "mouse_read_event" [] in Ret (handle_event event))) s = (Done r, s') /\ caught_up s'.
Proof.
  induction n as [|n IH]; intros i s Hs Hl Hn.
  - exists None, s. split; [reflexivity|]. unfold backlog in Hn.
    destruct (Z.eqb_spec (b_lost (mailbox_of s)) 0) as [E|E]; [|lia].
    apply caught; auto. destruct (b_reports _); [reflexivity|cbn in Hn; lia].
  - cbn [for_break]. rewrite exec_bind. unfold api, access. cbn [bind exec].
    destruct (gate_mailbox s Hs Hl) as (r & s' & -> & Hs' & Hl' & -> & Em).
    pose proof (read_catches_up (mailbox_of s) (mailbox_bytes s Hs)) as H.
    destruct (request (mailbox_of s) MOUSE_READ_EVENT) as [r b']. cbn [fst snd] in *. subst b'.
    destruct H as [Hlost H]. cbn [then_ exec]. destruct (handle_event r) as [[]|].
    2:{ apply IH; [assumption..|lia]. }
    exists (Some tt), s'. split; [reflexivity|]. now apply caught.
Qed.

(** One round of the desktop's loop catches up with the mouse: while no report arrives and
    no other task is inside the driver, at most thirty-two reads leave no report queued
    and no loss unannounced, whatever was queued before, malformed and stale reports
    included. The thirty-two of the loop are enough for the thirty-one slots the queue
    can fill. *)
Lemma desktop_round_drains s :
  mouse_ok s -> m_lock s = 0 ->
  exists s', exec mouse_gate desktop_round s = (Done tt, s') /\ caught_up s'.
Proof.
  intros Hs Hl. unfold desktop_round. rewrite exec_bind.
  destruct (round_catches_up 32 0 s Hs Hl) as (r & s' & -> & Hc); [|now exists s'].
  unfold backlog. case_if; [|lia]. cbn [b_reports mailbox_of]. rewrite length_map.
  pose proof (window_bound no_packet 32 eq_refl (m_packets s) (m_head s) (m_tail s)). unfold reports. lia.
Qed.

(** *** The whole program *)

(** The ring-1 gate, entered by the task [task]. *)
Definition in_ring1 (task : Z) (e : bus) : option (Z * Z) :=
  match e with
  | ReadReg CS => Some (0x51, task)
  | ReadReg TR => Some (task, task)
  | _ => None
  end.

Definition graphics_gate (task operation : Z) (g : intel915_shared) : option (Z * intel915_shared) :=
  match exec in_ring1 (intel915_driver_service operation 0 0 g) task with
  | (Done (r, g'), _) => Some (r, g')
  | _ => None
  end.

(** What the desktop's calls do once the display is drawn. Writing a text cell, which
    only the error path does, is a fault. *)
Definition user_gates (task : Z) (w : intel915_shared * mouse_shared) (e : bus)
    : option (Z * (intel915_shared * mouse_shared)) :=
  let '(g, s) := w in
  match e with
  | Api f [] =>
      if String.eqb f "graphics_initialize_desktop" then
        '(r, g') ← graphics_gate task INTEL915_INITIALIZE_DESKTOP g; Some (r, (g', s))
      else if String.eqb f "graphics_get_screen_size" then
        '(r, g') ← graphics_gate task INTEL915_GET_SCREEN_SIZE g; Some (r, (g', s))
      else if String.eqb f "audio_initialize" then Some (0, w)
      else '(r, s') ← mouse_gate s e; Some (r, (g, s'))
  | _ => None
  end.

(** The record after a call that only asked. *)
Definition asked (g : intel915_shared) : intel915_shared :=
  g <| g_observed_cs := 0x51 |> <| g_request_count := g_request_count g +% 1 |>.

Definition drawn_for (task : Z) (g : intel915_shared) : Prop :=
  layout_ok g /\ g_status g = I915_DRAWN /\ g_busy g = 0 /\ g_owner_tss_selector g = task /\ 0 < task < 0x10000.

Lemma drawn_asked task g : drawn_for task g -> drawn_for task (asked g).
Proof. intros H. exact H. Qed.

Lemma gate_answers task operation g : drawn_for task g -> operation = 0 \/ operation = 1 ->
  graphics_gate task operation g =
  Some (if operation =? 0 then I915_DRAWN else (g_height g <<% 16) .| g_width g, asked g).
Proof.
  intros (_ & Hst & Hb & Ho & Ht) Hop. unfold graphics_gate, intel915_driver_service, cbind, gets, modify, lift.
  cbn [bind access exec in_ring1 fst snd]. change (u16 0x51) with 0x51. change (negb (0x51 .& 3 =? 1)) with false.
  cbv iota. unfold u16 at 1. rewrite wrap_small by ulia. rewrite Ho.
  rewrite (proj2 (Z.eqb_neq task 0)), Z.eqb_refl by lia. cbn [orb negb].
  assert ((INTEL915_GET_SCREEN_SIZE <? operation) = false) as -> by (destruct Hop as [-> | ->]; reflexivity).
  rewrite Hb. change (negb (0 =? 0)) with false. cbv iota.
  destruct g; cbn in Hst, Hb, Ho; subst. destruct Hop as [-> | ->]; reflexivity.
Qed.

(** There is no operation to move the cursor: the owner's call is refused and changes
    nothing. *)
Lemma cursor_operation_refused task operation g : drawn_for task g -> 1 < operation ->
  graphics_gate task operation g = Some (I915_BAD_REQUEST, g).
Proof.
  intros (_ & Hst & Hb & Ho & Ht) Hop. unfold graphics_gate, intel915_driver_service, cbind, gets, lift.
  cbn [bind access exec in_ring1 fst snd]. change (u16 0x51) with 0x51. change (negb (0x51 .& 3 =? 1)) with false.
  cbv iota. unfold u16 at 1. rewrite wrap_small by ulia. rewrite Ho.
  rewrite (proj2 (Z.eqb_neq task 0)), Z.eqb_refl by lia. cbn [orb negb].
  unfold INTEL915_GET_SCREEN_SIZE. now rewrite (proj2 (Z.ltb_lt _ _) Hop).
Qed.

Lemma screen_word w h : 320 <= w <= 2048 -> 200 <= h <= 2048 ->
  let screen := (h <<% 16) .| w in is_u32 screen /\ screen .& 0xFFFF = w /\ screen >>> 16 = h.
Proof.
  intros Hw Hh. cbv zeta. rewrite shl32_small by (unfold in_u; lia). rewrite lor_add by (unfold in_u; lia).
  change 0xFFFF with (2 ^ 16 - 1). rewrite land_ones_mod, Z.shiftr_div_pow2 by lia.
  change (2 ^ 16) with 65536. split; [ulia|]. Z.to_euclidean_division_equations; lia.
Qed.

Lemma user_round task g s : mouse_ok s -> m_lock s = 0 ->
  exists s', exec (user_gates task) desktop_round (g, s) = (Done tt, (g, s')) /\ caught_up s'.
Proof.
  intros Hs Hl. destruct (desktop_round_drains s Hs Hl) as (s' & H & Hc). exists s'. split; [|exact Hc].
  revert H. unfold desktop_round. rewrite !exec_bind.
  assert (forall n i s r s1,
    exec mouse_gate (for_break n i (fun _ => let! event := api "mouse_read_event" [] in Ret (handle_event event))) s = (Done r, s1) ->
    exec (user_gates task) (for_break n i (fun _ => let! event := api "mouse_read_event" [] in Ret (handle_event event))) (g, s)
      = (Done r, (g, s1))) as Hsim.
  { clear. induction n as [|n IH]; intros i s r s1; cbn [for_break]; [now intros [= <- <-]|].
    rewrite !exec_bind. unfold api, access. cbn [bind exec].
    change (user_gates task (g, s) (Api "mouse_read_event" []))
      with ('(r, s') ← mouse_gate s (Api "mouse_read_event" []); Some (r, (g, s'))).
    destruct (mouse_gate s _) as [[v s2]|]; [|discriminate]. cbn [mbind option_bind then_ exec].
    destruct (handle_event v); [now intros [= <- <-]|apply IH]. }
  destruct (exec mouse_gate _ s) as [[r|m| |] s2] eqn:E; try discriminate. rewrite (Hsim _ _ _ _ _ E). cbn.
  now intros [= <-].
Qed.

Lemma user_loop task rounds : forall g s, mouse_ok s -> m_lock s = 0 -> (0 < rounds)%nat ->
  exists s', exec (user_gates task) (desktop_loop rounds) (g, s) = (Diverged, (g, s')) /\ caught_up s'.
Proof.
  induction rounds as [|n IH]; intros g s Hs Hl Hn; [lia|]. cbn [desktop_loop]. rewrite exec_bind.
  destruct (user_round task g s Hs Hl) as (s' & -> & Hc). cbn [then_].
  destruct n as [|n]; [now exists s'|]. destruct Hc as (Hs' & Hl' & _). apply IH; [assumption..|lia].
Qed.


(** The display of task 0x48 and a queued report. *)
Lemma moving_ok : mouse_ok (mouse_state (pt_mouse moving_pointer)).
Proof.
  assert (report_ok 3 (Some [0; 0xF0; 3])) as Hrep by (split; [reflexivity|repeat (constructor; [ulia|]); constructor]).
  destruct (receive_refines zero_mouse 1 USB_REPORT_CONNECTED None 0 shown_display (po_mouse _ _ still_ok) ltac:(ulia) I)
    as [H _].
  destruct (receive_refines _ 1 USB_REPORT_DATA (Some [0; 0xF0; 3]) 3 shown_display H ltac:(ulia) Hrep) as [[[H' _] _] _].
  exact H'.
Qed.

