(* ===== verification/KernelMain.v ===== *)
(** * The kernel's start: [Kernel/KernelMain.c]

    [kernel_main] composes every component: it checks the assembly kernel's API table and
    task, starts the drivers in order, and creates the desktop when graphics came up.
    The statics of all translation units together are the record [kernel]; the addresses
    the linker gave to handlers and buffers are [image]. *)
From stdpp Require Import list gmap strings.
From S2P Require Import Prelude Machine Runtime Ring Transport Storage Intel915 CursorFacts GraphicsSafety Intel915Init GraphicsSystem Azalia Vga Panic Ps2 UsbHost UsbMouse Mouse MouseHost Pointer Desktop.

Definition KERNEL_API_ADDRESS : Z := 0x80002200.
Definition KERNEL_API_MAGIC : Z := 0x4B415049.
Definition KERNEL_API_VERSION : Z := 1.
Definition KERNEL_IDLE_CALLBACK_ADDRESS : Z := 0x80002360.

(** The table [struct kernel_api] after its four words: each entry and its number of
    arguments, in order. *)
Definition kernel_api : list (string * nat) :=
  [("map_kernel_vga", 0); ("process_create", 1); ("process_create_protected32", 0);
   ("v86_process_create", 0); ("process_destroy", 1); ("process_slot_allocator_init", 0);
   ("process_slot_alloc", 1); ("process_slot_free", 1); ("process_prepare_test_task", 3);
   ("process_install_syscall_gateway", 1); ("test_heap", 0); ("enable_systemcall", 0); ("enable_vme", 0);
   ("pmm_init", 0); ("pmm_mark_range_free", 2); ("pmm_mark_range_used", 2); ("pmm_alloc_page", 0);
   ("pmm_free_page", 1); ("map_page", 3); ("heap_init", 0); ("heap_grow_one_page", 0);
   ("heap_grow_pages", 1); ("heap_alloc", 1); ("heap_free", 1); ("heap_coalesce", 0); ("heap_validate", 0);
   ("alloc_page_table", 0); ("free_page_table", 1); ("create_page_directory", 0);
   ("destroy_page_directory", 1); ("map_user_page", 4); ("unmap_page", 2); ("get_physical_address", 2);
   ("process_memory_init_heap_page", 1); ("process_memory_create", 0); ("v86_process_memory_create", 0);
   ("v86_map_low_memory", 1); ("gdt_allocator_init", 0); ("gdt_alloc_selector", 0);
   ("gdt_write_raw_descriptor", 3); ("gdt_free_selector", 1); ("gdt_write_segment_descriptor", 4);
   ("gdt_create_code_descriptor", 3); ("gdt_create_data_descriptor", 3); ("gdt_create_ldt_descriptor", 2);
   ("gdt_create_tss_descriptor", 1); ("gdt_create_tss_descriptor_with_limit", 2);
   ("ldt_alloc_selector", 2); ("ldt_write_raw_descriptor", 4); ("ldt_write_segment_descriptor", 5);
   ("process_create_random_ldt", 2); ("process_create_tss", 1); ("v86_process_create_tss", 1);
   ("create_kernel_tss", 0); ("process_heap_grow", 1); ("process_memory_destroy", 1); ("ptext", 1);
   ("scheduler_init", 0); ("scheduler_add_process", 1); ("scheduler_remove_process", 1);
   ("process_table_init", 0); ("process_register", 1); ("process_unregister", 1); ("process_get_by_id", 1)]%nat.

(** Link-time addresses. *)
Record image := {
  exception_dispatch_address : Z; lapic_dispatch_address : Z; ps2_interrupt_address : Z;
  cursor_service_address : Z; storage_syscall_address : Z; usb_host_address : Z;
  usb_interrupt_address : Z; configuration_address : Z; device_address : Z; audio_address : Z;
  audio_service_address : Z; background_address : Z;
  kernel_text : Z; kern_text : Z       (* the literals "kernel" and "kern" *)
}.

Record kernel := {
  k_panic : panic_statics; k_lapic : lapic_counts; k_ps2 : ps2_statics;
  k_mice : @mouse_unit mouse_kernel; k_audio : azalia_kernel
}.
#[export] Instance eta_kernel : Eta kernel := fun k =>
  Build_kernel (k_panic k) (k_lapic k) (k_ps2 k) (k_mice k) (k_audio k).

(** Code of one unit, run on the whole kernel's statics. *)
Definition within {S T A} (get : S -> T) (put : T -> S -> S) (m : code T A) : code S A := fun s =>
  let! r := m (get s) in Ret (fst r, put (snd r) s).

Definition k_vga (k : kernel) : vga_statics := p_vga (k_panic k).
Definition put_vga (v : vga_statics) (k : kernel) : kernel := k <| k_panic := (k_panic k) <| p_vga := v |> |>.
Definition k_gpu (k : kernel) : intel915_kernel := v_gpu (k_vga k).
Definition put_gpu (g : intel915_kernel) (k : kernel) : kernel := put_vga ((k_vga k) <| v_gpu := g |>) k.
Definition k_usb (k : kernel) : @usb mouse_kernel := mu_host (k_mice k).
Definition put_usb (u : usb) (k : kernel) : kernel := k <| k_mice := (k_mice k) <| mu_host := u |> |>.
Definition k_storage (k : kernel) : statics := storage (k_usb k).
Definition put_storage (s : statics) (k : kernel) : kernel := put_usb ((k_usb k) <| storage := s |>) k.
Definition k_pointer (k : kernel) : pointer := Build_pointer (client (k_usb k)) (k_gpu k).
Definition put_pointer (p : pointer) (k : kernel) : kernel :=
  put_gpu (pt_gpu p) (put_usb ((k_usb k) <| client := pt_mouse p |>) k).

Section KERNEL.
Context (fuel : nat) (im : image).

Definition kernel_background_service : code kernel unit :=
  within k_mice (fun m k => k <| k_mice := m |>)
    (usb_mouse_service fuel (configuration_address im) (device_address im)) ;*
  within k_pointer put_pointer mouse_cursor_service.

(** [str], [sldt] and [mov %cr3]; the descriptor tables are at 0x30010000. *)
Definition kernel_check_task_address_space : prog bus unit :=
  let! selector := access (ReadReg TR) in
  let selector := u16 selector in
  let! ldt := access (ReadReg LDTR) in
  let ldt := u16 ldt in
  let! cr3 := access (ReadReg CR3) in
  if (selector =? 0) || negb (selector .& 7 =? 0) then kpanic "Invalid kernel task selector" else
  let descriptor := 0x30010000 +% selector in
  let! low := load32 descriptor in
  let! high := load32 (descriptor + 4) in
  if negb (high .& 0x0000FF00 =? 0x00008B00)
  then kpanic "Kernel task descriptor is not a present busy 32-bit TSS" else
  let base := (low >>> 16) .| ((high .& 255) <<% 16) .| (high .& 0xFF000000) in
  if base =? 0 then kpanic "Kernel TSS has no base address" else
  let! tss_cr3 := load32 (base +% 0x1C) in
  if negb (tss_cr3 =? cr3) then kpanic "Kernel TSS CR3 does not match the active page directory" else
  let! tss_ldt := load16 (base +% 0x60) in
  if negb (tss_ldt =? ldt) then kpanic "Kernel TSS LDTR does not match the active LDT" else
  Ret tt.

(** [expected] is the array on the stack. *)
Definition kernel_runtime_self_test (expected : Z) : prog bus unit :=
  let! valid := api "heap_validate" [] in
  kassert (negb (valid =? 0)) "Heap was corrupt before C runtime test" ;;
  let! allocation := api "heap_alloc" [32] in
  kassert (negb (allocation =? 0)) "C runtime test allocation failed" ;;
  memset allocation 0xA5 32 ;;
  memset expected 0xA5 32 ;;
  let! order := memcmp allocation expected 32 in
  kassert (order =? 0) "memcmp(allocation, expected, sizeof(expected)) == 0" ;;
  let! length := strlen fuel (kernel_text im) in
  kassert (length =? 6) "strlen(kernel) == 6u" ;;
  let! order := strcmp fuel (kernel_text im) (kernel_text im) in
  kassert (order =? 0) "strcmp(kernel, kernel) == 0" ;;
  let! order := strncmp (kernel_text im) (kern_text im) 4 in
  kassert (order =? 0) "strncmp(kernel, kern, 4u) == 0" ;;
  api "heap_free" [allocation] ;;
  let! valid := api "heap_validate" [] in
  kassert (negb (valid =? 0)) "Heap was corrupt after C runtime test".

(** The words of the API table. *)
Definition check_api : prog bus unit :=
  let! magic := load32 KERNEL_API_ADDRESS in
  if negb (magic =? KERNEL_API_MAGIC) then kpanic "Assembly API magic mismatch" else
  let! version := load32 (KERNEL_API_ADDRESS + 4) in
  if negb (version =? KERNEL_API_VERSION) then kpanic "Assembly API version mismatch" else
  let! count := load32 (KERNEL_API_ADDRESS + 8) in
  if count <? 64 then kpanic "Assembly API table is incomplete" else Ret tt.

Definition kernel_main (expected : Z) : code kernel unit :=
  io check_api ;*
  within k_vga put_vga vga_capture_startup_font ;*
  io (exception_initialize (exception_dispatch_address im)) ;*
  io kernel_check_task_address_space ;*
  within k_lapic (fun l k => k <| k_lapic := l |>) (lapic_interrupt_initialize (lapic_dispatch_address im)) ;*
  io keyboard_driver_initialize ;*
  within k_usb put_usb (mouse_driver_initialize (cursor_service_address im)) ;*
  let* ok := within k_ps2 (fun p k => k <| k_ps2 := p |>) (ps2_keyboard_initialize (ps2_interrupt_address im)) in
  if negb ok then cpanic "PS/2 keyboard initialization failed" else
  io (kernel_runtime_self_test expected) ;*
  within k_storage put_storage (storage_initialize (storage_syscall_address im)) ;*
  within k_usb put_usb (usb_host_initialize fuel (usb_host_address im) (usb_interrupt_address im)) ;*
  within k_mice (fun m k => k <| k_mice := m |>)
    (usb_mouse_initialize fuel (configuration_address im) (device_address im)) ;*
  within k_audio (fun a k => k <| k_audio := a |>) (azalia_initialize (audio_address im) (audio_service_address im)) ;*
  io (store32 KERNEL_IDLE_CALLBACK_ADDRESS (background_address im)) ;*
  let* graphics := within k_gpu put_gpu intel915_initialize in
  if negb (graphics =? 0) then within k_gpu put_gpu desktop_create else cret tt.

(** ** The task check *)

(** The task register, LDT and page directory in use, and memory. *)
Record task_machine := { tm_tr : Z; tm_ldt : Z; tm_cr3 : Z; tm_word : Z -> Z; tm_half : Z -> Z }.

Definition task_bus (m : task_machine) (e : bus) : option (Z * task_machine) :=
  match e with
  | ReadReg TR => Some (tm_tr m, m)
  | ReadReg LDTR => Some (tm_ldt m, m)
  | ReadReg CR3 => Some (tm_cr3 m, m)
  | Load W32 a => Some (tm_word m a, m)
  | Load W16 a => Some (tm_half m a, m)
  | _ => None
  end.

(** The fields of a system descriptor, as the processor lays them out. *)
Definition descriptor_type (high : Z) : Z := (high / 2 ^ 8) mod 2 ^ 8.
Definition descriptor_base (low high : Z) : Z :=
  low / 2 ^ 16 + 2 ^ 16 * (high mod 2 ^ 8) + 2 ^ 24 * (high / 2 ^ 24).

Definition task_consistent (m : task_machine) : Prop :=
  let low := tm_word m (0x30010000 + tm_tr m) in
  let high := tm_word m (0x30010000 + tm_tr m + 4) in
  let base := descriptor_base low high in
  tm_tr m <> 0 /\ tm_tr m mod 8 = 0 /\ descriptor_type high = 0x8B /\ base <> 0 /\
  tm_word m (base +% 0x1C) = tm_cr3 m /\ tm_half m (base +% 0x60) = tm_ldt m.

Lemma type_field high : is_u32 high -> high .& 0x0000FF00 = 2 ^ 8 * descriptor_type high.
Proof.
  intros H. change 0xFF00 with (255 * 2 ^ 8). unfold descriptor_type.
  rewrite <- (Z.shiftl_mul_pow2 255 8), <- (Z.shiftr_div_pow2 high 8), <- (Z.land_ones _ 8) by lia.
  rewrite Z.mul_comm, <- Z.shiftl_mul_pow2 by lia. apply Z.bits_inj'. intros n Hn.
  rewrite Z.land_spec, !Z.shiftl_spec by lia. change (Z.ones 8) with 255.
  destruct (Z.lt_ge_cases n 8).
  - now rewrite !(Z.testbit_neg_r _ (n - 8)), andb_false_r by lia.
  - rewrite Z.land_spec, Z.shiftr_spec by lia. now replace (n - 8 + 8) with n by lia.
Qed.

Lemma base_field low high : is_u32 low -> is_u32 high ->
  (low >>> 16) .| ((high .& 255) <<% 16) .| (high .& 0xFF000000) = descriptor_base low high.
Proof.
  intros Hl Hh. unfold descriptor_base. rewrite Z.shiftr_div_pow2 by lia.
  change 255 with (2 ^ 8 - 1). rewrite land_ones_mod by lia.
  change 0xFF000000 with (not32 (2 ^ 24 - 1)). rewrite land_not_mask by (assumption || lia).
  pose proof (Z.mod_pos_bound high (2 ^ 8)) as Hb. pose proof (Z.mod_pos_bound high (2 ^ 24)) as Hm.
  rewrite shl32_small by (unfold in_u in *; lia).
  replace (high - high mod 2 ^ 24) with ((high / 2 ^ 24) * 2 ^ 24).
  2:{ pose proof (Z.div_mod high (2 ^ 24)). lia. }
  rewrite (Z.lor_comm (low / 2 ^ 16)), lor_add.
  2: lia. 2:{ unfold in_u in *. Z.to_euclidean_division_equations. lia. }
  rewrite Z.lor_comm, lor_add; [lia|lia|].
  unfold in_u in *. change (2 ^ 16) with 65536 in *. change (2 ^ 8) with 256 in *. change (2 ^ 24) with 16777216 in *.
  change (2 ^ 32) with 4294967296 in *. Z.to_euclidean_division_equations. lia.
Qed.

(** The check failed at one of its conditions. *)
Ltac panics := split; [intros H; exfalso; lia|intros _; eexists; reflexivity].

(** C39: the boot check of the running task accepts a machine exactly when its task register
    names a global descriptor that is a present, busy 32-bit TSS with a base, and that TSS
    holds the page directory and the LDT in use; otherwise the kernel panics. The base
    and type are the descriptor's own fields, decoded as the processor does. *)
Theorem task_check_exact m :
  is_u16 (tm_tr m) -> is_u16 (tm_ldt m) ->
  (forall a, is_u32 (tm_word m a)) ->
  (task_consistent m -> exec task_bus kernel_check_task_address_space m = (Done tt, m)) /\
  (~ task_consistent m -> exists message, exec task_bus kernel_check_task_address_space m = (Panicked message, m)).
Proof.
  intros Htr Hldt Hw. unfold kernel_check_task_address_space, load32, load16, access. cbn [bind exec task_bus].
  assert (u16 (tm_tr m) = tm_tr m) as -> by (apply wrap_small; exact Htr).
  assert (u16 (tm_ldt m) = tm_ldt m) as -> by (apply wrap_small; exact Hldt).
  assert (0x30010000 +% tm_tr m = 0x30010000 + tm_tr m) as -> by (apply add32_small; ulia).
  change 7 with (2 ^ 3 - 1). rewrite land_ones_mod by lia. change (2 ^ 3) with 8. unfold task_consistent.
  set (low := tm_word m (0x30010000 + tm_tr m)). set (high := tm_word m (0x30010000 + tm_tr m + 4)).
  destruct (Z.eqb_spec (tm_tr m) 0); cbn [orb]; [panics|].
  destruct (Z.eqb_spec (tm_tr m mod 8) 0); cbn [negb]; [|panics].
  cbn [bind exec task_bus]. fold low high. rewrite type_field, base_field by apply Hw.
  destruct (Z.eqb_spec (2 ^ 8 * descriptor_type high) 0x8B00); cbn [negb]; [|panics].
  destruct (Z.eqb_spec (descriptor_base low high) 0); [panics|]. cbn [bind exec task_bus].
  destruct (Z.eqb_spec (tm_word m (descriptor_base low high +% 0x1C)) (tm_cr3 m)); cbn [negb]; [|panics].
  cbn [bind exec task_bus].
  destruct (Z.eqb_spec (tm_half m (descriptor_base low high +% 0x60)) (tm_ldt m)); cbn [negb]; [|panics].
  split; [reflexivity|]. intros H. destruct H. split_and!; auto. lia.
Qed.

(** The kernel task 0x28: a TSS at 0x80451234 with its page directory and LDT. *)
Definition booted_task : task_machine := {|
  tm_tr := 0x28; tm_ldt := 0x30; tm_cr3 := 0x30030000;
  tm_word := fun a => if a =? 0x30010028 then 0x12340067
                      else if a =? 0x3001002C then 0x80008B45
                      else if a =? 0x80451250 then 0x30030000 else 0;
  tm_half := fun a => if a =? 0x80451294 then 0x30 else 0
|}.

Lemma task_check_exact_witness :
  task_consistent booted_task /\
  exec task_bus kernel_check_task_address_space booted_task = (Done tt, booted_task).
Proof.
  assert (task_consistent booted_task) as H by (vm_compute; split_and!; congruence).
  split; [exact H|]. apply (task_check_exact booted_task); [cbn; ulia|cbn; ulia| |exact H].
  intros a. cbn. repeat case_if; ulia.
Defined.

(** ** The boot *)

(** A fact of the statics that the code of a unit cannot touch. *)
Abbreviation any := (fun (_ : trace) (_ : bus) => True).

Lemma keeps_within {T A} (I : kernel -> Prop) (get : kernel -> T) put (m : code T A) :
  (forall x k, I k -> I (put x k)) -> keeps any (fun k _ => I k) (within get put m).
Proof.
  intros HI k t Hk. unfold within. apply wp_bind. eapply wp_mono; [|apply bus_any].
  intros [[a x]|msg| |] t'; cbn; auto.
Qed.

Lemma keeps_io {A} (I : kernel -> Prop) (p : prog bus A) : keeps any (fun k _ => I k) (io p).
Proof. now apply keeps_any. Qed.

(** What stays true of the trace once a step has established it. *)
Definition api_checked (t : trace) : Prop :=
  (Load W32 KERNEL_API_ADDRESS, KERNEL_API_MAGIC) ∈ t /\
  (Load W32 (KERNEL_API_ADDRESS + 4), KERNEL_API_VERSION) ∈ t /\
  exists count, Z.of_nat (length kernel_api) <= count /\ (Load W32 (KERNEL_API_ADDRESS + 8), count) ∈ t.

Definition task_checked (t : trace) : Prop :=
  exists selector cr3 base, (ReadReg TR, selector) ∈ t /\ u16 selector <> 0 /\ (ReadReg CR3, cr3) ∈ t /\
    base <> 0 /\ (Load W32 (base +% 0x1C), cr3) ∈ t.

Lemma in_grown (x : bus * Z) d t : x ∈ t -> x ∈ d ++ t.
Proof. intros H. apply elem_of_app. now right. Qed.

Lemma api_checked_grows d t : api_checked t -> api_checked (d ++ t).
Proof.
  intros (H1 & H2 & n & Hn & H3). split; [now apply in_grown|]. split; [now apply in_grown|].
  exists n. split; [exact Hn|now apply in_grown].
Qed.

Lemma task_checked_grows d t : task_checked t -> task_checked (d ++ t).
Proof.
  intros (s & c & b & H1 & Hs & H2 & Hb & H3). exists s, c, b. split_and!; auto using in_grown.
Qed.

Lemma triple_check_api (J : kernel -> Prop) :
  triple any (fun k _ => J k) (io check_api) (fun _ k t => J k /\ api_checked t).
Proof.
  intros k t Hk. apply wp_io_last. unfold check_api. cbn [bind load32 access wp allowed answers any_hw].
  split; [exact I|]. intros magic t1 [_ ->]. case_if; [exact I|].
  cbn [bind load32 access wp allowed answers any_hw]. split; [exact I|]. intros version t2 [_ ->]. case_if; [exact I|].
  cbn [bind load32 access wp allowed answers any_hw]. split; [exact I|]. intros count t3 [_ ->]. case_if; [exact I|].
  bool_to_prop. subst. split; [exact Hk|]. split; [in_trace|]. split; [in_trace|].
  exists count. split; [exact E1|in_trace].
Qed.

Lemma triple_check_task (J : kernel -> Prop) :
  triple any (fun k _ => J k) (io kernel_check_task_address_space) (fun _ k t => J k /\ task_checked t).
Proof.
  intros k t Hk. apply wp_io_last. unfold kernel_check_task_address_space, load32, load16, access.
  cbn [bind wp allowed answers any_hw].
  split; [exact I|]. intros selector t1 [_ ->]. split; [exact I|]. intros ldt t2 [_ ->].
  split; [exact I|]. intros cr3 t3 [_ ->]. case_if; [exact I|]. bool_to_prop.
  cbn [bind wp allowed answers any_hw]. split; [exact I|]. intros low t4 [_ ->]. split; [exact I|]. intros high t5 [_ ->].
  case_if; [exact I|]. set (base := _ .| _). case_if; [exact I|]. bool_to_prop.
  cbn [bind wp allowed answers any_hw]. split; [exact I|]. intros tss_cr3 t6 [_ ->]. case_if; [exact I|]. bool_to_prop. subst.
  cbn [bind wp allowed answers any_hw]. split; [exact I|]. intros tss_ldt t7 [_ ->]. case_if; [exact I|].
  split; [exact Hk|]. exists selector, cr3, base. split; [in_trace|]. split; [assumption|]. split; [in_trace|].
  split; [assumption|in_trace].
Qed.

(** The font is captured and the graphics statics are as they were. *)
Definition untouched (g0 : intel915_kernel) (k : kernel) : Prop :=
  k_gpu k = g0 /\ startup_font_state (k_vga k) = VGA_FONT_CAPTURED.

Lemma triple_capture g0 :
  triple any (fun k _ => k_gpu k = g0) (within k_vga put_vga vga_capture_startup_font)
    (fun _ k _ => untouched g0 k).
Proof.
  intros k t Hk. unfold within. apply wp_bind.
  assert (triple any (fun v _ => v_gpu v = g0) vga_capture_startup_font
            (fun _ v _ => v_gpu v = g0 /\ startup_font_state v = VGA_FONT_CAPTURED)) as H.
  { unfold vga_capture_startup_font.
    eapply triple_bind; [now apply (keeps_any (fun v _ => v_gpu v = g0))|]. intros ?. cbn beta.
    eapply triple_bind with (R := fun _ v _ => v_gpu v = g0).
    { unfold each_row. apply keeps_for. intros ? _. apply keeps_for. intros ? _.
      apply keeps_bind; [now apply keeps_any|]. intros ?. now apply keeps_modify. }
    intros ?. cbn beta. eapply triple_bind; [now apply (keeps_any (fun v _ => v_gpu v = g0))|]. intros ?. cbn beta.
    apply triple_modify. now split. }
  eapply wp_mono; [|apply H; exact Hk]. intros [[a v]|msg| |] t'; cbn; auto.
Qed.

(** The desktop created at boot owns a display that was just handed over. *)
Definition desktop_owns (g : intel915_kernel) (t : trace) : Prop :=
  exists process selector g1,
    (Api "process_create" [PROCESS_TYPE_PROTECTED32], process) ∈ t /\ process <> 0 /\
    (Load W32 (process +% PROCESS_TSS_SELECTOR_OFFSET), selector) ∈ t /\ is_task selector /\
    handed_over g1 /\ g = g1 <| i_state := (i_state g1) <| g_owner_tss_selector := selector |> |>.

Lemma triple_desktop g1 : handed_over g1 ->
  triple any (fun g _ => g = g1) desktop_create (fun _ g t => desktop_owns g t).
Proof.
  intros Hg. assert (unclaimed g1) as Hun by (destruct Hg as (? & _ & ? & _ & ? & _); now split).
  intros g t ->. unfold desktop_create. apply wp_read; [exact I|]. intros flags t1 [_ ->].
  case_if; [exact I|]. apply wp_read; [exact I|]. intros p t2 [_ ->].
  case_if; [exact I|]. apply wp_read; [exact I|]. intros ok t3 [_ ->]. case_if.
  { cbn. split; [exact I|intros; exact I]. }
  apply wp_read; [exact I|]. intros selector t4 [Hsel ->]. apply wp_cbind. rewrite claim_result by exact Hun.
  destruct (valid_selector selector) eqn:Es; [|cbn; split; [exact I|intros; exact I]].
  cbn. exists p, selector, g1. unfold valid_selector in Es. bool_to_prop.
  split; [in_trace|]. split; [assumption|]. split; [in_trace|]. split; [|now split].
  unfold is_task. cbn in Hsel. unfold in_u in Hsel. lia.
Qed.

Lemma triple_graphics g0 :
  triple any (fun g _ => g = g0) intel915_initialize (fun r g _ => r = 0 /\ g = g0 \/ r = 1 /\ handed_over g).
Proof. eapply triple_weaken; [|apply initialize_spec]. auto. Qed.

(** The mouse driver is attached, empty, and announced. *)
Definition mouse_ready (t : trace) : Prop := (Store W32 MOUSE_READY_ADDRESS 1, 0) ∈ t.

Lemma triple_attach callback :
  triple any (fun u _ => client u = zero_mouse) (usb_host_set_report_callback (K := mouse_kernel) callback)
    (fun r u _ => client u = zero_mouse /\ (r <> 0 -> report_callback u = callback)).
Proof.
  intros u t Hu. unfold usb_host_set_report_callback. apply wp_read; [exact I|]. intros flags t1 [_ ->]. apply wp_gets.
  set (busy := existsb _ _). destruct busy; cbn; case_if; cbn; try (split; [exact I|]; intros ? ? _); now split.
Qed.

Lemma triple_kassert {G} (P : G -> trace -> Prop) condition message :
  (forall g t t', P g t -> P g t') ->
  triple any P (io (kassert condition message)) (fun _ g t => P g t /\ condition = true).
Proof. intros HP g t Hg. unfold kassert. destruct condition; cbn; [now split|exact I]. Qed.

Lemma triple_mouse_driver address :
  triple any (fun _ _ => True) (mouse_driver_initialize address)
    (fun _ u t => report_callback u = Some mouse_callback /\ client u = zero_mouse /\ mouse_ready t).
Proof.
  unfold mouse_driver_initialize.
  do 5 (eapply triple_bind; [now apply (keeps_any (fun _ _ => True))|]; intros ?; cbn beta).
  eapply triple_bind; [apply triple_modify with (Q := fun _ u _ => client u = zero_mouse); now intros|]. intros ?. cbn beta.
  do 5 (eapply triple_bind; [now apply (keeps_any (fun u _ => client u = zero_mouse))|]; intros ?; cbn beta).
  eapply triple_bind; [apply triple_attach|]. intros attached. cbn beta.
  eapply triple_bind; [apply triple_kassert; auto|]. intros ?. cbn beta.
  eapply triple_pre with (P' := fun u _ => report_callback u = Some mouse_callback /\ client u = zero_mouse).
  2:{ intros u t [[Hc Ha] E]. bool_to_prop. split; [now apply Ha|exact Hc]. }
  eapply triple_bind; [now apply (keeps_any (fun u _ => report_callback u = Some mouse_callback /\ client u = zero_mouse))|].
  intros ?. cbn beta.
  eapply triple_bind with (R := fun _ u t => (report_callback u = Some mouse_callback /\ client u = zero_mouse) /\ mouse_ready t).
  { apply triple_write; [auto|]. intros v u t -> Hu. split; [exact Hu|]. unfold mouse_ready. in_trace. }
  intros ?. cbn beta. apply triple_write; [auto|]. intros v u t _ [[H1 H2] H3]. split; [exact H1|]. split; [exact H2|].
  unfold mouse_ready in *. in_trace.
Qed.

(** Code of a unit, with what it establishes and keeps of the rest. *)
Lemma triple_within {T A} (get : kernel -> T) put (J : kernel -> Prop) (P : T -> trace -> Prop) (m : code T A) Q :
  (forall x k, J k -> J (put x k)) -> (forall x k, get (put x k) = x) -> triple any P m Q ->
  triple any (fun k t => J k /\ P (get k) t) (within get put m) (fun a k t => J k /\ Q a (get k) t).
Proof.
  intros HJ Hput Hm k t [Hk HP]. unfold within. apply wp_bind. eapply wp_mono; [|apply Hm, HP].
  intros [[a x]|msg| |] t'; cbn; auto. intros HQ. split; [now apply HJ|]. now rewrite Hput.
Qed.

Lemma get_put_gpu g k : k_gpu (put_gpu g k) = g.
Proof. reflexivity. Qed.
Lemma get_put_usb u k : k_usb (put_usb u k) = u.
Proof. reflexivity. Qed.

Section BOOT.
Context (g0 : intel915_kernel).

Lemma keeps_untouched {T A} (F : trace -> Prop) (get : kernel -> T) put (m : code T A) :
  (forall d t, F t -> F (d ++ t)) -> (forall x k, untouched g0 k -> untouched g0 (put x k)) ->
  keeps any (fun k t => untouched g0 k /\ F t) (within get put m).
Proof. intros HF HI. apply triple_frame; [exact HF|]. now apply keeps_within. Qed.

Lemma keeps_untouched_io {A} (F : trace -> Prop) (p : prog bus A) :
  (forall d t, F t -> F (d ++ t)) -> keeps any (fun k t => untouched g0 k /\ F t) (io p).
Proof. intros HF. apply triple_frame; [exact HF|]. apply keeps_io. Qed.

Definition checked (t : trace) : Prop := api_checked t /\ task_checked t.
Lemma checked_grows d t : checked t -> checked (d ++ t).
Proof. intros [H1 H2]. split; [now apply api_checked_grows|now apply task_checked_grows]. Qed.

Definition ready (t : trace) : Prop := checked t /\ mouse_ready t.
Lemma ready_grows d t : ready t -> ready (d ++ t).
Proof. intros [H1 H2]. split; [now apply checked_grows|]. unfold mouse_ready in *. now apply in_grown. Qed.

Definition announced (t : trace) : Prop :=
  ready t /\ (Store W32 KERNEL_IDLE_CALLBACK_ADDRESS (background_address im), 0) ∈ t.
Lemma announced_grows d t : announced t -> announced (d ++ t).
Proof. intros [H1 H2]. split; [now apply ready_grows|now apply in_grown]. Qed.

(** The checks and the early drivers. *)
Lemma triple_ready {A} (rest : code kernel A) Q :
  triple any (fun k t => untouched g0 k /\ ready t) rest Q ->
  triple any (fun k _ => k_gpu k = g0)
    (io check_api ;*
     within k_vga put_vga vga_capture_startup_font ;*
     io (exception_initialize (exception_dispatch_address im)) ;*
     io kernel_check_task_address_space ;*
     within k_lapic (fun l k => k <| k_lapic := l |>) (lapic_interrupt_initialize (lapic_dispatch_address im)) ;*
     io keyboard_driver_initialize ;*
     within k_usb put_usb (mouse_driver_initialize (cursor_service_address im)) ;* rest) Q.
Proof.
  intros Hrest. eapply triple_bind; [apply (triple_check_api (fun k => k_gpu k = g0))|]. intros ?. cbn beta.
  eapply triple_bind; [apply (triple_frame any _ api_checked), triple_capture; apply api_checked_grows|]. intros ?. cbn beta.
  eapply triple_bind; [apply keeps_untouched_io, api_checked_grows|]. intros ?. cbn beta.
  eapply triple_bind; [apply (triple_frame any _ api_checked), (triple_check_task (untouched g0)); apply api_checked_grows|].
  intros ?. cbn beta. apply triple_pre with (P' := fun k t => untouched g0 k /\ checked t); [|unfold checked; tauto].
  eapply triple_bind; [apply keeps_untouched; [apply checked_grows|auto]|]. intros ?. cbn beta.
  eapply triple_bind; [apply keeps_untouched_io, checked_grows|]. intros ?. cbn beta.
  eapply triple_bind.
  { apply (triple_frame any _ checked); [apply checked_grows|].
    eapply triple_pre; [apply (triple_within k_usb put_usb (untouched g0) (fun _ _ => True)
      (mouse_driver_initialize (cursor_service_address im)) _ ltac:(auto) get_put_usb (triple_mouse_driver _))|].
    intros k t H. exact (conj H I). }
  intros ?. cbn beta. eapply triple_pre; [exact Hrest|]. intros k t [[H1 (_ & _ & H2)] H3]. exact (conj H1 (conj H3 H2)).
Qed.

(** Graphics, and the desktop when they came up. *)
Lemma triple_show (F : trace -> Prop) : (forall d t, F t -> F (d ++ t)) ->
  triple any (fun k t => untouched g0 k /\ F t)
    (let* graphics := within k_gpu put_gpu intel915_initialize in
     if negb (graphics =? 0) then within k_gpu put_gpu desktop_create else cret tt)
    (fun _ k t => (startup_font_state (k_vga k) = VGA_FONT_CAPTURED /\
                   (k_gpu k = g0 \/ desktop_owns (k_gpu k) t)) /\ F t).
Proof.
  intros HF. apply (triple_frame any _ F); [exact HF|].
  set (captured := fun k => startup_font_state (k_vga k) = VGA_FONT_CAPTURED).
  eapply triple_bind.
  { eapply triple_pre; [apply (triple_within k_gpu put_gpu captured _ _ _ ltac:(auto) get_put_gpu (triple_graphics g0))|].
    intros k t [H1 H2]. now split. }
  intros r. cbn beta. apply triple_if; intros E; bool_to_prop.
  - intros k t [Hc [[-> _]|[_ Hg]]]; [now destruct E|].
    refine (wp_mono _ _ _ _ _ _ (triple_within k_gpu put_gpu captured _ _ _ ltac:(auto) get_put_gpu
                                   (triple_desktop (k_gpu k) Hg) k t (conj Hc eq_refl))).
    intros [[a k']|msg| |] t'; cbn; auto. intros [H1 H2]. auto.
  - apply triple_ret. intros k t [Hc [[_ Hg]|[-> _]]]; [|discriminate]. auto.
Qed.

End BOOT.

(** ** The self-test *)

(** RAM with a heap that hands out [block] once. *)
Definition heap_bus (block : Z) (w : gmap Z Z * option Z) (e : bus) : option (Z * (gmap Z Z * option Z)) :=
  let '(m, live) := w in
  match e with
  | Api f [] => if String.eqb f "heap_validate" then Some (1, w) else None
  | Api f [x] =>
      if String.eqb f "heap_alloc" && (x =? 32) then
        match live with None => Some (block, (m, Some block)) | Some _ => None end
      else if String.eqb f "heap_free" && bool_decide (live = Some x) then Some (0, (m, None)) else None
  | _ => '(v, m') ← byte_ram m e; Some (v, (m', live))
  end.

(** The runtime's routines touch only bytes, so they do on it what they do on RAM. *)
Lemma heap_ram {A} block (p : prog bus A) : forall m a m' live,
  exec byte_ram p m = (Done a, m') -> exec (heap_bus block) p (m, live) = (Done a, (m', live)).
Proof.
  induction p as [a|e k IH|msg|]; cbn [exec]; intros m a' m' live H; try discriminate.
  - now injection H as <- <-.
  - destruct (byte_ram m e) as [[v m1]|] eqn:E; [|discriminate].
    assert (heap_bus block (m, live) e = Some (v, (m1, live))) as ->; [|now apply IH].
    destruct e; try discriminate; unfold heap_bus; now rewrite E.
Qed.

Definition text_kernel : list Z := [107; 101; 114; 110; 101; 108].
Definition text_kern : list Z := [107; 101; 114; 110].

Definition apart (a : Z) (n : nat) (b : Z) (k : nat) : Prop := a + Z.of_nat n <= b \/ b + Z.of_nat k <= a.

Lemma cstring_kept m a n b l x : cstring_at m b l -> apart a n b (length l + 1) ->
  cstring_at (write_list m a (replicate n x)) b l.
Proof.
  intros [Hb Hf] Hap. split; [|exact Hf]. intros i y Hi. rewrite write_list_out; [now apply Hb|].
  apply lookup_lt_Some in Hi. rewrite length_app in Hi. cbn in Hi. rewrite length_replicate. unfold apart in Hap. lia.
Qed.

Lemma mapped_kept m a l b n : mapped m b n -> mapped (write_list m a l) b n.
Proof.
  intros H i Hi. destruct (decide (a <= b + Z.of_nat i < a + Z.of_nat (length l))) as [Hin|Hout].
  - destruct (lookup_lt_is_Some_2 l (Z.to_nat (b + Z.of_nat i - a))) as [x Hx]; [lia|].
    exists x. rewrite <- (write_list_in m a l _ x Hx). f_equal. lia.
  - rewrite write_list_out by lia. now apply H.
Qed.

(** One step of the test: a routine, then the rest. *)
Lemma heap_seq {A B} block (p : prog bus A) (f : A -> prog bus B) m a m' live :
  exec byte_ram p m = (Done a, m') ->
  exec (heap_bus block) (bind p f) (m, live) = exec (heap_bus block) (f a) (m', live).
Proof. intros H. rewrite exec_bind. now rewrite (heap_ram _ _ _ _ _ _ H). Qed.

Definition a5s : list Z := replicate 32 0xA5.

(** C40: the self-test passes on every healthy machine: with a heap that validates and hands
    out one block, RAM that keeps what is written, and the two literals in
    place, it returns, the block has been given back, and memory is as it was outside the
    block and the test's own array. *)
Theorem self_test_passes block expected m :
  block <> 0 -> mapped m block 32 -> mapped m expected 32 -> apart block 32 expected 32 ->
  cstring_at m (kernel_text im) text_kernel -> cstring_at m (kern_text im) text_kern ->
  apart block 32 (kernel_text im) 7 -> apart block 32 (kern_text im) 5 ->
  apart expected 32 (kernel_text im) 7 -> apart expected 32 (kern_text im) 5 -> (7 <= fuel)%nat ->
  exists m', exec (heap_bus block) (kernel_runtime_self_test expected) (m, None) = (Done tt, (m', None)) /\
    forall a, ~ (block <= a < block + 32) -> ~ (expected <= a < expected + 32) -> m' !! a = m !! a.
Proof.
  intros Hb0 Hb He Hap Hk Hkn A1 A2 A3 A4 Hf.
  set (m1 := write_list m block a5s). set (m2 := write_list m1 expected a5s).
  assert (forall t l, cstring_at m t l -> apart block 32 t (length l + 1) -> apart expected 32 t (length l + 1) ->
            cstring_at m2 t l) as Htext by (intros; unfold m2, m1; now repeat apply cstring_kept).
  assert (cstring_at m2 (kernel_text im) text_kernel) as Hk2 by now apply Htext.
  assert (cstring_at m2 (kern_text im) text_kern) as Hkn2 by now apply Htext.
  assert (bytes_at m2 block a5s) as Hblock.
  { intros i x Hi. unfold m2. rewrite write_list_out; [now apply write_list_in|].
    apply lookup_lt_Some in Hi. change (length a5s) with 32%nat in *. unfold apart in Hap. lia. }
  assert (bytes_at m2 expected a5s) as Hexp by (intros i x Hi; now apply write_list_in).
  exists m2. split.
  2:{ intros a H1 H2. unfold m2, m1. change (length a5s) with 32%nat.
      rewrite !write_list_out by (change (length a5s) with 32%nat; lia). reflexivity. }
  unfold kernel_runtime_self_test, api at 1, access. cbn [bind exec].
  change (heap_bus block (m, None) (Api "heap_validate" [])) with (Some (1, (m, @None Z))). cbv iota.
  change (kassert (negb (1 =? 0)) _) with (Ret (E := bus) tt). cbn [bind]. unfold api at 1, access. cbn [bind exec].
  change (heap_bus block (m, None) (Api "heap_alloc" [32])) with (Some (block, (m, Some block))). cbv iota.
  unfold kassert at 1. rewrite (proj2 (Z.eqb_neq _ _) Hb0). cbn [negb bind].
  rewrite (heap_seq _ _ _ _ _ _ _ (memset_correct m block 0xA5 32 Hb)). change (replicate 32 (u8 0xA5)) with a5s. fold m1.
  rewrite (heap_seq _ _ _ _ _ _ _ (memset_correct m1 expected 0xA5 32 (mapped_kept m block a5s expected 32 He))).
  change (replicate 32 (u8 0xA5)) with a5s. fold m2.
  assert (exec byte_ram (memcmp block expected 32) m2 = (Done 0, m2)) as Hcmp.
  { unfold memcmp. rewrite exec_bind. change (Z.to_nat 32) with (length a5s).
    rewrite (memcmp_loop m2 block expected a5s a5s 0) by (rewrite ?Z.add_0_r; (assumption || reflexivity)). reflexivity. }
  rewrite (heap_seq _ _ _ _ _ _ _ Hcmp). change (kassert (0 =? 0) _) with (Ret (E := bus) tt). cbn [bind].
  assert (exec byte_ram (strlen fuel (kernel_text im)) m2 = (Done 6, m2)) as Hlen.
  { unfold strlen. rewrite (strlen_loop_ok m2 (kernel_text im) text_kernel fuel 0); [reflexivity|now rewrite Z.add_0_r|cbn; lia|lia|cbn; lia]. }
  rewrite (heap_seq _ _ _ _ _ _ _ Hlen). change (kassert (6 =? 6) _) with (Ret (E := bus) tt). cbn [bind].
  rewrite (heap_seq _ _ _ _ _ _ _ (strcmp_loop m2 _ _ text_kernel text_kernel fuel Hk2 Hk2 ltac:(cbn; lia))).
  change (kassert (diff _ _ =? 0) _) with (Ret (E := bus) tt). cbn [bind].
  assert (exec byte_ram (strncmp (kernel_text im) (kern_text im) 4) m2 = (Done 0, m2)) as Hn.
  { destruct (strncmp_loop m2 (kernel_text im) (kern_text im) 4 text_kernel text_kern 0) as (r & Hr & Er);
      [now rewrite Z.add_0_r..|]. unfold strncmp. rewrite exec_bind. change (Z.to_nat 4) with 4%nat. rewrite Hr.
    cbn [then_ exec]. now rewrite Er. }
  rewrite (heap_seq _ _ _ _ _ _ _ Hn). change (kassert (0 =? 0) _) with (Ret (E := bus) tt). cbn [bind].
  unfold api at 1, access. cbn [bind exec]. unfold heap_bus at 1. rewrite bool_decide_true by reflexivity.
  cbn [andb]. reflexivity.
Qed.
End KERNEL.

(** A machine for the self-test: the literals at 100 and 110, the block at 1000 and the
    array at 2000. *)
Definition test_image : image := Build_image 0 0 0 0 0 0 0 0 0 0 0 0 100 110.
Definition test_ram : gmap Z Z :=
  write_list (write_list (write_list (write_list ∅ 100 (text_kernel ++ [0])) 110 (text_kern ++ [0]))
    1000 (replicate 32 0)) 2000 (replicate 32 0).

Lemma mapped_written m a l : mapped (write_list m a l) a (length l).
Proof.
  intros i Hi. destruct (lookup_lt_is_Some_2 l i Hi) as [x Hx]. exists x. now apply write_list_in.
Qed.

Lemma self_test_passes_witness :
  exists m', exec (heap_bus 1000) (kernel_runtime_self_test 7 test_image 2000) (test_ram, None) = (Done tt, (m', None)) /\
    forall a, ~ (1000 <= a < 1032) -> ~ (2000 <= a < 2032) -> m' !! a = test_ram !! a.
Proof.
  apply (self_test_passes 7 test_image 1000 2000 test_ram); try (unfold apart; cbn; lia).
  - apply mapped_kept, (mapped_written _ 1000 (replicate 32 0)).
  - apply (mapped_written _ 2000 (replicate 32 0)).
  - split; [|repeat (constructor; [split; [discriminate|ulia]|]); constructor].
    apply (cstring_kept _ 2000 32 100 text_kernel 0); [|unfold apart; cbn; lia].
    apply cstring_kept; [|unfold apart; cbn; lia]. split.
    + intros i x Hi. rewrite write_list_out; [now apply write_list_in|].
      apply lookup_lt_Some in Hi. cbn in Hi |- *. lia.
    + repeat (constructor; [split; [discriminate|ulia]|]). constructor.
  - apply (cstring_kept _ 2000 32 110 text_kern 0); [|unfold apart; cbn; lia].
    apply cstring_kept; [|unfold apart; cbn; lia]. split; [intros i x Hi; now apply write_list_in|].
    repeat (constructor; [split; [discriminate|ulia]|]). constructor.
Defined.
